(* ===== verification/_CoqProject ===== *)
-Q . S2P
Prelude.v
PyData.v
PyText.v
Codec.v
Carrier.v
Config.v
Filter.v
Sampling.v
TraceData.v
Trace.v
TraceInv.v
TraceSpec.v
TraceProps.v
TraceRefine.v
TracePropagation.v
Wire.v
ReporterLog.v
Report.v
Agent.v
AgentProps.v
GrpcChannel.v
Profile.v
ProfileProps.v
ProfileConc.v
Command.v
Meter.v
Scenarios.v
TlsPem.v
Tls.v
TlsProps.v
TlsTemp.v
ReportAsync.v
AgentAsync.v
AgentAsyncProps.v
PluginBase.v
PluginHttp.v
PluginHop.v
PluginDb.v
PluginMq.v
PluginMqProps.v
PluginRuns.v
PluginGrpc.v
PluginSanic.v
PluginProps.v
PluginInstall.v
LogReport.v
SelfLog.v
Bootstrap.v
BootstrapProps.v
ChannelBuild.v
Clients.v
AioServices.v
Greenlet.v
ProcessMetrics.v
PluginProxy.v
CommandQuery.v
MeterSugar.v
MeterServices.v
PluginMqHop.v
ProfileThread.v
AgentHooks.v
PluginPatch.v
Restart.v
DocGen.v
PluginMatrix.v
CodeGen.v
