(* ===== verification/Prelude.v ===== *)
(** * SkyWalking Python agent: a verification development

    The agent (src/skywalking) lives inside a host Python process.  Plugins and
    decorators open and close spans around calls of the application; the spans of one
    unit of work form a segment, which is queued when its last span stops; reporter
    threads send segments, logs, meters and profile snapshots to a collector over gRPC,
    HTTP or Kafka; the collector can ask for thread profiles by commands.  This
    development models these parts as executable functions and proves what makes them
    correct.

    ** Parts of the program and where they are modelled

    Python itself: PyData.v (dict, list.remove, queue.Queue with its unfinished tasks,
    bounded deque), PyText.v (str operations, int(), str()), Codec.v (UTF-8 and base64 as
    used by utils/lang.py).  This file: exceptions, the state-and-error monad, Hoare
    triples, interleavings of threads that take turns, tactics.

    Tracing.  Carrier.v: trace/carrier.py, SegmentRef.  Config.v: config.py (options from
    the environment, finalizers, the ignore-path matcher).  Filter.v: utils/filter.py.
    Sampling.v: sampling/.  TraceData.v and Trace.v: trace/context.py, trace/span.py,
    trace/segment.py, trace/snapshot.py, trace/tags.py, decorators.py.  The state is a heap
    ([World]): spans, contexts, correlation dicts and active-span lists are objects with a
    location, because the code shares them; each thread or task has its own binding of
    the context variable, copied (not deep-copied) when a task is created.  The tracer is
    written against two interfaces, [AgentOps] and [ProfileOps]; Agent.v and Profile.v
    implement them.  TraceInv.v and TraceSpec.v hold the invariant of the heap and one
    specification per operation, TraceProps.v and TracePropagation.v the theorems,
    TraceRefine.v an abstract tracer (spans with a depth, one stack per task, the segments
    handed over) with the proof that the heap program refines it, Scenarios.v concrete executions with the real agent and profiler.

    Reporting.  Wire.v: the SegmentObject each reporter builds.  ReporterLog.v:
    utils/reporter_log.py.  Report.v: the batching generators, READY gate, heartbeats and
    error handling of agent/protocol/grpc.py, http.py and kafka.py (class [Protocol] with
    its laws), the throttles of utils/grpc_channel.py, the Kafka options of
    client/kafka.py.  GrpcChannel.v: the address handling of utils/grpc_channel.py.
    ChannelBuild.v: the rest of it (scope flag, options, construction, state of a channel)
    with agent/protocol/interceptors*.py.  Clients.v: client/ (instance properties, class
    [ServiceManagement] with the refresh every client inherits, the records, calls and
    posts).  CommandQuery.v: the query for profile tasks, composed with the command and
    profile services.
    Agent.v: the threaded SkyWalkingAgent of agent/__init__.py (lifecycle, fork hooks,
    queues, reporter rounds, backoff, shutdown), AgentProps.v its theorems.  AgentHooks.v: the
    bounded waits of the shutdown, [start] under gevent, and the profile coroutines and
    notifications of the asyncio agent.  Restart.v: what a second [start] does to a process that
    is already instrumented.

    The asyncio agent.  ReportAsync.v: agent/protocol/*_aio.py and the clients they call
    (class [ProtocolAsync] with its laws).  AgentAsync.v: SkyWalkingAgentAsync of
    agent/__init__.py (event loop, background tasks and their supervisor, callbacks from
    other threads, shutdown), AgentAsyncProps.v its theorems.  AioServices.v: the asyncio
    command, meter and sampling services, the backoff coroutine and the heartbeat loops.

    Starting.  Bootstrap.v: bootstrap/ (the run command up to execvp, the loader
    sitecustomize.py in the new process, pre-forking servers and their hooks), over a process
    with its environment, sys.path and agent; BootstrapProps.v its theorems.  SelfLog.v:
    loggings.py, log/formatter.py and config.init.

    TLS.  TlsPem.v: the PEM handling of utils/tls.py (extraction of CA blocks, PKCS#1 to
    PKCS#8).  Tls.v: the rest of utils/tls.py over a store of files, descriptors and
    caches, and the sessions of client/http.py and client/http_aio.py; TlsProps.v and
    TlsTemp.v its theorems.

    Plugins.  PluginBase.v: what the wrappers share (opening spans, header objects, the
    method matchers of config.py, sw_urlparse) and the notion of a calm program, one that
    leaves spans and lists of active spans as they were.  PluginHttp.v, PluginDb.v,
    PluginMq.v, PluginGrpc.v and PluginSanic.v: one definition per wrapper function of
    plugins/sw_*.py, with the library's own function as an argument; PluginHop.v,
    PluginMqHop.v, PluginMqProps.v and PluginProps.v theorems on them, PluginRuns.v concrete runs.
    PluginProxy.v: the proxies of connections, cursors, producers and consumers, and which
    functions of a request handler are wrapped.  PluginInstall.v:
    plugins/__init__.py and utils/comparator.py.  PluginPatch.v: the install function of every
    plugin and of the log reporter as a program of imports, reads and assignments of attributes
    (an attribute is the pair of class and name the source writes; of classes that inherit
    from each other each is an attribute of its own), run by the loop of plugins/__init__.py.
    PluginMatrix.v: the tables of supported versions.  LogReport.v: log/sw_logging.py and
    plugins/sw_loguru.py.

    Profiling and commands.  Profile.v: profile/ and the atomic helpers of utils/,
    ProfileProps.v its theorems, ProfileConc.v the same operations as interleavings of
    atomic steps, ProfileThread.v the profiling thread with its stop event and sleeps,
    Greenlet.v the profiler of greenlets.  Command.v: command/.  Meter.v: meter/,
    MeterSugar.v its timers and decorators, MeterServices.v the services of a process over
    starts, restarts and forks, ProcessMetrics.v meter/pvm/.

    Tools.  DocGen.v: tools/config_doc_gen.py and tools/plugin_doc_gen.py (the tables of options
    and plugins), CodeGen.v: tools/grpc_code_gen.py (the packages around generated modules).

    ** What the theorems show

    C1-C5: the span tree of every execution is consistent (counters, one archive per
    segment, ids, isolation of tasks, context managers).  C6: the tracer refines an abstract
    one.  C7-C11: propagation over processes and threads, through the carrier, an HTTP
    request, a gRPC call and a message of RabbitMQ.  C12-C14: the wrappers of the plugins leave
    the tracer as they found it, however the wrapped call ends.  C15: installing the plugins
    wraps every function at most once, around its own original.  C16, C17: logs are attached to
    the span they were written in; after a restart each is sent twice.  C18, C19: gRPC reports
    lose nothing silently.  C20, C21, C40: lifecycle, bounded queues and shutdown of the
    threaded agent; C22-C24: the same for the asyncio agent.  C25: an instance is registered
    before it is reported alive.  C26: the agent's own channel is never traced and its
    construction leaves no trace behind.  C27, C28: from the command line to a running agent,
    also in the workers of Gunicorn.  C29, C30: the decision for TLS and its fallbacks never
    widen trust; C31, C32: temporary files; C33, C34: PEM handling.  C35: profiling slots under
    concurrency.  C36: profile tasks reach the profiler once.  C37: collector addresses.
    C38, C39: Kafka headers and reference types over HTTP, where the code differs from what it
    means to do.  Theorems without a number state further facts of the same parts: sampling
    windows, correlation limits, suppressed traces, ignored methods, address round trips, CA
    bundles, histograms, registration over Kafka, the cache of executed commands, the window
    before the asyncio agent's loop runs, which plugins are installed, equivalence of the asyncio
    services with the threaded ones and where they differ, overlapping greenlet profilers, the end
    of the profiling thread, nested runs of the command line, one span per statement through
    the proxies, decorators of meters, which meters a process reports, the rows of the
    generated documentation.

    ** Conventions, bounds and parameters

    A string is a list of code points, an integer is unbounded (as in Python), a time is
    an integer (microseconds or milliseconds, said at each use).  Third-party behaviour is
    a parameter or an input: uuid1, time, getaddrinfo, the outcome of an RPC, the readings
    of a clock during a batch, the stack of a profiled thread.  Loops over data are
    structural; the few fuelled ones (decimal digits, bucket search, queue drain, command
    dispatch, the batch generator's list of pulls, the scans of a CA file, the write loop of
    a temporary file, the walk over a tree of processes) have lemmas or theorems that the fuel
    used is enough.  An exception is a value of [res]; state changed before it stays
    changed.

    ** Not modelled

    Log lines of the agent itself, the parsing by argparse, uvloop, thread names and daemon
    flags, annotations, the abstract base classes whose methods only raise.  Third-party
    libraries (the instrumented ones, grpc, aiohttp, aiokafka, psutil, packaging, protoc) are
    arguments or inputs everywhere.  The tests, the demo programs and the generated protocol
    modules are not part of the agent.  Values of meters are integers: Python's floats are
    not modelled. *)

From Stdlib Require Export ZArith Lia.
From stdpp Require Export base strings fin_maps numbers gmap list.

(** ** Scope, hint database and rewriting base of the development *)

Declare Scope py_scope.
Delimit Scope py_scope with py.
#[global] Open Scope Z_scope.

Create HintDb py.
#[export] Hint Extern 1 (_ <= _) => lia : py.
#[export] Hint Extern 1 (_ < _) => lia : py.

(** ** Python exceptions and the state-and-error monad

    An operation of the agent is a function of the state it mutates.  The
    state survives an exception, as Python's does: [M S A] returns the new
    state together with a value or the exception that escaped. *)

Inductive exn :=
| ValueError
| KeyError
| IndexError
| TypeError
| AttributeError
| NotImplementedError
| RuntimeError
| IllegalStateError
| UnsupportedCommandException
| VersionRuleException
| OSError
| ImportError
| SWRunnerFailure
| CancelledError
| GeneratorExit
| OtherException.

#[export] Instance exn_eq_dec : EqDecision exn.
Proof. solve_decision. Defined.

(** [isinstance(e, Exception)]: a cancellation and the closing of a generator are only
    [BaseException]s. *)
Definition is_Exception (e : exn) : bool :=
  match e with CancelledError | GeneratorExit => false | _ => true end.

Inductive res (A : Type) :=
| Ok (a : A)
| Raise (e : exn).
Arguments Ok {A} a.
Arguments Raise {A} e.

#[export] Instance res_eq_dec `{EqDecision A} : EqDecision (res A).
Proof. solve_decision. Defined.

#[export] Instance res_ret : MRet res := fun A a => Ok a.
#[export] Instance res_bind : MBind res := fun A B f m =>
  match m with Ok a => f a | Raise e => Raise e end.

Definition M (S A : Type) : Type := S -> S * res A.

#[export] Instance M_ret S : MRet (M S) := fun A a s => (s, Ok a).
#[export] Instance M_bind S : MBind (M S) := fun A B f m s =>
  match m s with
  | (s', Ok a) => f a s'
  | (s', Raise e) => (s', Raise e)
  end.

Definition raise {S A} (e : exn) : M S A := fun s => (s, Raise e).
Definition get_st {S} : M S S := fun s => (s, Ok s).
Definition gets {S A} (f : S -> A) : M S A := fun s => (s, Ok (f s)).
Definition modify {S} (f : S -> S) : M S unit := fun s => (f s, Ok tt).
Definition lift {S A} (r : res A) : M S A := fun s => (s, r).

(** [try m except: h]: [h] sees the exception and the state [m] left. *)
Definition try_except {S A} (m : M S A) (h : exn -> M S A) : M S A := fun s =>
  match m s with
  | (s', Ok a) => (s', Ok a)
  | (s', Raise e) => h e s'
  end.

(** [for x in l: body x]. *)
Fixpoint for_each {S A} (l : list A) (body : A -> M S unit) : M S unit :=
  match l with
  | [] => mret tt
  | x :: l' => _ ← body x; for_each l' body
  end.

Lemma bind_ok {S A B} (m : M S A) (f : A -> M S B) s s' a :
  m s = (s', Ok a) -> (m ≫= f) s = f a s'.
Proof. intros H. unfold mbind, M_bind. by rewrite H. Qed.

Lemma bind_raise {S A B} (m : M S A) (f : A -> M S B) s s' e :
  m s = (s', Raise e) -> (m ≫= f) s = (s', Raise e).
Proof. intros H. unfold mbind, M_bind. by rewrite H. Qed.

(** Invert a bind that returned normally. *)
Lemma bind_inv {S A B} (m : M S A) (f : A -> M S B) s s'' (b : B) :
  (m ≫= f) s = (s'', Ok b) -> ∃ s' a, m s = (s', Ok a) ∧ f a s' = (s'', Ok b).
Proof.
  unfold mbind, M_bind. destruct (m s) as [s' [a|e]]; naive_solver.
Qed.

(** An invariant of the state that every step of a computation keeps. *)
Definition preserves {S A} (I : S -> Prop) (m : M S A) : Prop :=
  ∀ s, I s -> I (m s).1.

Section preserves.
Context {S : Type} (I : S -> Prop).

Lemma preserves_ret {A} (a : A) : preserves I (mret a).
Proof. by intros s. Qed.

Lemma preserves_raise {A} (e : exn) : preserves I (raise (A := A) e).
Proof. by intros s. Qed.

Lemma preserves_gets {A} (f : S -> A) : preserves I (gets f).
Proof. by intros s. Qed.

Lemma preserves_lift {A} (r : res A) : preserves I (lift r).
Proof. by intros s. Qed.

Lemma preserves_modify (f : S -> S) : (∀ s, I s -> I (f s)) -> preserves I (modify f).
Proof. intros H s. apply H. Qed.

Lemma preserves_bind {A B} (m : M S A) (f : A -> M S B) :
  preserves I m -> (∀ a, preserves I (f a)) -> preserves I (m ≫= f).
Proof.
  intros Hm Hf s Hs. unfold mbind, M_bind. specialize (Hm s Hs).
  destruct (m s) as [s' [a|e]]; cbn in *; [by apply Hf | done].
Qed.

Lemma preserves_try {A} (m : M S A) (h : exn -> M S A) :
  preserves I m -> (∀ e, preserves I (h e)) -> preserves I (try_except m h).
Proof.
  intros Hm Hh s Hs. unfold try_except. specialize (Hm s Hs).
  destruct (m s) as [s' [a|e]]; cbn in *; [done | by apply Hh].
Qed.

Lemma preserves_for {A} (l : list A) (body : A -> M S unit) :
  (∀ x, x ∈ l -> preserves I (body x)) -> preserves I (for_each l body).
Proof.
  induction l as [|x l IH]; intros H; cbn; [apply preserves_ret|].
  apply preserves_bind; [apply H; set_solver | intros _; apply IH; set_solver].
Qed.
End preserves.

#[export] Hint Resolve preserves_ret preserves_raise preserves_gets preserves_lift
  preserves_bind preserves_try preserves_modify preserves_for : py.

(** ** Hoare triples

    [hoare P m Q E]: from a state satisfying [P], [m] either returns [a] in a
    state satisfying [Q a] or raises [e] in a state satisfying [E e]. *)
Definition hoare {S A} (P : S -> Prop) (m : M S A) (Q : A -> S -> Prop)
  (E : exn -> S -> Prop) : Prop :=
  ∀ s, P s -> match m s with
              | (s', Ok a) => Q a s'
              | (s', Raise e) => E e s'
              end.

Section hoare.
Context {S : Type}.
Implicit Types (P : S -> Prop) (E : exn -> S -> Prop).

Lemma hoare_ret {A} P (a : A) (Q : A -> S -> Prop) E :
  (∀ s, P s -> Q a s) -> hoare P (mret a) Q E.
Proof. intros H s. apply H. Qed.

Lemma hoare_raise {A} P e (Q : A -> S -> Prop) E :
  (∀ s, P s -> E e s) -> hoare P (raise e) Q E.
Proof. intros H s. apply H. Qed.

Lemma hoare_gets {A} P (f : S -> A) (Q : A -> S -> Prop) E :
  (∀ s, P s -> Q (f s) s) -> hoare P (gets f) Q E.
Proof. intros H s. apply H. Qed.

Lemma hoare_modify P (f : S -> S) (Q : unit -> S -> Prop) E :
  (∀ s, P s -> Q tt (f s)) -> hoare P (modify f) Q E.
Proof. intros H s. apply H. Qed.

Lemma hoare_lift {A} P (r : res A) (Q : A -> S -> Prop) E :
  (∀ s, P s -> match r with Ok a => Q a s | Raise e => E e s end) -> hoare P (lift r) Q E.
Proof. intros H s. apply H. Qed.

Lemma hoare_bind {A B} P (m : M S A) (f : A -> M S B) (Q : A -> S -> Prop)
  (R : B -> S -> Prop) E :
  hoare P m Q E -> (∀ a, hoare (Q a) (f a) R E) -> hoare P (m ≫= f) R E.
Proof.
  intros Hm Hf s Hs. unfold mbind, M_bind. specialize (Hm s Hs).
  destruct (m s) as [s' [a|e]]; [by apply Hf | done].
Qed.

Lemma hoare_conseq {A} P P' (m : M S A) (Q Q' : A -> S -> Prop) E E' :
  hoare P' m Q' E' -> (∀ s, P s -> P' s) -> (∀ a s, Q' a s -> Q a s) ->
  (∀ e s, E' e s -> E e s) -> hoare P m Q E.
Proof.
  intros Hm HP HQ HE s Hs. specialize (Hm s (HP s Hs)).
  destruct (m s) as [s' [a|e]]; auto.
Qed.

(** Strengthen the state in which a triple is used to the one at hand. *)
Lemma hoare_intro {A} P (m : M S A) (Q : A -> S -> Prop) E :
  (∀ s0, P s0 -> hoare (fun s => s = s0) m Q E) -> hoare P m Q E.
Proof. intros H s Hs. by apply (H s Hs). Qed.

Lemma hoare_try {A} P (m : M S A) (h : exn -> M S A) (Q : A -> S -> Prop) E E' :
  hoare P m Q E' -> (∀ e, hoare (E' e) (h e) Q E) -> hoare P (try_except m h) Q E.
Proof.
  intros Hm Hh s Hs. unfold try_except. specialize (Hm s Hs).
  destruct (m s) as [s' [a|e]]; [done | by apply Hh].
Qed.

Lemma hoare_for {A} P (l : list A) (body : A -> M S unit) E :
  (∀ x, hoare P (body x) (fun _ => P) E) -> hoare P (for_each l body) (fun _ => P) E.
Proof.
  intros H. induction l as [|x l IH]; cbn; [by apply hoare_ret|].
  eapply hoare_bind; [apply H | intros ?; apply IH].
Qed.

(** Read a triple at a run. *)
Lemma hoare_ok {A} P (m : M S A) (Q : A -> S -> Prop) E s s' a :
  hoare P m Q E -> P s -> m s = (s', Ok a) -> Q a s'.
Proof. intros H Hs Hm. specialize (H s Hs). by rewrite Hm in H. Qed.

Lemma hoare_run {A} P (m : M S A) (I : S -> Prop) s :
  hoare P m (fun _ => I) (fun _ => I) -> P s -> I (m s).1.
Proof. intros H Hs. specialize (H s Hs). by destruct (m s) as [s' [a|e]]. Qed.
End hoare.

(** ** Tactics *)

(** Split the [match]es and [if]s of the goal and hypotheses, keep the equations. *)
Ltac split_matches :=
  repeat (case_match || case_decide); simplify_eq/=.

(** Reduce the monad's combinators. *)
Ltac unfold_m :=
  unfold mbind, M_bind, mret, M_ret, raise, get_st, gets, modify, lift, try_except in *;
  cbn in *.

(** Step through a monadic equation in the hypothesis [H]. *)
Ltac inv_bind H :=
  let s' := fresh "s" in let a := fresh "a" in let H1 := fresh "Hb" in
  apply bind_inv in H as (s' & a & H1 & H).

Ltac bool_simpl :=
  repeat match goal with
  | H : (_ && _) = true |- _ => apply andb_true_iff in H as [? ?]
  | H : (_ || _) = false |- _ => apply orb_false_iff in H as [? ?]
  | H : negb _ = true |- _ => apply negb_true_iff in H
  | H : negb _ = false |- _ => apply negb_false_iff in H
  | H : bool_decide _ = true |- _ => apply bool_decide_eq_true_1 in H
  | H : bool_decide _ = false |- _ => apply bool_decide_eq_false_1 in H
  end.

(** ** Interleavings

    Threads or coroutines that run the same small program: a state they share, a program
    counter each, and a schedule that names whose turn it is. *)
Section schedules.
Context {S P : Type} (turn : S -> P -> S * P).

Fixpoint run_turns (sched : list nat) (s : S) (pcs : list P) : S * list P :=
  match sched with
  | [] => (s, pcs)
  | i :: sched' =>
      match pcs !! i with
      | Some pc => let (s', pc') := turn s pc in run_turns sched' s' (<[i := pc']> pcs)
      | None => run_turns sched' s pcs
      end
  end.

(** [k] turns of one thread. *)
Fixpoint turns (k : nat) (s : S) (pc : P) : S * P :=
  match k with O => (s, pc) | Datatypes.S k' => let (s', pc') := turn s pc in turns k' s' pc' end.

Lemma run_turns_burst k i sched : ∀ s pcs pc,
  pcs !! i = Some pc ->
  run_turns (replicate k i ++ sched) s pcs =
    run_turns sched (turns k s pc).1 (<[i := (turns k s pc).2]> pcs).
Proof.
  induction k as [|k IH]; intros s pcs pc Hi; cbn [replicate app run_turns turns fst snd].
  - by rewrite list_insert_id.
  - rewrite Hi. destruct (turn s pc) as [s' pc']. rewrite (IH s' _ pc').
    + by rewrite list_insert_insert_eq.
    + apply list_lookup_insert_eq. by eapply lookup_lt_Some.
Qed.

(** [m] threads at the same point take [k] turns each, one after the other. *)
Lemma run_turns_phase (I : S -> Prop) (f : S -> S) k a b m : ∀ s,
  (∀ s, I s -> turns k s a = (f s, b) ∧ I (f s)) -> I s ->
  run_turns (seq 0 m ≫= replicate k) s (replicate m a) = (Nat.iter m f s, replicate m b) ∧
  I (Nat.iter m f s).
Proof.
  intros s Hf Hs.
  assert (∀ n j s, I s ->
    run_turns (seq j n ≫= replicate k) s (replicate j b ++ replicate n a) =
      (Nat.iter n f s, replicate (j + n) b) ∧ I (Nat.iter n f s)) as H; [|by apply (H m 0%nat)].
  induction n as [|n IH]; intros j s1 Hs1.
  - cbn. by rewrite app_nil_r, Nat.add_0_r.
  - change (seq j (Datatypes.S n) ≫= replicate k) with (replicate k j ++ (seq (Datatypes.S j) n ≫= replicate k)).
    rewrite (run_turns_burst _ _ _ _ _ a).
    + destruct (Hf s1 Hs1) as [-> Hs2]. cbn [fst snd]. destruct (IH (Datatypes.S j) (f s1) Hs2) as [E Hi].
      rewrite insert_app_r_alt by (by rewrite length_replicate). rewrite length_replicate, Nat.sub_diag.
      cbn [replicate insert list_insert]. rewrite (replicate_S_end j), <- app_assoc in E. cbn [app] in E.
      rewrite E. rewrite <- Nat.iter_succ_r. rewrite <- Nat.iter_succ_r in Hi. by rewrite Nat.add_succ_r.
    + rewrite lookup_app_r by (by rewrite length_replicate). by rewrite length_replicate, Nat.sub_diag.
Qed.

(** A phase of one turn each. *)
Lemma run_turns_round (I : S -> Prop) (f : S -> S) a b m s :
  (∀ s, I s -> turn s a = (f s, b) ∧ I (f s)) -> I s ->
  run_turns (seq 0 m) s (replicate m a) = (Nat.iter m f s, replicate m b) ∧ I (Nat.iter m f s).
Proof.
  intros Hf Hs. assert (∀ l : list nat, l ≫= replicate 1 = l) as Hl by (induction l; cbn in *; congruence).
  rewrite <- (Hl (seq 0 m)). apply run_turns_phase; [|done]. intros s1 Hs1. cbn.
  destruct (Hf s1 Hs1) as [-> ?]. done.
Qed.

Lemma run_turns_app sched1 sched2 : ∀ s pcs,
  run_turns (sched1 ++ sched2) s pcs =
    run_turns sched2 (run_turns sched1 s pcs).1 (run_turns sched1 s pcs).2.
Proof.
  induction sched1 as [|i sched1 IH]; intros s pcs; [done|]. cbn [app run_turns].
  destruct (pcs !! i) as [pc|]; [|apply IH]. destruct (turn s pc). apply IH.
Qed.
End schedules.
