(* ===== verification/PyData.v ===== *)
(** * Python containers

    The built-in containers the agent relies on, with the behaviour the code
    observes: [dict] keeps insertion order ([items()] drives the correlation
    header), [list.remove] drops the first equal element or raises
    [ValueError], [queue.Queue] counts unfinished tasks and refuses items past
    [maxsize], [collections.deque] with [maxlen] discards from the other end. *)

From S2P Require Import Prelude.

(** ** dict *)

Module Dict.
Section dict.
Context {K V : Type} `{EqDecision K}.
Implicit Types (d : list (K * V)) (k : K) (v : V).

(** [d.get(k)] *)
Fixpoint get k d : option V :=
  match d with
  | [] => None
  | (k', v) :: d' => if decide (k = k') then Some v else get k d'
  end.

(** [d[k] = v]: an existing key keeps its position, a new one goes last. *)
Fixpoint set k v d : list (K * V) :=
  match d with
  | [] => [(k, v)]
  | (k', v') :: d' => if decide (k = k') then (k, v) :: d' else (k', v') :: set k v d'
  end.

(** [d.pop(k, default)] on the dict's side. *)
Fixpoint pop k d : list (K * V) :=
  match d with
  | [] => []
  | (k', v') :: d' => if decide (k = k') then d' else (k', v') :: pop k d'
  end.

(** [d.update(d')]: entries of [d'] in order. *)
Definition update d d' : list (K * V) := foldl (fun acc kv => set kv.1 kv.2 acc) d d'.

Definition keys d : list K := d.*1.
Definition values d : list V := d.*2.

(** The invariant of a dict: keys are distinct. *)
Definition wf d : Prop := NoDup (keys d).

Lemma get_set_eq k v d : get k (set k v d) = Some v.
Proof.
  induction d as [|[k' v'] d IH]; cbn; [by rewrite decide_True|].
  case_decide as E; cbn; [by rewrite decide_True | by rewrite decide_False].
Qed.

Lemma get_set_ne k k' v d : k ≠ k' -> get k' (set k v d) = get k' d.
Proof.
  intros Hne. induction d as [|[k2 v2] d IH]; cbn; [by rewrite decide_False|].
  case_decide as E; cbn; subst; [by rewrite !decide_False | by rewrite IH].
Qed.

Lemma elem_of_keys k d : k ∈ keys d <-> is_Some (get k d).
Proof.
  unfold keys. induction d as [|[k' v'] d IH]; cbn.
  - split; [set_solver | intros [? ?]; done].
  - rewrite elem_of_cons, IH. case_decide; naive_solver.
Qed.

Lemma get_None k d : get k d = None <-> k ∉ keys d.
Proof. rewrite elem_of_keys. destruct (get k d); naive_solver. Qed.

Lemma keys_set k v d :
  keys (set k v d) = if decide (k ∈ keys d) then keys d else keys d ++ [k].
Proof.
  unfold keys. induction d as [|[k' v'] d IH]; cbn; [done|].
  destruct (decide (k = k')) as [->|Hne].
  - cbn. rewrite decide_True; [done | set_solver].
  - cbn. rewrite IH. repeat case_decide; set_solver.
Qed.

Lemma wf_nil : wf [].
Proof. constructor. Qed.

Lemma wf_set k v d : wf d -> wf (set k v d).
Proof.
  unfold wf. rewrite keys_set. case_decide; [done|].
  intros. apply NoDup_app; repeat split; [done| |apply NoDup_singleton]. set_solver.
Qed.

Lemma length_set k v d :
  length (set k v d) = if decide (k ∈ keys d) then length d else S (length d).
Proof.
  pose proof (f_equal length (keys_set k v d)) as H. unfold keys in *.
  rewrite length_fmap in H. rewrite H.
  case_decide; rewrite ?length_app, length_fmap; cbn; lia.
Qed.

Lemma length_set_le k v d : (length (set k v d) <= S (length d))%nat.
Proof. rewrite length_set. case_decide; lia. Qed.

Lemma pop_sublist k d : sublist (pop k d) d.
Proof.
  induction d as [|[k' v'] d IH]; cbn; [constructor|].
  case_decide; by constructor.
Qed.

Lemma wf_pop k d : wf d -> wf (pop k d).
Proof.
  unfold wf, keys. intros. eapply sublist_NoDup; [done|].
  apply fmap_sublist, pop_sublist.
Qed.

Lemma length_pop_le k d : (length (pop k d) <= length d)%nat.
Proof. apply sublist_length, pop_sublist. Qed.

Lemma get_pop_ne k k' d : k ≠ k' -> get k' (pop k d) = get k' d.
Proof.
  intros Hne. induction d as [|[k2 v2] d IH]; cbn; [done|].
  destruct (decide (k = k2)) as [->|]; cbn; [by rewrite decide_False | by rewrite IH].
Qed.

Lemma get_pop_eq k d : wf d -> get k (pop k d) = None.
Proof.
  unfold wf, keys. induction d as [|[k2 v2] d IH]; cbn; [done|].
  intros [Hn Hd]%NoDup_cons. destruct (decide (k = k2)) as [->|].
  - by apply get_None.
  - cbn. by rewrite decide_False, IH.
Qed.

Lemma wf_update d d' : wf d -> wf (update d d').
Proof.
  revert d. induction d' as [|[k v] d' IH]; intros d Hd; cbn; [done|].
  by apply IH, wf_set.
Qed.

(** [update] gives precedence to its argument. *)
Lemma get_update k d d' :
  wf d' -> get k (update d d') = match get k d' with Some v => Some v | None => get k d end.
Proof.
  unfold wf, keys. revert d. induction d' as [|[k' v'] d' IH]; intros d; cbn; [done|].
  intros [Hn Hd]%NoDup_cons. rewrite IH by done.
  destruct (decide (k = k')) as [->|].
  - rewrite (proj2 (get_None k' d')) by done. by rewrite get_set_eq.
  - destruct (get k d') eqn:E; [done|]. by rewrite get_set_ne.
Qed.

Lemma set_app_fresh k v d : k ∉ keys d -> set k v d = d ++ [(k, v)].
Proof.
  unfold keys. induction d as [|[k' v'] d IH]; cbn; [done|].
  intros Hn. rewrite decide_False by set_solver. rewrite IH; [done|set_solver].
Qed.

(** Rebuilding a dict from its own items gives it back, order included. *)
Lemma update_nil d : wf d -> update [] d = d.
Proof.
  intros Hd. unfold update.
  assert (∀ acc, NoDup (keys (acc ++ d)) ->
    foldl (fun acc kv => set kv.1 kv.2 acc) acc d = acc ++ d) as H.
  { clear. induction d as [|[k v] d IH]; intros acc Hn; cbn; [by rewrite app_nil_r|].
    rewrite set_app_fresh.
    - rewrite IH; [by rewrite <- app_assoc|]. by rewrite <- app_assoc.
    - unfold keys in *. rewrite fmap_app in Hn. apply NoDup_app in Hn as (_ & Hn & _).
      intros Hk. apply (Hn _ Hk). set_solver. }
  rewrite H; [done|]. done.
Qed.
End dict.
Arguments wf {K V} d.
Arguments keys {K V} d.
Arguments values {K V} d.
End Dict.

#[export] Hint Resolve Dict.wf_nil Dict.wf_set Dict.wf_pop Dict.wf_update : py.

(** ** list.remove *)

Section py_list.
Context {A : Type} `{EqDecision A}.

(** [l.remove(x)]; the second component says whether the [ValueError] of an
    absent element is avoided. *)
Fixpoint list_remove_first (x : A) (l : list A) : option (list A) :=
  match l with
  | [] => None
  | y :: l' => if decide (x = y) then Some l' else cons y <$> list_remove_first x l'
  end.

Lemma remove_first_snoc x l : x ∉ l -> list_remove_first x (l ++ [x]) = Some l.
Proof.
  induction l as [|y l IH]; cbn; intros Hn; [by rewrite decide_True|].
  rewrite decide_False by set_solver. rewrite IH; [done|set_solver].
Qed.

Lemma remove_first_None x l : list_remove_first x l = None <-> x ∉ l.
Proof.
  induction l as [|y l IH]; cbn; [set_solver|].
  case_decide; [set_solver|]. rewrite fmap_None, IH. set_solver.
Qed.

Lemma remove_first_sublist x l l' : list_remove_first x l = Some l' -> sublist l' l.
Proof.
  revert l'. induction l as [|y l IH]; cbn; intros l' H; [done|].
  case_decide; simplify_eq; [by apply sublist_cons|].
  apply fmap_Some in H as (k & Hk & ->). apply sublist_skip, IH, Hk.
Qed.
End py_list.

(** ** queue.Queue

    [items] oldest first.  [maxsize <= 0] means unbounded.  [unfinished] is
    [unfinished_tasks]: put increments it, [task_done] decrements it. *)

Module PyQueue.
Section queue.
Context {A : Type}.

Record t := mk { maxsize : Z; items : list A; unfinished : Z }.

Definition empty_queue (maxsize : Z) : t := mk maxsize [] 0.

Definition qsize (q : t) : Z := Z.of_nat (length (items q)).
Definition is_empty (q : t) : bool := bool_decide (items q = []) .
(** [0 < maxsize <= qsize] *)
Definition full (q : t) : bool := (0 <? maxsize q) && (maxsize q <=? qsize q).

(** [put(x, block=False)]: [None] is the [Full] exception. *)
Definition put_nowait (x : A) (q : t) : option t :=
  if full q then None
  else Some (mk (maxsize q) (items q ++ [x]) (unfinished q + 1)).

(** [get(block=False)] *)
Definition get_nowait (q : t) : option (A * t) :=
  match items q with
  | [] => None
  | x :: l => Some (x, mk (maxsize q) l (unfinished q))
  end.

(** [task_done()]: [None] is the [ValueError] of too many calls. *)
Definition task_done (q : t) : option t :=
  if unfinished q - 1 <? 0 then None
  else Some (mk (maxsize q) (items q) (unfinished q - 1)).

(** [join()] returns at once when this holds, blocks otherwise. *)
Definition join_ready (q : t) : bool := unfinished q =? 0.

(** The invariant of a queue in use: the bound is respected and every queued
    item is an unfinished task. *)
Definition wf (q : t) : Prop :=
  (0 < maxsize q -> qsize q <= maxsize q) ∧ qsize q <= unfinished q.

(** No consumer is between [get] and [task_done]. *)
Definition balanced (q : t) : Prop := unfinished q = qsize q.

Lemma wf_empty n : wf (empty_queue n).
Proof. unfold wf, qsize; cbn. lia. Qed.

Lemma balanced_empty n : balanced (empty_queue n).
Proof. done. Qed.

Lemma put_spec x q :
  put_nowait x q =
    if decide (0 < maxsize q ∧ maxsize q <= qsize q) then None
    else Some (mk (maxsize q) (items q ++ [x]) (unfinished q + 1)).
Proof. unfold put_nowait, full. case_decide; repeat case_match; done || lia. Qed.

Lemma qsize_put x q q' : put_nowait x q = Some q' -> qsize q' = qsize q + 1.
Proof.
  rewrite put_spec. case_decide; intros; simplify_eq.
  unfold qsize; cbn. rewrite length_app; cbn; lia.
Qed.

Lemma wf_put x q q' : wf q -> put_nowait x q = Some q' -> wf q'.
Proof.
  intros [H1 H2] H. pose proof (qsize_put _ _ _ H). rewrite put_spec in H.
  case_decide; simplify_eq. unfold wf; cbn in *. lia.
Qed.

Lemma balanced_put x q q' : balanced q -> put_nowait x q = Some q' -> balanced q'.
Proof.
  unfold balanced. intros Hb H. pose proof (qsize_put _ _ _ H). rewrite put_spec in H.
  case_decide; simplify_eq; cbn in *. lia.
Qed.

Lemma qsize_get q x q' : get_nowait q = Some (x, q') -> qsize q = qsize q' + 1.
Proof.
  unfold get_nowait, qsize. destruct (items q) eqn:E; intros; simplify_eq; cbn. lia.
Qed.

Lemma wf_get q x q' : wf q -> get_nowait q = Some (x, q') -> wf q'.
Proof.
  unfold wf, qsize, get_nowait. intros [H1 H2] H.
  destruct (items q) eqn:E; simplify_eq; cbn in *. lia.
Qed.

Lemma qsize_nonneg q : 0 <= qsize q.
Proof. unfold qsize. lia. Qed.

(** One [get_nowait(); task_done()] round. *)
Definition get_done (q : t) : option (A * t) :=
  match get_nowait q with
  | None => None
  | Some (x, q1) => match task_done q1 with Some q2 => Some (x, q2) | None => None end
  end.

Lemma get_done_wf q :
  wf q ->
  get_done q = match items q with
               | [] => None
               | x :: l => Some (x, mk (maxsize q) l (unfinished q - 1))
               end.
Proof.
  intros [_ H]. unfold get_done, get_nowait, task_done, qsize in *.
  destruct (items q) as [|x l]; [done|]; cbn in *.
  by rewrite (proj2 (Z.ltb_ge _ _)) by lia.
Qed.

Lemma wf_get_done q x q' : wf q -> get_done q = Some (x, q') -> wf q'.
Proof.
  intros Hq. rewrite get_done_wf by done. destruct Hq as [H1 H2].
  destruct (items q) as [|y l] eqn:E; intros; simplify_eq.
  unfold wf, qsize in *; rewrite E in *; cbn in *. lia.
Qed.
End queue.
Arguments t A : clear implicits.
End PyQueue.

#[export] Hint Resolve PyQueue.wf_empty PyQueue.wf_put PyQueue.wf_get PyQueue.wf_get_done
  PyQueue.balanced_empty PyQueue.balanced_put : py.

(** ** collections.deque(maxlen=n) *)

Section deque.
Context {A : Type}.

(** [append] on a bounded deque drops from the left what exceeds [maxlen]. *)
Definition deque_append (maxlen : nat) (x : A) (q : list A) : list A :=
  let q' := q ++ [x] in drop (length q' - maxlen)%nat q'.

Lemma length_deque_append n x q :
  (length q <= n)%nat -> (length (deque_append n x q) <= n)%nat.
Proof. unfold deque_append. intros. rewrite length_drop, length_app; cbn. lia. Qed.

Lemma deque_append_below n x q :
  (length q < n)%nat -> deque_append n x q = q ++ [x].
Proof.
  intros. unfold deque_append. rewrite length_app; cbn.
  replace (length q + 1 - n)%nat with 0%nat by lia. done.
Qed.

Lemma deque_append_full n x y q :
  length (y :: q) = n -> deque_append n x (y :: q) = q ++ [x].
Proof.
  intros <-. unfold deque_append. rewrite length_app.
  replace (length (y :: q) + length [x] - length (y :: q))%nat with 1%nat by (cbn; lia).
  done.
Qed.
End deque.
