(* ===== verification/PyText.v ===== *)
(** * Python text

    [str] is a sequence of Unicode code points.  This file models the methods
    of [str] the agent calls ([split], [join], [strip], [find], [count],
    [isnumeric], [isspace]) and the conversions [int(s)] and [str(n)].  The
    character classes are the tables of the Unicode database (version 14.0.0),
    so that "numeric" and "decimal" are told apart as Python tells them. *)

From S2P Require Import Prelude.

Abbreviation pystr := (list Z).

(** A literal of the source: its characters are ASCII. *)
Definition py (s : string) : pystr :=
  (fun c => Z.of_N (Ascii.N_of_ascii c)) <$> String.list_ascii_of_string s.

(** ** Character classes *)

Definition in_ranges (rs : list (Z * Z)) (c : Z) : bool :=
  existsb (fun r => (r.1 <=? c) && (c <=? r.2)) rs.

(** Code points for which [str.isspace] holds. *)
Definition space_ranges : list (Z * Z) := [
  (9, 13); (28, 32); (133, 133); (160, 160); (5760, 5760); (8192, 8202); (8232, 8233);
  (8239, 8239); (8287, 8287); (12288, 12288)].

(** Code points for which [str.isdecimal] holds: runs of ten digits. *)
Definition decimal_ranges : list (Z * Z) := [
  (48, 57); (1632, 1641); (1776, 1785); (1984, 1993); (2406, 2415); (2534, 2543);
  (2662, 2671); (2790, 2799); (2918, 2927); (3046, 3055); (3174, 3183); (3302, 3311);
  (3430, 3439); (3558, 3567); (3664, 3673); (3792, 3801); (3872, 3881); (4160, 4169);
  (4240, 4249); (6112, 6121); (6160, 6169); (6470, 6479); (6608, 6617); (6784, 6793);
  (6800, 6809); (6992, 7001); (7088, 7097); (7232, 7241); (7248, 7257); (42528, 42537);
  (43216, 43225); (43264, 43273); (43472, 43481); (43504, 43513); (43600, 43609);
  (44016, 44025); (65296, 65305); (66720, 66729); (68912, 68921); (69734, 69743);
  (69872, 69881); (69942, 69951); (70096, 70105); (70384, 70393); (70736, 70745);
  (70864, 70873); (71248, 71257); (71360, 71369); (71472, 71481); (71904, 71913);
  (72016, 72025); (72784, 72793); (73040, 73049); (73120, 73129); (92768, 92777);
  (92864, 92873); (93008, 93017); (120782, 120831); (123200, 123209); (123632, 123641);
  (125264, 125273); (130032, 130041)].

(** Code points for which [str.isnumeric] holds (Numeric_Type Decimal, Digit or
    Numeric: superscripts, fractions and number letters included). *)
Definition numeric_ranges : list (Z * Z) := [
  (48, 57); (178, 179); (185, 185); (188, 190); (1632, 1641); (1776, 1785);
  (1984, 1993); (2406, 2415); (2534, 2543); (2548, 2553); (2662, 2671); (2790, 2799);
  (2918, 2927); (2930, 2935); (3046, 3058); (3174, 3183); (3192, 3198); (3302, 3311);
  (3416, 3422); (3430, 3448); (3558, 3567); (3664, 3673); (3792, 3801); (3872, 3891);
  (4160, 4169); (4240, 4249); (4969, 4988); (5870, 5872); (6112, 6121); (6128, 6137);
  (6160, 6169); (6470, 6479); (6608, 6618); (6784, 6793); (6800, 6809); (6992, 7001);
  (7088, 7097); (7232, 7241); (7248, 7257); (8304, 8304); (8308, 8313); (8320, 8329);
  (8528, 8578); (8581, 8585); (9312, 9371); (9450, 9471); (10102, 10131);
  (11517, 11517); (12295, 12295); (12321, 12329); (12344, 12346); (12690, 12693);
  (12832, 12841); (12872, 12879); (12881, 12895); (12928, 12937); (12977, 12991);
  (13317, 13317); (13443, 13443); (14378, 14378); (15181, 15181); (19968, 19968);
  (19971, 19971); (19975, 19975); (19977, 19977); (20061, 20061); (20108, 20108);
  (20116, 20116); (20118, 20118); (20159, 20160); (20191, 20191); (20200, 20200);
  (20237, 20237); (20336, 20336); (20740, 20740); (20806, 20806); (20841, 20841);
  (20843, 20843); (20845, 20845); (21313, 21313); (21315, 21317); (21324, 21324);
  (21441, 21444); (22235, 22235); (22769, 22769); (22777, 22777); (24186, 24186);
  (24318, 24319); (24332, 24334); (24336, 24336); (25342, 25342); (25420, 25420);
  (26578, 26578); (28422, 28422); (29590, 29590); (30334, 30334); (32902, 32902);
  (33836, 33836); (36014, 36014); (36019, 36019); (36144, 36144); (38433, 38433);
  (38470, 38470); (38476, 38476); (38520, 38520); (38646, 38646); (42528, 42537);
  (42726, 42735); (43056, 43061); (43216, 43225); (43264, 43273); (43472, 43481);
  (43504, 43513); (43600, 43609); (44016, 44025); (63851, 63851); (63859, 63859);
  (63864, 63864); (63922, 63922); (63953, 63953); (63955, 63955); (63997, 63997);
  (65296, 65305); (65799, 65843); (65856, 65912); (65930, 65931); (66273, 66299);
  (66336, 66339); (66369, 66369); (66378, 66378); (66513, 66517); (66720, 66729);
  (67672, 67679); (67705, 67711); (67751, 67759); (67835, 67839); (67862, 67867);
  (68028, 68029); (68032, 68047); (68050, 68095); (68160, 68168); (68221, 68222);
  (68253, 68255); (68331, 68335); (68440, 68447); (68472, 68479); (68521, 68527);
  (68858, 68863); (68912, 68921); (69216, 69246); (69405, 69414); (69457, 69460);
  (69573, 69579); (69714, 69743); (69872, 69881); (69942, 69951); (70096, 70105);
  (70113, 70132); (70384, 70393); (70736, 70745); (70864, 70873); (71248, 71257);
  (71360, 71369); (71472, 71483); (71904, 71922); (72016, 72025); (72784, 72812);
  (73040, 73049); (73120, 73129); (73664, 73684); (74752, 74862); (92768, 92777);
  (92864, 92873); (93008, 93017); (93019, 93025); (93824, 93846); (119520, 119539);
  (119648, 119672); (120782, 120831); (123200, 123209); (123632, 123641);
  (125127, 125135); (125264, 125273); (126065, 126123); (126125, 126127);
  (126129, 126132); (126209, 126253); (126255, 126269); (127232, 127244);
  (130032, 130041); (131073, 131073); (131172, 131172); (131298, 131298);
  (131361, 131361); (133418, 133418); (133507, 133507); (133516, 133516);
  (133532, 133532); (133866, 133866); (133885, 133885); (133913, 133913);
  (140176, 140176); (141720, 141720); (146203, 146203); (156269, 156269);
  (194704, 194704)].

Definition isspace (c : Z) : bool := in_ranges space_ranges c.

(** The value of a decimal digit, in any script. *)
Definition decimal (c : Z) : option Z :=
  match List.find (fun r => (r.1 <=? c) && (c <=? r.2)) decimal_ranges with
  | Some r => Some ((c - r.1) mod 10)
  | None => None
  end.

(** [s.isnumeric()]: non-empty and every character numeric. *)
Definition isnumeric (s : pystr) : bool :=
  negb (bool_decide (s = [])) && forallb (in_ranges numeric_ranges) s.

(** ** split, join, strip, find, count *)

(** [s.split(sep)] for a one-character separator. *)
Fixpoint split_on (sep : Z) (s : pystr) : list pystr :=
  match s with
  | [] => [[]]
  | c :: s' =>
      if c =? sep then [] :: split_on sep s'
      else match split_on sep s' with
           | p :: ps => (c :: p) :: ps
           | [] => [[c]]
           end
  end.

(** [sep.join(ps)] *)
Fixpoint join (sep : pystr) (ps : list pystr) : pystr :=
  match ps with
  | [] => []
  | [p] => p
  | p :: ps' => p ++ sep ++ join sep ps'
  end.

Fixpoint lstrip_with (f : Z -> bool) (s : pystr) : pystr :=
  match s with
  | [] => []
  | c :: s' => if f c then lstrip_with f s' else s
  end.
Definition rstrip_with (f : Z -> bool) (s : pystr) : pystr := rev (lstrip_with f (rev s)).

(** [s.strip()] *)
Definition strip (s : pystr) : pystr := rstrip_with isspace (lstrip_with isspace s).

(** [s.startswith(p)] *)
Fixpoint startswith (p s : pystr) : bool :=
  match p, s with
  | [], _ => true
  | c :: p', d :: s' => (c =? d) && startswith p' s'
  | _ :: _, [] => false
  end.

(** [s.find(p)] from position 0: index of the first occurrence. *)
Fixpoint find (p s : pystr) : option nat :=
  if startswith p s then Some 0%nat
  else match s with
       | [] => None
       | _ :: s' => S <$> find p s'
       end.

(** [s.count(c)] for a one-character string. *)
Definition count (c : Z) (s : pystr) : nat := length (filter (fun d => d = c) s).

(** [c in s] for a one-character string. *)
Definition contains (c : Z) (s : pystr) : bool := existsb (Z.eqb c) s.

(** ** int(s) *)

(** The whitespace [int] accepts around a literal: C's [isspace] for ASCII,
    the Unicode class above it. *)
Definition int_space (c : Z) : bool :=
  ((9 <=? c) && (c <=? 13)) || (c =? 32) || ((128 <=? c) && isspace c).

(** Digits with single underscores between them. *)
Fixpoint int_digits (acc : Z) (prev_digit : bool) (s : pystr) : option Z :=
  match s with
  | [] => if prev_digit then Some acc else None
  | c :: s' =>
      if c =? 95 then (if prev_digit then int_digits acc false s' else None)
      else match decimal c with
           | Some d => int_digits (acc * 10 + d) true s'
           | None => None
           end
  end.

Definition int_of_str (s : pystr) : res Z :=
  let s1 := rstrip_with int_space (lstrip_with int_space s) in
  let r := match s1 with
           | c :: s2 =>
               if c =? 45 then Z.opp <$> int_digits 0 false s2
               else if c =? 43 then int_digits 0 false s2
               else int_digits 0 false s1
           | [] => None
           end in
  match r with Some n => Ok n | None => Raise ValueError end.

(** ** str(n) *)

Fixpoint digits_fuel (fuel : nat) (n : Z) : pystr :=
  match fuel with
  | O => []
  | S f => if n <? 10 then [48 + n] else digits_fuel f (n / 10) ++ [48 + n mod 10]
  end.

(** One digit uses up more than three bits, so the bit length is enough fuel. *)
Definition digits (n : Z) : pystr := digits_fuel (S (Z.to_nat (Z.log2 n))) n.

Definition str_of_int (n : Z) : pystr :=
  if n <? 0 then 45 :: digits (- n) else digits n.

(** ** Lemmas: split and join *)

Lemma split_on_app sep p s :
  sep ∉ p -> split_on sep (p ++ sep :: s) = p :: split_on sep s.
Proof.
  induction p as [|c p IH]; cbn; intros Hn; [by rewrite Z.eqb_refl|].
  rewrite (proj2 (Z.eqb_neq _ _)) by set_solver. rewrite IH; [done|set_solver].
Qed.

Lemma split_on_single sep p : sep ∉ p -> split_on sep p = [p].
Proof.
  induction p as [|c p IH]; cbn; intros Hn; [done|].
  rewrite (proj2 (Z.eqb_neq _ _)) by set_solver. rewrite IH; [done|set_solver].
Qed.

(** Splitting undoes joining when no part holds the separator. *)
Lemma split_join sep ps :
  ps ≠ [] -> Forall (fun p => sep ∉ p) ps -> split_on sep (join [sep] ps) = ps.
Proof.
  intros Hne H. induction H as [|p ps Hp Hps IH]; [done|].
  destruct ps as [|p' ps]; [by apply split_on_single|].
  change (join [sep] (p :: p' :: ps)) with (p ++ sep :: join [sep] (p' :: ps)).
  rewrite split_on_app by done. by rewrite IH.
Qed.

Lemma split_on_nonempty sep s : split_on sep s ≠ [].
Proof. destruct s as [|c s]; cbn; [done|]. repeat case_match; done. Qed.

(** ** Lemmas: decimal digits *)

Definition is_ascii_digit (c : Z) : Prop := 48 <= c <= 57.

(** Case analysis on one of the ten digits. *)
Lemma ascii_digit_cases (P : Z -> Prop) :
  P 48 -> P 49 -> P 50 -> P 51 -> P 52 -> P 53 -> P 54 -> P 55 -> P 56 -> P 57 ->
  ∀ c, is_ascii_digit c -> P c.
Proof.
  intros ?????????? c Hc. unfold is_ascii_digit in Hc.
  assert (c = 48 ∨ c = 49 ∨ c = 50 ∨ c = 51 ∨ c = 52 ∨ c = 53 ∨ c = 54 ∨ c = 55 ∨
    c = 56 ∨ c = 57) as E by lia.
  repeat destruct E as [->|E]; try subst; done.
Qed.

Lemma decimal_ascii c : is_ascii_digit c -> decimal c = Some (c - 48).
Proof. revert c. apply ascii_digit_cases; reflexivity. Qed.

Lemma numeric_ascii c : is_ascii_digit c -> in_ranges numeric_ranges c = true.
Proof. revert c. apply ascii_digit_cases; reflexivity. Qed.

Lemma int_space_ascii c : is_ascii_digit c -> int_space c = false.
Proof. revert c. apply ascii_digit_cases; reflexivity. Qed.

Lemma digits_fuel_ok fuel n :
  0 <= n < 2 ^ Z.of_nat fuel ->
  Forall is_ascii_digit (digits_fuel fuel n) ∧
  (0 < fuel -> digits_fuel fuel n ≠ [])%nat ∧
  ∀ acc b rest, (0 < fuel)%nat ->
    int_digits acc b (digits_fuel fuel n ++ rest) =
    int_digits (acc * 10 ^ Z.of_nat (length (digits_fuel fuel n)) + n) true rest.
Proof.
  revert n. induction fuel as [|f IH]; intros n Hn.
  { split; [constructor|]. split; intros; lia. }
  cbn [digits_fuel]. destruct (Z.ltb_spec n 10).
  - split; [constructor; [unfold is_ascii_digit; lia | constructor]|]. split; [done|].
    intros acc b rest _. cbn [app int_digits length].
    rewrite (proj2 (Z.eqb_neq _ _)) by lia.
    rewrite decimal_ascii by (unfold is_ascii_digit; lia). f_equal. lia.
  - assert (0 < f)%nat as Hf.
    { destruct f; [|lia]. cbn in Hn. lia. }
    rewrite Nat2Z.inj_succ, Z.pow_succ_r in Hn by lia.
    assert (0 <= n / 10 < 2 ^ Z.of_nat f) as Hq.
    { split; [apply Z.div_pos; lia|]. apply Z.div_lt_upper_bound; lia. }
    destruct (IH _ Hq) as (H1 & H2 & H3).
    assert (is_ascii_digit (48 + n mod 10)) as Hd.
    { unfold is_ascii_digit. pose proof (Z.mod_pos_bound n 10). lia. }
    split; [apply Forall_app; split; [done|by constructor]|].
    split; [intros _ Hnil; by apply app_eq_nil in Hnil as [_ ?]|].
    intros acc b rest _. rewrite <- app_assoc. rewrite H3 by done.
    cbn [app int_digits].
    rewrite (proj2 (Z.eqb_neq _ _)) by (unfold is_ascii_digit in Hd; lia).
    rewrite decimal_ascii by done. rewrite length_app; cbn [length].
    f_equal. rewrite Nat2Z.inj_add, Z.pow_add_r by lia. cbn.
    pose proof (Z.div_mod n 10). lia.
Qed.

Lemma log2_fuel n : 0 <= n -> 0 <= n < 2 ^ Z.of_nat (S (Z.to_nat (Z.log2 n))).
Proof.
  intros. destruct (Z.eq_dec n 0) as [->|]; [cbn; lia|].
  rewrite Nat2Z.inj_succ, Z2Nat.id by apply Z.log2_nonneg.
  pose proof (Z.log2_spec n). lia.
Qed.

Lemma digits_ascii n : 0 <= n -> Forall is_ascii_digit (digits n).
Proof. intros. by apply digits_fuel_ok, log2_fuel. Qed.

Lemma digits_nonempty n : 0 <= n -> digits n ≠ [].
Proof. intros. apply (digits_fuel_ok _ n); [by apply log2_fuel|lia]. Qed.

Lemma int_digits_digits n : 0 <= n -> int_digits 0 false (digits n) = Some n.
Proof.
  intros. rewrite <- (app_nil_r (digits n)).
  unfold digits. rewrite (proj2 (proj2 (digits_fuel_ok _ n (log2_fuel n H)))) by lia.
  done.
Qed.

Lemma lstrip_none f c s : f c = false -> lstrip_with f (c :: s) = c :: s.
Proof. intros H. cbn. by rewrite H. Qed.

Lemma strip_with_none f s :
  Forall (fun c => f c = false) s -> rstrip_with f (lstrip_with f s) = s.
Proof.
  intros H. destruct s as [|c s]; [done|].
  rewrite lstrip_none by (by inversion H). unfold rstrip_with.
  assert (Forall (fun c => f c = false) (rev (c :: s))) as H'.
  { apply Forall_forall. intros x Hx. rewrite Forall_forall in H.
    apply H. by apply list_elem_of_In, in_rev, list_elem_of_In. }
  destruct (rev (c :: s)) as [|d t] eqn:E.
  - by apply (f_equal (@rev Z)) in E; rewrite rev_involutive in E.
  - rewrite lstrip_none by (by inversion H'). by rewrite <- E, rev_involutive.
Qed.

Lemma digits_no_space n : 0 <= n -> Forall (fun c => int_space c = false) (digits n).
Proof. intros. eapply Forall_impl; [by apply digits_ascii|]. apply int_space_ascii. Qed.

(** [int(str(n)) == n] for every integer. *)
Lemma int_of_str_of_int n : int_of_str (str_of_int n) = Ok n.
Proof.
  unfold int_of_str, str_of_int. destruct (Z.ltb_spec n 0).
  - rewrite strip_with_none.
    + rewrite Z.eqb_refl, int_digits_digits by lia. cbn. f_equal. lia.
    + constructor; [done|]. apply digits_no_space. lia.
  - rewrite strip_with_none by (by apply digits_no_space).
    pose proof (digits_ascii n ltac:(lia)) as Hd.
    destruct (digits n) as [|c s] eqn:E; [by apply digits_nonempty in E|].
    inversion Hd as [|? ? Hc _]; subst. unfold is_ascii_digit in Hc.
    rewrite !(proj2 (Z.eqb_neq _ _)) by lia. rewrite <- E, int_digits_digits; [done|lia].
Qed.

Lemma isnumeric_str_of_int n : 0 <= n -> isnumeric (str_of_int n) = true.
Proof.
  intros Hn. unfold isnumeric, str_of_int. rewrite (proj2 (Z.ltb_ge _ _)) by done.
  rewrite bool_decide_eq_false_2 by (by apply digits_nonempty). cbn.
  apply forallb_forall. intros x Hx. apply numeric_ascii.
  eapply Forall_forall; [by apply digits_ascii|]. by apply list_elem_of_In.
Qed.

(** A decimal literal of a natural number holds only digits. *)
Lemma str_of_nat_digits n c : 0 <= n -> c ∈ str_of_int n -> is_ascii_digit c.
Proof.
  intros Hn. unfold str_of_int. rewrite (proj2 (Z.ltb_ge _ _)) by done.
  intros Hc. eapply Forall_forall; [by apply digits_ascii | done].
Qed.
