(* ===== verification/Codec.v ===== *)
(** * Byte codecs: UTF-8 and base64

    [utils/lang.py] encodes every field of the propagation headers as base64 of
    UTF-8.  This file models Python's UTF-8 codec and [binascii]'s base64
    codec (lenient: characters outside the alphabet are skipped, as
    [base64.b64decode] does by default), then [b64encode] and [b64decode] of
    [utils/lang.py], and proves that decoding inverts encoding. *)

From S2P Require Import Prelude PyText.

(** A byte is an integer of [0, 255]. *)
Definition is_byte (b : Z) : Prop := 0 <= b < 256.

(** Unicode scalar values: what UTF-8 can carry. *)
Definition is_surrogate (c : Z) : bool := (55296 <=? c) && (c <=? 57343).
Definition is_scalar (c : Z) : Prop := 0 <= c < 1114112 ∧ is_surrogate c = false.

#[export] Instance is_scalar_dec c : Decision (is_scalar c).
Proof. unfold is_scalar. apply _. Defined.

(** ** UTF-8 *)

Definition utf8_encode_char (c : Z) : list Z :=
  if c <? 128 then [c]
  else if c <? 2048 then [192 + c / 64; 128 + c mod 64]
  else if c <? 65536 then [224 + c / 4096; 128 + (c / 64) mod 64; 128 + c mod 64]
  else [240 + c / 262144; 128 + (c / 4096) mod 64; 128 + (c / 64) mod 64; 128 + c mod 64].

(** [s.encode('utf8')]: a lone surrogate raises [UnicodeEncodeError]. *)
Definition utf8_encode (s : pystr) : res (list Z) :=
  if decide (Forall is_scalar s) then Ok (s ≫= utf8_encode_char) else Raise ValueError.

Definition is_cont (b : Z) : bool := (128 <=? b) && (b <=? 191).

(** [bs.decode('utf8')], strict: overlong forms, surrogates, values past
    U+10FFFF and truncated sequences raise [UnicodeDecodeError]. *)
Fixpoint utf8_decode (bs : list Z) : option pystr :=
  match bs with
  | [] => Some []
  | b0 :: l0 =>
      if b0 <? 128 then cons b0 <$> utf8_decode l0
      else if (194 <=? b0) && (b0 <=? 223) then
        match l0 with
        | b1 :: l1 =>
            if is_cont b1 then cons ((b0 - 192) * 64 + (b1 - 128)) <$> utf8_decode l1
            else None
        | [] => None
        end
      else if (224 <=? b0) && (b0 <=? 239) then
        match l0 with
        | b1 :: b2 :: l2 =>
            let c := (b0 - 224) * 4096 + (b1 - 128) * 64 + (b2 - 128) in
            if is_cont b1 && is_cont b2 && (2048 <=? c) && negb (is_surrogate c)
            then cons c <$> utf8_decode l2 else None
        | _ => None
        end
      else if (240 <=? b0) && (b0 <=? 244) then
        match l0 with
        | b1 :: b2 :: b3 :: l3 =>
            let c := (b0 - 240) * 262144 + (b1 - 128) * 4096 + (b2 - 128) * 64 + (b3 - 128) in
            if is_cont b1 && is_cont b2 && is_cont b3 && (65536 <=? c) && (c <=? 1114111)
            then cons c <$> utf8_decode l3 else None
        | _ => None
        end
      else None
  end.

(** ** base64 *)

(** The alphabet of RFC 4648. *)
Definition b64_char (v : Z) : Z :=
  if v <? 26 then 65 + v
  else if v <? 52 then 71 + v
  else if v <? 62 then v - 4
  else if v =? 62 then 43 else 47.

Definition b64_val (c : Z) : option Z :=
  if (65 <=? c) && (c <=? 90) then Some (c - 65)
  else if (97 <=? c) && (c <=? 122) then Some (c - 71)
  else if (48 <=? c) && (c <=? 57) then Some (c + 4)
  else if c =? 43 then Some 62
  else if c =? 47 then Some 63
  else None.

(** [binascii.b2a_base64(bs, newline=False)] *)
Fixpoint b2a_base64 (bs : list Z) : pystr :=
  match bs with
  | [] => []
  | [a] => [b64_char (a / 4); b64_char (a mod 4 * 16); 61; 61]
  | [a; b] => [b64_char (a / 4); b64_char (a mod 4 * 16 + b / 16); b64_char (b mod 16 * 4); 61]
  | a :: b :: c :: l =>
      b64_char (a / 4) :: b64_char (a mod 4 * 16 + b / 16) ::
      b64_char (b mod 16 * 4 + c / 64) :: b64_char (c mod 64) :: b2a_base64 l
  end.

(** [binascii.a2b_base64], not strict.  [quad] is the position in the current
    quad, [left] the bits carried over, [pads] the padding seen since the last
    data character.  Data after a complete padding is ignored; an incomplete
    quad at the end raises [binascii.Error]. *)
Fixpoint a2b_base64 (quad pads left : Z) (s : pystr) : option (list Z) :=
  match s with
  | [] => if quad =? 0 then Some [] else None
  | c :: s' =>
      if c =? 61 then
        if (2 <=? quad) && (4 <=? quad + (pads + 1)) then Some []
        else a2b_base64 quad (if 2 <=? quad then pads + 1 else pads) left s'
      else match b64_val c with
           | None => a2b_base64 quad pads left s'
           | Some v =>
               if quad =? 0 then a2b_base64 1 0 v s'
               else if quad =? 1 then
                 cons (left * 4 + v / 16) <$> a2b_base64 2 0 (v mod 16) s'
               else if quad =? 2 then
                 cons (left * 16 + v / 4) <$> a2b_base64 3 0 (v mod 4) s'
               else cons (left * 64 + v) <$> a2b_base64 0 0 0 s'
           end
  end.

(** ** utils/lang.py *)

(** [b64encode(s)] *)
Definition b64encode (s : pystr) : res pystr :=
  bs ← utf8_encode s; mret (b2a_base64 bs).

(** [b64decode(s)]: a non-ASCII argument, bad padding or bytes that are not
    UTF-8 all raise subclasses of [ValueError]. *)
Definition b64decode (s : pystr) : res pystr :=
  if forallb (fun c => c <? 128) s then
    match a2b_base64 0 0 0 s with
    | Some bs => match utf8_decode bs with Some t => Ok t | None => Raise ValueError end
    | None => Raise ValueError
    end
  else Raise ValueError.

(** ** Round trip of UTF-8 *)

Ltac zdiv := Z.to_euclidean_division_equations; lia.

(** Decide the boolean guards of a decoder from the arithmetic context. *)
Ltac ifb b := 
  match goal with
  | |- context [if ?c then _ else _] =>
      let E := fresh in assert (c = b) as E;
      [unfold is_cont, is_surrogate in *; zdiv | rewrite E; clear E]
  end.

Lemma utf8_decode_char c bs :
  is_scalar c -> utf8_decode (utf8_encode_char c ++ bs) = cons c <$> utf8_decode bs.
Proof.
  unfold is_scalar, utf8_encode_char. intros [Hc Hs].
  destruct (Z.ltb_spec c 128); [|destruct (Z.ltb_spec c 2048); [|destruct (Z.ltb_spec c 65536)]];
    cbn [app utf8_decode].
  - by ifb true.
  - ifb false. ifb true. ifb true. do 2 f_equal. zdiv.
  - assert ((224 + c / 4096 - 224) * 4096 + (128 + (c / 64) mod 64 - 128) * 64 +
      (128 + c mod 64 - 128) = c) as E by zdiv.
    cbv zeta. rewrite E. ifb false. ifb false. ifb true.
    unfold is_surrogate in *. ifb true. done.
  - assert ((240 + c / 262144 - 240) * 262144 + (128 + (c / 4096) mod 64 - 128) * 4096 +
      (128 + (c / 64) mod 64 - 128) * 64 + (128 + c mod 64 - 128) = c) as E by zdiv.
    cbv zeta. rewrite E. ifb false. ifb false. ifb false. ifb true. by ifb true.
Qed.

Lemma utf8_roundtrip s bs : utf8_encode s = Ok bs -> utf8_decode bs = Some s.
Proof.
  unfold utf8_encode. case_decide as H; intros; simplify_eq.
  induction H as [|c s Hc _ IH]; [done|].
  change ((c :: s) ≫= utf8_encode_char) with (utf8_encode_char c ++ (s ≫= utf8_encode_char)).
  rewrite utf8_decode_char by done. by rewrite IH.
Qed.

Lemma utf8_encode_bytes s bs : utf8_encode s = Ok bs -> Forall is_byte bs.
Proof.
  unfold utf8_encode. case_decide as H; intros; simplify_eq.
  induction H as [|c s [Hc _] _ IH]; [constructor|].
  change ((c :: s) ≫= utf8_encode_char) with (utf8_encode_char c ++ (s ≫= utf8_encode_char)).
  apply Forall_app; split; [|done]. clear IH. unfold utf8_encode_char, is_byte.
  repeat case_match; repeat constructor; zdiv.
Qed.

(** ** Round trip of base64 *)

Lemma b64_val_char v : 0 <= v < 64 -> b64_val (b64_char v) = Some v.
Proof.
  intros. unfold b64_char.
  repeat match goal with |- context [?a <? ?b] => destruct (Z.ltb_spec a b) end;
  try destruct (Z.eqb_spec v 62); unfold b64_val; repeat (ifb true || ifb false);
  f_equal; lia.
Qed.

(** The alphabet avoids the separators of the headers and the padding. *)
Definition b64_safe (c : Z) : Prop :=
  65 <= c <= 90 ∨ 97 <= c <= 122 ∨ 48 <= c <= 57 ∨ c = 43 ∨ c = 47 ∨ c = 61.

Lemma b64_char_safe v : 0 <= v < 64 -> b64_safe (b64_char v) ∧ b64_char v ≠ 61.
Proof.
  intros. unfold b64_char, b64_safe. repeat case_match; lia.
Qed.

Lemma a2b_data quad pads left v s :
  0 <= v < 64 ->
  a2b_base64 quad pads left (b64_char v :: s) =
    if quad =? 0 then a2b_base64 1 0 v s
    else if quad =? 1 then cons (left * 4 + v / 16) <$> a2b_base64 2 0 (v mod 16) s
    else if quad =? 2 then cons (left * 16 + v / 4) <$> a2b_base64 3 0 (v mod 4) s
    else cons (left * 64 + v) <$> a2b_base64 0 0 0 s.
Proof.
  intros Hv. cbn [a2b_base64]. pose proof (b64_char_safe v Hv) as [_ Hne].
  rewrite (proj2 (Z.eqb_neq _ _)) by done. by rewrite b64_val_char.
Qed.

(** Lists by chunks of three, the shape of base64. *)
Lemma list_ind3 {A} (P : list A -> Prop) :
  P [] -> (∀ a, P [a]) -> (∀ a b, P [a; b]) ->
  (∀ a b c l, P l -> P (a :: b :: c :: l)) -> ∀ l, P l.
Proof.
  intros H0 H1 H2 H3. fix IH 1. intros [|a [|b [|c l]]];
    [exact H0 | apply H1 | apply H2 | apply H3, IH].
Qed.

(** Evaluate the closed comparisons of the padding rule. *)
Ltac eval_leb :=
  repeat match goal with
  | |- context [?a <=? ?b] =>
      let v := eval vm_compute in (a <=? b) in
      lazymatch v with true => idtac | false => idtac end; change (a <=? b) with v; cbn iota
  end.

Lemma b64_roundtrip bs : Forall is_byte bs -> a2b_base64 0 0 0 (b2a_base64 bs) = Some bs.
Proof.
  unfold is_byte. induction bs as [|a|a b|a b c l IH] using list_ind3; intros H;
    rewrite ?Forall_cons in H; destruct_and?; cbn [b2a_base64]; [done|..].
  - rewrite !a2b_data by zdiv. cbn -[Z.mul Z.div Z.modulo]. eval_leb. cbn.
    repeat f_equal; zdiv.
  - rewrite !a2b_data by zdiv. cbn -[Z.mul Z.div Z.modulo]. eval_leb. cbn.
    repeat f_equal; zdiv.
  - rewrite !a2b_data by zdiv. cbn [Z.eqb Pos.eqb]. rewrite IH by done.
    cbn -[Z.mul Z.div Z.modulo]. repeat f_equal; zdiv.
Qed.

Lemma b2a_safe bs : Forall is_byte bs -> Forall b64_safe (b2a_base64 bs).
Proof.
  unfold is_byte. induction bs as [|a|a b|a b c l IH] using list_ind3; intros H;
    rewrite ?Forall_cons in H; destruct_and?; cbn [b2a_base64];
    repeat (constructor; try (apply b64_char_safe; zdiv); try (by unfold b64_safe; lia));
    auto.
Qed.

(** ** Round trip of utils/lang.py *)

(** The strings UTF-8 can encode. *)
Definition encodable (s : pystr) : Prop := Forall is_scalar s.

#[export] Instance encodable_dec s : Decision (encodable s).
Proof. unfold encodable. apply _. Defined.

Lemma b64encode_ok s : encodable s -> ∃ t, b64encode s = Ok t ∧ Forall b64_safe t.
Proof.
  intros H. unfold b64encode. destruct (utf8_encode s) as [bs|e] eqn:E.
  - eexists; split; [done|]. by eapply b2a_safe, utf8_encode_bytes.
  - unfold utf8_encode in E. by rewrite decide_True in E.
Qed.

Lemma b64_lang_roundtrip s t : b64encode s = Ok t -> b64decode t = Ok s.
Proof.
  unfold b64encode. destruct (utf8_encode s) as [bs|e] eqn:E; cbn; [|done].
  intros [= <-]. unfold b64decode. pose proof (utf8_encode_bytes _ _ E) as Hb.
  replace (forallb _ _) with true.
  - rewrite b64_roundtrip by done. by rewrite (utf8_roundtrip s bs E).
  - symmetry. apply forallb_forall. intros c Hc%list_elem_of_In.
    eapply Forall_forall in Hc; [|by apply b2a_safe]. unfold b64_safe in Hc. lia.
Qed.

Lemma b64encode_encodable s t : b64encode s = Ok t -> encodable s ∧ Forall b64_safe t.
Proof.
  intros H. assert (encodable s) as Hs.
  { unfold b64encode, utf8_encode in H. by case_decide. }
  destruct (b64encode_ok s Hs) as (t' & Ht & Hsafe). split; [done|]. congruence.
Qed.

Lemma b64decode_nil : b64decode [] = Ok [].
Proof. done. Qed.

Lemma safe_not_in c t : Forall b64_safe t -> ¬ b64_safe c -> c ∉ t.
Proof. intros H Hn Hc. eapply Forall_forall in Hc; [|done]. done. Qed.
