(* ===== verification/Carrier.v ===== *)
(** * Propagation headers: trace/carrier.py and SegmentRef of trace/segment.py

    [Carrier] is the [sw8] header, [SW8CorrelationCarrier] the
    [sw8-correlation] header.  The setters are programs that update the object
    field by field, so an exception in the middle leaves the fields already
    assigned. *)

From S2P Require Import Prelude PyData PyText Codec.

(** ** class Carrier

    [raw_val] is the private [__val] the [val] setter stores.  The dict of the
    correlation carrier is a shared object: [correlation] is its location in
    the store of dicts.  [client_address] may be [None] (a span's peer). *)
Record Carrier := mkCarrier {
  raw_val : option pystr;
  trace_id : pystr;
  segment_id : pystr;
  span_id : pystr;
  service : pystr;
  service_instance : pystr;
  endpoint : pystr;
  client_address : option pystr;
  correlation : nat
}.

(** [Carrier()]: every field empty; the correlation dict at [d]. *)
Definition empty_carrier (d : nat) : Carrier := mkCarrier None [] [] [] [] [] [] (Some []) d.

(** [b64encode] of an attribute: [None] has no [encode]. *)
Definition b64encode_attr (s : option pystr) : res pystr :=
  match s with Some t => b64encode t | None => Raise AttributeError end.

(** The [val] getter of [Carrier]. *)
Definition carrier_val (c : Carrier) : res pystr :=
  t ← b64encode (trace_id c);
  s ← b64encode (segment_id c);
  sv ← b64encode (service c);
  si ← b64encode (service_instance c);
  e ← b64encode (endpoint c);
  a ← b64encode_attr (client_address c);
  mret (join [45] [[49]; t; s; span_id c; sv; si; e; a]).

Definition set_raw_val (v : pystr) (c : Carrier) : Carrier :=
  mkCarrier (Some v) (trace_id c) (segment_id c) (span_id c) (service c) (service_instance c)
    (endpoint c) (client_address c) (correlation c).
Definition set_trace_id (v : pystr) (c : Carrier) : Carrier :=
  mkCarrier (raw_val c) v (segment_id c) (span_id c) (service c) (service_instance c)
    (endpoint c) (client_address c) (correlation c).
Definition set_segment_id (v : pystr) (c : Carrier) : Carrier :=
  mkCarrier (raw_val c) (trace_id c) v (span_id c) (service c) (service_instance c)
    (endpoint c) (client_address c) (correlation c).
Definition set_span_id (v : pystr) (c : Carrier) : Carrier :=
  mkCarrier (raw_val c) (trace_id c) (segment_id c) v (service c) (service_instance c)
    (endpoint c) (client_address c) (correlation c).
Definition set_service (v : pystr) (c : Carrier) : Carrier :=
  mkCarrier (raw_val c) (trace_id c) (segment_id c) (span_id c) v (service_instance c)
    (endpoint c) (client_address c) (correlation c).
Definition set_service_instance (v : pystr) (c : Carrier) : Carrier :=
  mkCarrier (raw_val c) (trace_id c) (segment_id c) (span_id c) (service c) v
    (endpoint c) (client_address c) (correlation c).
Definition set_endpoint (v : pystr) (c : Carrier) : Carrier :=
  mkCarrier (raw_val c) (trace_id c) (segment_id c) (span_id c) (service c)
    (service_instance c) v (client_address c) (correlation c).
Definition set_client_address (v : pystr) (c : Carrier) : Carrier :=
  mkCarrier (raw_val c) (trace_id c) (segment_id c) (span_id c) (service c)
    (service_instance c) (endpoint c) (Some v) (correlation c).

(** The [val] setter of [Carrier]. *)
Definition set_carrier_val (val : pystr) : M Carrier unit :=
  _ ← modify (set_raw_val val);
  match val with
  | [] => mret tt
  | _ =>
      match split_on 45 val with
      | [_; p1; p2; p3; p4; p5; p6; p7] =>
          t ← lift (b64decode p1); _ ← modify (set_trace_id t);
          s ← lift (b64decode p2); _ ← modify (set_segment_id s);
          _ ← modify (set_span_id p3);
          sv ← lift (b64decode p4); _ ← modify (set_service sv);
          si ← lift (b64decode p5); _ ← modify (set_service_instance si);
          e ← lift (b64decode p6); _ ← modify (set_endpoint e);
          a ← lift (b64decode p7); modify (set_client_address a)
      | _ => mret tt
      end
  end.

(** [len(x) > 0] *)
Definition nonempty {A} (l : list A) : bool := match l with [] => false | _ => true end.

(** [is_valid]: the conjunction stops at the first false conjunct, and
    [len(None)] raises [TypeError] when evaluation reaches it. *)
Definition is_valid (c : Carrier) : res bool :=
  if nonempty (trace_id c) && nonempty (segment_id c) && nonempty (service c) &&
     nonempty (service_instance c) && nonempty (endpoint c)
  then match client_address c with
       | None => Raise TypeError
       | Some a => Ok (nonempty a && isnumeric (span_id c))
       end
  else Ok false.

(** [is_suppressed]: a header was set and it is not valid. *)
Definition is_suppressed (c : Carrier) : res bool :=
  match raw_val c with
  | Some (_ :: _) => v ← is_valid c; mret (negb v)
  | _ => Ok false
  end.

(** ** class SW8CorrelationCarrier *)

(** The [val] getter: [k:v] pairs in dict order. *)
Fixpoint correlation_items (d : list (pystr * pystr)) : res (list pystr) :=
  match d with
  | [] => mret []
  | (k, v) :: d' =>
      k' ← b64encode k; v' ← b64encode v; l ← correlation_items d';
      mret ((k' ++ [58] ++ v') :: l)
  end.

Definition correlation_val (d : list (pystr * pystr)) : res pystr :=
  match d with
  | [] => Ok []
  | _ => l ← correlation_items d; mret (join [44] l)
  end.

(** The loop of the [val] setter over the comma-separated entries. *)
Fixpoint set_correlation_loop (max_number : Z) (pers : list pystr)
  : M (list (pystr * pystr)) unit :=
  match pers with
  | [] => mret tt
  | per :: pers' =>
      n ← gets (fun d => Z.of_nat (length d));
      if max_number <? n then mret tt
      else match split_on 58 per with
           | [k; v] =>
               (* the right-hand side of the assignment is evaluated first *)
               v' ← lift (b64decode v);
               k' ← lift (b64decode k);
               _ ← modify (Dict.set k' v');
               set_correlation_loop max_number pers'
           | _ => set_correlation_loop max_number pers'
           end
  end.

Definition set_correlation_val (max_number : Z) (val : pystr) : M (list (pystr * pystr)) unit :=
  match val with
  | [] => mret tt
  | _ => set_correlation_loop max_number (split_on 44 val)
  end.

(** Iterating a carrier yields [items]: the correlation carrier, then itself. *)
Definition carrier_items (c : Carrier) (d : list (pystr * pystr)) : res (list (pystr * pystr)) :=
  cv ← correlation_val d;
  v ← carrier_val c;
  mret [(py "sw8-correlation", cv); (py "sw8", v)].

(** ** class SegmentRef (trace/segment.py) *)

Inductive RefType := CrossProcess | CrossThread.

Record SegmentRef := mkRef {
  ref_type : RefType;
  ref_trace_id : pystr;
  ref_segment_id : pystr;
  ref_span_id : Z;
  ref_service : pystr;
  ref_service_instance : pystr;
  ref_endpoint : option pystr;
  ref_client_address : option pystr
}.

#[export] Instance RefType_eq_dec : EqDecision RefType.
Proof. solve_decision. Defined.

(** [__eq__] compares the eight fields. *)
#[export] Instance SegmentRef_eq_dec : EqDecision SegmentRef.
Proof. solve_decision. Defined.

(** [SegmentRef(carrier)]: [int(carrier.span_id)] may raise. *)
Definition segment_ref (c : Carrier) : res SegmentRef :=
  n ← int_of_str (span_id c);
  mret (mkRef CrossProcess (trace_id c) (segment_id c) n (service c) (service_instance c)
          (Some (endpoint c)) (client_address c)).

(** ** The sw8 header *)

(** The fields a header carries. *)
Definition same_fields (c c' : Carrier) : Prop :=
  trace_id c' = trace_id c ∧ segment_id c' = segment_id c ∧ span_id c' = span_id c ∧
  service c' = service c ∧ service_instance c' = service_instance c ∧
  endpoint c' = endpoint c ∧ client_address c' = client_address c.

Lemma res_bind_ok {A B} (m : res A) (f : A -> res B) b :
  (m ≫= f) = Ok b -> ∃ a, m = Ok a ∧ f a = Ok b.
Proof. destruct m; cbn; naive_solver. Qed.

Lemma Ok_inj {A} (a b : A) : Ok a = Ok b -> a = b.
Proof. by intros [= ->]. Qed.

Ltac inv_res H :=
  let a := fresh "x" in let H1 := fresh "Hx" in
  apply res_bind_ok in H as (a & H1 & H).

Lemma lift_ok {S A} (a : A) (s : S) : lift (Ok a) s = (s, Ok a).
Proof. done. Qed.

(** The separators are outside the base64 alphabet. *)
Lemma b64_no_sep s t c : b64encode s = Ok t -> ¬ b64_safe c -> c ∉ t.
Proof. intros [_ H]%b64encode_encodable. by apply safe_not_in. Qed.

Lemma unsafe_seps : ¬ b64_safe 45 ∧ ¬ b64_safe 44 ∧ ¬ b64_safe 58.
Proof. unfold b64_safe. lia. Qed.

Lemma split_carrier_val c v :
  carrier_val c = Ok v -> 45 ∉ span_id c ->
  ∃ t s sv si e a addr,
    client_address c = Some addr ∧ v ≠ [] ∧
    split_on 45 v = [[49]; t; s; span_id c; sv; si; e; a] ∧
    b64decode t = Ok (trace_id c) ∧ b64decode s = Ok (segment_id c) ∧
    b64decode sv = Ok (service c) ∧ b64decode si = Ok (service_instance c) ∧
    b64decode e = Ok (endpoint c) ∧ b64decode a = Ok addr.
Proof.
  intros H Hs. unfold carrier_val in H. do 6 inv_res H. apply Ok_inj in H. subst v.
  destruct (client_address c) as [addr|] eqn:Ea; [|done].
  exists x, x0, x1, x2, x3, x4, addr. split_and!; try done; eauto using b64_lang_roundtrip.
  pose proof unsafe_seps as (? & _).
  apply split_join; [done|].
  repeat constructor; eauto using b64_no_sep. set_solver.
Qed.

(** Setting the header a carrier produced copies its fields. *)
Lemma set_carrier_val_roundtrip c v c0 :
  carrier_val c = Ok v -> 45 ∉ span_id c ->
  ∃ c', set_carrier_val v c0 = (c', Ok tt) ∧ same_fields c c' ∧
        raw_val c' = Some v ∧ correlation c' = correlation c0.
Proof.
  intros Hv Hs.
  destruct (split_carrier_val c v Hv Hs) as
    (t & s & sv & si & e & a & addr & Ha & Hne & Hsplit & Ht & Hsg & Hsv & Hsi & He & Hca).
  unfold set_carrier_val. destruct v as [|z v]; [done|].
  unfold_m. rewrite Hsplit. unfold_m. rewrite Ht, Hsg, Hsv, Hsi, He, Hca.
  eexists; split; [done|]. unfold same_fields. cbn. by rewrite Ha.
Qed.

Lemma is_valid_same c c' : same_fields c c' -> is_valid c' = is_valid c.
Proof.
  intros (H1 & H2 & H3 & H4 & H5 & H6 & H7). unfold is_valid.
  by rewrite H1, H2, H3, H4, H5, H6, H7.
Qed.

Lemma segment_ref_same c c' : same_fields c c' -> segment_ref c' = segment_ref c.
Proof.
  intros (H1 & H2 & H3 & H4 & H5 & H6 & H7). unfold segment_ref.
  by rewrite H1, H2, H3, H4, H5, H6, H7.
Qed.

(** ** The sw8-correlation header *)

Lemma correlation_items_spec d l :
  correlation_items d = Ok l ->
  Forall2 (fun kv p => ∃ k v, b64encode kv.1 = Ok k ∧ b64encode kv.2 = Ok v ∧
                              p = k ++ 58 :: v) d l.
Proof.
  revert l. induction d as [|[k v] d IH]; intros l H; cbn in H.
  - injection H as <-. constructor.
  - do 3 inv_res H. injection H as <-. constructor; [|by apply IH].
    cbn. eauto.
Qed.

Lemma split_entry k v k' v' :
  b64encode k = Ok k' -> b64encode v = Ok v' -> split_on 58 (k' ++ 58 :: v') = [k'; v'].
Proof.
  intros Hk Hv. pose proof unsafe_seps as (_ & _ & ?).
  rewrite split_on_app by (by eapply b64_no_sep).
  by rewrite split_on_single by (by eapply b64_no_sep).
Qed.

Lemma entry_no_comma k v k' v' :
  b64encode k = Ok k' -> b64encode v = Ok v' -> 44 ∉ k' ++ 58 :: v'.
Proof.
  intros Hk Hv. pose proof unsafe_seps as (_ & ? & _).
  assert (44 ∉ k') by (by eapply b64_no_sep). assert (44 ∉ v') by (by eapply b64_no_sep).
  set_solver by lia.
Qed.

(** The setter's loop adds the entries in order until the dict is over the
    limit. *)
Lemma set_correlation_loop_spec n d l acc :
  Forall2 (fun kv p => ∃ k v, b64encode kv.1 = Ok k ∧ b64encode kv.2 = Ok v ∧
                              p = k ++ 58 :: v) d l ->
  Dict.wf (acc ++ d) -> Z.of_nat (length acc) <= n + 1 ->
  set_correlation_loop n l acc =
    (acc ++ take (Z.to_nat (n + 1) - length acc)%nat d, Ok tt).
Proof.
  intros H. revert acc. induction H as [|[k v] p d l (k' & v' & Hk & Hv & ->) _ IH];
    intros acc Hw Hle; cbn [set_correlation_loop].
  { by rewrite take_nil, app_nil_r. }
  unfold_m. destruct (Z.ltb_spec n (Z.of_nat (length acc))).
  - replace (Z.to_nat (n + 1) - length acc)%nat with 0%nat by lia. by rewrite app_nil_r.
  - cbn in Hk, Hv. rewrite (split_entry _ _ _ _ Hk Hv). unfold_m.
    rewrite (b64_lang_roundtrip _ _ Hk), (b64_lang_roundtrip _ _ Hv).
    unfold Dict.wf, Dict.keys in Hw. rewrite fmap_app in Hw.
    rewrite Dict.set_app_fresh.
    + rewrite IH.
      * rewrite <- app_assoc, length_app. cbn.
        replace (Z.to_nat (n + 1) - length acc)%nat
          with (S (Z.to_nat (n + 1) - (length acc + 1)))%nat by lia. done.
      * unfold Dict.wf, Dict.keys. by rewrite <- app_assoc, fmap_app.
      * rewrite length_app. cbn. lia.
    + apply NoDup_app in Hw as (_ & Hw & _). intros Hin. apply (Hw k Hin). cbn. set_solver.
Qed.

Lemma set_correlation_roundtrip n d v :
  Dict.wf d -> 0 <= n -> correlation_val d = Ok v ->
  set_correlation_val n v [] = (take (Z.to_nat (n + 1)) d, Ok tt).
Proof.
  intros Hw Hn H. unfold set_correlation_val, correlation_val in *.
  destruct d as [|kv d']; [injection H as <-; by rewrite take_nil|].
  remember (kv :: d') as d eqn:Ed. inv_res H. apply Ok_inj in H. subst v.
  apply correlation_items_spec in Hx as HF.
  assert (x ≠ []) as Hne by (intros ->; by inversion HF; subst).
  assert (split_on 44 (join [44] x) = x) as Hsplit.
  { apply split_join; [done|]. clear -HF. induction HF as [|? ? ? ? (?&?&?&?&->)];
      constructor; eauto using entry_no_comma. }
  assert (join [44] x ≠ []) as Hj.
  { intros E. rewrite E in Hsplit. subst x. inversion HF as [|? ? ? ? (?&?&?&?&E')]; subst.
    symmetry in E'. by apply app_eq_nil in E' as [_ ?]. }
  destruct (join [44] x) as [|z zs] eqn:E; [done|]. rewrite Hsplit.
  rewrite (set_correlation_loop_spec n d x []); [|done|done|cbn; lia].
  cbn. by rewrite Nat.sub_0_r.
Qed.

(** The setter never lets the dict grow past one entry above the limit. *)
Lemma set_correlation_bound n pers d :
  Z.of_nat (length d) <= n + 1 ->
  Z.of_nat (length (set_correlation_loop n pers d).1) <= n + 1.
Proof.
  revert d. induction pers as [|p pers IH]; intros d Hd; cbn; [done|].
  unfold_m. destruct (Z.ltb_spec n (Z.of_nat (length d))); [done|].
  destruct (split_on 58 p) as [|k [|v [|]]]; try by apply IH.
  destruct (b64decode v) as [v'|]; [|done]. destruct (b64decode k) as [k'|]; [|done].
  apply IH. pose proof (Dict.length_set_le k' v' d). lia.
Qed.
