(* ===== verification/Config.v ===== *)
(** * Configuration: config.py

    Every option is read from the environment when the module is imported and
    finalized once at agent start.  [env] is [os.environ]; [uuid] the value of
    [uuid.uuid1()] without dashes.  An option that is not an integer literal
    where one is expected makes the import raise [ValueError].  The match of
    [RE_IGNORE_PATH] is the field [ignore_path], compiled from the ignored suffixes
    and the glob patterns of ignored paths; the matchers of ignored HTTP and gRPC
    methods are in PluginBase.v. *)

From S2P Require Import Prelude PyText.

(** [os.environ] *)
Abbreviation environ := (pystr -> option pystr).

(** [os.getenv(name, default)] *)
Definition getenv (env : environ) (name default : pystr) : pystr :=
  match env name with Some v => v | None => default end.

(** [s.lower()] as far as a comparison with an ASCII literal can see it: ASCII
    letters, and the Kelvin sign, the one other code point whose lower case is
    ASCII. *)
Definition lower_char (c : Z) : Z :=
  if (65 <=? c) && (c <=? 90) then c + 32 else if c =? 8490 then 107 else c.
Definition lower (s : pystr) : pystr := lower_char <$> s.

(** [s.upper()] on ASCII letters *)
Definition upper_char (c : Z) : Z := if (97 <=? c) && (c <=? 122) then c - 32 else c.
Definition upper (s : pystr) : pystr := upper_char <$> s.

(** [os.getenv(name, '').lower() == 'true'] *)
Definition env_flag_on (env : environ) (name : pystr) : bool :=
  bool_decide (lower (getenv env name []) = py "true").
(** [os.getenv(name, '').lower() != 'false'] *)
Definition env_flag_not_off (env : environ) (name : pystr) : bool :=
  negb (bool_decide (lower (getenv env name []) = py "false")).
(** [int(os.getenv(name, default))] *)
Definition env_int (env : environ) (name default : pystr) : res Z :=
  int_of_str (getenv env name default).

(** Agent core options (config.py, agent core and CLI sections). *)
Record CoreConfig := mkCoreConfig {
  agent_collector_backend_services : pystr;
  agent_protocol : pystr;
  agent_name : pystr;
  agent_instance_name : pystr;
  agent_namespace : pystr;
  kafka_bootstrap_servers : pystr;
  kafka_namespace : pystr;
  kafka_topic_management : pystr;
  kafka_topic_segment : pystr;
  kafka_topic_log : pystr;
  kafka_topic_meter : pystr;
  kafka_reporter_custom_configurations : pystr;
  agent_force_tls : bool;
  agent_ssl_trusted_ca_path : pystr;
  agent_ssl_cert_chain_path : pystr;
  agent_ssl_key_path : pystr;
  agent_authentication : pystr;
  agent_logging_level : pystr;
  agent_collector_heartbeat_period : Z;
  agent_collector_properties_report_period_factor : Z;
  agent_instance_properties_json : pystr;
  agent_experimental_fork_support : bool;
  agent_queue_timeout : Z;
  agent_asyncio_enhancement : bool;
  agent_sw_python_bootstrap_propagate : bool;
  agent_sw_python_cli_debug_enabled : bool
}.

Definition load_core (env : environ) (uuid : pystr) : res CoreConfig :=
  v_agent_collector_heartbeat_period ←
    env_int env (py "SW_AGENT_COLLECTOR_HEARTBEAT_PERIOD") (py "30");
  v_agent_collector_properties_report_period_factor ←
    env_int env (py "SW_AGENT_COLLECTOR_PROPERTIES_REPORT_PERIOD_FACTOR") (py "10");
  v_agent_queue_timeout ←
    env_int env (py "SW_AGENT_QUEUE_TIMEOUT") (py "1");
  mret {|
    agent_collector_backend_services :=
      getenv env (py "SW_AGENT_COLLECTOR_BACKEND_SERVICES") (py "oap_host:oap_port");
    agent_protocol := lower (getenv env (py "SW_AGENT_PROTOCOL") (py "grpc"));
    agent_name := getenv env (py "SW_AGENT_NAME") (py "Python Service Name");
    agent_instance_name := getenv env (py "SW_AGENT_INSTANCE_NAME") uuid;
    agent_namespace := getenv env (py "SW_AGENT_NAMESPACE") (py "");
    kafka_bootstrap_servers :=
      getenv env (py "SW_KAFKA_BOOTSTRAP_SERVERS") (py "localhost:9092");
    kafka_namespace := getenv env (py "SW_KAFKA_NAMESPACE") (py "");
    kafka_topic_management :=
      getenv env (py "SW_KAFKA_TOPIC_MANAGEMENT") (py "skywalking-managements");
    kafka_topic_segment :=
      getenv env (py "SW_KAFKA_TOPIC_SEGMENT") (py "skywalking-segments");
    kafka_topic_log := getenv env (py "SW_KAFKA_TOPIC_LOG") (py "skywalking-logs");
    kafka_topic_meter :=
      getenv env (py "SW_KAFKA_TOPIC_METER") (py "skywalking-meters");
    kafka_reporter_custom_configurations :=
      getenv env (py "SW_KAFKA_REPORTER_CUSTOM_CONFIGURATIONS") (py "");
    agent_force_tls := env_flag_on env (py "SW_AGENT_FORCE_TLS");
    agent_ssl_trusted_ca_path := getenv env (py "SW_AGENT_SSL_TRUSTED_CA_PATH") (py "");
    agent_ssl_cert_chain_path := getenv env (py "SW_AGENT_SSL_CERT_CHAIN_PATH") (py "");
    agent_ssl_key_path := getenv env (py "SW_AGENT_SSL_KEY_PATH") (py "");
    agent_authentication := getenv env (py "SW_AGENT_AUTHENTICATION") (py "");
    agent_logging_level := getenv env (py "SW_AGENT_LOGGING_LEVEL") (py "INFO");
    agent_collector_heartbeat_period := v_agent_collector_heartbeat_period;
    agent_collector_properties_report_period_factor :=
      v_agent_collector_properties_report_period_factor;
    agent_instance_properties_json :=
      getenv env (py "SW_AGENT_INSTANCE_PROPERTIES_JSON") (py "");
    agent_experimental_fork_support :=
      env_flag_on env (py "SW_AGENT_EXPERIMENTAL_FORK_SUPPORT");
    agent_queue_timeout := v_agent_queue_timeout;
    agent_asyncio_enhancement := env_flag_on env (py "SW_AGENT_ASYNCIO_ENHANCEMENT");
    agent_sw_python_bootstrap_propagate :=
      env_flag_on env (py "SW_AGENT_SW_PYTHON_BOOTSTRAP_PROPAGATE");
    agent_sw_python_cli_debug_enabled :=
      env_flag_on env (py "SW_AGENT_SW_PYTHON_CLI_DEBUG_ENABLED")
  |}.

(** Trace reporter options. *)
Record TraceConfig := mkTraceConfig {
  agent_trace_reporter_max_buffer_size : Z;
  agent_trace_ignore_path : pystr;
  agent_ignore_suffix : pystr;
  correlation_element_max_number : Z;
  correlation_value_max_length : Z
}.

Definition load_trace (env : environ) : res TraceConfig :=
  v_agent_trace_reporter_max_buffer_size ←
    env_int env (py "SW_AGENT_TRACE_REPORTER_MAX_BUFFER_SIZE") (py "10000");
  v_correlation_element_max_number ←
    env_int env (py "SW_CORRELATION_ELEMENT_MAX_NUMBER") (py "3");
  v_correlation_value_max_length ←
    env_int env (py "SW_CORRELATION_VALUE_MAX_LENGTH") (py "128");
  mret {|
    agent_trace_reporter_max_buffer_size := v_agent_trace_reporter_max_buffer_size;
    agent_trace_ignore_path := getenv env (py "SW_AGENT_TRACE_IGNORE_PATH") (py "");
    agent_ignore_suffix :=
      getenv env (py "SW_AGENT_IGNORE_SUFFIX") (py ".jpg,.jpeg,.js,.css,.png,.bmp,.gif,.ico,.mp3,.mp4,.html,.svg ");
    correlation_element_max_number := v_correlation_element_max_number;
    correlation_value_max_length := v_correlation_value_max_length
  |}.

(** Profiling options. *)
Record ProfileConfig := mkProfileConfig {
  agent_profile_active : bool;
  agent_collector_get_profile_task_interval : Z;
  agent_profile_max_parallel : Z;
  agent_profile_duration : Z;
  agent_profile_dump_max_stack_depth : Z;
  agent_profile_snapshot_transport_buffer_size : Z
}.

Definition load_profile (env : environ) : res ProfileConfig :=
  v_agent_collector_get_profile_task_interval ←
    env_int env (py "SW_AGENT_COLLECTOR_GET_PROFILE_TASK_INTERVAL") (py "20");
  v_agent_profile_max_parallel ←
    env_int env (py "SW_AGENT_PROFILE_MAX_PARALLEL") (py "5");
  v_agent_profile_duration ←
    env_int env (py "SW_AGENT_PROFILE_DURATION") (py "10");
  v_agent_profile_dump_max_stack_depth ←
    env_int env (py "SW_AGENT_PROFILE_DUMP_MAX_STACK_DEPTH") (py "500");
  v_agent_profile_snapshot_transport_buffer_size ←
    env_int env (py "SW_AGENT_PROFILE_SNAPSHOT_TRANSPORT_BUFFER_SIZE") (py "50");
  mret {|
    agent_profile_active := env_flag_not_off env (py "SW_AGENT_PROFILE_ACTIVE");
    agent_collector_get_profile_task_interval :=
      v_agent_collector_get_profile_task_interval;
    agent_profile_max_parallel := v_agent_profile_max_parallel;
    agent_profile_duration := v_agent_profile_duration;
    agent_profile_dump_max_stack_depth := v_agent_profile_dump_max_stack_depth;
    agent_profile_snapshot_transport_buffer_size :=
      v_agent_profile_snapshot_transport_buffer_size
  |}.

(** Log reporter options. *)
Record LogConfig := mkLogConfig {
  agent_log_reporter_active : bool;
  agent_log_reporter_safe_mode : bool;
  agent_log_reporter_max_buffer_size : Z;
  agent_log_reporter_level : pystr;
  agent_log_reporter_ignore_filter : bool;
  agent_log_reporter_formatted : bool;
  agent_log_reporter_layout : pystr;
  agent_cause_exception_depth : Z
}.

Definition load_log (env : environ) : res LogConfig :=
  v_agent_log_reporter_max_buffer_size ←
    env_int env (py "SW_AGENT_LOG_REPORTER_MAX_BUFFER_SIZE") (py "10000");
  v_agent_cause_exception_depth ←
    env_int env (py "SW_AGENT_CAUSE_EXCEPTION_DEPTH") (py "10");
  mret {|
    agent_log_reporter_active :=
      env_flag_not_off env (py "SW_AGENT_LOG_REPORTER_ACTIVE");
    agent_log_reporter_safe_mode :=
      env_flag_on env (py "SW_AGENT_LOG_REPORTER_SAFE_MODE");
    agent_log_reporter_max_buffer_size := v_agent_log_reporter_max_buffer_size;
    agent_log_reporter_level :=
      getenv env (py "SW_AGENT_LOG_REPORTER_LEVEL") (py "WARNING");
    agent_log_reporter_ignore_filter :=
      env_flag_on env (py "SW_AGENT_LOG_REPORTER_IGNORE_FILTER");
    agent_log_reporter_formatted :=
      env_flag_not_off env (py "SW_AGENT_LOG_REPORTER_FORMATTED");
    agent_log_reporter_layout :=
      getenv env (py "SW_AGENT_LOG_REPORTER_LAYOUT") (py "%(asctime)s [%(threadName)s] %(levelname)s %(name)s - %(message)s");
    agent_cause_exception_depth := v_agent_cause_exception_depth
  |}.

(** Meter reporter options. *)
Record MeterConfig := mkMeterConfig {
  agent_meter_reporter_active : bool;
  agent_meter_reporter_max_buffer_size : Z;
  agent_meter_reporter_period : Z;
  agent_pvm_meter_reporter_active : bool
}.

Definition load_meter (env : environ) : res MeterConfig :=
  v_agent_meter_reporter_max_buffer_size ←
    env_int env (py "SW_AGENT_METER_REPORTER_MAX_BUFFER_SIZE") (py "10000");
  v_agent_meter_reporter_period ←
    env_int env (py "SW_AGENT_METER_REPORTER_PERIOD") (py "20");
  mret {|
    agent_meter_reporter_active :=
      env_flag_not_off env (py "SW_AGENT_METER_REPORTER_ACTIVE");
    agent_meter_reporter_max_buffer_size := v_agent_meter_reporter_max_buffer_size;
    agent_meter_reporter_period := v_agent_meter_reporter_period;
    agent_pvm_meter_reporter_active :=
      env_flag_not_off env (py "SW_AGENT_PVM_METER_REPORTER_ACTIVE")
  |}.

(** Plugin options. *)
Record PluginConfig := mkPluginConfig {
  agent_disable_plugins : list pystr;
  plugin_http_http_params_length_threshold : Z;
  plugin_http_ignore_method : pystr;
  plugin_sql_parameters_max_length : Z;
  plugin_pymongo_trace_parameters : bool;
  plugin_pymongo_parameters_max_length : Z;
  plugin_elasticsearch_trace_dsl : bool;
  plugin_flask_collect_http_params : bool;
  plugin_sanic_collect_http_params : bool;
  plugin_django_collect_http_params : bool;
  plugin_fastapi_collect_http_params : bool;
  plugin_bottle_collect_http_params : bool;
  plugin_celery_parameters_length : Z;
  plugin_grpc_ignored_methods : pystr
}.

Definition load_plugin (env : environ) : res PluginConfig :=
  v_plugin_http_http_params_length_threshold ←
    env_int env (py "SW_PLUGIN_HTTP_HTTP_PARAMS_LENGTH_THRESHOLD") (py "1024");
  v_plugin_sql_parameters_max_length ←
    env_int env (py "SW_PLUGIN_SQL_PARAMETERS_MAX_LENGTH") (py "0");
  v_plugin_pymongo_parameters_max_length ←
    env_int env (py "SW_PLUGIN_PYMONGO_PARAMETERS_MAX_LENGTH") (py "512");
  v_plugin_celery_parameters_length ←
    env_int env (py "SW_PLUGIN_CELERY_PARAMETERS_LENGTH") (py "512");
  mret {|
    agent_disable_plugins :=
      split_on 44 (getenv env (py "SW_AGENT_DISABLE_PLUGINS") (py ""));
    plugin_http_http_params_length_threshold :=
      v_plugin_http_http_params_length_threshold;
    plugin_http_ignore_method :=
      upper (getenv env (py "SW_PLUGIN_HTTP_IGNORE_METHOD") []);
    plugin_sql_parameters_max_length := v_plugin_sql_parameters_max_length;
    plugin_pymongo_trace_parameters :=
      env_flag_on env (py "SW_PLUGIN_PYMONGO_TRACE_PARAMETERS");
    plugin_pymongo_parameters_max_length := v_plugin_pymongo_parameters_max_length;
    plugin_elasticsearch_trace_dsl :=
      env_flag_on env (py "SW_PLUGIN_ELASTICSEARCH_TRACE_DSL");
    plugin_flask_collect_http_params :=
      env_flag_on env (py "SW_PLUGIN_FLASK_COLLECT_HTTP_PARAMS");
    plugin_sanic_collect_http_params :=
      env_flag_on env (py "SW_PLUGIN_SANIC_COLLECT_HTTP_PARAMS");
    plugin_django_collect_http_params :=
      env_flag_on env (py "SW_PLUGIN_DJANGO_COLLECT_HTTP_PARAMS");
    plugin_fastapi_collect_http_params :=
      env_flag_on env (py "SW_PLUGIN_FASTAPI_COLLECT_HTTP_PARAMS");
    plugin_bottle_collect_http_params :=
      env_flag_on env (py "SW_PLUGIN_BOTTLE_COLLECT_HTTP_PARAMS");
    plugin_celery_parameters_length := v_plugin_celery_parameters_length;
    plugin_grpc_ignored_methods :=
      upper (getenv env (py "SW_PLUGIN_GRPC_IGNORED_METHODS") [])
  |}.

(** Sampling options. *)
Record SamplingConfig := mkSamplingConfig {
  sample_n_per_3_secs : Z
}.

Definition load_sampling (env : environ) : res SamplingConfig :=
  v_sample_n_per_3_secs ←
    env_int env (py "SW_SAMPLE_N_PER_3_SECS") (py "0");
  mret {|
    sample_n_per_3_secs := v_sample_n_per_3_secs
  |}.

(** The module's globals. *)
Record Config := mkConfig {
  cfg_core :> CoreConfig;
  cfg_trace :> TraceConfig;
  cfg_profile :> ProfileConfig;
  cfg_log :> LogConfig;
  cfg_meter :> MeterConfig;
  cfg_plugin :> PluginConfig;
  cfg_sampling :> SamplingConfig;
  (** [RE_IGNORE_PATH.match(op)] is not [None]. *)
  ignore_path : pystr -> bool
}.

(** Importing config.py; [RE_IGNORE_PATH] starts as [^$]. *)
Definition load (env : environ) (uuid : pystr) : res Config :=
  c_core ← load_core env uuid;
  c_trace ← load_trace env;
  c_profile ← load_profile env;
  c_log ← load_log env;
  c_meter ← load_meter env;
  c_plugin ← load_plugin env;
  c_sampling ← load_sampling env;
  mret (mkConfig c_core c_trace c_profile c_log c_meter c_plugin c_sampling
          (fun op => bool_decide (op = []))).

(** ** Ignored operations: the matcher [finalize_regex] compiles *)

(** One element of a path pattern, with the regular expression it becomes. *)
Inductive glob_token :=
| GLit (c : Z)      (* the escaped character *)
| GAny              (* ?     [^/] *)
| GStar             (* *     [^/]* *)
| GDeep             (* **    (?:(?:[^/]+/)*[^/]+)? *)
| GDirs.            (* /**/  /(?:[^/]*/)* *)

(** Split at the (non-overlapping, leftmost) occurrences of a separator. *)
Fixpoint split_str (fuel : nat) (sep acc s : pystr) : list pystr :=
  match fuel, s with
  | S fuel', c :: s' =>
      if startswith sep s then rev acc :: split_str fuel' sep [] (drop (length sep) s)
      else split_str fuel' sep (c :: acc) s'
  | _, _ => [rev acc]
  end.
Definition str_split (sep s : pystr) : list pystr := split_str (length s) sep [] s.

(** [sep.join(...)] on token lists. *)
Fixpoint join_tokens (sep : glob_token) (l : list (list glob_token)) : list glob_token :=
  match l with
  | [] => []
  | [x] => x
  | x :: l' => x ++ sep :: join_tokens sep l'
  end.

(** The nested joins of [finalize_regex] for one comma-separated pattern. *)
Definition compile_path (p0 : pystr) : list glob_token :=
  join_tokens GDirs (map (fun p1 =>
    join_tokens GDeep (map (fun p2 =>
      join_tokens GStar (map (fun p3 =>
        join_tokens GAny (map (map GLit) (str_split (py "?") p3)))
      (str_split (py "*") p2)))
    (str_split (py "**") (strip p1))))
  (str_split (py "/**/") p0)).

Definition no_slash (u : pystr) : bool := bool_decide (47 ∉ u).

(** The strings one token matches. *)
Definition token_match (t : glob_token) (u : pystr) : bool :=
  match t with
  | GLit c => bool_decide (u = [c])
  | GAny => (Nat.eqb (length u) 1) && no_slash u
  | GStar => no_slash u
  | GDeep => bool_decide (u = []) || forallb (fun seg => bool_decide (seg ≠ [])) (split_on 47 u)
  | GDirs => bool_decide (head u = Some 47) && bool_decide (last u = Some 47)
  end.

(** [$] matches at the end and before a final newline. *)
Definition at_end (s : pystr) : bool := bool_decide (s = []) || bool_decide (s = [10]).

Fixpoint tokens_match (ts : list glob_token) (s : pystr) : bool :=
  match ts with
  | [] => at_end s
  | t :: ts' =>
      existsb (fun n => token_match t (take n s) && tokens_match ts' (drop n s))
        (seq 0 (S (length s)))
  end.

(** [^.+(?:suffix)$]; [.] matches everything but a newline. *)
Definition suffix_match (suffix s : pystr) : bool :=
  existsb (fun n => bool_decide (10 ∉ take n s) && startswith suffix (drop n s) &&
                    at_end (drop (length suffix) (drop n s)))
    (seq 1 (length s)).

(** [RE_IGNORE_PATH.match(op) is not None] *)
Definition compile_ignore (ignore_suffix trace_ignore_path op : pystr) : bool :=
  existsb (fun sf => suffix_match (strip sf) op) (split_on 44 ignore_suffix) ||
  existsb (fun p0 => tokens_match (compile_path p0) op) (split_on 44 trace_ignore_path).

(** ** finalize *)

(** [finalize_feature]: features the protocol lacks are switched off. *)
Definition finalize_feature (c : Config) : Config :=
  let with_features (p m : bool) :=
    mkConfig c c
      {| agent_profile_active := p;
         agent_collector_get_profile_task_interval := agent_collector_get_profile_task_interval c;
         agent_profile_max_parallel := agent_profile_max_parallel c;
         agent_profile_duration := agent_profile_duration c;
         agent_profile_dump_max_stack_depth := agent_profile_dump_max_stack_depth c;
         agent_profile_snapshot_transport_buffer_size :=
           agent_profile_snapshot_transport_buffer_size c |}
      c
      {| agent_meter_reporter_active := m;
         agent_meter_reporter_max_buffer_size := agent_meter_reporter_max_buffer_size c;
         agent_meter_reporter_period := agent_meter_reporter_period c;
         agent_pvm_meter_reporter_active := agent_pvm_meter_reporter_active c |}
      c c (ignore_path c) in
  if bool_decide (agent_protocol c = py "http") &&
     (agent_profile_active c || agent_meter_reporter_active c)
  then with_features false false
  else if bool_decide (agent_protocol c = py "kafka") && agent_profile_active c
  then with_features false (agent_meter_reporter_active c)
  else c.

(** The [RE_IGNORE_PATH] part of [finalize_regex]. *)
Definition finalize_regex (c : Config) : Config :=
  mkConfig c c c c c c c (compile_ignore (agent_ignore_suffix c) (agent_trace_ignore_path c)).

(** [finalize_name]: namespace suffix of the service, prefix of the topics. *)
Definition finalize_name (c : Config) : Config :=
  let name := if decide (agent_namespace c = []) then agent_name c
              else agent_name c ++ [124] ++ agent_namespace c in
  let topic (t : pystr) := if decide (kafka_namespace c = []) then t
                           else kafka_namespace c ++ [45] ++ t in
  mkConfig
    {|
      agent_collector_backend_services := agent_collector_backend_services c;
      agent_protocol := agent_protocol c;
      agent_name := name;
      agent_instance_name := agent_instance_name c;
      agent_namespace := agent_namespace c;
      kafka_bootstrap_servers := kafka_bootstrap_servers c;
      kafka_namespace := kafka_namespace c;
      kafka_topic_management := topic (kafka_topic_management c);
      kafka_topic_segment := topic (kafka_topic_segment c);
      kafka_topic_log := topic (kafka_topic_log c);
      kafka_topic_meter := topic (kafka_topic_meter c);
      kafka_reporter_custom_configurations := kafka_reporter_custom_configurations c;
      agent_force_tls := agent_force_tls c;
      agent_ssl_trusted_ca_path := agent_ssl_trusted_ca_path c;
      agent_ssl_cert_chain_path := agent_ssl_cert_chain_path c;
      agent_ssl_key_path := agent_ssl_key_path c;
      agent_authentication := agent_authentication c;
      agent_logging_level := agent_logging_level c;
      agent_collector_heartbeat_period := agent_collector_heartbeat_period c;
      agent_collector_properties_report_period_factor := agent_collector_properties_report_period_factor c;
      agent_instance_properties_json := agent_instance_properties_json c;
      agent_experimental_fork_support := agent_experimental_fork_support c;
      agent_queue_timeout := agent_queue_timeout c;
      agent_asyncio_enhancement := agent_asyncio_enhancement c;
      agent_sw_python_bootstrap_propagate := agent_sw_python_bootstrap_propagate c;
      agent_sw_python_cli_debug_enabled := agent_sw_python_cli_debug_enabled c
    |}
    c c c c c c (ignore_path c).

Definition finalize (c : Config) : Config :=
  finalize_name (finalize_regex (finalize_feature c)).

(** The value of a computation that is known to return. *)
Definition from_ok {A} (r : res A) : (match r with Ok _ => true | Raise _ => false end) = true -> A :=
  match r with
  | Ok a => fun _ => a
  | Raise e => fun H => match Bool.diff_false_true H with end
  end.

(** The configuration of an agent started with no environment variable set. *)
Definition default_config : Config :=
  finalize (from_ok (load (fun _ => None) (py "1b9d6bcd")) eq_refl).

(** ** Properties of the ignore matcher *)

Lemma existsb_seq (f : nat -> bool) a n :
  existsb f (seq a n) = true <-> ∃ i, (a <= i < a + n)%nat ∧ f i = true.
Proof.
  rewrite existsb_exists. split; intros (i & Hi & Hf); exists i; (split; [|done]).
  - apply in_seq in Hi. lia.
  - apply in_seq. lia.
Qed.

(** The compiled ignore matcher recognises exactly the concatenations its pattern
    describes: an operation matches a path pattern when it splits into one piece per
    token, up to a final newline. *)
Theorem tokens_match_spec ts s :
  tokens_match ts s = true <->
  ∃ pieces rest, s = concat pieces ++ rest ∧ Forall2 (fun t u => token_match t u = true) ts pieces ∧
    (rest = [] ∨ rest = [10]).
Proof.
  revert s. induction ts as [|t ts IH]; intros s; cbn [tokens_match].
  - unfold at_end. rewrite orb_true_iff, !bool_decide_eq_true. split.
    + intros Hs. by exists [], s.
    + intros (pieces & rest & -> & Hp%Forall2_nil_inv_l & Hr). by subst.
  - rewrite existsb_seq. split.
    + intros (n & Hn & [Ht (pieces & rest & Hs & Hp & Hr)%IH]%andb_true_iff).
      exists (take n s :: pieces), rest. split_and!; [|by constructor | done].
      cbn. by rewrite <- app_assoc, <- Hs, take_drop.
    + intros (pieces & rest & -> & Hp & Hr). inversion Hp as [|? u ? us Hu Hus]; subst.
      exists (length u). cbn [concat]. split; [rewrite !length_app; lia|].
      rewrite <- app_assoc, take_app_length, drop_app_length, Hu. cbn. apply IH. by exists us, rest.
Qed.

(** An empty list of ignored suffixes does not mean that no suffix is ignored: it
    compiles to the pattern [^.+(?:)$] and every operation name without a newline is
    ignored. *)
Theorem empty_suffix_ignores_all path op :
  op ≠ [] -> 10 ∉ op -> compile_ignore [] path op = true.
Proof.
  intros Hne Hnl. unfold compile_ignore. apply orb_true_iff. left. cbn. rewrite orb_false_r.
  apply existsb_seq. exists (length op). split.
  - destruct op; cbn; [done | lia].
  - rewrite take_ge by lia. rewrite bool_decide_eq_true_2 by done.
    rewrite (drop_ge op) by lia. reflexivity.
Qed.

Lemma empty_suffix_ignores_all_witness :
  py "/api" ≠ [] ∧ compile_ignore [] [] (py "/api") = true.
Proof.
  split; [done|]. apply (empty_suffix_ignores_all [] (py "/api")); [done|].
  by apply (bool_decide_unpack _).
Defined.

Example ignore_examples :
  compile_ignore (py ".jpg, .css") (py "/health,/api/**/x?,/a*z/**") <$>
    [py "/img.jpg"; py "/x.css"; py "/health"; py "/healthz"; py "/api/x1"; py "/api/q/r/x1";
     py "/api/q/r/x"; py "/abz/k/l"; py "/a/z/k"; py "other"] =
  [true; true; true; false; true; true; false; true; false; false].
Proof. vm_compute. reflexivity. Qed.
