(* ===== verification/Filter.v ===== *)
(** * Removing credentials from text: utils/filter.py

    [sw_filter] rewrites every match of the regular expression [://(.*?)@] to
    [://]: the shortest run after [://] up to an [@], never across a newline. *)

From S2P Require Import Prelude PyData PyText Config.

(** The rest of the text after the first [@], when no newline comes before it. *)
Fixpoint skip_to_at (s : pystr) : option pystr :=
  match s with
  | [] => None
  | c :: s' => if c =? 64 then Some s' else if c =? 10 then None else skip_to_at s'
  end.

(** [re.sub(r'://(.*?)@', r'://', s)], scanning left to right. *)
Fixpoint sub_credentials (fuel : nat) (s : pystr) : pystr :=
  match fuel with
  | O => s
  | S fuel' =>
      match s with
      | [] => []
      | c :: s' =>
          if startswith (py "://") s then
            match skip_to_at (drop 3 s) with
            | Some rest => py "://" ++ sub_credentials fuel' rest
            | None => c :: sub_credentials fuel' s'
            end
          else c :: sub_credentials fuel' s'
      end
  end.

(** [sw_filter] *)
Definition sw_filter (cfg : Config) (target : pystr) : pystr :=
  if agent_log_reporter_safe_mode cfg then sub_credentials (length target) target else target.

(** [sw_traceback]: [format_exc] is the text of the traceback being handled,
    cut at [limit] entries. *)
Definition sw_traceback (cfg : Config) (format_exc : Z -> pystr) : pystr :=
  sw_filter cfg (format_exc (agent_cause_exception_depth cfg)).

Lemma skip_to_at_length s r : skip_to_at s = Some r -> (length r < length s)%nat.
Proof.
  induction s as [|c s IH]; cbn; [done|].
  intros H. repeat case_match; simplify_eq; try specialize (IH H); lia.
Qed.

Lemma skip_to_at_app u r :
  64 ∉ u -> 10 ∉ u -> skip_to_at (u ++ 64 :: r) = Some r.
Proof.
  induction u as [|c u IH]; intros H1 H2; cbn; [done|].
  rewrite (proj2 (Z.eqb_neq c 64)) by set_solver.
  rewrite (proj2 (Z.eqb_neq c 10)) by set_solver.
  apply IH; set_solver.
Qed.

(** The fuel [sw_filter] gives is enough: more does not change the result. *)
Lemma sub_credentials_fuel n m s :
  (length s <= n)%nat -> (length s <= m)%nat -> sub_credentials n s = sub_credentials m s.
Proof.
  revert m s. induction n as [|n IH]; intros m s Hn Hm.
  - destruct s; [|cbn in Hn; lia]. by destruct m.
  - destruct m as [|m]; [destruct s; [done | cbn in Hm; lia]|].
    cbn [sub_credentials]. destruct s as [|c s']; [done|]. cbn [length] in Hn, Hm.
    destruct (startswith _ _); [|f_equal; apply IH; lia].
    destruct (skip_to_at _) as [rest|] eqn:E; [|f_equal; apply IH; lia].
    f_equal. apply skip_to_at_length in E. rewrite length_drop in E. cbn [length] in E.
    apply IH; lia.
Qed.

(** Text with no ['@'] goes through unchanged. *)
Lemma skip_to_at_None s : 64 ∉ s -> skip_to_at s = None.
Proof.
  induction s as [|c s IH]; intros H; cbn; [done|].
  rewrite (proj2 (Z.eqb_neq c 64)) by set_solver. case_match; [done|]. apply IH; set_solver.
Qed.

Lemma sub_credentials_no_at n s : 64 ∉ s -> sub_credentials n s = s.
Proof.
  revert s. induction n as [|n IH]; intros s H; [done|].
  destruct s as [|c s']; [done|]. cbn [sub_credentials].
  assert (64 ∉ s') by set_solver.
  destruct (startswith _ _); [|by rewrite IH].
  rewrite skip_to_at_None; [by rewrite IH|].
  intros Hin. apply H. rewrite <- (take_drop 3 (c :: s')). set_solver.
Qed.
