(* ===== verification/Sampling.v ===== *)
(** * Sampling: sampling/sampling_service.py and sampling/__init__.py

    The service counts the segments sampled since the last reset; a daemon
    resets the counter every three seconds.  Each operation runs under the
    service's lock, so an execution is a sequence of atomic operations. *)

From S2P Require Import Prelude.

(** ** class SamplingServiceBase: [sampling_factor] is the state. *)

Section sampling.
(** [config.sample_n_per_3_secs] *)
Context (sample_n_per_3_secs : Z).

Definition can_sampling (sampling_factor : Z) : bool := sampling_factor <? sample_n_per_3_secs.

Definition incr_sampling_factor (sampling_factor : Z) : Z := sampling_factor + 1.
Definition set_sampling_factor (val : Z) (sampling_factor : Z) : Z := val.

(** [_try_sampling] *)
Definition try_sampling (sampling_factor : Z) : Z * bool :=
  if can_sampling sampling_factor then (incr_sampling_factor sampling_factor, true)
  else (sampling_factor, false).

(** [force_sampled] and [reset_sampling_factor], the other locked operations. *)
Definition force_sampled (sampling_factor : Z) : Z := incr_sampling_factor sampling_factor.
Definition reset_sampling_factor (sampling_factor : Z) : Z := set_sampling_factor 0 sampling_factor.

(** [sampling.init(force)]: keep a running service unless forced. *)
Definition init (force : bool) (service : option Z) : option Z :=
  match service with
  | Some f => if force then Some 0 else Some f
  | None => Some 0
  end.

(** ** Executions: the atomic operations threads perform on one service *)

Inductive sampling_op := OTry | OForce | OReset.

(** Run the operations; collect the answers of [try_sampling]. *)
Fixpoint run (ops : list sampling_op) (f : Z) : Z * list bool :=
  match ops with
  | [] => (f, [])
  | OTry :: ops' =>
      let '(f1, b) := try_sampling f in let '(f2, bs) := run ops' f1 in (f2, b :: bs)
  | OForce :: ops' => run ops' (force_sampled f)
  | OReset :: ops' => run ops' (reset_sampling_factor f)
  end.

(** [n] tries in a row starting from factor [f]: how many succeed. *)
Lemma run_tries n f :
  0 <= f ->
  run (replicate n OTry) f =
    (Z.max f (Z.min (f + Z.of_nat n) sample_n_per_3_secs),
     replicate (Z.to_nat (Z.max 0 (Z.min (Z.of_nat n) (sample_n_per_3_secs - f)))) true ++
     replicate (n - Z.to_nat (Z.max 0 (Z.min (Z.of_nat n) (sample_n_per_3_secs - f)))) false).
Proof.
  revert f. induction n as [|n IH]; intros f Hf; cbn [replicate run].
  { replace (Z.to_nat _) with 0%nat by lia. cbn. f_equal. lia. }
  unfold try_sampling, can_sampling, incr_sampling_factor.
  destruct (Z.ltb_spec f sample_n_per_3_secs); rewrite IH by lia.
  - replace (Z.to_nat (Z.max 0 (Z.min (Z.of_nat (S n)) (sample_n_per_3_secs - f))))
      with (S (Z.to_nat (Z.max 0 (Z.min (Z.of_nat n) (sample_n_per_3_secs - (f + 1)))))) by lia.
    cbn. f_equal. lia.
  - replace (Z.to_nat (Z.max 0 (Z.min (Z.of_nat n) (sample_n_per_3_secs - f)))) with 0%nat by lia.
    replace (Z.to_nat (Z.max 0 (Z.min (Z.of_nat (S n)) (sample_n_per_3_secs - f))))
      with 0%nat by lia.
    cbn. rewrite Nat.sub_0_r. f_equal. lia.
Qed.

(** The number of positive answers in a run. *)
Fixpoint sampled (bs : list bool) : Z :=
  match bs with [] => 0 | b :: bs' => (if b then 1 else 0) + sampled bs' end.

Lemma run_app ops1 ops2 f :
  run (ops1 ++ ops2) f =
    let '(f1, bs1) := run ops1 f in let '(f2, bs2) := run ops2 f1 in (f2, bs1 ++ bs2).
Proof.
  revert f. induction ops1 as [|[] ops1 IH]; intros f; cbn.
  - by destruct (run ops2 f).
  - destruct (try_sampling f) as [f1 b]. rewrite IH.
    destruct (run ops1 f1), (run ops2 _). done.
  - apply IH.
  - apply IH.
Qed.

(** Between two resets: the positive answers are exactly what the budget left
    by forced samples allows. *)
Lemma window_bound ops f :
  OReset ∉ ops -> 0 <= f ->
  f <= (run ops f).1 ∧
  sampled (run ops f).2 <= Z.max 0 (sample_n_per_3_secs - f).
Proof.
  revert f. induction ops as [|o ops IH]; intros f Hn Hf; cbn; [lia|].
  assert (OReset ∉ ops) as Hn' by set_solver.
  destruct o; [| |set_solver].
  - unfold try_sampling, can_sampling, incr_sampling_factor.
    destruct (Z.ltb_spec f sample_n_per_3_secs).
    + destruct (IH (f + 1) Hn' ltac:(lia)) as [H1 H2].
      destruct (run ops (f + 1)) as [f2 bs]; cbn in *. lia.
    + destruct (IH f Hn' Hf) as [H1 H2]. destruct (run ops f) as [f2 bs]; cbn in *. lia.
  - unfold force_sampled, incr_sampling_factor.
    destruct (IH (f + 1) Hn' ltac:(lia)) as [H1 H2]. lia.
Qed.

(** Whatever the threads did before, between a reset and the next one at
    most [sample_n_per_3_secs] calls of [try_sampling] answer yes, and with no
    forced sample exactly the first [sample_n_per_3_secs] of them do. *)
Theorem sampling_window before window f0 :
  OReset ∉ window -> 0 <= sample_n_per_3_secs ->
  sampled (run window (run (before ++ [OReset]) f0).1).2 <= sample_n_per_3_secs ∧
  (∀ n, window = replicate n OTry ->
    (run window (run (before ++ [OReset]) f0).1).2 =
      replicate (Nat.min n (Z.to_nat sample_n_per_3_secs)) true ++
      replicate (n - Z.to_nat sample_n_per_3_secs) false).
Proof.
  intros Hw Hn. assert ((run (before ++ [OReset]) f0).1 = 0) as ->.
  { rewrite run_app. by destruct (run before f0). }
  split.
  - pose proof (window_bound window 0 Hw ltac:(lia)). lia.
  - intros n ->. rewrite run_tries by lia. cbn [snd]. f_equal; f_equal; lia.
Qed.
End sampling.

Lemma sampling_window_witness :
  (run 2 [OTry; OTry; OTry] (run 2 ([OTry; OForce] ++ [OReset]) 0).1).2 = [true; true; false].
Proof.
  apply (sampling_window 2 [OTry; OForce] [OTry; OTry; OTry] 0) with (n := 3%nat);
    [set_solver | lia | reflexivity].
Defined.
