(* ===== verification/TraceData.v ===== *)
(** * Data of the tracer: skywalking/__init__.py, trace/tags.py, trace/__init__.py,
    trace/segment.py, trace/span.py

    Enumerations, tags, logs, identifiers, segments, spans and contexts as the
    classes declare them.  An object other objects share is a location in a
    store ([nat]); everything else is a value. *)

From S2P Require Import Prelude PyData PyText Carrier.

(** ** Enumerations *)

Module Component.
Inductive t :=
  | Unknown | General | Flask | Requests | PyMysql | Django | Tornado | Redis | MongoDB
  | PostgreSQL | KafkaProducer | KafkaConsumer | RabbitmqProducer | RabbitmqConsumer
  | PulsarProducer | PulsarConsumer | Elasticsearch | HBase | Neo4j | Urllib3 | Sanic
  | AioHttp | Pyramid | Psycopg | Celery | Falcon | MysqlClient | FastAPI | Bottle
  | AsyncPG | AIORedis | Websockets | HTTPX | Grpc.

Definition value (c : t) : Z :=
  match c with
  | Unknown => 0 | General => 7000 | Flask => 7001 | Requests => 7002 | PyMysql => 7003
  | Django => 7004 | Tornado => 7005 | Redis => 7 | MongoDB => 9 | PostgreSQL => 22
  | KafkaProducer => 40 | KafkaConsumer => 41 | RabbitmqProducer => 52
  | RabbitmqConsumer => 53 | PulsarProducer => 73 | PulsarConsumer => 74
  | Elasticsearch => 47 | HBase => 94 | Neo4j => 112 | Urllib3 => 7006 | Sanic => 7007
  | AioHttp => 7008 | Pyramid => 7009 | Psycopg => 7010 | Celery => 7011 | Falcon => 7012
  | MysqlClient => 7013 | FastAPI => 7014 | Bottle => 7015 | AsyncPG => 7016
  | AIORedis => 7017 | Websockets => 7018 | HTTPX => 7019 | Grpc => 23
  end.
End Component.

Module Layer.
Inductive t := Unknown | Database | RPCFramework | Http | MQ | Cache.

Definition value (l : t) : Z :=
  match l with
  | Unknown => 0 | Database => 1 | RPCFramework => 2 | Http => 3 | MQ => 4 | Cache => 5
  end.
End Layer.

Module Kind.
Inductive t := Local | Entry | Exit.

Definition is_local (k : t) : bool := match k with Local => true | _ => false end.
Definition is_entry (k : t) : bool := match k with Entry => true | _ => false end.
Definition is_exit (k : t) : bool := match k with Exit => true | _ => false end.
End Kind.

#[export] Instance Component_eq_dec : EqDecision Component.t.
Proof. solve_decision. Defined.
#[export] Instance Layer_eq_dec : EqDecision Layer.t.
Proof. solve_decision. Defined.
#[export] Instance Kind_eq_dec : EqDecision Kind.t.
Proof. solve_decision. Defined.

(** ** Tags

    A tag class has a key and says whether a second tag of the key replaces
    the first; an instance adds the value, already converted by [str]. *)
Record Tag := mkTag { tag_key : pystr; tag_overridable : bool; tag_val : pystr }.

Definition TagHttpMethod (val : pystr) : Tag := mkTag (py "http.method") true val.
Definition TagHttpURL (val : pystr) : Tag := mkTag (py "http.url") true val.
Definition TagHttpStatusCode (val : pystr) : Tag := mkTag (py "http.status_code") true val.
Definition TagHttpStatusMsg (val : pystr) : Tag := mkTag (py "http.status_msg") true val.
Definition TagHttpParams (val : pystr) : Tag := mkTag (py "http.params") true val.
Definition TagDbType (val : pystr) : Tag := mkTag (py "db.type") true val.
Definition TagDbInstance (val : pystr) : Tag := mkTag (py "db.instance") true val.
Definition TagDbStatement (val : pystr) : Tag := mkTag (py "db.statement") true val.
Definition TagDbSqlParameters (val : pystr) : Tag := mkTag (py "db.sql.parameters") false val.
Definition TagCacheType (val : pystr) : Tag := mkTag (py "cache.type") true val.
Definition TagCacheOp (val : pystr) : Tag := mkTag (py "cache.op") true val.
Definition TagCacheCmd (val : pystr) : Tag := mkTag (py "cache.cmd") true val.
Definition TagCacheKey (val : pystr) : Tag := mkTag (py "cache.key") true val.
Definition TagMqBroker (val : pystr) : Tag := mkTag (py "mq.broker") true val.
Definition TagMqTopic (val : pystr) : Tag := mkTag (py "mq.topic") true val.
Definition TagMqQueue (val : pystr) : Tag := mkTag (py "mq.queue") true val.
Definition TagCeleryParameters (val : pystr) : Tag := mkTag (py "celery.parameters") true val.
Definition TagGrpcMethod (val : pystr) : Tag := mkTag (py "grpc.method") true val.
Definition TagGrpcUrl (val : pystr) : Tag := mkTag (py "grpc.url") true val.
Definition TagGrpcStatusCode (val : pystr) : Tag := mkTag (py "grpc.status_code") true val.

(** ** Logs

    [Log.__init__] has [time.time()] as the default of [timestamp]: the default
    is evaluated when the class is defined, so it is a constant of the process
    ([import_time], in microseconds).  Both callers rely on the default. *)
Record Log := mkLog { log_timestamp : Z; log_items : list (pystr * pystr) }.

(** [Log(items=items)] *)
Definition new_log (import_time : Z) (items : list (pystr * pystr)) : Log :=
  mkLog import_time items.

(** ** Identifiers *)

Inductive IDClass := PlainID | NewID | NewNoopID.

Record ID := mkID { id_class : IDClass; id_value : pystr }.

(** [isinstance(x, _NewID)] *)
Definition is_NewID (i : ID) : bool := match id_class i with NewID => true | _ => false end.

(** ** Segments; a span is referred to by its location *)
Record Segment := mkSegment {
  seg_id : ID;
  seg_spans : list nat;
  seg_timestamp : Z;
  related_traces : list ID;
  is_size_limited : bool
}.

(** ** Spans *)

Inductive SpanClass := ClsSpan | ClsEntrySpan | ClsExitSpan | ClsNoopSpan.

(** A value of [Span.tags]: one tag, or the list a non-overridable tag makes. *)
Inductive TagSlot := TagOne (t : Tag) | TagMany (l : list Tag).

(** Attributes of [Span] and its subclasses; [max_depth] exists on entry spans. *)
Record Span := mkSpan {
  cls : SpanClass;
  depth : Z;
  context : nat;
  sid : Z;
  pid : Z;
  op : pystr;
  peer : option pystr;
  kind : Kind.t;
  component : Component.t;
  layer : Layer.t;
  inherit : Component.t;
  tags : list (pystr * TagSlot);
  logs : list Log;
  refs : list SegmentRef;
  start_time : Z;
  end_time : Z;
  error_occurred : bool;
  max_depth : Z
}.

Definition set_depth (v : Z) (x : Span) : Span :=
  {|
    cls := cls x; depth := v; context := context x; sid := sid x; pid := pid x; op := op x;
    peer := peer x; kind := kind x; component := component x; layer := layer x;
    inherit := inherit x; tags := tags x; logs := logs x; refs := refs x;
    start_time := start_time x; end_time := end_time x; error_occurred := error_occurred x;
    max_depth := max_depth x
  |}.
Definition set_op (v : pystr) (x : Span) : Span :=
  {|
    cls := cls x; depth := depth x; context := context x; sid := sid x; pid := pid x;
    op := v; peer := peer x; kind := kind x; component := component x; layer := layer x;
    inherit := inherit x; tags := tags x; logs := logs x; refs := refs x;
    start_time := start_time x; end_time := end_time x; error_occurred := error_occurred x;
    max_depth := max_depth x
  |}.
Definition set_peer (v : option pystr) (x : Span) : Span :=
  {|
    cls := cls x; depth := depth x; context := context x; sid := sid x; pid := pid x;
    op := op x; peer := v; kind := kind x; component := component x; layer := layer x;
    inherit := inherit x; tags := tags x; logs := logs x; refs := refs x;
    start_time := start_time x; end_time := end_time x; error_occurred := error_occurred x;
    max_depth := max_depth x
  |}.
Definition set_component (v : Component.t) (x : Span) : Span :=
  {|
    cls := cls x; depth := depth x; context := context x; sid := sid x; pid := pid x;
    op := op x; peer := peer x; kind := kind x; component := v; layer := layer x;
    inherit := inherit x; tags := tags x; logs := logs x; refs := refs x;
    start_time := start_time x; end_time := end_time x; error_occurred := error_occurred x;
    max_depth := max_depth x
  |}.
Definition set_layer (v : Layer.t) (x : Span) : Span :=
  {|
    cls := cls x; depth := depth x; context := context x; sid := sid x; pid := pid x;
    op := op x; peer := peer x; kind := kind x; component := component x; layer := v;
    inherit := inherit x; tags := tags x; logs := logs x; refs := refs x;
    start_time := start_time x; end_time := end_time x; error_occurred := error_occurred x;
    max_depth := max_depth x
  |}.
Definition set_inherit (v : Component.t) (x : Span) : Span :=
  {|
    cls := cls x; depth := depth x; context := context x; sid := sid x; pid := pid x;
    op := op x; peer := peer x; kind := kind x; component := component x; layer := layer x;
    inherit := v; tags := tags x; logs := logs x; refs := refs x;
    start_time := start_time x; end_time := end_time x; error_occurred := error_occurred x;
    max_depth := max_depth x
  |}.
Definition set_tags (v : list (pystr * TagSlot)) (x : Span) : Span :=
  {|
    cls := cls x; depth := depth x; context := context x; sid := sid x; pid := pid x;
    op := op x; peer := peer x; kind := kind x; component := component x; layer := layer x;
    inherit := inherit x; tags := v; logs := logs x; refs := refs x;
    start_time := start_time x; end_time := end_time x; error_occurred := error_occurred x;
    max_depth := max_depth x
  |}.
Definition set_logs (v : list Log) (x : Span) : Span :=
  {|
    cls := cls x; depth := depth x; context := context x; sid := sid x; pid := pid x;
    op := op x; peer := peer x; kind := kind x; component := component x; layer := layer x;
    inherit := inherit x; tags := tags x; logs := v; refs := refs x;
    start_time := start_time x; end_time := end_time x; error_occurred := error_occurred x;
    max_depth := max_depth x
  |}.
Definition set_refs (v : list SegmentRef) (x : Span) : Span :=
  {|
    cls := cls x; depth := depth x; context := context x; sid := sid x; pid := pid x;
    op := op x; peer := peer x; kind := kind x; component := component x; layer := layer x;
    inherit := inherit x; tags := tags x; logs := logs x; refs := v;
    start_time := start_time x; end_time := end_time x; error_occurred := error_occurred x;
    max_depth := max_depth x
  |}.
Definition set_start_time (v : Z) (x : Span) : Span :=
  {|
    cls := cls x; depth := depth x; context := context x; sid := sid x; pid := pid x;
    op := op x; peer := peer x; kind := kind x; component := component x; layer := layer x;
    inherit := inherit x; tags := tags x; logs := logs x; refs := refs x; start_time := v;
    end_time := end_time x; error_occurred := error_occurred x; max_depth := max_depth x
  |}.
Definition set_end_time (v : Z) (x : Span) : Span :=
  {|
    cls := cls x; depth := depth x; context := context x; sid := sid x; pid := pid x;
    op := op x; peer := peer x; kind := kind x; component := component x; layer := layer x;
    inherit := inherit x; tags := tags x; logs := logs x; refs := refs x;
    start_time := start_time x; end_time := v; error_occurred := error_occurred x;
    max_depth := max_depth x
  |}.
Definition set_error_occurred (v : bool) (x : Span) : Span :=
  {|
    cls := cls x; depth := depth x; context := context x; sid := sid x; pid := pid x;
    op := op x; peer := peer x; kind := kind x; component := component x; layer := layer x;
    inherit := inherit x; tags := tags x; logs := logs x; refs := refs x;
    start_time := start_time x; end_time := end_time x; error_occurred := v;
    max_depth := max_depth x
  |}.
Definition set_max_depth (v : Z) (x : Span) : Span :=
  {|
    cls := cls x; depth := depth x; context := context x; sid := sid x; pid := pid x;
    op := op x; peer := peer x; kind := kind x; component := component x; layer := layer x;
    inherit := inherit x; tags := tags x; logs := logs x; refs := refs x;
    start_time := start_time x; end_time := end_time x; error_occurred := error_occurred x;
    max_depth := v
  |}.

(** ** Contexts

    A [SpanContext] ([noop = false]) or a [NoopContext].  Each owns one segment
    for life, so a context's location also names its segment.  [sid_counter]
    is [_sid.value].  [ctx_correlation] and [profile_status] are references;
    [primary_endpoint] is the span of the [PrimaryEndpoint] object. *)
Record Ctx := mkCtx {
  noop : bool;
  segment : Segment;
  sid_counter : Z;
  ctx_correlation : nat;
  nspans : Z;
  profile_status : option nat;
  create_time : Z;
  primary_endpoint : option nat
}.

Definition set_segment (v : Segment) (x : Ctx) : Ctx :=
  {|
    noop := noop x; segment := v; sid_counter := sid_counter x;
    ctx_correlation := ctx_correlation x; nspans := nspans x;
    profile_status := profile_status x; create_time := create_time x;
    primary_endpoint := primary_endpoint x
  |}.
Definition set_sid_counter (v : Z) (x : Ctx) : Ctx :=
  {|
    noop := noop x; segment := segment x; sid_counter := v;
    ctx_correlation := ctx_correlation x; nspans := nspans x;
    profile_status := profile_status x; create_time := create_time x;
    primary_endpoint := primary_endpoint x
  |}.
Definition set_ctx_correlation (v : nat) (x : Ctx) : Ctx :=
  {|
    noop := noop x; segment := segment x; sid_counter := sid_counter x;
    ctx_correlation := v; nspans := nspans x; profile_status := profile_status x;
    create_time := create_time x; primary_endpoint := primary_endpoint x
  |}.
Definition set_nspans (v : Z) (x : Ctx) : Ctx :=
  {|
    noop := noop x; segment := segment x; sid_counter := sid_counter x;
    ctx_correlation := ctx_correlation x; nspans := v; profile_status := profile_status x;
    create_time := create_time x; primary_endpoint := primary_endpoint x
  |}.
Definition set_profile_status (v : option nat) (x : Ctx) : Ctx :=
  {|
    noop := noop x; segment := segment x; sid_counter := sid_counter x;
    ctx_correlation := ctx_correlation x; nspans := nspans x; profile_status := v;
    create_time := create_time x; primary_endpoint := primary_endpoint x
  |}.
Definition set_primary_endpoint (v : option nat) (x : Ctx) : Ctx :=
  {|
    noop := noop x; segment := segment x; sid_counter := sid_counter x;
    ctx_correlation := ctx_correlation x; nspans := nspans x;
    profile_status := profile_status x; create_time := create_time x; primary_endpoint := v
  |}.

Definition set_seg_spans (v : list nat) (x : Segment) : Segment :=
  {|
    seg_id := seg_id x; seg_spans := v; seg_timestamp := seg_timestamp x;
    related_traces := related_traces x; is_size_limited := is_size_limited x
  |}.
Definition set_related_traces (v : list ID) (x : Segment) : Segment :=
  {|
    seg_id := seg_id x; seg_spans := seg_spans x; seg_timestamp := seg_timestamp x;
    related_traces := v; is_size_limited := is_size_limited x
  |}.
Definition set_is_size_limited (v : bool) (x : Segment) : Segment :=
  {|
    seg_id := seg_id x; seg_spans := seg_spans x; seg_timestamp := seg_timestamp x;
    related_traces := related_traces x; is_size_limited := v
  |}.

(** ** Inhabitants, for total lookup in stores whose keys are known to exist *)

#[export] Instance Segment_inhabited : Inhabited Segment :=
  populate (mkSegment (mkID PlainID []) [] 0 [] false).
#[export] Instance Span_inhabited : Inhabited Span :=
  populate (mkSpan ClsNoopSpan 0 0 (-1) (-1) [] None Kind.Local Component.Unknown Layer.Unknown
    Component.Unknown [] [] [] 0 0 false 0).
#[export] Instance Ctx_inhabited : Inhabited Ctx :=
  populate (mkCtx true inhabitant (-1) 0 0 None 0 None).

(** ** Tags of a span *)

(** [Span.tag]: an overridable tag replaces the slot of its key, another is
    appended to a list; appending to a slot that holds a single tag raises. *)
Definition add_tag (t : Tag) (s : Span) : res Span :=
  if tag_overridable t then Ok (set_tags (Dict.set (tag_key t) (TagOne t) (tags s)) s)
  else match Dict.get (tag_key t) (tags s) with
       | None => Ok (set_tags (Dict.set (tag_key t) (TagMany [t]) (tags s)) s)
       | Some (TagMany l) => Ok (set_tags (Dict.set (tag_key t) (TagMany (l ++ [t])) (tags s)) s)
       | Some (TagOne _) => Raise AttributeError
       end.

(** [Span.iter_tags] *)
Definition iter_tags (s : Span) : list Tag :=
  Dict.values (tags s) ≫= (fun slot => match slot with TagOne t => [t] | TagMany l => l end).
