(* ===== verification/Trace.v ===== *)
(** * The tracer: trace/context.py, trace/span.py, trace/segment.py,
    trace/snapshot.py, decorators.py

    Every operation is a program on one [World], the heap of tracing objects.
    Spans, contexts, correlation dicts and the lists of active spans are
    objects with identity: they live in stores and are referred to by
    location, because the code shares them (a correlation dict between a
    carrier and two contexts, a list of spans between two asyncio tasks).

    The agent and the profiler are interfaces ([AgentOps], [ProfileOps]): the
    tracer is defined and proved against them, Agent.v and Profile.v implement
    them. *)

From S2P Require Import Prelude PyData PyText Codec Carrier Config Filter Sampling TraceData.

(** ** What the tracer asks of the agent and of the profiler *)

(** The agent: whether the segment queue is full, and handing over a finished
    segment (named by the location of its context) at a given time. *)
Class AgentOps (AG : Type) := {
  is_segment_queue_full : AG -> bool;
  archive_segment : Z -> nat -> AG -> AG
}.

(** What profiling reads of a trace context: its identity, its
    [profile_status] and its [create_time]. *)
Record TraceView := mkView {
  view_ctx : nat; view_status : option nat; view_create_time : Z
}.

(** The profile task execution service: [add_profiling] returns the reference
    it assigns to the context's [profile_status]. *)
Class ProfileOps (PS : Type) := {
  add_profiling : TraceView -> pystr -> pystr -> PS -> PS * nat;
  profiling_recheck_service : TraceView -> pystr -> pystr -> PS -> PS
}.

(** ** The heap *)

Record World (AG PS : Type) := mkWorld {
  w_next : nat;                             (* next free location *)
  w_spans : gmap nat Span;
  w_ctxs : gmap nat Ctx;
  w_dicts : gmap nat (list (pystr * pystr));
  w_lists : gmap nat (list nat);            (* list objects of active spans *)
  w_vars : gmap nat nat;                    (* the ContextVar, per execution context *)
  w_uuids : nat;                            (* calls of uuid.uuid1() so far *)
  w_now : Z;                                (* time.time(), microseconds *)
  w_sampling : option Z;                    (* sampling.sampling_service *)
  w_agent : AG;
  w_prof : PS
}.
Arguments mkWorld {AG PS}.
Arguments w_next {AG PS}.
Arguments w_spans {AG PS}.
Arguments w_ctxs {AG PS}.
Arguments w_dicts {AG PS}.
Arguments w_lists {AG PS}.
Arguments w_vars {AG PS}.
Arguments w_uuids {AG PS}.
Arguments w_now {AG PS}.
Arguments w_sampling {AG PS}.
Arguments w_agent {AG PS}.
Arguments w_prof {AG PS}.

(** [int(time.time() * 1000)] and [round(time.time() * 1000)] of a time in
    microseconds; [round] breaks ties to even. *)
Definition int_ms (us : Z) : Z := us / 1000.
Definition round_ms (us : Z) : Z :=
  let q := us / 1000 in let r := us mod 1000 in
  if (r <? 500) || ((r =? 500) && Z.even q) then q else q + 1.

Section trace.
Context {AG PS : Type} `{!AgentOps AG} `{!ProfileOps PS}.

(** [config]; the [n]-th value of [uuid.uuid1()], without dashes; the value
    of [time.time()] when [skywalking] was imported; [traceback.format_exc] and
    [str] of an exception. *)
Context (cfg : Config) (uuid1 : nat -> pystr) (import_time : Z).
Context (format_exc : exn -> Z -> pystr) (str_of_exn : exn -> pystr).

Abbreviation W := (World AG PS).
Abbreviation MW := (M W).
Implicit Types (w : W) (t l c d : nat).

(** *** Store primitives *)

Definition upd_spans (f : gmap nat Span -> gmap nat Span) w : W :=
  mkWorld (w_next w) (f (w_spans w)) (w_ctxs w) (w_dicts w) (w_lists w) (w_vars w)
    (w_uuids w) (w_now w) (w_sampling w) (w_agent w) (w_prof w).
Definition upd_ctxs (f : gmap nat Ctx -> gmap nat Ctx) w : W :=
  mkWorld (w_next w) (w_spans w) (f (w_ctxs w)) (w_dicts w) (w_lists w) (w_vars w)
    (w_uuids w) (w_now w) (w_sampling w) (w_agent w) (w_prof w).
Definition upd_dicts (f : gmap nat (list (pystr * pystr)) -> gmap nat (list (pystr * pystr))) w : W :=
  mkWorld (w_next w) (w_spans w) (w_ctxs w) (f (w_dicts w)) (w_lists w) (w_vars w)
    (w_uuids w) (w_now w) (w_sampling w) (w_agent w) (w_prof w).
Definition upd_lists (f : gmap nat (list nat) -> gmap nat (list nat)) w : W :=
  mkWorld (w_next w) (w_spans w) (w_ctxs w) (w_dicts w) (f (w_lists w)) (w_vars w)
    (w_uuids w) (w_now w) (w_sampling w) (w_agent w) (w_prof w).
Definition upd_vars (f : gmap nat nat -> gmap nat nat) w : W :=
  mkWorld (w_next w) (w_spans w) (w_ctxs w) (w_dicts w) (w_lists w) (f (w_vars w))
    (w_uuids w) (w_now w) (w_sampling w) (w_agent w) (w_prof w).
Definition upd_agent (f : AG -> AG) w : W :=
  mkWorld (w_next w) (w_spans w) (w_ctxs w) (w_dicts w) (w_lists w) (w_vars w)
    (w_uuids w) (w_now w) (w_sampling w) (f (w_agent w)) (w_prof w).
Definition upd_prof (p : PS) w : W :=
  mkWorld (w_next w) (w_spans w) (w_ctxs w) (w_dicts w) (w_lists w) (w_vars w)
    (w_uuids w) (w_now w) (w_sampling w) (w_agent w) p.
Definition upd_sampling (s : option Z) w : W :=
  mkWorld (w_next w) (w_spans w) (w_ctxs w) (w_dicts w) (w_lists w) (w_vars w)
    (w_uuids w) (w_now w) s (w_agent w) (w_prof w).

(** A fresh location. *)
Definition fresh : MW nat := fun w =>
  (mkWorld (S (w_next w)) (w_spans w) (w_ctxs w) (w_dicts w) (w_lists w) (w_vars w)
     (w_uuids w) (w_now w) (w_sampling w) (w_agent w) (w_prof w), Ok (w_next w)).

(** One call of [uuid.uuid1()]. *)
Definition next_uuid : MW pystr := fun w =>
  (mkWorld (w_next w) (w_spans w) (w_ctxs w) (w_dicts w) (w_lists w) (w_vars w)
     (S (w_uuids w)) (w_now w) (w_sampling w) (w_agent w) (w_prof w), Ok (uuid1 (w_uuids w))).

Definition get_span l : MW Span := gets (fun w => w_spans w !!! l).
Definition get_ctx c : MW Ctx := gets (fun w => w_ctxs w !!! c).
Definition mod_span l (f : Span -> Span) : MW unit := modify (upd_spans (alter f l)).
Definition mod_ctx c (f : Ctx -> Ctx) : MW unit := modify (upd_ctxs (alter f c)).
Definition mod_segment c (f : Segment -> Segment) : MW unit :=
  mod_ctx c (fun x => set_segment (f (segment x)) x).

(** [l[0]] *)
Definition head_or_raise {A} (l : list A) : MW A :=
  match l with x :: _ => mret x | [] => raise IndexError end.

(** [ID(raw_id)]: a false-ish argument draws a fresh uuid. *)
Definition new_ID (cls : IDClass) (raw_id : option pystr) : MW ID :=
  match raw_id with
  | Some (x :: s) => mret (mkID cls (x :: s))
  | _ => u ← next_uuid; mret (mkID cls u)
  end.

(** *** The ContextVar [__spans] *)

(** [_spans()]: the list object bound in the execution context [t], creating
    and binding an empty one when there is none. *)
Definition _spans t : MW nat :=
  v ← gets (fun w => w_vars w !! t);
  match v with
  | Some l => mret l
  | None =>
      l ← fresh;
      _ ← modify (upd_lists (<[l := []]>));
      _ ← modify (upd_vars (<[t := l]>));
      mret l
  end.

(** The value of the list object bound in [t], [[]] when unbound. *)
Definition stack w t : list nat :=
  match w_vars w !! t with Some l => w_lists w !!! l | None => [] end.

(** [_spans_dup()]: a copy of the list, bound in [t]. *)
Definition _spans_dup t : MW nat :=
  old ← gets (fun w => stack w t);
  l ← fresh;
  _ ← modify (upd_lists (<[l := old]>));
  _ ← modify (upd_vars (<[t := l]>));
  mret l.

(** [asyncio.create_task]: the new execution context [t'] copies the
    variables of [t], so both bind the same list object. *)
Definition copy_context t t' : MW unit :=
  modify (upd_vars (fun m => match m !! t with Some l => <[t' := l]> m | None => delete t' m end)).

(** *** Segments *)

(** [Segment.relate]: the placeholder trace id of a new segment is dropped. *)
Definition relate c (trace_id : ID) : MW unit :=
  x ← get_ctx c;
  first ← head_or_raise (related_traces (segment x));
  let kept := if is_NewID first then removelast (related_traces (segment x))
              else related_traces (segment x) in
  mod_segment c (set_related_traces (kept ++ [trace_id])).

(** [Segment.archive] *)
Definition segment_archive c l : MW unit :=
  mod_segment c (fun s => set_seg_spans (seg_spans s ++ [l]) s).

(** *** Contexts *)

(** [SpanContext()] *)
Definition new_SpanContext : MW nat :=
  sid ← new_ID PlainID None;
  now ← gets w_now;
  tid ← new_ID NewID None;
  d ← fresh;
  _ ← modify (upd_dicts (<[d := []]>));
  c ← fresh;
  _ ← modify (upd_ctxs (<[c := mkCtx false (mkSegment sid [] (int_ms now) [tid] false)
                                 (-1) d 0 None (round_ms now) None]>));
  mret c.

(** [NoopContext()] *)
Definition new_NoopContext : MW nat :=
  d ← fresh;
  _ ← modify (upd_dicts (<[d := []]>));
  c ← fresh;
  _ ← modify (upd_ctxs (<[c := mkCtx true (mkSegment (mkID NewNoopID []) [] 0
                                 [mkID NewNoopID []] false) (-1) d 0 None 0 None]>));
  mret c.

(** [Counter.next] on [context._sid] *)
Definition next_sid c : MW Z :=
  x ← get_ctx c;
  _ ← mod_ctx c (set_sid_counter (sid_counter x + 1));
  mret (sid_counter x + 1).

(** *** Constructors of spans *)

(** [Span.__init__] *)
Definition span_init (cls : SpanClass) (context : nat) (sid pid : Z) (op : pystr)
  (peer : option pystr) (kind : Kind.t) (component : option Component.t) : Span :=
  mkSpan cls 0 context sid pid op peer kind
    (match component with Some x => x | None => Component.Unknown end)
    Layer.Unknown Component.Unknown [] [] [] 0 0 false 0.

(** The kind each class passes on: [EntrySpan] and [ExitSpan] fix theirs. *)
Definition kind_of_class (cls : SpanClass) : Kind.t :=
  match cls with
  | ClsEntrySpan => Kind.Entry
  | ClsExitSpan => Kind.Exit
  | ClsSpan | ClsNoopSpan => Kind.Local
  end.

Definition alloc_span (s : Span) : MW nat :=
  l ← fresh;
  _ ← modify (upd_spans (<[l := s]>));
  mret l.

(** [NoopSpan(context)] *)
Definition new_NoopSpan c : MW nat :=
  alloc_span (span_init ClsNoopSpan c (-1) (-1) [] None Kind.Local None).

(** *** Span.extract *)

(** [Span.extract(span, carrier)] of the base class. *)
Definition span_extract l (carrier : option Carrier) : MW unit :=
  match carrier with
  | None => mret tt
  | Some ca =>
      s ← get_span l;
      tid ← new_ID PlainID (Some (trace_id ca));
      _ ← relate (context s) tid;
      _ ← mod_ctx (context s) (set_ctx_correlation (correlation ca));
      valid ← lift (is_valid ca);
      if valid : bool then
        ref ← lift (segment_ref ca);
        s ← get_span l;
        if decide (ref ∈ refs s) then mret tt
        else mod_span l (set_refs (refs s ++ [ref]))
      else mret tt
  end.

(** [span.extract(carrier)]: [NoopSpan] overrides it with a no-op. *)
Definition extract l (carrier : option Carrier) : MW unit :=
  s ← get_span l;
  match cls s with
  | ClsNoopSpan => mret tt
  | _ => span_extract l carrier
  end.

(** *** SpanContext: choosing and creating spans *)

(** [peek()] *)
Definition peek t (raise_if_none : bool) : MW (option nat) :=
  l ← _spans t;
  spans ← gets (fun w => w_lists w !!! l);
  match last spans with
  | None => if raise_if_none then raise IllegalStateError else mret None
  | Some s => mret (Some s)
  end.

(** [ignore_check] *)
Definition ignore_check (op : pystr) (carrier : option Carrier) : MW (option nat) :=
  full ← gets (fun w => is_segment_queue_full (w_agent w));
  suppressed ←
    (if ignore_path cfg op then mret true
     else if full : bool then mret true
     else match carrier with
          | None => mret false
          | Some ca => lift (is_suppressed ca)
          end);
  if suppressed : bool then
    c ← new_NoopContext;
    s ← new_NoopSpan c;
    mret (Some s)
  else mret None.

(** The carrier made for a child of a finished parent: lines 123-132 of
    context.py; also the body of [ExitSpan.inject]. *)
Definition carrier_of_span l : MW Carrier :=
  s ← get_span l;
  x ← get_ctx (context s);
  tid ← head_or_raise (related_traces (segment x));
  mret (mkCarrier None (id_value tid) (id_value (seg_id (segment x))) (str_of_int (sid s))
          (agent_name cfg) (agent_instance_name cfg) (op s) (peer s) (ctx_correlation x)).

(** [new_span(parent, SpanType, ...)] of the context [self] *)
Definition new_span self (parent : option nat) (cls : SpanClass) (op : pystr)
  (peer : option pystr) (component : option Component.t) : MW nat :=
  p ← gets (fun w => (fun l => w_spans w !!! l) <$> parent);
  let finished := match p with Some ps => depth ps =? 0 | None => false end in
  context ← (if finished then new_SpanContext else mret self);
  sid' ← next_sid context;
  l ← alloc_span (span_init cls context sid'
        (match p with Some ps => if finished then -1 else sid ps | None => -1 end)
        op peer (kind_of_class cls) component);
  _ ← (match parent with
       | Some pl => if finished then ca ← carrier_of_span pl; span_extract l (Some ca)
                    else mret tt
       | None => mret tt
       end);
  mret l.

(** [new_local_span] *)
Definition new_local_span t self (op : pystr) : MW nat :=
  x ← get_ctx self;
  if noop x then new_NoopSpan self
  else
    s ← ignore_check op None;
    match s with
    | Some l => mret l
    | None =>
        parent ← peek t false;
        new_span self parent ClsSpan op None None
    end.

(** What the profiler sees of a context. *)
Definition trace_view self (x : Ctx) : TraceView :=
  mkView self (profile_status x) (create_time x).

(** [profiling_recheck] *)
Definition profiling_recheck self l (op_name : pystr) : MW unit :=
  if agent_profile_active cfg then
    s ← get_span l;
    if sid s =? 0 then
      x ← get_ctx self;
      p ← gets w_prof;
      modify (upd_prof (profiling_recheck_service (trace_view self x)
                          (id_value (seg_id (segment x))) op_name p))
    else mret tt
  else mret tt.

(** The profiling start of [new_entry_span], lines 153-156. *)
Definition start_profiling self (op : pystr) : MW unit :=
  x ← get_ctx self;
  match profile_status x with
  | Some _ => mret tt
  | None =>
      if agent_profile_active cfg then
        p ← gets w_prof;
        let r := add_profiling (trace_view self x) (id_value (seg_id (segment x))) op p in
        _ ← modify (upd_prof r.1);
        mod_ctx self (set_profile_status (Some r.2))
      else mret tt
  end.

(** [if carrier is not None and carrier.is_valid: span.extract(carrier)] *)
Definition extract_if_valid l (carrier : option Carrier) : MW unit :=
  match carrier with
  | None => mret tt
  | Some ca =>
      valid ← lift (is_valid ca);
      if valid : bool then extract l carrier else mret tt
  end.

(** The parent [new_entry_span] reuses: an entry span whose component is the
    one the caller inherits. *)
Definition inherited_entry w (parent : option nat) (inherit : option Component.t) : option nat :=
  match parent with
  | Some pl =>
      let p := w_spans w !!! pl in
      if Kind.is_entry (kind p) && bool_decide (inherit = Some (component p)) then Some pl
      else None
  | None => None
  end.

(** [new_entry_span] *)
Definition new_entry_span t self (op : pystr) (carrier : option Carrier)
  (inherit : option Component.t) : MW nat :=
  x ← get_ctx self;
  if noop x then new_NoopSpan self
  else
    s ← ignore_check op carrier;
    match s with
    | Some l => mret l
    | None =>
        parent ← peek t false;
        _ ← start_profiling self op;
        reuse ← gets (fun w => inherited_entry w parent inherit);
        match reuse with
        | Some pl =>
            _ ← profiling_recheck self pl op;
            _ ← mod_span pl (set_op op);
            mret pl
        | None =>
            l ← new_span self parent ClsEntrySpan op None None;
            _ ← extract_if_valid l carrier;
            mret l
        end
    end.

(** The parent [new_exit_span] reuses: an exit span that announced the
    component of this one. *)
Definition inherited_exit w (parent : option nat) (component : option Component.t)
  : option (nat * Component.t) :=
  match parent, component with
  | Some pl, Some co =>
      let p := w_spans w !!! pl in
      if Kind.is_exit (kind p) && bool_decide (co = inherit p) then Some (pl, co) else None
  | _, _ => None
  end.

(** [new_exit_span] *)
Definition new_exit_span t self (op peer : pystr) (component inherit : option Component.t)
  : MW nat :=
  x ← get_ctx self;
  if noop x then new_NoopSpan self
  else
    s ← ignore_check op None;
    match s with
    | Some l => mret l
    | None =>
        parent ← peek t false;
        reuse ← gets (fun w => inherited_exit w parent component);
        l ← (match reuse with
             | Some (pl, co) =>
                 _ ← mod_span pl (fun p => set_component co (set_peer (Some peer) (set_op op p)));
                 mret pl
             | None => new_span self parent ClsExitSpan op (Some peer) component
             end);
        _ ← (match inherit with
             | Some i => mod_span l (set_inherit i)
             | None => mret tt
             end);
        mret l
    end.

(** *** Starting and stopping *)

(** The primary endpoint after [span] starts: lines 209-212 and
    [PrimaryEndpoint.set_primary_endpoint]. *)
Definition next_primary w (current : option nat) l : option nat :=
  match current with
  | None => Some l
  | Some p =>
      if negb (Kind.is_entry (kind (w_spans w !!! p))) && Kind.is_entry (kind (w_spans w !!! l))
      then Some l else Some p
  end.

(** [SpanContext.start] *)
Definition ctx_start t self l : MW unit :=
  _ ← mod_ctx self (fun x => set_nspans (nspans x + 1) x);
  lst ← _spans_dup t;
  spans ← gets (fun w => w_lists w !!! lst);
  if decide (l ∈ spans) then mret tt
  else
    _ ← modify (upd_lists (<[lst := spans ++ [l]]>));
    x ← get_ctx self;
    p ← gets (fun w => next_primary w (primary_endpoint x) l);
    mod_ctx self (set_primary_endpoint p).

(** [Span.finish] *)
Definition finish self l : MW unit :=
  now ← gets w_now;
  _ ← mod_span l (set_end_time (int_ms now));
  segment_archive self l.

(** [try: spans.remove(span) except ValueError: pass] on the list object [lst]. *)
Definition remove_span lst l : MW unit :=
  modify (upd_lists (alter (fun spans => default spans (list_remove_first l spans)) lst)).

(** [SpanContext.stop] and [NoopContext.stop] *)
Definition ctx_stop t self l : MW bool :=
  x ← get_ctx self;
  lst ← _spans_dup t;
  _ ← (if noop x then mret tt else finish self l);
  _ ← remove_span lst l;
  _ ← mod_ctx self (fun x => set_nspans (nspans x - 1) x);
  x ← get_ctx self;
  if nspans x =? 0 then
    _ ← (if noop x then mret tt
         else
           full ← gets (fun w => is_segment_queue_full (w_agent w));
           _ ← mod_segment self (set_is_size_limited full);
           now ← gets w_now;
           modify (upd_agent (archive_segment now self)));
    mret true
  else mret false.

(** [Span.start] of the base class *)
Definition span_start t l : MW unit :=
  _ ← mod_span l (fun s => set_depth (depth s + 1) s);
  s ← get_span l;
  if depth s =? 1 then
    now ← gets w_now;
    _ ← mod_span l (set_start_time (int_ms now));
    ctx_start t (context s) l
  else mret tt.

(** [EntrySpan.start]: the attributes a framework may have set are reset. *)
Definition entry_start t l : MW unit :=
  _ ← span_start t l;
  mod_span l (fun s => set_tags [] (set_logs [] (set_layer Layer.Unknown
    (set_component Component.Unknown (set_max_depth (depth s) s))))).

(** [span.start()] *)
Definition start t l : MW unit :=
  s ← get_span l;
  match cls s with
  | ClsEntrySpan => entry_start t l
  | _ => span_start t l
  end.

(** [span.stop()] *)
Definition stop t l : MW bool :=
  _ ← mod_span l (fun s => set_depth (depth s - 1) s);
  s ← get_span l;
  if depth s =? 0 then ctx_stop t (context s) l else mret false.

(** *** Errors, logs and tags on a span *)

(** [Span.raised] while the exception [e] is being handled *)
Definition raised l (e : exn) : MW unit :=
  mod_span l (fun s => set_logs
    [new_log import_time [(py "Traceback", sw_traceback cfg (format_exc e))]]
    (set_error_occurred true s)).

(** [Span.log] *)
Definition log l (e : exn) : MW unit :=
  mod_span l (fun s => set_logs
    (logs s ++ [new_log import_time [(py "Traceback", str_of_exn e)]])
    (set_error_occurred true s)).

(** [Span.tag] *)
Definition tag l (tg : Tag) : MW unit :=
  s ← get_span l;
  s' ← lift (add_tag tg s);
  mod_span l (fun _ => s').

(** [with span: body]: [__enter__], the body, [__exit__]. *)
Definition with_span {A} t l (body : MW A) : MW A :=
  _ ← start t l;
  a ← try_except body (fun e =>
        _ ← (if is_Exception e then raised l e else mret tt);
        _ ← stop t l;
        raise e);
  _ ← stop t l;
  mret a.

(** *** Propagation to another process *)

(** [span.inject()] *)
Definition inject l : MW Carrier :=
  s ← get_span l;
  match cls s with
  | ClsExitSpan => carrier_of_span l
  | ClsNoopSpan =>
      d ← fresh;
      _ ← modify (upd_dicts (<[d := []]>));
      mret (empty_carrier d)
  | _ => raise IllegalStateError
  end.

(** *** Correlation context *)

Definition get_correlation self (key : pystr) : MW (option pystr) :=
  x ← get_ctx self;
  d ← gets (fun w => w_dicts w !!! ctx_correlation x);
  mret (Dict.get key d).

Definition put_correlation self (key value : option pystr) : MW unit :=
  match key with
  | None => mret tt
  | Some k =>
      x ← get_ctx self;
      d ← gets (fun w => w_dicts w !!! ctx_correlation x);
      match value with
      | None => modify (upd_dicts (alter (Dict.pop k) (ctx_correlation x)))
      | Some v =>
          if correlation_value_max_length cfg <? Z.of_nat (length v) then mret tt
          else if correlation_element_max_number cfg <? Z.of_nat (length d) then mret tt
          else modify (upd_dicts (alter (Dict.set k v) (ctx_correlation x)))
      end
  end.

(** *** Snapshots: propagation to another thread *)

Record Snapshot := mkSnapshot {
  snap_trace_id : option ID;
  snap_segment_id : option pystr;
  snap_span_id : Z;
  snap_endpoint : option pystr;
  snap_correlation : list (pystr * pystr)
}.

(** [SpanContext.capture] and [NoopContext.capture]; the dict is copied. *)
Definition capture t self : MW (option Snapshot) :=
  x ← get_ctx self;
  if noop x then
    d ← gets (fun w => w_dicts w !!! ctx_correlation x);
    mret (Some (mkSnapshot None None (-1) None d))
  else
    lst ← _spans t;
    spans ← gets (fun w => w_lists w !!! lst);
    match head spans, last spans with
    | Some first, Some active =>
        tid ← head_or_raise (related_traces (segment x));
        fs ← get_span first;
        s ← get_span active;
        d ← gets (fun w => w_dicts w !!! ctx_correlation x);
        mret (Some (mkSnapshot (Some tid) (Some (id_value (seg_id (segment x)))) (sid s)
                      (Some (op fs)) d))
    | _, _ => mret None
    end.

(** [Snapshot.is_from_current]; [context.capture()] may be [None]. *)
Definition is_from_current t self (snapshot : Snapshot) : MW bool :=
  match snap_segment_id snapshot with
  | None => mret false
  | Some i =>
      cur ← capture t self;
      match cur with
      | None => raise AttributeError
      | Some c => mret (bool_decide (Some i = snap_segment_id c))
      end
  end.

(** [Snapshot.is_valid] *)
Definition snapshot_is_valid (s : Snapshot) : bool :=
  bool_decide (is_Some (snap_segment_id s)) && (-1 <? snap_span_id s) &&
  bool_decide (is_Some (snap_trace_id s)).

(** [SegmentRef.build_ref]; [str(None)] is ['None']. *)
Definition build_ref (s : Snapshot) : SegmentRef :=
  mkRef CrossThread
    (match snap_trace_id s with Some i => id_value i | None => py "None" end)
    (match snap_segment_id s with Some i => i | None => py "None" end)
    (snap_span_id s) (agent_name cfg) (agent_instance_name cfg) (snap_endpoint s) (Some []).

(** [SpanContext.continued] and [NoopContext.continued] *)
Definition continued t self (snapshot : option Snapshot) : MW unit :=
  x ← get_ctx self;
  if noop x then
    match snapshot with
    | None => raise AttributeError
    | Some s => modify (upd_dicts (alter (fun m => Dict.update m (snap_correlation s)) (ctx_correlation x)))
    end
  else
    match snapshot with
    | None => mret tt
    | Some s =>
        cur ← is_from_current t self s;
        if negb cur && snapshot_is_valid s then
          let ref := build_ref s in
          active ← peek t false;
          match active with
          | None => raise AttributeError
          | Some l =>
              _ ← mod_span l (fun s => set_refs (refs s ++ [ref]) s);
              tid ← new_ID PlainID (Some (ref_trace_id ref));
              _ ← relate self tid;
              x ← get_ctx self;
              modify (upd_dicts (alter (fun m => Dict.update m (snap_correlation s)) (ctx_correlation x)))
          end
        else mret tt
    end.

(** *** Entry point *)

(** [get_context] *)
Definition get_context t : MW nat :=
  lst ← _spans t;
  spans ← gets (fun w => w_lists w !!! lst);
  match last spans with
  | Some l => s ← get_span l; mret (context s)
  | None =>
      srv ← gets w_sampling;
      match srv with
      | None => new_SpanContext
      | Some factor =>
          let r := try_sampling (sample_n_per_3_secs cfg) factor in
          _ ← modify (upd_sampling (Some r.1));
          if r.2 : bool then new_SpanContext else new_NoopContext
      end
  end.

(** *** Decorators: decorators.py *)

(** The attributes both decorators put on the span. *)
Definition decorate l (ly : Layer.t) (co : Component.t) (tgs : list Tag) : MW unit :=
  _ ← mod_span l (set_layer ly);
  _ ← mod_span l (set_component co);
  for_each tgs (tag l).

(** The wrapper [@trace] returns, around one call of [func]. *)
Definition trace_wrapper {A} t (op : pystr) (ly : Layer.t) (co : Component.t) (tgs : list Tag)
  (func : MW A) : MW A :=
  ctx ← get_context t;
  l ← new_local_span t ctx op;
  _ ← decorate l ly co tgs;
  with_span t l func.

(** The snapshot [@runnable] and [continue_tracing] take. *)
Definition take_snapshot t : MW (option Snapshot) :=
  ctx ← get_context t;
  capture t ctx.

(** [_RunnableWrapper.__call__] and the [_continued_wrapper] of [continue_tracing]. *)
Definition continued_wrapper {A} t (snapshot : option Snapshot) (op : pystr) (ly : Layer.t)
  (co : Component.t) (tgs : list Tag) (func : MW A) : MW A :=
  ctx ← get_context t;
  l ← new_local_span t ctx op;
  with_span t l (
    _ ← (match snapshot with
         | Some _ => continued t ctx snapshot
         | None => mret tt
         end);
    _ ← decorate l ly co tgs;
    func).

(** [op or func.__name__] and [op or f'Thread/{func.__name__}'] *)
Definition trace_op (op : option pystr) (func_name : pystr) : pystr :=
  match op with Some (c :: s) => c :: s | _ => func_name end.
Definition runnable_op (op : option pystr) (func_name : pystr) : pystr :=
  match op with Some (c :: s) => c :: s | _ => py "Thread/" ++ func_name end.

End trace.
