(* ===== verification/TraceInv.v ===== *)
(** * Invariants of the tracer's heap

    What the operations of Trace.v keep: the structural well-formedness of the
    heap, the count of active spans of each context, the numbering of spans in
    a segment.  The invariant is stated on the skeleton of the heap (identity,
    parent, depth of spans; counters of contexts; lists of active spans), so an
    operation that touches other attributes keeps it by a frame argument. *)

From S2P Require Import Prelude PyData PyText Codec Carrier Config Filter Sampling TraceData Trace.

(** ** Skeletons *)

Record SSpan := mkSS { k_noop : bool; k_context : nat; k_sid : Z; k_pid : Z; k_depth : Z }.
Record SCtx := mkSC { c_noop : bool; c_counter : Z; c_nspans : Z }.

Definition sk_span (s : Span) : SSpan :=
  mkSS (match cls s with ClsNoopSpan => true | _ => false end) (context s) (sid s) (pid s) (depth s).
Definition sk_ctx (x : Ctx) : SCtx := mkSC (noop x) (sid_counter x) (nspans x).

Definition k_set_depth (v : Z) (s : SSpan) : SSpan :=
  mkSS (k_noop s) (k_context s) (k_sid s) (k_pid s) v.
Definition c_set_nspans (v : Z) (x : SCtx) : SCtx := mkSC (c_noop x) (c_counter x) v.
Definition c_set_counter (v : Z) (x : SCtx) : SCtx := mkSC (c_noop x) v (c_nspans x).

(** The spans of context [c] that are started and not stopped. *)
Definition active (S : gmap nat SSpan) (c : nat) : Z :=
  Z.of_nat (size (filter (fun p : nat * SSpan => k_context p.2 = c ∧ 0 < k_depth p.2) S)).

(** The number of a real span is one its context handed out; its parent is
    absent or an earlier span of the same segment. *)
Definition numbered (S : gmap nat SSpan) (s : SSpan) (x : SCtx) : Prop :=
  k_noop s = false ->
  0 <= k_sid s <= c_counter x ∧
  (k_pid s = -1 ∨
   ∃ l p, S !! l = Some p ∧ k_noop p = false ∧ k_context p = k_context s ∧
          k_sid p = k_pid s ∧ k_sid p < k_sid s).

Record WF (n : nat) (S : gmap nat SSpan) (C : gmap nat SCtx) (L : gmap nat (list nat))
  (V : gmap nat nat) : Prop := {
  wf_next : ∀ k, (n <= k)%nat -> S !! k = None ∧ C !! k = None ∧ L !! k = None;
  wf_span : ∀ l s, S !! l = Some s ->
    ∃ x, C !! k_context s = Some x ∧ c_noop x = k_noop s ∧ numbered S s x;
  wf_unique : ∀ l s l' s', S !! l = Some s -> S !! l' = Some s' -> k_noop s = false ->
    k_noop s' = false -> k_context s = k_context s' -> k_sid s = k_sid s' -> l = l';
  wf_active : ∀ c x, C !! c = Some x -> c_nspans x = active S c;
  wf_counter : ∀ c x, C !! c = Some x -> -1 <= c_counter x;
  wf_list : ∀ i spans, L !! i = Some spans -> ∀ l, l ∈ spans -> is_Some (S !! l);
  wf_var : ∀ t i, V !! t = Some i -> is_Some (L !! i)
}.

Lemma is_Some_insert {A} (m : gmap nat A) i j x :
  is_Some (m !! j) -> is_Some (<[i := x]> m !! j).
Proof. intros [y Hy]. apply lookup_insert_is_Some'. by right. Qed.

(** ** Counting *)

Section counting.
Implicit Types (S : gmap nat SSpan) (C : gmap nat SCtx).

Definition counts (c : nat) (s : SSpan) : bool :=
  bool_decide (k_context s = c ∧ 0 < k_depth s).

Lemma counts_own s c : k_context s = c -> counts c s = (0 <? k_depth s).
Proof.
  intros <-. unfold counts. destruct (Z.ltb_spec 0 (k_depth s)).
  - by apply bool_decide_eq_true_2.
  - apply bool_decide_eq_false_2. lia.
Qed.

Lemma counts_other c s : k_context s ≠ c -> counts c s = false.
Proof. intros Hne. apply bool_decide_eq_false_2. naive_solver. Qed.

Lemma active_insert_new S l s c :
  S !! l = None -> active (<[l := s]> S) c = active S c + (if counts c s then 1 else 0).
Proof.
  intros H. unfold active, counts. rewrite map_filter_insert. case_bool_decide as Hd; cbn.
  - rewrite decide_True by done. rewrite map_size_insert_None; [lia|].
    apply map_lookup_filter_None. by left.
  - rewrite decide_False by done. rewrite delete_id; [lia | done].
Qed.

Lemma active_delete S l s c :
  S !! l = Some s -> active S c = active (delete l S) c + (if counts c s then 1 else 0).
Proof.
  intros H. rewrite <- (insert_delete_id S l s H) at 1.
  apply active_insert_new. apply lookup_delete_eq.
Qed.

Lemma active_update S l s s' c :
  S !! l = Some s ->
  active (<[l := s']> S) c =
    active S c - (if counts c s then 1 else 0) + (if counts c s' then 1 else 0).
Proof.
  intros H. rewrite (active_delete S l s c H).
  rewrite (active_delete (<[l := s']> S) l s' c) by apply lookup_insert_eq.
  rewrite delete_insert_eq. lia.
Qed.

Lemma active_zero S c :
  active S c = 0 <-> ∀ l s, S !! l = Some s -> k_context s = c -> ¬ 0 < k_depth s.
Proof.
  unfold active. split.
  - intros H l s Hl Hc Hd.
    assert (filter (fun p : nat * SSpan => k_context p.2 = c ∧ 0 < k_depth p.2) S = ∅) as E.
    { apply map_size_empty_inv. lia. }
    apply (lookup_empty_Some (A := SSpan) l s). rewrite <- E.
    by apply map_lookup_filter_Some.
  - intros H.
    assert (filter (fun p : nat * SSpan => k_context p.2 = c ∧ 0 < k_depth p.2) S = ∅) as E.
    { apply map_empty. intros l. apply map_lookup_filter_None. right.
      intros s Hl [Hc Hd]. by eapply H. }
    rewrite E, map_size_empty. done.
Qed.
End counting.

(** ** The primitive changes of the heap keep the invariant *)

Section primitives.
Context (n : nat) (S : gmap nat SSpan) (C : gmap nat SCtx) (L : gmap nat (list nat))
  (V : gmap nat nat) (H : WF n S C L V).

Lemma WF_fresh : WF (Datatypes.S n) S C L V.
Proof. destruct H. split; try done. intros k Hk. apply wf_next0. lia. Qed.

Lemma WF_new_ctx c b :
  (c < n)%nat -> C !! c = None -> WF n S (<[c := mkSC b (-1) 0]> C) L V.
Proof.
  intros Hc HC. destruct H. split; try done.
  - intros k Hk. destruct (wf_next0 k Hk) as (? & ? & ?). split_and!; try done.
    by rewrite lookup_insert_ne by lia.
  - intros l s Hl. destruct (wf_span0 l s Hl) as (x & Hx & ? & ?). exists x.
    rewrite lookup_insert_ne; [done|]. intros ->. by simplify_eq.
  - intros c' x. destruct (decide (c = c')) as [->|Hne].
    + rewrite lookup_insert_eq. intros [= <-]. cbn. symmetry. apply active_zero.
      intros l s Hl <-. destruct (wf_span0 l s Hl) as (x & Hx & ?). by simplify_eq.
    + rewrite lookup_insert_ne by done. apply wf_active0.
  - intros c' x [[<- <-]|[_ Hx]]%lookup_insert_Some; [done | by eapply wf_counter0].
Qed.

Lemma WF_counter c x v :
  C !! c = Some x -> c_counter x <= v -> WF n S (<[c := c_set_counter v x]> C) L V.
Proof.
  intros Hc Hv. destruct H. split; try done.
  - intros k Hk. destruct (wf_next0 k Hk) as (? & ? & ?). split_and!; try done.
    rewrite lookup_insert_ne; [done|]. intros ->. by simplify_eq.
  - intros l s Hl. destruct (wf_span0 l s Hl) as (y & Hy & Hn & Hnum).
    destruct (decide (c = k_context s)) as [->|Hne].
    + simplify_eq. exists (c_set_counter v x). rewrite lookup_insert_eq.
      split_and!; [done..|]. intros Hs. destruct (Hnum Hs). split; [cbn; lia | done].
    + exists y. by rewrite lookup_insert_ne by done.
  - intros c' x'. destruct (decide (c = c')) as [->|Hne].
    + rewrite lookup_insert_eq. intros [= <-]. cbn. by apply wf_active0.
    + rewrite lookup_insert_ne by done. apply wf_active0.
  - intros c' x' [[<- <-]|[_ Hx]]%lookup_insert_Some; [|by eapply wf_counter0].
    specialize (wf_counter0 _ _ Hc). cbn. lia.
Qed.

(** The parent of a new span is absent or an earlier span of its context. *)
Definition parent_ok (s : SSpan) : Prop :=
  k_pid s = -1 ∨
  ∃ l p, S !! l = Some p ∧ k_noop p = false ∧ k_context p = k_context s ∧
         k_sid p = k_pid s ∧ k_sid p < k_sid s.

Lemma numbered_insert l s s' x :
  S !! l = None -> numbered S s x -> numbered (<[l := s']> S) s x.
Proof.
  intros Hl Hs Hn. destruct (Hs Hn) as [? [?|(l0 & p & Hp & ?)]]; split; try done; [by left|].
  right. exists l0, p. rewrite lookup_insert_ne; [done|]. intros ->. by simplify_eq.
Qed.

Lemma WF_new_span l s x :
  (l < n)%nat -> S !! l = None -> C !! k_context s = Some x -> c_noop x = k_noop s ->
  k_depth s = 0 ->
  (k_noop s = false -> k_sid s = c_counter x ∧ 0 <= k_sid s ∧ parent_ok s ∧
     ∀ l' s', S !! l' = Some s' -> k_noop s' = false -> k_context s' = k_context s ->
       k_sid s' < k_sid s) ->
  WF n (<[l := s]> S) C L V.
Proof.
  intros Hln Hl Hx Hn Hd Hs. destruct H. split; try done.
  - intros k Hk. destruct (wf_next0 k Hk) as (? & ? & ?). split_and!; try done.
    by rewrite lookup_insert_ne by lia.
  - intros l' s'. destruct (decide (l = l')) as [->|Hne].
    + rewrite lookup_insert_eq. intros [= <-]. exists x. split_and!; [done..|].
      intros Hf. destruct (Hs Hf) as (? & ? & Hp & _). split; [lia|].
      destruct Hp as [?|(l0 & p & Hp & ?)]; [by left|]. right. exists l0, p.
      rewrite lookup_insert_ne; [done|]. intros ->. by simplify_eq.
    + rewrite lookup_insert_ne by done. intros Hl'.
      destruct (wf_span0 l' s' Hl') as (y & ? & ? & ?). exists y. split_and!; [done..|].
      by apply numbered_insert.
  - intros l1 s1 l2 s2 H1 H2 Hn1 Hn2 Hc He.
    apply lookup_insert_Some in H1 as [[<- <-]|[Hne1 H1]];
      apply lookup_insert_Some in H2 as [[<- <-]|[Hne2 H2]]; try done.
    + destruct (Hs Hn1) as (_ & _ & _ & Hlt). specialize (Hlt _ _ H2 Hn2). naive_solver lia.
    + destruct (Hs Hn2) as (_ & _ & _ & Hlt). specialize (Hlt _ _ H1 Hn1). naive_solver lia.
    + by eapply wf_unique0.
  - intros c y Hc. rewrite active_insert_new by done. unfold counts.
    rewrite bool_decide_eq_false_2 by lia. rewrite Z.add_0_r. by apply wf_active0.
  - intros i spans Hi l' Hin. apply is_Some_insert. by eapply wf_list0.
Qed.

(** Spans before and after a change of one depth. *)
Lemma depth_old l s v l' s' :
  S !! l = Some s -> <[l := k_set_depth v s]> S !! l' = Some s' ->
  ∃ s0, S !! l' = Some s0 ∧ s' = k_set_depth (k_depth s') s0.
Proof.
  intros Hl [[<- <-]|[? ?]]%lookup_insert_Some; [by exists s|].
  exists s'. split; [done | by destruct s'].
Qed.

Lemma depth_new l s v l' s0 :
  S !! l = Some s -> S !! l' = Some s0 ->
  ∃ v', <[l := k_set_depth v s]> S !! l' = Some (k_set_depth v' s0).
Proof.
  intros Hl Hl'. destruct (decide (l = l')) as [->|Hne].
  - simplify_eq. exists v. apply lookup_insert_eq.
  - exists (k_depth s0). rewrite lookup_insert_ne by done. rewrite Hl'. by destruct s0.
Qed.

Lemma numbered_depth l s v v' s0 x x' :
  S !! l = Some s -> c_counter x' = c_counter x -> numbered S s0 x ->
  numbered (<[l := k_set_depth v s]> S) (k_set_depth v' s0) x'.
Proof.
  intros Hl Hx Hs Hn. destruct (Hs Hn) as [? Hp]. rewrite Hx. split; [done|].
  destruct Hp as [?|(l0 & p & Hp & ? & ? & ? & ?)]; [by left|]. right.
  destruct (depth_new l s v l0 p Hl Hp) as [v0 Hv0].
  exists l0, (k_set_depth v0 p). by split_and!.
Qed.

(** A change of depth, with the matching change of the count of its context. *)
Lemma WF_depth l s x v k :
  S !! l = Some s -> C !! k_context s = Some x ->
  k = c_nspans x - (if 0 <? k_depth s then 1 else 0) + (if 0 <? v then 1 else 0) ->
  WF n (<[l := k_set_depth v s]> S) (<[k_context s := c_set_nspans k x]> C) L V.
Proof.
  intros Hl Hx ->. set (k := _ + _). destruct H. split; try done.
  - intros i Hi. destruct (wf_next0 i Hi) as (? & ? & ?).
    split_and!; try done; (rewrite lookup_insert_ne; [done|]; congruence).
  - intros l' s' (s0 & Hs0 & ->)%(depth_old _ _ _ _ _ Hl). cbn.
    destruct (wf_span0 l' s0 Hs0) as (y & Hy & Hyn & Hnum).
    destruct (decide (k_context s = k_context s0)) as [E|E].
    + rewrite <- E in Hy |- *. simplify_eq. exists (c_set_nspans k x). rewrite lookup_insert_eq.
      split_and!; [done..|]. by eapply numbered_depth.
    + exists y. rewrite lookup_insert_ne by done. split_and!; [done..|].
      by eapply numbered_depth.
  - intros l1 s1 l2 s2 (a & Ha & ->)%(depth_old _ _ _ _ _ Hl)
      (b & Hb & ->)%(depth_old _ _ _ _ _ Hl). cbn. by eapply wf_unique0.
  - intros c y. rewrite (active_update S l s) by done.
    destruct (decide (k_context s = c)) as [<-|Hne].
    + rewrite lookup_insert_eq. intros [= <-]. cbn [c_set_nspans c_nspans]. subst k.
      by rewrite (wf_active0 _ _ Hx), !counts_own by done.
    + rewrite lookup_insert_ne by done. intros Hc. rewrite (wf_active0 _ _ Hc).
      rewrite !counts_other by done. lia.
  - intros c' x' [[<- <-]|[_ Hx']]%lookup_insert_Some; [|by eapply wf_counter0].
    by apply (wf_counter0 _ _ Hx).
  - intros i spans Hi l' Hin. apply is_Some_insert. by eapply wf_list0.
Qed.

(** A list of known spans stored at a known or new location. *)
Lemma WF_list i spans :
  (i < n)%nat -> (∀ l, l ∈ spans -> is_Some (S !! l)) -> WF n S C (<[i := spans]> L) V.
Proof.
  intros Hi Hs. destruct H. split; try done.
  - intros k Hk. destruct (wf_next0 k Hk) as (? & ? & ?). split_and!; try done.
    by rewrite lookup_insert_ne by lia.
  - intros j sp [[<- <-]|[_ Hj]]%lookup_insert_Some; [done | by eapply wf_list0].
  - intros t j Hj. apply is_Some_insert. by eapply wf_var0.
Qed.

Lemma WF_bind t i : is_Some (L !! i) -> WF n S C L (<[t := i]> V).
Proof.
  intros Hi. destruct H. split; try done.
  intros t' j [[<- <-]|[_ Hj]]%lookup_insert_Some; [done | by eapply wf_var0].
Qed.

Lemma WF_unbind t : WF n S C L (delete t V).
Proof.
  destruct H. split; try done. intros t' j [_ Hj]%lookup_delete_Some. by eapply wf_var0.
Qed.
End primitives.

(** ** Worlds *)

Section worlds.
Context {AG PS : Type}.
Abbreviation W := (World AG PS).
Implicit Types (w : W).

Definition skS w : gmap nat SSpan := sk_span <$> w_spans w.
Definition skC w : gmap nat SCtx := sk_ctx <$> w_ctxs w.

Definition wf w : Prop := WF (w_next w) (skS w) (skC w) (w_lists w) (w_vars w).

(** [w'] has every span of [w] unchanged in its skeleton, every context of [w],
  and the same lists of active spans. *)
Record grow w w' : Prop := {
grow_spans : skS w ⊆ skS w';
grow_ctxs : ∀ c x, skC w !! c = Some x -> ∃ x', skC w' !! c = Some x' ∧ c_noop x' = c_noop x;
grow_stacks : ∀ t, stack w' t = stack w t
}.

#[export] Instance grow_preorder : PreOrder grow.
Proof.
split.
- intros w. split; [done | by eauto | done].
- intros w1 w2 w3 [S1 C1 T1] [S2 C2 T2]. split.
  + by etrans.
  + intros c x (x2 & Hx2 & E2)%C1. destruct (C2 _ _ Hx2) as (x3 & ? & ?). exists x3.
    split; [done | congruence].
  + intros t. by rewrite T2.
Qed.

Lemma grow_span w w' l s : grow w w' -> skS w !! l = Some s -> skS w' !! l = Some s.
Proof. intros [HS _ _] Hl. by eapply lookup_weaken. Qed.

(** [m], run in a well-formed world, keeps it well formed, only grows it, and
  returns a value related to the new world by [Q]. *)
Definition spec {A} w (m : M W A) (Q : A -> W -> Prop) : Prop :=
match m w with
| (w', Ok a) => wf w' ∧ grow w w' ∧ Q a w'
| (w', Raise e) => wf w' ∧ grow w w'
end.

Lemma spec_ret {A} w (a : A) (Q : A -> W -> Prop) : wf w -> Q a w -> spec w (mret a) Q.
Proof. by intros. Qed.

Lemma spec_raise {A} w e (Q : A -> W -> Prop) : wf w -> spec w (raise e) Q.
Proof. by intros. Qed.

Lemma spec_gets {A} w (f : W -> A) (Q : A -> W -> Prop) : wf w -> Q (f w) w -> spec w (gets f) Q.
Proof. by intros. Qed.

Lemma spec_lift {A} w (r : res A) (Q : A -> W -> Prop) :
wf w -> (∀ a, r = Ok a -> Q a w) -> spec w (lift r) Q.
Proof. intros Hw HQ. unfold spec, lift. destruct r; [split_and!; auto; done | done]. Qed.

Lemma spec_bind {A B} w (m : M W A) (f : A -> M W B) (Q : A -> W -> Prop) (R : B -> W -> Prop) :
spec w m Q ->
(∀ a w', wf w' -> grow w w' -> Q a w' -> spec w' (f a) R) ->
spec w (m ≫= f) R.
Proof.
intros Hm Hf. unfold spec, mbind, M_bind in *.
destruct (m w) as [w' [a|e]]; [|done]. destruct Hm as (Hw & Hg & HQ).
specialize (Hf a w' Hw Hg HQ). unfold spec in Hf. destruct (f a w') as [w'' [b|e]].
- destruct Hf as (? & ? & ?). split_and!; [done | by etrans | done].
- destruct Hf. split; [done | by etrans].
Qed.

Lemma spec_read {A B} w (g : W -> A) (f : A -> M W B) (R : B -> W -> Prop) :
spec w (f (g w)) R -> spec w (gets g ≫= f) R.
Proof. done. Qed.

Lemma spec_conseq {A} w (m : M W A) (Q Q' : A -> W -> Prop) :
spec w m Q' -> (∀ a w', grow w w' -> Q' a w' -> Q a w') -> spec w m Q.
Proof.
unfold spec. intros Hm HQ. destruct (m w) as [w' [a|e]]; naive_solver.
Qed.

(** A change outside the skeleton. *)
Record same w w' : Prop := {
same_next : w_next w' = w_next w;
same_spans : skS w' = skS w;
same_ctxs : skC w' = skC w;
same_lists : w_lists w' = w_lists w;
same_vars : w_vars w' = w_vars w
}.

Lemma same_wf w w' : same w w' -> wf w -> wf w'.
Proof. intros [] Hw. unfold wf. by rewrite same_next0, same_spans0, same_ctxs0, same_lists0, same_vars0. Qed.

Lemma same_grow w w' : same w w' -> grow w w'.
Proof.
intros []. split.
- by rewrite same_spans0.
- rewrite same_ctxs0. by eauto.
- intros t. unfold stack. by rewrite same_lists0, same_vars0.
Qed.

Lemma spec_modify w (f : W -> W) (Q : unit -> W -> Prop) :
wf w -> same w (f w) -> Q tt (f w) -> spec w (modify f) Q.
Proof. intros Hw Hs HQ. split_and!; [by eapply same_wf | by apply same_grow | done]. Qed.

Lemma fmap_alter_same {A B} (g : A -> B) (f : A -> A) l (m : gmap nat A) :
(∀ x, g (f x) = g x) -> g <$> alter f l m = g <$> m.
Proof.
intros Hf. apply map_eq. intros i. rewrite !lookup_fmap.
destruct (decide (l = i)) as [->|Hne].
- rewrite lookup_alter_eq. destruct (m !! i); cbn; [by rewrite Hf | done].
- by rewrite lookup_alter_ne.
Qed.

Lemma spec_mod_span w l (f : Span -> Span) (Q : unit -> W -> Prop) :
wf w -> (∀ s, sk_span (f s) = sk_span s) -> Q tt (upd_spans (alter f l) w) ->
spec w (mod_span l f) Q.
Proof.
intros Hw Hf HQ. apply spec_modify; [done | | done].
split; try done. unfold skS. cbn. by apply fmap_alter_same.
Qed.

Lemma spec_mod_ctx w c (f : Ctx -> Ctx) (Q : unit -> W -> Prop) :
wf w -> (∀ x, sk_ctx (f x) = sk_ctx x) -> Q tt (upd_ctxs (alter f c) w) ->
spec w (mod_ctx c f) Q.
Proof.
intros Hw Hf HQ. apply spec_modify; [done | | done].
split; try done. unfold skC. cbn. by apply fmap_alter_same.
Qed.

(** The skeleton of an object in a store. *)
Lemma skS_lookup w l s : w_spans w !! l = Some s -> skS w !! l = Some (sk_span s).
Proof. intros H. unfold skS. by rewrite lookup_fmap, H. Qed.

Lemma skS_inv w l k : skS w !! l = Some k -> ∃ s, w_spans w !! l = Some s ∧ k = sk_span s.
Proof. unfold skS. rewrite lookup_fmap. intros (s & ? & ?)%fmap_Some. eauto. Qed.

Lemma skC_lookup w c x : w_ctxs w !! c = Some x -> skC w !! c = Some (sk_ctx x).
Proof. intros H. unfold skC. by rewrite lookup_fmap, H. Qed.

Lemma skC_inv w c k : skC w !! c = Some k -> ∃ x, w_ctxs w !! c = Some x ∧ k = sk_ctx x.
Proof. unfold skC. rewrite lookup_fmap. intros (s & ? & ?)%fmap_Some. eauto. Qed.

Lemma get_span_total w l k : skS w !! l = Some k -> sk_span (w_spans w !!! l) = k.
Proof. intros (s & Hs & ->)%skS_inv. by rewrite (lookup_total_correct _ _ _ Hs). Qed.

Lemma get_ctx_total w c k : skC w !! c = Some k -> sk_ctx (w_ctxs w !!! c) = k.
Proof. intros (s & Hs & ->)%skC_inv. by rewrite (lookup_total_correct _ _ _ Hs). Qed.

(** Spans on a stack exist. *)
Lemma stack_span w t l : wf w -> l ∈ stack w t -> is_Some (skS w !! l).
Proof.
intros Hw. unfold stack. destruct (w_vars w !! t) as [i|] eqn:Hi; [|set_solver].
destruct (wf_var _ _ _ _ _ Hw t i Hi) as [spans Hs].
rewrite (lookup_total_correct _ _ _ Hs). intros Hl. by eapply wf_list.
Qed.
End worlds.
