(* ===== verification/TraceSpec.v ===== *)
(** * Specifications of the tracer's operations over the heap invariant *)

From S2P Require Import Prelude PyData PyText Codec Carrier.
From S2P Require Import Config Filter Sampling TraceData Trace TraceInv.

Section specs.
Context {AG PS : Type} `{!AgentOps AG} `{!ProfileOps PS}.
Context (cfg : Config) (uuid1 : nat -> pystr) (import_time : Z).
Context (format_exc : exn -> Z -> pystr) (str_of_exn : exn -> pystr).
Abbreviation W := (World AG PS).
Implicit Types (w : W) (t l c : nat).

Abbreviation trivial_post := (fun _ _ => True).

Ltac same_tac := split; try reflexivity; unfold skS, skC; cbn; try (by apply fmap_alter_same).

(** *** Allocation *)

Lemma spec_fresh w :
  wf w -> spec w fresh (fun k w' => k = w_next w ∧ w_next w' = S k ∧ skS w' = skS w ∧
    skC w' = skC w ∧ w_lists w' = w_lists w ∧ w_vars w' = w_vars w).
Proof.
  intros Hw. unfold spec, fresh. split_and!; try done.
  - unfold wf in *. cbn. by apply WF_fresh.
  - by split; [| eauto |].
Qed.

Lemma spec_next_uuid w : wf w -> spec w (next_uuid uuid1) trivial_post.
Proof.
  intros Hw. unfold spec, next_uuid. split_and!; try done. by split; [| eauto |].
Qed.

Lemma spec_new_ID w ic raw : wf w -> spec w (new_ID uuid1 ic raw) trivial_post.
Proof.
  intros Hw. assert (spec w (u ← next_uuid uuid1; mret (mkID ic u)) trivial_post).
  { eapply spec_bind; [by apply spec_next_uuid | intros; by apply spec_ret]. }
  destruct raw as [[|x s]|]; [done | by apply spec_ret | done].
Qed.

Lemma spec_dict w d v : wf w -> spec w (modify (upd_dicts (<[d := v]>))) trivial_post.
Proof. intros Hw. apply spec_modify; [done | same_tac | done]. Qed.

(** A context stored at a new location. *)
Lemma spec_store_ctx w c (x : Ctx) :
  wf w -> (c < w_next w)%nat -> skC w !! c = None -> sk_ctx x = mkSC (noop x) (-1) 0 ->
  spec w (modify (upd_ctxs (<[c := x]>)))
    (fun _ w' => skC w' !! c = Some (mkSC (noop x) (-1) 0) ∧ skC w !! c = None).
Proof.
  intros Hw Hc HC Hx. unfold spec, modify.
  assert (skC (upd_ctxs (<[c := x]>) w) = <[c := mkSC (noop x) (-1) 0]> (skC w)) as E.
  { unfold skC. cbn. by rewrite fmap_insert, Hx. }
  split_and!; try done.
  - unfold wf. rewrite E. cbn. by apply WF_new_ctx.
  - split; try done. rewrite E. intros c' x' Hc'. exists x'. split; [|done].
    rewrite lookup_insert_ne; [done|]. intros ->. congruence.
  - rewrite E. apply lookup_insert_eq.
Qed.

Lemma new_location w : wf w -> skS w !! w_next w = None ∧ skC w !! w_next w = None ∧
  w_lists w !! w_next w = None.
Proof. intros Hw. by apply (wf_next _ _ _ _ _ Hw). Qed.

(** The common end of both constructors of contexts. *)
Lemma spec_alloc_ctx w (mk : nat -> Ctx) b :
  wf w -> (∀ d, sk_ctx (mk d) = mkSC b (-1) 0) ->
  spec w (d ← fresh; _ ← modify (upd_dicts (<[d := []]>)); c ← fresh;
          _ ← modify (upd_ctxs (<[c := mk d]>)); mret c)
    (fun c w' => skC w' !! c = Some (mkSC b (-1) 0) ∧ skC w !! c = None).
Proof.
  intros Hw Hmk. eapply spec_bind; [by apply spec_fresh|].
  intros d w1 Hw1 G1 _. eapply spec_bind; [by apply spec_dict|].
  intros [] w2 Hw2 G2 _. eapply spec_bind; [by apply spec_fresh|].
  intros c w3 Hw3 G3 (-> & Hn & HS & HC & _). eapply spec_bind.
  - assert (noop (mk d) = b) as Eb by (specialize (Hmk d); by injection Hmk).
    apply spec_store_ctx; [done | lia | rewrite HC; by apply new_location |].
    by rewrite Eb, Hmk.
  - intros [] w4 Hw4 G4 [Hc4 Hc3]. apply spec_ret; [done|]. split.
    + rewrite Hc4. specialize (Hmk d). injection Hmk as -> _ _. done.
    + rewrite HC in Hc3. destruct (skC w !! w_next w2) as [x|] eqn:E; [|done].
      destruct (grow_ctxs _ _ (transitivity G1 G2) _ _ E) as (x' & ? & _). congruence.
Qed.

Lemma spec_new_SpanContext w :
  wf w -> spec w (new_SpanContext uuid1)
    (fun c w' => skC w' !! c = Some (mkSC false (-1) 0) ∧ skC w !! c = None).
Proof.
  intros Hw. unfold new_SpanContext. eapply spec_bind; [by apply spec_new_ID|].
  intros si w1 Hw1 G1 _. apply spec_read. set (now := w_now w1).
  eapply spec_bind; [by apply spec_new_ID|].
  intros ti w3 Hw3 G3 _. eapply spec_conseq.
  { apply (spec_alloc_ctx w3 (fun d => mkCtx false (mkSegment si [] (int_ms now) [ti] false)
      (-1) d 0 None (round_ms now) None) false); done. }
  intros c w4 G4 [? E]. split; [done|]. destruct (skC w !! c) as [x|] eqn:Ew; [|done].
  destruct (grow_ctxs _ _ (transitivity G1 G3) _ _ Ew) as (x' & ? & _).
  congruence.
Qed.

Lemma spec_new_NoopContext w :
  wf w -> spec w new_NoopContext
    (fun c w' => skC w' !! c = Some (mkSC true (-1) 0) ∧ skC w !! c = None).
Proof.
  intros Hw. apply (spec_alloc_ctx w (fun d => mkCtx true (mkSegment (mkID NewNoopID []) [] 0
    [mkID NewNoopID []] false) (-1) d 0 None 0 None) true); done.
Qed.

(** A span stored at a new location. *)
Lemma spec_alloc_span w (s : Span) x :
  wf w -> skC w !! context s = Some x -> c_noop x = k_noop (sk_span s) -> depth s = 0 ->
  (k_noop (sk_span s) = false -> sid s = c_counter x ∧ 0 <= sid s ∧ parent_ok (skS w) (sk_span s) ∧
     ∀ l' s', skS w !! l' = Some s' -> k_noop s' = false -> k_context s' = context s ->
       k_sid s' < sid s) ->
  spec w (alloc_span s) (fun l w' => skS w' !! l = Some (sk_span s) ∧ skS w !! l = None ∧
    w_spans w' !! l = Some s ∧ l = w_next w).
Proof.
  intros Hw Hx Hn Hd Hs. unfold alloc_span. eapply spec_bind; [by apply spec_fresh|].
  intros l w1 Hw1 G1 (-> & Hn1 & HS & HC & HL & HV).
  destruct (new_location w Hw) as (Hnew & _ & _).
  assert (skS (upd_spans (<[w_next w := s]>) w1) = <[w_next w := sk_span s]> (skS w)) as E.
  { rewrite <- HS. unfold skS. cbn. by rewrite fmap_insert. }
  eapply (spec_bind _ _ _ (fun _ w' => w' = upd_spans (<[w_next w := s]>) w1)).
  - unfold spec, modify. split_and!; [ | split; try done | done].
    + unfold wf in *. cbn [upd_spans w_next w_lists w_vars]. rewrite E, Hn1, HL, HV.
      change (skC (upd_spans (<[w_next w := s]>) w1)) with (skC w1). rewrite HC.
      eapply WF_new_span; [by apply WF_fresh | cbn; lia | done..].
    + rewrite E, HS. by apply insert_subseteq.
    + by eauto.
  - intros [] w2 Hw2 _ ->. apply spec_ret; [done|]. split_and!; try done.
    + rewrite E. apply lookup_insert_eq.
    + cbn. apply lookup_insert_eq.
Qed.

(** *** Reading the stack *)

Lemma stack_alloc w t i spans :
  wf w -> w_lists w !! i = None ->
  ∀ t', stack (upd_vars (<[t := i]>) (upd_lists (<[i := spans]>) w)) t' =
    if decide (t' = t) then spans else stack w t'.
Proof.
  intros Hw Hi t'. unfold stack. cbn. case_decide as E.
  - subst. by rewrite lookup_insert_eq, lookup_total_insert_eq.
  - rewrite lookup_insert_ne by done. destruct (w_vars w !! t') as [j|] eqn:Hj; [|done].
    destruct (wf_var _ _ _ _ _ Hw t' j Hj) as [sp Hsp].
    rewrite lookup_total_insert_ne; [done|]. intros ->. congruence.
Qed.

(** Binding a fresh list of known spans in [t]. *)
Lemma wf_alloc_list w t spans :
  wf w -> (∀ l, l ∈ spans -> is_Some (skS w !! l)) ->
  let w1 := (fresh w).1 in
  let w' := upd_vars (<[t := w_next w]>) (upd_lists (<[w_next w := spans]>) w1) in
  wf w' ∧ skS w' = skS w ∧ skC w' = skC w ∧ w_agent w' = w_agent w ∧
  ∀ t', stack w' t' = if decide (t' = t) then spans else stack w t'.
Proof.
  intros Hw Hs w1 w'. assert (wf w1) as Hw1 by (unfold wf in *; cbn; by apply WF_fresh).
  assert (w_lists w1 !! w_next w = None) as Hi by apply (new_location w Hw).
  split_and!; [|done..|].
  - unfold wf in *. cbn in *. apply WF_bind; [|by rewrite lookup_insert_eq].
    apply WF_list; [done | lia | done].
  - apply (stack_alloc w1 t (w_next w) spans Hw1 Hi).
Qed.

Lemma spec_spans w t :
  wf w -> spec w (_spans t) (fun i w' => w_lists w' !!! i = stack w t ∧ skS w' = skS w ∧
    w_spans w' = w_spans w ∧ w_ctxs w' = w_ctxs w).
Proof.
  intros Hw. unfold _spans. apply spec_read. destruct (w_vars w !! t) as [i|] eqn:Hi.
  - apply spec_ret; [done|]. unfold stack. by rewrite Hi.
  - destruct (wf_alloc_list w t [] Hw ltac:(set_solver)) as (Hw' & HS & HC & _ & HT).
    set (w' := upd_vars _ _) in *.
    change (wf w' ∧ grow w w' ∧ w_lists w' !!! w_next w = stack w t ∧ skS w' = skS w ∧
      w_spans w' = w_spans w ∧ w_ctxs w' = w_ctxs w). split_and!; try done.
    + split; [by rewrite HS | by rewrite HC; eauto |].
      intros t'. rewrite HT. case_decide; [|done]. subst. unfold stack. by rewrite Hi.
    + cbn. rewrite lookup_total_insert_eq. unfold stack. by rewrite Hi.
Qed.

Lemma spec_peek w t b :
  wf w -> spec w (peek t b) (fun o w' => o = last (stack w t) ∧ w_spans w' = w_spans w ∧
    w_ctxs w' = w_ctxs w).
Proof.
  intros Hw. unfold peek. eapply spec_bind; [by apply spec_spans|].
  intros i w1 Hw1 G1 (Hl & HS & ? & ?). apply spec_read. rewrite Hl.
  destruct (last (stack w t)); [by apply spec_ret|].
  destruct b; [by apply spec_raise | by apply spec_ret].
Qed.

(** *** Noop spans *)

Lemma spec_new_NoopSpan w c x :
  wf w -> skC w !! c = Some x -> c_noop x = true ->
  spec w (new_NoopSpan c) (fun l w' => skS w' !! l = Some (mkSS true c (-1) (-1) 0) ∧
    skS w !! l = None).
Proof.
  intros Hw Hx Hn. eapply spec_conseq; [by eapply spec_alloc_span|].
  cbn. naive_solver.
Qed.

(** A span that has not been started, and did not exist before. *)
Definition new_in w l w' : Prop :=
  skS w !! l = None ∧ ∃ s, skS w' !! l = Some s ∧ k_depth s = 0.

Lemma new_in_back w w1 w2 l : grow w w1 -> new_in w1 l w2 -> new_in w l w2.
Proof.
  intros G [Hl Hs]. split; [|done]. destruct (skS w !! l) as [s|] eqn:E; [|done].
  apply (grow_span _ _ _ _ G) in E. congruence.
Qed.

Lemma spec_ignore_check w op carrier :
  wf w -> spec w (ignore_check cfg op carrier)
    (fun o w' => match o with Some l => new_in w l w' | None => True end).
Proof.
  intros Hw. unfold ignore_check. apply spec_read.
  eapply (spec_bind _ _ _ trivial_post).
  { destruct (ignore_path cfg op); [by apply spec_ret|].
    destruct (is_segment_queue_full _); [by apply spec_ret|].
    destruct carrier; [by apply spec_lift | by apply spec_ret]. }
  intros [] w1 Hw1 G1 _; [|by apply spec_ret].
  eapply spec_bind; [by apply spec_new_NoopContext|].
  intros c w2 Hw2 G2 [Hc _]. eapply spec_bind; [by eapply spec_new_NoopSpan|].
  intros l w3 Hw3 G3 [Hl Hl2]. apply spec_ret; [done|].
  apply (new_in_back _ w2); [by etrans|]. split; [done|]. eexists. by rewrite Hl.
Qed.

(** *** Extraction *)

Lemma spec_relate w c i : wf w -> spec w (relate c i) trivial_post.
Proof.
  intros Hw. unfold relate, get_ctx. apply spec_read.
  destruct (related_traces _) as [|a r]; [by apply spec_raise|].
  change (head_or_raise (a :: r)) with (mret a : M W ID).
  eapply (spec_bind _ _ _ trivial_post); [by apply spec_ret|].
  intros b w1 Hw1 _ _. by apply spec_mod_ctx.
Qed.

Lemma spec_span_extract w l carrier : wf w -> spec w (span_extract uuid1 l carrier) trivial_post.
Proof.
  intros Hw. destruct carrier as [ca|]; [|by apply spec_ret]. unfold span_extract, get_span.
  apply spec_read. eapply spec_bind; [by apply spec_new_ID|]. intros i w1 Hw1 _ _.
  eapply spec_bind; [by apply spec_relate|]. intros [] w2 Hw2 _ _.
  eapply (spec_bind _ _ _ trivial_post); [by apply spec_mod_ctx|]. intros [] w3 Hw3 _ _.
  eapply (spec_bind _ _ _ trivial_post); [by apply spec_lift|].
  intros [] w4 Hw4 _ _; [|by apply spec_ret].
  eapply (spec_bind _ _ _ trivial_post); [by apply spec_lift|]. intros r w5 Hw5 _ _.
  apply spec_read. case_decide; [by apply spec_ret | by apply spec_mod_span].
Qed.

Lemma spec_extract w l carrier : wf w -> spec w (extract uuid1 l carrier) trivial_post.
Proof.
  intros Hw. unfold extract, get_span. apply spec_read.
  destruct (cls _); (by apply spec_ret || by apply spec_span_extract).
Qed.

Lemma spec_extract_if_valid w l carrier :
  wf w -> spec w (extract_if_valid uuid1 l carrier) trivial_post.
Proof.
  intros Hw. destruct carrier as [ca|]; [|by apply spec_ret]. unfold extract_if_valid.
  eapply (spec_bind _ _ _ trivial_post); [by apply spec_lift|].
  intros [] w4 Hw4 _ _; [by apply spec_extract | by apply spec_ret].
Qed.

(** *** Creating spans *)

Lemma alter_fmap {A B} (g : A -> B) (f : A -> A) (f' : B -> B) l (m : gmap nat A) :
  (∀ x, g (f x) = f' (g x)) -> g <$> alter f l m = alter f' l (g <$> m).
Proof.
  intros Hf. apply map_eq. intros i. rewrite lookup_fmap.
  destruct (decide (l = i)) as [->|Hne].
  - rewrite !lookup_alter_eq, lookup_fmap. destruct (m !! i); cbn; [by rewrite Hf | done].
  - by rewrite !lookup_alter_ne, lookup_fmap.
Qed.

Lemma alter_as_insert {A} (f : A -> A) l x (m : gmap nat A) :
  m !! l = Some x -> alter f l m = <[l := f x]> m.
Proof.
  intros H. apply map_eq. intros i. destruct (decide (l = i)) as [->|Hne].
  - by rewrite lookup_alter_eq, lookup_insert_eq, H.
  - by rewrite lookup_alter_ne, lookup_insert_ne.
Qed.

Lemma spec_next_sid w c x :
  wf w -> skC w !! c = Some x ->
  spec w (next_sid c) (fun v w' => v = c_counter x + 1 ∧
    skC w' !! c = Some (c_set_counter v x) ∧ skS w' = skS w ∧ w_spans w' = w_spans w).
Proof.
  intros Hw Hx. pose proof (get_ctx_total _ _ _ Hx) as Hg.
  set (v := sid_counter (w_ctxs w !!! c) + 1).
  assert (v = c_counter x + 1) as Hv by (subst v; by rewrite <- Hg).
  set (w' := upd_ctxs (alter (set_sid_counter v) c) w).
  change (wf w' ∧ grow w w' ∧ v = c_counter x + 1 ∧ skC w' !! c = Some (c_set_counter v x) ∧
    skS w' = skS w ∧ w_spans w' = w_spans w).
  assert (skC w' = <[c := c_set_counter v x]> (skC w)) as E.
  { subst w'. unfold skC. cbn.
    rewrite (alter_fmap sk_ctx _ (c_set_counter v)) by done. by apply alter_as_insert. }
  split_and!; try done.
  - unfold wf. rewrite E. cbn. apply WF_counter; [done..|lia].
  - split; try done. rewrite E. intros c' x' Hc'. destruct (decide (c = c')) as [->|Hne].
    + rewrite lookup_insert_eq. naive_solver.
    + rewrite lookup_insert_ne by done. eauto.
  - rewrite E. apply lookup_insert_eq.
Qed.

(** The parent of a new span belongs to the context it is created in. *)
Definition parent_in w (parent : option nat) self : Prop :=
  ∀ l, parent = Some l -> ∃ s, skS w !! l = Some s ∧ k_context s = self.

Lemma spec_carrier_of_span w l : wf w -> spec w (carrier_of_span cfg l) (fun _ w' => w' = w).
Proof.
  intros Hw. unfold carrier_of_span, get_span, get_ctx. do 2 apply spec_read.
  destruct (related_traces _); [by apply spec_raise | by apply spec_ret].
Qed.

(** The tail of [new_span]: the context is chosen, its parent fits. *)
Lemma spec_new_span_in w context x (cl : SpanClass) op peer component (pid : Z) (k : nat -> M W unit) :
  wf w -> skC w !! context = Some x -> c_noop x = false -> cl ≠ ClsNoopSpan ->
  (pid = -1 ∨ ∃ l p, skS w !! l = Some p ∧ k_context p = context ∧ k_sid p = pid) ->
  (∀ l w', wf w' -> spec w' (k l) trivial_post) ->
  spec w (sid' ← next_sid context;
          l ← alloc_span (span_init cl context sid' pid op peer (kind_of_class cl) component);
          _ ← k l; mret l)
    (fun l w' => new_in w l w').
Proof.
  intros Hw Hx Hn Hcl Hp Hk. eapply spec_bind; [by eapply spec_next_sid|].
  intros v w1 Hw1 G1 (-> & Hx1 & HS & _). set (v := c_counter x + 1).
  assert (∀ l' s', skS w !! l' = Some s' -> k_context s' = context ->
            k_noop s' = false ∧ 0 <= k_sid s' < v) as Hold.
  { intros l' s' Hl' Hc'. destruct (wf_span _ _ _ _ _ Hw l' s' Hl') as (y & Hy & Hyn & Hnum).
    rewrite Hc' in Hy. simplify_eq. rewrite Hn in Hyn. split; [done|].
    destruct (Hnum (eq_sym Hyn)) as [? _]. subst v. lia. }
  pose proof (wf_counter _ _ _ _ _ Hw context x Hx) as Hcnt.
  assert (sk_span (span_init cl context v pid op peer (kind_of_class cl) component) =
            mkSS false context v pid 0) as E by by destruct cl.
  eapply spec_bind.
  - eapply spec_alloc_span; [done | done | by rewrite E | done | rewrite E; cbn; intros _].
    split_and!; [done | lia | | intros l' s'; rewrite HS; intros Hl' _ Hc'; naive_solver].
    rewrite HS. unfold parent_ok. cbn. destruct Hp as [?|(l & p & Hl & Hc & Hpid)]; [by left|].
    right. exists l, p. destruct (Hold l p Hl Hc). split_and!; try done. lia.
  - rewrite E. intros l w2 Hw2 G2 (Hl2 & Hl1 & _).
    eapply spec_bind; [by apply Hk|]. intros [] w3 Hw3 G3 _. apply spec_ret; [done|].
    apply (new_in_back _ w1); [done|]. split; [done|].
    eexists. split; [by apply (grow_span _ _ _ _ G3)|]. done.
Qed.

Lemma spec_new_span w self x parent cl op peer component :
  wf w -> skC w !! self = Some x -> c_noop x = false -> cl ≠ ClsNoopSpan ->
  parent_in w parent self ->
  spec w (new_span cfg uuid1 self parent cl op peer component) (fun l w' => new_in w l w').
Proof.
  intros Hw Hx Hn Hcl Hp. unfold new_span. apply spec_read.
  destruct parent as [pl|]; cbn [fmap option_fmap option_map].
  - destruct (Hp pl eq_refl) as (ps & Hps & Hc). pose proof (get_span_total _ _ _ Hps) as Hg.
    destruct (depth _ =? 0).
    + eapply spec_bind; [by apply spec_new_SpanContext|]. intros c w1 Hw1 G1 [Hc1 _].
      eapply spec_conseq; [eapply spec_new_span_in; [done | done | done | done | by left |]|].
      * intros l w' Hw'. eapply spec_bind; [by apply spec_carrier_of_span|].
        intros ca w2 Hw2 _ _. by apply spec_span_extract.
      * intros l w' _. by apply new_in_back.
    + eapply (spec_bind _ _ _ (fun c w' => c = self ∧ w' = w)); [by apply spec_ret|].
      intros c w1 Hw1 _ [-> ->].
      eapply spec_new_span_in; [done.. | |intros; by apply spec_ret].
      right. exists pl, ps. split_and!; [done | done | by rewrite <- Hg].
  - eapply (spec_bind _ _ _ (fun c w' => c = self ∧ w' = w)); [by apply spec_ret|].
    intros c w1 Hw1 _ [-> ->]. eapply spec_new_span_in; [done.. | by left | intros; by apply spec_ret].
Qed.

Lemma spec_start_profiling w self op : wf w -> spec w (start_profiling cfg self op) trivial_post.
Proof.
  intros Hw. unfold start_profiling, get_ctx. apply spec_read.
  destruct (profile_status _); [by apply spec_ret|].
  destruct (agent_profile_active cfg); [|by apply spec_ret]. apply spec_read.
  eapply (spec_bind _ _ _ trivial_post); [by apply spec_modify; [|same_tac|]|].
  intros [] w1 Hw1 _ _. by apply spec_mod_ctx.
Qed.

Lemma spec_profiling_recheck w self l op :
  wf w -> spec w (profiling_recheck cfg self l op) trivial_post.
Proof.
  intros Hw. unfold profiling_recheck, get_span, get_ctx.
  destruct (agent_profile_active cfg); [|by apply spec_ret]. apply spec_read.
  destruct (sid _ =? 0); [|by apply spec_ret]. do 2 apply spec_read.
  by apply spec_modify; [|same_tac|].
Qed.

(** [self] is a context a span may be opened in by the execution context [t]:
    it exists, and it is the context of the active span if there is one. *)
Definition usable w t self : Prop :=
  is_Some (skC w !! self) ∧ parent_in w (last (stack w t)) self.

Lemma usable_grow w w' t self : grow w w' -> usable w t self -> usable w' t self.
Proof.
  intros G [[x Hx] Hp]. split.
  - destruct (grow_ctxs _ _ G _ _ Hx) as (x' & -> & _). done.
  - rewrite (grow_stacks _ _ G). intros l Hl. destruct (Hp l Hl) as (s & Hs & Hc).
    exists s. split; [by apply (grow_span _ _ _ _ G) | done].
Qed.

(** What opening a span returns: a new span, or the active one. *)
Definition opened w t l w' : Prop := new_in w l w' ∨ last (stack w t) = Some l.

Lemma opened_back w w1 w2 t l : grow w w1 -> opened w1 t l w2 -> opened w t l w2.
Proof.
  intros G [H|H]; [left; by eapply new_in_back | right; by rewrite <- (grow_stacks _ _ G)].
Qed.

(** The shape the three [new_*_span] methods share: a noop context answers with
    a noop span, an ignored operation with another, otherwise [body] opens it. *)
Lemma spec_guarded w t self op carrier (body : M W nat) :
  wf w -> usable w t self ->
  (∀ w', wf w' -> grow w w' -> noop (w_ctxs w' !!! self) = false ->
     spec w' body (fun l w'' => opened w' t l w'')) ->
  spec w (x ← get_ctx self;
          if noop x then new_NoopSpan self
          else s ← ignore_check cfg op carrier;
               match s with Some l => mret l | None => body end)
    (fun l w' => opened w t l w').
Proof.
  intros Hw [[x Hx] Hp] Hbody. unfold get_ctx. apply spec_read.
  pose proof (get_ctx_total _ _ _ Hx) as Hg. destruct (noop (w_ctxs w !!! self)) eqn:Hn.
  - eapply spec_conseq; [eapply spec_new_NoopSpan; [done..|] |].
    + by rewrite <- Hg.
    + intros l w' _ [Hl Hnew]. left. split; [done|]. eexists. by rewrite Hl.
  - eapply spec_bind; [by apply spec_ignore_check|]. intros [l|] w1 Hw1 G1 H1.
    + apply spec_ret; [done | by left].
    + eapply spec_conseq; [apply Hbody; [done..|]|intros l w2 _ H2; by apply (opened_back _ w1)].
      destruct (grow_ctxs _ _ G1 _ _ Hx) as (x' & Hx' & E).
      pose proof (get_ctx_total _ _ _ Hx') as Hg'. rewrite <- Hg in E. rewrite <- Hg' in E.
      cbn in E. congruence.
Qed.

(** The skeleton of a real context. *)
Lemma real_ctx w self : is_Some (skC w !! self) -> noop (w_ctxs w !!! self) = false ->
  ∃ x, skC w !! self = Some x ∧ c_noop x = false.
Proof.
  intros [x Hx] Hn. exists x. split; [done|]. by rewrite <- (get_ctx_total _ _ _ Hx).
Qed.

Lemma spec_open_new w t self cl op peer component :
  wf w -> usable w t self -> noop (w_ctxs w !!! self) = false -> cl ≠ ClsNoopSpan ->
  spec w (new_span cfg uuid1 self (last (stack w t)) cl op peer component)
    (fun l w' => new_in w l w').
Proof.
  intros Hw [Hx Hp] Hn Hcl. destruct (real_ctx w self Hx Hn) as (x & ? & ?).
  by eapply spec_new_span.
Qed.

Lemma noop_kept w w' self : grow w w' -> is_Some (skC w !! self) ->
  noop (w_ctxs w' !!! self) = noop (w_ctxs w !!! self).
Proof.
  intros G [x Hx]. destruct (grow_ctxs _ _ G _ _ Hx) as (x' & Hx' & E).
  pose proof (get_ctx_total _ _ _ Hx') as Hg'. pose proof (get_ctx_total _ _ _ Hx) as Hg.
  rewrite <- Hg, <- Hg' in E. done.
Qed.

Lemma spec_new_local_span w t self op :
  wf w -> usable w t self ->
  spec w (new_local_span cfg uuid1 t self op) (fun l w' => opened w t l w').
Proof.
  intros Hw Hu. apply spec_guarded; [done..|]. intros w1 Hw1 G1 Hn.
  pose proof (usable_grow _ _ _ _ G1 Hu) as Hu1.
  eapply spec_bind; [by apply spec_peek|]. intros p w2 Hw2 G2 (-> & HS & HC).
  rewrite <- (grow_stacks _ _ G2).
  eapply spec_conseq; [apply spec_open_new; try done|].
  - by eapply usable_grow.
  - by rewrite HC.
  - intros l w3 _ H3. left. by eapply new_in_back.
Qed.

Lemma spec_new_entry_span w t self op carrier inh :
  wf w -> usable w t self ->
  spec w (new_entry_span cfg uuid1 t self op carrier inh) (fun l w' => opened w t l w').
Proof.
  intros Hw Hu. apply spec_guarded; [done..|]. intros w1 Hw1 G1 Hn.
  pose proof (usable_grow _ _ _ _ G1 Hu) as Hu1.
  eapply spec_bind; [by apply spec_peek|]. intros p w2 Hw2 G2 (-> & HS & HC).
  eapply spec_bind; [by apply spec_start_profiling|]. intros [] w3 Hw3 G3 _.
  apply spec_read. assert (grow w1 w3) as G by by etrans.
  destruct (inherited_entry _ _ _) as [pl|] eqn:Hi.
  - eapply spec_bind; [by apply spec_profiling_recheck|]. intros [] w4 Hw4 G4 _.
    eapply (spec_bind _ _ _ trivial_post); [by apply spec_mod_span|]. intros [] w5 Hw5 G5 _.
    apply spec_ret; [done|]. right. unfold inherited_entry in Hi.
    destruct (last (stack w1 t)) as [q|]; [|done]. by case_match; simplify_eq.
  - rewrite <- (grow_stacks _ _ G). eapply spec_bind; [apply spec_open_new; try done|].
    + by eapply usable_grow.
    + rewrite (noop_kept _ _ _ G); [done | apply Hu1].
    + intros l w4 Hw4 G4 H4. eapply spec_bind; [by apply spec_extract_if_valid|].
      intros [] w5 Hw5 G5 _. apply spec_ret; [done|]. left.
      apply (new_in_back _ w3); [done|]. destruct H4 as [? (s & Hs & Hd)]. split; [done|].
      exists s. split; [by apply (grow_span _ _ _ _ G5) | done].
Qed.

Lemma spec_new_exit_span w t self op peer component inh :
  wf w -> usable w t self ->
  spec w (new_exit_span cfg uuid1 t self op peer component inh) (fun l w' => opened w t l w').
Proof.
  intros Hw Hu. apply spec_guarded; [done..|]. intros w1 Hw1 G1 Hn.
  pose proof (usable_grow _ _ _ _ G1 Hu) as Hu1.
  eapply spec_bind; [by apply spec_peek|]. intros p w2 Hw2 G2 (-> & HS & HC).
  apply spec_read. eapply (spec_bind _ _ _ (fun l w' => opened w1 t l w')).
  - destruct (inherited_exit _ _ _) as [[pl co]|] eqn:Hi.
    + eapply (spec_bind _ _ _ trivial_post); [by apply spec_mod_span|]. intros [] w3 Hw3 G3 _.
      apply spec_ret; [done|]. right. unfold inherited_exit in Hi.
      destruct (last (stack w1 t)) as [q|]; [|done]. repeat case_match; by simplify_eq.
    + rewrite <- (grow_stacks _ _ G2).
      eapply spec_conseq; [apply spec_open_new; try done|].
      * by eapply usable_grow.
      * by rewrite HC.
      * intros l w3 _ H3. left. by eapply new_in_back.
  - intros l w3 Hw3 G3 H3. eapply (spec_bind _ _ _ trivial_post).
    { destruct inh; [by apply spec_mod_span | by apply spec_ret]. }
    intros [] w4 Hw4 G4 _. apply spec_ret; [done|]. destruct H3 as [[? (s & Hs & Hd)]|?]; [|by right].
    left. split; [done|]. exists s. split; [by apply (grow_span _ _ _ _ G4) | done].
Qed.

Lemma spec_get_context w t :
  wf w -> spec w (get_context cfg uuid1 t) (fun c w' => usable w' t c).
Proof.
  intros Hw. unfold get_context. eapply spec_bind; [by apply spec_spans|].
  intros i w1 Hw1 G1 (Hl & HS & _). apply spec_read. rewrite Hl.
  destruct (last (stack w t)) as [l|] eqn:Hlast.
  - unfold get_span. apply spec_read. apply spec_ret; [done|].
    destruct (stack_span w t l Hw) as [s Hs].
    { apply last_Some_elem_of in Hlast. done. }
    rewrite <- HS in Hs. pose proof (get_span_total _ _ _ Hs) as Hg.
    destruct (wf_span _ _ _ _ _ Hw1 _ _ Hs) as (x & Hx & _). rewrite <- Hg in Hx. split; [by exists x|].
    rewrite (grow_stacks _ _ G1), Hlast. intros ? [= <-]. exists s. split; [done | by rewrite <- Hg].
  - assert (∀ w2, wf w2 -> grow w1 w2 -> ∀ (m : M W nat) b,
      spec w2 m (fun c w' => skC w' !! c = Some (mkSC b (-1) 0) ∧ skC w2 !! c = None) ->
      spec w2 m (fun c w' => usable w' t c)) as Hnew.
    { intros w2 Hw2 G2 m b Hm. eapply spec_conseq; [apply Hm|]. intros c w3 G3 [Hc _].
      split; [by rewrite Hc|].
      by rewrite (grow_stacks _ _ G3), (grow_stacks _ _ G2), (grow_stacks _ _ G1), Hlast. }
    apply spec_read. destruct (w_sampling w1) as [f|].
    + eapply (spec_bind _ _ _ trivial_post).
      { apply spec_modify; [done | same_tac | done]. }
      intros [] w2 Hw2 G2 _.
      destruct (try_sampling _ _).2.
      * apply (Hnew w2 Hw2 G2 _ false). by apply spec_new_SpanContext.
      * apply (Hnew w2 Hw2 G2 _ true). by apply spec_new_NoopContext.
    + apply (Hnew w1 Hw1 (reflexivity w1) _ false). by apply spec_new_SpanContext.
Qed.

(** *** Starting a span *)

Definition push l (spans : list nat) : list nat :=
  if decide (l ∈ spans) then spans else spans ++ [l].

(** The part of the world [ctx_start] and [ctx_stop] rebuild: a new list object
    holding [spans] is bound in [t], the count of context [c] changes by [d]. *)
Record rebound w t c (d : Z) (spans : list nat) w' : Prop := {
  rb_next : w_next w' = S (w_next w);
  rb_spans : skS w' = skS w;
  rb_ctxs : skC w' = alter (fun x => c_set_nspans (c_nspans x + d) x) c (skC w);
  rb_lists : w_lists w' = <[w_next w := spans]> (w_lists w);
  rb_vars : w_vars w' = <[t := w_next w]> (w_vars w)
}.

Lemma ctx_start_rebound w t c l :
  ∃ w', ctx_start t c l w = (w', Ok tt) ∧ rebound w t c 1 (push l (stack w t)) w' ∧
        w_agent w' = w_agent w.
Proof.
  unfold ctx_start, push, _spans_dup. unfold_m.
  change (stack (upd_ctxs _ w) t) with (stack w t). rewrite lookup_total_insert_eq.
  case_decide as Hin.
  - eexists. split; [done|]. split; [|done]. split; try done. unfold skC. cbn. by apply alter_fmap.
  - eexists. split; [done|]. split; [|done]. split; try done; unfold skC; cbn.
    + rewrite fmap_alter_same by done. by apply alter_fmap.
    + by rewrite insert_insert_eq.
Qed.

(** The invariant across a start or a stop: the depth of [l] changes to [v],
    the count of its context by [d]. *)
Lemma wf_rebound w w1 t l s (v d : Z) spans w' :
  wf w -> skS w !! l = Some s ->
  w_next w1 = w_next w -> skS w1 = <[l := k_set_depth v s]> (skS w) -> skC w1 = skC w ->
  w_lists w1 = w_lists w -> w_vars w1 = w_vars w ->
  rebound w1 t (k_context s) d spans w' ->
  d = (if 0 <? v then 1 else 0) - (if 0 <? k_depth s then 1 else 0) ->
  (∀ k, k ∈ spans -> is_Some (skS w !! k)) ->
  wf w' ∧ ∀ t', stack w' t' = if decide (t' = t) then spans else stack w t'.
Proof.
  intros Hw Hl En ES EC EL EV [Rn RS RC RL RV] Hd Hsp.
  rewrite En, EL in RL. rewrite En, EV in RV. rewrite En in Rn. rewrite EC in RC.
  rewrite ES in RS. destruct (wf_span _ _ _ _ _ Hw l s Hl) as (x & Hx & _ & _).
  rewrite (alter_as_insert _ _ _ _ Hx) in RC. split.
  - unfold wf. rewrite Rn, RS, RC, RL, RV. apply WF_bind; [|by rewrite lookup_insert_eq].
    apply WF_list; [|lia|].
    + apply WF_fresh. apply WF_depth; [done..|]. subst d. lia.
    + intros k Hk. apply is_Some_insert. by apply Hsp.
  - intros t'. unfold stack. rewrite RV, RL. case_decide as Et.
    + subst. by rewrite lookup_insert_eq, lookup_total_insert_eq.
    + rewrite lookup_insert_ne by done. destruct (w_vars w !! t') as [j|] eqn:Hj; [|done].
      destruct (wf_var _ _ _ _ _ Hw t' j Hj) as [sp Hsp'].
      rewrite lookup_total_insert_ne; [done|]. intros <-.
      destruct (new_location w Hw) as (_ & _ & ?). congruence.
Qed.

(** A depth change that crosses no boundary. *)
Lemma wf_depth_only w w' l s (v : Z) :
  wf w -> skS w !! l = Some s -> w_next w' = w_next w ->
  skS w' = <[l := k_set_depth v s]> (skS w) -> skC w' = skC w ->
  w_lists w' = w_lists w -> w_vars w' = w_vars w -> (0 <? v) = (0 <? k_depth s) -> wf w'.
Proof.
  intros Hw Hl En ES EC EL EV Hv. destruct (wf_span _ _ _ _ _ Hw l s Hl) as (x & Hx & _ & _).
  pose proof (WF_depth _ _ _ _ _ Hw l s x v (c_nspans x) Hl Hx) as H.
  unfold wf. rewrite En, ES, EC, EL, EV. rewrite <- (insert_id (skC w) _ _ Hx).
  replace x with (c_set_nspans (c_nspans x) x) at 1 by by destruct x. apply H. rewrite Hv. lia.
Qed.

Lemma push_known w t l s : wf w -> skS w !! l = Some s ->
  ∀ k, k ∈ push l (stack w t) -> is_Some (skS w !! k).
Proof.
  intros Hw Hl k. unfold push. case_decide; [by apply stack_span|].
  intros [?|E%list_elem_of_singleton]%elem_of_app; [by eapply stack_span | by subst].
Qed.

(** The skeleton after setting a depth. *)
Lemma skS_set_depth w l s (g : Z -> Z) (f : Span -> Span) :
  skS w !! l = Some s -> (∀ x, sk_span (f x) = k_set_depth (g (depth x)) (sk_span x)) ->
  skS (upd_spans (alter f l) w) = <[l := k_set_depth (g (k_depth s)) s]> (skS w).
Proof.
  intros Hl Hf. unfold skS. cbn.
  rewrite (alter_fmap sk_span f (fun k => k_set_depth (g (k_depth k)) k)) by apply Hf.
  apply (alter_as_insert (fun k => k_set_depth (g (k_depth k)) k) l s). done.
Qed.

Lemma span_start_result w t l s :
  wf w -> skS w !! l = Some s ->
  ∃ w', span_start t l w = (w', Ok tt) ∧ wf w' ∧
    skS w' = <[l := k_set_depth (k_depth s + 1) s]> (skS w) ∧ w_agent w' = w_agent w ∧
    ∀ t', stack w' t' = if decide (t' = t ∧ k_depth s = 0) then push l (stack w t) else stack w t'.
Proof using Type.
  clear uuid1 format_exc str_of_exn. intros Hw Hl. unfold span_start.
  set (w1 := upd_spans (alter (fun s => set_depth (depth s + 1) s) l) w).
  rewrite (bind_ok _ _ w w1 tt) by done. unfold get_span.
  pose proof (skS_set_depth w l s (fun d => d + 1) (fun s => set_depth (depth s + 1) s) Hl
    ltac:(done)) as E1. fold w1 in E1.
  assert (depth (w_spans w1 !!! l) = k_depth s + 1 ∧ context (w_spans w1 !!! l) = k_context s) as [Hd Hc].
  { pose proof (get_span_total w1 l (k_set_depth (k_depth s + 1) s)) as Hg.
    rewrite E1, lookup_insert_eq in Hg. specialize (Hg eq_refl).
    split; [exact (f_equal k_depth Hg) | exact (f_equal k_context Hg)]. }
  erewrite bind_ok by reflexivity. cbv beta. rewrite Hd, Hc.
  destruct (Z.eqb_spec (k_depth s + 1) 1) as [E|E].
  - erewrite bind_ok by reflexivity. erewrite bind_ok by reflexivity.
    set (w2 := upd_spans _ w1). destruct (ctx_start_rebound w2 t (k_context s) l) as (w' & -> & R & Ha).
    assert (skS w2 = skS w1) as E2 by (unfold skS; cbn; by apply fmap_alter_same).
    destruct (wf_rebound w w2 t l s (k_depth s + 1) 1 (push l (stack w t)) w' Hw Hl)
      as [Hw' HT]; try done.
    + by rewrite E2.
    + destruct (Z.ltb_spec 0 (k_depth s + 1)), (Z.ltb_spec 0 (k_depth s)); lia.
    + by eapply push_known.
    + exists w'. split_and!; try done.
      * by rewrite (rb_spans _ _ _ _ _ _ R), E2.
      * intros t'. rewrite HT. repeat case_decide; naive_solver lia.
  - exists w1. split_and!; try done.
    + eapply (wf_depth_only w w1); try done.
      destruct (Z.ltb_spec 0 (k_depth s + 1)), (Z.ltb_spec 0 (k_depth s)); lia.
    + intros t'. rewrite decide_False by lia. done.
Qed.

Lemma start_result w t l s :
  wf w -> skS w !! l = Some s ->
  ∃ w', start t l w = (w', Ok tt) ∧ wf w' ∧
    skS w' = <[l := k_set_depth (k_depth s + 1) s]> (skS w) ∧ w_agent w' = w_agent w ∧
    ∀ t', stack w' t' = if decide (t' = t ∧ k_depth s = 0) then push l (stack w t) else stack w t'.
Proof.
  intros Hw Hl. destruct (span_start_result w t l s Hw Hl) as (w' & Hs & Hw' & HS & Ha & HT).
  unfold start, get_span. erewrite bind_ok by reflexivity. cbv beta.
  destruct (cls _); try (by exists w').
  unfold entry_start. rewrite (bind_ok _ _ _ _ _ Hs). eexists. split; [reflexivity|].
  set (w2 := upd_spans _ w').
  assert (same w' w2) as E by (split; try done; unfold skS; cbn; by apply fmap_alter_same).
  split_and!; [by eapply same_wf | by rewrite (same_spans _ _ E) | done |].
  intros t'. rewrite <- HT. apply (grow_stacks _ _ (same_grow _ _ E)).
Qed.

(** *** Stopping a span *)

Definition drop_span l (spans : list nat) : list nat :=
  default spans (list_remove_first l spans).

Lemma drop_span_subset l spans k : k ∈ drop_span l spans -> k ∈ spans.
Proof.
  unfold drop_span. destruct (list_remove_first l spans) as [r|] eqn:E; cbn; [|done].
  apply remove_first_sublist in E. intros Hk.
  by eapply elem_of_submseteq; [|apply sublist_submseteq].
Qed.

(** [finish], skipped in a noop context. *)
Lemma finish_same w c l x :
  w_ctxs w !! c = Some x ->
  ∃ w' x', (if noop x then mret tt else finish c l) w = (w', Ok tt) ∧ same w w' ∧
    w_agent w' = w_agent w ∧ w_now w' = w_now w ∧ w_ctxs w' !! c = Some x' ∧
    sk_ctx x' = sk_ctx x ∧
    seg_spans (segment x') =
      (if noop x then seg_spans (segment x) else seg_spans (segment x) ++ [l]).
Proof.
  intros Hx. destruct (noop x) eqn:Hn; [by exists w, x|].
  eexists _, _. split; [reflexivity|]. split_and!; [split; try done| done | done | | | ].
  - unfold skS. cbn. by apply fmap_alter_same.
  - unfold skC. cbn. by apply fmap_alter_same.
  - cbn. by rewrite lookup_alter_eq, Hx.
  - done.
  - done.
Qed.

(** The end of [stop]: hand over the segment when the count is down to zero. *)
Definition hand_over c : M W bool :=
  x ← get_ctx c;
  if nspans x =? 0 then
    _ ← (if noop x then mret tt
         else
           full ← gets (fun w => is_segment_queue_full (w_agent w));
           _ ← mod_segment c (set_is_size_limited full);
           now ← gets w_now;
           modify (upd_agent (archive_segment now c)));
    mret true
  else mret false.

Lemma hand_over_same w c x :
  w_ctxs w !! c = Some x ->
  ∃ w', hand_over c w = (w', Ok (nspans x =? 0)) ∧ same w w' ∧
    w_agent w' = (if negb (noop x) && (nspans x =? 0) then archive_segment (w_now w) c (w_agent w)
                  else w_agent w) ∧
    seg_spans (segment (w_ctxs w' !!! c)) = seg_spans (segment x).
Proof.
  intros Hx. unfold hand_over, get_ctx. erewrite bind_ok by reflexivity. cbv beta.
  rewrite (lookup_total_correct _ _ _ Hx). destruct (nspans x =? 0).
  - destruct (noop x); eexists; (split; [reflexivity|]); cbn; split_and!; try done.
    + by rewrite (lookup_total_correct _ _ _ Hx).
    + split; try done. unfold skC. cbn. by apply fmap_alter_same.
    + by rewrite lookup_total_alter_eq, Hx.
  - exists w. rewrite andb_false_r. by rewrite (lookup_total_correct _ _ _ Hx).
Qed.

Lemma ctx_stop_rebound w t c l x :
  w_ctxs w !! c = Some x ->
  ∃ w', ctx_stop t c l w = (w', Ok (nspans x - 1 =? 0)) ∧
    rebound w t c (-1) (drop_span l (stack w t)) w' ∧
    w_agent w' = (if negb (noop x) && (nspans x - 1 =? 0) then archive_segment (w_now w) c (w_agent w)
                  else w_agent w) ∧
    seg_spans (segment (w_ctxs w' !!! c)) =
      (if noop x then seg_spans (segment x) else seg_spans (segment x) ++ [l]).
Proof.
  intros Hx. unfold ctx_stop, get_ctx. erewrite bind_ok by reflexivity. cbv beta.
  rewrite (lookup_total_correct _ _ _ Hx). erewrite bind_ok by reflexivity. cbv beta.
  set (w1 := upd_vars _ _). assert (w_ctxs w1 !! c = Some x) as Hx1 by done.
  destruct (finish_same w1 c l x Hx1) as (w2 & x2 & E2 & S2 & A2 & N2 & Hx2 & K2 & G2).
  rewrite (bind_ok _ _ _ _ _ E2). do 2 (erewrite bind_ok by reflexivity).
  set (w3 := upd_ctxs _ _).
  assert (w_ctxs w3 !! c = Some (set_nspans (nspans x2 - 1) x2)) as Hx3.
  { cbn. by rewrite lookup_alter_eq, Hx2. }
  destruct (hand_over_same w3 c _ Hx3) as (w4 & E4 & S4 & A4 & G4).
  injection K2 as Kn _ Ks. cbn in E4, A4, G4. rewrite Ks, ?Kn in *.
  exists w4. split; [exact E4|]. split; [|split; [by rewrite A4, A2, N2 | congruence]].
  split.
  - rewrite (same_next _ _ S4). exact (same_next _ _ S2).
  - rewrite (same_spans _ _ S4). exact (same_spans _ _ S2).
  - rewrite (same_ctxs _ _ S4). rewrite <- (same_ctxs _ _ S2 : skC w2 = skC w).
    unfold skC. cbn. apply alter_fmap. done.
  - rewrite (same_lists _ _ S4). cbn. rewrite (same_lists _ _ S2). cbn.
    rewrite (alter_as_insert _ _ _ _ (lookup_insert_eq _ _ _)). by rewrite insert_insert_eq.
  - rewrite (same_vars _ _ S4). exact (same_vars _ _ S2).
Qed.

(** Stopping a span: the depth goes down; at depth 0 it leaves the stack, and
    the segment is handed over when no span of its context is active. *)
Lemma stop_result w t l s x :
  wf w -> skS w !! l = Some s -> w_ctxs w !! k_context s = Some x ->
  ∃ w', stop t l w = (w', Ok ((k_depth s =? 1) && (nspans x =? 1))) ∧ wf w' ∧
    skS w' = <[l := k_set_depth (k_depth s - 1) s]> (skS w) ∧
    w_agent w' = (if (k_depth s =? 1) && (negb (noop x) && (nspans x =? 1))
                  then archive_segment (w_now w) (k_context s) (w_agent w) else w_agent w) ∧
    seg_spans (segment (w_ctxs w' !!! k_context s)) =
      (if (k_depth s =? 1) && negb (noop x) then seg_spans (segment x) ++ [l]
       else seg_spans (segment x)) ∧
    ∀ t', stack w' t' =
      if decide (t' = t ∧ k_depth s = 1) then drop_span l (stack w t) else stack w t'.
Proof using Type.
  clear uuid1 format_exc str_of_exn. intros Hw Hl Hx. unfold stop.
  set (f := fun s => set_depth (depth s - 1) s). set (w1 := upd_spans (alter f l) w).
  rewrite (bind_ok _ _ w w1 tt) by done. unfold get_span.
  pose proof (skS_set_depth w l s (fun d => d - 1) f Hl ltac:(done)) as E1. fold w1 in E1.
  assert (sk_span (w_spans w1 !!! l) = k_set_depth (k_depth s - 1) s) as Hg.
  { apply get_span_total. rewrite E1. apply lookup_insert_eq. }
  erewrite bind_ok by reflexivity. cbv beta.
  change (depth ?y) with (k_depth (sk_span y)). change (context ?y) with (k_context (sk_span y)).
  rewrite Hg. cbn [k_depth k_context k_set_depth].
  destruct (Z.eqb_spec (k_depth s) 1) as [E|E].
  - rewrite E. change (1 - 1 =? 0) with true. cbn [andb].
    destruct (ctx_stop_rebound w1 t (k_context s) l x Hx) as (w' & Hs & R & Ha & Hseg).
    destruct (wf_rebound w w1 t l s 0 (-1) (drop_span l (stack w t)) w' Hw Hl) as [Hw' HT];
      try done.
    + rewrite E1, E. done.
    + by rewrite E.
    + intros k Hk%drop_span_subset. by eapply stack_span.
    + replace (nspans x - 1 =? 0) with (nspans x =? 1) in * by lia.
      exists w'. split_and!; try done.
      * by rewrite (rb_spans _ _ _ _ _ _ R), E1, E.
      * rewrite Hseg. by destruct (noop x).
      * intros t'. rewrite HT. repeat case_decide; naive_solver lia.
  - rewrite (proj2 (Z.eqb_neq (k_depth s - 1) 0)) by lia. cbn [andb].
    exists w1. split_and!; try done.
    + eapply (wf_depth_only w w1); try done.
      destruct (Z.ltb_spec 0 (k_depth s - 1)), (Z.ltb_spec 0 (k_depth s)); lia.
    + by rewrite (lookup_total_correct _ _ _ (Hx : w_ctxs w1 !! _ = _)).
    + intros t'. rewrite decide_False by lia. done.
Qed.
End specs.
