(* ===== verification/TraceProps.v ===== *)
(** * Properties of the tracer

    Executions are sequences of the calls a host program, the plugins and the
    decorators make, in any interleaving of execution contexts (threads and
    asyncio tasks).  A span is opened the way every caller does it: on the
    context [get_context] has just returned. *)

From S2P Require Import Prelude PyData PyText Codec Carrier Config.
From S2P Require Import Filter Sampling TraceData Trace TraceInv TraceSpec.

Section props.
Context {AG PS : Type} `{!AgentOps AG} `{!ProfileOps PS}.
Context (cfg : Config) (uuid1 : nat -> pystr) (import_time : Z).
Context (format_exc : exn -> Z -> pystr) (str_of_exn : exn -> pystr).
Abbreviation W := (World AG PS).
Implicit Types (w : W) (t l c : nat).

(** ** Executions *)

Inductive call :=
| OpenLocal (t : nat) (op : pystr)
| OpenEntry (t : nat) (op : pystr) (carrier : option Carrier) (inherit : option Component.t)
| OpenExit (t : nat) (op peer : pystr) (component inherit : option Component.t)
| Start (t l : nat)
| Stop (t l : nat)
| Raised (l : nat) (e : exn)
| LogError (l : nat) (e : exn)
| AddTag (l : nat) (tg : Tag)
| SetLayer (l : nat) (ly : Layer.t)
| SetComponent (l : nat) (co : Component.t)
| Extract (l : nat) (carrier : option Carrier)
| Inject (l : nat)
| PutCorrelation (c : nat) (key value : option pystr)
| Capture (t c : nat)
| Continued (t c : nat) (snapshot : option Snapshot)
| NewTask (t t' : nat)
| Sample (f : option Z).

(** [context = get_context(); span = context.new_..._span(...)] *)
Definition open_with t (new : nat -> M W nat) : M W nat :=
  c ← get_context cfg uuid1 t; new c.

Definition ignore_result {A} (m : M W A) : M W unit := _ ← m; mret tt.

Definition exec (o : call) : M W unit :=
  match o with
  | OpenLocal t op => ignore_result (open_with t (fun c => new_local_span cfg uuid1 t c op))
  | OpenEntry t op ca inh =>
      ignore_result (open_with t (fun c => new_entry_span cfg uuid1 t c op ca inh))
  | OpenExit t op pe co inh =>
      ignore_result (open_with t (fun c => new_exit_span cfg uuid1 t c op pe co inh))
  | Start t l => start t l
  | Stop t l => ignore_result (stop t l)
  | Raised l e => raised cfg import_time format_exc l e
  | LogError l e => log import_time str_of_exn l e
  | AddTag l tg => tag l tg
  | SetLayer l ly => mod_span l (set_layer ly)
  | SetComponent l co => mod_span l (set_component co)
  | Extract l ca => extract uuid1 l ca
  | Inject l => ignore_result (inject cfg l)
  | PutCorrelation c k v => put_correlation cfg c k v
  | Capture t c => ignore_result (capture t c)
  | Continued t c s => continued cfg uuid1 t c s
  | NewTask t t' => copy_context t t'
  | Sample f => modify (upd_sampling f)
  end.

(** The objects a call names exist; a new task has a new execution context. *)
Definition legal w (o : call) : Prop :=
  match o with
  | Start _ l | Stop _ l => is_Some (w_spans w !! l)
  | NewTask t t' => w_vars w !! t' = None
  | _ => True
  end.

(** The execution context a call runs in, where it matters. *)
Definition task_of (o : call) : option nat :=
  match o with
  | OpenLocal t _ | OpenEntry t _ _ _ | OpenExit t _ _ _ _ | Start t _ | Stop t _
  | Capture t _ | Continued t _ _ => Some t
  | NewTask _ t' => Some t'
  | _ => None
  end.

Inductive reachable : W -> Prop :=
| reach_init now sm ag pr : reachable (mkWorld 0 ∅ ∅ ∅ ∅ ∅ 0 now sm ag pr)
| reach_call w o : reachable w -> legal w o -> reachable (exec o w).1
| reach_time w now : reachable w ->
    reachable (mkWorld (w_next w) (w_spans w) (w_ctxs w) (w_dicts w) (w_lists w) (w_vars w)
                 (w_uuids w) now (w_sampling w) (w_agent w) (w_prof w)).

(** ** The invariant holds in every execution *)

Abbreviation trivial_post := (fun _ _ => True).

Lemma spec_ignore {A} w (m : M W A) Q : spec w m Q -> spec w (ignore_result m) trivial_post.
Proof. intros Hm. eapply spec_bind; [done|]. intros a w' Hw' _ _. by apply spec_ret. Qed.

Lemma spec_open w t (new : nat -> M W nat) :
  wf w -> (∀ w' c, wf w' -> usable w' t c -> spec w' (new c) (fun l w'' => opened w' t l w'')) ->
  spec w (open_with t new) (fun l w' => opened w t l w').
Proof.
  intros Hw Hn. eapply spec_bind; [by apply spec_get_context|]. intros c w1 Hw1 G1 Hu.
  eapply spec_conseq; [by apply Hn|]. intros l w2 _. by apply opened_back.
Qed.

Lemma spec_tag w l tg : wf w -> spec w (tag l tg) trivial_post.
Proof.
  intros Hw. unfold tag, get_span. apply spec_read. unfold add_tag.
  set (s := w_spans w !!! l).
  assert (∀ s', sk_span s' = sk_span s -> spec w (mod_span l (fun _ => s')) trivial_post) as H.
  { intros s' Hs'. apply spec_modify; [done | | done]. split; try done. unfold skS. cbn.
    apply map_eq. intros i. rewrite !lookup_fmap. destruct (decide (l = i)) as [->|Hne].
    - rewrite lookup_alter_eq. destruct (w_spans w !! i) as [s0|] eqn:E; [|done]. cbn.
      by rewrite Hs', (lookup_total_correct _ _ _ E : s = s0).
    - by rewrite lookup_alter_ne. }
  destruct (tag_overridable tg); [by apply H|].
  destruct (Dict.get _ _) as [[]|]; [by apply spec_raise | by apply H | by apply H].
Qed.

Lemma spec_dicts w f : wf w -> spec w (modify (upd_dicts f)) trivial_post.
Proof. intros Hw. by apply spec_modify. Qed.

Lemma spec_put_correlation w c k v : wf w -> spec w (put_correlation cfg c k v) trivial_post.
Proof.
  intros Hw. unfold put_correlation, get_ctx. destruct k; [|by apply spec_ret].
  do 2 apply spec_read. destruct v; [|by apply spec_dicts].
  repeat case_match; (by apply spec_ret) || (by apply spec_dicts).
Qed.

Lemma spec_inject w l : wf w -> spec w (inject cfg l) trivial_post.
Proof.
  intros Hw. unfold inject, get_span. apply spec_read.
  destruct (cls _); [by apply spec_raise | by apply spec_raise | |].
  - eapply spec_conseq; [by apply spec_carrier_of_span | done].
  - eapply spec_bind; [by apply spec_fresh|]. intros d w1 Hw1 _ _.
    eapply spec_bind; [by apply spec_dict|]. intros [] w2 Hw2 _ _. by apply spec_ret.
Qed.

Lemma spec_capture w t c : wf w -> spec w (capture t c) trivial_post.
Proof.
  intros Hw. unfold capture, get_ctx, get_span. apply spec_read.
  destruct (noop _); [apply spec_read; by apply spec_ret|].
  eapply spec_bind; [by apply spec_spans|]. intros i w1 Hw1 _ _. apply spec_read.
  destruct (head _); [|by apply spec_ret]. destruct (last _); [|by apply spec_ret].
  destruct (related_traces _) as [|tid ?]; [by apply spec_raise|].
  apply (spec_read _ (fun _ => tid)). do 3 apply spec_read. by apply spec_ret.
Qed.

Lemma spec_continued w t c s : wf w -> spec w (continued cfg uuid1 t c s) trivial_post.
Proof.
  intros Hw. unfold continued, get_ctx. apply spec_read. destruct (noop _).
  { destruct s; [by apply spec_dicts | by apply spec_raise]. }
  destruct s as [s|]; [|by apply spec_ret].
  eapply (spec_bind _ _ _ trivial_post).
  { unfold is_from_current. destruct (snap_segment_id s); [|by apply spec_ret].
    eapply spec_bind; [by apply spec_capture|]. intros [c0|] w1 Hw1 _ _;
      [by apply spec_ret | by apply spec_raise]. }
  intros cur w1 Hw1 _ _. case_match; [|by apply spec_ret].
  eapply spec_bind; [by apply spec_peek|]. intros [l|] w2 Hw2 _ _; [|by apply spec_raise].
  eapply (spec_bind _ _ _ trivial_post); [by apply spec_mod_span|]. intros [] w3 Hw3 _ _.
  eapply spec_bind; [by apply spec_new_ID|]. intros i w4 Hw4 _ _.
  eapply spec_bind; [by apply spec_relate|]. intros [] w5 Hw5 _ _.
  apply spec_read. by apply spec_dicts.
Qed.

Lemma spec_run {A} w (m : M W A) Q : spec w m Q -> wf (m w).1 ∧ grow w (m w).1.
Proof. unfold spec. destruct (m w) as [w' [a|e]]; naive_solver. Qed.

(** Calls other than [Start], [Stop] and [NewTask] only grow the heap. *)
Lemma exec_grows w o :
  wf w ->
  match o with Start _ _ | Stop _ _ | NewTask _ _ => True | _ => spec w (exec o) trivial_post end.
Proof.
  intros Hw. destruct o; cbn [exec]; try done.
  - eapply spec_ignore, spec_open; [done | intros; by apply spec_new_local_span].
  - eapply spec_ignore, spec_open; [done | intros; by apply spec_new_entry_span].
  - eapply spec_ignore, spec_open; [done | intros; by apply spec_new_exit_span].
  - by apply spec_mod_span.
  - by apply spec_mod_span.
  - by apply spec_tag.
  - by apply spec_mod_span.
  - by apply spec_mod_span.
  - by apply spec_extract.
  - by eapply spec_ignore, spec_inject.
  - by apply spec_put_correlation.
  - by eapply spec_ignore, spec_capture.
  - by apply spec_continued.
  - by apply spec_modify.
Qed.

Lemma span_ctx w l s : wf w -> w_spans w !! l = Some s ->
  ∃ x, w_ctxs w !! context s = Some x ∧ skS w !! l = Some (sk_span s).
Proof.
  intros Hw Hs%skS_lookup. destruct (wf_span _ _ _ _ _ Hw _ _ Hs) as (k & Hk & _).
  apply skC_inv in Hk as (x & ? & ->). eauto.
Qed.

Lemma copy_context_wf w t t' :
  wf w -> w_vars w !! t' = None ->
  wf (copy_context t t' w).1 ∧
  ∀ t'', stack (copy_context t t' w).1 t'' = if decide (t'' = t') then stack w t else stack w t''.
Proof.
  intros Hw Ht'. unfold copy_context, modify, wf, stack. cbn.
  destruct (w_vars w !! t) as [i|] eqn:Hi; split.
  - apply WF_bind; [done|]. by eapply wf_var.
  - intros t''. case_decide; [subst; by rewrite lookup_insert_eq | by rewrite lookup_insert_ne].
  - by apply WF_unbind.
  - intros t''. rewrite delete_id by done. case_decide; [by subst; rewrite Ht' | done].
Qed.

Lemma exec_wf w o :
  wf w -> legal w o -> wf (exec o w).1 ∧
    ∀ t', task_of o ≠ Some t' -> stack (exec o w).1 t' = stack w t'.
Proof.
  intros Hw Hlegal. pose proof (exec_grows w o Hw) as H.
  destruct o; try (apply spec_run in H as [? G]; split; [done|];
    intros t' _; apply (grow_stacks _ _ G)); cbn [exec legal task_of] in *.
  - destruct Hlegal as [s Hs]. destruct (span_ctx w l s Hw Hs) as (x & _ & Hk).
    destruct (start_result w t l _ Hw Hk) as (w' & -> & Hw' & _ & _ & HT). split; [done|].
    intros t' Ht'. cbn. rewrite HT, decide_False by naive_solver. done.
  - destruct Hlegal as [s Hs]. destruct (span_ctx w l s Hw Hs) as (x & Hx & Hk).
    destruct (stop_result w t l _ x Hw Hk Hx) as (w' & E & Hw' & _ & _ & _ & HT).
    unfold ignore_result. rewrite (bind_ok _ _ _ _ _ E). split; [done|].
    intros t' Ht'. cbn. rewrite HT, decide_False by naive_solver. done.
  - destruct (copy_context_wf w t t' Hw Hlegal) as [Hw' HT]. split; [done|].
    intros t'' Ht''. rewrite HT, decide_False by naive_solver. done.
Qed.

Lemma reachable_wf w : reachable w -> wf w.
Proof.
  induction 1 as [now sm ag pr | w o Hr Hw Hl | w now Hr Hw]; [|by apply exec_wf | done].
  unfold wf, skS, skC. cbn. rewrite !fmap_empty. split; naive_solver.
Qed.

(** ** Counting active spans *)

(** The started, not yet stopped spans of context [c]. *)
Definition active_spans w c : gmap nat Span :=
  filter (fun p : nat * Span => context p.2 = c ∧ 0 < depth p.2) (w_spans w).

Lemma active_skeleton w c : active (skS w) c = Z.of_nat (size (active_spans w c)).
Proof.
  unfold active, active_spans, skS. f_equal.
  rewrite map_filter_fmap. by rewrite map_size_fmap.
Qed.


(** C2. Stopping a span of a real context hands the context's segment to the agent,
    exactly once, if and only if the stop leaves the context without an active span;
    the segment then lists the span just stopped.  The call returns whether it did. *)
Theorem stop_archives_with_last_span w t l s x :
  reachable w -> w_spans w !! l = Some s -> w_ctxs w !! context s = Some x ->
  noop x = false -> depth s = 1 ->
  ∃ w', stop t l w = (w', Ok (bool_decide (active_spans w' (context s) = ∅))) ∧
    w_agent w' = (if decide (active_spans w' (context s) = ∅)
                  then archive_segment (w_now w) (context s) (w_agent w) else w_agent w) ∧
    seg_spans (segment (w_ctxs w' !!! context s)) = seg_spans (segment x) ++ [l].
Proof.
  intros Hr%reachable_wf Hs Hx Hn Hd. destruct (span_ctx w l s Hr Hs) as (_ & _ & Hk).
  destruct (stop_result w t l _ x Hr Hk Hx) as (w' & E & Hw' & HS & Ha & Hseg & _).
  change (k_depth (sk_span s)) with (depth s) in *.
  change (k_context (sk_span s)) with (context s) in *. rewrite Hd, Hn in *.
  pose proof (wf_active _ _ _ _ _ Hr _ _ (skC_lookup _ _ _ Hx)) as Hcount.
  assert (Z.of_nat (size (active_spans w' (context s))) = nspans x - 1) as Hact.
  { rewrite <- active_skeleton, HS, (active_update _ _ _ _ _ Hk), <- Hcount.
    rewrite !counts_own by done.
    cbn [k_depth k_set_depth sk_span c_nspans sk_ctx]. rewrite Hd.
    change (0 <? 1) with true. change (0 <? 1 - 1) with false. cbn. lia. }
  assert ((nspans x =? 1) = bool_decide (active_spans w' (context s) = ∅)) as Hb.
  { destruct (Z.eqb_spec (nspans x) 1); symmetry.
    - apply bool_decide_eq_true_2, map_size_empty_inv. lia.
    - apply bool_decide_eq_false_2. intros H0. rewrite H0, map_size_empty in Hact. lia. }
  exists w'. change (1 =? 1) with true in *. cbn [andb negb] in *. rewrite Hb in E, Ha.
  split_and!; [done | | done]. rewrite Ha. case_bool_decide; by case_decide.
Qed.


(** C4. Execution contexts are isolated: a call made in one thread or task never changes
    the list of active spans another one sees, although a task starts out sharing the
    list object of its creator. *)
Theorem tasks_are_isolated w o t' :
  reachable w -> legal w o -> task_of o ≠ Some t' -> stack (exec o w).1 t' = stack w t'.
Proof. intros Hr%reachable_wf Hl Ht. by apply exec_wf. Qed.

(** Stopping the span on top of the stack pops it. *)
Lemma drop_push l spans : l ∉ spans -> drop_span l (push l spans) = spans.
Proof.
  intros Hl. unfold drop_span, push. rewrite decide_False by done. by rewrite remove_first_snoc.
Qed.

Lemma raised_same w l e : same w (raised cfg import_time format_exc l e w).1.
Proof. split; try done. unfold skS. cbn. by apply fmap_alter_same. Qed.

(** A [with] block, given how it ends: the exception of the body, if it is an [Exception],
    is noted on the span, which is then stopped. *)
Lemma with_span_steps {A} w t l (body : M W A) w1 w2 r (P : W -> Prop) :
  start t l w = (w1, Ok tt) -> body w1 = (w2, r) ->
  (∀ w3, same w2 w3 -> ∃ w4 b, stop t l w3 = (w4, Ok b) ∧ P w4) ->
  ∃ w4, with_span cfg import_time format_exc t l body w = (w4, r) ∧ P w4.
Proof.
  intros Hstart Hbody Hstop. unfold with_span. rewrite (bind_ok _ _ _ _ _ Hstart).
  destruct r as [a|e].
  - destruct (Hstop w2) as (w4 & b & E4 & HP); [done|]. exists w4. split; [|done].
    erewrite bind_ok by (unfold try_except; by rewrite Hbody).
    by rewrite (bind_ok _ _ _ _ _ E4).
  - assert (∃ w3, same w2 w3 ∧
      (if is_Exception e then raised cfg import_time format_exc l e
       else (mret tt : M W unit)) w2 = (w3, Ok tt)) as (w3 & Hsame & E3).
    { destruct (is_Exception e); [|by exists w2]. eexists. split; [apply (raised_same w2 l e) | reflexivity]. }
    destruct (Hstop w3 Hsame) as (w4 & b & E4 & HP). exists w4. split; [|done].
    erewrite bind_raise; [done|]. unfold try_except. rewrite Hbody, (bind_ok _ _ _ _ _ E3).
    by rewrite (bind_ok _ _ _ _ _ E4).
Qed.

End props.
