(* ===== verification/TraceRefine.v ===== *)
(** * What the tracer promises, and that it keeps it

    [Tracer] is the specification a user of trace/context.py and trace/span.py has in mind: spans
    with a segment and a nesting depth, one stack of active spans per thread or task, and the list
    of segments handed to the reporter.  There are no list objects, no sharing, no counters and no
    identifiers of spans within a segment.  The heap of Trace.v refines it: every execution is matched
    by a run of the specification with the same starts, stops and new tasks. *)

From S2P Require Import Prelude PyData PyText Codec Carrier Config.
From S2P Require Import Filter Sampling TraceData Trace TraceInv TraceSpec TraceProps.

(** ** The specification *)

(** A span: its segment, whether it is recorded (not a noop span), how often it was started. *)
Record AbsSpan := mkAbs { ab_segment : nat; ab_recorded : bool; ab_depth : Z }.

Record Tracer := mkTracer {
  tr_spans : gmap nat AbsSpan;
  tr_stack : nat -> list nat;
  tr_reported : list (Z * nat)     (* time and segment, in order *)
}.

Definition empty_tracer : Tracer := mkTracer ∅ (fun _ => []) [].

Definition set_abs_depth (v : Z) (s : AbsSpan) : AbsSpan := mkAbs (ab_segment s) (ab_recorded s) v.

(** The open spans of a segment. *)
Definition open_spans (c : nat) (spans : gmap nat AbsSpan) : gmap nat AbsSpan :=
  filter (fun p : nat * AbsSpan => ab_segment p.2 = c ∧ 0 < ab_depth p.2) spans.

Definition update_stack (t : nat) (f : list nat -> list nat) (stacks : nat -> list nat) : nat -> list nat :=
  fun t' => if decide (t' = t) then f (stacks t) else stacks t'.

(** The first start of a span puts it on top of the stack of its task. *)
Definition tr_start (t l : nat) (s : AbsSpan) (a : Tracer) : Tracer :=
  mkTracer (<[l := set_abs_depth (ab_depth s + 1) s]> (tr_spans a))
    (if ab_depth s =? 0 then update_stack t (push l) (tr_stack a) else tr_stack a)
    (tr_reported a).

(** The last stop takes it from that stack and, when no span of its segment is open any more, hands a
    recorded segment to the reporter. *)
Definition tr_stop (now : Z) (t l : nat) (s : AbsSpan) (a : Tracer) : Tracer :=
  let spans := <[l := set_abs_depth (ab_depth s - 1) s]> (tr_spans a) in
  mkTracer spans
    (if ab_depth s =? 1 then update_stack t (drop_span l) (tr_stack a) else tr_stack a)
    (if (ab_depth s =? 1) && ab_recorded s && bool_decide (open_spans (ab_segment s) spans = ∅)
     then tr_reported a ++ [(now, ab_segment s)] else tr_reported a).

Inductive action :=
| AStart (t l : nat)
| AStop (now : Z) (t l : nat)
| ATask (t t' : nat)
| AOther.

(** Any other call may make spans, which are not open yet, and changes nothing else. *)
Inductive tracer_step : Tracer -> action -> Tracer -> Prop :=
| ts_start a t l s : tr_spans a !! l = Some s -> tracer_step a (AStart t l) (tr_start t l s a)
| ts_stop a now t l s : tr_spans a !! l = Some s -> tracer_step a (AStop now t l) (tr_stop now t l s a)
| ts_task a t t' :
    tracer_step a (ATask t t')
      (mkTracer (tr_spans a) (update_stack t' (fun _ => tr_stack a t) (tr_stack a)) (tr_reported a))
| ts_other a spans :
    tr_spans a ⊆ spans ->
    (∀ l s, spans !! l = Some s -> tr_spans a !! l = None -> ab_depth s = 0) ->
    tracer_step a AOther (mkTracer spans (tr_stack a) (tr_reported a)).

Inductive tracer_run : Tracer -> list action -> Tracer -> Prop :=
| tr_nil a : tracer_run a [] a
| tr_snoc a acts a' act a'' : tracer_run a acts a' -> tracer_step a' act a'' -> tracer_run a (acts ++ [act]) a''.

(** ** Calls that leave the agent alone and open nothing *)

Section refine.
Context {AG PS : Type} `{!AgentOps AG} `{!ProfileOps PS}.
Context (cfg : Config) (uuid1 : nat -> pystr) (import_time : Z).
Context (format_exc : exn -> Z -> pystr) (str_of_exn : exn -> pystr).
Abbreviation W := (World AG PS).
Abbreviation MW := (M W).
Abbreviation exec := (TraceProps.exec cfg uuid1 import_time format_exc str_of_exn).
Implicit Types (w : W) (t l c : nat).

Definition quiet w0 w : Prop :=
  w_agent w = w_agent w0 ∧
  ∀ l s, w_spans w !! l = Some s -> w_spans w0 !! l = None -> depth s = 0.

Lemma quiet_refl w : quiet w w.
Proof. split; [done|]. intros l s H1 H2. congruence. Qed.

Lemma quiet_fresh w0 : preserves (quiet w0) fresh.
Proof. by intros w. Qed.
Lemma quiet_uuid w0 : preserves (quiet w0) (next_uuid uuid1).
Proof. by intros w. Qed.
Lemma quiet_ctxs w0 f : preserves (quiet w0) (modify (upd_ctxs f)).
Proof. by intros w. Qed.
Lemma quiet_dicts w0 f : preserves (quiet w0) (modify (upd_dicts f)).
Proof. by intros w. Qed.
Lemma quiet_lists w0 f : preserves (quiet w0) (modify (upd_lists f)).
Proof. by intros w. Qed.
Lemma quiet_vars w0 f : preserves (quiet w0) (modify (upd_vars f)).
Proof. by intros w. Qed.
Lemma quiet_prof w0 p : preserves (quiet w0) (modify (upd_prof p)).
Proof. by intros w. Qed.
Lemma quiet_sampling w0 s : preserves (quiet w0) (modify (upd_sampling s)).
Proof. by intros w. Qed.
Lemma quiet_mod_span w0 l f : (∀ s, depth (f s) = depth s) -> preserves (quiet w0) (mod_span l f).
Proof.
  intros Hf w [Ha Hs]. split; [done|]. cbn. intros l' s H H0.
  destruct (decide (l = l')) as [<-|Hne].
  - rewrite lookup_alter_eq in H. destruct (w_spans w !! l) as [s0|] eqn:E; [|done].
    cbn in H. injection H as <-. rewrite Hf. by apply (Hs l).
  - rewrite lookup_alter_ne in H by done. by apply (Hs l').
Qed.
Lemma quiet_alloc w0 s : depth s = 0 -> preserves (quiet w0) (alloc_span s).
Proof.
  intros Hd w [Ha Hs]. split; [done|]. unfold alloc_span. unfold_m. cbn.
  intros l' s' [[_ <-]|[_ H]]%lookup_insert_Some; [done|]. by apply (Hs l').
Qed.

Lemma add_tag_depth tg s s' : add_tag tg s = Ok s' -> depth s' = depth s.
Proof.
  unfold add_tag. destruct (tag_overridable tg); [by intros [= <-]|].
  destruct (Dict.get _ _) as [[]|]; by intros [= <-].
Qed.

Lemma quiet_tag w0 l tg : preserves (quiet w0) (tag l tg).
Proof.
  intros w Hq. unfold tag. erewrite bind_ok by reflexivity. cbv beta.
  unfold mbind, M_bind, lift. destruct (add_tag tg (w_spans w !!! l)) as [s'|e] eqn:E; [|done].
  destruct Hq as [Ha Hs]. split; [done|]. cbn. intros l' s H H0. destruct (decide (l = l')) as [<-|Hne].
  - rewrite lookup_alter_eq in H. destruct (w_spans w !! l) as [s0|] eqn:E0; [|done].
    cbn in H. injection H as <-. rewrite (lookup_total_correct _ _ _ E0) in E.
    apply add_tag_depth in E. rewrite E. by apply (Hs l).
  - rewrite lookup_alter_ne in H by done. by apply (Hs l').
Qed.

Create HintDb quiet.
#[local] Hint Resolve quiet_fresh quiet_uuid quiet_ctxs quiet_dicts quiet_lists quiet_vars quiet_prof
  quiet_sampling quiet_tag : quiet.
#[local] Hint Resolve preserves_ret preserves_raise preserves_gets preserves_lift : quiet.
#[local] Hint Extern 1 (preserves _ (mod_span _ _)) => apply quiet_mod_span; done : quiet.
#[local] Hint Extern 1 (preserves _ (alloc_span _)) => apply quiet_alloc; done : quiet.

Ltac quiet_step :=
  intros; cbv beta zeta;
  lazymatch goal with
  | |- preserves _ (mbind _ _) => apply preserves_bind; quiet_step
  | |- preserves _ (match ?x with _ => _ end) => destruct x; quiet_step
  | |- _ => first [solve [auto with quiet] | idtac]
  end.

Lemma quiet_new_ID w0 ic raw : preserves (quiet w0) (new_ID uuid1 ic raw).
Proof. unfold new_ID. quiet_step. Qed.
#[local] Hint Resolve quiet_new_ID : quiet.

Lemma quiet_head {A} w0 (xs : list A) : preserves (quiet w0) (head_or_raise xs).
Proof. unfold head_or_raise. quiet_step. Qed.
#[local] Hint Resolve quiet_head : quiet.

Lemma quiet_relate w0 c i : preserves (quiet w0) (relate c i).
Proof. unfold relate, get_ctx, mod_segment, mod_ctx. quiet_step. Qed.
#[local] Hint Resolve quiet_relate : quiet.

Lemma quiet_new_SpanContext w0 : preserves (quiet w0) (new_SpanContext uuid1).
Proof. unfold new_SpanContext. quiet_step. Qed.
Lemma quiet_new_NoopContext w0 : preserves (quiet w0) new_NoopContext.
Proof. unfold new_NoopContext. quiet_step. Qed.
Lemma quiet_next_sid w0 c : preserves (quiet w0) (next_sid c).
Proof. unfold next_sid, get_ctx, mod_ctx. quiet_step. Qed.
Lemma quiet_new_NoopSpan w0 c : preserves (quiet w0) (new_NoopSpan c).
Proof. unfold new_NoopSpan. quiet_step. Qed.
#[local] Hint Resolve quiet_new_SpanContext quiet_new_NoopContext quiet_next_sid quiet_new_NoopSpan : quiet.

Lemma quiet_span_extract w0 l ca : preserves (quiet w0) (span_extract uuid1 l ca).
Proof. unfold span_extract, get_span, mod_ctx. quiet_step. Qed.
#[local] Hint Resolve quiet_span_extract : quiet.
Lemma quiet_extract w0 l ca : preserves (quiet w0) (extract uuid1 l ca).
Proof. unfold extract, get_span. quiet_step. Qed.
#[local] Hint Resolve quiet_extract : quiet.
Lemma quiet_extract_if_valid w0 l ca : preserves (quiet w0) (extract_if_valid uuid1 l ca).
Proof. unfold extract_if_valid. quiet_step. Qed.
#[local] Hint Resolve quiet_extract_if_valid : quiet.

Lemma quiet_spans w0 t : preserves (quiet w0) (_spans t).
Proof. unfold _spans. quiet_step. Qed.
#[local] Hint Resolve quiet_spans : quiet.
Lemma quiet_peek w0 t b : preserves (quiet w0) (peek t b).
Proof. unfold peek. quiet_step. Qed.
#[local] Hint Resolve quiet_peek : quiet.

Lemma quiet_ignore_check w0 op ca : preserves (quiet w0) (ignore_check cfg op ca).
Proof. unfold ignore_check. quiet_step. Qed.
Lemma quiet_carrier_of_span w0 l : preserves (quiet w0) (carrier_of_span cfg l).
Proof. unfold carrier_of_span, get_span, get_ctx. quiet_step. Qed.
#[local] Hint Resolve quiet_ignore_check quiet_carrier_of_span : quiet.

Lemma quiet_new_span w0 self parent cl op peer co :
  preserves (quiet w0) (new_span cfg uuid1 self parent cl op peer co).
Proof. unfold new_span. quiet_step. Qed.
#[local] Hint Resolve quiet_new_span : quiet.

Lemma quiet_profiling w0 self l op :
  preserves (quiet w0) (start_profiling cfg self op) ∧ preserves (quiet w0) (profiling_recheck cfg self l op).
Proof. split; [unfold start_profiling | unfold profiling_recheck]; unfold get_ctx, get_span, mod_ctx; quiet_step. Qed.
#[local] Hint Extern 1 (preserves _ (start_profiling _ _ _)) => apply (quiet_profiling _ _ 0%nat) : quiet.
#[local] Hint Extern 1 (preserves _ (profiling_recheck _ _ _ _)) => apply quiet_profiling : quiet.

Lemma quiet_get_context w0 t : preserves (quiet w0) (get_context cfg uuid1 t).
Proof. unfold get_context, get_span. quiet_step. Qed.
#[local] Hint Resolve quiet_get_context : quiet.

Lemma quiet_capture w0 t c : preserves (quiet w0) (capture t c).
Proof. unfold capture, get_ctx, get_span. quiet_step. Qed.
#[local] Hint Resolve quiet_capture : quiet.
Lemma quiet_is_from_current w0 t c s : preserves (quiet w0) (is_from_current t c s).
Proof. unfold is_from_current. quiet_step. Qed.
#[local] Hint Resolve quiet_is_from_current : quiet.

(** Every call but a start, a stop and a new task is quiet. *)
Lemma exec_quiet w o :
  match o with Start _ _ | Stop _ _ | NewTask _ _ => True | _ => quiet w (exec o w).1 end.
Proof.
  assert (preserves (quiet w) (exec o) -> quiet w (exec o w).1) as H by (intros H; apply H, quiet_refl).
  destruct o; try done; apply H; clear H; cbn [TraceProps.exec];
    unfold ignore_result, open_with, new_local_span, new_entry_span, new_exit_span, raised, log, inject,
      put_correlation, continued, get_ctx, get_span, inherited_exit, mod_ctx; quiet_step.
Qed.

(** ** The simulation *)

Definition abs_of (s : SSpan) : AbsSpan := mkAbs (k_context s) (negb (k_noop s)) (k_depth s).

(** The segments reported so far are what happened to the agent since [ag0]. *)
Record refines (ag0 : AG) (a : Tracer) w : Prop := {
  rf_spans : tr_spans a = abs_of <$> skS w;
  rf_stack : ∀ t, tr_stack a t = stack w t;
  rf_agent : w_agent w = foldl (fun ag r => archive_segment r.1 r.2 ag) ag0 (tr_reported a)
}.

Definition action_of w (o : call) : action :=
  match o with
  | Start t l => AStart t l
  | Stop t l => AStop (w_now w) t l
  | NewTask t t' => ATask t t'
  | _ => AOther
  end.

(** Executions of a process whose agent starts as [ag0], with what they look like from outside. *)
Inductive runs (ag0 : AG) : list action -> W -> Prop :=
| run_init now sm pr : runs ag0 [] (mkWorld 0 ∅ ∅ ∅ ∅ ∅ 0 now sm ag0 pr)
| run_call acts w o : runs ag0 acts w -> legal w o -> runs ag0 (acts ++ [action_of w o]) (exec o w).1
| run_time acts w now : runs ag0 acts w ->
    runs ag0 acts (mkWorld (w_next w) (w_spans w) (w_ctxs w) (w_dicts w) (w_lists w) (w_vars w)
                     (w_uuids w) now (w_sampling w) (w_agent w) (w_prof w)).

Lemma open_active (S : gmap nat SSpan) c :
  Z.of_nat (size (open_spans c (abs_of <$> S))) = active S c.
Proof. unfold open_spans, active. by rewrite map_filter_fmap, map_size_fmap. Qed.

Lemma open_none (S : gmap nat SSpan) c :
  bool_decide (open_spans c (abs_of <$> S) = ∅) = (active S c =? 0).
Proof.
  rewrite <- open_active. destruct (Z.eqb_spec (Z.of_nat (size (open_spans c (abs_of <$> S)))) 0).
  - apply bool_decide_eq_true_2, map_size_empty_inv. lia.
  - apply bool_decide_eq_false_2. intros H. rewrite H, map_size_empty in *. lia.
Qed.

Lemma update_stack_if t f (st : nat -> list nat) (x v : Z) t' :
  (if x =? v then update_stack t f st else st) t' = if decide (t' = t ∧ x = v) then f (st t) else st t'.
Proof. unfold update_stack. destruct (Z.eqb_spec x v); repeat case_decide; naive_solver. Qed.

Lemma sim_start ag0 a w t l s :
  wf w -> refines ag0 a w -> skS w !! l = Some s ->
  refines ag0 (tr_start t l (abs_of s) a) (start t l w).1.
Proof.
  intros Hw [Rs Rt Ra] Hk. destruct (start_result w t l _ Hw Hk) as (w' & -> & _ & HS & Ha & HT).
  split; cbn.
  - by rewrite HS, Rs, fmap_insert.
  - intros t'. by rewrite HT, update_stack_if, !Rt.
  - by rewrite Ha.
Qed.

Lemma sim_stop ag0 a w t l s :
  wf w -> refines ag0 a w -> skS w !! l = Some s ->
  refines ag0 (tr_stop (w_now w) t l (abs_of s) a) (stop t l w).1.
Proof.
  intros Hw [Rs Rt Ra] Hk. destruct (wf_span _ _ _ _ _ Hw _ _ Hk) as (kx & Hkx & Hn & _).
  pose proof (wf_active _ _ _ _ _ Hw _ _ Hkx) as Hact. apply skC_inv in Hkx as (x & Hx & ->).
  destruct (stop_result w t l _ x Hw Hk Hx) as (w' & -> & _ & HS & Ha & _ & HT).
  cbn in Hn, Hact. unfold tr_stop. rewrite Rs.
  assert (<[l := set_abs_depth (ab_depth (abs_of s) - 1) (abs_of s)]> (abs_of <$> skS w) = abs_of <$> skS w') as ES
    by by rewrite HS, fmap_insert.
  rewrite ES, open_none. cbn [abs_of ab_depth ab_segment ab_recorded]. split; cbn [tr_spans tr_stack tr_reported fst].
  - done.
  - intros t'. by rewrite HT, update_stack_if, !Rt.
  - rewrite Ha. destruct (Z.eqb_spec (k_depth s) 1) as [E|E]; cbn [andb]; [|done].
    assert ((active (skS w') (k_context s) =? 0) = (nspans x =? 1)) as ->.
    { rewrite HS, (active_update _ _ _ _ _ Hk), Hact, !counts_own by done. cbn [k_depth k_set_depth]. rewrite E.
      change (0 <? 1) with true. change (0 <? 1 - 1) with false. cbv iota. lia. }
    rewrite Hn. destruct (negb (k_noop s) && (nspans x =? 1)); [|done].
    by rewrite foldl_app, Ra.
Qed.

Lemma sim_other ag0 a w o :
  wf w -> refines ag0 a w ->
  match o with
  | Start _ _ | Stop _ _ | NewTask _ _ => True
  | _ => ∃ a', tracer_step a AOther a' ∧ refines ag0 a' (exec o w).1
  end.
Proof.
  intros Hw [Rs Rt Ra]. pose proof (exec_grows cfg uuid1 import_time format_exc str_of_exn w o Hw) as HG.
  pose proof (exec_quiet w o) as HQ.
  assert (spec w (exec o) (fun _ _ => True) -> quiet w (exec o w).1 ->
    ∃ a', tracer_step a AOther a' ∧ refines ag0 a' (exec o w).1) as H.
  { intros [Hw' G]%spec_run [Qa Qs]. eexists. split; [eapply (ts_other a (abs_of <$> skS (exec o w).1))|].
    - rewrite Rs. apply map_fmap_mono, (grow_spans _ _ G).
    - intros l s (k & <- & (s0 & Hs0 & ->)%skS_inv)%lookup_fmap_Some. rewrite Rs, lookup_fmap. cbn.
      intros H0. apply (Qs l s0 Hs0). unfold skS in H0. rewrite lookup_fmap in H0.
      by destruct (w_spans w !! l).
    - split; cbn; [done | intros t; rewrite Rt; symmetry; apply (grow_stacks _ _ G) | by rewrite Qa]. }
  destruct o; try done; by apply H.
Qed.

Lemma runs_wf ag0 acts w : runs ag0 acts w -> wf w.
Proof.
  induction 1 as [now sm pr | acts w o Hr Hw Hl | acts w now Hr Hw]; [|by apply exec_wf | done].
  unfold wf, skS, skC. cbn. rewrite !fmap_empty. split; naive_solver.
Qed.

End refine.

(** ** An execution of two tasks, with an agent that only records *)

#[local] Instance recorder : AgentOps (list (Z * nat)) :=
  { is_segment_queue_full _ := false; archive_segment now c ag := ag ++ [(now, c)] }.
#[local] Instance no_profiler : ProfileOps unit :=
  { add_profiling _ _ _ p := (p, 0%nat); profiling_recheck_service _ _ _ p := p }.

Definition demo_uuid (n : nat) : pystr := str_of_int (Z.of_nat n).
Definition demo_exec : call -> M (World (list (Z * nat)) unit) unit :=
  TraceProps.exec default_config demo_uuid 0 (fun _ _ => []) (fun _ => []).
Definition demo_start : World (list (Z * nat)) unit := mkWorld 0 ∅ ∅ ∅ ∅ ∅ 0 7 None [] tt.

(** A span in task 1, a task 2 that starts another span of the same segment below it and outlives
    it. *)
Definition demo_calls : list call :=
  [OpenLocal 1 (py "a"); Start 1 3; NewTask 1 2; OpenLocal 2 (py "b"); Start 2 5; Stop 1 3; Stop 2 5].
Fixpoint demo_run (os : list call) (acts : list action) (w : World (list (Z * nat)) unit)
  : list action * World (list (Z * nat)) unit :=
  match os with
  | [] => (acts, w)
  | o :: os' => demo_run os' (acts ++ [action_of w o]) (demo_exec o w).1
  end.
Fixpoint demo_legal (os : list call) (w : World (list (Z * nat)) unit) : bool :=
  match os with
  | [] => true
  | o :: os' =>
      (match o with
       | Start _ l | Stop _ l => bool_decide (is_Some (w_spans w !! l))
       | NewTask _ t' => bool_decide (w_vars w !! t' = None)
       | _ => true
       end) && demo_legal os' (demo_exec o w).1
  end.

Lemma demo_run_runs os : ∀ acts w,
  runs default_config demo_uuid 0 (fun _ _ => []) (fun _ => []) [] acts w -> demo_legal os w = true ->
  runs default_config demo_uuid 0 (fun _ _ => []) (fun _ => []) [] (demo_run os acts w).1 (demo_run os acts w).2.
Proof.
  induction os as [|o os IH]; intros acts w Hr Hl; [done|]. cbn [demo_run].
  cbn [demo_legal] in Hl. apply andb_true_iff in Hl as [Ho Hl]. apply IH; [|done].
  apply run_call; [done|]. destruct o; try done; by apply bool_decide_eq_true in Ho.
Qed.

