(* ===== verification/TracePropagation.v ===== *)
(** * Propagation of traces between processes and threads

    What one agent writes with [inject] and [capture], another reads with
    [extract] and [continued]. *)

From S2P Require Import Prelude PyData PyText Codec Carrier Config.
From S2P Require Import Filter Sampling TraceData Trace TraceInv TraceSpec TraceProps.

Section propagation.
Context {AG PS : Type} `{!AgentOps AG} `{!ProfileOps PS}.
Context (cfg : Config) (uuid1 : nat -> pystr).
Abbreviation W := (World AG PS).
Implicit Types (w : W) (t l c : nat).

(** ** Steps of [new_entry_span] on an idle context *)

(** With an empty stack, [peek] changes nothing the spans and contexts see. *)
Lemma peek_idle w t :
  stack w t = [] ->
  ∃ w', peek t false w = (w', Ok None) ∧ w_spans w' = w_spans w ∧ w_ctxs w' = w_ctxs w ∧
        w_agent w' = w_agent w.
Proof.
  intros Ht. unfold peek, _spans, stack in *. unfold_m.
  destruct (w_vars w !! t) as [i|]; cbn.
  - rewrite Ht. by exists w.
  - rewrite lookup_total_insert_eq. eexists. by split.
Qed.

(** Profiling may only set the context's [profile_status]. *)
Lemma start_profiling_ctx w self x op :
  w_ctxs w !! self = Some x ->
  ∃ w' x', start_profiling cfg self op w = (w', Ok tt) ∧ w_spans w' = w_spans w ∧
    w_next w' = w_next w ∧
    w_ctxs w' !! self = Some x' ∧ segment x' = segment x ∧ sid_counter x' = sid_counter x ∧
    noop x' = noop x.
Proof.
  intros Hx. unfold start_profiling, get_ctx. erewrite bind_ok by reflexivity. cbv beta.
  rewrite (lookup_total_correct _ _ _ Hx). destruct (profile_status x); [by exists w, x|].
  destruct (agent_profile_active cfg); [|by exists w, x].
  eexists _, _. split; [reflexivity|]. cbn. rewrite lookup_alter_eq, Hx. by split_and!.
Qed.

(** A root span: no parent, the next id of the context. *)
Lemma new_root_span w self x cl op peer component :
  w_ctxs w !! self = Some x ->
  ∃ w', new_span cfg uuid1 self None cl op peer component w = (w', Ok (w_next w)) ∧
    w_spans w' = <[w_next w := span_init cl self (sid_counter x + 1) (-1) op peer
                     (kind_of_class cl) component]> (w_spans w) ∧
    w_ctxs w' = alter (set_sid_counter (sid_counter x + 1)) self (w_ctxs w).
Proof.
  intros Hx. unfold new_span, next_sid, get_ctx. unfold_m.
  rewrite (lookup_total_correct _ _ _ Hx). eexists. split; [reflexivity|]. by cbn.
Qed.

(** [extract] of a valid carrier on a span of a new segment. *)
Lemma extract_first w l s x i ca ref :
  w_spans w !! l = Some s -> cls s ≠ ClsNoopSpan -> refs s = [] ->
  w_ctxs w !! context s = Some x -> related_traces (segment x) = [i] -> is_NewID i = true ->
  trace_id ca ≠ [] -> is_valid ca = Ok true -> segment_ref ca = Ok ref ->
  ∃ w' x', extract uuid1 l (Some ca) w = (w', Ok tt) ∧
    w_spans w' !! l = Some (set_refs [ref] s) ∧ w_ctxs w' !! context s = Some x' ∧
    related_traces (segment x') = [mkID PlainID (trace_id ca)] ∧
    seg_id (segment x') = seg_id (segment x) ∧ ctx_correlation x' = correlation ca.
Proof.
  intros Hs Hc Hrefs Hx Hrel Hnew Ht Hv Href. unfold extract, get_span.
  erewrite bind_ok by reflexivity. cbv beta. rewrite (lookup_total_correct _ _ _ Hs).
  assert (∃ w' x', span_extract uuid1 l (Some ca) w = (w', Ok tt) ∧
    w_spans w' !! l = Some (set_refs [ref] s) ∧ w_ctxs w' !! context s = Some x' ∧
    related_traces (segment x') = [mkID PlainID (trace_id ca)] ∧
    seg_id (segment x') = seg_id (segment x) ∧ ctx_correlation x' = correlation ca) as H.
  { unfold span_extract, new_ID, relate, get_ctx, get_span.
    destruct (trace_id ca) as [|z ts] eqn:Et; [done|]. unfold_m.
    rewrite (lookup_total_correct _ _ _ Hs), (lookup_total_correct _ _ _ Hx), Hrel.
    unfold_m. rewrite Hv, Href, Hnew. unfold_m. rewrite (lookup_total_correct _ _ _ Hs), Hrefs.
    case_decide as Hin; [by apply elem_of_nil in Hin|].
    eexists _, _. split; [reflexivity|]. cbn.
    rewrite !lookup_alter_eq, Hs, Hx. cbn. split_and!; done. }
  destruct (cls s); done.
Qed.

(** ** Process to process *)

(** An entry span opened on an idle real context from a valid carrier. *)
Lemma new_entry_span_extracts w t self x i op inh ca ref :
  stack w t = [] -> w_ctxs w !! self = Some x -> noop x = false ->
  related_traces (segment x) = [i] -> is_NewID i = true ->
  ignore_path cfg op = false -> is_segment_queue_full (w_agent w) = false ->
  trace_id ca ≠ [] -> is_valid ca = Ok true -> segment_ref ca = Ok ref ->
  ∃ w' l s' x', new_entry_span cfg uuid1 t self op (Some ca) inh w = (w', Ok l) ∧
    w_spans w' !! l = Some s' ∧ cls s' = ClsEntrySpan ∧ context s' = self ∧ refs s' = [ref] ∧
    w_ctxs w' !! self = Some x' ∧
    related_traces (segment x') = [mkID PlainID (trace_id ca)] ∧ ctx_correlation x' = correlation ca.
Proof.
  intros Ht Hx Hn Hrel Hnew Hig Hfull Htid Hv Href.
  unfold new_entry_span, get_ctx. erewrite bind_ok by reflexivity. cbv beta.
  rewrite (lookup_total_correct _ _ _ Hx), Hn.
  assert (ignore_check cfg op (Some ca) w = (w, Ok None)) as E0.
  { unfold ignore_check. unfold_m. rewrite Hig, Hfull. unfold is_suppressed.
    destruct (raw_val ca) as [[|]|]; unfold_m; rewrite ?Hv; done. }
  rewrite (bind_ok _ _ _ _ _ E0).
  destruct (peek_idle w t Ht) as (w1 & E1 & HS1 & HC1 & _). rewrite (bind_ok _ _ _ _ _ E1).
  destruct (start_profiling_ctx w1 self x op) as (w2 & x2 & E2 & _ & _ & Hx2 & Hseg2 & _ & _).
  { by rewrite HC1. }
  rewrite (bind_ok _ _ _ _ _ E2).
  erewrite bind_ok by reflexivity. cbn [inherited_entry].
  destruct (new_root_span w2 self x2 ClsEntrySpan op None None Hx2) as (w3 & E3 & HS3 & HC3).
  rewrite (bind_ok _ _ _ _ _ E3).
  set (s3 := span_init _ _ _ _ _ _ _ _) in HS3.
  assert (w_spans w3 !! w_next w2 = Some s3) as Hs3 by (rewrite HS3; apply lookup_insert_eq).
  assert (w_ctxs w3 !! context s3 = Some (set_sid_counter (sid_counter x2 + 1) x2)) as Hx3.
  { rewrite HC3. cbn. by rewrite lookup_alter_eq, Hx2. }
  destruct (extract_first w3 _ s3 (set_sid_counter (sid_counter x2 + 1) x2) i ca ref Hs3) as (w4 & x4 & E4 & Hs4 & Hx4 & Hr4 & _ & Hcor);
    try done.
  { cbn. by rewrite Hseg2. }
  exists w4, (w_next w2), (set_refs [ref] s3), x4. split; [|done].
  unfold extract_if_valid. rewrite Hv.
  erewrite bind_ok; [reflexivity|]. erewrite bind_ok by reflexivity. exact E4.
Qed.

(** The carrier an exit span injects names its trace, segment and span. *)
Lemma inject_exit w l s x tid rest :
  w_spans w !! l = Some s -> cls s = ClsExitSpan -> w_ctxs w !! context s = Some x ->
  related_traces (segment x) = tid :: rest ->
  inject cfg l w = (w, Ok (mkCarrier None (id_value tid) (id_value (seg_id (segment x)))
    (str_of_int (sid s)) (agent_name cfg) (agent_instance_name cfg) (op s) (peer s)
    (ctx_correlation x))).
Proof.
  intros Hs Hc Hx Hrel. unfold inject, carrier_of_span, get_span, get_ctx. unfold_m.
  rewrite (lookup_total_correct _ _ _ Hs), Hc. unfold_m.
  rewrite (lookup_total_correct _ _ _ Hs), (lookup_total_correct _ _ _ Hx), Hrel. done.
Qed.

(** A noop span injects an empty carrier, whose header is ["1-------"]. *)
Lemma inject_noop w l s :
  w_spans w !! l = Some s -> cls s = ClsNoopSpan ->
  ∃ w' d, inject cfg l w = (w', Ok (empty_carrier d)).
Proof.
  intros Hs Hc. unfold inject, get_span. unfold_m.
  rewrite (lookup_total_correct _ _ _ Hs), Hc. eexists _, _. reflexivity.
Qed.

Lemma suppressed_header d d' :
  carrier_val (empty_carrier d) = Ok (py "1-------") ∧
  ∃ ca, set_carrier_val (py "1-------") (empty_carrier d') = (ca, Ok tt) ∧
        is_suppressed ca = Ok true.
Proof.
  split; [vm_compute; reflexivity|].
  exists (mkCarrier (Some (py "1-------")) [] [] [] [] [] [] (Some []) d').
  split; vm_compute; reflexivity.
Qed.
End propagation.

Section between_processes.
Context {AGu PSu AG PS : Type} `{!AgentOps AG} `{!ProfileOps PS}.
(** The configurations of the calling and of the called process. *)
Context (cfgU cfg : Config) (uuid1 : nat -> pystr).
Implicit Types (wu : World AGu PSu) (w : World AG PS) (t l c : nat).

(** C7. A trace crosses process boundaries intact: the [sw8] header an exit span produces,
    parsed by another agent and given to [new_entry_span], makes the new segment refer
    back to exactly that trace, segment and span, and replaces the new segment's own
    trace id by the caller's. *)
Theorem trace_crosses_processes wu lu su xu tid rest addr ca v d w t self x i op' inh :
  w_spans wu !! lu = Some su -> cls su = ClsExitSpan -> w_ctxs wu !! context su = Some xu ->
  related_traces (segment xu) = tid :: rest -> 0 <= sid su -> peer su = Some addr ->
  (inject cfgU lu wu).2 = Ok ca -> carrier_val ca = Ok v ->
  Forall (fun f : pystr => f ≠ []) [id_value tid; id_value (seg_id (segment xu)); agent_name cfgU;
    agent_instance_name cfgU; op su; addr] ->
  stack w t = [] -> w_ctxs w !! self = Some x -> noop x = false ->
  related_traces (segment x) = [i] -> is_NewID i = true ->
  ignore_path cfg op' = false -> is_segment_queue_full (w_agent w) = false ->
  ∃ ca' w' l s' x', set_carrier_val v (empty_carrier d) = (ca', Ok tt) ∧
    new_entry_span cfg uuid1 t self op' (Some ca') inh w = (w', Ok l) ∧
    w_spans w' !! l = Some s' ∧ cls s' = ClsEntrySpan ∧ context s' = self ∧
    refs s' = [mkRef CrossProcess (id_value tid) (id_value (seg_id (segment xu))) (sid su)
                 (agent_name cfgU) (agent_instance_name cfgU) (Some (op su)) (peer su)] ∧
    w_ctxs w' !! self = Some x' ∧
    related_traces (segment x') = [mkID PlainID (id_value tid)] ∧ ctx_correlation x' = d.
Proof.
  intros Hs Hc Hx Hrel Hsid Hp Hinj Hval Hne Hst Hxd Hn Hreld Hnew Hig Hfull.
  rewrite (inject_exit cfgU wu lu su xu tid rest Hs Hc Hx Hrel) in Hinj.
  injection Hinj as <-. set (ca := mkCarrier _ _ _ _ _ _ _ _ _) in *.
  assert (45 ∉ span_id ca) as Hdash.
  { intros Hin%str_of_nat_digits; [|done]. unfold is_ascii_digit in Hin. lia. }
  destruct (set_carrier_val_roundtrip ca v (empty_carrier d) Hval Hdash)
    as (ca' & Hset & Hsame & _ & Hcor).
  pose proof Hsame as (Htid & _).
  repeat apply Forall_cons in Hne as [? Hne].
  assert (is_valid ca' = Ok true) as Hv.
  { rewrite (is_valid_same _ _ Hsame). unfold is_valid. cbn. rewrite Hp.
    rewrite isnumeric_str_of_int by done.
    destruct (id_value tid), (id_value (seg_id (segment xu))), (agent_name cfgU),
      (agent_instance_name cfgU), (op su), addr; done. }
  destruct (new_entry_span_extracts cfg uuid1 w t self x i op' inh ca'
    (mkRef CrossProcess (id_value tid) (id_value (seg_id (segment xu))) (sid su)
       (agent_name cfgU) (agent_instance_name cfgU) (Some (op su)) (peer su)))
    as (w' & l & s' & x' & Hex); try done.
  - by rewrite Htid.
  - rewrite (segment_ref_same _ _ Hsame). unfold segment_ref. cbn. by rewrite int_of_str_of_int.
  - exists ca', w', l, s', x'. rewrite Htid, Hcor in Hex. split; [done | exact Hex].
Qed.

(** A decision not to sample crosses process boundaries: the header of a noop span is
    ["1-------"], and a downstream agent that reads it opens a noop span, in a noop
    context, whatever the operation. *)
Theorem suppression_crosses_processes wu lu su w t self x op' inh d :
  w_spans wu !! lu = Some su -> cls su = ClsNoopSpan ->
  w_ctxs w !! self = Some x ->
  ∃ ca v ca' w' l s', (inject cfgU lu wu).2 = Ok ca ∧ carrier_val ca = Ok v ∧
    set_carrier_val v (empty_carrier d) = (ca', Ok tt) ∧
    new_entry_span cfg uuid1 t self op' (Some ca') inh w = (w', Ok l) ∧
    w_spans w' !! l = Some s' ∧ cls s' = ClsNoopSpan ∧ noop (w_ctxs w' !!! context s') = true.
Proof.
  intros Hs Hc Hx. destruct (inject_noop cfgU wu lu su Hs Hc) as (wu' & du & ->).
  destruct (suppressed_header du d) as (Hval & ca' & Hset & Hsup).
  exists (empty_carrier du), (py "1-------"), ca'.
  unfold new_entry_span, get_ctx. erewrite bind_ok by reflexivity. cbv beta.
  rewrite (lookup_total_correct _ _ _ Hx). destruct (noop x) eqn:Hn.
  - eexists _, _, _. split_and!; [done | done | done | reflexivity | |..].
    + cbn. apply lookup_insert_eq.
    + done.
    + cbn. by rewrite (lookup_total_correct _ _ _ Hx).
  - assert (∃ w' l s', ignore_check cfg op' (Some ca') w = (w', Ok (Some l)) ∧
      w_spans w' !! l = Some s' ∧ cls s' = ClsNoopSpan ∧
      noop (w_ctxs w' !!! context s') = true) as (w' & l & s' & E & ? & ? & ?).
    { unfold ignore_check. erewrite bind_ok by reflexivity.
      erewrite (bind_ok _ _ w w true).
      - eexists _, _, _. split; [reflexivity|]. cbn. rewrite lookup_insert_eq.
        split; [done|]. split; [done|]. cbn. by rewrite lookup_total_insert_eq.
      - destruct (ignore_path cfg op'), (is_segment_queue_full (w_agent w)); try done.
        unfold lift. by rewrite Hsup. }
    rewrite (bind_ok _ _ _ _ _ E). exists w', l, s'. by split_and!.
Qed.
End between_processes.

(** ** Thread to thread *)

Section between_threads.
Context {AG PS : Type}.
Context (cfg : Config) (uuid1 : nat -> pystr).
Abbreviation W := (World AG PS).
Implicit Types (w : W) (t l c : nat).

(** A non-empty stack is bound; reading it changes nothing. *)
Lemma spans_bound w t l :
  last (stack w t) = Some l -> ∃ i, _spans t w = (w, Ok i) ∧ w_lists w !!! i = stack w t.
Proof.
  unfold _spans, stack. unfold_m. destruct (w_vars w !! t) as [i|]; [|done]. by exists i.
Qed.

Lemma last_head {A} (l : list A) x : last l = Some x -> ∃ y, head l = Some y.
Proof. destruct l; [done|]. eauto. Qed.

(** What a snapshot of a real context with active spans holds. *)
Lemma capture_active w t c x tid rest first a :
  w_ctxs w !! c = Some x -> noop x = false -> related_traces (segment x) = tid :: rest ->
  head (stack w t) = Some first -> last (stack w t) = Some a ->
  capture t c w = (w, Ok (Some (mkSnapshot (Some tid) (Some (id_value (seg_id (segment x))))
    (sid (w_spans w !!! a)) (Some (op (w_spans w !!! first))) (w_dicts w !!! ctx_correlation x)))).
Proof.
  intros Hx Hn Hrel Hf Ha. unfold capture, get_ctx. erewrite bind_ok by reflexivity. cbv beta.
  rewrite (lookup_total_correct _ _ _ Hx), Hn.
  destruct (spans_bound w t a Ha) as (i & E & Hi). rewrite (bind_ok _ _ _ _ _ E).
  erewrite bind_ok by reflexivity. cbv beta. rewrite Hi, Hf, Ha, Hrel. done.
Qed.

Lemma peek_active w t l b : last (stack w t) = Some l -> peek t b w = (w, Ok (Some l)).
Proof.
  intros Hl. unfold peek. destruct (spans_bound w t l Hl) as (i & E & Hi).
  rewrite (bind_ok _ _ _ _ _ E). unfold_m. by rewrite Hi, Hl.
Qed.

(** C11. A trace crosses thread boundaries intact: a snapshot taken in one thread and
    continued on another segment makes the active span there refer back ([CrossThread])
    to the captured trace, segment and span, relates the segment to that trace, and
    merges a copy of the correlation context. *)
Theorem trace_crosses_threads w t c x tid rest first a w2 t2 c2 x2 i l2 s2 d2 :
  w_ctxs w !! c = Some x -> noop x = false -> related_traces (segment x) = tid :: rest ->
  head (stack w t) = Some first -> last (stack w t) = Some a -> 0 <= sid (w_spans w !!! a) ->
  id_value tid ≠ [] ->
  w_ctxs w2 !! c2 = Some x2 -> noop x2 = false -> related_traces (segment x2) = [i] ->
  is_NewID i = true -> last (stack w2 t2) = Some l2 -> w_spans w2 !! l2 = Some s2 ->
  id_value (seg_id (segment x2)) ≠ id_value (seg_id (segment x)) ->
  w_dicts w2 !! ctx_correlation x2 = Some d2 ->
  ∃ snap w3 x3, capture t c w = (w, Ok (Some snap)) ∧
    continued cfg uuid1 t2 c2 (Some snap) w2 = (w3, Ok tt) ∧
    w_spans w3 !! l2 = Some (set_refs (refs s2 ++
      [mkRef CrossThread (id_value tid) (id_value (seg_id (segment x))) (sid (w_spans w !!! a))
         (agent_name cfg) (agent_instance_name cfg) (Some (op (w_spans w !!! first))) (Some [])]) s2) ∧
    w_ctxs w3 !! c2 = Some x3 ∧ related_traces (segment x3) = [mkID PlainID (id_value tid)] ∧
    w_dicts w3 !! ctx_correlation x2 = Some (Dict.update d2 (w_dicts w !!! ctx_correlation x)).
Proof.
  intros Hx Hn Hrel Hf Ha Hsid Htid Hx2 Hn2 Hrel2 Hnew Hl2 Hs2 Hseg Hd2.
  exists (mkSnapshot (Some tid) (Some (id_value (seg_id (segment x)))) (sid (w_spans w !!! a))
    (Some (op (w_spans w !!! first))) (w_dicts w !!! ctx_correlation x)).
  rewrite (capture_active w t c x tid rest first a Hx Hn Hrel Hf Ha).
  destruct (last_head _ _ Hl2) as [f2 Hf2].
  pose proof (capture_active w2 t2 c2 x2 i [] f2 l2 Hx2 Hn2 Hrel2 Hf2 Hl2) as Hcap.
  set (snap := mkSnapshot (Some tid) _ _ _ _).
  assert (is_from_current t2 c2 snap w2 = (w2, Ok false)) as Hcur.
  { unfold is_from_current. cbn [snap_segment_id snap]. rewrite (bind_ok _ _ _ _ _ Hcap).
    unfold_m. rewrite bool_decide_eq_false_2 by congruence. done. }
  assert (snapshot_is_valid snap = true) as Hvalid.
  { unfold snapshot_is_valid. cbn. by rewrite (proj2 (Z.ltb_lt _ _)) by lia. }
  unfold continued, get_ctx. erewrite bind_ok by reflexivity. cbv beta.
  rewrite (lookup_total_correct _ _ _ Hx2), Hn2, (bind_ok _ _ _ _ _ Hcur), Hvalid.
  cbn [negb andb]. cbv zeta.
  rewrite (bind_ok _ _ _ _ _ (peek_active w2 t2 l2 false Hl2)).
  unfold new_ID, relate, get_ctx. unfold_m.
  destruct (id_value tid) as [|z zs] eqn:Ez; [done|]. unfold_m.
  rewrite (lookup_total_correct _ _ _ Hx2), Hrel2. unfold_m. rewrite Hnew.
  eexists _, _. split_and!; [done | reflexivity |..]; cbn.
  - rewrite lookup_alter_eq, Hs2. unfold build_ref. cbn. by rewrite Ez.
  - by rewrite lookup_alter_eq, Hx2.
  - done.
  - rewrite lookup_total_alter_eq, Hx2. cbn. by rewrite lookup_alter_eq, Hd2.
Qed.

(** ** The correlation context *)

(** [put_correlation] stores a pair only when the value is within the length limit and
    the dict is not over the element limit; every other key keeps its value; the dict
    never holds more than one element above the configured maximum. *)
Theorem put_correlation_bounded w c x d k v :
  w_ctxs w !! c = Some x -> w_dicts w !! ctx_correlation x = Some d -> Dict.wf d ->
  Z.of_nat (length d) <= correlation_element_max_number cfg + 1 ->
  ∃ w' d', put_correlation cfg c (Some k) (Some v) w = (w', Ok tt) ∧
    w_dicts w' !! ctx_correlation x = Some d' ∧ Dict.wf d' ∧
    Z.of_nat (length d') <= correlation_element_max_number cfg + 1 ∧
    (∀ k', k' ≠ k -> Dict.get k' d' = Dict.get k' d) ∧
    Dict.get k d' =
      (if (Z.of_nat (length v) <=? correlation_value_max_length cfg) &&
          (Z.of_nat (length d) <=? correlation_element_max_number cfg)
       then Some v else Dict.get k d).
Proof.
  intros Hx Hd Hwf Hlen. unfold put_correlation, get_ctx. unfold_m.
  rewrite (lookup_total_correct _ _ _ Hx), (lookup_total_correct _ _ _ Hd).
  destruct (Z.ltb_spec (correlation_value_max_length cfg) (Z.of_nat (length v))) as [H1|H1].
  { exists w, d. rewrite (proj2 (Z.leb_gt _ _)) by lia. by split_and!. }
  rewrite (proj2 (Z.leb_le (Z.of_nat (length v)) _)) by lia. cbn [andb].
  destruct (Z.ltb_spec (correlation_element_max_number cfg) (Z.of_nat (length d))) as [H2|H2].
  { exists w, d. rewrite (proj2 (Z.leb_gt _ _)) by lia. by split_and!. }
  rewrite (proj2 (Z.leb_le (Z.of_nat (length d)) _)) by lia.
  eexists _, (Dict.set k v d). split; [reflexivity|]. cbn. rewrite lookup_alter_eq, Hd.
  split_and!; [done | by apply Dict.wf_set | | |].
  - pose proof (Dict.length_set_le k v d). lia.
  - intros k' Hk. by apply Dict.get_set_ne.
  - apply Dict.get_set_eq.
Qed.
End between_threads.

(** ** The primary endpoint *)

Section primary.
Context {AG PS : Type}.
Implicit Types (w : World AG PS).

(** The documented policy: the first entry span, else the first span. *)
Definition primary_policy w (started : list nat) : option nat :=
  match list_find (fun l => kind (w_spans w !!! l) = Kind.Entry) started with
  | Some (_, l) => Some l
  | None => head started
  end.

Lemma next_primary_entry w p ls :
  kind (w_spans w !!! p) = Kind.Entry -> foldl (next_primary w) (Some p) ls = Some p.
Proof.
  intros Hp. induction ls as [|l ls IH]; [done|]. cbn. rewrite Hp. cbn. apply IH.
Qed.

Lemma next_primary_other w p ls :
  kind (w_spans w !!! p) ≠ Kind.Entry ->
  foldl (next_primary w) (Some p) ls =
    match list_find (fun l => kind (w_spans w !!! l) = Kind.Entry) ls with
    | Some (_, l) => Some l
    | None => Some p
    end.
Proof.
  intros Hp. induction ls as [|l ls IH]; [done|]. cbn.
  replace (Kind.is_entry (kind (w_spans w !!! p))) with false by by destruct (kind _). cbn.
  case_decide as E; cbn.
  - rewrite E. cbn. by apply next_primary_entry.
  - replace (Kind.is_entry (kind (w_spans w !!! l))) with false by by destruct (kind (w_spans w !!! l)).
    rewrite IH. by destruct (list_find _ ls) as [[? ?]|].
Qed.

(** The primary endpoint a context computes span by span is the documented one: the
    first entry span started in it, and the first span when there is no entry span. *)
Theorem primary_endpoint_policy w started :
  foldl (next_primary w) None started = primary_policy w started.
Proof.
  destruct started as [|l ls]; [done|]. unfold primary_policy. cbn. case_decide as E.
  - by apply next_primary_entry.
  - rewrite next_primary_other by done. by destruct (list_find _ ls) as [[? ?]|].
Qed.
End primary.
