(* ===== verification/Wire.v ===== *)
(** * Segments on the wire: the messages the reporters build

    agent/protocol/grpc.py and kafka.py build protobuf [SegmentObject]s,
    client/http.py the same structure as JSON.  The records have the fields of
    the messages; encoding them is the libraries' business.  Timestamps of logs
    are converted to milliseconds. *)

From S2P Require Import Prelude PyData PyText Carrier Config TraceData Trace.

Record SegmentReference := mkWireRef {
  refType : Z;
  refTraceId : pystr;
  parentTraceSegmentId : pystr;
  refParentSpanId : Z;
  parentService : pystr;
  parentServiceInstance : pystr;
  parentEndpoint : option pystr;
  networkAddressUsedAtPeer : option pystr
}.

Record WireLog := mkWireLog { wl_time : Z; wl_data : list (pystr * pystr) }.

Record SpanObject := mkSpanObject {
  spanId : Z;
  parentSpanId : Z;
  startTime : Z;
  endTime : Z;
  operationName : pystr;
  so_peer : option pystr;
  spanType : Kind.t;
  spanLayer : Layer.t;
  componentId : Z;
  isError : bool;
  so_logs : list WireLog;
  so_tags : list (pystr * pystr);
  so_refs : list SegmentReference
}.

Record SegmentObject := mkSegmentObject {
  traceId : pystr;
  traceSegmentId : pystr;
  so_service : pystr;
  so_serviceInstance : pystr;
  isSizeLimited : bool;
  so_spans : list SpanObject
}.

(** [0 if ref.ref_type == 'CrossProcess' else 1] of the gRPC and Kafka reporters. *)
Definition ref_type_number (t : RefType) : Z :=
  match t with CrossProcess => 0 | CrossThread => 1 end.

Section wire.
Context {AG PS : Type}.
Context (cfg : Config).
Implicit Types (w : World AG PS) (c : nat).

(** One reference; the HTTP reporter passes the constant 0 as its type. *)
Definition wire_ref (number : RefType -> Z) (r : SegmentRef) : SegmentReference :=
  mkWireRef (number (ref_type r)) (ref_trace_id r) (ref_segment_id r) (ref_span_id r)
    (ref_service r) (ref_service_instance r) (ref_endpoint r) (ref_client_address r).

(** [int(log.timestamp * 1000)] *)
Definition wire_log (l : Log) : WireLog := mkWireLog (int_ms (log_timestamp l)) (log_items l).

Definition wire_span (number : RefType -> Z) (s : Span) : SpanObject :=
  mkSpanObject (sid s) (pid s) (start_time s) (end_time s) (op s) (peer s) (kind s) (layer s)
    (Component.value (component s)) (error_occurred s)
    (wire_log <$> logs s)
    ((fun t => (tag_key t, tag_val t)) <$> iter_tags s)
    (wire_ref number <$> filter (fun r => ref_trace_id r ≠ []) (refs s)).

(** The segment of context [c]; [related_traces[0]] may be missing. *)
Definition wire_segment (number : RefType -> Z) w c : res SegmentObject :=
  let sg := segment (w_ctxs w !!! c) in
  match related_traces sg with
  | [] => Raise IndexError
  | tid :: _ =>
      Ok (mkSegmentObject (id_value tid) (id_value (seg_id sg)) (agent_name cfg)
            (agent_instance_name cfg) (is_size_limited sg)
            ((fun l => wire_span number (w_spans w !!! l)) <$> seg_spans sg))
  end.

Definition grpc_segment : World AG PS -> nat -> res SegmentObject := wire_segment ref_type_number.
Definition kafka_segment : World AG PS -> nat -> res SegmentObject := wire_segment ref_type_number.
Definition http_segment : World AG PS -> nat -> res SegmentObject := wire_segment (fun _ => 0).

(** The asyncio reporters build the same messages. *)
Definition grpc_aio_segment : World AG PS -> nat -> res SegmentObject := wire_segment ref_type_number.
Definition kafka_aio_segment : World AG PS -> nat -> res SegmentObject := wire_segment ref_type_number.
Definition http_aio_segment : World AG PS -> nat -> res SegmentObject := wire_segment (fun _ => 0).

(** All references of a segment that are sent. *)
Definition sent_refs w c : list SegmentRef :=
  seg_spans (segment (w_ctxs w !!! c)) ≫= (fun l =>
    filter (fun r => ref_trace_id r ≠ []) (refs (w_spans w !!! l))).

Lemma wire_span_agree f g s :
  wire_span f s = wire_span g s <->
  Forall (fun r => f (ref_type r) = g (ref_type r)) (filter (fun r => ref_trace_id r ≠ []) (refs s)).
Proof.
  unfold wire_span. set (rs := filter _ (refs s)). split.
  - intros H. apply (f_equal so_refs) in H. cbn in H.
    induction rs as [|r rs IH]; constructor; cbn in H; injection H as H1 H2; [done | by apply IH].
  - intros H. f_equal. induction H as [|r rs Hr _ IH]; [done|]. cbn. f_equal; [|done].
    unfold wire_ref. by rewrite Hr.
Qed.

Lemma untyped_refs_agree w c :
  related_traces (segment (w_ctxs w !!! c)) ≠ [] ->
  (wire_segment (fun _ => 0) w c = wire_segment ref_type_number w c <->
   Forall (fun r => ref_type r = CrossProcess) (sent_refs w c)).
Proof.
  intros Hr. unfold wire_segment, sent_refs.
  destruct (related_traces _) as [|tid rest]; [done|].
  set (ls := seg_spans _). rewrite Forall_bind. split.
  - intros H%Ok_inj. apply (f_equal so_spans) in H. cbn in H.
    apply Forall_forall. intros l Hl. apply list_elem_of_lookup in Hl as [i Hi].
    assert (wire_span (fun _ => 0) (w_spans w !!! l) = wire_span ref_type_number (w_spans w !!! l)) as Hs.
    { apply (f_equal (fun x => x !! i)) in H. rewrite !list_lookup_fmap, Hi in H. by apply (inj Some) in H. }
    apply wire_span_agree in Hs. eapply Forall_impl; [exact Hs|]. intros r. cbn.
    by destruct (ref_type r).
  - intros H. do 2 f_equal. apply list_fmap_ext. intros i l Hi. apply wire_span_agree.
    rewrite Forall_lookup in H. specialize (H i l Hi). eapply Forall_impl; [exact H|].
    intros r ->. done.
Qed.

(** C39. The HTTP reporters and the gRPC reporters, threaded or asyncio, send the same
    segment exactly when no reference in it crosses threads: every cross-thread reference
    reaches the backend over HTTP with the type of a cross-process one. *)
Theorem http_loses_cross_thread_refs w c :
  related_traces (segment (w_ctxs w !!! c)) ≠ [] ->
  (http_segment w c = grpc_segment w c <->
   Forall (fun r => ref_type r = CrossProcess) (sent_refs w c)) ∧
  (http_aio_segment w c = grpc_aio_segment w c <->
   Forall (fun r => ref_type r = CrossProcess) (sent_refs w c)).
Proof. intros Hr. split; by apply untyped_refs_agree. Qed.
End wire.
