(* ===== verification/ReporterLog.v ===== *)
(** * Throttled reporter logs and drop accounting: utils/reporter_log.py

    Times are [time.monotonic()] in microseconds.  A call returns the line it
    logs, if any; the module's four dicts are the state. *)

From S2P Require Import Prelude PyData PyText.

Definition REPORTER_LOG_INTERVAL : Z := 30000000.
Definition DROP_LOG_INTERVAL : Z := 30000000.

Record RLog := mkRLog {
  last_reporter_log_at : gmap pystr Z;
  last_drop_log_at : gmap pystr Z;
  drop_totals : gmap pystr Z;
  drop_logged_totals : gmap pystr Z
}.

Definition empty_rlog : RLog := mkRLog ∅ ∅ ∅ ∅.

(** [d.get(k, 0)] *)
Definition get0 (m : gmap pystr Z) (k : pystr) : Z := default 0 (m !! k).

(** [log_reporter_exception_throttled]: whether the stack is logged. *)
Definition log_reporter_exception_throttled (now : Z) (reporter_name : pystr) (r : RLog) : RLog * bool :=
  if now - get0 (last_reporter_log_at r) reporter_name <? REPORTER_LOG_INTERVAL then (r, false)
  else (mkRLog (<[reporter_name := now]> (last_reporter_log_at r)) (last_drop_log_at r)
          (drop_totals r) (drop_logged_totals r), true).

(** The increment and the total a drop warning prints. *)
Record DropLine := mkLine { dl_kind : pystr; dl_delta : Z; dl_total : Z }.

(** [log_dropped_throttled] *)
Definition log_dropped_throttled (now : Z) (kind : pystr) (count : Z) (force : bool) (r : RLog)
  : RLog * option DropLine :=
  if count <=? 0 then (r, None)
  else
    let total := get0 (drop_totals r) kind + count in
    let r1 := mkRLog (last_reporter_log_at r) (last_drop_log_at r)
                (<[kind := total]> (drop_totals r)) (drop_logged_totals r) in
    if negb force && (now - get0 (last_drop_log_at r) kind <? DROP_LOG_INTERVAL) then (r1, None)
    else
      let delta := total - get0 (drop_logged_totals r1) kind in
      (mkRLog (last_reporter_log_at r1) (<[kind := now]> (last_drop_log_at r1))
         (drop_totals r1) (<[kind := total]> (drop_logged_totals r1)),
       Some (mkLine kind delta total)).

(** ** Accounting over a sequence of calls *)

Record drop_call := mkDrop { dc_now : Z; dc_kind : pystr; dc_count : Z; dc_force : bool }.

Fixpoint run_drops (calls : list drop_call) (r : RLog) : RLog * list DropLine :=
  match calls with
  | [] => (r, [])
  | c :: calls' =>
      let (r1, line) := log_dropped_throttled (dc_now c) (dc_kind c) (dc_count c) (dc_force c) r in
      let (r2, lines) := run_drops calls' r1 in
      (r2, match line with Some l => l :: lines | None => lines end)
  end.

(** What was dropped, and what the printed increments add up to, for a kind. *)
Definition dropped_of (k : pystr) (calls : list drop_call) : Z :=
  foldr (fun c acc => (if decide (dc_kind c = k) then Z.max 0 (dc_count c) else 0) + acc) 0 calls.
Definition printed_of (k : pystr) (lines : list DropLine) : Z :=
  foldr (fun l acc => (if decide (dl_kind l = k) then dl_delta l else 0) + acc) 0 lines.

Lemma get0_insert k k' v m : get0 (<[k := v]> m) k' = if decide (k = k') then v else get0 m k'.
Proof.
  unfold get0. case_decide; [subst; by rewrite lookup_insert_eq | by rewrite lookup_insert_ne].
Qed.

(** One call: totals grow by the count; a line prints all that was not printed. *)
Lemma log_dropped_step now kind count force r r' line k :
  log_dropped_throttled now kind count force r = (r', line) ->
  get0 (drop_totals r') k = get0 (drop_totals r) k + (if decide (kind = k) then Z.max 0 count else 0) ∧
  get0 (drop_logged_totals r') k = get0 (drop_logged_totals r) k +
    match line with Some l => if decide (dl_kind l = k) then dl_delta l else 0 | None => 0 end ∧
  match line with
  | Some l => dl_kind l = kind ∧ dl_total l = get0 (drop_totals r') kind ∧
      get0 (drop_logged_totals r') kind = get0 (drop_totals r') kind
  | None => True
  end.
Proof.
  unfold log_dropped_throttled. intros H.
  destruct (Z.leb_spec count 0); [|destruct (negb force && _)]; injection H as <- <-; cbn;
    rewrite ?get0_insert; repeat case_decide; subst; split_and!; done || lia.
Qed.

Lemma run_drops_totals calls : ∀ r r' lines k,
  run_drops calls r = (r', lines) ->
  get0 (drop_totals r') k = get0 (drop_totals r) k + dropped_of k calls ∧
  get0 (drop_logged_totals r') k = get0 (drop_logged_totals r) k + printed_of k lines.
Proof.
  induction calls as [|c calls IH]; intros r r' lines k H; cbn in H.
  { injection H as <- <-. cbn. lia. }
  destruct (log_dropped_throttled _ _ _ _ _) as [r1 line] eqn:E1.
  destruct (run_drops calls r1) as [r2 ls] eqn:E2. injection H as <- <-.
  destruct (log_dropped_step _ _ _ _ _ _ _ k E1) as (Ht & Hl & _).
  destruct (IH _ _ _ k E2) as [IHt IHl]. cbn [dropped_of foldr]. unfold dropped_of in IHt.
  split; [lia|]. destruct line as [l|]; [|lia]. cbn. unfold printed_of in IHl. lia.
Qed.

(** Drop accounting is exact: after any sequence of calls the process total of each
    kind is the sum of the positive counts, the printed increments add up to what has
    been logged, and once a forced line is printed (shutdown) they add up to the total. *)
Theorem drop_accounting_exact calls r lines k :
  run_drops calls empty_rlog = (r, lines) ->
  get0 (drop_totals r) k = dropped_of k calls ∧
  get0 (drop_logged_totals r) k = printed_of k lines ∧
  ∀ now n, 0 < n -> ∃ r' l,
    log_dropped_throttled now k n true r = (r', Some l) ∧
    dl_total l = dropped_of k calls + n ∧
    printed_of k lines + dl_delta l = dl_total l.
Proof.
  intros H. destruct (run_drops_totals _ _ _ _ k H) as [Ht Hl]. cbn in Ht, Hl.
  unfold get0 in Ht at 2, Hl at 2. rewrite lookup_empty in Ht, Hl. cbn in Ht, Hl.
  split_and!; [lia | lia |]. intros now n Hn. unfold log_dropped_throttled.
  rewrite (proj2 (Z.leb_gt _ _)) by lia. eexists _, _. split; [done|]. cbn. lia.
Qed.

Definition drop_example : list drop_call :=
  [mkDrop 100 (py "segment") 2 false; mkDrop 40000000 (py "segment") 3 false].

Lemma drop_accounting_exact_witness :
  get0 (drop_totals (run_drops drop_example empty_rlog).1) (py "segment") = 5.
Proof.
  destruct (drop_accounting_exact drop_example (run_drops drop_example empty_rlog).1
    (run_drops drop_example empty_rlog).2 (py "segment") eq_refl) as (-> & _).
  reflexivity.
Defined.

(** Between two unforced lines of one kind at least the interval passes. *)
Lemma drop_lines_spaced now kind count r r' l :
  log_dropped_throttled now kind count false r = (r', Some l) ->
  DROP_LOG_INTERVAL <= now - get0 (last_drop_log_at r) kind ∧
  get0 (last_drop_log_at r') kind = now.
Proof.
  unfold log_dropped_throttled. cbn [negb andb].
  destruct (count <=? 0); [done|].
  destruct (Z.ltb_spec (now - get0 (last_drop_log_at r) kind) DROP_LOG_INTERVAL); [done|].
  intros [= <- <-]. cbn. rewrite get0_insert, decide_True by done. lia.
Qed.
