(* ===== verification/Report.v ===== *)
(** * Reporting: agent/protocol/*.py, client/*.py and the connectivity helpers of
    utils/grpc_channel.py

    A report RPC pulls items out of a queue through a generator.  The
    environment of one report call is a list of ticks: at each pull, the clock
    and the items producers have put since the previous pull (a blocking get
    returns at the tick its item arrives, or finds the queue still empty when
    it times out); the consumer may stop pulling at any tick.  Times are in
    microseconds. *)

From S2P Require Import Prelude PyData PyText Carrier Config TraceData Trace ReporterLog.

(** ** Pulling a batch out of a queue *)

Section generator.
Context {A : Type}.
Implicit Types (q : PyQueue.t A).

Record tick := mkTick { tk_now : Z; tk_arrived : list A }.

(** Producers' [put(block=False)]: the queue after, and the items it accepted. *)
Fixpoint put_all (l : list A) q : PyQueue.t A * list A :=
  match l with
  | [] => (q, [])
  | x :: l' =>
      match PyQueue.put_nowait x q with
      | Some q' => let (q'', acc) := put_all l' q' in (q'', x :: acc)
      | None => put_all l' q
      end
  end.

(** [_queue_get_within_batch]: nothing once the window is over, except that the
    first pull always looks at the queue. *)
Definition queue_get_within_batch (batch_deadline : Z) (allow_immediate : bool) (now : Z) q
  : option (A * PyQueue.t A) :=
  let remaining := batch_deadline - now in
  if (remaining <=? 0) && negb allow_immediate then None
  else PyQueue.get_nowait q.

(** The window of the HTTP and Kafka generators: whole elapsed seconds. *)
Definition queue_get_within_timeout (agent_queue_timeout start : Z) (first : bool) (now : Z) q
  : option (A * PyQueue.t A) :=
  if first then PyQueue.get_nowait q
  else if agent_queue_timeout - Z.quot (now - start) 1000000 <=? 0 then None
  else PyQueue.get_nowait q.

Record batch := mkBatch {
  b_queue : PyQueue.t A;
  b_sent : list A;       (* items yielded, oldest first *)
  b_accepted : list A    (* items producers put meanwhile *)
}.

(** The generators' loop over [get]; every item pulled is marked done. *)
Fixpoint run_generator (get : bool -> Z -> PyQueue.t A -> option (A * PyQueue.t A))
  (first : bool) (ticks : list tick) (b : batch) : batch :=
  match ticks with
  | [] => b
  | tk :: ticks' =>
      let (q1, acc) := put_all (tk_arrived tk) (b_queue b) in
      match get first (tk_now tk) q1 with
      | None => mkBatch q1 (b_sent b) (b_accepted b ++ acc)
      | Some (x, q2) =>
          match PyQueue.task_done q2 with
          | None => mkBatch q2 (b_sent b) (b_accepted b ++ acc)
          | Some q3 =>
              run_generator get false ticks' (mkBatch q3 (b_sent b ++ [x]) (b_accepted b ++ acc))
          end
      end
  end.

(** The gRPC generators: the window starts at the first pull. *)
Definition grpc_batch (agent_queue_timeout : Z) (ticks : list tick) q : batch :=
  let start := match ticks with tk :: _ => tk_now tk | [] => 0 end in
  run_generator (fun first now => queue_get_within_batch (start + agent_queue_timeout * 1000000)
                                    first now)
    true ticks (mkBatch q [] []).

(** The HTTP and Kafka generators. *)
Definition plain_batch (agent_queue_timeout : Z) (ticks : list tick) q : batch :=
  let start := match ticks with tk :: _ => tk_now tk | [] => 0 end in
  run_generator (queue_get_within_timeout agent_queue_timeout start) true ticks (mkBatch q [] []).

(** *** Nothing is lost or duplicated between the queue and the batch *)

Lemma put_all_spec l : ∀ q q' acc,
  put_all l q = (q', acc) ->
  PyQueue.items q' = PyQueue.items q ++ acc ∧ PyQueue.maxsize q' = PyQueue.maxsize q ∧
  PyQueue.unfinished q' = PyQueue.unfinished q + Z.of_nat (length acc) ∧ sublist acc l ∧
  (PyQueue.wf q -> PyQueue.wf q').
Proof.
  induction l as [|x l IH]; intros q q' acc H; cbn in H.
  { injection H as <- <-. rewrite app_nil_r. cbn. split_and!; done || lia. }
  destruct (PyQueue.put_nowait x q) as [q1|] eqn:E.
  - destruct (put_all l q1) as [q2 acc2] eqn:E2. injection H as <- <-.
    destruct (IH _ _ _ E2) as (Hi & Hm & Hu & Hs & Hw). pose proof (PyQueue.wf_put x q q1) as Hp.
    rewrite PyQueue.put_spec in E. case_decide; [done|]. injection E as <-. cbn in *.
    rewrite <- app_assoc in Hi. split_and!; [done | done | lia | by constructor | auto].
    intros Hq. apply Hw, Hp; [done|]. rewrite PyQueue.put_spec. by rewrite decide_False.
  - destruct (IH _ _ _ H) as (? & ? & ? & ? & ?). split_and!; try done. by constructor.
Qed.

(** A [get] that takes the oldest item or nothing. *)
Definition takes_oldest (get : bool -> Z -> PyQueue.t A -> option (A * PyQueue.t A)) : Prop :=
  ∀ first now q, get first now q = None ∨ get first now q = PyQueue.get_nowait q.

Lemma takes_oldest_batch d :
  takes_oldest (fun first now => queue_get_within_batch d first now).
Proof. intros first now q. unfold queue_get_within_batch. case_match; auto. Qed.

Lemma takes_oldest_timeout t s : takes_oldest (queue_get_within_timeout t s).
Proof.
  intros first now q. unfold queue_get_within_timeout. repeat case_match; auto.
Qed.

Lemma run_generator_conserves get ticks : takes_oldest get -> ∀ first b,
  PyQueue.wf (b_queue b) ->
  let b' := run_generator get first ticks b in
  PyQueue.wf (b_queue b') ∧ PyQueue.maxsize (b_queue b') = PyQueue.maxsize (b_queue b) ∧
  ∃ taken acc, b_sent b' = b_sent b ++ taken ∧ b_accepted b' = b_accepted b ++ acc ∧
    PyQueue.items (b_queue b) ++ acc = taken ++ PyQueue.items (b_queue b') ∧
    PyQueue.unfinished (b_queue b') =
      PyQueue.unfinished (b_queue b) + Z.of_nat (length acc) - Z.of_nat (length taken).
Proof.
  intros Hget. induction ticks as [|tk ticks IH]; intros first b Hw; cbn.
  { split_and!; [done..|]. exists [], []. rewrite !app_nil_r. cbn. split_and!; done || lia. }
  destruct (put_all (tk_arrived tk) (b_queue b)) as [q1 acc] eqn:E1.
  destruct (put_all_spec _ _ _ _ E1) as (Hi & Hm & Hu & _ & Hw1). specialize (Hw1 Hw).
  assert (get first (tk_now tk) q1 = None ∨
    ∃ x l, PyQueue.items q1 = x :: l ∧
      get first (tk_now tk) q1 = Some (x, PyQueue.mk (PyQueue.maxsize q1) l (PyQueue.unfinished q1)))
    as [->|(x & l & Hl & ->)].
  { destruct (Hget first (tk_now tk) q1) as [->| ->]; [by left|]. unfold PyQueue.get_nowait.
    destruct (PyQueue.items q1) as [|x l]; [by left | right; eauto]. }
  - split_and!; [done..|]. exists [], acc. rewrite app_nil_r. cbn.
    split_and!; [done | done | by rewrite Hi | lia].
  - unfold PyQueue.task_done. cbn.
    assert (Z.of_nat (S (length l)) <= PyQueue.unfinished q1) as Hun.
    { destruct Hw1 as [_ H2]. unfold PyQueue.qsize in H2. by rewrite Hl in H2. }
    rewrite (proj2 (Z.ltb_ge _ _)) by lia.
    set (b1 := mkBatch _ _ _). destruct (IH false b1) as (Hw' & Hm' & taken & acc' & Hs & Ha & Hc & Hu').
    + subst b1. cbn. destruct Hw1 as [H1 H2]. unfold PyQueue.wf, PyQueue.qsize in *. cbn.
      rewrite Hl in H1, H2. cbn in H1, H2. lia.
    + cbn in Hs, Ha, Hc, Hu', Hm'. split_and!; [done | congruence |].
      exists (x :: taken), (acc ++ acc'). rewrite Hs, Ha, <- !app_assoc. cbn.
      split_and!; [done | done | | rewrite length_app; lia].
      rewrite app_assoc, <- Hi, Hl. cbn. by rewrite Hc.
Qed.

(** *** The window bounds a batch *)

(** Once the window is over, at most the first pull takes an item. *)
Lemma grpc_generator_stops d tk ticks b :
  d <= tk_now tk ->
  b_sent (run_generator (fun first now => queue_get_within_batch d first now) false (tk :: ticks) b)
    = b_sent b.
Proof.
  intros Hd. cbn. destruct (put_all _ _) as [q1 acc]. unfold queue_get_within_batch.
  by rewrite (proj2 (Z.leb_le _ _)) by lia.
Qed.

Lemma grpc_generator_bound d ticks : ∀ first b,
  ∃ taken, b_sent (run_generator (fun first now => queue_get_within_batch d first now) first ticks b)
    = b_sent b ++ taken ∧
    (length taken <= (if first then 1 else 0) +
       length (filter (fun tk => (tk_now tk < d)%Z) ticks))%nat.
Proof.
  induction ticks as [|tk ticks IH]; intros first b; cbn [run_generator].
  { exists []. rewrite app_nil_r. split; [done | cbn; lia]. }
  destruct (put_all _ _) as [q1 acc].
  destruct (queue_get_within_batch d first (tk_now tk) q1) as [[x q2]|] eqn:E.
  - destruct (PyQueue.task_done q2) as [q3|].
    + destruct (IH false (mkBatch q3 (b_sent b ++ [x]) (b_accepted b ++ acc))) as (taken & -> & Hlen).
      exists (x :: taken). cbn [b_sent]. rewrite <- app_assoc. split; [done|].
      unfold queue_get_within_batch in E. cbn [length]. rewrite filter_cons.
      destruct first; [case_decide; cbn [length]; lia|]. cbn [negb] in E. rewrite andb_true_r in E.
      destruct (Z.leb_spec (d - tk_now tk) 0); [done|].
      rewrite decide_True by lia. cbn [length]. lia.
    + exists []. rewrite app_nil_r. split; [done | cbn; lia].
  - exists []. rewrite app_nil_r. split; [done | cbn; lia].
Qed.
End generator.
Arguments tick A : clear implicits.
Arguments batch A : clear implicits.

(** ** What the agent asks of a protocol: agent/protocol/__init__.py *)

Inductive report_kind := RSegment | RLogData | RMeter | RSnapshot.

#[export] Instance report_kind_eq_dec : EqDecision report_kind.
Proof. solve_decision. Defined.

(** The label a kind has in drop warnings. *)
Definition kind_label (k : report_kind) : pystr :=
  match k with
  | RSegment => py "segment" | RLogData => py "log" | RMeter => py "meter" | RSnapshot => py "snapshot"
  end.

(** The gRPC status an RPC ends with. *)
Inductive status := Unauthenticated | PermissionDenied | OtherStatus.
Inductive rpc := RpcOk | RpcFails (s : status).

(** One report call's environment: the pulls, how the RPC ends, the clock then. *)
Record call_env (A : Type) := mkEnv { e_ticks : list (tick A); e_rpc : rpc; e_now : Z }.
Arguments mkEnv {A}.
Arguments e_ticks {A}.
Arguments e_rpc {A}.
Arguments e_now {A}.

(** What a report call leaves: the protocol, the drop log, the queue and what
    happened to the items. *)
Record report_result (A P : Type) := mkReport {
  r_proto : P;
  r_rlog : RLog;
  r_batch : batch A;
  r_dropped : Z;           (* items accounted as dropped *)
  r_result : res unit
}.
Arguments mkReport {A P}.
Arguments r_proto {A P}.
Arguments r_rlog {A P}.
Arguments r_batch {A P}.
Arguments r_dropped {A P}.
Arguments r_result {A P}.

Class Protocol (P : Type) := {
  is_ready : P -> bool;
  report : ∀ {A}, Config -> report_kind -> call_env A -> P -> RLog -> PyQueue.t A ->
    report_result A P
}.

(** The queue was not touched. *)
Definition untouched {A P} (p : P) (rl : RLog) (q : PyQueue.t A) : report_result A P :=
  mkReport p rl (mkBatch q [] []) 0 (Ok tt).

(** A report moves a FIFO prefix out of the queue, keeps the queue's invariant
    and marks exactly the moved items done; when it is not ready to send it
    leaves the queue alone. *)
Class ProtocolLaws (P : Type) `{!Protocol P} := {
  report_conserves : ∀ A cfg k (env : call_env A) p rl q,
    PyQueue.wf q ->
    let b := r_batch (report cfg k env p rl q) in
    PyQueue.wf (b_queue b) ∧ PyQueue.maxsize (b_queue b) = PyQueue.maxsize q ∧
    PyQueue.items q ++ b_accepted b = b_sent b ++ PyQueue.items (b_queue b) ∧
    PyQueue.unfinished (b_queue b) =
      PyQueue.unfinished q + Z.of_nat (length (b_accepted b)) - Z.of_nat (length (b_sent b));
  report_gated : ∀ A cfg k (env : call_env A) p rl q,
    is_ready p = false -> report cfg k env p rl q = untouched p rl q
}.

Lemma batch_conserves {A} get (ticks : list (tick A)) q :
  takes_oldest get -> PyQueue.wf q ->
  let b := run_generator get true ticks (mkBatch q [] []) in
  PyQueue.wf (b_queue b) ∧ PyQueue.maxsize (b_queue b) = PyQueue.maxsize q ∧
  PyQueue.items q ++ b_accepted b = b_sent b ++ PyQueue.items (b_queue b) ∧
  PyQueue.unfinished (b_queue b) =
    PyQueue.unfinished q + Z.of_nat (length (b_accepted b)) - Z.of_nat (length (b_sent b)).
Proof.
  intros Hg Hw b. destruct (run_generator_conserves get ticks Hg true (mkBatch q [] []) Hw)
    as (? & ? & taken & acc & Hs & Ha & ? & ?). subst b. rewrite Hs, Ha. by split_and!.
Qed.

Lemma untouched_conserves {A P} (p : P) rl (q : PyQueue.t A) :
  PyQueue.wf q ->
  let b := r_batch (untouched p rl q) in
  PyQueue.wf (b_queue b) ∧ PyQueue.maxsize (b_queue b) = PyQueue.maxsize q ∧
  PyQueue.items q ++ b_accepted b = b_sent b ++ PyQueue.items (b_queue b) ∧
  PyQueue.unfinished (b_queue b) =
    PyQueue.unfinished q + Z.of_nat (length (b_accepted b)) - Z.of_nat (length (b_sent b)).
Proof. intros Hw. cbn. rewrite app_nil_r. split_and!; done || lia. Qed.

(** ** gRPC: connectivity helpers of utils/grpc_channel.py *)

Inductive connectivity := IDLE | CONNECTING | READY | TRANSIENT_FAILURE | SHUTDOWN.

#[export] Instance connectivity_eq_dec : EqDecision connectivity.
Proof. solve_decision. Defined.

Definition AUTH_LOG_INTERVAL : Z := 60000000.
Definition CONNECTIVITY_LOG_INTERVAL : Z := 30000000.

(** The module's throttling state. *)
Record ChannelLog := mkChannelLog {
  last_auth_log_at : Z;
  last_connectivity_log_at : gmap pystr Z
}.

Definition is_auth_rpc_error (s : status) : bool :=
  match s with Unauthenticated | PermissionDenied => true | OtherStatus => false end.

Definition log_auth_failure_throttled (now : Z) (l : ChannelLog) : ChannelLog * bool :=
  if now - last_auth_log_at l <? AUTH_LOG_INTERVAL then (l, false)
  else (mkChannelLog now (last_connectivity_log_at l), true).

Definition log_connectivity_event (now : Z) (kind : pystr) (l : ChannelLog) : ChannelLog * bool :=
  if now - get0 (last_connectivity_log_at l) kind <? CONNECTIVITY_LOG_INTERVAL then (l, false)
  else (mkChannelLog (last_auth_log_at l) (<[kind := now]> (last_connectivity_log_at l)), true).

(** The event a transition logs, if any. *)
Definition transition_event (prev : option connectivity) (state : connectivity) : option pystr :=
  match state, prev with
  | TRANSIENT_FAILURE, _ => Some (py "transient_failure")
  | IDLE, Some READY => Some (py "idle")
  | READY, (Some TRANSIENT_FAILURE | Some IDLE | Some CONNECTING | None) => Some (py "recovered")
  | _, _ => None
  end.

Definition apply_connectivity_transition (now : Z) (prev : option connectivity)
  (state : connectivity) (l : ChannelLog) : ChannelLog :=
  match transition_event prev state with
  | Some kind => (log_connectivity_event now kind l).1
  | None => l
  end.

(** ** class GrpcProtocol *)

Record Grpc := mkGrpc {
  properties_sent : bool;
  g_state : option connectivity;
  sent_properties_counter : Z;
  resubscriptions : nat;     (* unsubscribe + subscribe rounds on the one channel *)
  channel_open : bool;
  channel_log : ChannelLog
}.

(** [GrpcProtocol()]: one channel, subscribed, no state seen yet. *)
Definition new_Grpc (l : ChannelLog) : Grpc := mkGrpc false None 0 0 true l.

Definition grpc_is_ready (g : Grpc) : bool := bool_decide (g_state g = Some READY).

(** [_cb]: leaving READY forgets that the properties were sent. *)
Definition grpc_cb (now : Z) (state : connectivity) (g : Grpc) : Grpc :=
  let prev := g_state g in
  let l := apply_connectivity_transition now prev state (channel_log g) in
  let lost := bool_decide (prev = Some READY) && negb (bool_decide (state = READY)) in
  mkGrpc (if lost then false else properties_sent g) (Some state)
    (if lost then 0 else sent_properties_counter g) (resubscriptions g) (channel_open g) l.

(** [on_error] *)
Definition on_error (g : Grpc) : Grpc :=
  mkGrpc (properties_sent g) (g_state g) (sent_properties_counter g) (S (resubscriptions g))
    (channel_open g) (channel_log g).

(** [handle_rpc_error(e, self.on_error)] *)
Definition handle_rpc_error (now : Z) (s : status) (g : Grpc) : Grpc :=
  if is_auth_rpc_error s then
    mkGrpc (properties_sent g) (g_state g) (sent_properties_counter g) (resubscriptions g)
      (channel_open g) (log_auth_failure_throttled now (channel_log g)).1
  else on_error g.

(** [close] *)
Definition grpc_close (g : Grpc) : Grpc :=
  mkGrpc (properties_sent g) (g_state g) (sent_properties_counter g) (resubscriptions g)
    false (channel_log g).

(** [report_segment], [report_log], [report_meter], [report_snapshot] *)
Definition grpc_report {A} (cfg : Config) (k : report_kind) (env : call_env A) (g : Grpc)
  (rl : RLog) (q : PyQueue.t A) : report_result A Grpc :=
  if negb (grpc_is_ready g) then untouched g rl q
  else
    let b := grpc_batch (agent_queue_timeout cfg) (e_ticks env) q in
    let sent := Z.of_nat (length (b_sent b)) in
    match e_rpc env with
    | RpcOk => mkReport g rl b 0 (Ok tt)
    | RpcFails s =>
        mkReport (handle_rpc_error (e_now env) s g)
          (if sent =? 0 then rl else (log_dropped_throttled (e_now env) (kind_label k) sent false rl).1)
          b sent (Raise OtherException)
    end.

#[export] Instance Grpc_protocol : Protocol Grpc := {
  is_ready := grpc_is_ready;
  report := @grpc_report
}.

#[export] Instance Grpc_laws : ProtocolLaws Grpc.
Proof.
  split; intros A cfg k env p rl q; cbn [report Grpc_protocol is_ready].
  - intros Hw. unfold grpc_report. destruct (grpc_is_ready p); cbn [negb].
    + pose proof (fun d => batch_conserves _ (e_ticks env) q (takes_oldest_batch d) Hw) as H.
      destruct (e_rpc env); exact (H _).
    + by apply untouched_conserves.
  - intros Hr. unfold grpc_report. by rewrite Hr.
Qed.

(** *** Heartbeats and instance properties *)

(** The management messages sent to the backend. *)
Inductive message := MProps | MPing.

(** [refresh_instance_props] of client/__init__.py: every [factor]-th call sends
    the properties; [%] by zero raises [ZeroDivisionError]. *)
Definition refresh_due (factor counter : Z) : res bool :=
  if factor =? 0 then Raise OtherException else Ok ((counter + 1) mod factor =? 0).

Definition set_counter (v : Z) (g : Grpc) : Grpc :=
  mkGrpc (properties_sent g) (g_state g) v (resubscriptions g) (channel_open g) (channel_log g).
Definition set_properties_sent (v : bool) (g : Grpc) : Grpc :=
  mkGrpc v (g_state g) (sent_properties_counter g) (resubscriptions g) (channel_open g) (channel_log g).

(** The outcomes of the RPCs a heartbeat makes and depends on; that of the
    periodic refresh is logged and ignored. *)
Record beat_env := mkBeat { hb_now : Z; hb_props : rpc; hb_ping : rpc }.

(** The RPCs attempted are logged, oldest first. *)
Definition heart (A : Type) : Type := M (Grpc * list message) A.

Definition hb_send (m : message) : heart unit := modify (fun s => (s.1, s.2 ++ [m])).
Definition hb_mod (f : Grpc -> Grpc) : heart unit := modify (fun s => (f s.1, s.2)).

(** [GrpcServiceManagementClient.send_heart_beat]: a failed refresh does not
    prevent the ping. *)
Definition send_heart_beat (cfg : Config) (e : beat_env) : heart rpc :=
  counter ← gets (fun s => sent_properties_counter s.1);
  _ ← hb_mod (set_counter (counter + 1));
  due ← lift (refresh_due (agent_collector_properties_report_period_factor cfg) counter);
  _ ← (if due : bool then hb_send MProps else mret tt);
  _ ← hb_send MPing;
  mret (hb_ping e).

(** [GrpcProtocol.heartbeat] *)
Definition grpc_heartbeat (cfg : Config) (e : beat_env) : heart unit :=
  g ← gets fst;
  if negb (grpc_is_ready g) then mret tt
  else
    _ ← (if properties_sent g then mret tt
         else
           _ ← hb_send MProps;
           match hb_props e with
           | RpcOk => hb_mod (set_properties_sent true)
           | RpcFails s => hb_mod (handle_rpc_error (hb_now e) s)
           end);
    r ← send_heart_beat cfg e;
    match r with
    | RpcOk => mret tt
    | RpcFails s => _ ← hb_mod (handle_rpc_error (hb_now e) s); raise OtherException
    end.

(** A run of heartbeats of a connected agent; a failed one is retried later. *)
Fixpoint heartbeats (cfg : Config) (es : list beat_env) (s : Grpc * list message)
  : Grpc * list message :=
  match es with
  | [] => s
  | e :: es' => heartbeats cfg es' (grpc_heartbeat cfg e s).1
  end.

(** ** class HttpProtocol: agent/protocol/http.py

    Always ready; an exception while a batch is posted is swallowed.  It has no
    meter, snapshot or profile traffic. *)
Record Http := mkHttp { http_properties_sent : bool; http_counter : Z }.

Definition http_report {A} (cfg : Config) (k : report_kind) (env : call_env A) (h : Http)
  (rl : RLog) (q : PyQueue.t A) : report_result A Http :=
  match k with
  | RSegment | RLogData =>
      mkReport h rl (plain_batch (agent_queue_timeout cfg) (e_ticks env) q) 0 (Ok tt)
  | RMeter | RSnapshot => untouched h rl q
  end.

#[export] Instance Http_protocol : Protocol Http := {
  is_ready := fun _ => true;
  report := @http_report
}.

#[export] Instance Http_laws : ProtocolLaws Http.
Proof.
  split; intros A cfg k env p rl q; cbn [report Http_protocol is_ready]; [|done].
  intros Hw. pose proof (fun s => batch_conserves _ (e_ticks env) q
    (takes_oldest_timeout (agent_queue_timeout cfg) s) Hw) as H.
  destruct k; cbn [http_report r_batch];
    (apply H || apply (untouched_conserves p rl q Hw)).
Qed.

(** [HttpProtocol.heartbeat]: properties once, then the ping (with its refresh). *)
Definition http_heartbeat (factor : Z) (props refresh ping : bool) (h : Http)
  : Http * list message * res unit :=
  if http_properties_sent h || props then
    let h1 := mkHttp true (http_counter h + 1) in
    let first := if http_properties_sent h then [] else [MProps] in
    match refresh_due factor (http_counter h) with
    | Raise e => (h1, first, Raise e)
    | Ok due =>
        if due && negb refresh then (h1, first ++ [MProps], Raise OtherException)
        else (h1, first ++ (if due then [MProps] else []) ++ [MPing],
              if ping then Ok tt else Raise OtherException)
    end
  else (h, [MProps], Raise OtherException).

(** ** class KafkaProtocol: agent/protocol/kafka.py

    Always ready; a failing producer raises out of the report. *)
Record Kafka := mkKafka { kafka_counter : Z }.

Definition kafka_report {A} (cfg : Config) (k : report_kind) (env : call_env A) (h : Kafka)
  (rl : RLog) (q : PyQueue.t A) : report_result A Kafka :=
  match k with
  | RSegment | RLogData | RMeter =>
      mkReport h rl (plain_batch (agent_queue_timeout cfg) (e_ticks env) q) 0
        (match e_rpc env with RpcOk => Ok tt | RpcFails _ => Raise OtherException end)
  | RSnapshot => untouched h rl q
  end.

#[export] Instance Kafka_protocol : Protocol Kafka := {
  is_ready := fun _ => true;
  report := @kafka_report
}.

#[export] Instance Kafka_laws : ProtocolLaws Kafka.
Proof.
  split; intros A cfg k env p rl q; cbn [report Kafka_protocol is_ready]; [|done].
  intros Hw. pose proof (fun s => batch_conserves _ (e_ticks env) q
    (takes_oldest_timeout (agent_queue_timeout cfg) s) Hw) as H.
  destruct k; cbn [kafka_report r_batch];
    (apply H || apply (untouched_conserves p rl q Hw)).
Qed.

(** ** Kafka producer options: [__init_kafka_configs] of client/kafka.py *)

Inductive kafka_value := KServers (l : list pystr) | KInt (n : Z) | KBool (b : bool) | KStr (s : pystr).

Definition kafka_prefix : pystr := py "SW_KAFKA_REPORTER_CONFIG_".

Definition kafka_parse (val : pystr) : res kafka_value :=
  if isnumeric val then n ← int_of_str val; mret (KInt n)
  else if decide (val = py "True") then Ok (KBool true)
  else if decide (val = py "False") then Ok (KBool false)
  else Ok (KStr val).

(** The environment is listed in order; a key set twice raises
    [KafkaConfigDuplicated]. *)
Fixpoint kafka_configs_loop (env : list (pystr * pystr)) (configs : list (pystr * kafka_value))
  : res (list (pystr * kafka_value)) :=
  match env with
  | [] => Ok configs
  | (name, val) :: env' =>
      if startswith kafka_prefix name then
        let key := drop 25 name in
        v ← kafka_parse val;
        match Dict.get key configs with
        | None => kafka_configs_loop env' (Dict.set key v configs)
        | Some _ => Raise OtherException
        end
      else kafka_configs_loop env' configs
  end.

Definition init_kafka_configs (cfg : Config) (env : list (pystr * pystr))
  : res (list (pystr * kafka_value)) :=
  kafka_configs_loop env [(py "bootstrap_servers", KServers (split_on 44 (kafka_bootstrap_servers cfg)))].

(** ** Properties *)


(** One batch is bounded by its window: with [agent_queue_timeout] seconds, a
    gRPC report takes at most one item more than the pulls made inside the window, so
    a continuous producer cannot keep one RPC open. *)
Theorem grpc_batch_bounded {A} timeout (ticks : list (tick A)) q :
  let start := match ticks with tk :: _ => tk_now tk | [] => 0 end in
  (length (b_sent (grpc_batch timeout ticks q)) <=
     1 + length (filter (fun tk => (tk_now tk < start + timeout * 1000000)%Z) ticks))%nat.
Proof.
  intros start. unfold grpc_batch. fold start.
  destruct (grpc_generator_bound (start + timeout * 1000000) ticks true (mkBatch q [] []))
    as (taken & -> & Hlen). cbn. lia.
Qed.

(** One heartbeat of a connected, registered agent whose ping is answered. *)
Lemma heartbeat_ready (cfg : Config) e g log :
  grpc_is_ready g = true -> properties_sent g = true ->
  agent_collector_properties_report_period_factor cfg ≠ 0 -> hb_ping e = RpcOk ->
  grpc_heartbeat cfg e (g, log) =
    ((set_counter (sent_properties_counter g + 1) g,
      log ++ (if (sent_properties_counter g + 1) mod
                 agent_collector_properties_report_period_factor cfg =? 0 then [MProps] else [])
          ++ [MPing]), Ok tt).
Proof.
  intros Hr Hp Hf He. unfold grpc_heartbeat, send_heart_beat, refresh_due, hb_send, hb_mod.
  unfold_m. rewrite Hr, Hp. unfold_m. rewrite (proj2 (Z.eqb_neq _ _) Hf). unfold_m.
  destruct (_ mod _ =? 0); unfold_m; rewrite He; unfold_m; by rewrite <- ?app_assoc.
Qed.

#[export] Instance message_eq_dec : EqDecision message.
Proof. solve_decision. Defined.

Definition count_message (m : message) (l : list message) : Z :=
  Z.of_nat (length (filter (fun x => x = m) l)).

Lemma count_message_app m l l' : count_message m (l ++ l') = count_message m l + count_message m l'.
Proof. unfold count_message. rewrite filter_app, length_app. lia. Qed.

Lemma count_values m :
  count_message m [] = 0 ∧ count_message m [m] = 1 ∧
  count_message MPing [MProps] = 0 ∧ count_message MProps [MPing] = 0.
Proof. by destruct m. Qed.

Lemma div_succ c f : 0 < f ->
  (c + 1) / f = c / f + (if (c + 1) mod f =? 0 then 1 else 0).
Proof.
  intros Hf. pose proof (Z.div_mod (c + 1) f ltac:(lia)) as H1.
  pose proof (Z.mod_pos_bound (c + 1) f Hf) as H2. destruct (Z.eqb_spec ((c + 1) mod f) 0) as [E|E].
  - assert (c / f = (c + 1) / f - 1) as ->; [|lia].
    symmetry. apply (Z.div_unique c f _ (f - 1)); lia.
  - rewrite Z.add_0_r. apply (Z.div_unique c f _ ((c + 1) mod f - 1)); lia.
Qed.

(** Instance properties are refreshed at the configured rate: over any run of
    answered heartbeats of a connected, registered agent, one ping is sent per
    heartbeat, and the properties are sent again each time the heartbeat counter
    passes a multiple of the period factor. *)
Theorem properties_refresh_rate (cfg : Config) es : ∀ g log,
  grpc_is_ready g = true -> properties_sent g = true ->
  0 < agent_collector_properties_report_period_factor cfg ->
  Forall (fun e => hb_ping e = RpcOk) es ->
  let f := agent_collector_properties_report_period_factor cfg in
  let c := sent_properties_counter g in
  let n := Z.of_nat (length es) in
  let log' := (heartbeats cfg es (g, log)).2 in
  count_message MPing log' = count_message MPing log + n ∧
  count_message MProps log' = count_message MProps log + ((c + n) / f - c / f).
Proof.
  induction es as [|e es IH]; intros g log Hr Hp Hf Hes f c n log'.
  { subst n log'. cbn. rewrite !Z.add_0_r. lia. }
  apply Forall_cons in Hes as [He Hes]. subst log'. cbn [heartbeats].
  rewrite (heartbeat_ready cfg e g log Hr Hp ltac:(lia) He).
  destruct (IH (set_counter (c + 1) g)
    (log ++ (if (c + 1) mod f =? 0 then [MProps] else []) ++ [MPing]) Hr Hp Hf Hes) as [H1 H2].
  cbn [fst snd] in *. fold f c in H1, H2 |- *. rewrite H1, H2. cbn [set_counter sent_properties_counter].
  rewrite !count_message_app. subst n. cbn [length].
  replace (c + 1 + Z.of_nat (length es)) with (c + Z.of_nat (S (length es))) by lia.
  rewrite (div_succ c f Hf). destruct (_ mod _ =? 0);
    pose proof (count_values MPing); pose proof (count_values MProps); lia.
Qed.

Lemma stays_unregistered now1 now2 states : ∀ g,
  properties_sent g = false -> g_state g ≠ Some READY -> Forall (fun s => s ≠ READY) states ->
  properties_sent (grpc_cb now2 READY (foldl (fun x s => grpc_cb now1 s x) g states)) = false.
Proof.
  induction states as [|s states IH]; intros g Hp Hst Hs; cbn [foldl].
  - unfold grpc_cb. cbn. by rewrite bool_decide_eq_false_2 by done.
  - apply Forall_cons in Hs as [Hs1 Hs]. apply IH; [| |done]; unfold grpc_cb; cbn; [|congruence].
    by rewrite bool_decide_eq_false_2 by done.
Qed.

(** After a failover the agent registers again: when the channel leaves READY and
    comes back, the next heartbeat sends the instance properties before the ping,
    even if they had been sent before. *)
Theorem failover_reregisters (cfg : Config) e now1 now2 states g log :
  grpc_is_ready g = true -> Forall (fun s => s ≠ READY) states -> states ≠ [] ->
  hb_ping e = RpcOk -> agent_collector_properties_report_period_factor cfg ≠ 0 ->
  let g1 := grpc_cb now2 READY (foldl (fun x s => grpc_cb now1 s x) g states) in
  ∃ g2 rest, grpc_heartbeat cfg e (g1, log) = ((g2, log ++ MProps :: rest), Ok tt) ∧ MPing ∈ rest.
Proof.
  intros Hr Hs Hne He Hf g1.
  assert (grpc_is_ready g1 = true) as Hr1 by reflexivity.
  assert (properties_sent g1 = false) as Hp1.
  { subst g1. destruct states as [|s states]; [done|]. apply Forall_cons in Hs as [Hs1 Hs].
    cbn [foldl]. apply bool_decide_eq_true in Hr. apply stays_unregistered; [| |done];
      unfold grpc_cb; cbn; [|congruence].
    rewrite Hr. rewrite bool_decide_eq_true_2 by done. by rewrite bool_decide_eq_false_2 by done. }
  unfold grpc_heartbeat, send_heart_beat, refresh_due, hb_send, hb_mod. unfold_m.
  rewrite Hr1, Hp1. unfold_m. rewrite (proj2 (Z.eqb_neq _ _) Hf).
  destruct (hb_props e) as [|s]; unfold_m; destruct (_ mod _ =? 0); unfold_m; rewrite He; unfold_m;
    eexists _, _; (split; [rewrite <- ?app_assoc; reflexivity | set_solver]).
Qed.

(** *** Witnesses *)

Definition ready_grpc : Grpc := mkGrpc true (Some READY) 0 0 true (mkChannelLog 0 ∅).
Definition demo_queue : PyQueue.t nat := PyQueue.mk 10 [1%nat; 2%nat] 2.


Lemma properties_refresh_rate_witness :
  let es := replicate 25 (mkBeat 0 RpcOk RpcOk) in
  let log' := (heartbeats default_config es (ready_grpc, [])).2 in
  agent_collector_properties_report_period_factor default_config = 10 ∧
  count_message MPing log' = 0 + 25 ∧ count_message MProps log' = 0 + ((0 + 25) / 10 - 0 / 10).
Proof.
  split; [vm_compute; reflexivity|].
  apply (properties_refresh_rate default_config (replicate 25 (mkBeat 0 RpcOk RpcOk)) ready_grpc []);
    [reflexivity | reflexivity | vm_compute; reflexivity | repeat constructor].
Defined.

Lemma failover_reregisters_witness :
  let g1 := grpc_cb 2 READY (foldl (fun x s => grpc_cb 1 s x) ready_grpc [TRANSIENT_FAILURE; CONNECTING]) in
  ∃ g2 rest, grpc_heartbeat default_config (mkBeat 3 RpcOk RpcOk) (g1, []) =
    ((g2, [] ++ MProps :: rest), Ok tt) ∧ MPing ∈ rest.
Proof.
  apply (failover_reregisters default_config (mkBeat 3 RpcOk RpcOk) 1 2 [TRANSIENT_FAILURE; CONNECTING]
    ready_grpc []); first [reflexivity | discriminate | vm_compute; discriminate | repeat constructor; discriminate].
Defined.
