(* ===== verification/Agent.v ===== *)
(** * The agent: agent/__init__.py (the threaded [SkyWalkingAgent])

    Lifecycle, bounded queues, reporter loops and shutdown.  Items of a queue
    are references ([nat]): the agent never looks inside them.  One value of
    [Agent] is the agent of one process; [fork_child] is [os.fork] seen from the
    child, with the at-fork hook the agent may have registered.  Waiting times
    are in microseconds. *)

From S2P Require Import Prelude PyData PyText Config Sampling ReporterLog Trace Report.

(** ** Exponential backoff: [report_with_backoff] *)

Inductive outcome := Returned (flag : bool) | Failed.

(** The wait after one round: [wait * 2 or 1], at most a minute, after an error;
    nothing after a round with work to do; [base] otherwise. *)
Definition next_wait (base wait : Z) (o : outcome) : Z :=
  match o with
  | Returned flag => if flag then 0 else base
  | Failed => Z.min 60000000 (if wait * 2 =? 0 then 1000000 else wait * 2)
  end.

(** The waits of a reporter thread, round by round, until shutdown. *)
Fixpoint backoff_waits (base wait : Z) (rounds : list outcome) : list Z :=
  match rounds with
  | [] => []
  | o :: rounds' => let w := next_wait base wait o in w :: backoff_waits base w rounds'
  end.

(** ** Protocols an agent may hold *)

Inductive AnyProtocol := PGrpc (g : Grpc) | PHttp (h : Http) | PKafka (k : Kafka).

Definition map_report {A P Q} (f : P -> Q) (r : report_result A P) : report_result A Q :=
  mkReport (f (r_proto r)) (r_rlog r) (r_batch r) (r_dropped r) (r_result r).

#[export] Instance Any_protocol : Protocol AnyProtocol := {
  is_ready := fun p =>
    match p with PGrpc g => is_ready g | PHttp h => is_ready h | PKafka k => is_ready k end;
  report := fun A cfg k env p rl q =>
    match p with
    | PGrpc g => map_report PGrpc (report cfg k env g rl q)
    | PHttp h => map_report PHttp (report cfg k env h rl q)
    | PKafka h => map_report PKafka (report cfg k env h rl q)
    end
}.

#[export] Instance Any_laws : ProtocolLaws AnyProtocol.
Proof.
  split; intros A cfg k env [g|h|h] rl q; cbn [report is_ready Any_protocol map_report r_batch].
  1-3: by apply report_conserves.
  all: intros Hr; by rewrite report_gated.
Qed.

(** ** The agent's state *)

Abbreviation queue := (PyQueue.t nat).

Record Agent := mkAgent {
  a_config : Config;
  a_pid : Z;                       (* os.getpid() *)
  a_started : bool;
  started_pid : option Z;
  protocol : option AnyProtocol;
  finished : option bool;          (* the Event, once created *)
  reporting : bool;
  at_fork_registered : bool;
  fini_registered : bool;
  segment_queue : option queue;
  log_queue : option queue;
  meter_queue : option queue;
  snapshot_queue : option queue;
  threads : list pystr;            (* reporter threads running in this process *)
  atexit_hooks : nat;              (* registrations of __fini *)
  installs : nat;                  (* plugins.install() calls *)
  a_sampling : option Z;
  a_rlog : RLog;
  open_channels : Z                (* gRPC channels opened and not closed *)
}.

(** [SkyWalkingAgent()] *)
Definition new_agent (cfg : Config) (pid : Z) : Agent :=
  mkAgent cfg pid false None None None false false false None None None None [] 0 0 None
    empty_rlog 0.

Abbreviation MA := (M Agent).

(** Updates of groups of attributes. *)
Definition with_config (c : Config) (a : Agent) : Agent :=
  mkAgent c (a_pid a) (a_started a) (started_pid a) (protocol a) (finished a) (reporting a)
    (at_fork_registered a) (fini_registered a) (segment_queue a) (log_queue a) (meter_queue a)
    (snapshot_queue a) (threads a) (atexit_hooks a) (installs a) (a_sampling a) (a_rlog a)
    (open_channels a).
Definition with_flags (st : bool) (sp : option Z) (rep : bool) (a : Agent) : Agent :=
  mkAgent (a_config a) (a_pid a) st sp (protocol a) (finished a) rep
    (at_fork_registered a) (fini_registered a) (segment_queue a) (log_queue a) (meter_queue a)
    (snapshot_queue a) (threads a) (atexit_hooks a) (installs a) (a_sampling a) (a_rlog a)
    (open_channels a).
Definition with_hooks (fork fini : bool) (n : nat) (a : Agent) : Agent :=
  mkAgent (a_config a) (a_pid a) (a_started a) (started_pid a) (protocol a) (finished a)
    (reporting a) fork fini (segment_queue a) (log_queue a) (meter_queue a)
    (snapshot_queue a) (threads a) n (installs a) (a_sampling a) (a_rlog a) (open_channels a).
Definition with_queues (s l m sn : option queue) (a : Agent) : Agent :=
  mkAgent (a_config a) (a_pid a) (a_started a) (started_pid a) (protocol a) (finished a)
    (reporting a) (at_fork_registered a) (fini_registered a) s l m sn (threads a)
    (atexit_hooks a) (installs a) (a_sampling a) (a_rlog a) (open_channels a).
Definition with_protocol (p : option AnyProtocol) (n : Z) (a : Agent) : Agent :=
  mkAgent (a_config a) (a_pid a) (a_started a) (started_pid a) p (finished a)
    (reporting a) (at_fork_registered a) (fini_registered a) (segment_queue a) (log_queue a)
    (meter_queue a) (snapshot_queue a) (threads a) (atexit_hooks a) (installs a) (a_sampling a)
    (a_rlog a) n.
Definition with_threads (f : option bool) (ts : list pystr) (a : Agent) : Agent :=
  mkAgent (a_config a) (a_pid a) (a_started a) (started_pid a) (protocol a) f
    (reporting a) (at_fork_registered a) (fini_registered a) (segment_queue a) (log_queue a)
    (meter_queue a) (snapshot_queue a) ts (atexit_hooks a) (installs a) (a_sampling a)
    (a_rlog a) (open_channels a).
Definition with_services (n : nat) (s : option Z) (a : Agent) : Agent :=
  mkAgent (a_config a) (a_pid a) (a_started a) (started_pid a) (protocol a) (finished a)
    (reporting a) (at_fork_registered a) (fini_registered a) (segment_queue a) (log_queue a)
    (meter_queue a) (snapshot_queue a) (threads a) (atexit_hooks a) n s (a_rlog a)
    (open_channels a).
Definition with_rlog (r : RLog) (a : Agent) : Agent :=
  mkAgent (a_config a) (a_pid a) (a_started a) (started_pid a) (protocol a) (finished a)
    (reporting a) (at_fork_registered a) (fini_registered a) (segment_queue a) (log_queue a)
    (meter_queue a) (snapshot_queue a) (threads a) (atexit_hooks a) (installs a) (a_sampling a)
    r (open_channels a).

(** The queue of a kind, and its replacement. *)
Definition queue_of (k : report_kind) (a : Agent) : option queue :=
  match k with
  | RSegment => segment_queue a | RLogData => log_queue a | RMeter => meter_queue a
  | RSnapshot => snapshot_queue a
  end.
Definition set_queue (k : report_kind) (q : queue) (a : Agent) : Agent :=
  match k with
  | RSegment => with_queues (Some q) (log_queue a) (meter_queue a) (snapshot_queue a) a
  | RLogData => with_queues (segment_queue a) (Some q) (meter_queue a) (snapshot_queue a) a
  | RMeter => with_queues (segment_queue a) (log_queue a) (Some q) (snapshot_queue a) a
  | RSnapshot => with_queues (segment_queue a) (log_queue a) (meter_queue a) (Some q) a
  end.

(** Whether the configuration asks for a kind of reporting. *)
Definition kind_active (c : Config) (k : report_kind) : bool :=
  match k with
  | RSegment => true
  | RLogData => agent_log_reporter_active c
  | RMeter => agent_meter_reporter_active c
  | RSnapshot => agent_profile_active c
  end.

(** ** Starting *)

(** [__init_queues] *)
Definition init_queues : MA unit :=
  modify (fun a =>
    let c := a_config a in
    with_queues (Some (PyQueue.empty_queue (agent_trace_reporter_max_buffer_size c)))
      (if agent_log_reporter_active c
       then Some (PyQueue.empty_queue (agent_log_reporter_max_buffer_size c)) else None)
      (if agent_meter_reporter_active c
       then Some (PyQueue.empty_queue (agent_meter_reporter_max_buffer_size c)) else None)
      (if agent_profile_active c
       then Some (PyQueue.empty_queue (agent_profile_snapshot_transport_buffer_size c)) else None) a).

(** The threads [__init_threading] starts. *)
Definition thread_names (c : Config) : list pystr :=
  [py "HeartbeatThread"; py "SegmentReportThread"] ++
  (if agent_meter_reporter_active c then [py "MeterReportThread"] else []) ++
  (if agent_log_reporter_active c then [py "LogReportThread"] else []) ++
  (if agent_profile_active c
   then [py "CommandDispatchThread"; py "QueryProfileCommandThread"; py "SendProfileSnapShotThread"]
   else []).

(** [__init_threading]: a new Event and the threads the configuration asks for. *)
Definition init_threading : MA unit :=
  modify (fun a => with_threads (Some false) (threads a ++ thread_names (a_config a)) a).

(** [protocol.close()], which only gRPC has: the number of open channels after. *)
Definition close_channel (p : option AnyProtocol) (n : Z) : Z :=
  match p with
  | Some (PGrpc g) => if channel_open g then n - 1 else n
  | _ => n
  end.

(** [_close_previous_protocol(self.__protocol); self.__protocol = ...Protocol()] *)
Definition open_protocol : MA unit :=
  modify (fun a =>
    let name := agent_protocol (a_config a) in
    let n := close_channel (protocol a) (open_channels a) in
    if decide (name = py "grpc") then
      with_protocol (Some (PGrpc (new_Grpc (mkChannelLog 0 ∅)))) (n + 1) a
    else if decide (name = py "http") then with_protocol (Some (PHttp (mkHttp false 0))) n a
    else if decide (name = py "kafka") then with_protocol (Some (PKafka (mkKafka 0))) n a
    else a).

(** [__bootstrap] *)
Definition bootstrap : MA unit :=
  _ ← init_queues;
  _ ← open_protocol;
  _ ← init_threading;
  modify (fun a => with_flags (a_started a) (started_pid a) true a).

(** [__init_instrumentation] *)
Definition init_instrumentation : MA unit :=
  _ ← modify (fun a => with_config (finalize (a_config a)) a);
  _ ← modify (fun a => with_flags true (started_pid a) (reporting a) a);
  modify (fun a => with_services (S (installs a)) (a_sampling a) a).

(** [__register_fork_hooks], on a platform that has [os.register_at_fork]. *)
Definition register_fork_hooks : MA unit :=
  modify (fun a => if at_fork_registered a then a
                   else with_hooks true (fini_registered a) (atexit_hooks a) a).

(** [start], after its check, lines 580-608. *)
Definition start_body : MA unit :=
  _ ← modify (fun a => with_flags (a_started a) (Some (a_pid a)) (reporting a) a);
  _ ← modify (fun a => if 0 <? sample_n_per_3_secs (a_config a)
                       then with_services (installs a) (Sampling.init true (a_sampling a)) a else a);
  _ ← bootstrap;
  _ ← modify (fun a => if fini_registered a then a
                       else with_hooks (at_fork_registered a) true (S (atexit_hooks a)) a);
  a ← get_st;
  if agent_experimental_fork_support (a_config a) then register_fork_hooks else mret tt.

(** [start] *)
Definition start_agent : MA unit :=
  a ← get_st;
  _ ← (if negb (a_started a) then init_instrumentation
       else if decide (started_pid a = Some (a_pid a)) then raise RuntimeError
       else mret tt);
  start_body.

(** [start_prefork_master] *)
Definition start_prefork_master : MA unit :=
  a ← get_st;
  _ ← (if negb (a_started a) then init_instrumentation else mret tt);
  _ ← modify (fun a => with_flags (a_started a) (Some (a_pid a)) (reporting a) a);
  a ← get_st;
  if agent_experimental_fork_support (a_config a) then register_fork_hooks else mret tt.

(** The core options with another instance name. *)
Definition rename_instance (name : pystr) (c : Config) : Config :=
  mkConfig
    {|
      agent_collector_backend_services := agent_collector_backend_services c;
      agent_protocol := agent_protocol c;
      agent_name := agent_name c;
      agent_instance_name := name;
      agent_namespace := agent_namespace c;
      kafka_bootstrap_servers := kafka_bootstrap_servers c;
      kafka_namespace := kafka_namespace c;
      kafka_topic_management := kafka_topic_management c;
      kafka_topic_segment := kafka_topic_segment c;
      kafka_topic_log := kafka_topic_log c;
      kafka_topic_meter := kafka_topic_meter c;
      kafka_reporter_custom_configurations := kafka_reporter_custom_configurations c;
      agent_force_tls := agent_force_tls c;
      agent_ssl_trusted_ca_path := agent_ssl_trusted_ca_path c;
      agent_ssl_cert_chain_path := agent_ssl_cert_chain_path c;
      agent_ssl_key_path := agent_ssl_key_path c;
      agent_authentication := agent_authentication c;
      agent_logging_level := agent_logging_level c;
      agent_collector_heartbeat_period := agent_collector_heartbeat_period c;
      agent_collector_properties_report_period_factor := agent_collector_properties_report_period_factor c;
      agent_instance_properties_json := agent_instance_properties_json c;
      agent_experimental_fork_support := agent_experimental_fork_support c;
      agent_queue_timeout := agent_queue_timeout c;
      agent_asyncio_enhancement := agent_asyncio_enhancement c;
      agent_sw_python_bootstrap_propagate := agent_sw_python_bootstrap_propagate c;
      agent_sw_python_cli_debug_enabled := agent_sw_python_cli_debug_enabled c
    |}
    c c c c c c (ignore_path c).

(** [__fork_after_in_child] *)
Definition fork_after_in_child : MA unit :=
  _ ← modify (fun a => with_config (rename_instance
        (agent_instance_name (a_config a) ++ py "-child(" ++ str_of_int (a_pid a) ++ py ")")
        (a_config a)) a);
  start_agent.

(** [os.fork()] in the child [pid]: no thread survives, the hook runs if armed. *)
Definition fork_child (pid : Z) : MA unit :=
  _ ← modify (fun a => with_threads (finished a) []
        (mkAgent (a_config a) pid (a_started a) (started_pid a) (protocol a) (finished a)
           (reporting a) (at_fork_registered a) (fini_registered a) (segment_queue a) (log_queue a)
           (meter_queue a) (snapshot_queue a) (threads a) (atexit_hooks a) (installs a)
           (a_sampling a) (a_rlog a) (open_channels a)));
  a ← get_st;
  if at_fork_registered a then fork_after_in_child else mret tt.

(** ** Queueing *)

Definition is_segment_queue_full_agent (a : Agent) : bool :=
  if negb (reporting a) then true
  else match segment_queue a with Some q => PyQueue.full q | None => true end.

(** [archive_segment], [archive_log], [archive_meter], [add_profiling_snapshot]:
    a full queue drops the item and counts it; a missing queue is an
    [AttributeError]. *)
Definition archive (k : report_kind) (now : Z) (item : nat) : MA unit :=
  a ← get_st;
  if negb (reporting a) then mret tt
  else match queue_of k a with
       | None => raise AttributeError
       | Some q =>
           match PyQueue.put_nowait item q with
           | Some q' => modify (set_queue k q')
           | None => modify (fun a => with_rlog
                       (log_dropped_throttled now (kind_label k) 1 false (a_rlog a)).1 a)
           end
       end.

(** ** Reporter rounds *)

(** [__report_segment] and [__report_log]: the flag keeps the thread working. *)
Definition report_round (k : report_kind) (env : call_env nat) : MA bool :=
  a ← get_st;
  match protocol a, queue_of k a with
  | Some p, Some q =>
      if negb (is_ready p) then mret true
      else if PyQueue.is_empty q then mret false
      else
        let r := report (a_config a) k env p (a_rlog a) q in
        _ ← modify (fun a => set_queue k (b_queue (r_batch r))
              (with_rlog (r_rlog r) (with_protocol (Some (r_proto r)) (open_channels a) a)));
        _ ← lift (r_result r);
        mret true
  | _, _ => raise AttributeError
  end.

(** [__report_meter] and [__send_profile_snapshot] return nothing: always the
    base wait. *)
Definition report_round_quiet (k : report_kind) (env : call_env nat) : MA bool :=
  _ ← report_round k env; mret false.

(** ** Shutdown *)

(** [_abandon_sync_queue] *)
Fixpoint abandon (fuel : nat) (q : queue) : queue * Z :=
  match fuel with
  | O => (q, 0)
  | S fuel' =>
      match PyQueue.get_done q with
      | None => (q, 0)
      | Some (_, q') => let (q'', n) := abandon fuel' q' in (q'', n + 1)
      end
  end.
Definition abandon_sync_queue (q : queue) : queue * Z := abandon (length (PyQueue.items q)) q.

(** [_shutdown_sync_queue]: flush when the protocol may send, abandon the rest,
    then wait for [join], which succeeds when no task is unfinished. *)
Definition shutdown_sync_queue (k : report_kind) (may_send : bool) (env : call_env nat) (q : queue)
  : MA unit :=
  a ← get_st;
  q1 ← (match protocol a with
        | Some p =>
            if may_send && negb (PyQueue.is_empty q) then
              let r := report (a_config a) k env p (a_rlog a) q in
              _ ← modify (fun a => with_rlog (r_rlog r)
                    (with_protocol (Some (r_proto r)) (open_channels a) a));
              mret (b_queue (r_batch r))
            else mret q
        | None => mret q
        end);
  let (q2, abandoned) := abandon_sync_queue q1 in
  _ ← modify (fun a => if abandoned =? 0 then a
        else with_rlog (log_dropped_throttled (e_now env) (kind_label k) abandoned true (a_rlog a)).1 a);
  modify (set_queue k q2).

(** One queue of [__fini], if its reporter is active. *)
Definition fini_queue (may_send : bool) (envs : report_kind -> call_env nat) (k : report_kind)
  : MA unit :=
  a ← get_st;
  if kind_active (a_config a) k then
    match queue_of k a with
    | Some q => shutdown_sync_queue k may_send (envs k) q
    | None => raise AttributeError
    end
  else mret tt.

(** [__fini] *)
Definition fini (envs : report_kind -> call_env nat) : MA unit :=
  a ← get_st;
  if negb (reporting a) then mret tt
  else
    _ ← modify (fun a => with_threads (Some true) (threads a) a);
    match protocol a with
    | None => raise AttributeError
    | Some p =>
        let may_send := is_ready p in
        _ ← for_each [RSegment; RLogData; RSnapshot; RMeter] (fini_queue may_send envs);
        modify (fun a => with_protocol
          (match protocol a with Some (PGrpc g) => Some (PGrpc (grpc_close g)) | p => p end)
          (close_channel (protocol a) (open_channels a)) a)
    end.

(** [stop]: [atexit.unregister] removes every registration. *)
Definition stop_agent (envs : report_kind -> call_env nat) : MA unit :=
  _ ← modify (fun a => with_hooks (at_fork_registered a) false 0 a);
  _ ← fini envs;
  modify (fun a => with_flags false (started_pid a) false a).

(** The reporter threads see the Event set and end. *)
Definition threads_end : MA unit :=
  modify (fun a => match finished a with Some true => with_threads (finished a) [] a | _ => a end).

(** ** The agent as the tracer sees it *)

#[export] Instance Agent_ops : AgentOps Agent := {
  is_segment_queue_full := is_segment_queue_full_agent;
  archive_segment := fun now c a => (archive RSegment now c a).1
}.
