(* ===== verification/AgentProps.v ===== *)
(** * Properties of the agent: backoff, queues, shutdown, lifecycle *)

From S2P Require Import Prelude PyData PyText Config Sampling ReporterLog Trace Report Agent.

(** ** Backoff *)

Lemma next_wait_failed base w : 0 <= w -> 0 < next_wait base w Failed <= 60000000.
Proof. intros Hw. unfold next_wait. destruct (Z.eqb_spec (w * 2) 0); lia. Qed.

(** The retry delay of a reporter doubles with every consecutive failure and is
    capped at a minute: after [n] failures in a row it is [min (60 s, w * 2^n)], where
    [w] is the delay before the first one (half a second when there was none). *)
Theorem backoff_doubles base w n :
  0 <= w -> 0 < n ->
  last (backoff_waits base w (replicate (Z.to_nat n) Failed)) =
    Some (Z.min 60000000 ((if w =? 0 then 500000 else w) * 2 ^ n)).
Proof.
  intros Hw Hn. set (w0 := if w =? 0 then 500000 else w).
  assert (0 < w0) as Hw0 by (subst w0; destruct (Z.eqb_spec w 0); lia).
  assert (next_wait base w Failed = Z.min 60000000 (w0 * 2)) as Hfirst.
  { unfold next_wait. subst w0. destruct (Z.eqb_spec w 0) as [->|]; [done|].
    rewrite (proj2 (Z.eqb_neq (w * 2) 0)) by lia. done. }
  assert (∀ m v, 0 < v -> 0 <= m ->
    last (backoff_waits base (Z.min 60000000 v) (replicate (Z.to_nat (m + 1)) Failed)) =
      Some (Z.min 60000000 (v * 2 ^ (m + 1)))) as Hstep.
  { intros m v Hv Hm. revert v Hv. pattern m. apply natlike_ind; [| |done].
    - intros v Hv. change (Z.to_nat (0 + 1)) with 1%nat. change (2 ^ (0 + 1)) with 2.
      cbn [replicate backoff_waits last]. unfold next_wait.
      rewrite (proj2 (Z.eqb_neq _ 0)) by lia. f_equal. lia.
    - intros k Hk IH v Hv. replace (Z.to_nat (Z.succ k + 1)) with (S (Z.to_nat (k + 1))) by lia.
      cbn [replicate backoff_waits].
      replace (next_wait base (Z.min 60000000 v) Failed) with (Z.min 60000000 (v * 2))
        by (unfold next_wait; rewrite (proj2 (Z.eqb_neq _ 0)) by lia; lia).
      replace (Z.to_nat (k + 1)) with (S (Z.to_nat k)) in * by lia.
      rewrite last_cons. rewrite IH by lia. f_equal. f_equal.
      replace (Z.succ k + 1) with (Z.succ (k + 1)) by lia. rewrite Z.pow_succ_r by lia. lia. }
  destruct (Z.eq_dec n 1) as [->|].
  - change (Z.to_nat 1) with 1%nat. cbn [replicate backoff_waits last]. rewrite Hfirst.
    by rewrite Z.pow_1_r.
  - replace (Z.to_nat n) with (S (Z.to_nat (n - 2 + 1))) by lia. cbn [replicate backoff_waits].
    rewrite last_cons, Hfirst, Hstep by lia. f_equal. f_equal.
    replace n with (Z.succ (n - 2 + 1)) at 2 by lia. rewrite Z.pow_succ_r by lia. lia.
Qed.

Lemma backoff_doubles_witness :
  0 <= 20000 ∧ last (backoff_waits 20000 20000 (replicate 3 Failed)) = Some 160000.
Proof. split; [lia|]. apply (backoff_doubles 20000 20000 3); lia. Defined.

(** Every wait is non-negative and at most the larger of a minute and the base. *)
Lemma backoff_bounded base w rounds :
  0 <= base -> 0 <= w -> Forall (fun x => 0 <= x <= Z.max 60000000 base) (backoff_waits base w rounds).
Proof.
  intros Hb. revert w. induction rounds as [|o rounds IH]; intros w Hw; cbn; constructor.
  - destruct o as [[]|]; cbn; [lia | lia |]. pose proof (next_wait_failed base w Hw) as H.
    cbn in H. lia.
  - apply IH. destruct o as [[]|]; cbn; [lia | lia |].
    pose proof (next_wait_failed base w Hw) as H. cbn in H. lia.
Qed.

(** ** Queues *)

(** C40. Handing an item to a reporting agent either appends it to the bounded queue of
    its kind or, when the queue is full, leaves the queue alone and counts one dropped
    item; the queue never exceeds its bound and no other queue changes. *)
Theorem archive_bounded k now item a q :
  reporting a = true -> queue_of k a = Some q -> PyQueue.wf q ->
  ∃ a' q', archive k now item a = (a', Ok tt) ∧ queue_of k a' = Some q' ∧ PyQueue.wf q' ∧
    (∀ k', k' ≠ k -> queue_of k' a' = queue_of k' a) ∧
    (if PyQueue.full q
     then q' = q ∧ get0 (drop_totals (a_rlog a')) (kind_label k) =
                   get0 (drop_totals (a_rlog a)) (kind_label k) + 1
     else PyQueue.items q' = PyQueue.items q ++ [item] ∧ a_rlog a' = a_rlog a).
Proof.
  intros Hr Hq Hw. unfold archive. erewrite bind_ok by reflexivity. cbv beta.
  rewrite Hr. cbn [negb]. rewrite Hq.
  destruct (PyQueue.put_nowait item q) as [q'|] eqn:E.
  - exists (set_queue k q' a), q'. assert (PyQueue.wf q') by eauto with py.
    unfold PyQueue.put_nowait in E. destruct (PyQueue.full q); [done|]. injection E as <-.
    split_and!; [done | by destruct k | done | intros k' ?; by destruct k, k' | by destruct k..].
  - unfold PyQueue.put_nowait in E. destruct (PyQueue.full q); [|done].
    destruct (log_dropped_throttled now (kind_label k) 1 false (a_rlog a)) as [r line] eqn:El.
    exists (with_rlog r a), q. split_and!; [unfold modify; by rewrite El | by destruct k | done | by intros [] | done |].
    destruct (log_dropped_step _ _ _ _ _ _ _ (kind_label k) El) as (Ht & _). cbn.
    rewrite Ht, decide_True by done. done.
Qed.

(** ** Shutdown *)

Lemma abandon_spec fuel : ∀ q,
  PyQueue.wf q -> (length (PyQueue.items q) <= fuel)%nat ->
  abandon fuel q = (PyQueue.mk (PyQueue.maxsize q) [] (PyQueue.unfinished q - PyQueue.qsize q),
                    PyQueue.qsize q).
Proof.
  induction fuel as [|fuel IH]; intros q Hw Hf; cbn [abandon].
  - destruct q as [m [|] u]; cbn in *; [|lia]. f_equal. f_equal. unfold PyQueue.qsize. cbn. lia.
  - pose proof (PyQueue.get_done_wf q Hw) as Hg. rewrite Hg.
    destruct (PyQueue.items q) as [|x l] eqn:E.
    + destruct q as [m i u]. cbn in *. subst. unfold PyQueue.qsize. cbn. by rewrite Z.sub_0_r.
    + rewrite IH.
      * cbn. unfold PyQueue.qsize. rewrite E. cbn. f_equal; [f_equal|]; lia.
      * eapply PyQueue.wf_get_done; [exact Hw | exact Hg].
      * cbn in *. lia.
Qed.

Lemma abandon_all q :
  PyQueue.wf q ->
  abandon_sync_queue q =
    (PyQueue.mk (PyQueue.maxsize q) [] (PyQueue.unfinished q - PyQueue.qsize q), PyQueue.qsize q).
Proof. intros Hw. by apply abandon_spec. Qed.

(** The flush, when there is one, moves a prefix out of the queue. *)
Lemma shutdown_run k may_send env q a p :
  protocol a = Some p -> PyQueue.wf q ->
  ∃ a' sent acc,
    shutdown_sync_queue k may_send env q a = (a', Ok tt) ∧
    queue_of k a' = Some (PyQueue.mk (PyQueue.maxsize q) []
                            (PyQueue.unfinished q - PyQueue.qsize q)) ∧
    (∀ k', k' ≠ k -> queue_of k' a' = queue_of k' a) ∧
    sent `prefix_of` PyQueue.items q ++ acc ∧
    (may_send = false -> sent = [] ∧ acc = []) ∧
    a_config a' = a_config a ∧ reporting a' = reporting a ∧ is_Some (protocol a').
Proof.
  intros Hp Hw. unfold shutdown_sync_queue. unfold_m. rewrite Hp.
  assert (∀ a1 q1, PyQueue.wf q1 -> PyQueue.maxsize q1 = PyQueue.maxsize q ->
    PyQueue.unfinished q1 - PyQueue.qsize q1 = PyQueue.unfinished q - PyQueue.qsize q ->
    (∀ k', queue_of k' a1 = queue_of k' a) -> a_config a1 = a_config a ->
    reporting a1 = reporting a -> is_Some (protocol a1) ->
    ∃ a', (let (q2, abandoned) := abandon_sync_queue q1 in
      _ ← modify (fun a => if abandoned =? 0 then a
            else with_rlog (log_dropped_throttled (e_now env) (kind_label k) abandoned true (a_rlog a)).1 a);
      modify (set_queue k q2)) a1 = (a', Ok tt) ∧
    queue_of k a' = Some (PyQueue.mk (PyQueue.maxsize q) []
                            (PyQueue.unfinished q - PyQueue.qsize q)) ∧
    (∀ k', k' ≠ k -> queue_of k' a' = queue_of k' a) ∧
    a_config a' = a_config a ∧ reporting a' = reporting a ∧ is_Some (protocol a')) as Hend.
  { intros a1 q1 Hw1 Hm Hu Hk Hc Hr Hpr. rewrite (abandon_all q1 Hw1), Hm, Hu.
    eexists. split; [reflexivity|]. cbn.
    destruct (PyQueue.qsize q1 =? 0); (split_and!; [by destruct k | | by destruct k..]);
      (intros k' Hne; rewrite <- Hk; by destruct k, k'). }
  destruct (may_send && negb (PyQueue.is_empty q)) eqn:Hm; unfold_m.
  - destruct (report_conserves _ (a_config a) k env p (a_rlog a) q Hw) as (Hw1 & Hm1 & Hi & Hu).
    set (r := report (a_config a) k env p (a_rlog a) q) in *.
    destruct (Hend (with_rlog (r_rlog r) (with_protocol (Some (r_proto r)) (open_channels a) a))
      (b_queue (r_batch r))) as (a' & E & Hrest); try done.
    + unfold PyQueue.qsize. apply (f_equal length) in Hi. rewrite !length_app in Hi. lia.
    + exists a', (b_sent (r_batch r)), (b_accepted (r_batch r)).
      destruct Hrest as (? & ? & ? & ? & ?). split_and!; [exact E | done | done | | | done..].
      * rewrite Hi. by apply prefix_app_r.
      * intros ->. done.
  - destruct (Hend a q) as (a' & E & Hrest); try done.
    exists a', [], []. destruct Hrest as (? & ? & ? & ? & ?).
    split_and!; [exact E | done | done | apply prefix_nil | done..].
Qed.

(** A queue after its shutdown: empty, with only in-flight tasks unfinished. *)
Definition drained (q : queue) : queue :=
  PyQueue.mk (PyQueue.maxsize q) [] (PyQueue.unfinished q - PyQueue.qsize q).

Lemma fini_queues may_send envs ks : ∀ a,
  NoDup ks -> is_Some (protocol a) ->
  (∀ k, k ∈ ks -> kind_active (a_config a) k = true -> ∃ q, queue_of k a = Some q ∧ PyQueue.wf q) ->
  ∃ a', for_each ks (fini_queue may_send envs) a = (a', Ok tt) ∧
    a_config a' = a_config a ∧ reporting a' = reporting a ∧ is_Some (protocol a') ∧
    ∀ k, queue_of k a' = if decide (k ∈ ks ∧ kind_active (a_config a) k = true)
                         then drained <$> queue_of k a else queue_of k a.
Proof.
  induction ks as [|k ks IH]; intros a Hnd Hp Hq; cbn [for_each].
  { exists a. by split_and!. }
  apply NoDup_cons in Hnd as [Hk Hnd].
  assert (∃ a1, fini_queue may_send envs k a = (a1, Ok tt) ∧ a_config a1 = a_config a ∧
    reporting a1 = reporting a ∧ is_Some (protocol a1) ∧
    ∀ k', queue_of k' a1 = if decide (k' = k ∧ kind_active (a_config a) k = true)
                           then drained <$> queue_of k' a else queue_of k' a)
    as (a1 & E1 & Hc1 & Hr1 & Hp1 & Hq1).
  { unfold fini_queue. erewrite bind_ok by reflexivity. cbv beta.
    destruct (kind_active (a_config a) k) eqn:Ha.
    - destruct (Hq k ltac:(set_solver) Ha) as (q & Hqk & Hw). rewrite Hqk. destruct Hp as [p Hp].
      destruct (shutdown_run k may_send (envs k) q a p Hp Hw)
        as (a1 & sent & acc & E & Hk1 & Hoth & _ & _ & Hc & Hr & Hp').
      exists a1. split_and!; try done. intros k'. destruct (decide (k' = k)) as [->|Hne].
      + rewrite decide_True by done. by rewrite Hk1, Hqk.
      + rewrite decide_False by naive_solver. by apply Hoth.
    - exists a. split_and!; try done. intros k'. rewrite decide_False; [done|]. naive_solver. }
  rewrite (bind_ok _ _ _ _ _ E1).
  destruct (IH a1 Hnd Hp1) as (a2 & E2 & Hc2 & Hr2 & Hp2 & Hq2).
  { intros k' Hin Ha. rewrite Hc1 in Ha. destruct (Hq k' ltac:(set_solver) Ha) as (q & ? & ?).
    exists q. rewrite Hq1, decide_False by naive_solver. done. }
  exists a2. split_and!; [done | congruence | congruence | done |].
  intros k'. rewrite Hq2, Hq1, Hc1. clear -Hk.
  destruct (decide (k' = k)) as [->|Hne]; repeat case_decide; try done; exfalso; set_solver.
Qed.

(** Attributes shutting down a queue never touches. *)
Lemma fini_queue_frame {X} (f : Agent -> X) may_send envs k :
  (∀ r a, f (with_rlog r a) = f a) -> (∀ p n a, f (with_protocol p n a) = f a) ->
  (∀ k q a, f (set_queue k q a) = f a) -> ∀ x, preserves (fun a => f a = x) (fini_queue may_send envs k).
Proof.
  intros Hr Hp Hq x a Ha. unfold fini_queue, shutdown_sync_queue. unfold_m.
  destruct (kind_active _ _); [|done]. destruct (queue_of _ _); [|done]. unfold_m.
  destruct (protocol a) as [p|]; [destruct (_ && _)|]; unfold_m;
    destruct (abandon_sync_queue _) as [q2 n]; unfold_m;
    destruct (n =? 0); by rewrite Hq, ?Hr, ?Hp.
Qed.


(** ** Lifecycle *)

(** What can happen to the agent of a process, its forked children included. *)
Inductive event :=
| EStart
| EPrefork
| EFork (pid : Z)
| EStop (envs : report_kind -> call_env nat)
| EExit (envs : report_kind -> call_env nat)
| EArchive (k : report_kind) (now : Z) (item : nat)
| EReport (k : report_kind) (env : call_env nat)
| EThreadsEnd.

Definition handle (e : event) : MA unit :=
  match e with
  | EStart => start_agent
  | EPrefork => start_prefork_master
  | EFork pid => fork_child pid
  | EStop envs => stop_agent envs
  | EExit envs => fini envs
  | EArchive k now item => archive k now item
  | EReport k env => _ ← report_round k env; mret tt
  | EThreadsEnd => threads_end
  end.

Inductive alive (cfg : Config) (pid : Z) : Agent -> Prop :=
| alive_new : alive cfg pid (new_agent cfg pid)
| alive_event a e : alive cfg pid a -> alive cfg pid (handle e a).1.

(** The gRPC channels the held protocol has open. *)
Definition channels (p : option AnyProtocol) : Z :=
  match p with Some (PGrpc g) => if channel_open g then 1 else 0 | _ => 0 end.

(** The invariant of a process's agent. *)
Record life (a : Agent) : Prop := {
  life_started : reporting a = true -> a_started a = true;
  life_protocol : reporting a = true -> is_Some (protocol a);
  life_name : agent_protocol (a_config a) ∈ [py "grpc"; py "http"; py "kafka"];
  life_queues : reporting a = true -> ∀ k, kind_active (a_config a) k = true ->
    is_Some (queue_of k a);
  life_wf : ∀ k q, queue_of k a = Some q -> PyQueue.wf q;
  life_hooks : atexit_hooks a = if fini_registered a then 1%nat else 0%nat;
  life_channels : open_channels a = channels (protocol a)
}.

(** Events that leave lifecycle flags, configuration and hooks alone. *)
Record keeps (a a' : Agent) : Prop := {
  kp_reporting : reporting a' = reporting a;
  kp_started : a_started a' = a_started a;
  kp_config : a_config a' = a_config a;
  kp_protocol : is_Some (protocol a) -> is_Some (protocol a');
  kp_queues : ∀ k, is_Some (queue_of k a) -> is_Some (queue_of k a');
  kp_wf : (∀ k q, queue_of k a = Some q -> PyQueue.wf q) ->
          ∀ k q, queue_of k a' = Some q -> PyQueue.wf q;
  kp_hooks : atexit_hooks a' = atexit_hooks a ∧ fini_registered a' = fini_registered a;
  kp_channels : open_channels a = channels (protocol a) ->
                open_channels a' = channels (protocol a')
}.

Lemma keeps_life a a' : keeps a a' -> life a -> life a'.
Proof.
  intros [Kr Ks Kc Kp Kq Kw [Kh Kf] Kn] [Ls Lp Ln Lq Lw Lh Lc]. split.
  - by rewrite Kr, Ks.
  - rewrite Kr. intros Hr. by apply Kp, Lp.
  - by rewrite Kc.
  - rewrite Kr, Kc. intros Hr k Hk. by apply Kq, Lq.
  - by apply Kw.
  - by rewrite Kh, Kf.
  - by apply Kn.
Qed.

Lemma keeps_refl a : keeps a a.
Proof. by split. Qed.

Lemma keeps_trans a b c : keeps a b -> keeps b c -> keeps a c.
Proof.
  intros [] []. split; try congruence; auto; try (intuition congruence).
Qed.

Lemma keeps_rlog r a : keeps a (with_rlog r a).
Proof. split; try done; by intros ? []. Qed.

Lemma keeps_threads f ts a : keeps a (with_threads f ts a).
Proof. split; try done; by intros ? []. Qed.

Lemma keeps_set_queue k q a :
  (∀ q0, queue_of k a = Some q0 -> PyQueue.wf q0 -> PyQueue.wf q) -> is_Some (queue_of k a) ->
  keeps a (set_queue k q a).
Proof.
  intros Hq [q0 Hq0]. split; try (by destruct k).
  - intros k'. destruct (decide (k' = k)) as [->|Hne]; [by destruct k | by destruct k, k'].
  - intros Hw k' q' Hq'. destruct (decide (k' = k)) as [->|Hne].
    + assert (q' = q) as -> by (by destruct k; injection Hq'). by eapply Hq, Hw.
    + apply (Hw k'). by destruct k, k'.
Qed.

(** A report leaves as many channels open as it found. *)
Lemma report_channels {A} cfg k (env : call_env A) p rl q :
  channels (Some (r_proto (report cfg k env p rl q))) = channels (Some p).
Proof.
  destruct p as [g|h|h]; cbn.
  - unfold grpc_report. destruct (grpc_is_ready g); [|done]. cbn. destruct (e_rpc env); [done|].
    cbn. unfold handle_rpc_error. by destruct (is_auth_rpc_error s).
  - unfold http_report. by destruct k.
  - unfold kafka_report. by destruct k.
Qed.

Lemma keeps_protocol p a :
  channels (Some p) = channels (protocol a) -> keeps a (with_protocol (Some p) (open_channels a) a).
Proof.
  intros Hp. split; try done. intros H. cbn [with_protocol open_channels protocol]. congruence.
Qed.

Lemma keeps_archive k now item a : life a -> keeps a (archive k now item a).1.
Proof.
  intros L. unfold archive. unfold_m. destruct (reporting a); cbn [negb]; [|apply keeps_refl].
  destruct (queue_of k a) as [q|] eqn:Hq; [|apply keeps_refl].
  destruct (PyQueue.put_nowait item q) as [q'|] eqn:E; [|apply keeps_rlog].
  apply keeps_set_queue; [|by rewrite Hq]. intros q0 H0 Hw. simplify_eq. eauto with py.
Qed.

Lemma keeps_reported a k env p q :
  protocol a = Some p -> queue_of k a = Some q -> PyQueue.wf q ->
  let r := report (a_config a) k env p (a_rlog a) q in
  keeps a (set_queue k (b_queue (r_batch r))
    (with_rlog (r_rlog r) (with_protocol (Some (r_proto r)) (open_channels a) a))).
Proof.
  intros Hp Hq Hw r. eapply keeps_trans; [|apply keeps_set_queue].
  - eapply keeps_trans; [|apply keeps_rlog]. apply keeps_protocol. rewrite Hp. apply report_channels.
  - intros q0 _ _. by apply report_conserves.
  - exists q. by destruct k.
Qed.

Lemma keeps_report k env a : life a -> keeps a (report_round k env a).1.
Proof.
  intros L. unfold report_round. erewrite bind_ok by reflexivity. cbv beta.
  destruct (protocol a) as [p|] eqn:Hp; [|apply keeps_refl].
  destruct (queue_of k a) as [q|] eqn:Hq; [|apply keeps_refl].
  destruct (negb (is_ready p)); [apply keeps_refl|].
  destruct (PyQueue.is_empty q); [apply keeps_refl|].
  pose proof (keeps_reported a k env p q Hp Hq (life_wf a L k q Hq)) as H.
  cbv zeta in *. erewrite bind_ok by reflexivity. unfold mbind, M_bind, lift.
  destruct (r_result _); exact H.
Qed.

Lemma keeps_shutdown k may_send env q a :
  life a -> queue_of k a = Some q -> keeps a (shutdown_sync_queue k may_send env q a).1.
Proof.
  intros L Hq. pose proof (life_wf a L k q Hq) as Hw. unfold shutdown_sync_queue.
  assert (∀ a1 q1, keeps a a1 -> PyQueue.wf q1 -> is_Some (queue_of k a1) ->
    keeps a ((let (q2, abandoned) := abandon_sync_queue q1 in
      _ ← modify (fun a => if abandoned =? 0 then a
            else with_rlog (log_dropped_throttled (e_now env) (kind_label k) abandoned true (a_rlog a)).1 a);
      modify (set_queue k q2)) a1).1) as Hend.
  { intros a1 q1 K1 Hw1 H1. rewrite (abandon_all q1 Hw1). erewrite bind_ok by reflexivity. cbn [fst modify].
    set (a2 := if PyQueue.qsize q1 =? 0 then a1 else _).
    assert (keeps a1 a2) as K2 by (subst a2; destruct (_ =? 0); [apply keeps_refl | apply keeps_rlog]).
    eapply keeps_trans; [exact K1|]. eapply keeps_trans; [exact K2|]. apply keeps_set_queue.
    - intros _ _ _. destruct Hw1 as [Hm Hu]. unfold PyQueue.wf, PyQueue.qsize. cbn.
      unfold PyQueue.qsize in *. lia.
    - by apply (kp_queues _ _ K2). }
  erewrite bind_ok by reflexivity. cbv beta. destruct (protocol a) as [p|] eqn:Hp.
  - destruct (may_send && negb (PyQueue.is_empty q)).
    + set (r := report (a_config a) k env p (a_rlog a) q).
      erewrite bind_ok by (erewrite bind_ok by reflexivity; reflexivity).
      apply Hend; [|by apply report_conserves | exists q; by destruct k].
      eapply keeps_trans; [|apply keeps_rlog]. apply keeps_protocol. rewrite Hp. apply report_channels.
    + erewrite bind_ok by reflexivity. apply Hend; [apply keeps_refl | done | by rewrite Hq].
  - erewrite bind_ok by reflexivity. apply Hend; [apply keeps_refl | done | by rewrite Hq].
Qed.

Lemma keeps_fini_queue may_send envs k a :
  life a -> keeps a (fini_queue may_send envs k a).1.
Proof.
  intros L. unfold fini_queue. erewrite bind_ok by reflexivity. cbv beta.
  destruct (kind_active _ k); [|apply keeps_refl].
  destruct (queue_of k a) as [q|] eqn:Hq; [by apply keeps_shutdown | apply keeps_refl].
Qed.

Lemma fini_life envs a : life a -> life (fini envs a).1.
Proof.
  intros L. unfold fini. erewrite bind_ok by reflexivity. cbv beta.
  destruct (reporting a) eqn:Hr; cbn [negb]; [|done]. erewrite bind_ok by reflexivity.
  set (a1 := with_threads _ _ a).
  assert (life a1) as L1 by (eapply keeps_life; [apply keeps_threads | done]).
  destruct (protocol a) as [p|] eqn:Hp; [|done]. cbv zeta.
  apply (preserves_bind life); [| |exact L1].
  - apply preserves_for. intros k _ a2 L2. eapply keeps_life; [by apply keeps_fini_queue | done].
  - intros _. apply preserves_modify. intros a2 [Ls Lp Ln Lq Lw Lh Lc]. split; try done.
    + intros Hr2. destruct (Lp Hr2) as [[g|h|h] ->]; by eexists.
    + cbn. rewrite Lc. destruct (protocol a2) as [[g|h|h]|]; cbn; try done.
      destruct (channel_open g); done.
Qed.

(** Configuration changes keep the protocol and, on an idle agent, the invariant. *)
Lemma finalize_protocol c : agent_protocol (finalize c) = agent_protocol c.
Proof.
  unfold finalize, finalize_name, finalize_regex, finalize_feature. cbn.
  destruct (_ && _); [done|]. by destruct (_ && _).
Qed.

Lemma instrument_life a :
  life a -> reporting a = false -> life (init_instrumentation a).1 ∧
    reporting (init_instrumentation a).1 = false ∧ a_started (init_instrumentation a).1 = true.
Proof.
  intros [Ls Lp Ln Lq Lw Lh Lc] Hr. split; [|done].
  split; try done; cbn [init_instrumentation]; try (intros H; change (reporting a = true) in H; congruence).
  change (agent_protocol (finalize (a_config a)) ∈ [py "grpc"; py "http"; py "kafka"]).
  by rewrite finalize_protocol.
Qed.

(** The protocol object [bootstrap] builds. *)
Definition protocol_for (name : pystr) (old : option AnyProtocol) : option AnyProtocol :=
  if decide (name = py "grpc") then Some (PGrpc (new_Grpc (mkChannelLog 0 ∅)))
  else if decide (name = py "http") then Some (PHttp (mkHttp false 0))
  else if decide (name = py "kafka") then Some (PKafka (mkKafka 0)) else old.

(** What a completed start has set up. *)
Record running (a a' : Agent) : Prop := {
  run_reporting : reporting a' = true;
  run_started : a_started a' = a_started a;
  run_pid : started_pid a' = Some (a_pid a) ∧ a_pid a' = a_pid a;
  run_config : a_config a' = a_config a;
  run_queues : ∀ k, queue_of k a' =
    if kind_active (a_config a) k
    then Some (PyQueue.empty_queue (match k with
                 | RSegment => agent_trace_reporter_max_buffer_size (a_config a)
                 | RLogData => agent_log_reporter_max_buffer_size (a_config a)
                 | RMeter => agent_meter_reporter_max_buffer_size (a_config a)
                 | RSnapshot => agent_profile_snapshot_transport_buffer_size (a_config a) end))
    else None;
  run_threads : threads a' = threads a ++ thread_names (a_config a) ∧ finished a' = Some false;
  run_protocol : protocol a' = protocol_for (agent_protocol (a_config a)) (protocol a);
  run_hooks : fini_registered a' = true ∧
    atexit_hooks a' = (if fini_registered a then atexit_hooks a else S (atexit_hooks a));
  run_channels : agent_protocol (a_config a) ∈ [py "grpc"; py "http"; py "kafka"] ->
    open_channels a = channels (protocol a) -> open_channels a' = channels (protocol a')
}.

(** [bootstrap] as a function. *)
Definition bootstrapped (a : Agent) : Agent := (bootstrap a).1.

Lemma bootstrap_total a : bootstrap a = (bootstrapped a, Ok tt).
Proof. done. Qed.

Lemma bootstrap_facts a :
  let a' := bootstrapped a in
  reporting a' = true ∧ a_started a' = a_started a ∧ started_pid a' = started_pid a ∧
  a_pid a' = a_pid a ∧ a_config a' = a_config a ∧
  threads a' = threads a ++ thread_names (a_config a) ∧ finished a' = Some false ∧
  fini_registered a' = fini_registered a ∧ atexit_hooks a' = atexit_hooks a ∧
  at_fork_registered a' = at_fork_registered a ∧
  protocol a' = protocol_for (agent_protocol (a_config a)) (protocol a).
Proof.
  unfold bootstrapped, bootstrap, init_queues, open_protocol, init_threading, protocol_for,
    mbind, M_bind, modify. cbn [a_config with_queues].
  destruct (decide (agent_protocol (a_config a) = py "grpc")); [done|]. destruct (decide (agent_protocol (a_config a) = py "http")); [done|].
  by destruct (decide (agent_protocol (a_config a) = py "kafka")).
Qed.

Lemma bootstrap_queues a k :
  queue_of k (bootstrapped a) =
    if kind_active (a_config a) k
    then Some (PyQueue.empty_queue (match k with
                 | RSegment => agent_trace_reporter_max_buffer_size (a_config a)
                 | RLogData => agent_log_reporter_max_buffer_size (a_config a)
                 | RMeter => agent_meter_reporter_max_buffer_size (a_config a)
                 | RSnapshot => agent_profile_snapshot_transport_buffer_size (a_config a) end))
    else None.
Proof.
  unfold bootstrapped, bootstrap, init_queues, open_protocol, init_threading,
    mbind, M_bind, modify. cbn [a_config with_queues].
  destruct (decide (agent_protocol (a_config a) = py "grpc")); [by destruct k|].
  destruct (decide (agent_protocol (a_config a) = py "http")); [by destruct k|].
  destruct (decide (agent_protocol (a_config a) = py "kafka")); by destruct k.
Qed.

Lemma bootstrap_channels a :
  agent_protocol (a_config a) ∈ [py "grpc"; py "http"; py "kafka"] ->
  open_channels a = channels (protocol a) ->
  open_channels (bootstrapped a) = channels (protocol (bootstrapped a)).
Proof.
  intros Hn Hc. unfold bootstrapped, bootstrap, init_queues, open_protocol, init_threading,
    mbind, M_bind, modify. cbn [a_config with_queues].
  assert (close_channel (protocol a) (open_channels a) = 0) as Hz.
  { rewrite Hc. unfold close_channel, channels. by destruct (protocol a) as [[g|h|h]|]; [destruct (channel_open g)|..]. }
  destruct (decide (agent_protocol (a_config a) = py "grpc")); [cbn; by rewrite Hz|].
  destruct (decide (agent_protocol (a_config a) = py "http")); [cbn; by rewrite Hz|].
  destruct (decide (agent_protocol (a_config a) = py "kafka")); [cbn; by rewrite Hz | set_solver].
Qed.

Lemma start_body_running a : ∃ a', start_body a = (a', Ok tt) ∧ running a a'.
Proof.
  set (a1 := with_flags (a_started a) (Some (a_pid a)) (reporting a) a).
  set (a2 := if 0 <? sample_n_per_3_secs (a_config a1)
             then with_services (installs a1) (Sampling.init true (a_sampling a1)) a1 else a1).
  set (a3 := bootstrapped a2).
  set (a4 := if fini_registered a3 then a3
             else with_hooks (at_fork_registered a3) true (S (atexit_hooks a3)) a3).
  set (a5 := if agent_experimental_fork_support (a_config a4)
             then if at_fork_registered a4 then a4
                  else with_hooks true (fini_registered a4) (atexit_hooks a4) a4 else a4).
  assert (start_body a = (a5, Ok tt)) as E.
  { unfold start_body. do 2 (erewrite bind_ok by reflexivity).
    rewrite (bind_ok _ _ _ _ _ (bootstrap_total _)). do 2 (erewrite bind_ok by reflexivity).
    cbv beta. fold a1 a2 a3 a4. subst a5. by destruct (agent_experimental_fork_support _). }
  exists a5. split; [done|].
  assert (∀ k, a_config a2 = a_config a ∧ a_started a2 = a_started a ∧ a_pid a2 = a_pid a ∧
    started_pid a2 = Some (a_pid a) ∧ threads a2 = threads a ∧ protocol a2 = protocol a ∧
    fini_registered a2 = fini_registered a ∧ atexit_hooks a2 = atexit_hooks a ∧
    open_channels a2 = open_channels a ∧ queue_of k a2 = queue_of k a) as H2.
  { intros k. subst a2. destruct (0 <? _); by destruct k. }
  assert (∀ k, a_config a5 = a_config a3 ∧ a_started a5 = a_started a3 ∧ a_pid a5 = a_pid a3 ∧
    started_pid a5 = started_pid a3 ∧ threads a5 = threads a3 ∧ protocol a5 = protocol a3 ∧
    finished a5 = finished a3 ∧ reporting a5 = reporting a3 ∧ fini_registered a5 = true ∧
    atexit_hooks a5 = (if fini_registered a3 then atexit_hooks a3 else S (atexit_hooks a3)) ∧
    open_channels a5 = open_channels a3 ∧ queue_of k a5 = queue_of k a3) as H5.
  { intros k. subst a5 a4. destruct (fini_registered a3) eqn:Ef;
      (destruct (agent_experimental_fork_support _); [destruct (at_fork_registered _)|]); by destruct k. }
  destruct (H2 RSegment) as (C2 & S2 & P2 & T2 & Th2 & Pr2 & F2 & A2 & O2 & _).
  destruct (H5 RSegment) as (C5 & S5 & P5 & T5 & Th5 & Pr5 & Fi5 & R5 & F5 & A5 & O5 & _).
  destruct (bootstrap_facts a2) as (R3 & S3 & T3 & P3 & C3 & Th3 & Fi3 & F3 & A3 & _ & Pr3).
  fold a3 in R3, S3, T3, P3, C3, Th3, Fi3, F3, A3, Pr3. split.
  - congruence.
  - congruence.
  - split; congruence.
  - congruence.
  - intros k. destruct (H5 k) as (_ & _ & _ & _ & _ & _ & _ & _ & _ & _ & _ & ->).
    subst a3. rewrite bootstrap_queues. by rewrite C2.
  - split; congruence.
  - congruence.
  - split; [done | by rewrite A5, F3, F2, A3, A2].
  - intros Hn Hc. rewrite O5, Pr5. apply bootstrap_channels; congruence.
Qed.

Lemma running_life a a' :
  running a a' -> life a -> a_started a = true -> life a'.
Proof.
  intros [Rr Rs [Rp _] Rc Rq Rt Rpr [Rf Rh] Rch] L Hst. split.
  - by rewrite Rs.
  - intros _. rewrite Rpr. unfold protocol_for. pose proof (life_name a L) as Hn.
    repeat (case_decide; [by eexists|]). set_solver.
  - rewrite Rc. apply (life_name a L).
  - intros _ k Hk. rewrite Rc in Hk. rewrite Rq, Hk. by eexists.
  - intros k q Hq. rewrite Rq in Hq. destruct (kind_active _ k); [|done]. injection Hq as <-.
    apply PyQueue.wf_empty.
  - rewrite Rf, Rh. pose proof (life_hooks a L). destruct (fini_registered a); lia.
  - apply Rch; apply L.
Qed.

(** [start] is the check, then [start_body]. *)
Lemma start_split a :
  start_agent a = (if a_started a
                   then if decide (started_pid a = Some (a_pid a)) then (a, Raise RuntimeError)
                        else start_body a
                   else start_body (init_instrumentation a).1).
Proof.
  unfold start_agent. erewrite bind_ok by reflexivity. cbv beta.
  destruct (a_started a); cbn [negb].
  - case_decide; [by rewrite (bind_raise _ _ a a RuntimeError) | by rewrite (bind_ok _ _ a a tt)].
  - by rewrite (bind_ok _ _ a (init_instrumentation a).1 tt) by reflexivity.
Qed.

Lemma start_life a : life a -> life (start_agent a).1.
Proof.
  intros L. rewrite start_split. destruct (a_started a) eqn:Hs.
  - case_decide; [done|]. destruct (start_body_running a) as (a' & -> & R). cbn.
    by eapply running_life.
  - assert (reporting a = false) as Hr.
    { destruct (reporting a) eqn:Hr; [|done]. apply (life_started a L) in Hr. congruence. }
    destruct (instrument_life a L Hr) as (L1 & _ & Hs1).
    destruct (start_body_running (init_instrumentation a).1) as (a' & -> & R). cbn.
    by eapply running_life.
Qed.

Lemma prefork_life a : life a -> life (start_prefork_master a).1.
Proof.
  intros L. unfold start_prefork_master. erewrite bind_ok by reflexivity. cbv beta.
  assert (∃ a1, (if negb (a_started a) then init_instrumentation else mret tt) a = (a1, Ok tt) ∧
    life a1) as (a1 & E1 & L1).
  { destruct (a_started a) eqn:Hs; cbn [negb]; [by exists a|].
    assert (reporting a = false) as Hr.
    { destruct (reporting a) eqn:Hr; [|done]. apply (life_started a L) in Hr. congruence. }
    eexists. split; [reflexivity|]. by apply instrument_life. }
  rewrite (bind_ok _ _ _ _ _ E1). do 2 (erewrite bind_ok by reflexivity). cbv beta.
  set (a2 := with_flags _ _ _ a1). assert (life a2) as L2 by (destruct L1; by split).
  destruct (agent_experimental_fork_support _); [|done]. unfold register_fork_hooks, modify. cbn [fst].
  destruct (at_fork_registered a2); [done|]. destruct L2; by split.
Qed.

Lemma fork_life pid a : life a -> life (fork_child pid a).1.
Proof.
  intros L. unfold fork_child. do 2 (erewrite bind_ok by reflexivity). cbv beta.
  set (a1 := with_threads _ _ _). assert (life a1) as L1 by (destruct L; by split).
  destruct (at_fork_registered a1); [|done]. unfold fork_after_in_child.
  erewrite bind_ok by reflexivity. apply start_life. destruct L1; by split.
Qed.

Lemma stop_life envs a : life a -> life (stop_agent envs a).1.
Proof.
  intros L. unfold stop_agent. erewrite bind_ok by reflexivity.
  set (a1 := with_hooks _ _ _ a). assert (life a1) as L1 by (destruct L; by split).
  pose proof (fini_life envs a1 L1) as L2. unfold mbind, M_bind.
  destruct (fini envs a1) as [a2 [u|e]]; cbn in *; [|done]. destruct L2; by split.
Qed.

Lemma alive_life (cfg : Config) pid a :
  agent_protocol cfg ∈ [py "grpc"; py "http"; py "kafka"] -> alive cfg pid a -> life a.
Proof.
  intros Hn. induction 1 as [|a e _ L].
  - split; try done. by intros [].
  - destruct e; cbn [handle].
    + by apply start_life.
    + by apply prefork_life.
    + by apply fork_life.
    + by apply stop_life.
    + by apply fini_life.
    + eapply keeps_life; [by apply keeps_archive | done].
    + pose proof (keeps_report k env a L) as K. unfold mbind, M_bind.
      destruct (report_round k env a) as [a' [b|e]]; eapply keeps_life; done.
    + unfold threads_end, modify. cbn. destruct (finished a) as [[]|]; [|done..].
      eapply keeps_life; [apply keeps_threads | done].
Qed.

(** C21. In every history of an agent (starts, pre-fork masters, forks, stops, exits,
    traffic and report rounds, in any order): reporting implies started, with a
    protocol and a queue for every active kind; every queue respects its bound and its
    task count; [__fini] is registered at most once; and at most one gRPC channel is
    open, that of the current protocol. *)
Theorem agent_lifecycle (cfg : Config) pid a :
  agent_protocol cfg ∈ [py "grpc"; py "http"; py "kafka"] -> alive cfg pid a ->
  (reporting a = true ->
     a_started a = true ∧ is_Some (protocol a) ∧
     ∀ k, kind_active (a_config a) k = true -> is_Some (queue_of k a)) ∧
  (∀ k q, queue_of k a = Some q ->
     (0 < PyQueue.maxsize q -> PyQueue.qsize q <= PyQueue.maxsize q) ∧
     PyQueue.qsize q <= PyQueue.unfinished q) ∧
  (atexit_hooks a <= 1)%nat ∧ open_channels a = channels (protocol a) ∧ 0 <= open_channels a <= 1.
Proof.
  intros Hn Ha. destruct (alive_life cfg pid a Hn Ha) as [Ls Lp _ Lq Lw Lh Lc].
  split_and!; [auto | apply Lw | rewrite Lh; by destruct (fini_registered a); lia | done |..];
    rewrite Lc; unfold channels; destruct (protocol a) as [[g|h|h]|]; try destruct (channel_open g); lia.
Qed.

(** A second [start] in the same process is refused: it raises [RuntimeError] and
    leaves the running agent exactly as it was. *)
Theorem second_start_refused a a' :
  start_agent a = (a', Ok tt) -> start_agent a' = (a', Raise RuntimeError).
Proof.
  intros H. assert (a_started a' = true ∧ started_pid a' = Some (a_pid a')) as [Hs Hp].
  { rewrite start_split in H. destruct (a_started a) eqn:Hs.
    - case_decide; [done|]. destruct (start_body_running a) as (b & E & R).
      rewrite E in H. injection H as <-. destruct (run_pid _ _ R) as [-> ->].
      by rewrite (run_started _ _ R).
    - destruct (start_body_running (init_instrumentation a).1) as (b & E & R).
      rewrite E in H. injection H as <-. destruct (run_pid _ _ R) as [-> ->].
      by rewrite (run_started _ _ R). }
  by rewrite start_split, Hs, decide_True.
Qed.

(** A forked child restarts cleanly: when the fork hooks are armed, the child
    reports under its own instance name, with fresh empty queues (nothing the parent
    had queued is reported twice), exactly the reporter threads the configuration asks
    for, and without installing the instrumentation a second time. *)
Theorem forked_child_restarts a pid :
  a_started a = true -> at_fork_registered a = true -> started_pid a ≠ Some pid ->
  ∃ a', fork_child pid a = (a', Ok tt) ∧ reporting a' = true ∧ started_pid a' = Some pid ∧
    agent_instance_name (a_config a') =
      agent_instance_name (a_config a) ++ py "-child(" ++ str_of_int pid ++ py ")" ∧
    threads a' = thread_names (a_config a) ∧
    (∀ k q, queue_of k a' = Some q -> PyQueue.items q = [] ∧ PyQueue.unfinished q = 0) ∧
    (∀ k, is_Some (queue_of k a') <-> kind_active (a_config a) k = true).
Proof.
  intros Hs Hf Hp. unfold fork_child. do 2 (erewrite bind_ok by reflexivity). cbv beta.
  set (a1 := with_threads _ _ _). change (at_fork_registered a1) with (at_fork_registered a).
  rewrite Hf. unfold fork_after_in_child. erewrite bind_ok by reflexivity.
  set (a2 := with_config _ a1). rewrite start_split.
  change (a_started a2) with (a_started a). rewrite Hs.
  change (started_pid a2) with (started_pid a). change (a_pid a2) with pid.
  rewrite decide_False by done. destruct (start_body_running a2) as (a' & E & R). exists a'.
  destruct R as [Rr _ [Rp _] Rc Rq [Rt _] _ _ _]. rewrite Rp, Rc, Rt.
  split_and!; try done.
  - intros k q Hq. rewrite Rq in Hq. destruct (kind_active _ k); [|done]. by injection Hq as <-.
  - intros k. rewrite Rq. change (kind_active (a_config a2) k) with (kind_active (a_config a) k).
    destruct (kind_active (a_config a) k).
    + split; [done|]. intros _. by eexists.
    + split; [by intros [? [=]] | done].
Qed.

(** A pre-fork master only instruments: it opens no channel, starts no thread and
    no reporter, answers that its segment queue is full, and silently ignores items. *)
Theorem prefork_master_is_quiet (cfg : Config) pid :
  let a := (start_prefork_master (new_agent cfg pid)).1 in
  reporting a = false ∧ installs a = 1%nat ∧ threads a = [] ∧ protocol a = None ∧
  open_channels a = 0 ∧ is_segment_queue_full a = true ∧
  ∀ k now item, archive k now item a = (a, Ok tt).
Proof.
  unfold start_prefork_master. erewrite bind_ok by reflexivity. cbv beta. cbn [negb new_agent a_started].
  erewrite bind_ok by reflexivity. do 2 (erewrite bind_ok by reflexivity). cbv beta.
  unfold register_fork_hooks, modify, mret, M_ret.
  destruct (agent_experimental_fork_support _); by split_and!.
Qed.

Lemma stop_config envs a : a_config (stop_agent envs a).1 = a_config a.
Proof.
  assert (preserves (fun b => a_config b = a_config a) (stop_agent envs)) as H; [|by apply H].
  unfold stop_agent. apply preserves_bind; [by apply preserves_modify|]. intros _.
  apply preserves_bind; [|intros _; by apply preserves_modify].
  intros b Hb. unfold fini. erewrite bind_ok by reflexivity. cbv beta.
  destruct (negb (reporting b)); [done|]. erewrite bind_ok by reflexivity.
  destruct (protocol b); [|done]. cbv zeta.
  apply (preserves_bind (fun b => a_config b = a_config a)); [| |done].
  - apply preserves_for. intros k _. apply fini_queue_frame; try done. by intros [].
  - intros _. by apply preserves_modify.
Qed.

(** Stopping an agent and starting it again finalizes the configuration a second
    time, although it must be finalized exactly once: with a namespace set, the service
    is then reported under a name that carries the namespace twice. *)
Theorem restart_finalizes_twice (cfg : Config) pid envs a1 a2 a3 :
  agent_namespace cfg ≠ [] ->
  start_agent (new_agent cfg pid) = (a1, Ok tt) -> stop_agent envs a1 = (a2, Ok tt) ->
  start_agent a2 = (a3, Ok tt) ->
  agent_name (a_config a3) =
    agent_name cfg ++ [124] ++ agent_namespace cfg ++ [124] ++ agent_namespace cfg.
Proof.
  intros Hns H1 H2 H3.
  assert (a_config a2 = a_config a1) as Hc.
  { change a2 with (a2, Ok tt : res unit).1. rewrite <- H2. apply stop_config. }
  assert (∀ a b, a_started a = false -> start_agent a = (b, Ok tt) ->
    a_config b = finalize (a_config a)) as Hstart.
  { intros a b Hs H. rewrite start_split, Hs in H.
    destruct (start_body_running (init_instrumentation a).1) as (b' & E & R).
    rewrite E in H. injection H as <-. by rewrite (run_config _ _ R). }
  assert (a_started a2 = false) as Hs2.
  { unfold stop_agent in H2. inv_bind H2. inv_bind H2. injection H2 as <-. done. }
  rewrite (Hstart _ _ Hs2 H3), Hc, (Hstart (new_agent cfg pid) _ eq_refl H1).
  assert (∀ c : Config, agent_namespace c ≠ [] -> agent_name (finalize c) = agent_name c ++ [124] ++ agent_namespace c
     ∧ agent_namespace (finalize c) = agent_namespace c) as Hfin.
  { intros c Hc'. unfold finalize, finalize_name, finalize_regex, finalize_feature. cbn.
    destruct (_ && _); [cbn; by rewrite decide_False|].
    destruct (_ && _); cbn; by rewrite decide_False. }
  destruct (Hfin cfg Hns) as [E1 E2]. destruct (Hfin (finalize cfg)) as [E3 _].
  { by rewrite E2. }
  change (a_config (new_agent cfg pid)) with cfg. rewrite E3, E1, E2. by rewrite <- !app_assoc.
Qed.

(** *** Witnesses: an agent started with the default configuration *)

Definition demo_agent : Agent := (start_agent (new_agent default_config 7)).1.
Definition demo_envs (_ : report_kind) : call_env nat := mkEnv [] RpcOk 0.
Definition demo_segments : PyQueue.t nat := default (PyQueue.empty_queue 0) (queue_of RSegment demo_agent).

Lemma archive_bounded_witness :
  ∃ a' q', archive RSegment 5 42%nat demo_agent = (a', Ok tt) ∧ queue_of RSegment a' = Some q' ∧
    PyQueue.wf q' ∧ (∀ k', k' ≠ RSegment -> queue_of k' a' = queue_of k' demo_agent) ∧
    (if PyQueue.full demo_segments
     then q' = demo_segments ∧ get0 (drop_totals (a_rlog a')) (kind_label RSegment) =
                   get0 (drop_totals (a_rlog demo_agent)) (kind_label RSegment) + 1
     else PyQueue.items q' = PyQueue.items demo_segments ++ [42%nat] ∧ a_rlog a' = a_rlog demo_agent).
Proof.
  apply archive_bounded; [vm_compute; reflexivity | vm_compute; reflexivity |].
  vm_compute. split; intros; discriminate.
Defined.

(** The agent of the next witnesses has a segment waiting. *)
Definition busy_agent : Agent := (archive RSegment 5 42%nat demo_agent).1.


Lemma agent_lifecycle_witness :
  let a := (handle (EFork 8) (handle (EArchive RSegment 5 42%nat)
              (handle EStart (new_agent default_config 7)).1).1).1 in
  (atexit_hooks a <= 1)%nat ∧ open_channels a = channels (protocol a) ∧ 0 <= open_channels a <= 1.
Proof.
  intros a.
  assert (agent_protocol default_config ∈ [py "grpc"; py "http"; py "kafka"]) as Hp.
  { apply (bool_decide_unpack _). vm_compute. exact I. }
  assert (alive default_config 7 a) as Ha.
  { do 3 apply alive_event. apply alive_new. }
  exact (proj2 (proj2 (agent_lifecycle default_config 7 a Hp Ha))).
Defined.

Lemma second_start_refused_witness : start_agent demo_agent = (demo_agent, Raise RuntimeError).
Proof. apply (second_start_refused (new_agent default_config 7) demo_agent). vm_compute. reflexivity. Defined.

(** With the experimental fork support on, the child of a busy agent starts afresh. *)
Definition forking_agent : Agent := with_hooks true true 1 busy_agent.

Lemma forked_child_restarts_witness :
  ∃ a', fork_child 8 forking_agent = (a', Ok tt) ∧ reporting a' = true ∧ started_pid a' = Some 8 ∧
    agent_instance_name (a_config a') =
      agent_instance_name (a_config forking_agent) ++ py "-child(" ++ str_of_int 8 ++ py ")" ∧
    threads a' = thread_names (a_config forking_agent) ∧
    (∀ k q, queue_of k a' = Some q -> PyQueue.items q = [] ∧ PyQueue.unfinished q = 0) ∧
    (∀ k, is_Some (queue_of k a') <-> kind_active (a_config forking_agent) k = true).
Proof.
  apply (forked_child_restarts forking_agent 8); [vm_compute; reflexivity | vm_compute; reflexivity |].
  vm_compute. discriminate.
Defined.

(** Started, stopped and started again in namespace "ns". *)
Definition ns_config : Config :=
  from_ok (load (fun k => if decide (k = py "SW_AGENT_NAMESPACE") then Some (py "ns") else None)
             (py "1b9d6bcd")) eq_refl.

Lemma restart_finalizes_twice_witness :
  let a1 := (start_agent (new_agent ns_config 7)).1 in
  let a3 := (start_agent (stop_agent demo_envs a1).1).1 in
  agent_name (a_config a3) =
    agent_name ns_config ++ [124] ++ agent_namespace ns_config ++ [124] ++ agent_namespace ns_config.
Proof.
  intros a1 a3. apply (restart_finalizes_twice ns_config 7 demo_envs a1 (stop_agent demo_envs a1).1 a3);
    first [vm_compute; reflexivity | vm_compute; discriminate].
Defined.
