(* ===== verification/GrpcChannel.v ===== *)
(** * Collector addresses and channel targets: utils/grpc_channel.py

    Parsing of [SW_AGENT_COLLECTOR_BACKEND_SERVICES], expansion of hostnames and
    encoding of the endpoint list for gRPC.  Name resolution is an oracle: the
    outcome of [socket.getaddrinfo] for a host and a port, [None] when the lookup
    fails or times out.  Building the channel object itself is grpcio's. *)

From S2P Require Import Prelude PyData PyText Carrier Config.

(** ** ipaddress.ip_address *)

Definition is_hex (c : Z) : bool :=
  ((48 <=? c) && (c <=? 57)) || ((65 <=? c) && (c <=? 70)) || ((97 <=? c) && (c <=? 102)).
Definition hex_val (c : Z) : Z :=
  if c <=? 57 then c - 48 else if c <=? 70 then c - 55 else c - 87.
Definition is_digit (c : Z) : bool := (48 <=? c) && (c <=? 57).

Definition dec_value (s : pystr) : Z := foldl (fun acc c => acc * 10 + (c - 48)) 0 s.
Definition hex_value (s : pystr) : Z := foldl (fun acc c => acc * 16 + hex_val c) 0 s.

(** One octet: at most three ASCII digits, no leading zero, at most 255. *)
Definition parse_octet (s : pystr) : option Z :=
  if negb (nonempty s) || negb (forallb is_digit s) || (3 <? Z.of_nat (length s)) then None
  else if negb (bool_decide (s = [48])) && bool_decide (head s = Some 48) then None
  else if 255 <? dec_value s then None else Some (dec_value s).

(** [IPv4Address(s)] *)
Definition parse_ipv4 (s : pystr) : option (list Z) :=
  match split_on 46 s with
  | [a; b; c; d] =>
      a' ← parse_octet a; b' ← parse_octet b; c' ← parse_octet c; d' ← parse_octet d;
      Some [a'; b'; c'; d']
  | _ => None
  end.

(** One group of an IPv6 address. *)
Definition parse_hextet (s : pystr) : option Z :=
  if nonempty s && forallb is_hex s && (Z.of_nat (length s) <=? 4) then Some (hex_value s) else None.

(** A group, still text or already a number (from an embedded IPv4 address). *)
Inductive part := PText (s : pystr) | PNum (n : Z).

Definition part_empty (p : part) : bool :=
  match p with PText s => negb (nonempty s) | PNum _ => false end.
Definition part_value (p : part) : option Z :=
  match p with PText s => parse_hextet s | PNum n => Some n end.

(** The trailing dotted quad becomes two groups. *)
Definition expand_v4 (parts : list pystr) : option (list part) :=
  match last parts with
  | Some q =>
      if contains 46 q then
        match parse_ipv4 q with
        | Some [a; b; c; d] =>
            Some (map PText (removelast parts) ++ [PNum (a * 256 + b); PNum (c * 256 + d)])
        | _ => None
        end
      else Some (map PText parts)
  | None => None
  end.

(** Indices of the empty groups strictly inside the address. *)
Definition inner_empty (parts : list part) : list nat :=
  filter (fun i => from_option part_empty false (parts !! i) = true) (seq 1 (length parts - 2)).

(** The eight groups of the parts between colons, "::" filled up with zeros. *)
Definition parse_groups (parts : list part) : option (list Z) :=
  if (9 <? length parts)%nat then None
  else
    let first_empty := match head parts with Some p => part_empty p | None => false end in
    let last_empty := match last parts with Some p => part_empty p | None => false end in
    match inner_empty parts with
    | [] =>
        if negb (length parts =? 8)%nat || first_empty || last_empty then None
        else mapM part_value parts
    | [skip] =>
        let hi := if first_empty then (skip - 1)%nat else skip in
        let lo0 := (length parts - skip - 1)%nat in
        let lo := if last_empty then (lo0 - 1)%nat else lo0 in
        if (first_empty && negb (hi =? 0)%nat) || (last_empty && negb (lo =? 0)%nat) ||
           (7 <? hi + lo)%nat then None
        else
          h ← mapM part_value (take hi parts);
          l ← mapM part_value (drop (length parts - lo) parts);
          Some (h ++ replicate (8 - (hi + lo)) 0 ++ l)
    | _ => None
    end.

(** [IPv6Address(s)] *)
Definition parse_ipv6 (s : pystr) : option (list Z) :=
  let raw := split_on 58 s in
  if (length raw <? 3)%nat then None else parts ← expand_v4 raw; parse_groups parts.

(** [ip.ipv4_mapped is not None] *)
Definition ipv4_mapped (groups : list Z) : bool :=
  bool_decide (take 6 groups = [0; 0; 0; 0; 0; 65535]).

(** ** Addresses *)

Inductive AddressKind := IPV4 | IPV6 | HOSTNAME.

#[export] Instance AddressKind_eq_dec : EqDecision AddressKind.
Proof. solve_decision. Defined.

Record BackendAddress := mkAddr { host : pystr; port : Z; akind : AddressKind }.

#[export] Instance BackendAddress_eq_dec : EqDecision BackendAddress.
Proof. solve_decision. Defined.

(** [BackendAddress.endpoint] *)
Definition bracketed (h : pystr) (p : Z) : pystr := [91] ++ h ++ [93; 58] ++ str_of_int p.
Definition plain (h : pystr) (p : Z) : pystr := h ++ [58] ++ str_of_int p.
Definition endpoint_of (a : BackendAddress) : pystr :=
  match akind a with
  | IPV6 => bracketed (host a) (port a)
  | _ => plain (host a) (port a)
  end.

(** [_classify_host] *)
Definition classify_host (h : pystr) : option AddressKind :=
  if negb (nonempty h) || existsb (fun c => isspace c || (c <? 32)) h || contains 47 h then None
  else if contains 37 h then None
  else match parse_ipv4 h with
       | Some _ => Some IPV4
       | None => match parse_ipv6 h with Some _ => Some IPV6 | None => Some HOSTNAME end
       end.

(** The text before and after the port separator. *)
Definition split_host_port (text : pystr) : option (pystr * pystr) :=
  if startswith [91] text then
    match find [93] text with
    | Some closing =>
        if (closing <=? 1)%nat || negb (bool_decide (text !! S closing = Some 58)) then None
        else Some (drop 1 (take closing text), drop (closing + 2) text)
    | None => None
    end
  else match split_on 58 text with
       | [h; p] => Some (h, p)
       | _ => None
       end.

(** [parse_backend_address] *)
Definition parse_backend_address (raw : pystr) : option BackendAddress :=
  let text := strip raw in
  hp ← split_host_port text;
  let h := strip hp.1 in
  let port_str := strip hp.2 in
  if negb (nonempty h) || negb (nonempty port_str) then None
  else match int_of_str port_str with
       | Raise _ => None
       | Ok p =>
           if (p <? 1) || (65535 <? p) then None
           else k ← classify_host h; Some (mkAddr h p k)
       end.

(** [parse_backend_addresses]: invalid entries are logged and skipped. *)
Definition parse_backend_addresses (services : pystr) : list BackendAddress * list pystr :=
  let parts := filter (fun p => nonempty p = true) (map strip (split_on 44 services)) in
  (omap parse_backend_address parts,
   filter (fun p => parse_backend_address p = None) parts).

(** ** Expansion and encoding *)

(** One result of [getaddrinfo]: the family and the address text. *)
Inductive family := AF_INET | AF_INET6 | AF_OTHER.

(** Append an address unless one with the same key is there: [seen] holds
    exactly the keys of [acc]. *)
Definition add_once (acc : list BackendAddress) (a : BackendAddress) : list BackendAddress :=
  if decide (a ∈ acc) then acc else acc ++ [a].

Section resolution.
Context (getaddrinfo : pystr -> Z -> option (list (family * pystr))).

(** The address a [getaddrinfo] entry stands for, if any. *)
Definition info_address (p : Z) (info : family * pystr) : option BackendAddress :=
  match info.1 with
  | AF_INET => Some (mkAddr info.2 p IPV4)
  | AF_INET6 =>
      let ip := match split_on 37 info.2 with x :: _ => x | [] => [] end in
      match parse_ipv6 ip with
      | Some g => if ipv4_mapped g then None else Some (mkAddr ip p IPV6)
      | None => None
      end
  | AF_OTHER => None
  end.

(** [_lookup_hostname] *)
Definition lookup_hostname (h : pystr) (p : Z) : list BackendAddress :=
  match getaddrinfo h p with
  | None => []
  | Some infos => foldl add_once [] (omap (info_address p) infos)
  end.

(** The candidates one configured address contributes. *)
Definition candidates (a : BackendAddress) : list BackendAddress :=
  match akind a with
  | HOSTNAME => lookup_hostname (host a) (port a)
  | _ => [a]
  end.

(** [expand_backend_addresses] *)
Definition expand_backend_addresses (l : list BackendAddress) : list BackendAddress :=
  foldl add_once [] (l ≫= candidates).

(** [encode_sw_static_for_c_core] *)
Definition encode_sw_static_for_c_core (l : list BackendAddress) : res pystr :=
  if decide (l = []) then Raise ValueError
  else if existsb (fun a => bool_decide (akind a = HOSTNAME)) l then Raise ValueError
  else if forallb (fun a => bool_decide (akind a = IPV4)) l then
    Ok (py "ipv4:" ++ join [44] (map (fun a => plain (host a) (port a)) l))
  else if forallb (fun a => bool_decide (akind a = IPV6)) l then
    Ok (py "ipv6:" ++ join [44] (map (fun a => bracketed (host a) (port a)) l))
  else
    Ok (py "ipv6:" ++ join [44] (map (fun a =>
          match akind a with
          | IPV4 => bracketed (py "::ffff:" ++ host a) (port a)
          | _ => bracketed (host a) (port a)
          end) l)).

(** The loop of [prepare_grpc_channel_endpoints] over the configured addresses. *)
Definition prepare_step (st : list BackendAddress * option pystr) (orig : BackendAddress)
  : list BackendAddress * option pystr :=
  match candidates orig with
  | [] => st
  | cs => (foldl add_once st.1 cs,
           match st.2 with Some x => Some x | None => Some (endpoint_of orig) end)
  end.

(** [prepare_grpc_channel_endpoints] *)
Definition prepare_grpc_channel_endpoints (l : list BackendAddress) : res (pystr * pystr) :=
  match l with
  | [] => Raise ValueError
  | [a] => Ok (endpoint_of a, endpoint_of a)
  | _ =>
      let (to_encode, authority) := foldl prepare_step ([], None) l in
      match to_encode with
      | [] => Raise ValueError
      | first :: _ =>
          t ← encode_sw_static_for_c_core to_encode;
          mret (t, match authority with Some x => x | None => endpoint_of first end)
      end
  end.

(** [_resolve_channel_target_and_authority] *)
Definition resolve_channel_target_and_authority (raw : pystr) : pystr * pystr :=
  let l := (parse_backend_addresses raw).1 in
  match prepare_grpc_channel_endpoints l with
  | Ok r => r
  | Raise _ =>
      match l with
      | a :: _ => (endpoint_of a, endpoint_of a)
      | [] => let fallback := if nonempty (strip raw) then strip raw else py "localhost:1" in
              (fallback, fallback)
      end
  end.

(** [build_grpc_target] and [resolve_grpc_target]: the strict variants, which raise where the
    one above falls back; [None] stands for the configured services. *)
Definition build_grpc_target (l : list BackendAddress) : res pystr :=
  r ← prepare_grpc_channel_endpoints l; mret r.1.
Definition resolve_grpc_target (configured : pystr) (services : option pystr) : res pystr :=
  build_grpc_target (parse_backend_addresses (match services with Some s => s | None => configured end)).1.

(** [sw_static_endpoints]: per endpoint, its addresses as host and port. *)
Definition sw_static_endpoints (l : list BackendAddress) : list (list (pystr * Z)) :=
  (fun a => [(host a, port a)]) <$> l.

(** Where the strict variant has a target, the factories use that target. *)
Lemma resolve_targets_agree raw target :
  resolve_grpc_target raw None = Ok target -> (resolve_channel_target_and_authority raw).1 = target.
Proof.
  unfold resolve_grpc_target, build_grpc_target, resolve_channel_target_and_authority.
  destruct (prepare_grpc_channel_endpoints (parse_backend_addresses raw).1) as [r|e]; [|done].
  cbn. unfold mret, res_ret. by intros [= ->].
Qed.

(** [grpc_call_timeout], in seconds *)
Definition grpc_call_timeout (agent_queue_timeout : Z) : Z := Z.max 10 (agent_queue_timeout + 5).
End resolution.

Example parse_examples :
  map parse_backend_address
    [py "oap:11800"; py " 10.0.0.1:11800 "; py "[::1]:11800"; py "[fe80::1%eth0]:1"; py "::1:11800";
     py "oap"; py "oap:0"; py "oap:70000"; py "[::ffff:1.2.3.4]:80"; py "010.0.0.1:80"] =
  [Some (mkAddr (py "oap") 11800 HOSTNAME); Some (mkAddr (py "10.0.0.1") 11800 IPV4);
   Some (mkAddr (py "::1") 11800 IPV6); None; None; None; None; None;
   Some (mkAddr (py "::ffff:1.2.3.4") 80 IPV6); Some (mkAddr (py "010.0.0.1") 80 HOSTNAME)].
Proof. vm_compute. reflexivity. Qed.

(** ** What the literal forms contain *)

Lemma split_on_elem sep s x : x ∈ s -> x = sep ∨ ∃ p, p ∈ split_on sep s ∧ x ∈ p.
Proof.
  induction s as [|c s IH]; cbn; [set_solver|]. intros Hx.
  destruct (Z.eqb_spec c sep) as [->|Hne].
  - apply elem_of_cons in Hx as [->|Hx]; [by left|]. destruct (IH Hx) as [?|(p & ? & ?)]; [by left|].
    right. exists p. set_solver.
  - destruct (split_on sep s) as [|q qs] eqn:E; [by apply split_on_nonempty in E|].
    apply elem_of_cons in Hx as [->|Hx].
    + right. exists (c :: q). set_solver.
    + destruct (IH Hx) as [?|(p & Hp & ?)]; [by left|]. right.
      apply elem_of_cons in Hp as [->|Hp]; [exists (c :: q) | exists p]; set_solver.
Qed.

Lemma parse_octet_chars s n c : parse_octet s = Some n -> c ∈ s -> is_digit c = true.
Proof.
  unfold parse_octet. destruct (negb (nonempty s) || _ || _) eqn:E; [done|]. intros _ Hc.
  apply orb_false_iff in E as [E _]. apply orb_false_iff in E as [_ E]. apply negb_false_iff in E.
  rewrite forallb_forall in E. by apply E, list_elem_of_In.
Qed.

Lemma parse_ipv4_chars s g c : parse_ipv4 s = Some g -> c ∈ s -> c = 46 ∨ is_digit c = true.
Proof.
  unfold parse_ipv4. intros H Hc. destruct (split_on_elem 46 s c Hc) as [?|(p & Hp & Hcp)]; [by left|].
  right. destruct (split_on 46 s) as [|x1 [|x2 [|x3 [|x4 [|]]]]]; try done.
  apply bind_Some in H as (a & Ha & H). apply bind_Some in H as (b & Hb & H).
  apply bind_Some in H as (d & Hd & H). apply bind_Some in H as (e & He & H).
  rewrite !elem_of_cons, elem_of_nil in Hp.
  destruct Hp as [->|[->|[->|[->|[]]]]];
    (eapply parse_octet_chars; [|exact Hcp]; eassumption).
Qed.

Lemma lstrip_suffix f s : ∃ p, s = p ++ lstrip_with f s.
Proof.
  induction s as [|c s [p IH]]; [by exists []|]. cbn. destruct (f c); [|by exists []].
  exists (c :: p). cbn. by f_equal.
Qed.

Lemma strip_elem c s : c ∈ strip s -> c ∈ s.
Proof.
  unfold strip, rstrip_with. intros Hc.
  destruct (lstrip_suffix isspace s) as [p ->]. apply elem_of_app. right.
  destruct (lstrip_suffix isspace (rev (lstrip_with isspace s))) as [q Hq].
  apply (f_equal (@rev Z)) in Hq. rewrite rev_involutive, rev_app_distr in Hq. rewrite Hq. set_solver.
Qed.

Lemma find_before c s n : find [c] s = Some n -> c ∉ take n s.
Proof.
  revert n. induction s as [|d s IH]; intros n H; [done|]. cbn in H.
  rewrite andb_true_r in H. destruct (Z.eqb_spec c d) as [->|Hne].
  - injection H as <-. cbn. set_solver.
  - apply fmap_Some in H as (m & Hm & ->). cbn. specialize (IH m Hm). set_solver.
Qed.

Lemma find_app c h t : c ∉ h -> find [c] (h ++ c :: t) = Some (length h).
Proof.
  induction h as [|d h IH]; intros Hc; cbn; rewrite andb_true_r.
  - by rewrite Z.eqb_refl.
  - rewrite (proj2 (Z.eqb_neq c d)) by set_solver. rewrite IH by set_solver. done.
Qed.

Lemma isspace_ascii_digit c : is_ascii_digit c -> isspace c = false.
Proof. revert c. apply ascii_digit_cases; reflexivity. Qed.

(** Characters a host may hold. *)
Lemma classify_chars h k :
  classify_host h = Some k -> h ≠ [] ∧ Forall (fun c => isspace c = false) h.
Proof.
  unfold classify_host. destruct (negb (nonempty h) || _ || _) eqn:E; [done|]. intros _.
  apply orb_false_iff in E as [E _]. apply orb_false_iff in E as [E1 E2].
  split; [intros ->; done|]. apply Forall_forall. intros c Hc.
  destruct (isspace c) eqn:Hs; [|done]. exfalso.
  assert (existsb (fun c => isspace c || (c <? 32)) h = true) as H; [|congruence].
  apply existsb_exists. exists c. split; [by apply list_elem_of_In | by rewrite Hs].
Qed.

Lemma strip_id s : Forall (fun c => isspace c = false) s -> strip s = s.
Proof. apply strip_with_none. Qed.

Lemma port_no_space p : 0 <= p -> Forall (fun c => isspace c = false) (str_of_int p).
Proof.
  intros Hp. apply Forall_forall. intros c Hc. apply isspace_ascii_digit.
  by eapply str_of_nat_digits.
Qed.

(** An address written out is read back, given its separators are found. *)
Lemma parse_written text h p k :
  strip text = text -> split_host_port text = Some (h, str_of_int p) ->
  classify_host h = Some k -> 1 <= p <= 65535 ->
  parse_backend_address text = Some (mkAddr h p k).
Proof.
  intros Hs Hsp Hc Hp. destruct (classify_chars h k Hc) as [Hne Hsh].
  unfold parse_backend_address. rewrite Hs, Hsp. cbn [fst snd].
  change (Some (h, str_of_int p) ≫= ?f) with (f (h, str_of_int p)). cbv beta zeta. cbn [fst snd].
  rewrite !strip_id by (done || apply port_no_space; lia).
  assert (str_of_int p ≠ []) as Hpn.
  { pose proof (int_of_str_of_int p) as H. intros E. by rewrite E in H. }
  destruct h as [|c h']; [done|]. destruct (str_of_int p) as [|d ds] eqn:E; [done|].
  cbn [nonempty negb orb]. rewrite <- E, int_of_str_of_int.
  rewrite !(proj2 (Z.ltb_ge _ _)) by lia. cbn [orb]. rewrite Hc. done.
Qed.

(** What a successful parse says about the host. *)
Lemma parse_inv raw a :
  parse_backend_address raw = Some a ->
  classify_host (host a) = Some (akind a) ∧ 1 <= port a <= 65535 ∧
  (93 ∉ host a ∨ 58 ∉ host a).
Proof.
  unfold parse_backend_address. intros H. apply bind_Some in H as ([h ps] & Hsp & H).
  cbv zeta in H. cbn [fst snd] in H.
  destruct (negb (nonempty (strip h)) || _); [done|].
  destruct (int_of_str (strip ps)) as [p|]; [|done].
  destruct ((p <? 1) || (65535 <? p)) eqn:Hp; [done|].
  apply bind_Some in H as (k & Hk & H). injection H as <-. cbn. split; [done|]. split.
  { apply orb_false_iff in Hp as [?%Z.ltb_ge ?%Z.ltb_ge]. lia. }
  unfold split_host_port in Hsp. destruct (startswith [91] (strip raw)).
  - left. destruct (find [93] (strip raw)) as [n|] eqn:Hf; [|done].
    destruct ((n <=? 1)%nat || _); [done|]. injection Hsp as <- <-.
    apply find_before in Hf. intros Hin%strip_elem. apply Hf.
    rewrite <- (take_drop 1 (take n (strip raw))). set_solver.
  - right. destruct (split_on 58 (strip raw)) as [|x [|y []]] eqn:Es; try done.
    injection Hsp as <- <-. intros Hin%strip_elem.
    assert (58 ∉ x) as H58; [|done]. clear -Es.
    revert x y Es. induction (strip raw) as [|c s IH]; intros x y Es; cbn in Es; [done|].
    destruct (Z.eqb_spec c 58) as [->|Hne].
    + injection Es as <- _. set_solver.
    + destruct (split_on 58 s) as [|q qs]; [done|]. injection Es as <- ->.
      specialize (IH _ _ eq_refl). set_solver.
Qed.

(** A host written without brackets, or a literal in brackets, is found again. *)
Lemma split_plain h p :
  58 ∉ h -> head h ≠ Some 91 -> 0 <= p -> split_host_port (plain h p) = Some (h, str_of_int p).
Proof.
  intros H58 H91 Hp. unfold split_host_port, plain.
  assert (startswith [91] (h ++ [58] ++ str_of_int p) = false) as ->.
  { destruct h as [|c h]; [done|]. unfold startswith. cbn [app]. rewrite andb_true_r.
    apply Z.eqb_neq. intros <-. done. }
  cbn [app]. rewrite split_on_app by done. rewrite split_on_single; [done|]. intros Hin.
  apply str_of_nat_digits in Hin; [unfold is_ascii_digit in Hin; lia | done].
Qed.

Lemma split_bracketed h p :
  h ≠ [] -> 93 ∉ h -> split_host_port (bracketed h p) = Some (h, str_of_int p).
Proof.
  intros Hne H93. unfold split_host_port, bracketed.
  change ([91] ++ h ++ [93; 58] ++ str_of_int p) with ((91 :: h) ++ 93 :: 58 :: str_of_int p).
  change (startswith [91] ((91 :: h) ++ 93 :: 58 :: str_of_int p)) with true. cbv iota.
  rewrite find_app by set_solver.
  rewrite (proj2 (Nat.leb_gt _ _)) by (destruct h; [done | cbn; lia]).
  rewrite bool_decide_true; cbn [orb negb].
  - rewrite take_app_length. cbn [drop].
    replace (length (91 :: h)%Z + 2)%nat with (length ((91 :: h) ++ [93; 58])) by (rewrite length_app; done).
    change ((91 :: h) ++ 93 :: 58 :: str_of_int p) with ((91 :: h) ++ [93; 58] ++ str_of_int p).
    rewrite app_assoc, drop_app_length. done.
  - rewrite lookup_app_r by lia. rewrite Nat.sub_succ_l, Nat.sub_diag by lia. done.
Qed.

Lemma classify_plain h k :
  classify_host h = Some k -> k ≠ IPV6 -> k = IPV4 ∨ k = HOSTNAME.
Proof. destruct k; naive_solver. Qed.

Lemma classify_ipv4 h : classify_host h = Some IPV4 -> ∃ g, parse_ipv4 h = Some g.
Proof.
  unfold classify_host. repeat case_match; intros; simplify_eq. by eexists.
Qed.

Lemma classify_ipv6 h : classify_host h = Some IPV6 -> ∃ g, parse_ipv6 h = Some g.
Proof.
  unfold classify_host. repeat case_match; intros; simplify_eq. by eexists.
Qed.

Lemma ipv4_plain h g : parse_ipv4 h = Some g -> (58 ∉ h) ∧ (head h ≠ Some 91) ∧ 44 ∉ h.
Proof.
  intros H. pose proof (fun c => parse_ipv4_chars h g c H) as Hc. unfold is_digit in Hc.
  split; [|split].
  - intros Hin. by destruct (Hc 58 Hin).
  - destruct h as [|c h]; [done|]. intros [= ->]. by destruct (Hc 91 ltac:(set_solver)).
  - intros Hin. by destruct (Hc 44 Hin).
Qed.

Lemma ipv6_colon h g : parse_ipv6 h = Some g -> 58 ∈ h.
Proof.
  unfold parse_ipv6. intros H. destruct (decide (58 ∈ h)) as [|Hn]; [done|].
  rewrite split_on_single in H by done. done.
Qed.

Lemma strip_app_id (h t : pystr) :
  Forall (fun c => isspace c = false) h -> Forall (fun c => isspace c = false) t ->
  strip (h ++ t) = h ++ t.
Proof. intros. apply strip_id. by apply Forall_app. Qed.

(** Written with the separators the parser looks for, an address reads back. *)
Lemma endpoint_parses a :
  classify_host (host a) = Some (akind a) -> 1 <= port a <= 65535 ->
  match akind a with
  | IPV6 => 93 ∉ host a
  | IPV4 => True
  | HOSTNAME => (58 ∉ host a) ∧ head (host a) ≠ Some 91
  end -> parse_backend_address (endpoint_of a) = Some a.
Proof.
  destruct a as [h p k]; cbn. intros Hk Hp Hs. destruct (classify_chars h k Hk) as [Hne Hsp].
  pose proof (port_no_space p ltac:(lia)) as Hps.
  unfold endpoint_of; cbn. destruct k.
  - destruct (classify_ipv4 h Hk) as [g Hg]. destruct (ipv4_plain h g Hg) as (? & ? & ?).
    apply parse_written; [|apply split_plain; (done || lia)|done..].
    apply strip_id. unfold plain. by apply Forall_app; repeat constructor.
  - apply parse_written; [|by apply split_bracketed|done..].
    apply strip_id. unfold bracketed. constructor; [done|]. by apply Forall_app; repeat constructor.
  - destruct Hs. apply parse_written; [|apply split_plain; (done || lia)|done..].
    apply strip_id. unfold plain. by apply Forall_app; repeat constructor.
Qed.

(**  Whatever was configured, the endpoint the agent writes for an accepted
    collector address (in logs, as channel target and as authority) is read back as
    that same address.  The one exception is a bracketed name which is no IPv6
    literal but contains a colon or starts with a bracket. *)
Theorem endpoint_roundtrip raw a :
  parse_backend_address raw = Some a ->
  (akind a = HOSTNAME -> (58 ∉ host a) ∧ head (host a) ≠ Some 91) ->
  parse_backend_address (endpoint_of a) = Some a ∧ 1 <= port a <= 65535.
Proof.
  intros Hp Hh. destruct (parse_inv raw a Hp) as (Hk & Hport & Hb).
  split; [|done]. apply endpoint_parses; [done..|].
  destruct (akind a) eqn:E; [done| |by apply Hh].
  destruct Hb as [?|Hc]; [done|]. destruct (classify_ipv6 _ Hk) as [g Hg].
  by apply ipv6_colon in Hg.
Qed.

Lemma endpoint_roundtrip_witness :
  let a := mkAddr (py "2001:db8::1") 11800 IPV6 in
  parse_backend_address (py " [2001:db8::1]:11800") = Some a ∧
  (parse_backend_address (endpoint_of a) = Some a ∧ 1 <= port a <= 65535).
Proof.
  split; [vm_compute; reflexivity|].
  apply (endpoint_roundtrip (py " [2001:db8::1]:11800")); [vm_compute; reflexivity|]. discriminate.
Defined.

(** ** Characters of an IPv6 literal *)

Lemma parse_hextet_chars s n c : parse_hextet s = Some n -> c ∈ s -> is_hex c = true.
Proof.
  unfold parse_hextet. destruct (nonempty s && forallb is_hex s && _) eqn:E; [|done].
  intros _ Hc. apply andb_true_iff in E as [E _]. apply andb_true_iff in E as [_ E].
  rewrite forallb_forall in E. by apply E, list_elem_of_In.
Qed.

Lemma mapM_text (l : list part) r p c :
  mapM part_value l = Some r -> PText p ∈ l -> c ∈ p -> is_hex c = true.
Proof.
  intros H Hin Hc. apply mapM_Some_1 in H. apply list_elem_of_lookup in Hin as [i Hi].
  destruct (Forall2_lookup_l _ _ _ _ _ H Hi) as (n & _ & Hn). by eapply parse_hextet_chars.
Qed.

Lemma part_empty_text (p : pystr) c : part_empty (PText p) = true -> c ∈ p -> False.
Proof. destruct p; cbn; [set_solver|done]. Qed.

(** Every group that is text has been read as hexadecimal digits. *)
Lemma groups_chars (parts : list part) p c s :
  parse_groups parts = Some s ->
  PText p ∈ parts -> c ∈ p -> is_hex c = true.
Proof.
  unfold parse_groups. intros H Hp Hc. destruct (9 <? _)%nat; [done|].
  cbv zeta in H. destruct (inner_empty parts) as [|skip []] eqn:Ei; [| |done].
  { destruct (_ || _ || _); [done|]. by eapply mapM_text. }
  destruct (_ || _ || _) eqn:Eg in H; [done|]. apply orb_false_iff in Eg as [Eg _].
  apply orb_false_iff in Eg as [Ef El].
  apply bind_Some in H as (h & Hh & H). apply bind_Some in H as (l & Hl & _).
  assert (skip ∈ inner_empty parts) as Hs by (rewrite Ei; set_solver).
  apply list_elem_of_filter in Hs as [Hs1 Hs2]. apply elem_of_seq in Hs2.
  apply list_elem_of_lookup in Hp as [i Hi]. pose proof (lookup_lt_Some _ _ _ Hi) as Hlt.
  destruct (lt_eq_lt_dec i skip) as [[Hlo| ->]|Hhi].
  - destruct (head parts) as [q|] eqn:Eh; [|destruct parts; done].
    destruct (part_empty q) eqn:Eq.
    + cbn [andb] in Ef. apply negb_false_iff, Nat.eqb_eq in Ef. assert (i = 0%nat) as -> by lia.
      destruct parts as [|q' parts]; [done|]. simplify_eq/=. by destruct (part_empty_text p c).
    + eapply mapM_text; [exact Hh| |done]. apply list_elem_of_lookup. exists i.
      by rewrite lookup_take_lt by lia.
  - rewrite Hi in Hs1. by destruct (part_empty_text p c).
  - destruct (last parts) as [q|] eqn:Eh; [|by apply last_None in Eh; subst].
    destruct (part_empty q) eqn:Eq.
    + cbn [andb] in El. apply negb_false_iff, Nat.eqb_eq in El.
      rewrite last_lookup in Eh. assert (i = pred (length parts)) as -> by lia.
      simplify_eq. by destruct (part_empty_text p c).
    + eapply mapM_text; [exact Hl| |done]. apply list_elem_of_lookup.
      exists (i - (length parts - (length parts - skip - 1)))%nat. rewrite lookup_drop. rewrite <- Hi.
      f_equal. lia.
Qed.

Lemma parse_ipv6_chars s g c :
  parse_ipv6 s = Some g -> c ∈ s -> c = 58 ∨ c = 46 ∨ is_hex c = true.
Proof.
  unfold parse_ipv6. intros H Hc. destruct (split_on_elem 58 s c Hc) as [?|(p & Hp & Hcp)]; [by left|].
  right. destruct (length _ <? 3)%nat; [done|].
  apply bind_Some in H as (parts & Ex & H).
  pose proof (fun Hin => groups_chars parts p c g H Hin Hcp) as Hg. clear H.
  unfold expand_v4 in Ex. destruct (last (split_on 58 s)) as [q|] eqn:El; [|done].
  destruct (contains 46 q).
  - destruct (parse_ipv4 q) as [[|x1 [|x2 [|x3 [|x4 []]]]]|] eqn:E4; try done. injection Ex as <-.
    apply last_Some in El as [l' El]. rewrite El in Hp, Hg. rewrite removelast_last in Hg.
    apply elem_of_app in Hp as [Hp|Hp].
    + right. apply Hg. apply elem_of_app. left. by apply list_elem_of_fmap_2.
    + apply list_elem_of_singleton in Hp as ->.
      destruct (parse_ipv4_chars q _ c E4 Hcp) as [?|Hd]; [by left|]. right. unfold is_hex, is_digit in *.
      by rewrite Hd.
  - injection Ex as <-. right. apply Hg. by apply list_elem_of_fmap_2.
Qed.

(** ** Expansion, encoding and the authority *)

Lemma add_once_elem acc l a : a ∈ foldl add_once acc l <-> a ∈ acc ∨ a ∈ l.
Proof.
  revert acc. induction l as [|b l IH]; intros acc; cbn; [set_solver|].
  rewrite IH. unfold add_once. case_decide; set_solver.
Qed.

Lemma add_once_nodup acc l : NoDup acc -> NoDup (foldl add_once acc l).
Proof.
  revert acc. induction l as [|b l IH]; intros acc Hn; cbn; [done|]. apply IH.
  unfold add_once. case_decide; [done|]. apply NoDup_app. split; [done|].
  split; [set_solver|]. apply NoDup_singleton.
Qed.

Lemma add_once_sublist acc l : ∃ k, foldl add_once acc l = acc ++ k ∧ k `sublist_of` l.
Proof.
  revert acc. induction l as [|b l IH]; intros acc; cbn; [exists []; by rewrite app_nil_r|].
  unfold add_once at 2. case_decide.
  - destruct (IH acc) as (k & -> & Hk). exists k. split; [done|]. by apply sublist_cons.
  - destruct (IH (acc ++ [b])) as (k & -> & Hk). exists (b :: k). rewrite <- app_assoc.
    split; [done|]. by apply sublist_skip.
Qed.

Section policy.
Context (getaddrinfo : pystr -> Z -> option (list (family * pystr))).
Local Abbreviation candidates := (candidates getaddrinfo).
Local Abbreviation expand := (expand_backend_addresses getaddrinfo).

Lemma info_address_literal p i a : info_address p i = Some a -> akind a ≠ HOSTNAME.
Proof.
  unfold info_address. destruct i as [[] t]; cbn; repeat case_match; intros; by simplify_eq/=.
Qed.

Lemma candidates_literal a b : b ∈ candidates a -> akind b ≠ HOSTNAME.
Proof.
  unfold GrpcChannel.candidates, lookup_hostname. destruct (akind a) eqn:E.
  1,2: rewrite list_elem_of_singleton; intros ->; by rewrite E.
  destruct (getaddrinfo _ _) as [infos|]; [|set_solver]. rewrite add_once_elem.
  intros [Hb|Hb]; [set_solver|]. apply list_elem_of_omap in Hb as (i & _ & Hi).
  by eapply info_address_literal.
Qed.

Lemma expand_literal l : Forall (fun a => akind a ≠ HOSTNAME) (expand l).
Proof.
  apply Forall_forall. intros a Ha. apply add_once_elem in Ha as [Ha|Ha]; [set_solver|].
  apply list_elem_of_bind in Ha as (b & Ha & _). by eapply candidates_literal.
Qed.

Lemma encode_literal l :
  l ≠ [] -> Forall (fun a => akind a ≠ HOSTNAME) l -> ∃ t, encode_sw_static_for_c_core l = Ok t.
Proof.
  intros Hne Hl. unfold encode_sw_static_for_c_core. rewrite decide_False by done.
  destruct (existsb _ l) eqn:E.
  - apply existsb_exists in E as (a & Ha & Hk). apply bool_decide_eq_true in Hk.
    rewrite Forall_forall in Hl. by destruct (Hl a); [apply list_elem_of_In|].
  - repeat case_match; by eexists.
Qed.

(** The address whose endpoint names the peer: the first one that is usable. *)
Definition first_usable (l : list BackendAddress) : option BackendAddress :=
  List.find (fun a => bool_decide (candidates a ≠ [])) l.

Lemma prepare_fold l acc au :
  foldl (prepare_step getaddrinfo) (acc, au) l =
  (foldl add_once acc (l ≫= candidates),
   match au with Some x => Some x | None => endpoint_of <$> first_usable l end).
Proof.
  revert acc au. induction l as [|a l IH]; intros acc au; [by destruct au|].
  cbn [foldl mbind list_bind]. unfold prepare_step at 2, first_usable. cbn [List.find].
  destruct (candidates a) as [|c cs] eqn:E.
  - rewrite IH. done.
  - rewrite IH, foldl_app. cbn [bool_decide fst snd]. f_equal. by destruct au.
Qed.

Lemma first_usable_none l : first_usable l = None -> l ≫= candidates = [].
Proof.
  induction l as [|a l IH]; [done|]. unfold first_usable. cbn [List.find]. case_bool_decide as E; [done|].
  intros Hl. cbn. rewrite IH by done. by rewrite E.
Qed.

Lemma first_usable_some l a : first_usable l = Some a -> expand l ≠ [].
Proof.
  intros H. apply find_some in H as [Hin Hc]. apply bool_decide_eq_true in Hc.
  destruct (candidates a) as [|c cs] eqn:E; [done|].
  assert (c ∈ expand l) as Hx; [|intros E'; rewrite E' in Hx; set_solver].
  apply add_once_elem. right. apply list_elem_of_bind. exists a.
  split; [rewrite E; set_solver | by apply list_elem_of_In].
Qed.

(** C37.  With several collectors configured, the channel target encodes the
    expansion of the whole list: literal addresses only, none twice, in the order
    given.  The authority names the first configured entry that is usable, never a
    host whose lookup failed, and the preparation raises only if no entry is
    usable; channel creation then falls back to the first entry as it stands. *)
Theorem channel_endpoints_policy l :
  (2 <= length l)%nat ->
  NoDup (expand l) ∧ Forall (fun a => akind a ≠ HOSTNAME) (expand l) ∧
  expand l `sublist_of` (l ≫= candidates) ∧
  (∀ a, a ∈ expand l <-> a ∈ l ≫= candidates) ∧
  match first_usable l with
  | Some a => ∃ t, encode_sw_static_for_c_core (expand l) = Ok t ∧
                   prepare_grpc_channel_endpoints getaddrinfo l = Ok (t, endpoint_of a)
  | None => prepare_grpc_channel_endpoints getaddrinfo l = Raise ValueError
  end.
Proof.
  intros Hlen. split; [by apply add_once_nodup, NoDup_nil_2|]. split; [apply expand_literal|].
  split; [by destruct (add_once_sublist [] (l ≫= candidates)) as (k & Hk & ?);
          unfold expand_backend_addresses; rewrite Hk|].
  split; [intros a; unfold expand_backend_addresses; rewrite add_once_elem; set_solver|].
  assert (prepare_grpc_channel_endpoints getaddrinfo l =
    let (to_encode, authority) := foldl (prepare_step getaddrinfo) ([], None) l in
      match to_encode with
      | [] => Raise ValueError
      | first :: _ =>
          t ← encode_sw_static_for_c_core to_encode;
          mret (t, match authority with Some x => x | None => endpoint_of first end)
      end) as ->.
  { destruct l as [|? [|]]; cbn in Hlen; [lia | lia | done]. }
  rewrite prepare_fold. change (foldl add_once [] (l ≫= candidates)) with (expand l).
  destruct (first_usable l) as [a|] eqn:E.
  - pose proof (first_usable_some l a E) as Hne.
    destruct (encode_literal (expand l) Hne (expand_literal l)) as [t Ht].
    exists t. split; [done|]. rewrite Ht. by destruct (expand l).
  - unfold expand_backend_addresses. by rewrite first_usable_none.
Qed.
End policy.

(** A resolver that knows one name. *)
Definition dns_one (h : pystr) (p : Z) : option (list (family * pystr)) :=
  if decide (h = py "oap") then Some [(AF_INET6, py "::1"); (AF_INET, py "10.0.0.1")] else None.

Lemma channel_endpoints_policy_witness :
  let l := [mkAddr (py "gone") 1 HOSTNAME; mkAddr (py "oap") 2 HOSTNAME; mkAddr (py "10.0.0.1") 2 IPV4] in
  prepare_grpc_channel_endpoints dns_one l = Ok (py "ipv6:[::1]:2,[::ffff:10.0.0.1]:2", py "oap:2") ∧
  (2 <= length l)%nat ∧
  match first_usable dns_one l with
  | Some a => ∃ t, encode_sw_static_for_c_core (expand_backend_addresses dns_one l) = Ok t ∧
                   prepare_grpc_channel_endpoints dns_one l = Ok (t, endpoint_of a)
  | None => prepare_grpc_channel_endpoints dns_one l = Raise ValueError
  end.
Proof.
  split; [vm_compute; reflexivity|]. split; [cbn; lia|].
  apply (channel_endpoints_policy dns_one). cbn. lia.
Defined.

(** ** Reading a target back *)

(** The addresses a static target lists: what follows "ipv4:" or "ipv6:". *)
Definition read_target (t : pystr) : list (option BackendAddress) :=
  map parse_backend_address (split_on 44 (drop 5 t)).

(** An IPv4 address in a mixed list is written as IPv4-mapped IPv6. *)
Definition mapped (a : BackendAddress) : BackendAddress :=
  match akind a with
  | IPV4 => mkAddr (py "::ffff:" ++ host a) (port a) IPV6
  | _ => a
  end.

(** A literal address: its text is what its kind says. *)
Definition literal (a : BackendAddress) : Prop :=
  1 <= port a <= 65535 ∧ classify_host (host a) = Some (akind a) ∧ akind a ≠ HOSTNAME.

Lemma contains_false c s : contains c s = false -> c ∉ s.
Proof.
  intros H Hin. assert (contains c s = true); [|congruence].
  apply existsb_exists. exists c. split; [by apply list_elem_of_In | apply Z.eqb_refl].
Qed.

Lemma mapped_groups q a b c d :
  parse_ipv4 q = Some [a; b; c; d] -> 58 ∉ q ->
  parse_ipv6 (py "::ffff:" ++ q) = Some [0; 0; 0; 0; 0; 65535; a * 256 + b; c * 256 + d].
Proof.
  intros Hq H58. unfold parse_ipv6.
  assert (split_on 58 (py "::ffff:" ++ q) = [[]; []; py "ffff"; q]) as ->.
  { change (py "::ffff:" ++ q) with ([] ++ 58 :: [] ++ 58 :: py "ffff" ++ 58 :: q).
    rewrite !split_on_app, split_on_single; [done|..]; try done; set_solver. }
  change (length _ <? 3)%nat with false. cbv iota. unfold expand_v4. cbn [last].
  assert (contains 46 q = true) as ->.
  { destruct (contains 46 q) eqn:E; [done|]. exfalso. unfold parse_ipv4 in Hq.
    rewrite split_on_single in Hq; [done|]. by apply contains_false. }
  rewrite Hq. vm_compute. reflexivity.
Qed.

Lemma parse_ipv4_shape q g : parse_ipv4 q = Some g -> ∃ a b c d, g = [a; b; c; d].
Proof.
  unfold parse_ipv4. destruct (split_on 46 q) as [|? [|? [|? [|? []]]]]; try done. intros H.
  repeat (apply bind_Some in H as (? & _ & H)). simplify_eq. by do 4 eexists.
Qed.

(** The characters that end a host in a target do not occur in a literal. *)
Lemma literal_chars a : literal a -> (44 ∉ host a) ∧ 93 ∉ host a.
Proof.
  intros (_ & Hk & Hn). destruct (akind a).
  - destruct (classify_ipv4 _ Hk) as [g Hg]. split; intros Hin;
      by destruct (parse_ipv4_chars _ _ _ Hg Hin).
  - destruct (classify_ipv6 _ Hk) as [g Hg]. split; intros Hin;
      by destruct (parse_ipv6_chars _ _ _ Hg Hin) as [|[]].
  - done.
Qed.

Lemma mapped_literal a : literal a -> literal (mapped a) ∧ akind (mapped a) = IPV6.
Proof.
  intros Hl. pose proof Hl as (Hp & Hk & Hn). unfold mapped. destruct (akind a) eqn:E; [|by rewrite E|done].
  split; [|done]. split; [done|]. split; [|done]. cbn [host akind].
  destruct (classify_ipv4 _ Hk) as [g Hg]. destruct (parse_ipv4_shape _ _ Hg) as (x & y & z & w & ->).
  pose proof (ipv4_plain _ _ Hg) as (H58 & _ & _).
  destruct (classify_chars _ _ Hk) as [Hne _].
  unfold classify_host in Hk |- *.
  destruct (negb (nonempty (host a)) || existsb _ (host a) || contains 47 (host a)) eqn:Eg; [done|].
  apply orb_false_iff in Eg as [Eg E47]. apply orb_false_iff in Eg as [_ Esp].
  destruct (contains 37 (host a)) eqn:E37; [done|].
  unfold contains in *. rewrite !existsb_app, Esp, E47, E37.
  change (negb (nonempty (py "::ffff:" ++ host a))) with false.
  change (existsb _ (py "::ffff:")) with false. change (existsb (Z.eqb _) (py "::ffff:")) with false.
  cbn [orb]. rewrite (mapped_groups _ _ _ _ _ Hg H58).
  destruct (parse_ipv4 (py "::ffff:" ++ host a)) as [g'|] eqn:E4; [|done]. exfalso.
  assert (58 ∈ py "::ffff:" ++ host a) as Hin by (apply list_elem_of_In; by left).
  by destruct (parse_ipv4_chars _ _ 58 E4 Hin).
Qed.

Lemma endpoint_literal a : literal a -> parse_backend_address (endpoint_of a) = Some a.
Proof.
  intros Hl. pose proof Hl as (? & ? & ?). apply endpoint_parses; [done..|].
  destruct (akind a) eqn:E; [done | by apply literal_chars | done].
Qed.

Lemma endpoint_no_comma a : literal a -> 44 ∉ endpoint_of a.
Proof.
  intros Hl. pose proof (literal_chars a Hl) as [Hc _]. destruct Hl as (Hp & _).
  assert (44 ∉ str_of_int (port a)) as Hd.
  { intros Hin. apply str_of_nat_digits in Hin; [unfold is_ascii_digit in Hin; lia | lia]. }
  unfold endpoint_of, plain, bracketed. destruct (akind a); set_solver.
Qed.

Lemma read_endpoints (l : list BackendAddress) pre :
  length pre = 5%nat -> l ≠ [] -> Forall literal l ->
  read_target (pre ++ join [44] (map endpoint_of l)) = map Some l.
Proof.
  intros Hpre Hne Hl. unfold read_target. rewrite <- Hpre, drop_app_length.
  rewrite split_join.
  - rewrite map_map. apply map_ext_in. intros a Ha. apply endpoint_literal.
    rewrite Forall_forall in Hl. by apply Hl, list_elem_of_In.
  - by destruct l.
  - apply Forall_map. eapply Forall_impl; [exact Hl|]. apply endpoint_no_comma.
Qed.

(**  The target built from a list of literal addresses can be read back: it
    lists exactly these addresses in order, each IPv4 address as IPv4-mapped IPv6
    when the list mixes both families. *)
Theorem target_roundtrip l :
  l ≠ [] -> Forall literal l ->
  ∃ t, encode_sw_static_for_c_core l = Ok t ∧
    read_target t =
      map Some (if forallb (fun a => bool_decide (akind a = IPV4)) l then l else map mapped l).
Proof.
  intros Hne Hl. unfold encode_sw_static_for_c_core. rewrite decide_False by done.
  destruct (existsb _ l) eqn:E.
  { apply existsb_exists in E as (a & Ha & Hk). apply bool_decide_eq_true in Hk.
    rewrite Forall_forall in Hl. apply list_elem_of_In in Ha. by destruct (Hl a Ha) as (_ & _ & ?). }
  destruct (forallb _ l) eqn:E4.
  - eexists. split; [done|]. rewrite <- (read_endpoints l (py "ipv4:")) by done. do 3 f_equal.
    apply map_ext_in. intros a Ha. rewrite forallb_forall in E4. specialize (E4 a Ha).
    apply bool_decide_eq_true in E4. unfold endpoint_of. by rewrite E4.
  - assert (Forall literal (map mapped l)) as Hm.
    { apply Forall_map. eapply Forall_impl; [exact Hl|]. intros a Ha. by apply mapped_literal. }
    assert (map mapped l ≠ []) as Hmn by (by destruct l).
    destruct (forallb (fun a => bool_decide (akind a = IPV6)) l) eqn:E6; (eexists; split; [done|]);
      rewrite <- (read_endpoints (map mapped l) (py "ipv6:")) by done; do 3 f_equal; rewrite map_map;
      apply map_ext_in; intros a Ha; unfold endpoint_of;
      (rewrite (proj2 (mapped_literal a ltac:(by apply (proj1 (Forall_forall _ _) Hl), list_elem_of_In))));
      unfold mapped.
    + rewrite forallb_forall in E6. specialize (E6 a Ha). apply bool_decide_eq_true in E6. by rewrite E6.
    + by destruct (akind a).
Qed.

Lemma target_roundtrip_witness :
  let l := [mkAddr (py "10.0.0.1") 11800 IPV4; mkAddr (py "::1") 11800 IPV6] in
  ∃ t, encode_sw_static_for_c_core l = Ok t ∧
    read_target t =
      map Some (if forallb (fun a => bool_decide (akind a = IPV4)) l then l else map mapped l).
Proof.
  cbv zeta. apply target_roundtrip; [discriminate|].
  repeat constructor; solve [cbn; lia | vm_compute; reflexivity | discriminate].
Defined.
