(* ===== verification/Profile.v ===== *)
(** * The thread profiler: profile/, utils/array.py, utils/atomic_ref.py, utils/integer.py

    The profile task execution service, its execution contexts and their thread
    profilers, for the thread model ([THREAD_MODEL = 'thread']).  Objects with an
    identity (tasks, status references, execution contexts, profilers) live in
    maps keyed by location.  A timer that was scheduled is kept with its due time;
    the stack of the profiled thread is an input of the round that dumps it,
    [None] when the thread is dead or has no frame.  The service implements the
    tracer's [ProfileOps].  Operations are atomic here; ProfileConc.v interleaves
    them. *)

From S2P Require Import Prelude PyData PyText Config TraceData Trace.

(** ** utils: AtomicRef, AtomicInteger, AtomicArray *)

(** [AtomicRef.compare_and_set]: the new value and whether it was set. *)
Definition ref_compare_and_set {A} `{EqDecision A} (expect update var : A) : A * bool :=
  if decide (var = expect) then (update, true) else (var, false).

(** [AtomicInteger.add_and_get] *)
Definition add_and_get (delta var : Z) : Z * Z := (var + delta, var + delta).

(** [AtomicArray]: the length it was asked for and the Python list behind it. *)
Record AtomicArray (A : Type) := mkArray { array_length : Z; array_items : list (option A) }.
Arguments mkArray {A}.
Arguments array_length {A}.
Arguments array_items {A}.

(** [AtomicArray(length)]: [[None] * length]. *)
Definition new_array {A} (length : Z) : AtomicArray A :=
  mkArray length (replicate (Z.to_nat length) None).

Definition array_range {A} (a : AtomicArray A) (idx : Z) : bool :=
  (idx <? 0) || (array_length a <=? idx).

(** [AtomicArray.set] *)
Definition array_set {A} (idx : Z) (v : option A) (a : AtomicArray A) : res (AtomicArray A) :=
  if array_range a idx then Raise IndexError
  else Ok (mkArray (array_length a) (<[Z.to_nat idx := v]> (array_items a))).

(** [AtomicArray.get] *)
Definition array_get {A} (idx : Z) (a : AtomicArray A) : res (option A) :=
  if array_range a idx then Raise IndexError
  else match array_items a !! Z.to_nat idx with Some v => Ok v | None => Raise IndexError end.

(** [AtomicArray.compare_and_set] *)
Definition array_compare_and_set {A} `{EqDecision A} (idx : Z) (expect update : option A)
  (a : AtomicArray A) : res (AtomicArray A * bool) :=
  if array_range a idx then Raise IndexError
  else if decide (array_items a !! Z.to_nat idx = Some expect)
  then Ok (mkArray (array_length a) (<[Z.to_nat idx := update]> (array_items a)), true)
  else Ok (a, false).

(** ** Data *)

(** profile/profile_status.py *)
Inductive ProfileStatus := NONE | PENDING | PROFILING | STOPPED.

#[export] Instance ProfileStatus_eq_dec : EqDecision ProfileStatus.
Proof. solve_decision. Defined.

Definition is_being_watched (s : ProfileStatus) : bool := negb (bool_decide (s = NONE)).
Definition is_profiling (s : ProfileStatus) : bool := bool_decide (s = PROFILING).

(** profile/profile_task.py *)
Record ProfileTask := mkTask {
  task_id : pystr;
  first_span_op_name : pystr;
  duration : Z;                 (* minutes *)
  min_duration_threshold : Z;   (* milliseconds *)
  thread_dump_period : Z;
  max_sampling_count : Z;
  task_start_time : Z;          (* milliseconds *)
  task_create_time : Z
}.

(** profile/profile_constants.py *)
Definition TASK_DURATION_MIN_MINUTE : Z := 1.
Definition TASK_DURATION_MAX_MINUTE : Z := 15.
Definition TASK_DUMP_PERIOD_MIN_MILLIS : Z := 10.
Definition TASK_MAX_SAMPLING_COUNT : Z := 10.
Definition MINUTE_TO_MILLIS : Z := 60000.

(** profile/snapshot.py *)
Record TracingThreadSnapshot := mkSnapshot {
  sn_task_id : pystr; sn_segment_id : pystr; sn_sequence : Z; sn_time : Z; sn_stack : list pystr
}.

(** [ThreadProfiler]; [tp_trace] is the trace context, [tp_status] its reference. *)
Record ThreadProfiler := mkProfiler {
  tp_trace : nat;
  tp_trace_create_time : Z;
  tp_segment_id : pystr;
  tp_context : nat;
  tp_start_time : Z;
  tp_status : nat;
  dump_sequence : Z
}.

(** [ProfileTaskExecutionContext]; [ec_stop] is the stop event, once created. *)
Record ExecContext := mkExec {
  ec_task : nat;
  current_profiling_cnt : Z;
  total_started_profiling_cnt : Z;
  slots : AtomicArray nat;
  ec_stop : option bool
}.

(** What the scheduler runs. *)
Inductive timer := TProcess (task : nat) | TStop (context : nat).

(** [ProfileTaskExecutionService] with the objects it owns; [pf_snapshots] is what
    was handed to [agent.add_profiling_snapshot], with the profiler that made it,
    [pf_notified] the contexts whose task's end was notified. *)
Record Service := mkService {
  pf_next : nat;
  pf_tasks : gmap nat ProfileTask;
  pf_status : gmap nat ProfileStatus;
  pf_contexts : gmap nat ExecContext;
  pf_profilers : gmap nat ThreadProfiler;
  profile_task_list : list nat;
  last_command_create_time : Z;
  task_execution_context : option nat;
  pf_timers : list (Z * timer);
  pf_snapshots : list (nat * TracingThreadSnapshot);
  pf_notified : list nat
}.

(** [ProfileTaskExecutionService()] *)
Definition new_service : Service := mkService 0 ∅ ∅ ∅ ∅ [] (-1) None [] [] [].

(** ** Updates *)

Definition upd_context (c : nat) (f : ExecContext -> ExecContext) (p : Service) : Service :=
  mkService (pf_next p) (pf_tasks p) (pf_status p) (alter f c (pf_contexts p)) (pf_profilers p)
    (profile_task_list p) (last_command_create_time p) (task_execution_context p) (pf_timers p)
    (pf_snapshots p) (pf_notified p).
Definition upd_profiler (t : nat) (f : ThreadProfiler -> ThreadProfiler) (p : Service) : Service :=
  mkService (pf_next p) (pf_tasks p) (pf_status p) (pf_contexts p) (alter f t (pf_profilers p))
    (profile_task_list p) (last_command_create_time p) (task_execution_context p) (pf_timers p)
    (pf_snapshots p) (pf_notified p).
(** [ProfileStatusReference.update_status] *)
Definition update_status (r : nat) (s : ProfileStatus) (p : Service) : Service :=
  mkService (pf_next p) (pf_tasks p) (<[r := s]> (pf_status p)) (pf_contexts p) (pf_profilers p)
    (profile_task_list p) (last_command_create_time p) (task_execution_context p) (pf_timers p)
    (pf_snapshots p) (pf_notified p).
(** [ProfileStatusReference(s)] *)
Definition new_status (s : ProfileStatus) (p : Service) : Service * nat :=
  (mkService (S (pf_next p)) (pf_tasks p) (<[pf_next p := s]> (pf_status p)) (pf_contexts p)
     (pf_profilers p) (profile_task_list p) (last_command_create_time p)
     (task_execution_context p) (pf_timers p) (pf_snapshots p) (pf_notified p), pf_next p).
Definition add_profiler (t : ThreadProfiler) (p : Service) : Service * nat :=
  (mkService (S (pf_next p)) (pf_tasks p) (pf_status p) (pf_contexts p)
     (<[pf_next p := t]> (pf_profilers p)) (profile_task_list p) (last_command_create_time p)
     (task_execution_context p) (pf_timers p) (pf_snapshots p) (pf_notified p), pf_next p).
Definition add_context (c : ExecContext) (p : Service) : Service * nat :=
  (mkService (S (pf_next p)) (pf_tasks p) (pf_status p) (<[pf_next p := c]> (pf_contexts p))
     (pf_profilers p) (profile_task_list p) (last_command_create_time p)
     (task_execution_context p) (pf_timers p) (pf_snapshots p) (pf_notified p), pf_next p).
Definition with_current (c : option nat) (p : Service) : Service :=
  mkService (pf_next p) (pf_tasks p) (pf_status p) (pf_contexts p) (pf_profilers p)
    (profile_task_list p) (last_command_create_time p) c (pf_timers p) (pf_snapshots p)
    (pf_notified p).
Definition with_list (l : list nat) (p : Service) : Service :=
  mkService (pf_next p) (pf_tasks p) (pf_status p) (pf_contexts p) (pf_profilers p)
    l (last_command_create_time p) (task_execution_context p) (pf_timers p) (pf_snapshots p)
    (pf_notified p).
Definition with_timers (l : list (Z * timer)) (p : Service) : Service :=
  mkService (pf_next p) (pf_tasks p) (pf_status p) (pf_contexts p) (pf_profilers p)
    (profile_task_list p) (last_command_create_time p) (task_execution_context p) l (pf_snapshots p)
    (pf_notified p).
(** [Scheduler.schedule]: a negative delay fires at once. *)
Definition schedule (now millis : Z) (t : timer) (p : Service) : Service :=
  mkService (pf_next p) (pf_tasks p) (pf_status p) (pf_contexts p) (pf_profilers p)
    (profile_task_list p) (last_command_create_time p) (task_execution_context p)
    (pf_timers p ++ [(now + Z.max 0 millis, t)]) (pf_snapshots p) (pf_notified p).
(** [agent.add_profiling_snapshot] and [agent.notify_profile_finish] *)
Definition emit_snapshot (t : nat) (s : TracingThreadSnapshot) (p : Service) : Service :=
  mkService (pf_next p) (pf_tasks p) (pf_status p) (pf_contexts p) (pf_profilers p)
    (profile_task_list p) (last_command_create_time p) (task_execution_context p) (pf_timers p)
    (pf_snapshots p ++ [(t, s)]) (pf_notified p).
Definition notify_finish (c : nat) (p : Service) : Service :=
  mkService (pf_next p) (pf_tasks p) (pf_status p) (pf_contexts p) (pf_profilers p)
    (profile_task_list p) (last_command_create_time p) (task_execution_context p) (pf_timers p)
    (pf_snapshots p) (pf_notified p ++ [c]).

Definition set_cnt (n : Z) (e : ExecContext) : ExecContext :=
  mkExec (ec_task e) n (total_started_profiling_cnt e) (slots e) (ec_stop e).
Definition set_total (n : Z) (e : ExecContext) : ExecContext :=
  mkExec (ec_task e) (current_profiling_cnt e) n (slots e) (ec_stop e).
Definition set_slots (a : AtomicArray nat) (e : ExecContext) : ExecContext :=
  mkExec (ec_task e) (current_profiling_cnt e) (total_started_profiling_cnt e) a (ec_stop e).
Definition set_stop (b : bool) (e : ExecContext) : ExecContext :=
  mkExec (ec_task e) (current_profiling_cnt e) (total_started_profiling_cnt e) (slots e) (Some b).

(** ** Execution contexts *)

Section service.
Context (cfg : Config).

(** [ThreadProfiler(trace_context, segment_id, thread, context)]: a context without
    a status gets a new pending one, otherwise its reference becomes pending. *)
Definition new_profiler (v : TraceView) (segment_id : pystr) (c : nat) (p : Service)
  : Service * nat :=
  let (p1, r) := match view_status v with
                 | None => new_status PENDING p
                 | Some r => (update_status r PENDING p, r)
                 end in
  add_profiler (mkProfiler (view_ctx v) (view_create_time v) segment_id c (-1) r 0) p1.

(** The loop over the slots in [attempt_profiling]. *)
Fixpoint occupy (idxs : list Z) (t : nat) (a : AtomicArray nat) : AtomicArray nat * bool :=
  match idxs with
  | [] => (a, false)
  | i :: idxs' =>
      match array_compare_and_set i None (Some t) a with
      | Ok (a', true) => (a', true)
      | _ => occupy idxs' t a
      end
  end.

(** [range(slot_length)] *)
Definition indices {A} (a : AtomicArray A) : list Z := seqZ 0 (array_length a).

(** [attempt_profiling]: the service and the status reference returned. *)
Definition attempt_profiling (c : nat) (v : TraceView) (segment_id opname : pystr) (p : Service)
  : Service * nat :=
  match pf_contexts p !! c with
  | None => new_status NONE p
  | Some e =>
      match pf_tasks p !! ec_task e with
      | None => new_status NONE p
      | Some task =>
          let using_slot_cnt := current_profiling_cnt e in
          if agent_profile_max_parallel cfg <=? using_slot_cnt then new_status NONE p
          else if negb (bool_decide (first_span_op_name task = opname)) then new_status NONE p
          else if max_sampling_count task <? total_started_profiling_cnt e then new_status NONE p
          else
            let (cnt, set) := ref_compare_and_set using_slot_cnt (using_slot_cnt + 1)
                                (current_profiling_cnt e) in
            if negb set then new_status NONE p
            else
              let p1 := upd_context c (set_cnt cnt) p in
              let (p2, t) := new_profiler v segment_id c p1 in
              let (a, found) := occupy (indices (slots e)) t (slots e) in
              if found then
                (upd_context c (set_slots a) p2,
                 match pf_profilers p2 !! t with Some tp => tp_status tp | None => 0%nat end)
              else new_status NONE p2
      end
  end.

(** [ProfileTaskExecutionContext.profiling_recheck].  A context that reaches it has
    its status: [new_entry_span] assigns one first. *)
Definition context_recheck (c : nat) (v : TraceView) (segment_id opname : pystr) (p : Service)
  : Service :=
  match view_status v with
  | None => p
  | Some r =>
      match pf_status p !! r with
      | Some s =>
          if is_being_watched s then p
          else let (p1, r') := attempt_profiling c v segment_id opname p in
               update_status r (default NONE (pf_status p1 !! r')) p1
      | None => p
      end
  end.

(** [ThreadProfiler.stop_profiling] *)
Definition profiler_stop (tp : ThreadProfiler) (p : Service) : Service :=
  update_status (tp_status tp) STOPPED p.

(** The first slot whose profiler works for the trace context. *)
Definition find_slot (trace : nat) (e : ExecContext) (p : Service) : option (nat * ThreadProfiler) :=
  head (omap (fun i =>
    t ← mjoin (array_items (slots e) !! i); tp ← pf_profilers p !! t;
    if bool_decide (tp_trace tp = trace) then Some (i, tp) else None)
    (seq 0 (length (array_items (slots e))))).

(** [stop_tracing_profile] *)
Definition stop_tracing_profile (c : nat) (trace : nat) (p : Service) : Service :=
  match pf_contexts p !! c with
  | None => p
  | Some e =>
      match find_slot trace e p with
      | None => p
      | Some (i, tp) =>
          match array_set (Z.of_nat i) None (slots e) with
          | Raise _ => p
          | Ok a =>
              let p1 := profiler_stop tp (upd_context c (set_slots a) p) in
              upd_context c (fun e => set_cnt (add_and_get (-1) (current_profiling_cnt e)).1 e) p1
          end
      end
  end.

(** [is_start_profileable] *)
Definition is_start_profileable (c : nat) (p : Service) : Service * bool :=
  match pf_contexts p !! c with
  | None => (p, false)
  | Some e =>
      let (n, r) := add_and_get 1 (total_started_profiling_cnt e) in
      (upd_context c (set_total n) p,
       match pf_tasks p !! ec_task e with
       | Some task => r <=? max_sampling_count task
       | None => false
       end)
  end.

(** [start_profiling_if_need] at a time in milliseconds *)
Definition start_profiling_if_need (now : Z) (t : nat) (p : Service) : Service :=
  match pf_profilers p !! t with
  | None => p
  | Some tp =>
      match e ← pf_contexts p !! tp_context tp; pf_tasks p !! ec_task e with
      | None => p
      | Some task =>
          if min_duration_threshold task <? now - tp_trace_create_time tp then
            update_status (tp_status tp) PROFILING
              (upd_profiler t (fun tp => mkProfiler (tp_trace tp) (tp_trace_create_time tp)
                 (tp_segment_id tp) (tp_context tp) now (tp_status tp) (dump_sequence tp)) p)
          else p
      end
  end.

(** The frames kept of a stack: the loop stops at an index above the maximum. *)
Definition clip_stack (stack : list pystr) : list pystr :=
  take (Z.to_nat (agent_profile_dump_max_stack_depth cfg + 1)) stack.

(** [build_snapshot] of a live thread's stack *)
Definition build_snapshot (now : Z) (t : nat) (dump : option (list pystr)) (p : Service)
  : Service * option TracingThreadSnapshot :=
  match pf_profilers p !! t, dump with
  | Some tp, Some stack =>
      let (p1, ok) := if dump_sequence tp =? 0 then is_start_profileable (tp_context tp) p
                      else (p, true) in
      if negb ok then (p1, None)
      else
        let tid := match e ← pf_contexts p1 !! tp_context tp; pf_tasks p1 !! ec_task e with
                   | Some task => task_id task | None => [] end in
        (upd_profiler t (fun tp => mkProfiler (tp_trace tp) (tp_trace_create_time tp)
           (tp_segment_id tp) (tp_context tp) (tp_start_time tp) (tp_status tp)
           (dump_sequence tp + 1)) p1,
         Some (mkSnapshot tid (tp_segment_id tp) (dump_sequence tp) now (clip_stack stack)))
  | _, _ => (p, None)
  end.

(** One profiler in the loop of [ProfileThread.profiling]. *)
Definition profile_slot (now : Z) (dumps : nat -> option (list pystr)) (c i : nat) (p : Service)
  : Service :=
  match e ← pf_contexts p !! c; t ← mjoin (array_items (slots e) !! i);
        tp ← pf_profilers p !! t; Some (t, tp) with
  | None => p
  | Some (t, tp) =>
      match pf_status p !! tp_status tp with
      | Some PENDING => start_profiling_if_need now t p
      | Some PROFILING =>
          match build_snapshot now t (dumps t) p with
          | (p1, Some s) => emit_snapshot t s p1
          | (p1, None) => stop_tracing_profile c (tp_trace tp) p1
          end
      | _ => p
      end
  end.

(** One turn of the loop of [ProfileThread.profiling]: the slots are read while
    they change. *)
Definition profiling_round (now : Z) (dumps : nat -> option (list pystr)) (c : nat) (p : Service)
  : Service :=
  match pf_contexts p !! c with
  | None => p
  | Some e => foldl (fun p i => profile_slot now dumps c i p) p
                (seq 0 (length (array_items (slots e))))
  end.

(** ** The service *)

(** [remove_from_profile_task_list] *)
Definition remove_from_profile_task_list (task : nat) (p : Service) : Service * bool :=
  (with_list (filter (fun t => t ≠ task) (profile_task_list p)) p,
   bool_decide (task ∈ profile_task_list p)).

Definition cal_profile_task_finish_time (t : ProfileTask) : Z :=
  task_start_time t + duration t * MINUTE_TO_MILLIS.

(** [_check_profile_task]; the queued tasks are those of the list. *)
Definition check_profile_task (t : ProfileTask) (p : Service) : bool :=
  if bool_decide (first_span_op_name t = []) then false
  else if duration t <? TASK_DURATION_MIN_MINUTE then false
  else if TASK_DURATION_MAX_MINUTE <? duration t then false
  else if min_duration_threshold t <? 0 then false
  else if thread_dump_period t <? TASK_DUMP_PERIOD_MIN_MILLIS then false
  else if max_sampling_count t <=? 0 then false
  else if TASK_MAX_SAMPLING_COUNT <=? max_sampling_count t then false
  else
    let task_finish_time := cal_profile_task_finish_time t in
    negb (existsb (fun l =>
      match pf_tasks p !! l with
      | Some q => (task_start_time t <=? task_finish_time) &&
                  (task_finish_time <=? cal_profile_task_finish_time q)
      | None => false
      end) (profile_task_list p)).

(** [add_profile_task] of a new task at a time in milliseconds *)
Definition add_profile_task (now : Z) (t : ProfileTask) (p : Service) : Service :=
  let l := pf_next p in
  let p1 := mkService (S l) (<[l := t]> (pf_tasks p)) (pf_status p) (pf_contexts p)
              (pf_profilers p) (profile_task_list p)
              (Z.max (task_create_time t) (last_command_create_time p))
              (task_execution_context p) (pf_timers p) (pf_snapshots p) (pf_notified p) in
  if check_profile_task t p1 then
    schedule now (task_start_time t - now) (TProcess l) (with_list (profile_task_list p1 ++ [l]) p1)
  else p1.

(** [stop_current_profile_task] *)
Definition stop_current_profile_task (need_stop : option nat) (p : Service) : Service :=
  match need_stop with
  | None => p
  | Some c =>
      let (cur, set) := ref_compare_and_set (Some c) None (task_execution_context p) in
      if negb set then p
      else
        let p1 := with_current cur p in
        let p2 := upd_context c (fun e => match ec_stop e with
                                          | Some _ => set_stop true e | None => e end) p1 in
        match pf_contexts p !! c with
        | Some e => notify_finish c (remove_from_profile_task_list (ec_task e) p2).1
        | None => p2
        end
  end.

(** [process_profile_task], with the context's [start_profiling] *)
Definition process_profile_task (now : Z) (task : nat) (p : Service) : Service :=
  let p1 := stop_current_profile_task (task_execution_context p) p in
  let (p2, c) := add_context (mkExec task 0 0 (new_array (agent_profile_max_parallel cfg)) None) p1 in
  let p3 := upd_context c (set_stop false) (with_current (Some c) p2) in
  match pf_tasks p3 !! task with
  | Some t => schedule now (duration t * MINUTE_TO_MILLIS) (TStop c) p3
  | None => p3
  end.

(** [add_profiling] *)
Definition add_profiling_service (v : TraceView) (segment_id opname : pystr) (p : Service)
  : Service * nat :=
  match task_execution_context p with
  | None => new_status NONE p
  | Some c => attempt_profiling c v segment_id opname p
  end.

(** [profiling_recheck] *)
Definition service_recheck (v : TraceView) (segment_id opname : pystr) (p : Service) : Service :=
  match task_execution_context p with
  | None => p
  | Some c => context_recheck c v segment_id opname p
  end.

(** What the scheduler runs when a timer fires. *)
Definition run_timer (now : Z) (t : timer) (p : Service) : Service :=
  match t with
  | TProcess task => process_profile_task now task p
  | TStop c => stop_current_profile_task (Some c) p
  end.

(** A scheduled timer fires, once, at [now]. *)
Definition fire_timer (now : Z) (i : nat) (p : Service) : Service :=
  match pf_timers p !! i with
  | Some (due, t) =>
      if due <=? now then run_timer now t (with_timers (delete i (pf_timers p)) p) else p
  | None => p
  end.

(** The service as the tracer sees it. *)
#[local] Instance Profile_ops : ProfileOps Service := {
  add_profiling := add_profiling_service;
  profiling_recheck_service := service_recheck
}.

(** ** Runs of the service *)

Inductive profile_step : Service -> Service -> Prop :=
| step_add now t p : profile_step p (add_profile_task now t p)
| step_timer now i p : profile_step p (fire_timer now i p)
| step_enter v seg op p : profile_step p (add_profiling_service v seg op p).1
| step_recheck v seg op p : profile_step p (service_recheck v seg op p)
| step_round now dumps c p : profile_step p (profiling_round now dumps c p)
| step_thread_end c p : profile_step p (stop_current_profile_task (Some c) p).

Inductive profile_reachable : Service -> Prop :=
| reach_new : profile_reachable new_service
| reach_step p p' : profile_reachable p -> profile_step p p' -> profile_reachable p'.
End service.
