(* ===== verification/ProfileProps.v ===== *)
(** * Properties of the profiler

    Slots and their counter, snapshots and their numbering, the sampling limit
    and the end of a task, for every sequence of the service's operations. *)

From S2P Require Import Prelude PyData PyText Config TraceData Trace Profile.

Lemma filter_ext_in {A} (P Q : A -> Prop) `{∀ x, Decision (P x), ∀ x, Decision (Q x)} (l : list A) :
  (∀ x, x ∈ l -> P x <-> Q x) -> filter P l = filter Q l.
Proof.
  induction l as [|x l IH]; intros Hl; [done|]. rewrite !filter_cons, IH by set_solver.
  specialize (Hl x ltac:(set_solver)). do 2 case_decide; tauto || done.
Qed.

(** ** Occupied slots *)

Definition occupied (l : list (option nat)) : nat := length (omap id l).

Lemma occupied_le l : (occupied l <= length l)%nat.
Proof. unfold occupied. induction l as [|[x|] l IH]; cbn; lia. Qed.

Lemma occupied_take l i t :
  l !! i = Some None -> occupied (<[i := Some t]> l) = S (occupied l).
Proof.
  unfold occupied. revert i. induction l as [|x l IH]; intros [|i] H; cbn in *; try done.
  - by injection H as ->.
  - destruct x; cbn; [f_equal|]; by apply (IH i).
Qed.

Lemma occupied_free l i t :
  l !! i = Some (Some t) -> S (occupied (<[i := None]> l)) = occupied l.
Proof.
  unfold occupied. revert i. induction l as [|x l IH]; intros [|i] H; cbn in *; try done.
  - by injection H as ->.
  - destruct x; cbn; [f_equal|]; by apply (IH i).
Qed.

Lemma occupied_full l : (∀ i, l !! i ≠ Some None) -> occupied l = length l.
Proof.
  unfold occupied. induction l as [|x l IH]; intros H; [done|].
  destruct x as [x|]; [|by destruct (H 0%nat)]. cbn. rewrite IH; [done|]. intros i. apply (H (S i)).
Qed.

Lemma cas_free i t (a : AtomicArray nat) :
  0 <= i < array_length a ->
  array_compare_and_set i None (Some t) a =
  if decide (array_items a !! Z.to_nat i = Some None)
  then Ok (mkArray (array_length a) (<[Z.to_nat i := Some t]> (array_items a)), true)
  else Ok (a, false).
Proof.
  intros Hi. unfold array_compare_and_set, array_range.
  rewrite (proj2 (Z.ltb_ge _ _)), (proj2 (Z.leb_gt _ _)) by lia. done.
Qed.

(** The scan takes the first free slot of the indices it visits. *)
Lemma occupy_spec idxs t a :
  Forall (fun i => 0 <= i < array_length a) idxs ->
  (∃ i, i ∈ idxs ∧ array_items a !! Z.to_nat i = Some None) ->
  ∃ i, i ∈ idxs ∧ array_items a !! Z.to_nat i = Some None ∧
    occupy idxs t a = (mkArray (array_length a) (<[Z.to_nat i := Some t]> (array_items a)), true).
Proof.
  induction idxs as [|j idxs IH]; intros Hr (i & Hi & Hf); [set_solver|]. cbn.
  inversion Hr as [|? ? Hj Hr']; subst. rewrite cas_free by done. case_decide as Ej.
  - exists j. set_solver.
  - destruct IH as (i' & ? & ? & ?); [done| |exists i'; set_solver].
    apply elem_of_cons in Hi as [->|Hi]; [done|]. by exists i.
Qed.

Section props.
Context (cfg : Config).
Local Abbreviation maxp := (agent_profile_max_parallel cfg).

(** ** Slots *)

Definition good_slots (e : ExecContext) : Prop :=
  array_length (slots e) = maxp ∧
  length (array_items (slots e)) = Z.to_nat maxp ∧
  current_profiling_cnt e = Z.of_nat (occupied (array_items (slots e))).

Definition slots_inv (p : Service) : Prop := map_Forall (fun _ => good_slots) (pf_contexts p).

Lemma slots_found e t :
  good_slots e -> current_profiling_cnt e < maxp ->
  ∃ i, array_items (slots e) !! i = Some None ∧
    occupy (indices (slots e)) t (slots e) =
      (mkArray maxp (<[i := Some t]> (array_items (slots e))), true).
Proof.
  intros (Hl & Hn & Hc) Hlt.
  destruct (occupy_spec (indices (slots e)) t (slots e)) as (i & Hi & Hf & Ho).
  - apply Forall_forall. intros i Hi. apply elem_of_seqZ in Hi. lia.
  - destruct (decide (Exists (fun x => x = None) (array_items (slots e)))) as [Hex|Hnex].
    + apply Exists_exists in Hex as (x & Hx & ->). apply list_elem_of_lookup in Hx as [j Hj].
      exists (Z.of_nat j). split; [|by rewrite Nat2Z.id].
      apply elem_of_seqZ. apply lookup_lt_Some in Hj. lia.
    + exfalso. rewrite occupied_full in Hc; [lia|]. intros j Hj. apply Hnex.
      apply Exists_exists. exists None. split; [by eapply list_elem_of_lookup_2 | done].
  - exists (Z.to_nat i). rewrite Ho, Hl. done.
Qed.

Lemma new_profiler_fields v seg c p :
  let r := (new_profiler v seg c p).1 in
  pf_contexts r = pf_contexts p ∧ pf_tasks r = pf_tasks p ∧
  task_execution_context r = task_execution_context p ∧ pf_notified r = pf_notified p ∧
  pf_snapshots r = pf_snapshots p ∧
  (new_profiler v seg c p).2 = (match view_status v with Some _ => pf_next p | None => S (pf_next p) end) ∧
  pf_next r = S (new_profiler v seg c p).2 ∧
  ∃ st, pf_profilers r = <[(new_profiler v seg c p).2 :=
    mkProfiler (view_ctx v) (view_create_time v) seg c (-1) st 0]> (pf_profilers p).
Proof. unfold new_profiler. destruct (view_status v); cbn; naive_solver. Qed.

(** What a granted or refused attempt does. *)
Lemma attempt_cases c v seg op p :
  slots_inv p ->
  (attempt_profiling cfg c v seg op p).1 = (new_status NONE p).1 ∧
  (attempt_profiling cfg c v seg op p).2 = pf_next p ∨
  ∃ e task i,
    pf_contexts p !! c = Some e ∧ pf_tasks p !! ec_task e = Some task ∧
    current_profiling_cnt e < maxp ∧ first_span_op_name task = op ∧
    total_started_profiling_cnt e <= max_sampling_count task ∧
    array_items (slots e) !! i = Some None ∧
    let np := new_profiler v seg c (upd_context c (set_cnt (current_profiling_cnt e + 1)) p) in
    (attempt_profiling cfg c v seg op p).1 =
      upd_context c (set_slots (mkArray maxp (<[i := Some np.2]> (array_items (slots e))))) np.1.
Proof.
  intros Hinv. unfold attempt_profiling.
  destruct (pf_contexts p !! c) as [e|] eqn:Ec; [|by left].
  destruct (pf_tasks p !! ec_task e) as [task|] eqn:Et; [|by left].
  destruct (Z.leb_spec maxp (current_profiling_cnt e)) as [|Hlt]; [by left|].
  destruct (bool_decide _) eqn:Eop; cbn [negb]; [|by left].
  destruct (Z.ltb_spec (max_sampling_count task) (total_started_profiling_cnt e)); [by left|].
  unfold ref_compare_and_set. rewrite decide_True by done. cbn [negb].
  destruct (new_profiler v seg c _) as [p2 t] eqn:En.
  destruct (slots_found e t (Hinv c e Ec) Hlt) as (i & Hi & ->).
  right. exists e, task, i. rewrite En. apply bool_decide_eq_true in Eop. cbn. split_and!; done || lia.
Qed.

Lemma good_slots_take e i t :
  good_slots e -> array_items (slots e) !! i = Some None ->
  good_slots (set_slots (mkArray maxp (<[i := Some t]> (array_items (slots e))))
    (set_cnt (current_profiling_cnt e + 1) e)).
Proof.
  intros (? & ? & ?) Hi. unfold good_slots. cbn -[occupied]. rewrite length_insert, occupied_take by done.
  split_and!; [done|done|lia].
Qed.

Lemma slots_upd c f p :
  slots_inv p -> (∀ e, pf_contexts p !! c = Some e -> good_slots (f e)) -> slots_inv (upd_context c f p).
Proof.
  intros H Hf c' e'. cbn. destruct (decide (c = c')) as [->|Hne].
  - rewrite lookup_alter_eq. intros (e & He & ->)%fmap_Some. by apply Hf.
  - rewrite lookup_alter_ne by done. apply H.
Qed.

Lemma attempt_slots c v seg op p :
  slots_inv p -> slots_inv (attempt_profiling cfg c v seg op p).1.
Proof.
  intros H. destruct (attempt_cases c v seg op p H)
    as [[-> _]|(e & task & i & Hc & _ & Hlt & _ & _ & Hi & ->)]; [done|].
  destruct (new_profiler_fields v seg c (upd_context c (set_cnt (current_profiling_cnt e + 1)) p))
    as (Hcs & _). cbv zeta. set (np := new_profiler _ _ _ _) in *. intros c' e'. cbn. rewrite Hcs. cbn.
  destruct (decide (c = c')) as [<-|Hne].
  - rewrite !lookup_alter_eq, Hc. cbn. intros [= <-]. apply good_slots_take; [by apply (H c)|done].
  - rewrite !lookup_alter_ne by done. apply H.
Qed.

Lemma find_slot_spec trace e p i tp :
  find_slot trace e p = Some (i, tp) ->
  ∃ t, array_items (slots e) !! i = Some (Some t) ∧ pf_profilers p !! t = Some tp ∧ tp_trace tp = trace.
Proof.
  unfold find_slot. intros H. assert ((i, tp) ∈ omap (fun i =>
    t ← mjoin (array_items (slots e) !! i); tp ← pf_profilers p !! t;
    if bool_decide (tp_trace tp = trace) then Some (i, tp) else None)
    (seq 0 (length (array_items (slots e))))) as Hin.
  { destruct (omap _ _); [done|]. injection H as ->. set_solver. }
  apply list_elem_of_omap in Hin as (j & _ & Hj).
  apply bind_Some in Hj as (t & Ht & Hj). apply bind_Some in Hj as (tp' & Htp & Hj).
  case_bool_decide; [|done]. simplify_eq. exists t.
  destruct (array_items (slots e) !! i) as [[]|]; by simplify_eq/=.
Qed.

Lemma stop_tracing_slots c trace p : slots_inv p -> slots_inv (stop_tracing_profile c trace p).
Proof.
  intros H. unfold stop_tracing_profile. destruct (pf_contexts p !! c) as [e|] eqn:Ec; [|done].
  destruct (find_slot trace e p) as [[i tp]|] eqn:Ef; [|done].
  destruct (find_slot_spec _ _ _ _ _ Ef) as (t & Hi & _).
  destruct (H c e Ec) as (Hl & Hn & Hcnt). apply lookup_lt_Some in Hi as Hlt.
  unfold array_set, array_range. rewrite (proj2 (Z.ltb_ge _ _)), (proj2 (Z.leb_gt _ _)) by lia.
  cbn [orb]. rewrite Nat2Z.id. intros c' e'. cbn.
  destruct (decide (c = c')) as [<-|Hne].
  - rewrite !lookup_alter_eq, Ec. cbn. intros [= <-]. unfold good_slots; cbn -[occupied].
    rewrite length_insert. split; [done|]. split; [done|].
    pose proof (occupied_free _ _ _ Hi). lia.
  - rewrite !lookup_alter_ne by done. apply H.
Qed.

Lemma total_slots c f p :
  slots_inv p -> (∀ e, good_slots e -> good_slots (f e)) -> slots_inv (upd_context c f p).
Proof. intros H Hf. apply slots_upd; [done|]. intros e He. by apply Hf, (H c). Qed.

Lemma build_slots now t dump p :
  slots_inv p -> slots_inv (build_snapshot cfg now t dump p).1.
Proof.
  intros H. unfold build_snapshot. destruct (pf_profilers p !! t) as [tp|], dump as [stack|]; try done.
  destruct (dump_sequence tp =? 0); [|done].
  unfold is_start_profileable. destruct (pf_contexts p !! tp_context tp) as [e|]; [|done].
  cbn [add_and_get]. destruct (negb _); by apply total_slots.
Qed.

Lemma profile_slot_slots now dumps c i p :
  slots_inv p -> slots_inv (profile_slot cfg now dumps c i p).
Proof.
  intros H. unfold profile_slot. destruct (_ ≫= _) as [[t tp]|]; [|done].
  destruct (pf_status p !! tp_status tp) as [[]|]; try done.
  - unfold start_profiling_if_need. repeat case_match; done.
  - pose proof (build_slots now t (dumps t) p H) as Hb.
    destruct (build_snapshot cfg now t (dumps t) p) as [p1 [sn|]]; [done|]. by apply stop_tracing_slots.
Qed.

Lemma round_slots now dumps c p : slots_inv p -> slots_inv (profiling_round cfg now dumps c p).
Proof.
  intros H. unfold profiling_round. destruct (pf_contexts p !! c) as [e|]; [|done].
  generalize (seq 0 (length (array_items (slots e)))) as l. intros l. revert p H.
  induction l as [|i l IH]; intros p H; cbn; [done|]. by apply IH, profile_slot_slots.
Qed.

Lemma stop_slots c p : slots_inv p -> slots_inv (stop_current_profile_task c p).
Proof.
  intros H. unfold stop_current_profile_task. destruct c as [c|]; [|done].
  destruct (ref_compare_and_set _ _ _) as [cur [|]]; [|done]. cbn [negb].
  assert (slots_inv (upd_context c (fun e => match ec_stop e with
            | Some _ => set_stop true e | None => e end) (with_current cur p))).
  { apply total_slots; [done|]. intros e He. by destruct (ec_stop e). }
  by destruct (pf_contexts p !! c).
Qed.

Lemma new_slots task : good_slots (mkExec task 0 0 (new_array maxp) None).
Proof.
  unfold good_slots, occupied. cbn. rewrite length_replicate. split; [done|]. split; [done|].
  induction (Z.to_nat maxp); [done|]. done.
Qed.

Lemma process_slots now task p : slots_inv p -> slots_inv (process_profile_task cfg now task p).
Proof.
  intros H. unfold process_profile_task. apply (stop_slots (task_execution_context p)) in H.
  set (p1 := stop_current_profile_task _ _) in *. cbn [add_context].
  assert (slots_inv (upd_context (pf_next p1) (set_stop false) (with_current (Some (pf_next p1))
    (add_context (mkExec task 0 0 (new_array maxp) None) p1).1))).
  { apply total_slots; [|done]. unfold slots_inv. cbn. apply map_Forall_insert_2; [apply new_slots | done]. }
  by case_match.
Qed.

(** A recheck leaves the service as it is, or is an attempt whose status is written
    to the context's reference. *)
Lemma recheck_cases v seg op p :
  service_recheck cfg v seg op p = p ∨
  ∃ c r st, service_recheck cfg v seg op p = update_status r st (attempt_profiling cfg c v seg op p).1.
Proof.
  unfold service_recheck, context_recheck.
  destruct (task_execution_context p) as [c|]; [|by left].
  destruct (view_status v) as [r|]; [|by left]. destruct (pf_status p !! r) as [st|]; [|by left].
  destruct (is_being_watched st); [by left|]. right.
  destruct (attempt_profiling cfg c v seg op p) as [p1 r'] eqn:E. exists c, r. eexists. by rewrite E.
Qed.

Lemma step_slots p p' : slots_inv p -> profile_step cfg p p' -> slots_inv p'.
Proof.
  intros H Hs. destruct Hs as [now t p|now i p|v seg op p|v seg op p|now dumps c p|c p].
  - unfold add_profile_task. by case_match.
  - unfold fire_timer. destruct (pf_timers p !! i) as [[due [task|c]]|]; [..|done]; case_match; try done.
    + by apply process_slots.
    + by apply stop_slots.
  - unfold add_profiling_service. case_match; [by apply attempt_slots | done].
  - destruct (recheck_cases v seg op p) as [->|(c & r & st & ->)]; [done|]. by apply attempt_slots.
  - by apply round_slots.
  - by apply stop_slots.
Qed.

Lemma reachable_slots p : profile_reachable cfg p -> slots_inv p.
Proof. induction 1; [by intros c e | by eapply step_slots]. Qed.

(** ** Snapshots *)

(** The snapshots of a profiler, and the first ones of the profilers of a context:
    one per segment that was really profiled. *)
Definition seqs (t : nat) (p : Service) : list Z :=
  map (fun ts => sn_sequence ts.2) (filter (fun ts => ts.1 = t) (pf_snapshots p)).
Definition context_of (p : Service) (t : nat) : option nat := tp_context <$> pf_profilers p !! t.
Definition firsts (c : nat) (p : Service) : nat :=
  length (filter (fun ts : nat * TracingThreadSnapshot =>
    sn_sequence ts.2 = 0 ∧ context_of p ts.1 = Some c) (pf_snapshots p)).

Record snap_inv (p : Service) : Prop := {
  si_prof t tp : pf_profilers p !! t = Some tp ->
    (t < pf_next p)%nat ∧ is_Some (pf_contexts p !! tp_context tp) ∧
    0 <= dump_sequence tp ∧ seqs t p = seqZ 0 (dump_sequence tp);
  si_snap t sn : (t, sn) ∈ pf_snapshots p -> is_Some (pf_profilers p !! t);
  si_ctx c e : pf_contexts p !! c = Some e ->
    (c < pf_next p)%nat ∧ is_Some (pf_tasks p !! ec_task e) ∧
    Z.of_nat (firsts c p) <= total_started_profiling_cnt e;
  si_max c e task : pf_contexts p !! c = Some e -> pf_tasks p !! ec_task e = Some task ->
    Z.of_nat (firsts c p) <= Z.max 0 (max_sampling_count task);
  si_task l task : pf_tasks p !! l = Some task -> (l < pf_next p)%nat;
  si_timer due l : (due, TProcess l) ∈ pf_timers p -> is_Some (pf_tasks p !! l)
}.

Lemma firsts_ext c p p' :
  pf_snapshots p' = pf_snapshots p ->
  (∀ t sn, (t, sn) ∈ pf_snapshots p -> context_of p' t = context_of p t) ->
  firsts c p' = firsts c p.
Proof.
  intros Hs Hc. unfold firsts. rewrite Hs. f_equal. apply filter_ext_in.
  intros [t sn] Hin. cbn. by rewrite (Hc t sn).
Qed.

Lemma firsts_fresh c p : snap_inv p -> pf_contexts p !! c = None -> firsts c p = 0%nat.
Proof.
  intros H Hc. unfold firsts. assert (filter (fun ts : nat * TracingThreadSnapshot =>
    sn_sequence ts.2 = 0 ∧ context_of p ts.1 = Some c) (pf_snapshots p) = []) as ->; [|done].
  apply elem_of_nil_inv. intros [t sn] Hin. apply list_elem_of_filter in Hin as [[_ Hctx] _].
  cbn in Hctx. unfold context_of in Hctx. apply fmap_Some in Hctx as (tp & Ht & ->).
  destruct (si_prof p H t tp Ht) as (_ & [e He] & _). congruence.
Qed.

(** Steps that leave profilers and snapshots alone. *)
Lemma snap_frame p p' :
  snap_inv p -> pf_profilers p' = pf_profilers p -> pf_snapshots p' = pf_snapshots p ->
  (pf_next p <= pf_next p')%nat ->
  (∀ l task, pf_tasks p' !! l = Some task ->
     pf_tasks p !! l = Some task ∨ (pf_next p <= l < pf_next p')%nat) ->
  pf_tasks p ⊆ pf_tasks p' ->
  (∀ c e, pf_contexts p !! c = Some e -> is_Some (pf_contexts p' !! c)) ->
  (∀ c e', pf_contexts p' !! c = Some e' ->
     (∃ e, pf_contexts p !! c = Some e ∧ ec_task e' = ec_task e ∧
           total_started_profiling_cnt e <= total_started_profiling_cnt e') ∨
     (pf_next p <= c < pf_next p')%nat ∧ 0 <= total_started_profiling_cnt e' ∧
     is_Some (pf_tasks p' !! ec_task e')) ->
  (∀ due l, (due, TProcess l) ∈ pf_timers p' -> is_Some (pf_tasks p' !! l)) ->
  snap_inv p'.
Proof.
  intros H Hp Hs Hn Ht Htsub Hc Hc' Htm.
  assert (∀ c, firsts c p' = firsts c p) as Hf.
  { intros c. apply firsts_ext; [done|]. intros. unfold context_of. by rewrite Hp. }
  assert (∀ c, (pf_next p <= c)%nat -> firsts c p = 0%nat) as Hf0.
  { intros c Hge. apply firsts_fresh; [done|]. destruct (pf_contexts p !! c) as [e|] eqn:E; [|done].
    apply (si_ctx p H) in E. lia. }
  split.
  - intros t tp Htp. rewrite Hp in Htp. destruct (si_prof p H t tp Htp) as (? & [e He] & ? & ?).
    split; [lia|]. split; [by eapply Hc|]. split; [done|]. unfold seqs. by rewrite Hs.
  - intros t sn Hin. rewrite Hs in Hin. rewrite Hp. by eapply si_snap.
  - intros c e' He'. rewrite Hf. destruct (Hc' c e' He') as [(e & He & -> & Hle)|(Hge & H0 & Hk)].
    + destruct (si_ctx p H c e He) as (? & [task ?] & ?). split; [lia|].
      split; [exists task; by eapply lookup_weaken | lia].
    + rewrite Hf0 by lia. split; [lia|]. split; [done | lia].
  - intros c e' task He' Htask. rewrite Hf. destruct (Hc' c e' He') as [(e & He & E & Hle)|(Hge & _)].
    + rewrite E in Htask. destruct (si_ctx p H c e He) as (_ & [task' Hk] & _).
      assert (task' = task) as -> by (eapply lookup_weaken in Hk; [|exact Htsub]; congruence).
      by eapply si_max.
    + rewrite Hf0 by lia. lia.
  - intros l task Hl. destruct (Ht l task Hl) as [Hl'|?]; [apply (si_task p H) in Hl'|]; lia.
  - done.
Qed.

(** A change of one context that keeps its task and does not lower its total. *)
Lemma snap_upd c f p :
  snap_inv p ->
  (∀ e, ec_task (f e) = ec_task e ∧ total_started_profiling_cnt e <= total_started_profiling_cnt (f e)) ->
  snap_inv (upd_context c f p).
Proof.
  intros H Hf. apply (snap_frame p); cbn; [done|done|done|lia|by left|done| | |by apply (si_timer p H)].
  - intros c' e He. destruct (decide (c = c')) as [<-|]; [rewrite lookup_alter_eq, He | rewrite lookup_alter_ne by done]; by eexists.
  - intros c' e' He'. left. destruct (decide (c = c')) as [<-|].
    + rewrite lookup_alter_eq in He'. apply fmap_Some in He' as (e & He & ->). exists e. by split; [|apply Hf].
    + rewrite lookup_alter_ne in He' by done. exists e'. split; [done|]. split; [done|lia].
Qed.

(** A new profiler: no snapshot names it. *)
Lemma snap_new_profiler v seg c e p :
  snap_inv p -> pf_contexts p !! c = Some e -> snap_inv (new_profiler v seg c p).1.
Proof.
  intros H Hc. destruct (new_profiler_fields v seg c p) as (E1 & E2 & _ & _ & E3 & E4 & E5 & st & E6).
  assert (pf_timers (new_profiler v seg c p).1 = pf_timers p) as E7.
  { unfold new_profiler. by destruct (view_status v). }
  set (t := (new_profiler v seg c p).2) in *. set (p' := (new_profiler v seg c p).1) in *.
  assert (pf_next p <= t)%nat as Hge by (destruct (view_status v); lia).
  assert (∀ t' sn, (t', sn) ∈ pf_snapshots p -> t' ≠ t) as Hfresh.
  { intros t' sn Hin ->. apply (si_snap p H) in Hin as [tp Htp]. apply (si_prof p H) in Htp. lia. }
  assert (∀ c, firsts c p' = firsts c p) as Hf.
  { intros c'. apply firsts_ext; [done|]. intros t' sn Hin. unfold context_of. rewrite E6.
    by rewrite lookup_insert_ne by (symmetry; by eapply Hfresh). }
  split.
  - intros t' tp. rewrite E6, E1. unfold seqs. rewrite E3. destruct (decide (t = t')) as [<-|Hne].
    + rewrite lookup_insert_eq. intros [= <-]. cbn. split; [lia|]. split; [by eexists|]. split; [done|].
      assert (filter (fun ts : nat * TracingThreadSnapshot => ts.1 = t) (pf_snapshots p) = []) as ->; [|done].
      apply elem_of_nil_inv. intros [t' sn] Hin. apply list_elem_of_filter in Hin as [Heq Hin].
      by apply (Hfresh t' sn).
    + rewrite lookup_insert_ne by done. intros Htp. destruct (si_prof p H t' tp Htp) as (? & ? & ? & ?).
      split; [lia|done].
  - intros t' sn. rewrite E3, E6. intros Hin. rewrite lookup_insert_ne by (symmetry; by eapply Hfresh).
    by eapply si_snap.
  - intros c' e'. rewrite E1, E2, Hf. intros He'. destruct (si_ctx p H c' e' He') as (? & ? & ?). split; [lia|done].
  - intros c' e' task. rewrite E1, E2, Hf. apply (si_max p H).
  - intros l task. rewrite E2. intros Hl. apply (si_task p H) in Hl. lia.
  - intros due l. rewrite E2, E7. apply (si_timer p H).
Qed.

Lemma snap_status p r st : snap_inv p -> snap_inv (update_status r st p).
Proof. intros []. by split. Qed.

Lemma snap_new_status p st : snap_inv p -> snap_inv (new_status st p).1.
Proof.
  intros H. apply (snap_frame p); cbn; [done|done|done|lia|by left|done|by eexists| |by apply (si_timer p H)].
  intros c e He. left. exists e. split; [done|]. split; [done|lia].
Qed.

Lemma attempt_snap c v seg op p :
  slots_inv p -> snap_inv p -> snap_inv (attempt_profiling cfg c v seg op p).1.
Proof.
  intros Hs H. destruct (attempt_cases c v seg op p Hs)
    as [[-> _]|(e & task & i & Hc & _ & Hlt & _ & _ & Hi & ->)]; [by apply snap_new_status|].
  apply snap_upd; [|intros; cbn; split; [done|lia]].
  apply (snap_new_profiler _ _ _ (set_cnt (current_profiling_cnt e + 1) e)).
  - apply snap_upd; [done|]. intros; cbn; split; [done|lia].
  - cbn. by rewrite lookup_alter_eq, Hc.
Qed.

(** A profiler update that keeps its context and its sequence number. *)
Lemma snap_upd_profiler t f p :
  snap_inv p -> (∀ tp, tp_context (f tp) = tp_context tp ∧ dump_sequence (f tp) = dump_sequence tp) ->
  snap_inv (upd_profiler t f p).
Proof.
  intros H Hf.
  assert (∀ t', context_of (upd_profiler t f p) t' = context_of p t') as Hcx.
  { intros t'. unfold context_of. cbn. destruct (decide (t = t')) as [<-|].
    - rewrite lookup_alter_eq. destruct (pf_profilers p !! t); cbn; [f_equal; apply Hf | done].
    - by rewrite lookup_alter_ne by done. }
  assert (∀ c, firsts c (upd_profiler t f p) = firsts c p) as Hfi by (intros; by apply firsts_ext).
  split; cbn [pf_contexts pf_tasks pf_next pf_snapshots pf_timers upd_profiler].
  - intros t' tp'. cbn. destruct (decide (t = t')) as [<-|].
    + rewrite lookup_alter_eq. intros (tp & Htp & ->)%fmap_Some. destruct (Hf tp) as [-> ->].
      by apply (si_prof p H).
    + rewrite lookup_alter_ne by done. apply (si_prof p H).
  - intros t' sn Hin. cbn. apply (si_snap p H) in Hin as [tp Htp]. destruct (decide (t = t')) as [<-|].
    + rewrite lookup_alter_eq, Htp. by eexists.
    + rewrite lookup_alter_ne by done. by eexists.
  - intros c e. rewrite Hfi. apply (si_ctx p H).
  - intros c e task. rewrite Hfi. apply (si_max p H).
  - apply (si_task p H).
  - apply (si_timer p H).
Qed.

Lemma firsts_emit c t sn p :
  firsts c (emit_snapshot t sn p) =
  (firsts c p + if decide (sn_sequence sn = 0%Z ∧ context_of p t = Some c) then 1 else 0)%nat.
Proof.
  unfold firsts. cbn. rewrite filter_app, length_app. f_equal.
  change (context_of (emit_snapshot t sn p)) with (context_of p).
  rewrite filter_cons, filter_nil. cbn. by case_decide.
Qed.

(** The next snapshot of a profiler.  If it is its first, the context must still
    have one to give. *)
Lemma snap_emit t tp sn p e task :
  snap_inv p -> pf_profilers p !! t = Some tp -> sn_sequence sn = dump_sequence tp ->
  pf_contexts p !! tp_context tp = Some e -> pf_tasks p !! ec_task e = Some task ->
  (dump_sequence tp = 0 ->
     Z.of_nat (firsts (tp_context tp) p) < total_started_profiling_cnt e <= max_sampling_count task) ->
  snap_inv (emit_snapshot t sn (upd_profiler t (fun tp => mkProfiler (tp_trace tp)
    (tp_trace_create_time tp) (tp_segment_id tp) (tp_context tp) (tp_start_time tp) (tp_status tp)
    (dump_sequence tp + 1)) p)).
Proof.
  intros H Ht Hsn He Htask Hroom.
  set (q := upd_profiler t _ p).
  assert (∀ t', context_of q t' = context_of p t') as Hcx.
  { intros t'. unfold context_of. cbn. destruct (decide (t = t')) as [<-|].
    - by rewrite lookup_alter_eq, Ht.
    - by rewrite lookup_alter_ne by done. }
  assert (∀ c, firsts c q = firsts c p) as Hfi by (intros; by apply firsts_ext).
  assert (context_of q t = Some (tp_context tp)) as Hct.
  { rewrite Hcx. unfold context_of. by rewrite Ht. }
  split; cbn [pf_contexts pf_tasks pf_next pf_snapshots pf_timers upd_profiler emit_snapshot q].
  - intros t' tp'. unfold seqs. cbn. rewrite filter_app, map_app, filter_cons, filter_nil. cbn.
    destruct (decide (t = t')) as [<-|Hne].
    + rewrite lookup_alter_eq, Ht. cbn. intros [= <-]. cbn.
      destruct (si_prof p H t tp Ht) as (? & ? & ? & Hseq).
      split; [done|]. split; [done|]. split; [lia|]. unfold seqs in Hseq. rewrite Hseq, Hsn.
      by rewrite seqZ_app, Z.add_0_l by lia.
    + rewrite lookup_alter_ne by done. intros Htp. destruct (si_prof p H t' tp' Htp) as (? & ? & ? & Hseq).
      split; [done|]. split; [done|]. split; [done|]. rewrite app_nil_r. done.
  - intros t' sn' Hin. cbn. apply elem_of_app in Hin as [Hin|Hin%list_elem_of_singleton].
    + apply (si_snap p H) in Hin as [tp' Htp]. destruct (decide (t = t')) as [<-|].
      * rewrite lookup_alter_eq, Htp. by eexists.
      * rewrite lookup_alter_ne by done. by eexists.
    + injection Hin as -> ->. rewrite lookup_alter_eq, Ht. by eexists.
  - intros c e' He'. rewrite firsts_emit, Hfi, Hsn, Hct.
    destruct (si_ctx p H c e' He') as (? & ? & ?). split; [done|]. split; [done|].
    case_decide as Hd; [|lia]. destruct Hd as [Hd [= <-]]. specialize (Hroom Hd). simplify_eq. lia.
  - intros c e' task' He' Hk'. rewrite firsts_emit, Hfi, Hsn, Hct.
    pose proof (si_max p H c e' task' He' Hk').
    case_decide as Hd; [|lia]. destruct Hd as [Hd [= <-]]. specialize (Hroom Hd). simplify_eq. lia.
  - apply (si_task p H).
  - apply (si_timer p H).
Qed.

Lemma build_snap now t dump p :
  snap_inv p ->
  match build_snapshot cfg now t dump p with
  | (p1, Some sn) => snap_inv (emit_snapshot t sn p1)
  | (p1, None) => snap_inv p1
  end.
Proof.
  intros H. unfold build_snapshot. destruct (pf_profilers p !! t) as [tp|] eqn:Ht; [|done].
  destruct dump as [stack|]; [|done].
  destruct (si_prof p H t tp Ht) as (_ & [e He] & _ & _).
  destruct (si_ctx p H _ e He) as (_ & [task Htask] & Hle).
  destruct (Z.eqb_spec (dump_sequence tp) 0) as [E0|E0].
  - unfold is_start_profileable. rewrite He, Htask. cbn [add_and_get].
    assert (snap_inv (upd_context (tp_context tp) (set_total (total_started_profiling_cnt e + 1)) p)) as H1.
    { apply (snap_frame p); cbn; [done|done|done|lia|by left|done| | |by apply (si_timer p H)].
      - intros c' e' He'. destruct (decide (tp_context tp = c')) as [<-|];
          [rewrite lookup_alter_eq, He' | rewrite lookup_alter_ne by done]; by eexists.
      - intros c' e' He'. left. destruct (decide (tp_context tp = c')) as [<-|].
        + rewrite lookup_alter_eq, He in He'. injection He' as <-. exists e. split; [done|]. cbn. split; [done|lia].
        + rewrite lookup_alter_ne in He' by done. exists e'. split; [done|]. split; [done|lia]. }
    destruct (Z.leb_spec (total_started_profiling_cnt e + 1) (max_sampling_count task)) as [Hm|]; [|done].
    cbn [negb]. apply (snap_emit t tp _ _ (set_total (total_started_profiling_cnt e + 1) e) task);
      [done|done|done| |exact Htask|].
    + cbn. rewrite lookup_alter_eq, He. done.
    + intros _. rewrite (firsts_ext _ p) by done. cbn -[firsts]. lia.
  - cbn [negb]. by eapply (snap_emit t tp).
Qed.

Lemma stop_tracing_snap c trace p : snap_inv p -> snap_inv (stop_tracing_profile c trace p).
Proof.
  intros H. unfold stop_tracing_profile. repeat case_match; try done.
  apply snap_upd; [|intros; cbn; split; [done|lia]]. apply snap_status, snap_upd; [done|].
  intros; cbn; split; [done|lia].
Qed.

Lemma round_snap now dumps c p : snap_inv p -> snap_inv (profiling_round cfg now dumps c p).
Proof.
  intros H. unfold profiling_round. destruct (pf_contexts p !! c) as [e|]; [|done].
  generalize (seq 0 (length (array_items (slots e)))) as l. intros l. revert p H.
  induction l as [|i l IH]; intros p H; cbn [foldl]; [done|]. apply IH. clear IH.
  unfold profile_slot. destruct (_ ≫= _) as [[t tp]|]; [|done].
  destruct (pf_status p !! tp_status tp) as [[]|]; try done.
  - unfold start_profiling_if_need. repeat case_match; try done. by apply snap_status, snap_upd_profiler.
  - pose proof (build_snap now t (dumps t) p H) as Hb.
    destruct (build_snapshot cfg now t (dumps t) p) as [p1 [sn|]]; [done|]. by apply stop_tracing_snap.
Qed.

Lemma stop_snap c p : snap_inv p -> snap_inv (stop_current_profile_task c p).
Proof.
  intros H. unfold stop_current_profile_task. destruct c as [c|]; [|done].
  destruct (ref_compare_and_set _ _ _) as [cur [|]]; [|done]. cbn [negb].
  assert (snap_inv (upd_context c (fun e => match ec_stop e with
            | Some _ => set_stop true e | None => e end) (with_current cur p))) as H1.
  { apply snap_upd; [by destruct H|]. intros e. destruct (ec_stop e); cbn; split; done || lia. }
  destruct (pf_contexts p !! c); [|done]. by destruct H1.
Qed.

Lemma stop_fields c p :
  pf_next (stop_current_profile_task c p) = pf_next p ∧
  pf_tasks (stop_current_profile_task c p) = pf_tasks p ∧
  pf_timers (stop_current_profile_task c p) = pf_timers p.
Proof. unfold stop_current_profile_task. repeat case_match; done. Qed.

Lemma process_snap now task p :
  snap_inv p -> is_Some (pf_tasks p !! task) -> snap_inv (process_profile_task cfg now task p).
Proof.
  intros H Hk. unfold process_profile_task.
  destruct (stop_fields (task_execution_context p) p) as (En & Et & Em).
  apply (stop_snap (task_execution_context p)) in H. rewrite <- Et in Hk.
  set (p1 := stop_current_profile_task _ _) in *. clearbody p1. destruct Hk as [tk Hk].
  cbn [add_context]. cbn [pf_tasks upd_context with_current]. rewrite Hk.
  apply (snap_frame p1); cbn; [done|done|done|lia|by left|done| | |].
  - intros c e He. destruct (decide (pf_next p1 = c)) as [<-|].
    + rewrite lookup_alter_eq, lookup_insert_eq. by eexists.
    + rewrite lookup_alter_ne, lookup_insert_ne by done. by eexists.
  - intros c e'. destruct (decide (pf_next p1 = c)) as [<-|].
    + rewrite lookup_alter_eq, lookup_insert_eq. intros [= <-]. right. cbn. split; [lia|]. split; [done|]. by eexists.
    + rewrite lookup_alter_ne, lookup_insert_ne by done. intros He. left. exists e'. split; [done|]. split; [done|lia].
  - intros due l Hin. apply elem_of_app in Hin as [Hin|Hin%list_elem_of_singleton]; [by eapply si_timer|done].
Qed.

Lemma add_task_snap now t p : snap_inv p -> snap_inv (add_profile_task now t p).
Proof.
  intros H. assert (pf_tasks p !! pf_next p = None) as Hn.
  { destruct (pf_tasks p !! pf_next p) as [k|] eqn:E; [|done]. apply (si_task p H) in E. lia. }
  assert (∀ c e, pf_contexts p !! c = Some e -> (∃ e0, pf_contexts p !! c = Some e0 ∧
    ec_task e = ec_task e0 ∧ total_started_profiling_cnt e0 <= total_started_profiling_cnt e)) as Hid.
  { intros c e He. exists e. split; [done|]. split; [done|lia]. }
  assert (∀ l task, <[pf_next p := t]> (pf_tasks p) !! l = Some task ->
     pf_tasks p !! l = Some task ∨ (pf_next p <= l < S (pf_next p))%nat) as Hl.
  { intros l task. destruct (decide (pf_next p = l)) as [<-|]; [right; lia|].
    rewrite lookup_insert_ne by done. by left. }
  unfold add_profile_task. case_match;
    (apply (snap_frame p); cbn; [done|done|done|lia|done|by apply insert_subseteq|by eexists|by left; apply Hid|]).
  - intros due l Hin. apply elem_of_app in Hin as [Hin|Hin%list_elem_of_singleton].
    + apply (si_timer p H) in Hin as [k Hk]. exists k. eapply lookup_weaken; [exact Hk|by apply insert_subseteq].
    + injection Hin as _ ->. rewrite lookup_insert_eq. by eexists.
  - intros due l Hin. apply (si_timer p H) in Hin as [k Hk]. exists k.
    eapply lookup_weaken; [exact Hk|by apply insert_subseteq].
Qed.

Lemma timers_snap i p : snap_inv p -> snap_inv (with_timers (delete i (pf_timers p)) p).
Proof.
  intros H. apply (snap_frame p); cbn; [done|done|done|lia|by left|done|by eexists| |].
  - intros c e He. left. exists e. split; [done|]. split; [done|lia].
  - intros due l Hin. eapply (si_timer p H). eapply elem_of_submseteq; [exact Hin|].
    apply sublist_submseteq, sublist_delete.
Qed.

Lemma step_snap p p' : slots_inv p -> snap_inv p -> profile_step cfg p p' -> snap_inv p'.
Proof.
  intros Hs H St. destruct St as [now t p|now i p|v seg op p|v seg op p|now dumps c p|c p].
  - by apply add_task_snap.
  - unfold fire_timer. destruct (pf_timers p !! i) as [[due tm]|] eqn:Ei; [|done].
    destruct (due <=? now); [|done]. pose proof (timers_snap i p H) as H1.
    destruct tm as [task|c]; [|by apply stop_snap]. apply process_snap; [done|].
    eapply (si_timer p H). by eapply list_elem_of_lookup_2.
  - unfold add_profiling_service. case_match; [by apply attempt_snap | by apply snap_new_status].
  - destruct (recheck_cases v seg op p) as [->|(c & r & st & ->)]; [done|]. by apply snap_status, attempt_snap.
  - by apply round_snap.
  - by apply stop_snap.
Qed.

Lemma reachable_snap p : profile_reachable cfg p -> snap_inv p.
Proof.
  induction 1 as [|p p' Hr IH St]; [|by eapply step_snap; [apply reachable_slots| |]].
  split; intros *; cbn; rewrite ?lookup_empty; try done; set_solver.
Qed.

(** ** The end of a task *)

(** Every context is the current one, running, or has been stopped and notified. *)
Record run_inv (p : Service) : Prop := {
  ri_nodup : NoDup (pf_notified p);
  ri_dom c : c ∈ pf_notified p ∨ task_execution_context p = Some c -> is_Some (pf_contexts p !! c);
  ri_state c e : pf_contexts p !! c = Some e ->
    if decide (task_execution_context p = Some c)
    then ec_stop e = Some false ∧ c ∉ pf_notified p
    else ec_stop e = Some true ∧ c ∈ pf_notified p
}.

(** Changes that touch neither the stop event of a context nor who runs. *)
Lemma run_frame p p' :
  run_inv p -> task_execution_context p' = task_execution_context p ->
  pf_notified p' = pf_notified p -> (∀ c, ec_stop <$> pf_contexts p' !! c = ec_stop <$> pf_contexts p !! c) ->
  run_inv p'.
Proof.
  intros [H1 H2 H3] Hc Hn Hs. split; rewrite ?Hc, ?Hn; [done|..].
  - intros c Hin. specialize (Hs c). destruct (H2 c Hin) as [e He]. rewrite He in Hs. cbn in Hs.
    apply fmap_Some in Hs as (e' & ? & _). by eexists.
  - intros c e' He'. specialize (Hs c). rewrite He' in Hs. symmetry in Hs. cbn in Hs.
    apply fmap_Some in Hs as (e & He & ->). by apply H3.
Qed.

Lemma run_upd c f p :
  run_inv p -> (∀ e, ec_stop (f e) = ec_stop e) -> run_inv (upd_context c f p).
Proof.
  intros H Hf. apply (run_frame p); [done..|]. intros c'. cbn. destruct (decide (c = c')) as [<-|].
  - rewrite lookup_alter_eq. destruct (pf_contexts p !! c); cbn; [by rewrite Hf | done].
  - by rewrite lookup_alter_ne.
Qed.

Lemma attempt_run c v seg op p :
  slots_inv p -> run_inv p -> run_inv (attempt_profiling cfg c v seg op p).1.
Proof.
  intros Hs H. destruct (attempt_cases c v seg op p Hs)
    as [[-> _]|(e & task & i & Hc & _ & Hlt & _ & _ & Hi & ->)]; [by apply (run_frame p)|].
  apply run_upd; [|done]. apply (run_frame (upd_context c (set_cnt (current_profiling_cnt e + 1)) p)).
  - by apply run_upd.
  - apply new_profiler_fields.
  - apply new_profiler_fields.
  - intros c'. by rewrite (proj1 (new_profiler_fields _ _ _ _)).
Qed.

Lemma stop_tracing_run c trace p : run_inv p -> run_inv (stop_tracing_profile c trace p).
Proof.
  intros H. unfold stop_tracing_profile. repeat case_match; try done.
  apply run_upd; [|done]. apply (run_frame (upd_context c (set_slots a) p)); [|done..]. by apply run_upd.
Qed.

Lemma build_run now t dump p : run_inv p -> run_inv (build_snapshot cfg now t dump p).1.
Proof.
  intros H. unfold build_snapshot. destruct (pf_profilers p !! t) as [tp|], dump as [stack|]; try done.
  destruct (dump_sequence tp =? 0); cbn [negb]; [|by apply (run_frame p)].
  unfold is_start_profileable. destruct (pf_contexts p !! tp_context tp) as [e|]; [|done].
  cbn [add_and_get]. destruct (negb _); [by apply run_upd|].
  apply (run_frame (upd_context (tp_context tp) (set_total (total_started_profiling_cnt e + 1)) p));
    [|done..]. by apply run_upd.
Qed.

Lemma slot_run now dumps c i p : run_inv p -> run_inv (profile_slot cfg now dumps c i p).
Proof.
  intros H. unfold profile_slot. destruct (_ ≫= _) as [[t tp]|]; [|done].
  destruct (pf_status p !! tp_status tp) as [[]|]; try done.
  - unfold start_profiling_if_need. repeat case_match; try done. by apply (run_frame p).
  - pose proof (build_run now t (dumps t) p H) as Hb.
    destruct (build_snapshot cfg now t (dumps t) p) as [p1 [sn|]]; [by apply (run_frame p1)|].
    by apply stop_tracing_run.
Qed.

Lemma round_run now dumps c p : run_inv p -> run_inv (profiling_round cfg now dumps c p).
Proof.
  intros H. unfold profiling_round. destruct (pf_contexts p !! c) as [e|]; [|done].
  generalize (seq 0 (length (array_items (slots e)))) as l. intros l. revert p H.
  induction l as [|i l IH]; intros p H; cbn [foldl]; [done|]. by apply IH, slot_run.
Qed.

Lemma stop_run c p : run_inv p -> run_inv (stop_current_profile_task c p).
Proof.
  intros H. unfold stop_current_profile_task. destruct c as [c|]; [|done].
  unfold ref_compare_and_set. destruct (decide (task_execution_context p = Some c)) as [E|]; [|done].
  cbn [negb]. destruct (ri_dom p H c (or_intror E)) as [e He]. rewrite He.
  pose proof (ri_state p H c e He) as Hst. rewrite decide_True in Hst by done. destruct Hst as [Hst Hnin].
  split; cbn.
  - apply NoDup_app. split; [apply (ri_nodup p H)|]. split; [set_solver|apply NoDup_singleton].
  - intros c' Hc'. destruct (decide (c = c')) as [<-|Hne]; [rewrite lookup_alter_eq, He; by eexists|].
    rewrite lookup_alter_ne by done. apply (ri_dom p H). set_solver.
  - intros c' e' He'. destruct (decide (c = c')) as [<-|Hne].
    + rewrite lookup_alter_eq, He in He'. injection He' as <-. rewrite Hst. cbn. split; [done|set_solver].
    + rewrite lookup_alter_ne in He' by done. pose proof (ri_state p H c' e' He') as Hst'.
      rewrite decide_False in Hst' by congruence. split; [apply Hst' | set_solver].
Qed.

Lemma stop_current_none p : task_execution_context (stop_current_profile_task (task_execution_context p) p) = None.
Proof.
  unfold stop_current_profile_task, ref_compare_and_set. destruct (task_execution_context p) as [c|] eqn:E; [|done].
  rewrite decide_True by done. cbn [negb]. by destruct (pf_contexts p !! c).
Qed.

Lemma process_run now task p :
  snap_inv p -> run_inv p -> run_inv (process_profile_task cfg now task p).
Proof.
  intros Hs H. unfold process_profile_task.
  apply (stop_run (task_execution_context p)) in H. apply (stop_snap (task_execution_context p)) in Hs.
  pose proof (stop_current_none p) as Hnone.
  set (p1 := stop_current_profile_task _ _) in *. clearbody p1. cbn [add_context].
  assert (pf_contexts p1 !! pf_next p1 = None) as Hfresh.
  { destruct (pf_contexts p1 !! pf_next p1) as [e|] eqn:E; [|done]. apply (si_ctx p1 Hs) in E. lia. }
  assert (pf_next p1 ∉ pf_notified p1) as Hnin.
  { intros Hin. destruct (ri_dom p1 H (pf_next p1) (or_introl Hin)). congruence. }
  assert (run_inv (upd_context (pf_next p1) (set_stop false) (with_current (Some (pf_next p1))
    (add_context (mkExec task 0 0 (new_array maxp) None) p1).1))) as Hr.
  { split; cbn.
    - apply (ri_nodup p1 H).
    - intros c Hc. destruct (decide (pf_next p1 = c)) as [<-|].
      + rewrite lookup_alter_eq, lookup_insert_eq. by eexists.
      + rewrite lookup_alter_ne, lookup_insert_ne by done. apply (ri_dom p1 H). left.
        destruct Hc as [Hc|Hc]; [done|congruence].
    - intros c e. destruct (decide (pf_next p1 = c)) as [<-|].
      + rewrite lookup_alter_eq, lookup_insert_eq. intros [= <-]. by rewrite decide_True.
      + rewrite lookup_alter_ne, lookup_insert_ne by done. intros He.
        pose proof (ri_state p1 H c e He) as Hst. rewrite Hnone in Hst.
        rewrite decide_False in Hst by done. rewrite decide_False by congruence. done. }
  case_match; [by eapply run_frame|done].
Qed.

Lemma step_run p p' :
  slots_inv p -> snap_inv p -> run_inv p -> profile_step cfg p p' -> run_inv p'.
Proof.
  intros Hs Hn H St. destruct St as [now t p|now i p|v seg op p|v seg op p|now dumps c p|c p].
  - unfold add_profile_task. case_match; by apply (run_frame p).
  - unfold fire_timer. destruct (pf_timers p !! i) as [[due tm]|] eqn:Ei; [|done].
    destruct (due <=? now) eqn:Ed; [|done].
    assert (run_inv (with_timers (delete i (pf_timers p)) p)) as H1 by (by apply (run_frame p)).
    destruct tm as [task|c]; [|by apply stop_run]. apply process_run; [by apply timers_snap|done].
  - unfold add_profiling_service. case_match; [by apply attempt_run | by apply (run_frame p)].
  - destruct (recheck_cases v seg op p) as [->|(c & r & st & ->)]; [done|].
    apply (run_frame (attempt_profiling cfg c v seg op p).1); [by apply attempt_run|done..].
  - by apply round_run.
  - by apply stop_run.
Qed.

Lemma reachable_run p : profile_reachable cfg p -> run_inv p.
Proof.
  induction 1 as [|p p' Hr IH St].
  - split; intros *; cbn; rewrite ?lookup_empty; try done; [apply NoDup_nil_2 | set_solver].
  - eapply step_run; [by apply reachable_slots | by apply reachable_snap | done | done].
Qed.

(** ** Claims *)

(** Whether [attempt_profiling] grants a slot. *)
Definition grants (e : ExecContext) (task : ProfileTask) (op : pystr) : bool :=
  (current_profiling_cnt e <? maxp) && bool_decide (first_span_op_name task = op) &&
  (total_started_profiling_cnt e <=? max_sampling_count task).

Lemma attempt_status c v seg op p e task :
  slots_inv p -> pf_contexts p !! c = Some e -> pf_tasks p !! ec_task e = Some task ->
  let r := attempt_profiling cfg c v seg op p in
  pf_status r.1 !! r.2 = Some (if grants e task op then PENDING else NONE) ∧
  current_profiling_cnt <$> pf_contexts r.1 !! c =
    Some (current_profiling_cnt e + if grants e task op then 1 else 0).
Proof.
  intros Hinv Hc Ht. unfold attempt_profiling, grants. rewrite Hc, Ht.
  assert (∀ b : bool, b = false ->
    pf_status (new_status NONE p).1 !! (new_status NONE p).2 = Some (if b then PENDING else NONE) ∧
    current_profiling_cnt <$> pf_contexts (new_status NONE p).1 !! c =
      Some (current_profiling_cnt e + if b then 1 else 0)) as Hno.
  { intros b ->. cbn. rewrite lookup_insert_eq, Hc. cbn. split; [done|]. f_equal. lia. }
  destruct (Z.leb_spec maxp (current_profiling_cnt e)) as [Hge|Hlt].
  { apply Hno. by rewrite (proj2 (Z.ltb_ge _ _)). }
  destruct (bool_decide _) eqn:Eop; cbn [negb]; [|apply Hno; by rewrite andb_false_r].
  destruct (Z.ltb_spec (max_sampling_count task) (total_started_profiling_cnt e)).
  { apply Hno. by rewrite (proj2 (Z.leb_gt _ _)), andb_false_r. }
  rewrite (proj2 (Z.ltb_lt _ _)), (proj2 (Z.leb_le _ _)) by lia. cbn [andb].
  unfold ref_compare_and_set. rewrite decide_True by done. cbn [negb].
  unfold new_profiler. destruct (view_status v) as [r|]; cbn [new_status add_profiler fst snd].
  all: match goal with |- context [occupy _ ?t _] =>
    destruct (slots_found e t (Hinv c e Hc) Hlt) as (i & Hi & ->) end.
  all: cbn; rewrite lookup_insert_eq; cbn; rewrite lookup_insert_eq, !lookup_alter_eq, Hc; done.
Qed.

(**  In every state the profiler can reach, the counter of an execution context
    is the number of its occupied slots and at most the configured parallelism, and a
    new segment gets a slot, with a pending status, exactly when one is free, its
    first operation is the profiled endpoint and the task's sampling limit is not
    exceeded.  A refused segment gets the status none and changes no counter. *)
Theorem profiling_slots p c e task :
  profile_reachable cfg p -> pf_contexts p !! c = Some e -> pf_tasks p !! ec_task e = Some task ->
  current_profiling_cnt e = Z.of_nat (occupied (array_items (slots e))) ∧
  0 <= current_profiling_cnt e <= Z.max 0 maxp ∧
  ∀ v seg op, let r := attempt_profiling cfg c v seg op p in
    pf_status r.1 !! r.2 = Some (if grants e task op then PENDING else NONE) ∧
    current_profiling_cnt <$> pf_contexts r.1 !! c =
      Some (current_profiling_cnt e + if grants e task op then 1 else 0).
Proof.
  intros Hr Hc Ht. pose proof (reachable_slots p Hr) as Hinv. destruct (Hinv c e Hc) as (? & Hn & Hcnt).
  pose proof (occupied_le (array_items (slots e))).
  split; [done|]. split; [lia|]. intros v seg op. by apply attempt_status.
Qed.

(**  The snapshots handed over for one profiled segment are numbered from zero
    without gaps, and a task never profiles more segments than its sampling limit,
    however often segments start, fail to be dumped or are replaced. *)
Theorem snapshots_numbered p :
  profile_reachable cfg p ->
  (∀ t tp, pf_profilers p !! t = Some tp -> seqs t p = seqZ 0 (dump_sequence tp)) ∧
  (∀ c e task, pf_contexts p !! c = Some e -> pf_tasks p !! ec_task e = Some task ->
     Z.of_nat (firsts c p) <= Z.max 0 (max_sampling_count task)).
Proof.
  intros Hr. pose proof (reachable_snap p Hr) as H. split.
  - intros t tp Htp. by apply (si_prof p H).
  - apply (si_max p H).
Qed.

(**  At any time a task execution is either the current one and running, or it
    has been stopped: then its stop event is set and its end was notified, exactly
    once, although the duration timer, the next task and the profiling thread may
    all try to stop it. *)
Theorem task_end_notified_once p c e :
  profile_reachable cfg p -> pf_contexts p !! c = Some e ->
  NoDup (pf_notified p) ∧
  if decide (task_execution_context p = Some c)
  then ec_stop e = Some false ∧ c ∉ pf_notified p
  else ec_stop e = Some true ∧ c ∈ pf_notified p.
Proof.
  intros Hr Hc. pose proof (reachable_run p Hr) as H. split; [apply (ri_nodup p H)|].
  by apply (ri_state p H).
Qed.
End props.

(** The limits the constants of profile_constants.py put on a task. *)
Definition within_limits (t : ProfileTask) : Prop :=
  first_span_op_name t ≠ [] ∧ 1 <= duration t <= 15 ∧ 0 <= min_duration_threshold t ∧
  10 <= thread_dump_period t ∧ 0 < max_sampling_count t < 10.

(**  A task is accepted if and only if its fields are within the limits and it
    ends after every queued task ends: start times are not compared, so a task that
    overlaps a queued one is accepted when it ends later, and one that ends before
    the queued task begins is refused. *)
Theorem profile_task_accepted t p :
  Forall (fun l => is_Some (pf_tasks p !! l)) (profile_task_list p) ->
  check_profile_task t p = true <->
  within_limits t ∧
  (∀ l q, l ∈ profile_task_list p -> pf_tasks p !! l = Some q ->
     cal_profile_task_finish_time q < cal_profile_task_finish_time t).
Proof.
  intros Hq. unfold check_profile_task, within_limits.
  unfold TASK_DURATION_MIN_MINUTE, TASK_DURATION_MAX_MINUTE, TASK_DUMP_PERIOD_MIN_MILLIS, TASK_MAX_SAMPLING_COUNT.
  case_bool_decide; [naive_solver|].
  destruct (Z.ltb_spec (duration t) 1); [naive_solver lia|].
  destruct (Z.ltb_spec 15 (duration t)); [naive_solver lia|].
  destruct (Z.ltb_spec (min_duration_threshold t) 0); [naive_solver lia|].
  destruct (Z.ltb_spec (thread_dump_period t) 10); [naive_solver lia|].
  destruct (Z.leb_spec (max_sampling_count t) 0); [naive_solver lia|].
  destruct (Z.leb_spec 10 (max_sampling_count t)); [naive_solver lia|].
  rewrite negb_true_iff, <- not_true_iff_false, existsb_exists.
  assert (task_start_time t <= cal_profile_task_finish_time t).
  { unfold cal_profile_task_finish_time, MINUTE_TO_MILLIS. lia. }
  split.
  - intros Hn. split; [split_and!; done || lia|]. intros l q Hl Hlq.
    destruct (Z.ltb_spec (cal_profile_task_finish_time q) (cal_profile_task_finish_time t)); [done|].
    exfalso. apply Hn. exists l. rewrite Hlq. split; [by apply list_elem_of_In|].
    rewrite !(proj2 (Z.leb_le _ _)); done.
  - intros [_ Hall] (l & Hl & Hb). apply list_elem_of_In in Hl.
    rewrite Forall_forall in Hq. destruct (Hq l Hl) as [q Hlq]. rewrite Hlq in Hb.
    apply andb_true_iff in Hb as [_ Hb]. apply Z.leb_le in Hb. specialize (Hall l q Hl Hlq). lia.
Qed.

(** *** A run with one task, two segments and three rounds *)

Definition demo_task : ProfileTask := mkTask (py "T") (py "/op") 1 0 10 1 0 5.
Definition demo_view (x : nat) : TraceView := mkView x None 0.
Definition demo_run (cfg : Config) : Service :=
  let p := fire_timer cfg 0 0 (add_profile_task 0 demo_task new_service) in
  let p := (add_profiling_service cfg (demo_view 100) (py "s1") (py "/op") p).1 in
  let p := (add_profiling_service cfg (demo_view 101) (py "s2") (py "/op") p).1 in
  let dumps := fun _ => Some [py "f"; py "g"] in
  let p := profiling_round cfg 20 dumps 1 p in
  profiling_round cfg 40 dumps 1 (profiling_round cfg 30 dumps 1 p).

Lemma demo_reachable cfg : profile_reachable cfg (demo_run cfg).
Proof.
  unfold demo_run.
  repeat (eapply reach_step;
    [| first [apply step_round | apply step_enter | apply step_timer | apply step_add]]).
  apply reach_new.
Qed.

Lemma profiling_slots_witness :
  ∃ e, pf_contexts (demo_run default_config) !! 1%nat = Some e ∧
    current_profiling_cnt e = Z.of_nat (occupied (array_items (slots e))) ∧
    occupied (array_items (slots e)) = 1%nat.
Proof.
  eexists. split; [vm_compute; reflexivity|]. split; [|vm_compute; reflexivity].
  eapply (profiling_slots default_config (demo_run default_config) 1 _ demo_task);
    [apply demo_reachable | vm_compute; reflexivity | vm_compute; reflexivity].
Defined.

Lemma snapshots_numbered_witness :
  seqs 3 (demo_run default_config) = [0; 1] ∧
  (∀ t tp, pf_profilers (demo_run default_config) !! t = Some tp ->
     seqs t (demo_run default_config) = seqZ 0 (dump_sequence tp)).
Proof.
  split; [vm_compute; reflexivity|].
  apply (snapshots_numbered default_config), demo_reachable.
Defined.

Lemma task_end_notified_once_witness :
  let p := stop_current_profile_task (Some 1%nat) (demo_run default_config) in
  pf_notified p = [1%nat] ∧ NoDup (pf_notified p).
Proof.
  split; [vm_compute; reflexivity|].
  eapply (task_end_notified_once default_config _ 1); [|vm_compute; reflexivity].
  eapply reach_step; [apply demo_reachable | apply step_thread_end].
Defined.

(** Minutes 1 to 3 are accepted although minutes 0 to 2 are queued. *)
Lemma profile_task_accepted_witness :
  let p := add_profile_task 0 (mkTask (py "A") (py "/a") 2 0 10 1 0 0) new_service in
  let t := mkTask (py "B") (py "/b") 2 0 10 1 60000 0 in
  check_profile_task t p = true <->
  within_limits t ∧
  (∀ l q, l ∈ profile_task_list p -> pf_tasks p !! l = Some q ->
     cal_profile_task_finish_time q < cal_profile_task_finish_time t).
Proof.
  apply profile_task_accepted. apply Forall_forall. vm_compute.
  intros l Hl. apply list_elem_of_In in Hl as [<-|[]]. by eexists.
Defined.
