(* ===== verification/ProfileConc.v ===== *)
(** * Threads competing for profiling slots

    [attempt_profiling] runs in every thread of the host application while the
    profiling thread runs [stop_tracing_profile].  The counter and the slots are only
    touched by the atomic operations of utils/atomic_ref.py, utils/integer.py and
    utils/array.py, so an execution is an interleaving of these.  A thread's program
    counter is its place between two of them. *)

From S2P Require Import Prelude Config Profile.

(** ** Program counters *)

Inductive attempt_pc :=
| AStart                 (* about to read the counter *)
| APeeked (u : Z)        (* read [u]; about to check the operation name and the limit *)
| ACas (u : Z)           (* about to raise the counter from [u] *)
| AScan (i : nat)        (* raised it; about to try slot [i] *)
| AGranted (i : nat)     (* owns slot [i] *)
| ARefused.

Inductive release_pc :=
| RIdle
| RFound (i : nat)       (* found the profiler to stop in slot [i] *)
| RCleared.              (* emptied the slot; about to lower the counter *)

Record Conc := mkConc {
  k_cnt : Z;
  k_slots : AtomicArray nat;
  k_threads : list attempt_pc;
  k_rel : release_pc
}.

Definition set_thread (t : nat) (pc : attempt_pc) (s : Conc) : Conc :=
  mkConc (k_cnt s) (k_slots s) (<[t := pc]> (k_threads s)) (k_rel s).

Section conc.
Context (max_parallel : Z).

Definition init_conc : Conc := mkConc 0 (new_array max_parallel) [] RIdle.

(** One atomic operation of an attempt; [pass] is whether the operation name and
    the sampling limit let the thread go on. *)
Definition attempt_step (t : nat) (pass : bool) (s : Conc) : Conc :=
  match k_threads s !! t with
  | Some AStart =>
      set_thread t (if max_parallel <=? k_cnt s then ARefused else APeeked (k_cnt s)) s
  | Some (APeeked u) => set_thread t (if pass then ACas u else ARefused) s
  | Some (ACas u) =>
      let (cnt, set) := ref_compare_and_set u (u + 1) (k_cnt s) in
      set_thread t (if set then AScan 0 else ARefused)
        (mkConc cnt (k_slots s) (k_threads s) (k_rel s))
  | Some (AScan i) =>
      if Z.of_nat i <? array_length (k_slots s) then
        match array_compare_and_set (Z.of_nat i) None (Some t) (k_slots s) with
        | Ok (a, true) => set_thread t (AGranted i) (mkConc (k_cnt s) a (k_threads s) (k_rel s))
        | _ => set_thread t (AScan (S i)) s
        end
      else set_thread t ARefused s
  | _ => s
  end.

(** One atomic operation of [stop_tracing_profile] on a profiler in slot [i]. *)
Definition release_step (i : nat) (s : Conc) : Conc :=
  match k_rel s with
  | RIdle =>
      match array_items (k_slots s) !! i with
      | Some (Some _) => mkConc (k_cnt s) (k_slots s) (k_threads s) (RFound i)
      | _ => s
      end
  | RFound j =>
      match array_set (Z.of_nat j) None (k_slots s) with
      | Ok a => mkConc (k_cnt s) a (k_threads s) RCleared
      | Raise _ => s
      end
  | RCleared => mkConc (add_and_get (-1) (k_cnt s)).1 (k_slots s) (k_threads s) RIdle
  end.

Inductive conc_step : Conc -> Conc -> Prop :=
| conc_spawn s : conc_step s (mkConc (k_cnt s) (k_slots s) (k_threads s ++ [AStart]) (k_rel s))
| conc_attempt t pass s : conc_step s (attempt_step t pass s)
| conc_release i s : conc_step s (release_step i s).

Inductive conc_reachable : Conc -> Prop :=
| conc_init : conc_reachable init_conc
| conc_next s s' : conc_reachable s -> conc_step s s' -> conc_reachable s'.
End conc.

(** ** Weighted sums over a list *)

Fixpoint wsum {A} (w : nat -> A -> nat) (k : nat) (l : list A) : nat :=
  match l with
  | [] => 0
  | x :: l' => w k x + wsum w (S k) l'
  end.

Lemma wsum_insert {A} (w : nat -> A -> nat) k l i x y :
  l !! i = Some x -> (wsum w k (<[i := y]> l) + w (k + i) x = wsum w k l + w (k + i) y)%nat.
Proof.
  revert k i. induction l as [|z l IH]; intros k [|i] H; try done.
  - injection H as ->. cbn. rewrite Nat.add_0_r. lia.
  - change (<[S i := y]> (z :: l)) with (z :: <[i := y]> l). cbn [wsum].
    specialize (IH (S k) i H). replace (k + S i)%nat with (S k + i)%nat by lia. lia.
Qed.

Lemma wsum_app {A} (w : nat -> A -> nat) k l x :
  wsum w k (l ++ [x]) = (wsum w k l + w (k + length l) x)%nat.
Proof.
  revert k. induction l as [|z l IH]; intros k; cbn; [by rewrite !Nat.add_0_r|].
  rewrite IH. rewrite <- Nat.add_succ_comm. cbn. lia.
Qed.

Lemma wsum_le {A} (w w' : nat -> A -> nat) k l :
  (∀ k x, w k x <= w' k x)%nat -> (wsum w k l <= wsum w' k l)%nat.
Proof. intros H. revert k. induction l as [|z l IH]; intros k; cbn; [lia|]. specialize (H k z). specialize (IH (S k)). lia. Qed.

Lemma wsum_lt {A} (w w' : nat -> A -> nat) k l i x :
  (∀ k x, w k x <= w' k x)%nat -> l !! i = Some x -> (w (k + i) x < w' (k + i) x)%nat ->
  (wsum w k l < wsum w' k l)%nat.
Proof.
  intros Hle. revert k i. induction l as [|z l IH]; intros k [|i] H Hlt; cbn in *; try done.
  - injection H as ->. rewrite Nat.add_0_r in Hlt. pose proof (wsum_le w w' (S k) l Hle). lia.
  - pose proof (Hle k z). rewrite <- Nat.add_succ_comm in Hlt. specialize (IH (S k) i H Hlt). lia.
Qed.

Lemma wsum_pos {A} (w : nat -> A -> nat) k l :
  (0 < wsum w k l)%nat -> ∃ i x, l !! i = Some x ∧ (0 < w (k + i) x)%nat.
Proof.
  revert k. induction l as [|z l IH]; intros k H; cbn in *; [lia|].
  destruct (w k z) eqn:E.
  - destruct (IH (S k)) as (i & x & ? & ?); [lia|]. exists (S i), x. split; [done|]. by rewrite <- Nat.add_succ_comm.
  - exists 0%nat, z. split; [done|]. rewrite Nat.add_0_r. lia.
Qed.

(** ** The invariant *)

(** Slots taken, free slots from [j] on, and threads scanning from [j] on. *)
Definition w_taken (_ : nat) (x : option nat) : nat := match x with Some _ => 1 | None => 0 end.
Definition w_free (j k : nat) (x : option nat) : nat :=
  match x with None => if (j <=? k)%nat then 1 else 0 | Some _ => 0 end.
Definition w_scan (j _ : nat) (a : attempt_pc) : nat :=
  match a with AScan i => if (j <=? i)%nat then 1 else 0 | _ => 0 end.

Definition taken (s : Conc) : nat := wsum w_taken 0 (array_items (k_slots s)).
Definition free_from (j : nat) (s : Conc) : nat := wsum (w_free j) 0 (array_items (k_slots s)).
Definition scan_from (j : nat) (s : Conc) : nat := wsum (w_scan j) 0 (k_threads s).
Definition clearing (s : Conc) : nat := match k_rel s with RCleared => 1 | _ => 0 end.

Record conc_inv (n : Z) (s : Conc) : Prop := {
  ci_length : array_length (k_slots s) = n ∧ length (array_items (k_slots s)) = Z.to_nat n;
  ci_cnt : k_cnt s = Z.of_nat (taken s + scan_from 0 s + clearing s);
  ci_max : k_cnt s <= Z.max 0 n;
  ci_peek t u : k_threads s !! t = Some (APeeked u) ∨ k_threads s !! t = Some (ACas u) -> u < n;
  ci_found i : k_rel s = RFound i -> ∃ t, array_items (k_slots s) !! i = Some (Some t);
  ci_ahead j : (scan_from j s <= free_from j s)%nat
}.

Lemma taken_free (l : list (option nat)) k :
  (wsum w_taken k l + wsum (w_free 0) k l = length l)%nat.
Proof. revert k. induction l as [|[x|] l IH]; intros k; cbn; [done| |]; specialize (IH (S k)); lia. Qed.

Lemma free_succ (l : list (option nat)) k i t :
  l !! i = Some (Some t) -> wsum (w_free (k + i)) k l = wsum (w_free (S (k + i))) k l.
Proof.
  intros H. assert (∀ m m0 l', (∀ q x, l' !! q = Some x -> w_free (k + i) (m + q) x = w_free (S (k + i)) (m + q) x) ->
    m = m0 -> wsum (w_free (k + i)) m l' = wsum (w_free (S (k + i))) m0 l') as Hg.
  { intros m m0 l'. revert m m0. induction l' as [|z l' IH]; intros m m0 Hq <-; cbn; [done|].
    rewrite (IH (S m) (S m)); [|intros q x Hx; rewrite Nat.add_succ_comm; by apply Hq|done].
    f_equal. specialize (Hq 0%nat z eq_refl). by rewrite Nat.add_0_r in Hq. }
  apply Hg; [|done]. intros q x Hx. unfold w_free. destruct x as [x|]; [done|].
  destruct (Nat.leb_spec (k + i) (k + q)), (Nat.leb_spec (S (k + i)) (k + q)); try lia.
  assert (q = i) as -> by lia. congruence.
Qed.

Lemma scan_set t a b j s :
  k_threads s !! t = Some a ->
  (scan_from j (set_thread t b s) + w_scan j 0 a = scan_from j s + w_scan j 0 b)%nat.
Proof. intros H. pose proof (wsum_insert (w_scan j) 0 _ t a b H). done. Qed.

Lemma scan_at t i s : k_threads s !! t = Some (AScan i) -> (scan_from (S i) s < scan_from i s)%nat.
Proof.
  intros H. eapply (wsum_lt _ _ _ _ t (AScan i)); [|done|].
  - intros k [| | |j| |]; unfold w_scan; try lia.
    destruct (Nat.leb_spec (S i) j), (Nat.leb_spec i j); lia.
  - unfold w_scan. destruct (Nat.leb_spec (S i) i), (Nat.leb_spec i i); lia.
Qed.

(** A scanning thread has a free slot ahead of it. *)
Lemma slot_ahead n t i s :
  conc_inv n s -> k_threads s !! t = Some (AScan i) ->
  ∃ j, (i <= j)%nat ∧ Z.of_nat j < n ∧ array_items (k_slots s) !! j = Some None.
Proof.
  intros H Ht. pose proof (scan_at t i s Ht). pose proof (ci_ahead n s H i) as Ha.
  destruct (wsum_pos (w_free i) 0 (array_items (k_slots s))) as (j & x & Hj & Hw); [unfold free_from in Ha; lia|].
  exists j. apply lookup_lt_Some in Hj as Hlt. destruct (ci_length n s H) as [_ Hl].
  unfold w_free in Hw. destruct x; [lia|]. destruct (Nat.leb_spec i (0 + j)); [|lia]. split; [lia|]. split; [lia|done].
Qed.

Lemma thread_cases t b s t' a :
  k_threads (set_thread t b s) !! t' = Some a -> a = b ∨ k_threads s !! t' = Some a.
Proof.
  cbn. destruct (decide (t = t')) as [<-|]; [|rewrite list_lookup_insert_ne by done; by right].
  intros H. apply list_lookup_insert_Some in H. naive_solver.
Qed.

(** A step that only moves a thread which neither scans before nor after. *)
Lemma inv_move n t a b s :
  conc_inv n s -> k_threads s !! t = Some a ->
  (∀ j, w_scan j 0 a = 0%nat ∧ w_scan j 0 b = 0%nat) ->
  (∀ u, b = APeeked u ∨ b = ACas u -> u < n) -> conc_inv n (set_thread t b s).
Proof.
  intros H Ht Hw Hb. destruct H as [H1 H2 H3 H4 H5 H6].
  assert (∀ j, scan_from j (set_thread t b s) = scan_from j s) as Hs.
  { intros j. pose proof (scan_set t a b j s Ht) as E. destruct (Hw j) as [E1 E2]. lia. }
  split; try done.
  - rewrite Hs. done.
  - intros t' u [Hu|Hu]; apply thread_cases in Hu as [<-|Hu]; first [by apply Hb; auto | by eapply H4; eauto].
  - intros j. rewrite Hs. apply H6.
Qed.

Lemma inv_cas n t u s :
  conc_inv n s -> k_threads s !! t = Some (ACas u) -> k_cnt s = u ->
  conc_inv n (set_thread t (AScan 0) (mkConc (u + 1) (k_slots s) (k_threads s) (k_rel s))).
Proof.
  intros H Ht Hu. pose proof H as [H1 H2 H3 H4 H5 H6]. pose proof (H4 t u (or_intror Ht)) as Hlt.
  set (s' := mkConc (u + 1) (k_slots s) (k_threads s) (k_rel s)).
  assert (∀ j, scan_from j (set_thread t (AScan 0) s') = scan_from j s + if (j <=? 0) then 1 else 0)%nat as Hs.
  { intros j. pose proof (scan_set t (ACas u) (AScan 0) j s' Ht) as E. unfold w_scan in E.
    change (scan_from j s') with (scan_from j s) in E. lia. }
  split; try done.
  - rewrite Hs. change (taken (set_thread t (AScan 0) s')) with (taken s).
    change (clearing (set_thread t (AScan 0) s')) with (clearing s). cbn [Nat.leb k_cnt set_thread s']. lia.
  - cbn. lia.
  - intros t' v [Hv|Hv]; apply thread_cases in Hv as [?|Hv]; try done; by eapply H4; eauto.
  - intros j. rewrite Hs. change (free_from j (set_thread t (AScan 0) s')) with (free_from j s).
    destruct (Nat.leb_spec j 0) as [Hj|]; [|specialize (H6 j); lia].
    assert (j = 0%nat) as -> by lia. pose proof (taken_free (array_items (k_slots s)) 0) as Htf.
    destruct H1 as [_ H1]. unfold taken, free_from in *. lia.
Qed.

Lemma inv_take n t i s :
  conc_inv n s -> k_threads s !! t = Some (AScan i) -> array_items (k_slots s) !! i = Some None ->
  conc_inv n (set_thread t (AGranted i)
    (mkConc (k_cnt s) (mkArray (array_length (k_slots s)) (<[i := Some t]> (array_items (k_slots s))))
       (k_threads s) (k_rel s))).
Proof.
  intros H Ht Hi. pose proof H as [H1 H2 H3 H4 H5 H6].
  set (s' := mkConc _ _ _ _).
  assert (∀ j, scan_from j (set_thread t (AGranted i) s') + (if j <=? i then 1 else 0) = scan_from j s)%nat as Hs.
  { intros j. pose proof (scan_set t (AScan i) (AGranted i) j s' Ht) as E. unfold w_scan in E.
    change (scan_from j s') with (scan_from j s) in E. lia. }
  assert (∀ j, free_from j s' + (if j <=? i then 1 else 0) = free_from j s)%nat as Hf.
  { intros j. pose proof (wsum_insert (w_free j) 0 _ i None (Some t) Hi) as E.
    unfold w_free at 2 4 in E. rewrite Nat.add_0_l in E. unfold free_from. cbn [k_slots array_items s']. lia. }
  assert (taken s' = S (taken s)) as Htk.
  { pose proof (wsum_insert w_taken 0 _ i None (Some t) Hi) as E. unfold w_taken at 2 4 in E.
    unfold taken. cbn [k_slots array_items s']. lia. }
  split.
  - cbn. by rewrite length_insert.
  - change (taken (set_thread t (AGranted i) s')) with (taken s').
    change (clearing (set_thread t (AGranted i) s')) with (clearing s).
    specialize (Hs 0%nat). cbn [Nat.leb] in Hs. cbn [k_cnt set_thread s']. lia.
  - done.
  - intros t' v [Hv|Hv]; apply thread_cases in Hv as [?|Hv]; try done; by eapply H4; eauto.
  - cbn. intros j Hj. destruct (H5 j Hj) as [t' Ht']. exists t'.
    rewrite list_lookup_insert_ne; [done|]. intros ->. congruence.
  - intros j. change (free_from j (set_thread t (AGranted i) s')) with (free_from j s').
    specialize (Hs j). specialize (Hf j). specialize (H6 j). lia.
Qed.

Lemma inv_pass n t i s :
  conc_inv n s -> k_threads s !! t = Some (AScan i) -> Z.of_nat i < n ->
  array_items (k_slots s) !! i ≠ Some None -> conc_inv n (set_thread t (AScan (S i)) s).
Proof.
  intros H Ht Hlt Hi. pose proof H as [H1 H2 H3 H4 H5 H6].
  assert (∀ j, scan_from j (set_thread t (AScan (S i)) s) = scan_from j s + if (j =? S i) then 1 else 0)%nat as Hs.
  { intros j. pose proof (scan_set t (AScan i) (AScan (S i)) j s Ht) as E. unfold w_scan in E.
    destruct (Nat.leb_spec j i), (Nat.leb_spec j (S i)), (Nat.eqb_spec j (S i)); lia. }
  destruct (array_items (k_slots s) !! i) as [[x|]|] eqn:Ei; [|done|apply lookup_ge_None in Ei; lia].
  split; try done.
  - rewrite Hs. cbn [Nat.eqb]. change (taken (set_thread t (AScan (S i)) s)) with (taken s).
    change (clearing (set_thread t (AScan (S i)) s)) with (clearing s). cbn [k_cnt set_thread]. lia.
  - intros t' v [Hv|Hv]; apply thread_cases in Hv as [?|Hv]; try done; by eapply H4; eauto.
  - intros j. rewrite Hs. change (free_from j (set_thread t (AScan (S i)) s)) with (free_from j s).
    destruct (Nat.eqb_spec j (S i)) as [->|]; [|specialize (H6 j); lia].
    pose proof (scan_at t i s Ht). specialize (H6 i).
    pose proof (free_succ (array_items (k_slots s)) 0 i x Ei) as E. unfold free_from in *. cbn in E. lia.
Qed.

Lemma attempt_inv n t pass s : conc_inv n s -> conc_inv n (attempt_step n t pass s).
Proof.
  intros H. unfold attempt_step. destruct (k_threads s !! t) as [[|u|u|i|i|]|] eqn:Ht; try done.
  - eapply inv_move; [done|done| |]; [by case_match|]. destruct (Z.leb_spec n (k_cnt s)); naive_solver lia.
  - eapply inv_move; [done|done| |]; [by destruct pass|]. intros v Hv.
    pose proof (ci_peek n s H t u (or_introl Ht)). destruct pass; naive_solver.
  - unfold ref_compare_and_set. case_decide as E; [by apply inv_cas|].
    replace (mkConc (k_cnt s) (k_slots s) (k_threads s) (k_rel s)) with s by (by destruct s).
    eapply inv_move; [done|done|done|]. naive_solver.
  - destruct (slot_ahead n t i s H Ht) as (j & ? & ? & _). destruct (ci_length n s H) as [Hl _].
    rewrite Hl, (proj2 (Z.ltb_lt _ _)) by lia.
    unfold array_compare_and_set, array_range. rewrite Hl, (proj2 (Z.ltb_ge _ _)), (proj2 (Z.leb_gt _ _)) by lia.
    cbn [orb]. rewrite Nat2Z.id. case_decide as Ei.
    + rewrite <- Hl at 2. by apply inv_take.
    + apply inv_pass; [done|done|lia|done].
Qed.

Lemma release_inv n i s : conc_inv n s -> conc_inv n (release_step i s).
Proof.
  intros H. pose proof H as [H1 H2 H3 H4 H5 H6]. unfold release_step. destruct (k_rel s) as [|j|] eqn:Er.
  - destruct (array_items (k_slots s) !! i) as [[x|]|] eqn:Ei; try done. split; try done.
    + unfold clearing in *. cbn. rewrite Er in H2. done.
    + cbn. intros j [= <-]. by eexists.
  - destruct (H5 j eq_refl) as [x Hx]. apply lookup_lt_Some in Hx as Hlt. destruct H1 as [Hl Hn].
    unfold array_set, array_range. rewrite Hl, (proj2 (Z.ltb_ge _ _)), (proj2 (Z.leb_gt _ _)) by lia. cbn [orb].
    rewrite Nat2Z.id. set (s' := mkConc _ _ _ _).
    assert (S (taken s') = taken s) as Htk.
    { pose proof (wsum_insert w_taken 0 _ j (Some x) None Hx) as E. unfold w_taken at 2 4 in E.
      unfold taken. cbn [k_slots array_items s']. lia. }
    split; try done.
    + cbn. by rewrite length_insert.
    + change (scan_from 0 s') with (scan_from 0 s). unfold clearing in *. rewrite Er in H2. cbn [k_rel k_cnt s']. lia.
    + intros k. change (scan_from k s') with (scan_from k s). specialize (H6 k).
      pose proof (wsum_insert (w_free k) 0 _ j (Some x) None Hx) as E. unfold w_free at 2 4 in E.
      unfold free_from in *. cbn [k_slots array_items s']. lia.
  - split; try done.
    + unfold clearing in *. rewrite Er in H2. cbn. cbn in H2. unfold taken, scan_from in *. cbn. lia.
    + cbn. lia.
Qed.

Lemma conc_reachable_inv n s : conc_reachable n s -> conc_inv n s.
Proof.
  induction 1 as [|s s' Hr IH St].
  - assert (∀ k m (w : nat -> option nat -> nat), (∀ i, w i None = 0%nat) -> wsum w k (replicate m None) = 0%nat) as Hw.
    { intros k m w Hw. revert k. induction m; intros k; cbn; [done|]. by rewrite Hw, IHm. }
    split; cbn; try done.
    + split; [done|]. apply length_replicate.
    + unfold taken. cbn. by rewrite Hw.
    + lia.
    + intros t u [?|?]; by rewrite lookup_nil in *.
    + intros j. unfold scan_from. cbn. lia.
  - destruct St as [s|t pass s|i s]; [|by apply attempt_inv|by apply release_inv].
    destruct IH as [H1 H2 H3 H4 H5 H6].
    assert (∀ j, scan_from j (mkConc (k_cnt s) (k_slots s) (k_threads s ++ [AStart]) (k_rel s)) = scan_from j s) as Hs.
    { intros j. unfold scan_from. cbn. rewrite wsum_app. cbn. lia. }
    split; try done.
    + rewrite Hs. done.
    + cbn. intros t u. rewrite !lookup_app_Some.
      intros [[?|[_ Hx]]|[?|[_ Hx]]]; try (by eapply H4; eauto); apply list_lookup_singleton_Some in Hx; naive_solver.
    + intros j. rewrite Hs. apply H6.
Qed.

(** C35.  However the attempts of many threads and the profiling thread's releases
    interleave, the counter equals the occupied slots plus the threads between raising
    it and taking a slot (plus one while a release is half done) and never exceeds the
    configured parallelism; and a thread that has raised the counter always has a free
    slot ahead in its scan, so it never leaves the loop empty-handed and the counter
    never leaks. *)
Theorem concurrent_slots n s :
  conc_reachable n s ->
  k_cnt s = Z.of_nat (taken s + scan_from 0 s + clearing s) ∧ k_cnt s <= Z.max 0 n ∧
  ∀ t i, k_threads s !! t = Some (AScan i) ->
    ∃ j, (i <= j)%nat ∧ Z.of_nat j < n ∧ array_items (k_slots s) !! j = Some None.
Proof.
  intros Hr. pose proof (conc_reachable_inv n s Hr) as H.
  split; [apply (ci_cnt n s H)|]. split; [apply (ci_max n s H)|].
  intros t i Ht. by eapply slot_ahead.
Qed.

(** Two threads, two slots, and a release between their scans. *)
Definition demo_conc : Conc :=
  let two s := mkConc (k_cnt s) (k_slots s) (k_threads s ++ [AStart]) (k_rel s) in
  let a t s := attempt_step 2 t true s in
  a 1%nat (release_step 0 (release_step 0 (a 1%nat (a 1%nat (a 1%nat
    (two (a 0%nat (a 0%nat (a 0%nat (a 0%nat (two (init_conc 2))))))))))))%nat.

Lemma concurrent_slots_witness :
  k_threads demo_conc = [AGranted 0; AGranted 0] ∧ k_cnt demo_conc = 2 ∧
  k_cnt demo_conc = Z.of_nat (taken demo_conc + scan_from 0 demo_conc + clearing demo_conc).
Proof.
  split; [vm_compute; reflexivity|]. split; [vm_compute; reflexivity|].
  apply (concurrent_slots 2 demo_conc). unfold demo_conc.
  repeat (eapply conc_next; [|first [apply conc_attempt | apply conc_release | apply conc_spawn]]).
  apply conc_init.
Defined.
