(* ===== verification/Command.v ===== *)
(** * Commands from the backend: command/

    Deserialization, the queue between the query thread and the dispatch thread, the
    cache of executed serial numbers and the executors.  The only command the agent
    knows is the profile task query; executing it adds a task to the profile service.
    [cs_executed] records the serial numbers of executed commands in order. *)

From S2P Require Import Prelude PyData PyText Config Trace Profile.

(** ** Messages *)

(** A [Command] message: its name and its arguments. *)
Record Command := mkCommand { cmd_name : pystr; cmd_args : list (pystr * pystr) }.

(** [ProfileTaskCommand]: arguments stay text, [None] when absent. *)
Record ProfileTaskCommand := mkPTC {
  command : pystr;
  serial_number : option pystr;
  ptc_task_id : option pystr;
  ptc_endpoint_name : option pystr;
  ptc_duration : option pystr;
  ptc_min_duration_threshold : option pystr;
  ptc_dump_period : option pystr;
  ptc_max_sampling_count : option pystr;
  ptc_start_time : option pystr;
  ptc_create_time : option pystr
}.

Definition NAME : pystr := py "ProfileTaskQuery".

(** The value an argument ends with: the last pair with the key wins. *)
Definition arg (k : pystr) (args : list (pystr * pystr)) : option pystr :=
  foldl (fun acc kv => if decide (kv.1 = k) then Some kv.2 else acc) None args.

(** [ProfileTaskCommand.deserialize] *)
Definition deserialize_profile (c : Command) : ProfileTaskCommand :=
  let a k := arg k (cmd_args c) in
  mkPTC NAME (a (py "SerialNumber")) (a (py "TaskId")) (a (py "EndpointName")) (a (py "Duration"))
    (a (py "MinDurationThreshold")) (a (py "DumpPeriod")) (a (py "MaxSamplingCount"))
    (a (py "StartTime")) (a (py "CreateTime")).

(** [CommandDeserializer.deserialize] *)
Definition deserialize (c : Command) : res ProfileTaskCommand :=
  if decide (cmd_name c = NAME) then Ok (deserialize_profile c) else Raise UnsupportedCommandException.

(** [str(x)] and [int(x)] of an argument that may be [None]. *)
Definition str_of_arg (x : option pystr) : pystr := match x with Some s => s | None => py "None" end.
Definition int_of_arg (x : option pystr) : res Z :=
  match x with Some s => int_of_str s | None => Raise TypeError end.

(** [ProfileTask(...)] from a command, as the executor builds it *)
Definition task_of (c : ProfileTaskCommand) : res ProfileTask :=
  d ← int_of_arg (ptc_duration c);
  m ← int_of_arg (ptc_min_duration_threshold c);
  p ← int_of_arg (ptc_dump_period c);
  n ← int_of_arg (ptc_max_sampling_count c);
  s ← int_of_arg (ptc_start_time c);
  t ← int_of_arg (ptc_create_time c);
  mret (mkTask (str_of_arg (ptc_task_id c)) (str_of_arg (ptc_endpoint_name c)) d m p n s t).

(** ** The service *)

Record CommandService := mkCS {
  cs_commands : list ProfileTaskCommand;
  cs_cache : list (option pystr);
  cs_profile : Service;
  cs_executed : list (option pystr)
}.

Abbreviation MC := (M CommandService).

Definition new_command_service : CommandService := mkCS [] [] new_service [].

(** [CommandSerialNumberCache] with its [maxlen] of 64 *)
Definition cache_maxlen : nat := 64.
Definition cache_add (n : option pystr) (q : list (option pystr)) : list (option pystr) :=
  deque_append cache_maxlen n q.
Definition cache_contains (n : option pystr) (q : list (option pystr)) : bool := bool_decide (n ∈ q).

(** [__is_command_executed] *)
Definition is_command_executed (c : ProfileTaskCommand) (s : CommandService) : bool :=
  cache_contains (serial_number c) (cs_cache s).

(** [receive_command]: unsupported commands are logged, executed ones ignored. *)
Definition receive_one (c : Command) (s : CommandService) : CommandService :=
  match deserialize c with
  | Raise _ => s
  | Ok b =>
      if is_command_executed b s then s
      else mkCS (cs_commands s ++ [b]) (cs_cache s) (cs_profile s) (cs_executed s)
  end.
Definition receive_command (commands : list Command) (s : CommandService) : CommandService :=
  foldl (fun s c => receive_one c s) s commands.

(** [ProfileTaskCommandExecutor.execute] at a time in milliseconds *)
Definition execute_profile (now : Z) (c : ProfileTaskCommand) : MC unit :=
  t ← lift (task_of c);
  modify (fun s => mkCS (cs_commands s) (cs_cache s) (add_profile_task now t (cs_profile s)) (cs_executed s)).

(** [CommandExecutorService.execute]: other commands go to the no-op executor. *)
Definition execute (now : Z) (c : ProfileTaskCommand) : MC unit :=
  if decide (command c = NAME) then execute_profile now c else mret tt.

(** The body of the loop of [dispatch] for a command taken from the queue. *)
Definition dispatch_one (now : Z) (c : ProfileTaskCommand) : MC unit :=
  s ← get_st;
  if is_command_executed c s then mret tt
  else
    _ ← execute now c;
    modify (fun s => mkCS (cs_commands s) (cache_add (serial_number c) (cs_cache s)) (cs_profile s)
                       (cs_executed s ++ [serial_number c])).

(** [dispatch] until it blocks on the empty queue; an exception ends the thread. *)
Definition take_command : MC (option ProfileTaskCommand) := fun s =>
  match cs_commands s with
  | [] => (s, Ok None)
  | c :: q => (mkCS q (cs_cache s) (cs_profile s) (cs_executed s), Ok (Some c))
  end.
Fixpoint dispatch (fuel : nat) (now : Z) : MC unit :=
  match fuel with
  | O => mret tt
  | S f =>
      c ← take_command;
      match c with
      | None => mret tt
      | Some c => _ ← dispatch_one now c; dispatch f now
      end
  end.

(** ** Runs: replies of the backend and turns of the dispatch thread *)

Inductive command_reachable : CommandService -> Prop :=
| cr_new : command_reachable new_command_service
| cr_receive cs s : command_reachable s -> command_reachable (receive_command cs s)
| cr_dispatch fuel now s : command_reachable s -> command_reachable (dispatch fuel now s).1
| cr_profile p s : command_reachable s ->
    command_reachable (mkCS (cs_commands s) (cs_cache s) p (cs_executed s)).

(** What the cache and the history look like. *)
Definition window (l : list (option pystr)) : list (option pystr) :=
  drop (length l - cache_maxlen) l.

Definition spaced (l : list (option pystr)) : Prop :=
  ∀ i j x, (i < j)%nat -> l !! i = Some x -> l !! j = Some x -> (cache_maxlen < j - i)%nat.

Definition cache_inv (s : CommandService) : Prop :=
  cs_cache s = window (cs_executed s) ∧ spaced (cs_executed s).

Lemma window_app l x : window (l ++ [x]) = deque_append cache_maxlen x (window l).
Proof.
  unfold window, deque_append. rewrite !length_app, length_drop. cbn [length].
  rewrite <- (drop_app_le l [x] (length l - cache_maxlen)) by lia.
  rewrite drop_drop. f_equal. unfold cache_maxlen. lia.
Qed.

Lemma elem_window (x : option pystr) l i :
  l !! i = Some x -> (length l <= i + cache_maxlen)%nat -> x ∈ window l.
Proof.
  intros Hi Hle. unfold window. apply list_elem_of_lookup.
  exists (i - (length l - cache_maxlen))%nat. rewrite lookup_drop. rewrite <- Hi. f_equal. lia.
Qed.

Lemma spaced_app l x : spaced l -> x ∉ window l -> spaced (l ++ [x]).
Proof.
  intros Hl Hx i j y Hij Hi Hj. apply lookup_app_Some in Hj as [Hj|[Hge Hj]].
  - rewrite lookup_app_l in Hi by (apply lookup_lt_Some in Hj; lia). by eapply Hl.
  - apply list_lookup_singleton_Some in Hj as [Hj ->].
    rewrite lookup_app_l in Hi by lia.
    destruct (decide (cache_maxlen < j - i)%nat); [done|]. exfalso. apply Hx.
    eapply elem_window; [exact Hi|lia].
Qed.

Lemma execute_frame now c :
  preserves cache_inv (execute now c).
Proof.
  unfold execute. case_decide; [|apply preserves_ret]. apply preserves_bind; [apply preserves_lift|].
  intros t. by apply preserves_modify.
Qed.

Lemma execute_cache now c s s' :
  execute now c s = (s', Ok tt) -> cs_cache s' = cs_cache s ∧ cs_executed s' = cs_executed s.
Proof.
  unfold execute. case_decide; [|by intros [= <-]]. unfold execute_profile. intros Hx.
  unfold mbind, M_bind, lift, modify in Hx. destruct (task_of c); by simplify_eq.
Qed.

Lemma dispatch_one_inv now c : preserves cache_inv (dispatch_one now c).
Proof.
  intros s Hs. unfold dispatch_one. erewrite bind_ok by reflexivity. cbv beta.
  destruct (is_command_executed c s) eqn:E; [done|].
  pose proof (execute_frame now c s Hs) as Hf. unfold mbind, M_bind.
  destruct (execute now c s) as [s' [[]|e]] eqn:Ex; [|done]. cbn [fst] in Hf |- *.
  apply execute_cache in Ex as [Ec Ee]. unfold modify. cbn [fst]. destruct Hs as [Hs1 Hs2].
  unfold is_command_executed, cache_contains in E. apply bool_decide_eq_false in E.
  split; cbn [cs_cache cs_executed]; rewrite Ee.
  - rewrite window_app. unfold cache_add. by rewrite Ec, Hs1.
  - apply spaced_app; [done|]. by rewrite <- Hs1.
Qed.

Lemma dispatch_inv fuel now : preserves cache_inv (dispatch fuel now).
Proof.
  induction fuel as [|f IH]; [apply preserves_ret|]. cbn. apply preserves_bind.
  - intros s Hs. unfold take_command. by destruct (cs_commands s).
  - intros [c|]; [|apply preserves_ret]. apply preserves_bind; [apply dispatch_one_inv|done].
Qed.

Lemma receive_inv cs s : cache_inv s -> cache_inv (receive_command cs s).
Proof.
  unfold receive_command. revert s. induction cs as [|c cs IH]; intros s H; cbn; [done|].
  apply IH. unfold receive_one. destruct (deserialize c) as [b|]; [|done]. by destruct (is_command_executed b s).
Qed.

(**  A command is not executed twice: between two executions with the same
    serial number, at least 64 other commands were executed, whatever the backend
    resends and however queries and dispatching interleave; the cache holds exactly
    the last 64 executed serial numbers. *)
Theorem commands_executed_once s :
  command_reachable s ->
  cs_cache s = window (cs_executed s) ∧
  ∀ i j x, (i < j)%nat -> cs_executed s !! i = Some x -> cs_executed s !! j = Some x ->
    (64 < j - i)%nat.
Proof.
  intros Hr. enough (cache_inv s) as [? Hs] by (split; [done|exact Hs]).
  induction Hr as [|cs s Hr IH|fuel now s Hr IH|p s Hr IH].
  - split; [done|]. intros i j x _ Hi. by destruct i.
  - by apply receive_inv.
  - by apply dispatch_inv.
  - done.
Qed.

(** ** What a profile command means *)

(** A task as the backend writes it into a command. *)
Definition command_of (serial : pystr) (t : ProfileTask) : Command :=
  mkCommand NAME
    [(py "SerialNumber", serial); (py "TaskId", task_id t); (py "EndpointName", first_span_op_name t);
     (py "Duration", str_of_int (duration t));
     (py "MinDurationThreshold", str_of_int (min_duration_threshold t));
     (py "DumpPeriod", str_of_int (thread_dump_period t));
     (py "MaxSamplingCount", str_of_int (max_sampling_count t));
     (py "StartTime", str_of_int (task_start_time t)); (py "CreateTime", str_of_int (task_create_time t))].

(** One turn of the dispatch loop with a new profile command. *)
Lemma dispatch_one_new now c s :
  is_command_executed c s = false -> command c = NAME ->
  dispatch_one now c s =
  match task_of c with
  | Ok t => (mkCS (cs_commands s) (cache_add (serial_number c) (cs_cache s))
               (add_profile_task now t (cs_profile s)) (cs_executed s ++ [serial_number c]), Ok tt)
  | Raise e => (s, Raise e)
  end.
Proof.
  intros Hx Hn. unfold dispatch_one. erewrite bind_ok by reflexivity. cbv beta. rewrite Hx.
  unfold execute. rewrite decide_True by done. unfold execute_profile, mbind, M_bind, lift, modify.
  by destruct (task_of c).
Qed.

(** The command as the agent holds it. *)
Definition ptc_of (serial : pystr) (t : ProfileTask) : ProfileTaskCommand :=
  mkPTC NAME (Some serial) (Some (task_id t)) (Some (first_span_op_name t)) (Some (str_of_int (duration t)))
    (Some (str_of_int (min_duration_threshold t))) (Some (str_of_int (thread_dump_period t)))
    (Some (str_of_int (max_sampling_count t))) (Some (str_of_int (task_start_time t)))
    (Some (str_of_int (task_create_time t))).

Lemma deserialize_command_of serial t : deserialize (command_of serial t) = Ok (ptc_of serial t).
Proof. reflexivity. Qed.

Lemma task_of_ptc serial t : task_of (ptc_of serial t) = Ok t.
Proof.
  unfold task_of. cbn [ptc_of int_of_arg ptc_duration ptc_min_duration_threshold ptc_dump_period
    ptc_max_sampling_count ptc_start_time ptc_create_time]. rewrite !int_of_str_of_int. by destruct t.
Qed.

Lemma dispatch_one_task now serial t s :
  Some serial ∉ cs_cache s ->
  dispatch_one now (ptc_of serial t) s =
    (mkCS (cs_commands s) (cache_add (Some serial) (cs_cache s)) (add_profile_task now t (cs_profile s))
       (cs_executed s ++ [Some serial]), Ok tt).
Proof. intros H. rewrite dispatch_one_new, task_of_ptc; [done | by apply bool_decide_eq_false | done]. Qed.

(**  A profile task written into a command by the backend is, after receiving
    and dispatching it, the task given to the profile service, every number included,
    provided its serial number was not executed recently. *)
Theorem profile_command_delivered serial t now s :
  cs_commands s = [] -> Some serial ∉ cs_cache s ->
  dispatch 2 now (receive_command [command_of serial t] s) =
  (mkCS [] (cache_add (Some serial) (cs_cache s)) (add_profile_task now t (cs_profile s))
     (cs_executed s ++ [Some serial]), Ok tt).
Proof.
  intros Hq Hc. unfold receive_command, receive_one. cbn [foldl]. rewrite deserialize_command_of.
  unfold is_command_executed, cache_contains. cbn [serial_number ptc_of]. rewrite bool_decide_false by done.
  rewrite Hq. cbn [app dispatch]. erewrite bind_ok by reflexivity. cbv beta iota.
  by erewrite bind_ok by (by apply dispatch_one_task).
Qed.

(**  A profile command whose numbers are missing or malformed raises in the
    executor; nothing catches it, so the dispatch thread ends and the commands behind
    it stay in the queue. *)
Theorem malformed_command_ends_dispatch c q now fuel s e :
  cs_commands s = c :: q -> command c = NAME -> is_command_executed c s = false ->
  task_of c = Raise e -> (0 < fuel)%nat ->
  dispatch fuel now s = (mkCS q (cs_cache s) (cs_profile s) (cs_executed s), Raise e).
Proof.
  intros Hq Hn Hx Ht Hf. destruct fuel as [|f]; [lia|]. cbn.
  erewrite bind_ok by (unfold take_command; rewrite Hq; reflexivity). cbv beta iota.
  erewrite bind_raise; [|rewrite dispatch_one_new, Ht by done; reflexivity]. reflexivity.
Qed.

(** *** Witnesses *)

Definition demo_command (i : Z) : Command :=
  command_of (str_of_int i) (mkTask (py "T") (py "/op") 1 0 10 1 0 5).

Lemma commands_executed_once_witness :
  let s := (dispatch 5 0 (receive_command [demo_command 1; demo_command 1; demo_command 2]
              new_command_service)).1 in
  cs_executed s = [Some (py "1"); Some (py "2")] ∧ cs_cache s = window (cs_executed s).
Proof.
  split; [vm_compute; reflexivity|]. apply commands_executed_once.
  apply cr_dispatch, cr_receive, cr_new.
Defined.

Lemma profile_command_delivered_witness :
  let t := mkTask (py "T") (py "/op") 1 0 10 1 0 5 in
  dispatch 2 7 (receive_command [command_of (py "9") t] new_command_service) =
  (mkCS [] (cache_add (Some (py "9")) []) (add_profile_task 7 t new_service) ([] ++ [Some (py "9")]), Ok tt).
Proof. apply (profile_command_delivered (py "9") _ 7 new_command_service); [reflexivity|set_solver]. Defined.

Lemma malformed_command_ends_dispatch_witness :
  let bad := deserialize_profile (mkCommand NAME [(py "SerialNumber", py "1"); (py "Duration", py "x")]) in
  let good := deserialize_profile (demo_command 2) in
  dispatch 3 0 (mkCS [bad; good] [] new_service []) = (mkCS [good] [] new_service [], Raise ValueError).
Proof.
  intros bad good.
  apply (malformed_command_ends_dispatch bad [good] 0 3 (mkCS [bad; good] [] new_service []));
    first [reflexivity | lia | vm_compute; reflexivity].
Defined.
