(* ===== verification/Meter.v ===== *)
(** * Meters: meter/

    Counters, gauges, histograms and the registry the meter service reports from.
    Values are integers (a timer's reading is an integer number of clock ticks);
    the generator of a gauge is the list of values it still has to yield. *)

From Stdlib Require Import Sorting.Sorted.
From S2P Require Import Prelude PyData PyText.

(** ** Identity and tags: meter/meter.py *)

Inductive MeterType := GAUGE | COUNTER | HISTOGRAM.

(** [MeterTag] and its order *)
Abbreviation MeterTag := (pystr * pystr)%type.

(** [a < b] on strings: by code points *)
Fixpoint str_lt (a b : pystr) : bool :=
  match a, b with
  | [], [] => false
  | [], _ :: _ => true
  | _ :: _, [] => false
  | x :: a', y :: b' => if x =? y then str_lt a' b' else x <? y
  end.
Definition tag_lt (a b : MeterTag) : bool :=
  if bool_decide (a.1 = b.1) then str_lt a.2 b.2 else str_lt a.1 b.1.

(** [tags.sort()]: stable *)
Fixpoint insert_tag (t : MeterTag) (l : list MeterTag) : list MeterTag :=
  match l with
  | [] => [t]
  | u :: l' => if tag_lt t u then t :: l else u :: insert_tag t l'
  end.
Definition sort_tags (l : list MeterTag) : list MeterTag := foldl (fun acc t => insert_tag t acc) [] l.

(** [MeterId]; [labels] is what the first [transform_tags] computed. *)
Record MeterId := mkId {
  id_name : pystr; id_type : MeterType; id_tags : list MeterTag; labels : option (list MeterTag)
}.
Definition new_id (name : pystr) (ty : MeterType) (tags : option (list MeterTag)) : MeterId :=
  mkId name ty (default [] tags) None.
Definition transform_tags (m : MeterId) : MeterId * list MeterTag :=
  match labels m with
  | Some l => (m, l)
  | None => (mkId (id_name m) (id_type m) (id_tags m) (Some (id_tags m)), id_tags m)
  end.
(** [get_tag] *)
Definition get_tag (k : pystr) (m : MeterId) : option pystr :=
  snd <$> List.find (fun t => bool_decide (t.1 = k)) (id_tags m).
(** [Builder.tag] and the sort in [Builder.build] *)
Definition builder_tag (k v : pystr) (m : MeterId) : MeterId :=
  mkId (id_name m) (id_type m) (id_tags m ++ [(k, v)]) (labels m).
Definition builder_sort (m : MeterId) : MeterId :=
  mkId (id_name m) (id_type m) (sort_tags (id_tags m)) (labels m).

(** ** Counters: meter/counter.py *)

Inductive CounterMode := INCREMENT | RATE.

Record Counter := mkCounter { c_count : Z; c_previous : Z; c_mode : CounterMode }.
Definition new_counter (mode : CounterMode) : Counter := mkCounter 0 0 mode.
Definition increment (v : Z) (c : Counter) : Counter := mkCounter (c_count c + v) (c_previous c) (c_mode c).
(** [transform]: the value reported *)
Definition counter_transform (c : Counter) : Counter * Z :=
  match c_mode c with
  | RATE => (mkCounter (c_count c) (c_count c) (c_mode c), c_count c - c_previous c)
  | INCREMENT => (c, c_count c)
  end.
(** [Timer] and [Counter.timer]: the time between two clock readings. *)
Definition counter_timer (start stop : Z) (c : Counter) : Counter := increment (stop - start) c.

(** ** Gauges: meter/gauge.py *)

Record Gauge := mkGauge { g_values : list Z }.
(** [get]: an exhausted generator gives 0. *)
Definition gauge_get (g : Gauge) : Gauge * Z :=
  match g_values g with
  | [] => (g, 0)
  | v :: l => (mkGauge l, if v =? 0 then 0 else v)
  end.

(** ** Histograms: meter/histogram.py *)

Record Bucket := mkBucket { bucket : Z; b_count : Z }.
Record Histogram := mkHistogram { buckets : list Bucket }.

(** [sorted(set(steps))] *)
Fixpoint insert_step (x : Z) (l : list Z) : list Z :=
  match l with
  | [] => [x]
  | y :: l' => if x <? y then x :: l else if x =? y then l else y :: insert_step x l'
  end.
Definition sorted_set (l : list Z) : list Z := foldr insert_step [] l.

(** [Histogram(name, steps, min_value)] *)
Definition new_histogram (steps : list Z) (min_value : Z) : res Histogram :=
  match steps with
  | [] => Raise OtherException
  | _ =>
      match sorted_set steps with
      | [] => Raise OtherException
      | s0 :: rest =>
          if s0 <? min_value then Raise OtherException
          else
            let l := if s0 =? min_value then s0 :: rest else min_value :: s0 :: rest in
            Ok (mkHistogram (map (fun s => mkBucket s 0) l))
      end
  end.

(** The loop of [find_bucket], at most [fuel] turns. *)
Fixpoint find_loop (fuel : nat) (value : Z) (bs : list Bucket) (left right : nat) : nat :=
  match fuel with
  | O => left
  | S f =>
      if (left <? right)%nat then
        let mid := ((left + right) / 2)%nat in
        match bs !! mid with
        | Some b => if bucket b <? value then find_loop f value bs (S mid) right
                    else find_loop f value bs left mid
        | None => left
        end
      else left
  end.
(** [find_bucket]: the index of the bucket, if any. *)
Definition find_bucket (value : Z) (h : Histogram) : option nat :=
  match find_loop (length (buckets h)) value (buckets h) 0 (length (buckets h)) with
  | O => None
  | S i => Some i
  end.
(** [add_value] *)
Definition add_value (value : Z) (h : Histogram) : Histogram :=
  match find_bucket value h with
  | None => h
  | Some i => mkHistogram (alter (fun b => mkBucket (bucket b) (b_count b + 1)) i (buckets h))
  end.
(** [Histogram.transform] *)
Definition histogram_transform (h : Histogram) : list (Z * Z) :=
  map (fun b => (bucket b, b_count b)) (buckets h).

(** ** The registry: meter/meter_service.py *)

Inductive Meter := MCounter (c : Counter) | MGauge (g : Gauge) | MHistogram (h : Histogram).

Record RegisteredMeter := mkMeter { meterId : MeterId; meter_state : Meter }.

(** Meters are keyed by name alone; registering a name again replaces its meter. *)
Definition register (m : RegisteredMeter) (s : list (pystr * RegisteredMeter)) :=
  Dict.set (id_name (meterId m)) m s.
Definition get_meter (name : pystr) (s : list (pystr * RegisteredMeter)) : option RegisteredMeter :=
  Dict.get name s.

Inductive MeterValue := SingleValue (v : Z) | HistogramValue (l : list (Z * Z)).
Record MeterData := mkMeterData {
  md_name : pystr; md_labels : list MeterTag; md_value : MeterValue;
  md_service : pystr; md_instance : pystr; md_timestamp : Z
}.

(** [transform] of a meter *)
Definition meter_transform (m : RegisteredMeter) : RegisteredMeter * (pystr * list MeterTag * MeterValue) :=
  let (i, ls) := transform_tags (meterId m) in
  match meter_state m with
  | MCounter c => let (c', v) := counter_transform c in
                  (mkMeter i (MCounter c'), (id_name i, ls, SingleValue v))
  | MGauge g => let (g', v) := gauge_get g in
                (mkMeter i (MGauge g'), (id_name i, ls, SingleValue v))
  | MHistogram h => (mkMeter i (MHistogram h), (id_name i, ls, HistogramValue (histogram_transform h)))
  end.

(** [send] at a time in milliseconds: every meter in registration order. *)
Fixpoint send (service instance : pystr) (now : Z) (s : list (pystr * RegisteredMeter))
  : list (pystr * RegisteredMeter) * list MeterData :=
  match s with
  | [] => ([], [])
  | (k, m) :: s' =>
      let '(m', (n, ls, v)) := meter_transform m in
      let (s'', out) := send service instance now s' in
      ((k, m') :: s'', mkMeterData n ls v service instance now :: out)
  end.

(** ** Bucket search *)

Definition below (v : Z) (bs : list Bucket) : nat := length (filter (fun b => bucket b < v) bs).

Definition sorted_buckets (bs : list Bucket) : Prop :=
  ∀ i j x y, (i < j)%nat -> bs !! i = Some x -> bs !! j = Some y -> bucket x < bucket y.

Lemma below_le v bs : (below v bs <= length bs)%nat.
Proof. apply length_filter. Qed.

(** In a sorted list the buckets below a value come first. *)
Lemma below_spec v bs i b :
  sorted_buckets bs -> bs !! i = Some b -> bucket b < v <-> (i < below v bs)%nat.
Proof.
  revert i. induction bs as [|x bs IH]; intros i Hs Hi; [done|].
  assert (sorted_buckets bs) as Hs'.
  { intros p q y z Hpq Hp Hq. by apply (Hs (S p) (S q)); [lia|..]. }
  unfold below in *. rewrite filter_cons. destruct i as [|i].
  - injection Hi as ->. case_decide; cbn; [lia|]. split; [done|]. intros Hlt.
    assert (filter (fun b => bucket b < v) bs = []) as E; [|rewrite E in Hlt; cbn in Hlt; lia].
    apply elem_of_nil_inv. intros y Hy. apply list_elem_of_filter in Hy as [Hy Hin].
    apply list_elem_of_lookup in Hin as [j Hj]. specialize (Hs 0%nat (S j) b y ltac:(lia) eq_refl Hj). lia.
  - cbn in Hi. specialize (IH i Hs' Hi). case_decide as Hx; cbn [length]; [rewrite IH; lia|].
    specialize (Hs 0%nat (S i) x b ltac:(lia) eq_refl Hi). rewrite IH. split; [|lia]. intros. lia.
Qed.

Lemma find_loop_spec fuel v bs left right :
  sorted_buckets bs -> (left <= below v bs <= right)%nat -> (right <= length bs)%nat ->
  (right - left <= fuel)%nat -> find_loop fuel v bs left right = below v bs.
Proof.
  intros Hs. revert left right. induction fuel as [|f IH]; intros left right Hb Hr Hf; cbn [find_loop]; [lia|].
  destruct (Nat.ltb_spec left right) as [Hlt|]; [|lia].
  assert (left <= (left + right) / 2 < right)%nat as Hm.
  { pose proof (Nat.div_mod_eq (left + right) 2). pose proof (Nat.mod_upper_bound (left + right) 2). lia. }
  destruct (bs !! _) as [b|] eqn:Eb; [|apply lookup_ge_None in Eb; lia].
  pose proof (below_spec v bs _ b Hs Eb) as Hsp.
  destruct (Z.ltb_spec (bucket b) v); apply IH; lia.
Qed.

Lemma find_bucket_below v h :
  sorted_buckets (buckets h) ->
  find_bucket v h = match below v (buckets h) with O => None | S i => Some i end.
Proof.
  intros Hs. unfold find_bucket. rewrite find_loop_spec; [done|done| |lia|lia].
  pose proof (below_le v (buckets h)). lia.
Qed.

(** ** Sorted steps *)

Lemma insert_step_elem x y l : y ∈ insert_step x l <-> y = x ∨ y ∈ l.
Proof.
  induction l as [|z l IH]; cbn; [set_solver|].
  destruct (Z.ltb_spec x z); [set_solver|]. destruct (Z.eqb_spec x z); set_solver.
Qed.

Lemma insert_step_sorted x l : StronglySorted Z.lt l -> StronglySorted Z.lt (insert_step x l).
Proof.
  induction 1 as [|z l Hs IH Hz]; cbn; [by repeat constructor|].
  destruct (Z.ltb_spec x z) as [Hlt|Hge].
  - constructor; [by constructor|]. constructor; [done|]. eapply Forall_impl; [exact Hz|]. cbn. lia.
  - destruct (Z.eqb_spec x z) as [->|Hne]; [by constructor|]. constructor; [done|].
    rewrite Forall_forall in Hz |- *. intros y Hy. apply insert_step_elem in Hy as [->|Hy]; [lia|by apply Hz].
Qed.

Lemma sorted_set_sorted l : StronglySorted Z.lt (sorted_set l).
Proof. induction l as [|x l IH]; cbn; [constructor|by apply insert_step_sorted]. Qed.

(** The bounds of a histogram and what it means for them to be sorted. *)
Definition bounds (h : Histogram) : list Z := map bucket (buckets h).

Lemma sorted_of_bounds h : StronglySorted Z.lt (bounds h) -> sorted_buckets (buckets h).
Proof.
  unfold bounds. destruct h as [bs]. cbn. induction bs as [|b bs IH]; intros Hs i j x y Hij Hi Hj; [done|].
  inversion Hs as [|? ? Hs' Hb]; subst. destruct j as [|j]; [lia|]. destruct i as [|i].
  - injection Hi as <-. rewrite Forall_forall in Hb. apply Hb.
    apply list_elem_of_fmap_2. by eapply list_elem_of_lookup_2.
  - eapply (IH Hs' i j); [lia|done..].
Qed.

Lemma new_histogram_bounds steps m h :
  new_histogram steps m = Ok h ->
  StronglySorted Z.lt (bounds h) ∧ head (bounds h) = Some m ∧
  (∀ b, b ∈ bounds h <-> b = m ∨ b ∈ sorted_set steps) ∧ Forall (fun b => b_count b = 0) (buckets h).
Proof.
  unfold new_histogram. pose proof (sorted_set_sorted steps) as Hs.
  destruct steps as [|st steps]; [done|]. destruct (sorted_set (st :: steps)) as [|s0 rest]; [done|].
  destruct (Z.ltb_spec s0 m) as [|Hge]; [done|]. intros [= <-]. unfold bounds; cbn. rewrite map_map. cbn.
  rewrite map_id. split; [|split; [|split]].
  - destruct (Z.eqb_spec s0 m) as [->|Hne]; [done|]. constructor; [done|].
    inversion Hs as [|? ? _ Hf]; subst. constructor; [lia|]. eapply Forall_impl; [exact Hf|]. cbn. lia.
  - by destruct (Z.eqb_spec s0 m) as [->|Hne].
  - intros b. destruct (Z.eqb_spec s0 m) as [->|Hne]; set_solver.
  - by apply Forall_map, Forall_true.
Qed.

(** The half-open interval of a bucket: above its bound, up to the next one. *)
Definition in_bucket (bs : list Z) (i : nat) (v : Z) : bool :=
  match bs !! i, bs !! S i with
  | Some b, Some b' => (b <? v) && (v <=? b')
  | Some b, None => b <? v
  | None, _ => false
  end.

Lemma find_bucket_interval v h i :
  StronglySorted Z.lt (bounds h) -> find_bucket v h = Some i <-> in_bucket (bounds h) i v = true.
Proof.
  intros Hs. apply sorted_of_bounds in Hs. rewrite find_bucket_below by done.
  unfold in_bucket, bounds. change (@map Bucket Z) with (@fmap list list_fmap Bucket Z). rewrite !list_lookup_fmap.
  pose proof (below_le v (buckets h)) as Hle.
  assert (below v (buckets h) = S i <-> match below v (buckets h) with O => None | S j => Some j end = Some i) as <-.
  { destruct (below v (buckets h)); naive_solver. }
  destruct (buckets h !! i) as [b|] eqn:Ei; cbn.
  - pose proof (below_spec v _ i b Hs Ei) as H1.
    destruct (buckets h !! S i) as [b'|] eqn:Ei'; cbn.
    + pose proof (below_spec v _ (S i) b' Hs Ei') as H2. rewrite andb_true_iff, Z.ltb_lt, Z.leb_le. lia.
    + apply lookup_ge_None in Ei'. rewrite Z.ltb_lt. lia.
  - apply lookup_ge_None in Ei. split; [lia|done].
Qed.

Lemma add_value_bounds v h : bounds (add_value v h) = bounds h.
Proof.
  unfold add_value, bounds. destruct (find_bucket v h) as [i|]; [|done]. cbn.
  generalize (buckets h). intros bs. revert i. induction bs as [|b bs IH]; intros [|i]; cbn; [done..|].
  by f_equal.
Qed.

(** Counts after a sequence of values. *)
Lemma add_values_counts vs h i b :
  StronglySorted Z.lt (bounds h) -> buckets h !! i = Some b ->
  ∃ b', buckets (foldl (fun h v => add_value v h) h vs) !! i = Some b' ∧ bucket b' = bucket b ∧
    b_count b' = b_count b + Z.of_nat (length (filter (fun v => in_bucket (bounds h) i v = true) vs)).
Proof.
  revert h b. induction vs as [|v vs IH]; intros h b Hs Hb; cbn [foldl].
  - exists b. split; [done|]. split; [done|]. cbn. lia.
  - destruct (buckets (add_value v h) !! i) as [b1|] eqn:E1.
    2: { exfalso. apply lookup_ge_None in E1. apply lookup_lt_Some in Hb.
         pose proof (f_equal length (add_value_bounds v h)) as E. unfold bounds in E. rewrite !length_map in E. lia. }
    destruct (IH (add_value v h) b1) as (b' & H1 & H2 & H3); [by rewrite add_value_bounds|done|].
    rewrite add_value_bounds in H3. exists b'. split; [done|].
    pose proof (find_bucket_interval v h i Hs) as Hf. unfold add_value in E1. rewrite filter_cons.
    destruct (find_bucket v h) as [k|] eqn:Ef; cbn in E1.
    + destruct (decide (k = i)) as [->|Hne].
      * rewrite list_lookup_alter_eq, Hb in E1. injection E1 as <-. cbn in *.
        rewrite decide_True by (by apply Hf). cbn [length]. split; [done|lia].
      * rewrite list_lookup_alter_ne in E1 by done. simplify_eq.
        rewrite decide_False; [split; [done|lia]|]. intros Hin. apply Hf in Hin. congruence.
    + simplify_eq. rewrite decide_False; [split; [done|lia]|]. intros Hin. apply Hf in Hin. congruence.
Qed.

(**  A histogram built from any non-empty list of steps has strictly increasing
    buckets starting at the minimum, and after any values its buckets hold exactly the
    number of values above their own bound and not above the next one; the binary
    search never runs out of turns.  A value equal to a bound counts in the bucket
    before it, and one not above the minimum in no bucket. *)
Theorem histogram_counts (steps : list Z) (m : Z) h (vs : list Z) :
  new_histogram steps m = Ok h ->
  let h' := foldl (fun h v => add_value v h) h vs in
  head (bounds h) = Some m ∧ StronglySorted Z.lt (bounds h) ∧
  (∀ i b, buckets h !! i = Some b ->
     ∃ b', buckets h' !! i = Some b' ∧ bucket b' = bucket b ∧
       b_count b' = Z.of_nat (length (filter (fun v => in_bucket (bounds h) i v = true) vs))) ∧
  (∀ v, v <= m -> add_value v h' = h').
Proof.
  intros Hn. destruct (new_histogram_bounds steps m h Hn) as (Hs & Hh & _ & H0). cbv zeta.
  split; [done|]. split; [done|]. split.
  - intros i b Hb. destruct (add_values_counts vs h i b Hs Hb) as (b' & ? & ? & Hc).
    exists b'. split; [done|]. split; [done|]. rewrite Hc.
    rewrite Forall_forall in H0. rewrite (H0 b) by (by eapply list_elem_of_lookup_2). lia.
  - intros v Hv. set (h' := foldl _ h vs).
    assert (bounds h' = bounds h) as Hb.
    { unfold h'. clear. revert h. induction vs as [|x vs IH]; intros h; cbn; [done|].
      by rewrite IH, add_value_bounds. }
    unfold add_value. destruct (find_bucket v h') as [i|] eqn:Ef; [|done]. exfalso.
    apply find_bucket_interval in Ef; [|by rewrite Hb]. rewrite Hb in Ef. unfold in_bucket in Ef.
    destruct (bounds h !! i) as [b|] eqn:Ei; [|done].
    assert (m <= b) as Hmb.
    { destruct (bounds h) as [|b0 bs]; [done|]. injection Hh as ->. inversion Hs as [|? ? _ Hf]; subst.
      destruct i as [|i]; [by injection Ei as ->|]. rewrite Forall_forall in Hf.
      cbn in Ei. apply list_elem_of_lookup_2 in Ei. specialize (Hf b Ei). lia. }
    destruct (bounds h !! S i); [apply andb_true_iff in Ef as [Ef _]|]; apply Z.ltb_lt in Ef; lia.
Qed.

Lemma histogram_counts_witness :
  let h := mkHistogram [mkBucket 0 0; mkBucket 5 0; mkBucket 10 0] in
  let h' := foldl (fun h v => add_value v h) h [5; 6; 0; 11] in
  histogram_transform h' = [(0, 1); (5, 1); (10, 1)] ∧
  head (bounds h) = Some 0 ∧ StronglySorted Z.lt (bounds h).
Proof.
  cbv zeta. split; [vm_compute; reflexivity|].
  pose proof (histogram_counts [10; 5; 10] 0 (mkHistogram [mkBucket 0 0; mkBucket 5 0; mkBucket 10 0]) []
    ltac:(vm_compute; reflexivity)) as (? & ? & _). by split.
Defined.

(** ** Counters *)

Inductive counter_op := Inc (v : Z) | Report.

(** The values reported over a sequence of increments and reports. *)
Fixpoint run_counter (ops : list counter_op) (c : Counter) : Counter * list Z :=
  match ops with
  | [] => (c, [])
  | Inc v :: ops' => run_counter ops' (increment v c)
  | Report :: ops' =>
      let (c1, v) := counter_transform c in
      let (c2, out) := run_counter ops' c1 in (c2, v :: out)
  end.
Definition total (ops : list counter_op) : Z :=
  foldr (fun o acc => match o with Inc v => v + acc | Report => acc end) 0 ops.
Definition sum (l : list Z) : Z := foldr Z.add 0 l.

(**  The values a rate counter reports add up to everything it was incremented
    by, less what came after the last report: no increment is lost or reported twice,
    however increments and reports alternate. *)
Theorem rate_counter_conserves ops :
  let (c, out) := run_counter ops (new_counter RATE) in
  c_count c = total ops ∧ sum out + (c_count c - c_previous c) = total ops.
Proof.
  enough (∀ c, c_mode c = RATE ->
    c_count (run_counter ops c).1 = c_count c + total ops ∧
    sum (run_counter ops c).2 + (c_count (run_counter ops c).1 - c_previous (run_counter ops c).1) =
    c_count c - c_previous c + total ops) as H.
  { specialize (H (new_counter RATE) eq_refl). destruct (run_counter ops (new_counter RATE)) as [c out].
    cbn [fst snd c_count c_previous new_counter] in H. lia. }
  induction ops as [|[v|] ops IH]; intros c Hm; cbn [run_counter].
  - cbn. lia.
  - destruct (IH (increment v c) Hm) as [H1 H2]. cbn [c_count increment c_previous] in H1, H2.
    change (total (Inc v :: ops)) with (v + total ops). lia.
  - unfold counter_transform. rewrite Hm.
    destruct (IH (mkCounter (c_count c) (c_count c) RATE) eq_refl) as [H1 H2].
    cbn [c_count c_previous] in H1, H2.
    destruct (run_counter ops (mkCounter (c_count c) (c_count c) RATE)) as [c2 out].
    cbn [fst snd] in *. change (total (Report :: ops)) with (total ops).
    change (sum ((c_count c - c_previous c) :: out)) with (c_count c - c_previous c + sum out). lia.
Qed.
