(* ===== verification/Scenarios.v ===== *)
(** * Concrete executions of the tracer

    The tracer with the real agent and the real profiler behind its interfaces, run
    on small programs: each run meets the hypotheses of a theorem of TraceProps.v,
    TracePropagation.v or Wire.v. *)

From S2P Require Import Prelude PyData PyText Codec Carrier Config Filter Sampling TraceData.
From S2P Require Import Trace TraceInv TraceSpec TraceProps TracePropagation Wire ReporterLog Report Agent Profile.

#[local] Instance demo_profiler : ProfileOps Service := Profile_ops default_config.

Definition demo_uuid (n : nat) : pystr := py "id" ++ str_of_int (Z.of_nat n).
Definition demo_format (_ : exn) (_ : Z) : pystr := py "traceback".
Definition demo_str (_ : exn) : pystr := py "error".

Abbreviation DW := (World Agent Service).
Definition demo_exec : call -> M DW unit := exec default_config demo_uuid 0 demo_format demo_str.
Abbreviation demo_reachable := (reachable default_config demo_uuid 0 demo_format demo_str).

(** A started agent, one second after the epoch. *)
Definition demo_world : DW :=
  mkWorld 0 ∅ ∅ ∅ ∅ ∅ 0 1000000 None (start_agent (new_agent default_config 7)).1 new_service.

Definition run (os : list call) (w : DW) : DW := foldl (fun w o => (demo_exec o w).1) w os.

Definition legalb (w : DW) (o : call) : bool :=
  match o with
  | Start _ l | Stop _ l => bool_decide (is_Some (w_spans w !! l))
  | NewTask t t' => bool_decide (w_vars w !! t' = None)
  | _ => true
  end.
Fixpoint legal_run (os : list call) (w : DW) : bool :=
  match os with
  | [] => true
  | o :: os' => legalb w o && legal_run os' (demo_exec o w).1
  end.

Lemma run_reachable os w : demo_reachable w -> legal_run os w = true -> demo_reachable (run os w).
Proof.
  revert w. induction os as [|o os IH]; intros w Hw Hl; [done|]. cbn in Hl.
  apply andb_true_iff in Hl as [Ho Hl]. apply IH; [|done]. apply reach_call; [done|].
  unfold legalb in Ho. destruct o; cbn; try done; by apply bool_decide_eq_true in Ho.
Qed.

Lemma run_demo os : legal_run os demo_world = true -> demo_reachable (run os demo_world).
Proof. apply run_reachable, reach_init. Qed.

(** An entry span with an exit span in it. *)
Definition nested : list call :=
  [OpenEntry 1 (py "/in") None None; Start 1 3; OpenExit 1 (py "/out") (py "db:1") None None].

Definition nested_world : DW := run nested demo_world.

Lemma nested_reachable : demo_reachable nested_world.
Proof. apply run_demo. vm_compute. reflexivity. Qed.


Lemma stop_archives_with_last_span_witness :
  let s := w_spans nested_world !!! 3%nat in
  let x := w_ctxs nested_world !!! 2%nat in
  ∃ w', stop 1 3 nested_world = (w', Ok (bool_decide (active_spans w' (context s) = ∅))) ∧
    w_agent w' = (if decide (active_spans w' (context s) = ∅)
                  then archive_segment (w_now nested_world) (context s) (w_agent nested_world)
                  else w_agent nested_world) ∧
    seg_spans (segment (w_ctxs w' !!! context s)) = seg_spans (segment x) ++ [3%nat].
Proof.
  intros s x.
  apply (stop_archives_with_last_span default_config demo_uuid 0 demo_format demo_str nested_world 1 3 s x);
    [apply nested_reachable | vm_compute; reflexivity ..].
Defined.


(** A task created inside the entry span opens and starts its own span. *)
Lemma tasks_are_isolated_witness :
  let w := run [NewTask 1 9; OpenLocal 9 (py "job")] nested_world in
  stack w 9 = [3%nat] ∧ stack (demo_exec (Start 9 6) w).1 1 = stack w 1.
Proof.
  split; [vm_compute; reflexivity|].
  apply (tasks_are_isolated default_config demo_uuid 0 demo_format demo_str).
  - apply run_reachable; [apply nested_reachable | vm_compute; reflexivity].
  - vm_compute. eexists. reflexivity.
  - vm_compute. discriminate.
Defined.


(** ** Propagation *)

(** A downstream process that has just asked for its context. *)
Definition idle_world : DW := (get_context default_config demo_uuid 1 demo_world).1.

(** The carrier of the exit span, and its header. *)
Definition demo_carrier : Carrier :=
  match (inject default_config 5 nested_world).2 with Ok ca => ca | Raise _ => empty_carrier 0 end.
Definition demo_header : pystr := match carrier_val demo_carrier with Ok v => v | Raise _ => [] end.

Lemma trace_crosses_processes_witness :
  let su := w_spans nested_world !!! 5%nat in
  let xu := w_ctxs nested_world !!! 2%nat in
  ∃ ca' w' l s' x', set_carrier_val demo_header (empty_carrier 1) = (ca', Ok tt) ∧
    new_entry_span default_config demo_uuid 1 2 (py "/down") (Some ca') None idle_world = (w', Ok l) ∧
    w_spans w' !! l = Some s' ∧ cls s' = ClsEntrySpan ∧ context s' = 2%nat ∧
    refs s' = [mkRef CrossProcess (py "id1") (id_value (seg_id (segment xu))) (sid su)
                 (agent_name default_config) (agent_instance_name default_config) (Some (op su)) (peer su)] ∧
    w_ctxs w' !! 2%nat = Some x' ∧
    related_traces (segment x') = [mkID PlainID (py "id1")] ∧ ctx_correlation x' = 1%nat.
Proof.
  intros su xu.
  apply (trace_crosses_processes default_config default_config demo_uuid nested_world 5 su xu
    (mkID NewID (py "id1")) [] (py "db:1") demo_carrier demo_header 1 idle_world 1 2
    (w_ctxs idle_world !!! 2%nat) (mkID NewID (py "id1")) (py "/down") None);
    first [vm_compute; reflexivity | vm_compute; intros H; discriminate H |
           vm_compute; repeat constructor; intros H; discriminate H].
Defined.

(** An ignored operation upstream: [.jpg] is in the default ignore suffix. *)
Definition noop_world : DW := run [OpenEntry 1 (py "/a.jpg") None None] demo_world.

Lemma suppression_crosses_processes_witness :
  ∃ ca v ca' w' l s', (inject default_config 5 noop_world).2 = Ok ca ∧ carrier_val ca = Ok v ∧
    set_carrier_val v (empty_carrier 1) = (ca', Ok tt) ∧
    new_entry_span default_config demo_uuid 1 2 (py "/down") (Some ca') None idle_world = (w', Ok l) ∧
    w_spans w' !! l = Some s' ∧ cls s' = ClsNoopSpan ∧ noop (w_ctxs w' !!! context s') = true.
Proof.
  eapply (suppression_crosses_processes default_config default_config demo_uuid noop_world 5 _ idle_world 1 2);
    vm_compute; reflexivity.
Defined.

(** A worker thread with a local span of its own. *)
Definition worker_world : DW :=
  run [OpenLocal 8 (py "work"); Start 8 7] (run [OpenLocal 7 (py "other")] demo_world).

Lemma trace_crosses_threads_witness :
  let x := w_ctxs nested_world !!! 2%nat in
  let x2 := w_ctxs worker_world !!! 6%nat in
  let s2 := w_spans worker_world !!! 7%nat in
  ∃ snap w3 x3, capture 1 2 nested_world = (nested_world, Ok (Some snap)) ∧
    continued default_config demo_uuid 8 6 (Some snap) worker_world = (w3, Ok tt) ∧
    w_spans w3 !! 7%nat = Some (set_refs (refs s2 ++
      [mkRef CrossThread (py "id1") (id_value (seg_id (segment x))) (sid (w_spans nested_world !!! 3%nat))
         (agent_name default_config) (agent_instance_name default_config)
         (Some (op (w_spans nested_world !!! 3%nat))) (Some [])]) s2) ∧
    w_ctxs w3 !! 6%nat = Some x3 ∧ related_traces (segment x3) = [mkID PlainID (py "id1")] ∧
    w_dicts w3 !! ctx_correlation x2 =
      Some (Dict.update [] (w_dicts nested_world !!! ctx_correlation x)).
Proof.
  intros x x2 s2.
  apply (trace_crosses_threads default_config demo_uuid nested_world 1 2 x (mkID NewID (py "id1")) [] 3 3
    worker_world 8 6 x2 (mkID NewID (py "id3")) 7 s2 []);
    first [vm_compute; reflexivity | vm_compute; intros H; discriminate H].
Defined.

Lemma put_correlation_bounded_witness :
  let x := w_ctxs nested_world !!! 2%nat in
  ∃ w' d', put_correlation default_config 2 (Some (py "k")) (Some (py "v")) nested_world = (w', Ok tt) ∧
    w_dicts w' !! ctx_correlation x = Some d' ∧ Dict.wf d' ∧
    Z.of_nat (length d') <= correlation_element_max_number default_config + 1 ∧
    (∀ k', k' ≠ py "k" -> Dict.get k' d' = Dict.get k' []) ∧
    Dict.get (py "k") d' =
      (if (Z.of_nat (length (py "v")) <=? correlation_value_max_length default_config) &&
          (Z.of_nat (@length (pystr * pystr) []) <=? correlation_element_max_number default_config)
       then Some (py "v") else Dict.get (py "k") []).
Proof.
  intros x. apply (put_correlation_bounded default_config nested_world 2 x []).
  - vm_compute. reflexivity.
  - vm_compute. reflexivity.
  - apply Dict.wf_nil.
  - vm_compute. discriminate.
Defined.

(** The segment the worker finishes carries one cross-thread reference. *)
Definition continued_world : DW :=
  match (capture 1 2 nested_world).2 with
  | Ok snap => run [Continued 8 6 snap; Stop 8 7] worker_world
  | Raise _ => worker_world
  end.

Lemma http_loses_cross_thread_refs_witness :
  map ref_type (sent_refs continued_world 6) = [CrossThread] ∧
  (http_segment default_config continued_world 6 = grpc_segment default_config continued_world 6 <->
   Forall (fun r => ref_type r = CrossProcess) (sent_refs continued_world 6)) ∧
  (http_aio_segment default_config continued_world 6 = grpc_aio_segment default_config continued_world 6 <->
   Forall (fun r => ref_type r = CrossProcess) (sent_refs continued_world 6)).
Proof.
  split; [vm_compute; reflexivity|].
  apply (http_loses_cross_thread_refs default_config continued_world 6). vm_compute. discriminate.
Defined.
