(* ===== verification/Tls.v ===== *)
(** * TLS material: the stateful part of utils/tls.py

    Whether the collector is reached over TLS, with which CA and with which client
    certificate.  Files, OpenSSL and gRPC are parameters ([TlsEnv]); every call of them
    gets the number of calls made so far, so that two calls may answer differently: a
    secret rotated between two reads, a temporary directory that fills up.  The module's
    globals are the state: warnings already given, the temporary PEM files with their
    two caches, and the disk.  TlsProps.v holds the theorems. *)

From S2P Require Import Prelude PyData PyText Codec Config TlsPem.

(** ** The world around the module *)

(** Where an [SSLContext] takes its trust anchors from. *)
Inductive CaSource :=
| SystemTrust
| CaFile (path : pystr)
| CaData (text : pystr).

(** What [grpc.ssl_channel_credentials] is called with. *)
Record Credentials := {
  root_certificates : option (list Z);
  private_key : option (list Z);
  certificate_chain : option (list Z) }.

(** [(root_certificates, private_key, certificate_chain)], or [None] for plaintext. *)
Abbreviation Material := (option Credentials).

Record TlsEnv := {
  (** [Path(text).expanduser().resolve(strict=True)], [None] when not a regular file *)
  env_resolve : nat -> pystr -> res (option pystr);
  (** [str(Path(text).expanduser().absolute())] *)
  env_absolute : nat -> pystr -> res pystr;
  env_getsize : nat -> pystr -> res Z;
  env_read : nat -> pystr -> res (list Z);
  (** [tempfile.mkstemp(suffix)] in a file system holding the given paths *)
  env_mkstemp : nat -> pystr -> gset pystr -> res pystr;
  (** [os.write] of so many bytes: how many were written *)
  env_write : nat -> nat -> res Z;
  (** whether [os.unlink] succeeds *)
  env_unlink : nat -> pystr -> bool;
  env_exists : nat -> pystr -> bool;
  (** [ssl.create_default_context] *)
  env_default_context : nat -> CaSource -> res unit;
  (** [ctx.load_cert_chain] *)
  env_load_cert_chain : nat -> pystr -> pystr -> res unit;
  env_channel_credentials : nat -> Credentials -> res unit;
  (** the text of the exception just caught *)
  env_exc_text : nat -> pystr }.

(** ** State *)

(** Temporary files: the list for the exit handler, the two caches, the disk they are
    on, and the number of open descriptors. *)
Record Store := mkStore {
  _mtls_temp_files : list pystr;
  _mtls_file_cache_key : option (list Z * list Z);
  _mtls_file_cache : option (pystr * pystr);
  _ca_file_cache_key : option (list Z);
  _ca_file_cache : option pystr;
  _atexit_registered : bool;
  disk : gmap pystr (list Z);
  open_fds : Z }.

(** The messages of the module, in the order of the source. *)
Inductive Warning :=
| W_ca_missing_forced | W_ca_missing_plain | W_mtls_without_ca | W_mtls_partial
| W_mtls_not_found | W_mtls_read_error | W_mtls_temp | W_ca_load_forced | W_ca_load_plain
| W_tls_material | W_grpc_mtls | W_grpc_oneway | W_grpc_force | W_grpc_force_fail | W_grpc
| W_http_scheme | W_requests_ca_path | W_requests_ca_trust | W_requests_tls
| W_ctx_ca_forced | W_ctx_ca_plain | W_ctx_system | W_ctx_mtls.

#[export] Instance Warning_eq_dec : EqDecision Warning.
Proof. solve_decision. Defined.

Record Tls := mkTls {
  tick : nat;
  _warned_keys : list pystr;
  tls_log : list Warning;
  store : Store }.

Definition with_store (f : Store -> Store) (s : Tls) : Tls :=
  mkTls (tick s) (_warned_keys s) (tls_log s) (f (store s)).

Definition set_disk (f : gmap pystr (list Z) -> gmap pystr (list Z)) (s : Store) : Store :=
  mkStore (_mtls_temp_files s) (_mtls_file_cache_key s) (_mtls_file_cache s)
    (_ca_file_cache_key s) (_ca_file_cache s) (_atexit_registered s) (f (disk s)) (open_fds s).
Definition set_temp_files (l : list pystr) (s : Store) : Store :=
  mkStore l (_mtls_file_cache_key s) (_mtls_file_cache s)
    (_ca_file_cache_key s) (_ca_file_cache s) (_atexit_registered s) (disk s) (open_fds s).
Definition set_fds (d : Z) (s : Store) : Store :=
  mkStore (_mtls_temp_files s) (_mtls_file_cache_key s) (_mtls_file_cache s)
    (_ca_file_cache_key s) (_ca_file_cache s) (_atexit_registered s) (disk s) (open_fds s + d).
Definition set_mtls_cache (k : list Z * list Z) (v : pystr * pystr) (s : Store) : Store :=
  mkStore (_mtls_temp_files s) (Some k) (Some v)
    (_ca_file_cache_key s) (_ca_file_cache s) (_atexit_registered s) (disk s) (open_fds s).
Definition set_ca_cache (k : list Z) (v : pystr) (s : Store) : Store :=
  mkStore (_mtls_temp_files s) (_mtls_file_cache_key s) (_mtls_file_cache s)
    (Some k) (Some v) (_atexit_registered s) (disk s) (open_fds s).

(** ** Control *)

(** A call of the environment. *)
Definition call {A} (f : nat -> res A) : M Tls A := fun s =>
  (mkTls (S (tick s)) (_warned_keys s) (tls_log s) (store s), f (tick s)).
Definition ask {A} (f : nat -> A) : M Tls A := call (fun t => Ok (f t)).

(** [except (es)]: any other exception goes on. *)
Definition catching {A} (es : list exn) (m : M Tls A) (h : exn -> M Tls A) : M Tls A :=
  try_except m (fun e => if decide (e ∈ es) then h e else raise e).

(** [except ...: c; raise] *)
Definition on_error {A} (m : M Tls A) (c : M Tls unit) : M Tls A :=
  try_except m (fun e => _ ← c; raise e).

(** [try: m finally: c] *)
Definition finally {A} (m : M Tls A) (c : M Tls unit) : M Tls A := fun s =>
  let '(s1, r) := m s in
  let '(s2, rc) := c s1 in
  (s2, match rc with Ok _ => r | Raise e => Raise e end).

Definition path_errors : list exn := [OSError; ValueError; RuntimeError].
Definition file_errors : list exn := [OSError; ValueError].

(** [logger.warning] *)
Definition warn (w : Warning) : M Tls unit :=
  modify (fun s => mkTls (tick s) (_warned_keys s) (tls_log s ++ [w]) (store s)).

(** [_warn_once] *)
Definition _warn_once (key : pystr) (w : Warning) : M Tls unit := fun s =>
  if decide (key ∈ _warned_keys s) then (s, Ok tt)
  else warn w (mkTls (tick s) (_warned_keys s ++ [key]) (tls_log s) (store s)).

(** [_warn_once(f'...{exc}', ...)] *)
Definition warn_exc (env : TlsEnv) (prefix : pystr) (w : Warning) : M Tls unit :=
  t ← ask (env_exc_text env); _warn_once (prefix ++ t) w.

Section tls.
Context (env : TlsEnv) (cfg : CoreConfig).

(** ** Paths and files *)

Definition _configured_path (value : pystr) : pystr := strip value.

Definition ssl_file_path (value : pystr) : M Tls (option pystr) :=
  let text := _configured_path value in
  if bool_decide (text = []) then mret None
  else catching path_errors (call (fun t => env_resolve env t text)) (fun _ => mret None).

Definition collector_uses_tls : M Tls bool :=
  let force := agent_force_tls cfg in
  let ca_cfg := _configured_path (agent_ssl_trusted_ca_path cfg) in
  ca_path ← (if bool_decide (ca_cfg = []) then mret None else ssl_file_path ca_cfg);
  _ ← (if negb (bool_decide (ca_cfg = [])) && bool_decide (ca_path = None)
       then _warn_once (py "ca-missing:" ++ ca_cfg)
              (if force then W_ca_missing_forced else W_ca_missing_plain)
       else mret tt);
  mret (force || negb (bool_decide (ca_path = None))).

Definition _MAX_PEM_BYTES : Z := 256 * 1024.

Definition _read_bytes (path : pystr) : M Tls (list Z) :=
  size ← call (fun t => env_getsize env t path);
  if _MAX_PEM_BYTES <? size then raise ValueError
  else call (fun t => env_read env t path).

Definition _load_trusted_ca (path : pystr) : M Tls (list Z) :=
  data ← _read_bytes path;
  _ ← catching [OSError] (call (fun t => env_default_context env t (CaFile path)))
        (fun _ => raise ValueError);
  lift (_extract_ca_pem_blocks data).

(** ** Temporary files *)

(** [tempfile.mkstemp(suffix=...)]: an empty file and an open descriptor. *)
Definition mkstemp (suffix : pystr) : M Tls pystr := fun s =>
  match call (fun t => env_mkstemp env t suffix (dom (disk (store s)))) s with
  | (s', Ok path) => (with_store (fun d => set_fds 1 (set_disk (insert path []) d)) s', Ok path)
  | (s', Raise e) => (s', Raise e)
  end.

(** [os.write(fd, data)]: appends what the call reports as written. *)
Definition os_write (path : pystr) (data : list Z) : M Tls Z :=
  n ← call (fun t => env_write env t (length data));
  _ ← modify (with_store (set_disk (alter (fun c => c ++ take (Z.to_nat n) data) path)));
  mret n.

Definition os_close : M Tls unit := modify (with_store (set_fds (-1))).

(** [try: os.unlink(path) except OSError: pass] *)
Definition unlink_quiet (path : pystr) : M Tls unit :=
  ok ← ask (fun t => env_unlink env t path);
  modify (with_store (set_disk (fun d => if ok : bool then delete path d else d))).

Definition _validate_client_cert_key (cert_pem key_pem : list Z) : M Tls unit :=
  cert_path ← mkstemp (py ".crt");
  key_path ← on_error
    (_ ← finally (_ ← os_write cert_path cert_pem; mret tt) os_close; mkstemp (py ".pem"))
    (unlink_quiet cert_path);
  finally
    (_ ← finally (_ ← os_write key_path key_pem; mret tt) os_close;
     call (fun t => env_load_cert_chain env t cert_path key_path))
    (_ ← unlink_quiet cert_path; unlink_quiet key_path).

Definition _ensure_atexit : M Tls unit := modify (with_store (fun d =>
  if _atexit_registered d then d
  else mkStore (_mtls_temp_files d) (_mtls_file_cache_key d) (_mtls_file_cache d)
         (_ca_file_cache_key d) (_ca_file_cache d) true (disk d) (open_fds d))).

(** The loop of [_pem_bytes_to_temp_file]; [data] is what is left of the view. *)
Fixpoint write_all (fuel : nat) (path : pystr) (data : list Z) : M Tls unit :=
  match fuel with
  | O => raise OtherException
  | S fuel =>
      if bool_decide (data = []) then mret tt
      else
        written ← os_write path data;
        if written <=? 0 then raise OSError
        else write_all fuel path (drop (Z.to_nat written) data)
  end.

Definition _pem_bytes_to_temp_file (data : list Z) (suffix : pystr) : M Tls pystr :=
  _ ← _ensure_atexit;
  path ← mkstemp suffix;
  _ ← on_error (write_all (S (length data)) path data) (_ ← os_close; unlink_quiet path);
  _ ← os_close;
  _ ← modify (with_store (fun d => set_temp_files (_mtls_temp_files d ++ [path]) d));
  mret path.

Definition _discard_mtls_temp_path (path : option pystr) : M Tls unit :=
  match path with
  | None => mret tt
  | Some p =>
      if bool_decide (p = []) then mret tt
      else
        _ ← unlink_quiet p;
        modify (with_store (fun d =>
          match list_remove_first p (_mtls_temp_files d) with
          | Some l => set_temp_files l d
          | None => d
          end))
  end.

Definition _cleanup_mtls_temp_files : M Tls unit :=
  files ← gets (fun s => _mtls_temp_files (store s));
  _ ← for_each files unlink_quiet;
  modify (with_store (fun d =>
    mkStore [] None None None None (_atexit_registered d) (disk d) (open_fds d))).

Definition _after_fork_in_child : M Tls unit :=
  modify (with_store (fun d =>
    mkStore [] None None None None (_atexit_registered d) (disk d) (open_fds d))).

(** The [try] of [_mtls_cert_key_files]: when the second file fails the first one is
    discarded; an [OSError] ends in a warning and [None]. *)
Definition write_pair (certificate_chain private_key : list Z) : M Tls (option (pystr * pystr)) :=
  catching [OSError]
    (cert_path ← _pem_bytes_to_temp_file certificate_chain (py ".crt");
     key_path ← catching [OSError] (_pem_bytes_to_temp_file private_key (py ".pem"))
       (fun e => _ ← _discard_mtls_temp_path (Some cert_path); raise e);
     mret (Some (cert_path, key_path)))
    (fun _ => _ ← warn_exc env (py "mtls-temp:") W_mtls_temp; mret None).

Definition _mtls_cert_key_files (certificate_chain private_key : list Z)
  : M Tls (option (pystr * pystr)) :=
  d ← gets store;
  if negb (bool_decide (_mtls_file_cache d = None)) &&
     bool_decide (_mtls_file_cache_key d = Some (certificate_chain, private_key))
  then mret (_mtls_file_cache d)
  else
    paths ← write_pair certificate_chain private_key;
    match paths with
    | None => mret None
    | Some p =>
        _ ← modify (with_store (set_mtls_cache (certificate_chain, private_key) p));
        mret (Some p)
    end.

(** ** The material *)

Definition _mtls_material (ca_usable : bool) : M Tls (option (list Z) * option (list Z)) :=
  let cert_cfg := _configured_path (agent_ssl_cert_chain_path cfg) in
  let key_cfg := _configured_path (agent_ssl_key_path cfg) in
  let has_cert := negb (bool_decide (cert_cfg = [])) in
  let has_key := negb (bool_decide (key_cfg = [])) in
  if negb ca_usable then
    _ ← (if has_cert || has_key
         then _warn_once (py "mtls-without-ca:" ++ cert_cfg ++ py "|" ++ key_cfg) W_mtls_without_ca
         else mret tt);
    mret (None, None)
  else if xorb has_cert has_key then
    _ ← _warn_once (py "mtls-partial:" ++ cert_cfg ++ py "|" ++ key_cfg) W_mtls_partial;
    mret (None, None)
  else if negb has_cert || negb has_key then mret (None, None)
  else
    cert_path ← ssl_file_path cert_cfg;
    key_path ← ssl_file_path key_cfg;
    match cert_path, key_path with
    | Some cert_path, Some key_path =>
        catching file_errors
          (cert_pem ← _read_bytes cert_path;
           key_bytes ← _read_bytes key_path;
           key_pem ← lift (normalize_private_key_pem key_bytes);
           _ ← _validate_client_cert_key cert_pem key_pem;
           mret (Some cert_pem, Some key_pem))
          (fun _ => _ ← warn W_mtls_read_error; mret (None, None))
    | _, _ => _ ← warn W_mtls_not_found; mret (None, None)
    end.

Definition tls_pem_material : M Tls Material :=
  _ ← collector_uses_tls;
  let force := agent_force_tls cfg in
  ca_path ← ssl_file_path (agent_ssl_trusted_ca_path cfg);
  (* [None]: the load failed and the collector stays plaintext. *)
  root ← match ca_path with
         | None => mret (Some None)
         | Some path =>
             catching file_errors (d ← _load_trusted_ca path; mret (Some (Some d)))
               (fun _ => if force then _ ← warn W_ca_load_forced; mret (Some None)
                         else _ ← warn W_ca_load_plain; _ ← _mtls_material false; mret None)
         end;
  match root with
  | None => mret None
  | Some root_certificates =>
      let ca_usable := negb (bool_decide (root_certificates = None)) in
      if negb force && negb ca_usable then _ ← _mtls_material false; mret None
      else
        '(certificate_chain, private_key) ← _mtls_material ca_usable;
        mret (Some {| root_certificates := root_certificates; private_key := private_key;
                      certificate_chain := certificate_chain |})
  end.

Definition system_credentials : Credentials :=
  {| root_certificates := None; private_key := None; certificate_chain := None |}.

Definition safe_tls_pem_material : M Tls Material :=
  try_except tls_pem_material (fun _ =>
    _ ← warn_exc env (py "tls-material:") W_tls_material;
    mret (if agent_force_tls cfg then Some system_credentials else None)).

(** [grpc.ssl_channel_credentials(...)] *)
Definition ssl_channel_credentials (c : Credentials) : M Tls Material :=
  _ ← call (fun t => env_channel_credentials env t c); mret (Some c).

Definition grpc_ssl_credentials : M Tls Material :=
  material ← tls_pem_material;
  match material with
  | None => mret None
  | Some c =>
      try_except (ssl_channel_credentials c) (fun _ =>
        if negb (bool_decide (private_key c = None)) || negb (bool_decide (certificate_chain c = None))
        then
          _ ← warn_exc env (py "grpc-creds-mtls:") W_grpc_mtls;
          try_except
            (ssl_channel_credentials {| root_certificates := root_certificates c;
                                        private_key := None; certificate_chain := None |})
            (fun _ => _ ← warn_exc env (py "grpc-creds-oneway:") W_grpc_oneway; mret None)
        else if agent_force_tls cfg then
          _ ← warn_exc env (py "grpc-creds-force:") W_grpc_force;
          try_except (ssl_channel_credentials system_credentials)
            (fun _ => _ ← warn_exc env (py "grpc-creds-force-fail:") W_grpc_force_fail; mret None)
        else _ ← warn_exc env (py "grpc-creds:") W_grpc; mret None)
  end.

(** ** HTTP reporters *)

(** The argument [material]: absent ([_MATERIAL_UNSET]) or given. *)
Definition with_material (material : option Material) : M Tls Material :=
  match material with None => tls_pem_material | Some m => mret m end.

Definition scheme_of (tls : bool) : pystr := if tls then py "https://" else py "http://".

Definition collector_http_scheme (material : option Material) : M Tls pystr :=
  try_except
    (m ← with_material material; mret (scheme_of (match m with Some _ => true | None => false end)))
    (fun _ =>
       _ ← warn_exc env (py "http-scheme:") W_http_scheme;
       mret (scheme_of (agent_force_tls cfg))).

Definition _ca_verify_temp_file (root_certificates : list Z) : M Tls pystr :=
  d ← gets store;
  let write :=
    path ← _pem_bytes_to_temp_file root_certificates (py ".crt");
    _ ← modify (with_store (set_ca_cache root_certificates path));
    mret path in
  match _ca_file_cache d with
  | Some cached =>
      if bool_decide (_ca_file_cache_key d = Some root_certificates) then
        ex ← ask (fun t => env_exists env t cached);
        if ex : bool then mret cached else write
      else write
  | None => write
  end.

Definition _configured_ca_path_for_verify : M Tls (option pystr) :=
  let text := _configured_path (agent_ssl_trusted_ca_path cfg) in
  if bool_decide (text = []) then mret None
  else
    p ← ssl_file_path text;
    match p with
    | None => mret None
    | Some _ =>
        catching path_errors (a ← call (fun t => env_absolute env t text); mret (Some a))
          (fun _ => mret None)
    end.

(** [verify] of a requests session: [True] or the path of a CA file. *)
Inductive Verify := VerifySystem | VerifyPath (path : pystr).

Definition requests_tls_settings (material : option Material)
  : M Tls (Verify * option (pystr * pystr)) :=
  m ← with_material material;
  match m with
  | None => mret (VerifySystem, None)
  | Some c =>
      verify ← match root_certificates c with
               | Some roots =>
                   catching [OSError] (p ← _ca_verify_temp_file roots; mret (VerifyPath p))
                     (fun _ =>
                        ca_verify ← _configured_ca_path_for_verify;
                        match ca_verify with
                        | Some p =>
                            _ ← warn_exc env (py "requests-ca-temp:") W_requests_ca_path;
                            mret (VerifyPath p)
                        | None =>
                            _ ← warn_exc env (py "requests-ca-temp:") W_requests_ca_trust;
                            mret VerifySystem
                        end)
               | None => mret VerifySystem
               end;
      match private_key c, certificate_chain c with
      | Some key, Some chain => pair ← _mtls_cert_key_files chain key; mret (verify, pair)
      | _, _ => mret (verify, None)
      end
  end.

(** The two attributes of [requests.Session] the function assigns. *)
Record Session := mkSession { session_verify : Verify; session_cert : option (pystr * pystr) }.

Definition configure_requests_session (session : Session) (material : option Material)
  : M Tls Session :=
  r ← try_except (vc ← requests_tls_settings material; mret (Some vc))
        (fun _ => _ ← warn_exc env (py "requests-tls:") W_requests_tls; mret None);
  match r with
  | Some (verify, cert) =>
      mret (mkSession verify (match cert with Some _ => cert | None => session_cert session end))
  | None =>
      tls ← (if agent_force_tls cfg then mret true
             else p ← ssl_file_path (agent_ssl_trusted_ca_path cfg);
                  mret (negb (bool_decide (p = None))));
      if tls : bool then
        ca_verify ← _configured_ca_path_for_verify;
        mret (mkSession (match ca_verify with Some p => VerifyPath p | None => VerifySystem end) None)
      else mret session
  end.

(** ** asyncio HTTP reporters *)

(** An [ssl.SSLContext]: its trust anchors and the client identity loaded into it. *)
Record SSLContext := mkContext { ctx_ca : CaSource; ctx_identity : option (pystr * pystr) }.

Definition create_default_context (src : CaSource) : M Tls SSLContext :=
  _ ← call (fun t => env_default_context env t src); mret (mkContext src None).

(** [_load_ca_via_cafile]: [None] is the returned exception. *)
Definition _load_ca_via_cafile (roots : list Z) : M Tls (option SSLContext) :=
  catching [OSError]
    (cafile ← _ca_verify_temp_file roots; c ← create_default_context (CaFile cafile); mret (Some c))
    (fun _ =>
       ca_verify ← _configured_ca_path_for_verify;
       match ca_verify with
       | Some p =>
           catching [OSError] (c ← create_default_context (CaFile p); mret (Some c))
             (fun _ => mret None)
       | None => mret None
       end).

(** The context with its trust anchors, and whether the client identity may be loaded;
    [None] when the collector stays plaintext. *)
Definition trust_context (c : Credentials) : M Tls (option (SSLContext * bool)) :=
  let system (usable : bool) :=
    catching [OSError] (ctx ← create_default_context SystemTrust; mret (Some (ctx, usable)))
      (fun _ => _ ← warn_exc env (py "ssl-ctx-system:") W_ctx_system; mret None) in
  match root_certificates c with
  | None => system true
  | Some roots =>
      ctx ← (if _ca_pem_has_trusted_certificate roots then _load_ca_via_cafile roots
             else catching file_errors
                    (text ← lift (ascii_encode roots);
                     x ← create_default_context (CaData text); mret (Some x))
                    (fun _ => _load_ca_via_cafile roots));
      match ctx with
      | Some x => mret (Some (x, true))
      | None =>
          if agent_force_tls cfg then
            _ ← warn_exc env (py "ssl-ctx-ca:") W_ctx_ca_forced; system false
          else _ ← warn_exc env (py "ssl-ctx-ca-plain:") W_ctx_ca_plain; mret None
      end
  end.

Definition ssl_context_for_collector (material : option Material) : M Tls (option SSLContext) :=
  m ← with_material material;
  match m with
  | None => mret None
  | Some c =>
      r ← trust_context c;
      match r with
      | None => mret None
      | Some (ctx, usable) =>
          match (if usable : bool then private_key c else None),
                (if usable then certificate_chain c else None) with
          | Some key, Some chain =>
              pair ← _mtls_cert_key_files chain key;
              match pair with
              | None => mret (Some ctx)
              | Some (cert_file, key_file) =>
                  catching [OSError]
                    (_ ← call (fun t => env_load_cert_chain env t cert_file key_file);
                     mret (Some (mkContext (ctx_ca ctx) (Some (cert_file, key_file)))))
                    (fun _ => _ ← warn_exc env (py "ssl-ctx-mtls:") W_ctx_mtls; mret (Some ctx))
              end
          | _, _ => mret (Some ctx)
          end
      end
  end.
End tls.

(** ** The HTTP clients: client/http.py and client/http_aio.py

    Each client's [__init__] loads the material once and derives the URL scheme and the
    session from it. *)

Definition default_session : Session := mkSession VerifySystem None.

Definition http_client_init (env : TlsEnv) (cfg : CoreConfig) : M Tls (pystr * Session) :=
  material ← safe_tls_pem_material env cfg;
  proto ← collector_http_scheme env cfg (Some material);
  session ← configure_requests_session env cfg default_session (Some material);
  mret (proto, session).

(** [_aiohttp_session(material)]: without a context the connector is aiohttp's default. *)
Definition http_aio_client_init (env : TlsEnv) (cfg : CoreConfig) : M Tls (pystr * option SSLContext) :=
  material ← safe_tls_pem_material env cfg;
  proto ← collector_http_scheme env cfg (Some material);
  ssl_ctx ← ssl_context_for_collector env cfg (Some material);
  mret (proto, ssl_ctx).
