(* ===== verification/TlsProps.v ===== *)
(** * TLS: what the material, the settings and the temporary files guarantee

    Theorems about Tls.v.  Three groups: the decision (when TLS and mTLS are on, where
    the CA comes from, agreement of the URL scheme with the session settings), error
    behaviour (documented failures of files, OpenSSL and gRPC never escape), and the
    temporary files (contents, caches, no leaks, and a forked child that leaves the
    files of its parent alone). *)

From S2P Require Import Prelude PyData PyText Codec Config TlsPem Tls.

(** ** What the environment documents *)

Class TlsEnvOk (env : TlsEnv) : Prop := {
  ok_resolve t x e : env_resolve env t x = Raise e -> e ∈ path_errors;
  ok_absolute t x e : env_absolute env t x = Raise e -> e ∈ path_errors;
  ok_getsize t x e : env_getsize env t x = Raise e -> e ∈ file_errors;
  ok_read t x e : env_read env t x = Raise e -> e ∈ file_errors;
  ok_mkstemp t x l e : env_mkstemp env t x l = Raise e -> e = OSError;
  ok_fresh t x l p : env_mkstemp env t x l = Ok p -> p ∉ l ∧ p ≠ [];
  ok_write t n e : env_write env t n = Raise e -> e = OSError;
  ok_cafile t p e : env_default_context env t (CaFile p) = Raise e -> e = OSError;
  ok_system t e : env_default_context env t SystemTrust = Raise e -> e = OSError;
  ok_cadata t x e : env_default_context env t (CaData x) = Raise e -> e ∈ file_errors;
  ok_chain t c k e : env_load_cert_chain env t c k = Raise e -> e = OSError }.

(** ** Exceptions *)

(** Every exception that escapes [m] is one of [es]. *)
Definition raises_only {A} (es : list exn) (m : M Tls A) : Prop :=
  ∀ s s' e, m s = (s', Raise e) -> e ∈ es.

Section raises.
Implicit Types (es : list exn).

Lemma raises_ret {A} es (a : A) : raises_only es (mret a).
Proof. intros s s' e [=]. Qed.

Lemma raises_modify es f : raises_only es (modify f).
Proof. intros s s' e [=]. Qed.

Lemma raises_gets {A} es (f : Tls -> A) : raises_only es (gets f).
Proof. intros s s' e [=]. Qed.

Lemma raises_ask {A} es (f : nat -> A) : raises_only es (ask f).
Proof. intros s s' e [=]. Qed.

Lemma raises_raise {A} es e : e ∈ es -> raises_only es (raise (A := A) e).
Proof. by intros He s s' e' [= <- <-]. Qed.

Lemma raises_lift {A} es (r : res A) : (∀ e, r = Raise e -> e ∈ es) -> raises_only es (lift r).
Proof. intros Hr s s' e [= <- He]. by apply Hr. Qed.

Lemma raises_call {A} es (f : nat -> res A) :
  (∀ t e, f t = Raise e -> e ∈ es) -> raises_only es (call f).
Proof. intros Hf s s' e [= <- He]. by eapply Hf. Qed.

Lemma raises_bind {A B} es (m : M Tls A) (f : A -> M Tls B) :
  raises_only es m -> (∀ a, raises_only es (f a)) -> raises_only es (m ≫= f).
Proof.
  intros Hm Hf s s' e. unfold mbind, M_bind. destruct (m s) as [s1 [a|e1]] eqn:E.
  - apply Hf.
  - intros [= <- <-]. by eapply Hm.
Qed.

Lemma raises_catching {A} es es' (m : M Tls A) h :
  raises_only es' m -> (∀ e, e ∈ es' -> raises_only es (h e)) -> raises_only es (catching es' m h).
Proof.
  intros Hm Hh s s' e. unfold catching, try_except. destruct (m s) as [s1 [a|e1]] eqn:E; [done|].
  assert (e1 ∈ es') by (by eapply Hm). rewrite decide_True by done. by apply Hh.
Qed.

Lemma raises_try {A} es (m : M Tls A) h :
  (∀ e, raises_only es (h e)) -> raises_only es (try_except m h).
Proof.
  intros Hh s s' e. unfold try_except. destruct (m s) as [s1 [a|e1]]; [done|]. apply Hh.
Qed.

Lemma raises_on_error {A} es (m : M Tls A) c :
  raises_only es m -> raises_only es c -> raises_only es (on_error m c).
Proof.
  intros Hm Hc s s' e. unfold on_error, try_except. destruct (m s) as [s1 [a|e1]] eqn:E; [done|].
  unfold mbind, M_bind. destruct (c s1) as [s2 [[]|e2]] eqn:E2.
  - intros [= <- <-]. by eapply Hm.
  - intros [= <- <-]. by eapply Hc.
Qed.

Lemma raises_finally {A} es (m : M Tls A) c :
  raises_only es m -> raises_only es c -> raises_only es (finally m c).
Proof.
  intros Hm Hc s s' e. unfold finally. destruct (m s) as [s1 r] eqn:E.
  destruct (c s1) as [s2 [[]|e2]] eqn:E2; intros [= <- He].
  - subst r. by eapply Hm.
  - subst e2. by eapply Hc.
Qed.

Lemma raises_warn_once es k w : raises_only es (_warn_once k w).
Proof. intros s s' e. unfold _warn_once, warn, modify. by case_decide. Qed.

Lemma raises_for {A} es (l : list A) body :
  (∀ x, raises_only es (body x)) -> raises_only es (for_each l body).
Proof.
  intros H. induction l as [|x l IH]; cbn; [apply raises_ret|].
  apply raises_bind; [apply H | intros _; apply IH].
Qed.

Lemma raises_mono {A} es es' (m : M Tls A) : es' ⊆ es -> raises_only es' m -> raises_only es m.
Proof. intros Hs Hm s s' e He. by eapply Hs, Hm. Qed.

(** No exception escapes: the operation returns. *)
Lemma raises_none {A} (m : M Tls A) s : raises_only [] m -> ∃ s' a, m s = (s', Ok a).
Proof.
  intros H. destruct (m s) as [s' [a|e]] eqn:E; [eauto|].
  by apply H, elem_of_nil in E.
Qed.
End raises.

Create HintDb raises.
#[export] Hint Resolve raises_ret raises_modify raises_gets raises_ask raises_bind
  raises_catching raises_try raises_on_error raises_finally raises_warn_once raises_for : raises.
#[export] Hint Extern 4 (raises_only _ (match ?x with _ => _ end)) => destruct x : raises.
#[export] Hint Extern 4 (raises_only _ (if ?x then _ else _)) => destruct x : raises.
#[export] Hint Extern 3 (raises_only _ (let '(_, _) := ?x in _)) => destruct x : raises.
#[export] Hint Extern 3 (raises_only _ (warn _)) => apply raises_modify : raises.
#[export] Hint Extern 3 (raises_only _ (raise _)) => apply raises_raise; set_solver : raises.

Section errors.
Context (env : TlsEnv) `{Hok : !TlsEnvOk env} (cfg : CoreConfig).

Lemma raises_warn_exc es p w : raises_only es (warn_exc env p w).
Proof. unfold warn_exc. auto with raises. Qed.
Hint Resolve raises_warn_exc : raises.

Lemma raises_ssl_file_path es v : raises_only es (ssl_file_path env v).
Proof.
  unfold ssl_file_path. case_match; [auto with raises|].
  apply raises_catching; [|auto with raises].
  apply raises_call. intros. by eapply ok_resolve.
Qed.
Hint Resolve raises_ssl_file_path : raises.

Lemma raises_collector_uses_tls es : raises_only es (collector_uses_tls env cfg).
Proof. unfold collector_uses_tls. auto 10 with raises. Qed.

Lemma raises_read_bytes p : raises_only file_errors (_read_bytes env p).
Proof.
  unfold _read_bytes. apply raises_bind; [apply raises_call; intros; by eapply ok_getsize|].
  intros. case_match; [apply raises_raise; set_solver|].
  apply raises_call; intros; by eapply ok_read.
Qed.

Lemma extract_raises data e : _extract_ca_pem_blocks data = Raise e -> e = ValueError.
Proof.
  intros H. assert (length data < S (length data))%nat as Hl by lia.
  pose proof (extract_fuel _ data Hl) as E. rewrite H in E.
  unfold extract_with_fuel in E. destruct (scan_labels _ _ _) as [[|]|]; [congruence| |done].
  unfold ascii_encode in E. destruct (forallb _ _); congruence.
Qed.

Lemma normalize_raises key e : normalize_private_key_pem key = Raise e -> e = ValueError.
Proof.
  unfold normalize_private_key_pem, b64decode_bytes, ascii_encode, mbind, res_bind.
  repeat case_match; congruence.
Qed.

Lemma raises_load_trusted_ca p : raises_only file_errors (_load_trusted_ca env p).
Proof.
  unfold _load_trusted_ca. apply raises_bind; [apply raises_read_bytes|]. intros data.
  apply raises_bind.
  - apply raises_catching; [|intros; apply raises_raise; set_solver].
    apply raises_call. intros t e He. apply ok_cafile in He. set_solver.
  - intros _. apply raises_lift. intros e ->%extract_raises. set_solver.
Qed.

Lemma raises_mkstemp x : raises_only [OSError] (mkstemp env x).
Proof.
  intros s s' e. unfold mkstemp, call. destruct (env_mkstemp env _ _ _) eqn:E; [done|].
  intros [= _ <-]. apply ok_mkstemp in E. set_solver.
Qed.

Lemma raises_os_write p d : raises_only [OSError] (os_write env p d).
Proof.
  unfold os_write. apply raises_bind; [|auto with raises].
  apply raises_call. intros t e He. apply ok_write in He. set_solver.
Qed.

Lemma raises_unlink es p : raises_only es (unlink_quiet env p).
Proof. unfold unlink_quiet. auto with raises. Qed.

Lemma raises_close es : raises_only es os_close.
Proof. apply raises_modify. Qed.
Hint Resolve raises_mkstemp raises_os_write raises_unlink raises_close : raises.

Lemma raises_validate c k : raises_only [OSError] (_validate_client_cert_key env c k).
Proof.
  unfold _validate_client_cert_key.
  assert (∀ a b, raises_only [OSError] (call (fun t => env_load_cert_chain env t a b))).
  { intros a b. apply raises_call. intros t e He. apply ok_chain in He. set_solver. }
  auto 20 with raises.
Qed.

Lemma raises_mtls_material es u : raises_only es (_mtls_material env cfg u).
Proof.
  unfold _mtls_material. destruct (negb u); [auto with raises|].
  destruct (xorb _ _); [auto with raises|]. case_match; [auto with raises|].
  apply raises_bind; [auto with raises|]. intros [cp|]; (apply raises_bind; [auto with raises|]);
    intros [kp|]; auto with raises.
  apply raises_catching; [|auto with raises].
  apply raises_bind; [apply raises_read_bytes|]. intros cert.
  apply raises_bind; [apply raises_read_bytes|]. intros key.
  apply raises_bind; [apply raises_lift; intros e ->%normalize_raises; set_solver|]. intros key'.
  apply raises_bind; [|auto with raises].
  eapply raises_mono; [|apply raises_validate]. set_solver.
Qed.
Hint Resolve raises_collector_uses_tls raises_mtls_material : raises.

Lemma raises_tls_pem_material es : raises_only es (tls_pem_material env cfg).
Proof.
  unfold tls_pem_material. apply raises_bind; [auto with raises|]. intros _.
  apply raises_bind; [auto with raises|]. intros ca.
  apply raises_bind.
  - destruct ca; [|auto with raises]. apply raises_catching; [|auto 10 with raises].
    apply raises_bind; [apply raises_load_trusted_ca | auto with raises].
  - intros [root|]; [|auto with raises]. case_match; [auto with raises|].
    apply raises_bind; [auto with raises|]. intros [? ?]. auto with raises.
Qed.
Hint Resolve raises_tls_pem_material : raises.

Lemma raises_with_material es m : raises_only es (with_material env cfg m).
Proof. unfold with_material. auto with raises. Qed.
Hint Resolve raises_with_material : raises.

Lemma raises_write_all f p d : (length d < f)%nat -> raises_only [OSError] (write_all env f p d).
Proof.
  revert d. induction f as [|f IH]; intros d Hd; [lia|]. cbn [write_all].
  case_bool_decide as Hn; [auto with raises|].
  apply raises_bind; [auto with raises|]. intros n.
  destruct (Z.leb_spec n 0); [apply raises_raise; set_solver|]. apply IH.
  rewrite length_drop. destruct d; [done|]. cbn in *. lia.
Qed.

Lemma raises_temp_file d x : raises_only [OSError] (_pem_bytes_to_temp_file env d x).
Proof.
  unfold _pem_bytes_to_temp_file, _ensure_atexit.
  assert (∀ p, raises_only [OSError] (write_all env (S (length d)) p d)).
  { intros p. apply raises_write_all. lia. }
  auto 20 with raises.
Qed.

Lemma raises_discard es p : raises_only es (_discard_mtls_temp_path env p).
Proof. unfold _discard_mtls_temp_path. auto 10 with raises. Qed.

Lemma raises_cert_key_files es c k : raises_only es (_mtls_cert_key_files env c k).
Proof.
  unfold _mtls_cert_key_files. apply raises_bind; [auto with raises|]. intros d.
  case_match; [auto with raises|]. apply raises_bind; [|auto with raises].
  unfold write_pair. apply raises_catching; [|auto with raises].
  apply raises_bind; [apply raises_temp_file|]. intros cp.
  apply raises_bind; [|auto with raises].
  apply raises_catching; [apply raises_temp_file|]. intros e He.
  apply raises_bind; [apply raises_discard|]. intros _. by apply raises_raise.
Qed.

Lemma raises_ca_verify_temp_file r : raises_only [OSError] (_ca_verify_temp_file env r).
Proof.
  unfold _ca_verify_temp_file. pose proof (raises_temp_file r). auto 20 with raises.
Qed.

Lemma raises_configured_ca es : raises_only es (_configured_ca_path_for_verify env cfg).
Proof.
  unfold _configured_ca_path_for_verify. case_match; [auto with raises|].
  apply raises_bind; [auto with raises|]. intros [p|]; [|auto with raises].
  apply raises_catching; [|auto with raises]. apply raises_bind; [|auto with raises].
  apply raises_call. intros. by eapply ok_absolute.
Qed.
Hint Resolve raises_cert_key_files raises_configured_ca raises_ca_verify_temp_file : raises.

Lemma raises_requests_settings es m : raises_only es (requests_tls_settings env cfg m).
Proof.
  unfold requests_tls_settings. apply raises_bind; [auto with raises|]. intros [c|]; [|auto with raises].
  apply raises_bind; [|auto with raises].
  destruct (root_certificates c); auto 10 with raises.
Qed.
Hint Resolve raises_requests_settings : raises.

Lemma raises_configure_session es x m : raises_only es (configure_requests_session env cfg x m).
Proof. unfold configure_requests_session. auto 20 with raises. Qed.

Lemma raises_grpc es : raises_only es (grpc_ssl_credentials env cfg).
Proof. unfold grpc_ssl_credentials. auto 20 with raises. Qed.

Lemma raises_cafile p : raises_only [OSError] (create_default_context env (CaFile p)).
Proof.
  apply raises_bind; [|auto with raises]. apply raises_call.
  intros t e He. apply ok_cafile in He. set_solver.
Qed.

Lemma raises_load_cafile es r : raises_only es (_load_ca_via_cafile env cfg r).
Proof.
  pose proof raises_cafile. unfold _load_ca_via_cafile. auto 20 with raises.
Qed.

Lemma raises_trust_context es c : raises_only es (trust_context env cfg c).
Proof.
  assert (∀ u : bool, raises_only es (catching [OSError]
    (ctx ← create_default_context env SystemTrust; mret (Some (ctx, u)))
    (fun _ => _ ← warn_exc env (py "ssl-ctx-system:") W_ctx_system; mret None))) as Hsys.
  { intros u. apply raises_catching; [|auto with raises]. apply raises_bind; [|auto with raises].
    apply raises_bind; [|auto with raises]. apply raises_call.
    intros t e He. apply ok_system in He. set_solver. }
  unfold trust_context. destruct (root_certificates c) as [roots|]; [|apply Hsys].
  apply raises_bind.
  - case_match; [apply raises_load_cafile|].
    apply raises_catching; [|intros; apply raises_load_cafile].
    apply raises_bind; [|intros; apply raises_bind; [apply raises_bind|]; auto with raises].
    + apply raises_lift. unfold ascii_encode. intros e. case_match; [done|]. intros [= <-]. set_solver.
    + apply raises_call. intros. by eapply ok_cadata.
  - intros [x|]; auto 10 with raises.
Qed.

Lemma raises_ssl_context es m : raises_only es (ssl_context_for_collector env cfg m).
Proof.
  assert (∀ a b, raises_only [OSError] (call (fun t => env_load_cert_chain env t a b))).
  { intros a b. apply raises_call. intros t e He. apply ok_chain in He. set_solver. }
  pose proof raises_trust_context. unfold ssl_context_for_collector. auto 20 with raises.
Qed.
End errors.

(** ** Results *)

(** Every result of [m] satisfies [P]. *)
Definition yields {A} (P : A -> Prop) (m : M Tls A) : Prop :=
  ∀ s s' a, m s = (s', Ok a) -> P a.

Section yields.
Lemma yields_any {A} (m : M Tls A) : yields (fun _ => True) m.
Proof. done. Qed.

Lemma yields_ret {A} (P : A -> Prop) a : P a -> yields P (mret a).
Proof. by intros Ha s s' a' [= <- <-]. Qed.

Lemma yields_raise {A} (P : A -> Prop) e : yields P (raise e).
Proof. intros s s' a [=]. Qed.

Lemma yields_call {A} (P : A -> Prop) f : (∀ t a, f t = Ok a -> P a) -> yields P (call f).
Proof. intros Hf s s' a [= <- Ha]. by eapply Hf. Qed.

Lemma yields_lift {A} (P : A -> Prop) r : (∀ a, r = Ok a -> P a) -> yields P (lift r).
Proof. intros Hr s s' a [= <- Ha]. by apply Hr. Qed.

Lemma yields_bind {A B} (P : A -> Prop) (Q : B -> Prop) (m : M Tls A) f :
  yields P m -> (∀ a, P a -> yields Q (f a)) -> yields Q (m ≫= f).
Proof. intros Hm Hf s s' b (s1 & a & H1 & H2)%bind_inv. eapply Hf; [by eapply Hm | done]. Qed.

(** The bind's first result does not matter. *)
Lemma yields_then {A B} (Q : B -> Prop) (m : M Tls A) f :
  (∀ a, yields Q (f a)) -> yields Q (m ≫= f).
Proof. intros H. eapply yields_bind; [apply yields_any | auto]. Qed.

Lemma yields_try {A} (P : A -> Prop) (m : M Tls A) h :
  yields P m -> (∀ e, yields P (h e)) -> yields P (try_except m h).
Proof.
  intros Hm Hh s s' a. unfold try_except. destruct (m s) as [s1 [x|e]] eqn:E.
  - intros [= <- <-]. by eapply Hm.
  - apply Hh.
Qed.

Lemma yields_catching {A} (P : A -> Prop) es (m : M Tls A) h :
  yields P m -> (∀ e, yields P (h e)) -> yields P (catching es m h).
Proof.
  intros Hm Hh. apply yields_try; [done|]. intros e. case_decide; [apply Hh | apply yields_raise].
Qed.
End yields.

(** The bytes [ca] are the certificate blocks of a file found at the configured CA path,
    of at most 256 KiB, which OpenSSL loads as a CA bundle. *)
Definition ca_from_file (env : TlsEnv) (cfg : CoreConfig) (ca : list Z) : Prop :=
  ∃ p data size t1 t2 t3 t4,
    env_resolve env t1 (strip (agent_ssl_trusted_ca_path cfg)) = Ok (Some p) ∧
    env_getsize env t2 p = Ok size ∧ size <= _MAX_PEM_BYTES ∧
    env_read env t3 p = Ok data ∧ env_default_context env t4 (CaFile p) = Ok tt ∧
    _extract_ca_pem_blocks data = Ok ca.

(** [chain] and [key] come from the configured files, the key normalised, and OpenSSL
    accepted them as a client identity. *)
Definition identity_from_files (env : TlsEnv) (cfg : CoreConfig) (chain key : list Z) : Prop :=
  strip (agent_ssl_cert_chain_path cfg) ≠ [] ∧ strip (agent_ssl_key_path cfg) ≠ [] ∧
  ∃ p1 p2 raw t1 t2 t3 f1 f2,
    env_read env t1 p1 = Ok chain ∧ env_read env t2 p2 = Ok raw ∧
    normalize_private_key_pem raw = Ok key ∧ env_load_cert_chain env t3 f1 f2 = Ok tt.

(** The type of a TLS material: plaintext only without FORCE_TLS; TLS only by FORCE_TLS
    or a loaded CA; key and chain together, and only with a loaded CA. *)
Definition material_wf (env : TlsEnv) (cfg : CoreConfig) (m : Material) : Prop :=
  match m with
  | None => agent_force_tls cfg = false
  | Some c =>
      (agent_force_tls cfg = true ∨ root_certificates c ≠ None) ∧
      (∀ ca, root_certificates c = Some ca -> ca_from_file env cfg ca) ∧
      match private_key c, certificate_chain c with
      | None, None => True
      | Some key, Some chain => root_certificates c ≠ None ∧ identity_from_files env cfg chain key
      | _, _ => False
      end
  end.

Section decision.
Context (env : TlsEnv) (cfg : CoreConfig).

Lemma yields_ssl_file_path v :
  yields (fun r => ∀ p, r = Some p -> ∃ t, env_resolve env t (strip v) = Ok (Some p)) (ssl_file_path env v).
Proof.
  unfold ssl_file_path. case_match; [by apply yields_ret|].
  apply yields_catching; [|intros; by apply yields_ret].
  apply yields_call. intros t a Ha p ->. by exists t.
Qed.

Lemma yields_read_bytes p :
  yields (fun d => ∃ size t t', env_getsize env t p = Ok size ∧ size <= _MAX_PEM_BYTES ∧
    env_read env t' p = Ok d) (_read_bytes env p).
Proof.
  unfold _read_bytes. eapply yields_bind; [apply yields_call; intros t a Ha; exact (ex_intro _ t Ha)|].
  intros size [t Ht]. destruct (Z.ltb_spec _MAX_PEM_BYTES size); [apply yields_raise|].
  apply yields_call. intros t' d Hd. by exists size, t, t'.
Qed.

Lemma yields_load_ca p :
  (∃ t, env_resolve env t (strip (agent_ssl_trusted_ca_path cfg)) = Ok (Some p)) ->
  yields (ca_from_file env cfg) (_load_trusted_ca env p).
Proof.
  intros [t0 Ht0]. unfold _load_trusted_ca. eapply yields_bind; [apply yields_read_bytes|].
  intros data (size & t1 & t2 & H1 & H2 & H3).
  eapply (yields_bind (fun _ => ∃ t, env_default_context env t (CaFile p) = Ok tt)).
  - apply yields_catching; [|intros; apply yields_raise].
    apply yields_call. intros t [] Ht. by exists t.
  - intros _ [t3 H4]. apply yields_lift. intros ca Hca. by exists p, data, size, t0, t1, t2, t3.
Qed.

Lemma yields_finally {A} (P : A -> Prop) (m : M Tls A) c : yields P m -> yields P (finally m c).
Proof.
  intros Hm s s' a. unfold finally. destruct (m s) as [s1 r] eqn:E.
  destruct (c s1) as [s2 [|]]; intros [= <- ->]. by eapply Hm.
Qed.

Lemma yields_validate c k :
  yields (fun _ => ∃ t f1 f2, env_load_cert_chain env t f1 f2 = Ok tt) (_validate_client_cert_key env c k).
Proof.
  unfold _validate_client_cert_key. apply yields_then. intros cp. apply yields_then. intros kp.
  apply yields_finally, yields_then. intros _.
  apply yields_call. intros t [] Ht. by exists t, cp, kp.
Qed.

Definition identity_wf (usable : bool) (r : option (list Z) * option (list Z)) : Prop :=
  match r with
  | (None, None) => True
  | (Some chain, Some key) => usable = true ∧ identity_from_files env cfg chain key
  | _ => False
  end.

Lemma yields_mtls_material u : yields (identity_wf u) (_mtls_material env cfg u).
Proof.
  unfold _mtls_material. destruct u; cbn [negb]; [|apply yields_then; intros; by apply yields_ret].
  destruct (xorb _ _) eqn:Ex; [apply yields_then; intros; by apply yields_ret|].
  case_match eqn:En; [by apply yields_ret|]. bool_simpl.
  apply yields_then; intros [cp|]; apply yields_then; intros [kp|];
    try (apply yields_then; intros; by apply yields_ret).
  apply yields_catching; [|intros; apply yields_then; intros; by apply yields_ret].
  eapply yields_bind; [apply yields_read_bytes|]. intros cert (? & ? & t1 & _ & _ & H1).
  eapply yields_bind; [apply yields_read_bytes|]. intros raw (? & ? & t2 & _ & _ & H2).
  eapply yields_bind; [apply yields_lift; intros a Ha; exact Ha|]. intros key H3.
  eapply yields_bind; [apply yields_validate|]. intros _ (t3 & f1 & f2 & H4).
  apply yields_ret. split; [done|]. split; [done|]. split; [done|].
  by exists cp, kp, raw, t1, t2, t3, f1, f2.
Qed.

Lemma yields_tls_pem_material : yields (material_wf env cfg) (tls_pem_material env cfg).
Proof.
  unfold tls_pem_material. apply yields_then. intros _.
  eapply yields_bind; [apply yields_ssl_file_path|]. intros ca Hca.
  eapply (yields_bind (fun root => match root with
    | None => agent_force_tls cfg = false
    | Some r => ∀ ca, r = Some ca -> ca_from_file env cfg ca end)).
  - destruct ca as [p|]; [|by apply yields_ret]. apply yields_catching.
    + eapply yields_bind; [apply yields_load_ca; by apply Hca|]. intros d Hd.
      apply yields_ret. by intros ? [= <-].
    + intros e. destruct (agent_force_tls cfg); repeat (apply yields_then; intros _);
        by apply yields_ret.
  - intros [root|] Hroot; [|by apply yields_ret].
    destruct (negb (agent_force_tls cfg) && _) eqn:E.
    + bool_simpl. apply yields_then. intros _. by apply yields_ret.
    + eapply yields_bind; [apply yields_mtls_material|]. intros [chain key] Hid.
      apply yields_ret. cbn. split; [|split; [done|]].
      * destruct (agent_force_tls cfg); [by left|]. right. cbn in E. bool_simpl. done.
      * destruct chain as [chain|], key as [key|]; cbn in Hid; try done.
        destruct Hid as [Hu Hid]. bool_simpl. done.
Qed.
End decision.

(** ** A concrete environment

    Three readable files, OpenSSL accepting everything, a temporary directory. *)

Definition demo_ca : list Z := demo_data.
Definition demo_key : list Z := pkcs1_file [] [48; 130; 0; 255] [].

(** A name longer than any in use. *)
Definition temp_name (l : gset pystr) : pystr :=
  replicate (S (foldr Nat.max 0%nat (length <$> elements l))) 97.

Lemma temp_name_fresh l : temp_name l ∉ l ∧ temp_name l ≠ [].
Proof.
  split; [|done]. intros H%elem_of_elements.
  assert (∀ (x : pystr) xs, x ∈ xs -> (length x <= foldr Nat.max 0 (length <$> xs))%nat) as Hmax.
  { intros x xs. induction xs as [|y xs IH]; [by intros ?%elem_of_nil|].
    intros [->|Hx]%elem_of_cons; cbn; [lia|]. apply IH in Hx. lia. }
  apply Hmax in H. unfold temp_name in H at 1. rewrite length_replicate in H. lia.
Qed.

Definition demo_env : TlsEnv := {|
  env_resolve := fun _ x => Ok (Some x);
  env_absolute := fun _ x => Ok x;
  env_getsize := fun _ _ => Ok 1000;
  env_read := fun _ p => if decide (p = py "/ca.crt") then Ok demo_ca
                         else if decide (p = py "/key.pem") then Ok demo_key else Ok (py "CHAIN");
  env_mkstemp := fun _ _ l => Ok (temp_name l);
  env_write := fun _ n => Ok (if decide (n <= 2)%nat then Z.of_nat n else 2);
  env_unlink := fun _ _ => true;
  env_exists := fun _ _ => true;
  env_default_context := fun _ _ => Ok tt;
  env_load_cert_chain := fun _ _ _ => Ok tt;
  env_channel_credentials := fun _ _ => Ok tt;
  env_exc_text := fun _ => [] |}.

#[export] Instance demo_env_ok : TlsEnvOk demo_env.
Proof.
  split; cbn; try done; intros; repeat case_decide; simplify_eq.
  apply temp_name_fresh.
Qed.

Definition demo_tls_config : CoreConfig :=
  from_ok (load_core (fun name =>
    if decide (name = py "SW_AGENT_SSL_TRUSTED_CA_PATH") then Some (py "/ca.crt")
    else if decide (name = py "SW_AGENT_SSL_CERT_CHAIN_PATH") then Some (py " /chain.crt ")
    else if decide (name = py "SW_AGENT_SSL_KEY_PATH") then Some (py "/key.pem") else None)
    (py "1b9d6bcd")) eq_refl.

Definition demo_tls : Tls := mkTls 0 [] [] (mkStore [] None None None None false ∅ 0).

(** C29. The TLS decision: whatever the files, OpenSSL and their changes between two
    calls do (within their documented failures), [tls_pem_material] returns, and what it
    returns is well-formed: plaintext only without FORCE_TLS, TLS only by FORCE_TLS or a
    CA that was read and parsed from the configured path, a client key only together
    with its chain and with such a CA. *)
Theorem tls_material_well_formed env cfg (s : Tls) (Hok : TlsEnvOk env) :
  ∃ s' m, tls_pem_material env cfg s = (s', Ok m) ∧ material_wf env cfg m.
Proof.
  destruct (raises_none (tls_pem_material env cfg) s) as (s' & m & H);
    [by apply raises_tls_pem_material|].
  exists s', m. split; [done|]. by eapply yields_tls_pem_material.
Qed.

Lemma tls_material_well_formed_witness :
  ∃ s' m, tls_pem_material demo_env demo_tls_config demo_tls = (s', Ok m) ∧
    material_wf demo_env demo_tls_config m.
Proof. apply (tls_material_well_formed demo_env demo_tls_config demo_tls demo_env_ok). Defined.

(** The demonstration environment reaches mTLS. *)
Example demo_mtls :
  match tls_pem_material demo_env demo_tls_config demo_tls with
  | (_, Ok (Some c)) => bool_decide (is_Some (root_certificates c) ∧ is_Some (private_key c))
  | _ => false
  end = true.
Proof. vm_compute. reflexivity. Qed.

(** ** Trust anchors in use *)

(** The process trust store only with FORCE_TLS, a client identity only with the
    configured CA. *)
Definition anchored (cfg : CoreConfig) (system identity : bool) : Prop :=
  (system = true -> agent_force_tls cfg = true) ∧ (identity = true -> system = false).

Definition creds_anchored (cfg : CoreConfig) (c : Credentials) : Prop :=
  anchored cfg (bool_decide (root_certificates c = None)) (negb (bool_decide (private_key c = None))).

Definition context_anchored (cfg : CoreConfig) (c : SSLContext) : Prop :=
  anchored cfg (match ctx_ca c with SystemTrust => true | _ => false end)
    (negb (bool_decide (ctx_identity c = None))).

Section anchors.
Context (env : TlsEnv) (cfg : CoreConfig).

Lemma material_anchored c : material_wf env cfg (Some c) -> creds_anchored cfg c.
Proof.
  intros (H1 & _ & H3). unfold creds_anchored, anchored. split.
  - intros H. bool_simpl. destruct H1; [done|]. congruence.
  - intros H. bool_simpl. destruct (private_key c); [|done].
    destruct (certificate_chain c); [|done]. apply bool_decide_false, H3.
Qed.

Lemma yields_grpc :
  yields (fun r => ∀ c, r = Some c -> creds_anchored cfg c) (grpc_ssl_credentials env cfg).
Proof.
  unfold grpc_ssl_credentials. eapply yields_bind; [apply yields_tls_pem_material|].
  intros [c|] Hc; [|by apply yields_ret].
  assert (∀ c', creds_anchored cfg c' ->
    yields (fun r => ∀ c, r = Some c -> creds_anchored cfg c) (ssl_channel_credentials env c')) as Hcr.
  { intros c' Hc'. apply yields_then. intros _. apply yields_ret. by intros ? [= <-]. }
  pose proof (material_anchored c Hc) as Ha.
  apply yields_try; [by apply Hcr|]. intros e. destruct (_ || _).
  - apply yields_then. intros _. apply yields_try; [|intros; apply yields_then; intros; by apply yields_ret].
    apply Hcr. split; [apply Ha | done].
  - destruct (agent_force_tls cfg) eqn:Ef; apply yields_then; intros _; [|by apply yields_ret].
    apply yields_try; [|intros; apply yields_then; intros; by apply yields_ret].
    apply Hcr. split; [done | done].
Qed.

Lemma yields_create src : yields (fun c => c = mkContext src None) (create_default_context env src).
Proof. apply yields_then. intros _. by apply yields_ret. Qed.

Definition from_ca (c : SSLContext) : Prop := ctx_ca c ≠ SystemTrust ∧ ctx_identity c = None.

Lemma yields_cafile roots :
  yields (fun r => ∀ c, r = Some c -> from_ca c) (_load_ca_via_cafile env cfg roots).
Proof.
  unfold _load_ca_via_cafile. apply yields_catching.
  - apply yields_then. intros p. eapply yields_bind; [apply yields_create|]. intros c ->.
    apply yields_ret. by intros ? [= <-].
  - intros _. apply yields_then. intros [p|]; [|by apply yields_ret].
    apply yields_catching; [|intros; by apply yields_ret].
    eapply yields_bind; [apply yields_create|]. intros c ->. apply yields_ret. by intros ? [= <-].
Qed.

Lemma yields_trust_context c :
  (agent_force_tls cfg = true ∨ root_certificates c ≠ None) ->
  yields (fun r => ∀ x u, r = Some (x, u) -> ctx_identity x = None ∧
    (ctx_ca x = SystemTrust -> agent_force_tls cfg = true ∧ (u = true -> root_certificates c = None)))
    (trust_context env cfg c).
Proof.
  intros Hwf. unfold trust_context. cbv zeta.
  assert (∀ (u : bool) (w : M Tls unit), agent_force_tls cfg = true ->
    (u = true -> root_certificates c = None) ->
    yields (fun r => ∀ x u, r = Some (x, u) -> ctx_identity x = None ∧
      (ctx_ca x = SystemTrust -> agent_force_tls cfg = true ∧ (u = true -> root_certificates c = None)))
    (catching [OSError] (ctx ← create_default_context env SystemTrust; mret (Some (ctx, u)))
      (fun _ => _ ← w; mret None))) as Hsys.
  { intros u w Hf Hu. apply yields_catching; [|intros; apply yields_then; intros; by apply yields_ret].
    eapply yields_bind; [apply yields_create|]. intros x ->. apply yields_ret.
    by intros ? ? [= <- <-]. }
  destruct (root_certificates c) as [roots|] eqn:Er; [|apply Hsys; [by destruct Hwf|done]].
  eapply (yields_bind (fun r => ∀ x, r = Some x -> from_ca x)).
  - case_match; [apply yields_cafile|].
    apply yields_catching; [|intros; apply yields_cafile].
    apply yields_then. intros t. eapply yields_bind; [apply yields_create|]. intros x ->.
    apply yields_ret. by intros ? [= <-].
  - intros [x|] Hx.
    + apply yields_ret. intros ? ? [= <- <-]. destruct (Hx x eq_refl) as [H1 H2]. done.
    + destruct (agent_force_tls cfg) eqn:Ef; apply yields_then; intros _; [|by apply yields_ret].
      by apply Hsys.
Qed.

Lemma yields_ssl_context m :
  (∀ x, m = Some x -> material_wf env cfg x) ->
  yields (fun r => ∀ x, r = Some x -> context_anchored cfg x) (ssl_context_for_collector env cfg m).
Proof.
  intros Hm. unfold ssl_context_for_collector.
  eapply (yields_bind (material_wf env cfg)).
  { destruct m as [m|]; [apply yields_ret; by apply Hm | apply yields_tls_pem_material]. }
  intros [c|] Hc; [|by apply yields_ret]. pose proof Hc as (H1 & _ & H3).
  eapply yields_bind; [by apply yields_trust_context|]. intros [[ctx u]|] Hctx; [|by apply yields_ret].
  destruct (Hctx ctx u eq_refl) as [Hid Hca].
  assert (context_anchored cfg ctx) as Hplain.
  { unfold context_anchored. rewrite Hid. split; [|done].
    destruct (ctx_ca ctx); [|done..]. intros _. by apply Hca. }
  destruct u; [|apply yields_ret; by intros ? [= <-]].
  destruct (private_key c) as [key|]; [|apply yields_ret; by intros ? [= <-]].
  destruct (certificate_chain c) as [chain|]; [|apply yields_ret; by intros ? [= <-]].
  apply yields_then. intros [[cf kf]|]; [|apply yields_ret; by intros ? [= <-]].
  apply yields_catching.
  - apply yields_then. intros _. apply yields_ret. intros ? [= <-].
    split; cbn; [by apply Hplain|]. intros _. destruct (ctx_ca ctx); [|done..].
    exfalso. destruct H3 as [H3 _]. by apply H3, Hca.
  - intros e. apply yields_then. intros _. apply yields_ret. by intros ? [= <-].
Qed.
End anchors.


(** ** The HTTP clients *)

(** The handler of a computation that does not raise is not reached. *)
Lemma yields_try_total {A} (P : A -> Prop) (m : M Tls A) h :
  raises_only [] m -> yields P m -> yields P (try_except m h).
Proof.
  intros Hr Hy s s' a. unfold try_except. destruct (m s) as [s1 [x|e]] eqn:E.
  - intros [= <- <-]. by eapply Hy.
  - by apply Hr, elem_of_nil in E.
Qed.

(** Settings as the material allows: none for plaintext, a client certificate only with
    a key and a chain. *)
Definition settings_wf (m : Material) (v : Verify) (cert : option (pystr * pystr)) : Prop :=
  match m with
  | None => v = VerifySystem ∧ cert = None
  | Some c => cert ≠ None -> private_key c ≠ None ∧ certificate_chain c ≠ None
  end.

Section clients.
Context (env : TlsEnv) `{Hok : !TlsEnvOk env} (cfg : CoreConfig).

Lemma yields_settings m :
  yields (fun vc => settings_wf m vc.1 vc.2) (requests_tls_settings env cfg (Some m)).
Proof.
  unfold requests_tls_settings. eapply (yields_bind (fun x => x = m)); [by apply yields_ret|].
  intros ? ->. destruct m as [c|]; [|by apply yields_ret].
  apply yields_then. intros v. unfold settings_wf.
  destruct (private_key c); [|by apply yields_ret].
  destruct (certificate_chain c); [|by apply yields_ret].
  apply yields_then. intros pr. by apply yields_ret.
Qed.

Lemma yields_configure m :
  yields (fun x => settings_wf m (session_verify x) (session_cert x))
    (configure_requests_session env cfg default_session (Some m)).
Proof.
  unfold configure_requests_session.
  eapply (yields_bind (fun r => ∃ v cert, r = Some (v, cert) ∧ settings_wf m v cert)).
  - apply yields_try_total.
    + apply raises_bind; [by apply raises_requests_settings | intros; apply raises_ret].
    + eapply yields_bind; [apply yields_settings|]. intros [v cert] H.
      apply yields_ret. by exists v, cert.
  - intros ? (v & cert & -> & H). apply yields_ret. cbn. by destruct cert.
Qed.

Lemma yields_safe_material : yields (material_wf env cfg) (safe_tls_pem_material env cfg).
Proof.
  apply yields_try_total; [by apply raises_tls_pem_material | apply yields_tls_pem_material].
Qed.

Lemma yields_scheme m :
  yields (fun p => p = scheme_of (bool_decide (is_Some m))) (collector_http_scheme env cfg (Some m)).
Proof.
  unfold collector_http_scheme. apply yields_try_total.
  - apply raises_bind; [by apply raises_with_material | intros; apply raises_ret].
  - eapply (yields_bind (fun x => x = m)); [by apply yields_ret|]. intros ? ->.
    apply yields_ret. by destruct m.
Qed.

Lemma raises_safe_material es : raises_only es (safe_tls_pem_material env cfg).
Proof.
  unfold safe_tls_pem_material. apply raises_try. intros e.
  apply raises_bind; [apply raises_warn_exc | intros; apply raises_ret].
Qed.

Lemma raises_scheme es m : raises_only es (collector_http_scheme env cfg m).
Proof.
  unfold collector_http_scheme. apply raises_try. intros e.
  apply raises_bind; [apply raises_warn_exc | intros; apply raises_ret].
Qed.
End clients.

(** An HTTP client always starts, with a URL scheme and a session that agree: under
    [http://] FORCE_TLS is off and the session has no TLS settings; a client certificate
    is set only under [https://] and only when the configured CA was loaded. *)
Theorem http_client_consistent env cfg (s : Tls) (Hok : TlsEnvOk env) :
  ∃ s' proto x, http_client_init env cfg s = (s', Ok (proto, x)) ∧
    ((proto = py "http://" ∧ agent_force_tls cfg = false ∧ x = default_session) ∨
     (proto = py "https://" ∧ (session_cert x ≠ None -> ∃ ca, ca_from_file env cfg ca))).
Proof.
  destruct (raises_none (http_client_init env cfg) s) as (s' & [proto x] & H).
  { unfold http_client_init. apply raises_bind; [by apply raises_safe_material|]. intros m.
    apply raises_bind; [apply raises_scheme|]. intros p.
    apply raises_bind; [by apply raises_configure_session|]. intros. apply raises_ret. }
  exists s', proto, x. split; [done|]. unfold http_client_init in H.
  inv_bind H. inv_bind H. inv_bind H. injection H as _ <- <-.
  apply yields_safe_material in Hb; [|done].
  apply yields_scheme in Hb0; [|done]. apply yields_configure in Hb1; [|done].
  subst a0. destruct a as [c|].
  - right. split; [done|]. cbn in Hb1. intros [Hk Hc]%Hb1.
    destruct Hb as (_ & H2 & H3). destruct (private_key c); [|done].
    destruct (certificate_chain c); [|done]. destruct H3 as [H3 _].
    destruct (root_certificates c) as [ca|]; [|done]. exists ca. by apply H2.
  - left. destruct Hb1 as [H1 H2]. destruct a1. cbn in *. by subst.
Qed.

Lemma http_client_consistent_witness :
  ∃ s' proto x, http_client_init demo_env demo_tls_config demo_tls = (s', Ok (proto, x)) ∧
    ((proto = py "http://" ∧ agent_force_tls demo_tls_config = false ∧ x = default_session) ∨
     (proto = py "https://" ∧ (session_cert x ≠ None ->
        ∃ ca, ca_from_file demo_env demo_tls_config ca))).
Proof. apply (http_client_consistent demo_env demo_tls_config demo_tls demo_env_ok). Defined.

(** The asynchronous client does not agree with itself in the same way: when the CA that
    was accepted cannot be loaded into the context any more, the warning says that the
    collector stays plaintext, the URL is [https://] and the session has the default
    context. *)
Definition rotated_env : TlsEnv := {|
  env_resolve := env_resolve demo_env; env_absolute := env_absolute demo_env;
  env_getsize := env_getsize demo_env; env_read := env_read demo_env;
  env_mkstemp := env_mkstemp demo_env; env_write := env_write demo_env;
  env_unlink := env_unlink demo_env; env_exists := env_exists demo_env;
  env_default_context := fun t _ => if decide (t < 8)%nat then Ok tt else Raise OSError;
  env_load_cert_chain := env_load_cert_chain demo_env;
  env_channel_credentials := env_channel_credentials demo_env;
  env_exc_text := env_exc_text demo_env |}.

Example aio_https_without_context :
  match http_aio_client_init rotated_env demo_tls_config demo_tls with
  | (s', Ok (proto, ctx)) =>
      bool_decide (proto = py "https://") && match ctx with None => true | Some _ => false end &&
      bool_decide (W_ctx_ca_plain ∈ tls_log s')
  | _ => false
  end = true.
Proof. vm_compute. reflexivity. Qed.
