(* ===== verification/TlsTemp.v ===== *)
(** * TLS: temporary files

    The PEM files the module writes for libraries that only take paths: the pair for the
    client identity and the CA snapshot.  The invariant [Inv] says that every file the
    module has listed exists and is its own, that the caches point to listed files with
    the cached contents, and that descriptors are closed; it is relative to a set [D] of
    files that were there before, which stays untouched. *)

From S2P Require Import Prelude PyData PyText Codec Config TlsPem Tls TlsProps.

(** What a step leaves alone: caches, files that existed, open descriptors up to [n]. *)
Definition frame (n : Z) (d0 d : Store) : Prop :=
  _mtls_file_cache_key d = _mtls_file_cache_key d0 ∧ _mtls_file_cache d = _mtls_file_cache d0 ∧
  _ca_file_cache_key d = _ca_file_cache_key d0 ∧ _ca_file_cache d = _ca_file_cache d0 ∧
  open_fds d = open_fds d0 + n ∧ disk d0 ⊆ disk d ∧
  (_atexit_registered d0 = true -> _atexit_registered d = true).

(** The list of files is the same as well. *)
Definition grow (n : Z) (d0 d : Store) : Prop :=
  _mtls_temp_files d = _mtls_temp_files d0 ∧ frame n d0 d.

(** One more file, [p], holding [data]. *)
Definition added (data : list Z) (p : pystr) (d0 d : Store) : Prop :=
  _mtls_temp_files d = _mtls_temp_files d0 ++ [p] ∧ frame 0 d0 d ∧
  _atexit_registered d = true ∧ disk d !! p = Some data ∧ disk d0 !! p = None ∧ p ≠ [].

Lemma frame_refl d : frame 0 d d.
Proof. unfold frame. repeat split; auto; lia. Qed.

Lemma grow_refl d : grow 0 d d.
Proof. split; [done | apply frame_refl]. Qed.

Lemma frame_trans n m d0 d1 d2 : frame n d0 d1 -> frame m d1 d2 -> frame (n + m) d0 d2.
Proof.
  unfold frame. intros (?&?&?&?&?&?&?) (?&?&?&?&?&?&?). repeat split; try congruence; try lia; auto.
  by etrans.
Qed.

Lemma grow_trans d0 d1 d2 : grow 0 d0 d1 -> grow 0 d1 d2 -> grow 0 d0 d2.
Proof.
  intros [H1 F1] [H2 F2]. split; [congruence|]. pose proof (frame_trans 0 0 _ _ _ F1 F2). done.
Qed.

(** Changing a file that was not there keeps the ones that were. *)
Lemma frame_disk n d0 d f p :
  frame n d0 d -> disk d0 !! p = None -> (∀ m q, q ≠ p -> f m !! q = m !! q) ->
  frame n d0 (set_disk f d).
Proof.
  unfold frame; cbn. intros (?&?&?&?&?&Hs&?) Hp Hf. repeat split; try done.
  apply map_subseteq_spec. intros q x Hq. rewrite Hf by congruence.
  by eapply map_subseteq_spec.
Qed.

Lemma frame_fds n k d0 d : frame n d0 d -> frame (n + k) d0 (set_fds k d).
Proof. unfold frame; cbn. intros (?&?&?&?&?&?&?). repeat split; auto; lia. Qed.

Section temp.
Context (env : TlsEnv) `{Hok : !TlsEnvOk env}.

Abbreviation at_store P := (fun s : Tls => P (store s)).

Lemma hoare_call {A} (P : Store -> Prop) (f : nat -> res A) :
  hoare (at_store P) (call f) (fun _ => at_store P) (fun _ => at_store P).
Proof. intros s Hs. unfold call. by destruct (f (tick s)). Qed.

Lemma hoare_upd (P Q : Store -> Prop) f E :
  (∀ d, P d -> Q (f d)) -> hoare (at_store P) (modify (with_store f)) (fun _ => at_store Q) E.
Proof. intros H s Hs. by apply H. Qed.

Lemma hoare_mkstemp n d0 x :
  hoare (at_store (grow n d0)) (mkstemp env x)
    (fun p s => grow (n + 1) d0 (store s) ∧ disk (store s) !! p = Some [] ∧
                disk d0 !! p = None ∧ p ≠ [])
    (fun _ => at_store (grow n d0)).
Proof.
  intros s [Ht Hf]. unfold mkstemp, call. destruct (env_mkstemp env _ _ _) as [p|e] eqn:E; [|done].
  apply ok_fresh in E as [Hp Hne]. apply not_elem_of_dom in Hp. cbn in *.
  assert (disk d0 !! p = None) as H0.
  { destruct (disk d0 !! p) eqn:E0; [|done]. destruct Hf as (_&_&_&_&_&Hs&_).
    eapply map_subseteq_spec in Hs; [|done]. congruence. }
  split; [|split; [by rewrite lookup_insert_eq | done]]. split; [done|].
  apply frame_fds. eapply frame_disk; [done | exact H0|].
  intros m q Hq. by rewrite lookup_insert_ne.
Qed.

Lemma hoare_os_write n d0 p c data :
  disk d0 !! p = None ->
  hoare (fun s => grow n d0 (store s) ∧ disk (store s) !! p = Some c) (os_write env p data)
    (fun k s => grow n d0 (store s) ∧ disk (store s) !! p = Some (c ++ take (Z.to_nat k) data))
    (fun _ => at_store (grow n d0)).
Proof.
  intros Hp s [[Ht Hf] Hd]. unfold os_write, mbind, M_bind, call.
  destruct (env_write env _ _) as [k|e]; cbn; [|done].
  split; [|by rewrite lookup_alter_eq, Hd]. split; [done|].
  eapply frame_disk; [done|exact Hp|]. intros m q Hq. by rewrite lookup_alter_ne.
Qed.

Lemma hoare_unlink n d0 p E :
  disk d0 !! p = None ->
  hoare (at_store (grow n d0)) (unlink_quiet env p) (fun _ => at_store (grow n d0)) E.
Proof.
  intros Hp. unfold unlink_quiet. intros s [Ht Hf]. cbn. split; [done|].
  eapply frame_disk; [done|exact Hp|]. intros m q Hq. destruct (env_unlink _ _ _); [|done].
  by rewrite lookup_delete_ne.
Qed.

Lemma hoare_close n d0 E :
  hoare (at_store (grow (n + 1) d0)) os_close (fun _ => at_store (grow n d0)) E.
Proof.
  intros s [Ht Hf]. cbn. split; [done|].
  apply (frame_fds _ (-1)) in Hf. by replace (n + 1 + -1) with n in Hf by lia.
Qed.

(** The write loop stores the whole of [data] or fails. *)
Lemma hoare_write_all f p n d0 c data :
  disk d0 !! p = None -> (length data < f)%nat ->
  hoare (fun s => grow n d0 (store s) ∧ disk (store s) !! p = Some c) (write_all env f p data)
    (fun _ s => grow n d0 (store s) ∧ disk (store s) !! p = Some (c ++ data))
    (fun _ => at_store (grow n d0)).
Proof.
  intros Hp. revert c data. induction f as [|f IH]; intros c data Hf; [lia|]. cbn [write_all].
  case_bool_decide as Hn; [subst; rewrite app_nil_r; by apply hoare_ret|].
  eapply hoare_bind; [by apply hoare_os_write|]. intros k. cbn beta.
  destruct (Z.leb_spec k 0); [apply hoare_raise; tauto|].
  eapply hoare_conseq.
  - apply (IH (c ++ take (Z.to_nat k) data) (drop (Z.to_nat k) data)).
    rewrite length_drop. destruct data; [done|]. cbn in *. lia.
  - done.
  - intros a s0 Hs0. cbn beta in Hs0. rewrite <- app_assoc, take_drop in Hs0. exact Hs0.
  - done.
Qed.

Definition ensured (d : Store) : Prop := _atexit_registered d = true.

Lemma hoare_ensure d0 E :
  hoare (at_store (grow 0 d0)) _ensure_atexit
    (fun _ s => grow 0 d0 (store s) ∧ ensured (store s)) E.
Proof.
  intros s [Ht Hf]. unfold ensured, grow, frame in *. cbn.
  destruct (_atexit_registered (store s)) eqn:Ea; cbn; rewrite ?Ea; tauto.
Qed.

(** Pure facts of the precondition. *)
Lemma hoare_pure {A} (φ : Prop) (P P' : Tls -> Prop) (m : M Tls A) Q E :
  (∀ s, P' s -> φ ∧ P s) -> (φ -> hoare P m Q E) -> hoare P' m Q E.
Proof. intros H1 H2 s Hs. destruct (H1 s Hs) as [Hφ Hp]. by apply (H2 Hφ). Qed.

Lemma hoare_on_error {A} (P : Tls -> Prop) (m : M Tls A) c Q R E :
  hoare P m Q R -> (∀ e, hoare (R e) c (fun _ => E e) E) -> hoare P (on_error m c) Q E.
Proof.
  intros Hm Hc. unfold on_error. eapply hoare_try; [exact Hm|]. intros e.
  eapply hoare_bind; [apply Hc|]. intros []. by apply hoare_raise.
Qed.

(** From [mkstemp] on: a failed write leaves no descriptor and no listed file. *)
Lemma hoare_new_file d1 data x :
  hoare (at_store (grow 0 d1))
    (path ← mkstemp env x;
     _ ← on_error (write_all env (S (length data)) path data) (_ ← os_close; unlink_quiet env path);
     _ ← os_close;
     _ ← modify (with_store (fun d => set_temp_files (_mtls_temp_files d ++ [path]) d));
     mret path)
    (fun p s => _mtls_temp_files (store s) = _mtls_temp_files d1 ++ [p] ∧ frame 0 d1 (store s) ∧
       disk (store s) !! p = Some data ∧ disk d1 !! p = None ∧ p ≠ [])
    (fun _ => at_store (grow 0 d1)).
Proof.
  eapply hoare_bind; [apply hoare_mkstemp|]. intros p. cbn beta.
  apply (hoare_pure (disk d1 !! p = None ∧ p ≠ [])
    (fun s => grow 1 d1 (store s) ∧ disk (store s) !! p = Some [])); [tauto|]. intros [Hp Hne].
  eapply (hoare_bind _ _ _ (fun _ s => grow 1 d1 (store s) ∧ disk (store s) !! p = Some data)).
  { eapply hoare_on_error.
    - apply hoare_write_all; [done|lia].
    - intros e. eapply hoare_bind; [apply (hoare_close 0)|]. intros []. by apply hoare_unlink. }
  intros [].
  eapply (hoare_bind _ _ _ (fun _ s => grow 0 d1 (store s) ∧ disk (store s) !! p = Some data)).
  { intros s [Hg Hd]. split; [|done]. by apply (hoare_close 0 d1 (fun _ _ => False) s). }
  intros [].
  eapply (hoare_bind _ _ _ (fun _ s => _mtls_temp_files (store s) = _mtls_temp_files d1 ++ [p] ∧
    frame 0 d1 (store s) ∧ disk (store s) !! p = Some data)).
  { intros s [[Ht Hf] Hd]. cbn. rewrite Ht. done. }
  intros []. apply hoare_ret. tauto.
Qed.

Lemma hoare_temp_file d0 data x :
  hoare (at_store (grow 0 d0)) (_pem_bytes_to_temp_file env data x)
    (fun p s => added data p d0 (store s)) (fun _ => at_store (grow 0 d0)).
Proof.
  unfold _pem_bytes_to_temp_file. eapply hoare_bind; [apply hoare_ensure|]. intros [].
  intros s [Hs He]. pose proof (hoare_new_file (store s) data x s (grow_refl _)) as H.
  destruct ((path ← mkstemp env x; _) s) as [s' [p|e]]; [|by eapply grow_trans].
  destruct H as (H1 & H2 & H3 & H4 & H5), Hs as [Ht Hf].
  pose proof (frame_trans 0 0 _ _ _ Hf H2) as H2'. unfold added.
  split; [congruence|]. split; [done|]. split; [by apply H2|]. split; [done|]. split; [|done].
  destruct Hf as (_&_&_&_&_&Hd&_). by eapply lookup_weaken_None.
Qed.

Lemma hoare_finally {A} (P : Tls -> Prop) (m : M Tls A) c (R F : Tls -> Prop) :
  hoare P m (fun _ => R) (fun _ => R) -> hoare R c (fun _ => F) (fun _ => F) ->
  hoare P (finally m c) (fun _ => F) (fun _ => F).
Proof.
  intros Hm Hc s Hs. specialize (Hm s Hs). unfold finally. destruct (m s) as [s1 r].
  assert (R s1) as Hr by (by destruct r). specialize (Hc s1 Hr).
  destruct (c s1) as [s2 [[]|e]]; [by destruct r | done].
Qed.

(** Operations that at most leave a temporary file behind which nobody lists. *)
Definition keeps {A} (m : M Tls A) : Prop :=
  ∀ d0, hoare (at_store (grow 0 d0)) m (fun _ => at_store (grow 0 d0)) (fun _ => at_store (grow 0 d0)).

(** One [os.write] and its [finally: os.close]. *)
Lemma hoare_write_once d0 p data :
  disk d0 !! p = None ->
  hoare (fun s => grow 1 d0 (store s) ∧ disk (store s) !! p = Some [])
    (finally (_ ← os_write env p data; mret tt) os_close)
    (fun _ => at_store (grow 0 d0)) (fun _ => at_store (grow 0 d0)).
Proof.
  intros Hp. apply (hoare_finally _ _ _ (at_store (grow 1 d0))); [|apply (hoare_close 0)].
  eapply hoare_bind; [by apply hoare_os_write|]. intros k. apply hoare_ret. tauto.
Qed.

Lemma keeps_validate c k : keeps (_validate_client_cert_key env c k).
Proof.
  intros d0. unfold _validate_client_cert_key.
  eapply hoare_bind; [apply hoare_mkstemp|]. intros cp. cbn beta.
  apply (hoare_pure (disk d0 !! cp = None)
    (fun s => grow 1 d0 (store s) ∧ disk (store s) !! cp = Some [])); [tauto|]. intros Hcp.
  eapply (hoare_bind _ _ _ (fun kp s => grow 1 d0 (store s) ∧ disk (store s) !! kp = Some [] ∧
    disk d0 !! kp = None)).
  { apply (hoare_on_error _ _ _ _ (fun _ => at_store (grow 0 d0))); [|intros; by apply hoare_unlink].
    eapply hoare_bind; [by apply hoare_write_once|]. intros [].
    eapply hoare_conseq; [apply (hoare_mkstemp 0 d0) | by intros | cbn; tauto | by intros]. }
  intros kp. cbn beta. apply (hoare_pure (disk d0 !! kp = None)
    (fun s => grow 1 d0 (store s) ∧ disk (store s) !! kp = Some [])); [tauto|]. intros Hkp.
  apply (hoare_finally _ _ _ (at_store (grow 0 d0))).
  - eapply hoare_bind; [by apply hoare_write_once|]. intros []. apply hoare_call.
  - eapply hoare_bind; [by apply hoare_unlink|]. intros []. by apply hoare_unlink.
Qed.

Lemma keeps_ret {A} (a : A) : keeps (mret a).
Proof. intros d0. by apply hoare_ret. Qed.

Lemma keeps_raise {A} e : keeps (raise (A := A) e).
Proof. intros d0. by apply hoare_raise. Qed.

Lemma keeps_lift {A} (r : res A) : keeps (lift r).
Proof. intros d0 s Hs. by destruct r. Qed.

Lemma keeps_call {A} (f : nat -> res A) : keeps (call f).
Proof. intros d0. apply hoare_call. Qed.

Lemma keeps_bind {A B} (m : M Tls A) (f : A -> M Tls B) :
  keeps m -> (∀ a, keeps (f a)) -> keeps (m ≫= f).
Proof. intros Hm Hf d0. eapply hoare_bind; [apply Hm | intros a; apply Hf]. Qed.

Lemma keeps_try {A} (m : M Tls A) h : keeps m -> (∀ e, keeps (h e)) -> keeps (try_except m h).
Proof. intros Hm Hh d0. eapply hoare_try; [apply Hm | intros e; apply Hh]. Qed.

Lemma keeps_catching {A} es (m : M Tls A) h :
  keeps m -> (∀ e, keeps (h e)) -> keeps (catching es m h).
Proof.
  intros Hm Hh. apply keeps_try; [done|]. intros e. case_decide; [apply Hh | apply keeps_raise].
Qed.

Lemma keeps_warn w : keeps (warn w).
Proof. by intros d0 s Hs. Qed.

Lemma keeps_warn_once k w : keeps (_warn_once k w).
Proof. intros d0 s Hs. unfold _warn_once. by case_decide. Qed.
End temp.

Create HintDb keeps.
#[export] Hint Resolve keeps_ret keeps_raise keeps_lift keeps_call keeps_bind keeps_try
  keeps_catching keeps_warn keeps_warn_once keeps_validate : keeps.
#[export] Hint Extern 4 (keeps (match ?x with _ => _ end)) => destruct x : keeps.
#[export] Hint Extern 4 (keeps (if ?x then _ else _)) => destruct x : keeps.
#[export] Hint Extern 3 (keeps (ask _)) => apply keeps_call : keeps.

Section keeps.
Context (env : TlsEnv) `{Hok : !TlsEnvOk env} (cfg : CoreConfig).

Lemma keeps_warn_exc p w : keeps (warn_exc env p w).
Proof. unfold warn_exc. auto with keeps. Qed.
Hint Resolve keeps_warn_exc : keeps.

Lemma keeps_ssl_file_path v : keeps (ssl_file_path env v).
Proof. unfold ssl_file_path. auto with keeps. Qed.

Lemma keeps_read_bytes p : keeps (_read_bytes env p).
Proof. unfold _read_bytes. auto with keeps. Qed.
Hint Resolve keeps_ssl_file_path keeps_read_bytes : keeps.

Lemma keeps_collector_uses_tls : keeps (collector_uses_tls env cfg).
Proof. unfold collector_uses_tls. auto 10 with keeps. Qed.

Lemma keeps_mtls_material u : keeps (_mtls_material env cfg u).
Proof. unfold _mtls_material. auto 30 with keeps. Qed.

Lemma keeps_load_ca p : keeps (_load_trusted_ca env p).
Proof. unfold _load_trusted_ca. auto 10 with keeps. Qed.
Hint Resolve keeps_collector_uses_tls keeps_mtls_material keeps_load_ca : keeps.

Lemma keeps_tls_pem_material : keeps (tls_pem_material env cfg).
Proof. unfold tls_pem_material. auto 20 with keeps. Qed.
Hint Resolve keeps_tls_pem_material : keeps.

Lemma keeps_grpc : keeps (grpc_ssl_credentials env cfg).
Proof. unfold grpc_ssl_credentials, ssl_channel_credentials. auto 20 with keeps. Qed.

Lemma keeps_configured_ca : keeps (_configured_ca_path_for_verify env cfg).
Proof. unfold _configured_ca_path_for_verify. auto 20 with keeps. Qed.
End keeps.

(** ** The invariant *)

Record Inv (D : gmap pystr (list Z)) (n : Z) (d : Store) : Prop := {
  inv_old : D ⊆ disk d;
  inv_nodup : NoDup (_mtls_temp_files d);
  inv_files p : p ∈ _mtls_temp_files d -> D !! p = None ∧ is_Some (disk d !! p);
  inv_mtls cp kp : _mtls_file_cache d = Some (cp, kp) ->
    cp ∈ _mtls_temp_files d ∧ kp ∈ _mtls_temp_files d ∧
    ∃ c k, _mtls_file_cache_key d = Some (c, k) ∧ disk d !! cp = Some c ∧ disk d !! kp = Some k;
  inv_ca p : _ca_file_cache d = Some p ->
    p ∈ _mtls_temp_files d ∧ ∃ c, _ca_file_cache_key d = Some c ∧ disk d !! p = Some c;
  inv_atexit : _mtls_temp_files d ≠ [] -> _atexit_registered d = true;
  inv_fds : open_fds d = n }.

(** More files on the disk and in the list, the same caches. *)
Lemma Inv_frame D n d0 d :
  Inv D n d0 -> frame 0 d0 d -> NoDup (_mtls_temp_files d) ->
  (∀ p, p ∈ _mtls_temp_files d0 -> p ∈ _mtls_temp_files d) ->
  (∀ p, p ∈ _mtls_temp_files d -> D !! p = None ∧ is_Some (disk d !! p)) ->
  (_mtls_temp_files d ≠ [] -> _atexit_registered d = true) ->
  Inv D n d.
Proof.
  intros HI (E1 & E2 & E3 & E4 & Hf & Hd & _) Hn Hsub Hfiles Hat.
  assert (∀ p c, disk d0 !! p = Some c -> disk d !! p = Some c) as Hl.
  { intros p c. by apply map_subseteq_spec. }
  split; auto.
  - etrans; [apply HI | done].
  - intros cp kp. rewrite E2. intros H. destruct (inv_mtls _ _ _ HI _ _ H) as (H1 & H2 & c & k & H3 & H4 & H5).
    split; [auto|]. split; [auto|]. exists c, k. rewrite E1. auto.
  - intros p. rewrite E4. intros H. destruct (inv_ca _ _ _ HI _ H) as (H1 & c & H2 & H3).
    split; [auto|]. exists c. rewrite E3. auto.
  - rewrite Hf, (inv_fds _ _ _ HI). lia.
Qed.

Lemma Inv_grow D n d0 d : Inv D n d0 -> grow 0 d0 d -> Inv D n d.
Proof.
  intros HI [Ht Hf]. pose proof Hf as (_ & _ & _ & _ & _ & Hd & Ha).
  eapply Inv_frame; [done | done | | | |]; rewrite ?Ht.
  - apply HI.
  - done.
  - intros p Hp. destruct (inv_files _ _ _ HI p Hp) as [H1 [c Hc]]. split; [done|].
    exists c. by eapply map_subseteq_spec.
  - intros Hne. by apply Ha, (inv_atexit _ _ _ HI).
Qed.

Lemma Inv_added D n d0 d data p : Inv D n d0 -> added data p d0 d -> Inv D n d.
Proof.
  intros HI (Ht & Hf & Ha & Hd & H0 & _). pose proof Hf as (_ & _ & _ & _ & _ & Hs & _).
  assert (p ∉ _mtls_temp_files d0) as Hp.
  { intros Hp. apply (inv_files _ _ _ HI) in Hp as [_ [c Hc]]. congruence. }
  eapply Inv_frame; [done | done | | | |]; rewrite ?Ht.
  - apply NoDup_app. split; [apply HI|]. split; [set_solver|]. apply NoDup_singleton.
  - set_solver.
  - intros q [Hq|Hq]%elem_of_app.
    + destruct (inv_files _ _ _ HI q Hq) as [H1 [c Hc]]. split; [done|].
      exists c. by eapply map_subseteq_spec.
    + apply list_elem_of_singleton in Hq as ->. split; [|by rewrite Hd].
      eapply lookup_weaken_None; [exact H0 | apply HI].
  - done.
Qed.

(** Forgetting all bookkeeping, as the exit handler and the fork hook do. *)
Lemma Inv_reset D n d :
  D ⊆ disk d -> open_fds d = n ->
  Inv D n (mkStore [] None None None None (_atexit_registered d) (disk d) (open_fds d)).
Proof. intros Hs Hf. split; cbn; try done; [constructor | set_solver]. Qed.

Section inv.
Context (env : TlsEnv) `{Hok : !TlsEnvOk env} (cfg : CoreConfig).
Context (D : gmap pystr (list Z)) (n : Z).

Abbreviation I := (fun s : Tls => Inv D n (store s)).

Lemma inv_keeps {A} (m : M Tls A) : keeps m -> preserves I m.
Proof.
  intros Hm s Hs. specialize (Hm (store s) s (grow_refl _)).
  destruct (m s) as [s' [a|e]]; by eapply Inv_grow.
Qed.

(** [_discard_mtls_temp_path] right after the file was written undoes it. *)
Lemma discard_added d0 d1 c cp :
  Inv D n d0 -> added c cp d0 d1 ->
  hoare (fun s => grow 0 d1 (store s)) (_discard_mtls_temp_path env (Some cp))
    (fun _ s => grow 0 d0 (store s)) (fun _ _ => False).
Proof.
  intros HI (Ht & Hf & Ha & Hd & H0 & Hne) s [Ht' Hf'].
  assert (cp ∉ _mtls_temp_files d0) as Hp.
  { intros Hp. apply (inv_files _ _ _ HI) in Hp as [_ [x Hx]]. congruence. }
  unfold _discard_mtls_temp_path. rewrite bool_decide_false by done.
  unfold unlink_quiet, mbind, M_bind. cbn. rewrite Ht', Ht, remove_first_snoc by done. cbn.
  pose proof (frame_trans 0 0 _ _ _ Hf Hf') as Hf2. split; [done|].
  apply (frame_disk 0 d0 _ (fun d => if env_unlink env (tick s) cp then delete cp d else d) cp) in Hf2.
  - exact Hf2.
  - done.
  - intros m q Hq. destruct (env_unlink _ _ _); [by rewrite lookup_delete_ne | done].
Qed.

Lemma hoare_raises {A} P (m : M Tls A) Q E es :
  hoare P m Q E -> raises_only es m -> hoare P m Q (fun e s => e ∈ es ∧ E e s).
Proof.
  intros H Hr s Hs. specialize (H s Hs). destruct (m s) as [s' [a|e]] eqn:Em; [done|].
  split; [by eapply Hr | done].
Qed.

Lemma hoare_catching {A} es P (m : M Tls A) h Q E E' :
  hoare P m Q (fun e s => e ∈ es ∧ E' e s) -> (∀ e, hoare (E' e) (h e) Q E) ->
  hoare P (catching es m h) Q E.
Proof.
  intros Hm Hh s Hs. specialize (Hm s Hs). unfold catching, try_except.
  destruct (m s) as [s' [a|e]]; [done|]. destruct Hm as [He Hm].
  rewrite decide_True by done. by apply Hh.
Qed.

Lemma hoare_temp_file_os d0 data x :
  hoare (fun s => store s = d0) (_pem_bytes_to_temp_file env data x)
    (fun p s => added data p d0 (store s)) (fun e s => e ∈ [OSError] ∧ grow 0 d0 (store s)).
Proof.
  apply hoare_raises; [|by apply raises_temp_file].
  eapply hoare_conseq; [by apply (hoare_temp_file env d0) | | done | done].
  intros s Hs. cbn beta. rewrite Hs. apply grow_refl.
Qed.

(** The two files of a client identity. *)
Definition holds_pair (c k : list Z) (pr : pystr * pystr) (d : Store) : Prop :=
  pr.1 ∈ _mtls_temp_files d ∧ pr.2 ∈ _mtls_temp_files d ∧
  disk d !! pr.1 = Some c ∧ disk d !! pr.2 = Some k.

Lemma hoare_write_pair d0 c k :
  Inv D n d0 ->
  hoare (fun s => store s = d0) (write_pair env c k)
    (fun r s => match r with
      | None => grow 0 d0 (store s)
      | Some pr => Inv D n (store s) ∧ disk d0 ⊆ disk (store s) ∧ holds_pair c k pr (store s)
      end) (fun _ _ => False).
Proof.
  intros HI. unfold write_pair.
  apply (hoare_catching _ _ _ _ _ _ (fun _ s => grow 0 d0 (store s))).
  2: { intros e. eapply (hoare_bind _ _ _ (fun _ s => grow 0 d0 (store s)));
         [|intros ?; by apply hoare_ret].
       intros s Hs. pose proof (keeps_warn_exc env (py "mtls-temp:") W_mtls_temp d0 s Hs) as H.
       destruct (warn_exc _ _ _ s) as [s' [[]|e']] eqn:E; [exact H|].
       by eapply raises_warn_exc, elem_of_nil in E. }
  eapply hoare_bind.
  { apply hoare_temp_file_os. }
  intros cp. apply hoare_intro. intros s1 H1.
  eapply hoare_bind.
  { apply (hoare_catching _ _ _ _ _ _ (fun e s => e = OSError ∧ grow 0 (store s1) (store s))).
    - eapply hoare_conseq; [apply (hoare_temp_file_os (store s1)) | by intros s -> | done |].
      intros e s [He Hs]. split; [done|]. split; [set_solver | done].
    - intros e. apply (hoare_pure (e = OSError) (fun s => grow 0 (store s1) (store s))); [tauto|].
      intros ->. eapply hoare_bind.
      + eapply hoare_conseq; [by apply (discard_added d0 (store s1) c cp) | done | done |].
        by intros.
      + intros []. apply hoare_raise. intros s Hs. split; [set_solver | exact Hs]. }
  intros kp. apply hoare_ret. intros s H2.
  pose proof (Inv_added _ _ _ _ _ _ HI H1) as HI1.
  pose proof (Inv_added _ _ _ _ _ _ HI1 H2) as HI2.
  destruct H1 as (T1 & F1 & _ & D1 & _), H2 as (T2 & F2 & _ & D2 & _).
  destruct F1 as (_&_&_&_&_&S1&_), F2 as (_&_&_&_&_&S2&_).
  split; [done|]. split; [by etrans|]. unfold holds_pair; cbn.
  rewrite T2, T1. repeat split; [set_solver..|by eapply map_subseteq_spec | done].
Qed.

Lemma hoare_cert_key_files d0 c k :
  Inv D n d0 ->
  hoare (fun s => store s = d0) (_mtls_cert_key_files env c k)
    (fun r s => Inv D n (store s) ∧ disk d0 ⊆ disk (store s) ∧
      match r with
      | None => _mtls_temp_files (store s) = _mtls_temp_files d0
      | Some pr => holds_pair c k pr (store s)
      end) (fun _ _ => False).
Proof.
  intros HI s Hs. unfold _mtls_cert_key_files, mbind at 1, M_bind at 1, gets. cbn beta iota.
  rewrite Hs. destruct (_ && _) eqn:E.
  - bool_simpl. destruct (_mtls_file_cache d0) as [[cp kp]|] eqn:Ec; [|done].
    destruct (inv_mtls _ _ _ HI cp kp Ec) as (H1 & H2 & c' & k' & H3 & H4 & H5).
    assert (c' = c ∧ k' = k) as [-> ->] by (split; congruence).
    cbn. rewrite Hs. split; [exact HI|]. split; [reflexivity|]. done.
  - pose proof (hoare_write_pair d0 c k HI s Hs) as H. unfold mbind, M_bind.
    destruct (write_pair env c k s) as [s' [[pr|]|e]]; [| |done].
    + destruct H as (HI' & Hsub & Hp). cbn. split; [|done].
      destruct pr as [cp kp], Hp as (P1 & P2 & P3 & P4). cbn in *.
      destruct HI'. split; cbn; auto.
      intros ? ? [= <- <-]. split; [done|]. split; [done|]. by exists c, k.
    + cbn. split; [by eapply Inv_grow|]. destruct H as [Ht (_&_&_&_&_&Hd&_)]. done.
Qed.

Lemma hoare_ca_verify d0 roots :
  Inv D n d0 ->
  hoare (fun s => store s = d0) (_ca_verify_temp_file env roots)
    (fun p s => Inv D n (store s) ∧ disk (store s) !! p = Some roots)
    (fun e s => e ∈ [OSError] ∧ Inv D n (store s)).
Proof.
  intros HI. apply hoare_raises; [|apply raises_ca_verify_temp_file; done].
  assert (hoare (fun s => store s = d0)
    (path ← _pem_bytes_to_temp_file env roots (py ".crt");
     _ ← modify (with_store (set_ca_cache roots path)); mret path)
    (fun p s => Inv D n (store s) ∧ disk (store s) !! p = Some roots)
    (fun _ s => Inv D n (store s))) as Hw.
  { eapply hoare_bind.
    - eapply hoare_conseq; [apply (hoare_temp_file env d0 roots (py ".crt"))
        | intros s Hs; cbn beta; rewrite Hs; apply grow_refl | done | intros e s Hs; by eapply Inv_grow].
    - intros p. cbn beta. eapply (hoare_bind _ _ _
        (fun _ s => Inv D n (store s) ∧ disk (store s) !! p = Some roots)); [|intros []; by apply hoare_ret].
      intros s Hs. pose proof (Inv_added _ _ _ _ _ _ HI Hs) as HI'.
      destruct Hs as (Ht & _ & _ & Hd & _). cbn. split; [|done]. destruct HI'. split; cbn; auto.
      intros ? [= <-]. split; [rewrite Ht; set_solver|]. by exists roots. }
  intros s Hs. unfold _ca_verify_temp_file, mbind at 1, M_bind at 1, gets. cbn beta iota.
  rewrite Hs. destruct (_ca_file_cache d0) as [p|] eqn:Ec; [|by apply Hw].
  destruct (inv_ca _ _ _ HI p Ec) as (H1 & c & H2 & H3).
  case_bool_decide as Hk; [|by apply Hw]. unfold mbind at 1, M_bind at 1, ask, call.
  destruct (env_exists _ _ _); [|by apply Hw]. cbn. rewrite Hs. split; [done|]. congruence.
Qed.

Lemma inv_cert_key_files c k : preserves I (_mtls_cert_key_files env c k).
Proof.
  intros s Hs. pose proof (hoare_cert_key_files (store s) c k Hs s eq_refl) as H.
  destruct (_mtls_cert_key_files env c k s) as [s' [r|e]]; [apply H | done].
Qed.

Lemma inv_ca_verify r : preserves I (_ca_verify_temp_file env r).
Proof.
  intros s Hs. pose proof (hoare_ca_verify (store s) r Hs s eq_refl) as H.
  destruct (_ca_verify_temp_file env r s) as [s' [p|e]]; apply H.
Qed.

Lemma preserves_catching {A} es (m : M Tls A) h :
  preserves I m -> (∀ e, preserves I (h e)) -> preserves I (catching es m h).
Proof.
  intros Hm Hh. apply preserves_try; [done|]. intros e.
  case_decide; [apply Hh | apply preserves_raise].
Qed.
Hint Resolve preserves_catching : py.
Hint Extern 4 (preserves _ (match ?x with _ => _ end)) => destruct x : py.
Hint Extern 4 (preserves _ (if ?x then _ else _)) => destruct x : py.
Hint Extern 3 (preserves _ (call _)) => apply inv_keeps, keeps_call : py.

Lemma inv_material : preserves I (tls_pem_material env cfg).
Proof. apply inv_keeps, keeps_tls_pem_material. apply _. Qed.

Lemma inv_warn_exc p w : preserves I (warn_exc env p w).
Proof. apply inv_keeps, keeps_warn_exc. Qed.

Lemma inv_configured_ca : preserves I (_configured_ca_path_for_verify env cfg).
Proof. apply inv_keeps, keeps_configured_ca. Qed.

Lemma inv_ssl_file_path v : preserves I (ssl_file_path env v).
Proof. apply inv_keeps, keeps_ssl_file_path. Qed.
Hint Resolve inv_cert_key_files inv_ca_verify inv_material inv_warn_exc inv_configured_ca
  inv_ssl_file_path : py.

Lemma inv_requests_settings m : preserves I (requests_tls_settings env cfg m).
Proof. unfold requests_tls_settings, with_material. auto 20 with py. Qed.
Hint Resolve inv_requests_settings : py.

Lemma inv_configure_session x m : preserves I (configure_requests_session env cfg x m).
Proof. unfold configure_requests_session. auto 20 with py. Qed.

Lemma inv_http_scheme m : preserves I (collector_http_scheme env cfg m).
Proof. unfold collector_http_scheme, with_material. auto 20 with py. Qed.

Lemma inv_ssl_context m : preserves I (ssl_context_for_collector env cfg m).
Proof.
  assert (∀ src, preserves I (create_default_context env src)).
  { intros src. unfold create_default_context. auto with py. }
  assert (∀ r, preserves I (_load_ca_via_cafile env cfg r)).
  { intros r. unfold _load_ca_via_cafile. auto 20 with py. }
  assert (∀ c, preserves I (trust_context env cfg c)).
  { intros c. unfold trust_context. cbv zeta. auto 20 with py. }
  unfold ssl_context_for_collector, with_material. auto 20 with py.
Qed.

(** The exit handler removes listed files only. *)
Lemma inv_cleanup : preserves I (_cleanup_mtls_temp_files env).
Proof.
  intros s Hs.
  assert (∀ files, (∀ p, p ∈ files -> D !! p = None) ->
    preserves (fun s => D ⊆ disk (store s) ∧ open_fds (store s) = n)
      (for_each files (unlink_quiet env))) as Hfor.
  { intros files Hfiles. apply preserves_for. intros p Hp s0 [H1 H2].
    change (store (unlink_quiet env p s0).1) with (set_disk
      (fun d => if env_unlink env (tick s0) p then delete p d else d) (store s0)).
    split; [|done]. cbn [set_disk disk]. apply Hfiles in Hp. destruct (env_unlink env (tick s0) p); [|exact H1].
    apply map_subseteq_spec. intros q x Hq. rewrite lookup_delete_ne by congruence.
    by eapply map_subseteq_spec. }
  specialize (Hfor (_mtls_temp_files (store s)) (fun p Hp => proj1 (inv_files _ _ _ Hs p Hp))
    s (conj (inv_old _ _ _ Hs) (inv_fds _ _ _ Hs))).
  unfold _cleanup_mtls_temp_files, mbind at 1, M_bind at 1, gets. cbn beta iota.
  unfold mbind at 1, M_bind at 1.
  destruct (for_each _ (unlink_quiet env) s) as [s' [[]|e]] eqn:E; cbn in *.
  - apply Inv_reset; apply Hfor.
  - exfalso. eapply (raises_for [] (_mtls_temp_files (store s)) (unlink_quiet env)) in E;
      [by apply elem_of_nil in E|]. intros p. apply raises_unlink.
Qed.

Lemma inv_fork : preserves I _after_fork_in_child.
Proof. intros s Hs. cbn. apply Inv_reset; apply Hs. Qed.
End inv.

(** ** Executions *)

(** What a process does with the module: the reporters' calls, the exit handler, and the
    hook in a forked child. *)
Inductive TlsOp :=
| OpMaterial
| OpGrpc
| OpScheme (m : option Material)
| OpSession (x : Session) (m : option Material)
| OpContext (m : option Material)
| OpExit
| OpForked.

Definition run_op (env : TlsEnv) (cfg : CoreConfig) (op : TlsOp) (s : Tls) : Tls :=
  match op with
  | OpMaterial => (safe_tls_pem_material env cfg s).1
  | OpGrpc => (grpc_ssl_credentials env cfg s).1
  | OpScheme m => (collector_http_scheme env cfg m s).1
  | OpSession x m => (configure_requests_session env cfg x m s).1
  | OpContext m => (ssl_context_for_collector env cfg m s).1
  | OpExit => (_cleanup_mtls_temp_files env s).1
  | OpForked => (_after_fork_in_child s).1
  end.

Definition run_ops (env : TlsEnv) (cfg : CoreConfig) (ops : list TlsOp) (s : Tls) : Tls :=
  foldl (fun s op => run_op env cfg op s) s ops.

Lemma inv_run_op env cfg D n op s :
  TlsEnvOk env -> Inv D n (store s) -> Inv D n (store (run_op env cfg op s)).
Proof.
  intros Hok Hs. destruct op; cbn [run_op].
  - unfold safe_tls_pem_material. apply (preserves_try (fun s => Inv D n (store s))); [| |done].
    + by apply inv_material.
    + intros e. apply preserves_bind; [by apply inv_warn_exc | intros; apply preserves_ret].
  - revert s Hs. apply inv_keeps, keeps_grpc. done.
  - by apply inv_http_scheme.
  - by apply inv_configure_session.
  - by apply inv_ssl_context.
  - by apply inv_cleanup.
  - by apply inv_fork.
Qed.

Lemma inv_run_ops env cfg D n ops s :
  TlsEnvOk env -> Inv D n (store s) -> Inv D n (store (run_ops env cfg ops s)).
Proof.
  intros Hok. revert s. induction ops as [|op ops IH]; intros s Hs; [done|].
  cbn. apply IH. by apply inv_run_op.
Qed.

(** A fresh process: nothing listed, nothing cached. *)
Definition initial_store (files : gmap pystr (list Z)) : Store :=
  mkStore [] None None None None false files 0.

Lemma Inv_initial D : Inv D 0 (initial_store D).
Proof. split; cbn; try done; [constructor | set_solver]. Qed.


(** C32. A forked child, whatever it then does and when it exits, neither removes nor
    changes any file that existed at the fork: in particular the PEM files its parent's
    reporters still use. *)
Theorem fork_child_keeps_parent_files env cfg ops (s : Tls) (Hok : TlsEnvOk env) :
  disk (store s) ⊆ disk (store (run_ops env cfg (OpForked :: ops ++ [OpExit]) s)).
Proof.
  cbn [run_ops foldl]. apply (inv_old _ (open_fds (store s))), (inv_run_ops _ _ _ _ (ops ++ [OpExit])); [done|].
  by apply Inv_reset.
Qed.

Lemma hoare_of {A} (J : Tls -> Prop) (P : A -> Prop) (m : M Tls A) :
  preserves J m -> yields P m -> hoare J m (fun a s => J s ∧ P a) (fun _ => J).
Proof.
  intros Hp Hy s Hs. specialize (Hp s Hs). destruct (m s) as [s' [a|e]] eqn:E; [|done].
  split; [done | by eapply Hy].
Qed.

Section session.
Context (env : TlsEnv) `{Hok : !TlsEnvOk env} (cfg : CoreConfig) (c : Credentials).

(** A CA path handed to a session. *)
Definition verify_ok (v : Verify) (d : Store) : Prop :=
  match v with
  | VerifySystem => True
  | VerifyPath p => ∃ roots, root_certificates c = Some roots ∧
      (disk d !! p = Some roots ∨
       ∃ t, env_absolute env t (strip (agent_ssl_trusted_ca_path cfg)) = Ok p)
  end.

Lemma yields_configured_ca :
  yields (fun r => ∀ p, r = Some p ->
    ∃ t, env_absolute env t (strip (agent_ssl_trusted_ca_path cfg)) = Ok p)
    (_configured_ca_path_for_verify env cfg).
Proof.
  unfold _configured_ca_path_for_verify. case_match; [by apply yields_ret|].
  apply yields_then. intros [x|]; [|by apply yields_ret].
  apply yields_catching; [|intros; by apply yields_ret].
  eapply yields_bind; [apply yields_call; intros t a Ha; exact (ex_intro _ t Ha)|].
  intros a Ha. apply yields_ret. by intros p [= <-].
Qed.

Lemma hoare_verify D n roots :
  root_certificates c = Some roots ->
  hoare (fun s => Inv D n (store s))
    (catching [OSError] (p ← _ca_verify_temp_file env roots; mret (VerifyPath p))
       (fun _ =>
          ca_verify ← _configured_ca_path_for_verify env cfg;
          match ca_verify with
          | Some p =>
              _ ← warn_exc env (py "requests-ca-temp:") W_requests_ca_path; mret (VerifyPath p)
          | None =>
              _ ← warn_exc env (py "requests-ca-temp:") W_requests_ca_trust; mret VerifySystem
          end))
    (fun v s => Inv D n (store s) ∧ verify_ok v (store s)) (fun _ _ => True).
Proof.
  intros Hroots. apply hoare_intro. intros s0 HI0.
  apply (hoare_catching _ _ _ _ _ _ (fun _ s => Inv D n (store s))).
  - eapply hoare_bind.
    + eapply hoare_conseq; [apply (hoare_ca_verify env D n (store s0) roots HI0)
        | by intros s -> | intros p s H; exact H | by intros].
    + intros p. apply hoare_ret. intros s [H1 H2]. split; [done|]. exists roots. auto.
  - intros e. eapply hoare_bind.
    + eapply hoare_conseq; [apply (hoare_of (fun s => Inv D n (store s)));
        [apply inv_configured_ca | apply yields_configured_ca] | done | by intros | done].
    + intros [p|]; cbn beta.
      * apply (hoare_pure (∃ t, env_absolute env t (strip (agent_ssl_trusted_ca_path cfg)) = Ok p)
          (fun s => Inv D n (store s))); [intros s [H1 H2]; split; [by apply H2 | done]|].
        intros Hp. eapply hoare_bind.
        { eapply hoare_conseq; [apply (hoare_of (fun s => Inv D n (store s)) (fun _ => True));
            [apply inv_warn_exc | done] | done | by intros | done]. }
        intros ?. apply hoare_ret. intros s [H1 _]. split; [done|]. exists roots. auto.
      * eapply hoare_bind.
        { eapply hoare_conseq; [apply (hoare_of (fun s => Inv D n (store s)) (fun _ => True));
            [apply inv_warn_exc | done] | by intros s [? ?] | by intros | done]. }
        intros ?. apply hoare_ret. intros s [H1 _]. split; [done|]. done.
Qed.
End session.

(** The settings of an HTTP session, for a given TLS material: the client
    certificate is a pair of files holding exactly the material's chain and key (never
    one of them alone, never without a key in the material); the CA path is a file
    holding exactly the material's roots, or the configured path; when the pair cannot
    be written the session stays one-way and no file is left listed. *)
Theorem session_files_hold_material env cfg (c : Credentials) (s s' : Tls) v cert D n
  (Hok : TlsEnvOk env) (HI : Inv D n (store s))
  (Hrun : requests_tls_settings env cfg (Some (Some c)) s = (s', Ok (v, cert))) :
  Inv D n (store s') ∧
  match cert with
  | Some pr => ∃ key chain, private_key c = Some key ∧ certificate_chain c = Some chain ∧
                 holds_pair chain key pr (store s')
  | None => True
  end ∧
  match v with
  | VerifySystem => True
  | VerifyPath p => ∃ roots, root_certificates c = Some roots ∧
      (disk (store s') !! p = Some roots ∨
       ∃ t, env_absolute env t (strip (agent_ssl_trusted_ca_path cfg)) = Ok p)
  end.
Proof.
  unfold requests_tls_settings in Hrun. unfold mbind at 1, M_bind at 1 in Hrun. cbn beta iota in Hrun.
  apply bind_inv in Hrun as (s1 & v1 & Hv & Hrun).
  assert (Inv D n (store s1) ∧ verify_ok env cfg c v1 (store s1)) as [HI1 Hv1].
  { destruct (root_certificates c) as [roots|] eqn:E.
    - pose proof (hoare_verify env cfg c D n roots E s HI) as H. by rewrite Hv in H.
    - injection Hv as <- <-. done. }
  clear Hv HI.
  destruct (private_key c) as [key|] eqn:Ek, (certificate_chain c) as [chain|] eqn:Ec;
    try (injection Hrun as <- <- <-; done).
  apply bind_inv in Hrun as (s2 & pr & Hp & Hrun). injection Hrun as <- <- <-.
  pose proof (hoare_cert_key_files env D n (store s1) chain key HI1 s1 eq_refl) as H.
  rewrite Hp in H. destruct H as (HI2 & Hsub & Hpr). split; [done|]. split.
  - destruct pr as [pr|]; [|done]. by exists key, chain.
  - destruct v1 as [|p]; [done|]. destruct Hv1 as (roots & Hr & Hd). exists roots. split; [done|].
    destruct Hd as [Hd|Hd]; [left; by eapply map_subseteq_spec | by right].
Qed.

(** ** Concrete runs *)

Definition demo_ops : list TlsOp := [OpSession default_session None; OpContext None].


(** The run writes three files and caches both kinds. *)
Example demo_run_files :
  let d := store (run_ops demo_env demo_tls_config demo_ops (mkTls 0 [] [] (initial_store ∅))) in
  (length (_mtls_temp_files d), bool_decide (is_Some (_mtls_file_cache d)),
   bool_decide (is_Some (_ca_file_cache d)), size (disk d)) = (3%nat, true, true, 3%nat).
Proof. vm_compute. reflexivity. Qed.

Lemma fork_child_witness :
  let s := run_ops demo_env demo_tls_config demo_ops (mkTls 0 [] [] (initial_store ∅)) in
  disk (store s) ⊆ disk (store (run_ops demo_env demo_tls_config (OpForked :: demo_ops ++ [OpExit]) s)).
Proof.
  apply (fork_child_keeps_parent_files demo_env demo_tls_config demo_ops _ demo_env_ok).
Defined.

Definition demo_creds : Credentials :=
  {| root_certificates := Some (py "ROOTS"); private_key := Some (py "KEY");
     certificate_chain := Some (py "CHAIN") |}.

Definition demo_settings := requests_tls_settings demo_env demo_tls_config (Some (Some demo_creds)) demo_tls.

Definition demo_result : Verify * option (pystr * pystr) :=
  match demo_settings.2 with Ok r => r | Raise _ => (VerifySystem, None) end.

Lemma session_files_witness :
  demo_result.2 ≠ None ∧
  Inv ∅ 0 (store demo_settings.1) ∧
  match demo_result.2 with
  | Some pr => ∃ key chain, private_key demo_creds = Some key ∧
      certificate_chain demo_creds = Some chain ∧ holds_pair chain key pr (store demo_settings.1)
  | None => True
  end ∧
  match demo_result.1 with
  | VerifySystem => True
  | VerifyPath p => ∃ roots, root_certificates demo_creds = Some roots ∧
      (disk (store demo_settings.1) !! p = Some roots ∨
       ∃ t, env_absolute demo_env t (strip (agent_ssl_trusted_ca_path demo_tls_config)) = Ok p)
  end.
Proof.
  split; [vm_compute; done|].
  apply (session_files_hold_material demo_env demo_tls_config demo_creds demo_tls demo_settings.1
    demo_result.1 demo_result.2 ∅ 0 demo_env_ok).
  - apply Inv_initial.
  - vm_compute. reflexivity.
Defined.
