(* ===== verification/ReportAsync.v ===== *)
(** * Reporting over asyncio: agent/protocol/*_aio.py and client/*_aio.py

    The generators of the asyncio protocols have no window: [await queue.get()] waits
    for the next item for ever, so a report call ends only when its RPC fails, when a
    post fails, or when the task is cancelled.  The environment of a call is the list of
    its pulls, each with the items the event loop queued before it and whether posting
    the item then succeeds, and how the call ends, if it does. *)

From S2P Require Import Prelude PyData PyText Config ReporterLog Report.

(** ** Blocking generators *)

Section generator.
Context {A : Type}.

Record atick := mkATick { at_arrived : list A; at_post_ok : bool }.

(** Which items were pulled, and which of them reached the collector. *)
Record pulled := mkPulled { p_batch : batch A; p_posted : list A; p_failed : bool }.

(** One pull: wait while the queue is empty (the item comes at a later tick). *)
Definition pull (arrived : list A) (b : batch A) : batch A * option A :=
  let (q1, acc) := put_all arrived (b_queue b) in
  match PyQueue.get_nowait q1 with
  | None => (mkBatch q1 (b_sent b) (b_accepted b ++ acc), None)
  | Some (x, q2) =>
      match PyQueue.task_done q2 with
      | None => (mkBatch q2 (b_sent b) (b_accepted b ++ acc), None)
      | Some q3 => (mkBatch q3 (b_sent b ++ [x]) (b_accepted b ++ acc), Some x)
      end
  end.

(** A stream RPC: every item pulled is on the wire. *)
Fixpoint stream (ticks : list atick) (b : batch A) : batch A :=
  match ticks with
  | [] => b
  | tk :: ticks' => stream ticks' (pull (at_arrived tk) b).1
  end.

(** [async for x in generator: await post(x)]: an error ends the loop. *)
Fixpoint post_each (ticks : list atick) (b : batch A) (posted : list A) : pulled :=
  match ticks with
  | [] => mkPulled b posted false
  | tk :: ticks' =>
      match pull (at_arrived tk) b with
      | (b', None) => post_each ticks' b' posted
      | (b', Some x) =>
          if at_post_ok tk then post_each ticks' b' (posted ++ [x]) else mkPulled b' posted true
      end
  end.

(** What [__anext__] of a generator does at a tick: yield, keep waiting, or stop. *)
Inductive gstep := GYield (x : A) (b : batch A) | GWait (b : batch A) | GStop (b : batch A).

(** The generators of the asyncio protocols: [while True], no way out. *)
Definition blocking_next (tk : atick) (b : batch A) : gstep :=
  match pull (at_arrived tk) b with
  | (b', Some x) => GYield x b'
  | (b', None) => GWait b'
  end.

(** A generator that stops when the queue is empty, as the synchronous ones do. *)
Definition draining_next (tk : atick) (b : batch A) : gstep :=
  match pull (at_arrived tk) b with
  | (b', Some x) => GYield x b'
  | (b', None) => GStop b'
  end.

(** [batch = [x async for x in generator]; if batch: await post(batch)]: the list is
    built until the generator stops, the post comes after. *)
Fixpoint collect (next : atick -> batch A -> gstep) (ticks : list atick) (b : batch A)
  (acc : list A) : pulled :=
  match ticks with
  | [] => mkPulled b [] false
  | tk :: ticks' =>
      match next tk b with
      | GYield x b' => collect next ticks' b' (acc ++ [x])
      | GWait b' => collect next ticks' b' acc
      | GStop b' => if at_post_ok tk then mkPulled b' acc false else mkPulled b' [] true
      end
  end.
End generator.
Arguments atick A : clear implicits.
Arguments pulled A : clear implicits.

(** ** What the asyncio agent asks of a protocol *)

(** How a report call ends: the RPC's status, a cancellation, or not yet. *)
Inductive aend := AEnds (r : rpc) | ACancelled | ARunning.

Record acall (A : Type) := mkACall { ac_ticks : list (atick A); ac_end : aend; ac_now : Z }.
Arguments mkACall {A}.
Arguments ac_ticks {A}.
Arguments ac_end {A}.
Arguments ac_now {A}.

(** [ar_result] is [None] while the call has not returned. *)
Record areport (A P : Type) := mkAReport {
  ar_proto : P;
  ar_rlog : RLog;
  ar_batch : batch A;
  ar_posted : list A;
  ar_result : option (res unit) }.
Arguments mkAReport {A P}.
Arguments ar_proto {A P}.
Arguments ar_rlog {A P}.
Arguments ar_batch {A P}.
Arguments ar_posted {A P}.
Arguments ar_result {A P}.

(** What a peek at the channel answers: a state, nothing, or an error. *)
Abbreviation peek := (res (option connectivity)).

Class ProtocolAsync (P : Type) := {
  aio_is_ready : Z -> peek -> P -> P * bool;
  aio_report : ∀ {A}, Config -> report_kind -> peek -> acall A -> P -> RLog -> PyQueue.t A ->
    areport A P
}.

Definition a_untouched {A P} (p : P) (rl : RLog) (q : PyQueue.t A) : areport A P :=
  mkAReport p rl (mkBatch q [] []) [] (Some (Ok tt)).

(** The queue and the batch balance. *)
Definition balanced_batch {A} (q : PyQueue.t A) (b : batch A) : Prop :=
  PyQueue.wf (b_queue b) ∧ PyQueue.maxsize (b_queue b) = PyQueue.maxsize q ∧
  PyQueue.items q ++ b_accepted b = b_sent b ++ PyQueue.items (b_queue b) ∧
  PyQueue.unfinished (b_queue b) =
    PyQueue.unfinished q + Z.of_nat (length (b_accepted b)) - Z.of_nat (length (b_sent b)).

Class ProtocolAsyncLaws (P : Type) `{!ProtocolAsync P} := {
  aio_report_conserves : ∀ A cfg k pk (env : acall A) p rl q,
    PyQueue.wf q -> balanced_batch q (ar_batch (aio_report cfg k pk env p rl q));
  aio_posted_sublist : ∀ A cfg k pk (env : acall A) p rl q,
    sublist (ar_posted (aio_report cfg k pk env p rl q)) (b_sent (ar_batch (aio_report cfg k pk env p rl q)));
  aio_report_gated : ∀ A cfg k pk (env : acall A) p rl q,
    (aio_is_ready (ac_now env) pk p).2 = false ->
    ar_batch (aio_report cfg k pk env p rl q) = mkBatch q [] []
}.

(** ** class GrpcProtocolAsync *)

(** [_on_connectivity] is [_cb] of the synchronous protocol. *)
Definition _on_connectivity (now : Z) (state : connectivity) (g : Grpc) : Grpc := grpc_cb now state g.

(** [is_ready]: peek at the channel while its state is unknown or IDLE. *)
Definition grpc_aio_is_ready (now : Z) (pk : peek) (g : Grpc) : Grpc * bool :=
  if bool_decide (g_state g = Some READY) then (g, true)
  else
    let g' := if bool_decide (g_state g = None) || bool_decide (g_state g = Some IDLE)
              then match pk with
                   | Ok (Some s) => _on_connectivity now s g
                   | Ok None | Raise _ => g
                   end
              else g in
    (g', bool_decide (g_state g' = Some READY)).

(** One round of [watch_connectivity] up to [wait_for_state_change]; an error keeps the
    watch alive. *)
Definition watch_round (now : Z) (state : res connectivity) (g : Grpc) : Grpc :=
  match state with Ok s => _on_connectivity now s g | Raise _ => g end.

(** [handle_rpc_error(e, self.on_error)]: this [on_error] only logs. *)
Definition handle_rpc_error_aio (now : Z) (s : status) (g : Grpc) : Grpc :=
  if is_auth_rpc_error s then
    mkGrpc (properties_sent g) (g_state g) (sent_properties_counter g) (resubscriptions g)
      (channel_open g) (log_auth_failure_throttled now (channel_log g)).1
  else g.

(** [report_segment], [report_log], [report_meter], [report_snapshot] *)
Definition grpc_aio_report {A} (cfg : Config) (k : report_kind) (pk : peek) (env : acall A)
  (g : Grpc) (rl : RLog) (q : PyQueue.t A) : areport A Grpc :=
  let (g1, ready) := grpc_aio_is_ready (ac_now env) pk g in
  if negb ready then a_untouched g1 rl q
  else
    let b := stream (ac_ticks env) (mkBatch q [] []) in
    let sent := Z.of_nat (length (b_sent b)) in
    match ac_end env with
    | ARunning => mkAReport g1 rl b (b_sent b) None
    | ACancelled => mkAReport g1 rl b (b_sent b) (Some (Raise CancelledError))
    | AEnds RpcOk => mkAReport g1 rl b (b_sent b) (Some (Ok tt))
    | AEnds (RpcFails s) =>
        mkAReport (handle_rpc_error_aio (ac_now env) s g1)
          (if sent =? 0 then rl else (log_dropped_throttled (ac_now env) (kind_label k) sent false rl).1)
          b [] (Some (Raise OtherException))
    end.

(** [GrpcProtocolAsync.heartbeat] *)
Definition grpc_aio_heartbeat (cfg : Config) (pk : peek) (e : beat_env) : heart unit :=
  g0 ← gets fst;
  let (g, ready) := grpc_aio_is_ready (hb_now e) pk g0 in
  _ ← hb_mod (fun _ => g);
  if negb ready then mret tt
  else
    _ ← (if properties_sent g then mret tt
         else
           _ ← hb_send MProps;
           match hb_props e with
           | RpcOk => hb_mod (set_properties_sent true)
           | RpcFails s => hb_mod (handle_rpc_error_aio (hb_now e) s)
           end);
    r ← send_heart_beat cfg e;
    match r with
    | RpcOk => mret tt
    | RpcFails s => _ ← hb_mod (handle_rpc_error_aio (hb_now e) s); raise OtherException
    end.

#[export] Instance Grpc_aio : ProtocolAsync Grpc := {
  aio_is_ready := grpc_aio_is_ready;
  aio_report := @grpc_aio_report
}.

(** ** class HttpProtocolAsync

    Always ready.  Segments are posted one by one; logs are collected into one list.
    An [Exception] is swallowed; a cancellation is not one. *)

Definition http_aio_report {A} (cfg : Config) (k : report_kind) (pk : peek) (env : acall A)
  (h : Http) (rl : RLog) (q : PyQueue.t A) : areport A Http :=
  let finish (p : pulled A) :=
    mkAReport h rl (p_batch p) (p_posted p)
      (if p_failed p then Some (Ok tt)
       else match ac_end env with ACancelled => Some (Raise CancelledError) | _ => None end) in
  match k with
  | RSegment => finish (post_each (ac_ticks env) (mkBatch q [] []) [])
  | RLogData => finish (collect blocking_next (ac_ticks env) (mkBatch q [] []) [])
  | RMeter | RSnapshot => a_untouched h rl q
  end.

#[export] Instance Http_aio : ProtocolAsync Http := {
  aio_is_ready := fun _ _ h => (h, true);
  aio_report := @http_aio_report
}.

(** ** class KafkaProtocolAsync: segments and logs one by one, meters collected *)

Definition kafka_aio_report {A} (cfg : Config) (k : report_kind) (pk : peek) (env : acall A)
  (h : Kafka) (rl : RLog) (q : PyQueue.t A) : areport A Kafka :=
  let finish (p : pulled A) :=
    mkAReport h rl (p_batch p) (p_posted p)
      (if p_failed p then Some (Ok tt)
       else match ac_end env with ACancelled => Some (Raise CancelledError) | _ => None end) in
  match k with
  | RSegment | RLogData => finish (post_each (ac_ticks env) (mkBatch q [] []) [])
  | RMeter => finish (collect blocking_next (ac_ticks env) (mkBatch q [] []) [])
  | RSnapshot => a_untouched h rl q
  end.

#[export] Instance Kafka_aio : ProtocolAsync Kafka := {
  aio_is_ready := fun _ _ h => (h, true);
  aio_report := @kafka_aio_report
}.

(** ** Conservation *)

Section conserve.
Context {A : Type} (q : PyQueue.t A).

Lemma balanced_start : PyQueue.wf q -> balanced_batch q (mkBatch q [] []).
Proof. intros Hw. unfold balanced_batch. cbn. rewrite app_nil_r. split_and!; done || lia. Qed.

(** One pull keeps the balance and appends what it yields. *)
Lemma pull_spec arrived b b' x :
  balanced_batch q b -> pull arrived b = (b', x) ->
  balanced_batch q b' ∧ b_sent b' = b_sent b ++ match x with Some y => [y] | None => [] end.
Proof.
  intros (Hw & Hm & Hi & Hu) H. unfold pull in H.
  destruct (put_all arrived (b_queue b)) as [q1 acc] eqn:E1.
  destruct (put_all_spec _ _ _ _ E1) as (Hi1 & Hm1 & Hu1 & _ & Hw1). specialize (Hw1 Hw).
  unfold PyQueue.get_nowait in H. destruct (PyQueue.items q1) as [|y l] eqn:El.
  - injection H as <- <-. cbn. rewrite app_nil_r. split; [|done]. unfold balanced_batch. cbn.
    rewrite app_assoc, Hi, length_app, <- app_assoc, <- Hi1, ?El. split_and!; [done|congruence|done|lia].
  - assert (Z.of_nat (S (length l)) <= PyQueue.unfinished q1) as Hun.
    { destruct Hw1 as [_ H2]. unfold PyQueue.qsize in H2. by rewrite El in H2. }
    unfold PyQueue.task_done in H. cbn in H. rewrite (proj2 (Z.ltb_ge _ _)) in H by lia.
    injection H as <- <-. cbn. split; [|done]. unfold balanced_batch. cbn.
    rewrite app_assoc, Hi, !length_app, <- app_assoc, <- Hi1, ?El, <- app_assoc. cbn.
    split_and!; [|congruence|done|lia].
    destruct Hw1 as [H1 H2]. unfold PyQueue.wf, PyQueue.qsize in *. cbn. rewrite El in H1, H2.
    cbn in H1, H2. lia.
Qed.

Lemma stream_balanced ticks : ∀ b, balanced_batch q b -> balanced_batch q (stream ticks b).
Proof.
  induction ticks as [|tk ticks IH]; intros b Hb; cbn; [done|].
  destruct (pull (at_arrived tk) b) as [b' x] eqn:E. by eapply IH, pull_spec.
Qed.

Lemma post_each_balanced ticks : ∀ b posted,
  balanced_batch q b -> balanced_batch q (p_batch (post_each ticks b posted)).
Proof.
  induction ticks as [|tk ticks IH]; intros b posted Hb; cbn [post_each]; [done|].
  destruct (pull (at_arrived tk) b) as [b' [x|]] eqn:E; apply pull_spec in E as [Hb' Hs']; try done.
  - destruct (at_post_ok tk); [by apply IH | done].
  - by apply IH.
Qed.

Lemma post_each_sublist ticks : ∀ (b : batch A) (posted : list A),
  sublist posted (b_sent b) ->
  sublist (p_posted (post_each ticks b posted)) (b_sent (p_batch (post_each ticks b posted))).
Proof.
  assert (∀ arrived (b b' : batch A) x, pull arrived b = (b', x) ->
    b_sent b' = b_sent b ++ match x with Some y => [y] | None => [] end) as Hpull.
  { intros arrived b b' x. unfold pull. destruct (put_all _ _) as [q1 acc].
    destruct (PyQueue.get_nowait q1) as [[y q2]|]; [destruct (PyQueue.task_done q2)|];
      intros [= <- <-]; cbn; by rewrite ?app_nil_r. }
  induction ticks as [|tk ticks IH]; intros b posted Hs; cbn [post_each]; [done|].
  destruct (pull (at_arrived tk) b) as [b' [x|]] eqn:E; apply Hpull in E.
  - destruct (at_post_ok tk); [apply IH; rewrite E; by apply sublist_app|].
    cbn. rewrite E. by apply sublist_inserts_r.
  - apply IH. by rewrite E, app_nil_r.
Qed.

Lemma collect_balanced ticks : ∀ b acc,
  balanced_batch q b -> balanced_batch q (p_batch (collect blocking_next ticks b acc)).
Proof.
  induction ticks as [|tk ticks IH]; intros b acc Hb; cbn [collect]; [done|].
  unfold blocking_next. destruct (pull (at_arrived tk) b) as [b' [x|]] eqn:E;
    apply pull_spec in E as [Hb' _]; try done; by apply IH.
Qed.

(** The collecting clients never reach their post. *)
Lemma collect_blocking ticks : ∀ (b : batch A) (acc : list A),
  p_posted (collect blocking_next ticks b acc) = [] ∧
  p_failed (collect blocking_next ticks b acc) = false.
Proof.
  induction ticks as [|tk ticks IH]; intros b acc; cbn [collect]; [done|].
  unfold blocking_next. destruct (pull (at_arrived tk) b) as [b' [x|]]; apply IH.
Qed.
End conserve.

#[export] Instance Grpc_aio_laws : ProtocolAsyncLaws Grpc.
Proof.
  split; intros A cfg k pk env p rl q; cbn [aio_report Grpc_aio aio_is_ready];
    unfold grpc_aio_report; destruct (grpc_aio_is_ready (ac_now env) pk p) as [g1 [|]]; cbn [negb snd].
  - intros Hw. pose proof (stream_balanced q (ac_ticks env) _ (balanced_start q Hw)).
    by destruct (ac_end env) as [[|]| |].
  - intros Hw. by apply balanced_start.
  - destruct (ac_end env) as [[|]| |]; cbn; done || apply sublist_nil_l.
  - done.
  - done.
  - done.
Qed.

#[export] Instance Http_aio_laws : ProtocolAsyncLaws Http.
Proof.
  split; intros A cfg k pk env p rl q; cbn [aio_report Http_aio aio_is_ready snd]; [| |done].
  - intros Hw. destruct k; cbn [http_aio_report ar_batch a_untouched]; try by apply balanced_start.
    + by apply (post_each_balanced q _ _ [] (balanced_start q Hw)).
    + by apply collect_balanced, balanced_start.
  - destruct k; cbn [http_aio_report ar_batch ar_posted a_untouched]; try done.
    + apply post_each_sublist, sublist_nil_l.
    + rewrite (proj1 (collect_blocking _ _ _)). apply sublist_nil_l.
Qed.

#[export] Instance Kafka_aio_laws : ProtocolAsyncLaws Kafka.
Proof.
  split; intros A cfg k pk env p rl q; cbn [aio_report Kafka_aio aio_is_ready snd]; [| |done].
  - intros Hw. destruct k; cbn [kafka_aio_report ar_batch a_untouched]; try by apply balanced_start.
    1,2: by apply (post_each_balanced q _ _ [] (balanced_start q Hw)).
    by apply collect_balanced, balanced_start.
  - destruct k; cbn [kafka_aio_report ar_batch ar_posted a_untouched]; try done.
    1,2: apply post_each_sublist, sublist_nil_l.
    rewrite (proj1 (collect_blocking _ _ _)). apply sublist_nil_l.
Qed.

(** ** Properties *)

(** The asyncio HTTP protocol never posts a log and the asyncio Kafka protocol never
    sends a meter: their clients first collect the generator into a list, and the
    generator does not stop.  Whatever is queued, for however long, items leave the
    queue and none is posted; with a generator that stops when the queue is empty, the
    same client posts what it pulled. *)
Theorem collecting_clients_never_post {A} cfg pk (env : acall A) (q : PyQueue.t A) h h' rl :
  let r1 := http_aio_report cfg RLogData pk env h rl q in
  let r2 := kafka_aio_report cfg RMeter pk env h' rl q in
  ar_posted r1 = [] ∧ ar_posted r2 = [] ∧ ar_result r1 ≠ Some (Ok tt) ∧ ar_result r2 ≠ Some (Ok tt).
Proof.
  cbv zeta. unfold http_aio_report, kafka_aio_report. cbn [ar_posted ar_result].
  destruct (collect_blocking (ac_ticks env) (mkBatch q [] []) []) as [-> ->].
  by destruct (ac_end env).
Qed.

(** The item is taken and lost; the draining generator would have posted it. *)
Example collected_log_is_lost :
  let q := PyQueue.mk 10 [7%nat] 1 in
  let env := mkACall (replicate 5 (mkATick [] true)) ARunning 0 in
  let r := http_aio_report default_config RLogData (Ok None) env (mkHttp true 0) empty_rlog q in
  (PyQueue.items (b_queue (ar_batch r)), ar_posted r) = ([], []) ∧
  p_posted (collect draining_next (ac_ticks env) (mkBatch q [] []) []) = [7%nat].
Proof. split; reflexivity. Qed.


