(* ===== verification/AgentAsync.v ===== *)
(** * The asyncio agent: SkyWalkingAgentAsync of agent/__init__.py

    The application's threads and the event loop thread share one agent.  Archiving an
    item from a thread only schedules a callback ([call_soon_threadsafe]); the loop runs
    callbacks in order, runs the reporter tasks, supervises them and cleans up.  An
    execution is a list of the steps of both sides in any order.  Queue items are
    references, times microseconds. *)

From S2P Require Import Prelude PyData PyText Config Sampling ReporterLog Trace Report ReportAsync.
From S2P Require Import Agent.

(** ** Background tasks *)

Inductive task_state := TRunning | TFinished | TFailed (e : exn) | TCancelled.

#[export] Instance task_state_eq_dec : EqDecision task_state.
Proof. solve_decision. Defined.

(** A task and its [_sw_outcome_handled] attribute. *)
Record Task := mkTask { t_name : pystr; t_state : task_state; t_handled : bool }.

Definition task_done (t : Task) : bool := negb (bool_decide (t_state t = TRunning)).

(** [_retrieve_background_task_outcome] *)
Definition _retrieve_background_task_outcome (t : Task) (report_unexpected_completion
  report_unexpected_cancellation : bool) : option exn :=
  match t_state t with
  | TRunning => None
  | TCancelled => if report_unexpected_cancellation then Some RuntimeError else None
  | TFailed e => Some e
  | TFinished => if report_unexpected_completion then Some RuntimeError else None
  end.

(** [_log_background_task_outcome]: the task after, and the error logged. *)
Definition _log_background_task_outcome (t : Task) (report_unexpected_completion
  report_unexpected_cancellation : bool) : Task * option exn :=
  if t_handled t then (t, None)
  else
    match _retrieve_background_task_outcome t report_unexpected_completion
            report_unexpected_cancellation with
    | None => (t, None)
    | Some e => (mkTask (t_name t) (t_state t) true, Some e)
    end.

(** ** The supervisor: [_await_shutdown_or_background_failure]

    [tasks] is indexed; [pending] holds indices.  Each round is what
    [asyncio.wait(FIRST_COMPLETED)] answers: the indices that are done (with the outcome
    they ended with) and whether the shutdown waiter is. *)

Record wait_round := mkRound { w_done : list (nat * task_state); w_shutdown : bool }.

Record Supervisor := mkSup { s_tasks : list Task; s_finished : bool; s_errors : list exn }.

Definition complete_task (s : list Task) (d : nat * task_state) : list Task :=
  alter (fun t => mkTask (t_name t) d.2 (t_handled t)) d.1 s.

(** The [for task in done] of one round: stops at the first outcome logged. *)
Fixpoint handle_done (done : list nat) (pending : list nat) (s : Supervisor)
  : Supervisor * list nat :=
  match done with
  | [] => (s, pending)
  | i :: done' =>
      let pending' := filter (fun j => j ≠ i) pending in
      match s_tasks s !! i with
      | None => handle_done done' pending' s
      | Some t =>
          match _log_background_task_outcome t true true with
          | (t', Some e) =>
              (mkSup (<[i := t']> (s_tasks s)) true (s_errors s ++ [e]), pending')
          | (t', None) => handle_done done' pending' (mkSup (<[i := t']> (s_tasks s)) (s_finished s) (s_errors s))
          end
      end
  end.

(** [Some] when the coroutine returns within the rounds, [None] while it waits. *)
Fixpoint supervise (rounds : list wait_round) (pending : list nat) (s : Supervisor)
  : Supervisor * bool :=
  if s_finished s then (s, true)
  else
    match rounds with
    | [] => (s, false)
    | r :: rounds' =>
        let s1 := mkSup (foldl complete_task (s_tasks s) (w_done r)) (s_finished s || w_shutdown r) (s_errors s) in
        if bool_decide (pending = []) then
          (if w_shutdown r then (s1, true) else supervise rounds' pending s1)
        else if w_shutdown r then (s1, true)
        else
          let (s2, pending') := handle_done (w_done r).*1 pending s1 in
          if s_finished s2 then (s2, true) else supervise rounds' pending' s2
    end.

(** ** [_cancel_pending_tasks]

    [ends]: how each task that was still running ends after [cancel()]: cancelled, with
    an error of its own, or still running when the join budget is over. *)
Definition _cancel_pending_tasks (ends : nat -> task_state) (tasks : list Task)
  : list Task * list exn :=
  let log_one (t : Task) := _log_background_task_outcome t false false in
  let step (i : nat) (t : Task) : Task * option exn :=
    if task_done t then log_one t else log_one (mkTask (t_name t) (ends i) (t_handled t)) in
  let rs := imap step tasks in
  (rs.*1, omap snd rs).

(** ** The protocol an asyncio agent holds *)

#[export] Instance Any_aio : ProtocolAsync AnyProtocol := {
  aio_is_ready := fun now pk p =>
    match p with
    | PGrpc g => let (g', b) := aio_is_ready now pk g in (PGrpc g', b)
    | PHttp h => (PHttp h, true)
    | PKafka k => (PKafka k, true)
    end;
  aio_report := fun A cfg k pk env p rl q =>
    let wrap {P} (f : P -> AnyProtocol) (r : areport A P) :=
      mkAReport (f (ar_proto r)) (ar_rlog r) (ar_batch r) (ar_posted r) (ar_result r) in
    match p with
    | PGrpc g => wrap PGrpc (aio_report cfg k pk env g rl q)
    | PHttp h => wrap PHttp (aio_report cfg k pk env h rl q)
    | PKafka h => wrap PKafka (aio_report cfg k pk env h rl q)
    end
}.

#[export] Instance Any_aio_laws : ProtocolAsyncLaws AnyProtocol.
Proof.
  split; intros A cfg k pk env [g|h|h] rl q; cbn [aio_report Any_aio ar_batch ar_posted aio_is_ready].
  1-3: by apply aio_report_conserves.
  1-3: apply aio_posted_sublist.
  - intros H. apply (aio_report_gated A cfg k pk env g rl q).
    cbn [aio_is_ready Grpc_aio] in *. by destruct (grpc_aio_is_ready _ _ _).
  - done.
  - done.
Qed.

(** ** The agent's state *)

Record AAgent := mkAAgent {
  aa_config : Config;
  aa_pid : Z;
  aa_started : bool;
  aa_started_pid : option Z;
  aa_protocol : option AnyProtocol;
  aa_finished : option bool;            (* the asyncio.Event, once created *)
  aa_loop : option bool;                (* [self.loop], absent or open/closed *)
  aa_queues : report_kind -> option queue;
  aa_callbacks : list (report_kind * nat);   (* scheduled, oldest first *)
  aa_tasks : list Task;
  aa_thread : option bool;              (* event_loop_thread: absent, alive or ended *)
  aa_hooks : nat;                       (* registrations of __fini *)
  aa_installs : nat;
  aa_rlog : RLog;
  aa_errors : list exn;                 (* errors logged by the loop *)
  aa_channels : Z                       (* channels and sessions open *)
}.

(** [SkyWalkingAgentAsync()] *)
Definition new_aagent (cfg : Config) (pid : Z) : AAgent :=
  mkAAgent cfg pid false None None None None (fun _ => None) [] [] None 0 0 empty_rlog [] 0.

Abbreviation MAA := (M AAgent).

Definition upd_life (c : Config) (st : bool) (sp : option Z) (hooks installs : nat) (th : option bool)
  (a : AAgent) : AAgent :=
  mkAAgent c (aa_pid a) st sp (aa_protocol a) (aa_finished a) (aa_loop a) (aa_queues a)
    (aa_callbacks a) (aa_tasks a) th hooks installs (aa_rlog a) (aa_errors a) (aa_channels a).
Definition upd_loop (fin loop : option bool) (a : AAgent) : AAgent :=
  mkAAgent (aa_config a) (aa_pid a) (aa_started a) (aa_started_pid a) (aa_protocol a) fin loop
    (aa_queues a) (aa_callbacks a) (aa_tasks a) (aa_thread a) (aa_hooks a) (aa_installs a)
    (aa_rlog a) (aa_errors a) (aa_channels a).
Definition upd_queues (qs : report_kind -> option queue) (cbs : list (report_kind * nat)) (rl : RLog)
  (a : AAgent) : AAgent :=
  mkAAgent (aa_config a) (aa_pid a) (aa_started a) (aa_started_pid a) (aa_protocol a) (aa_finished a)
    (aa_loop a) qs cbs (aa_tasks a) (aa_thread a) (aa_hooks a) (aa_installs a) rl (aa_errors a)
    (aa_channels a).
Definition upd_protocol (p : option AnyProtocol) (n : Z) (a : AAgent) : AAgent :=
  mkAAgent (aa_config a) (aa_pid a) (aa_started a) (aa_started_pid a) p (aa_finished a)
    (aa_loop a) (aa_queues a) (aa_callbacks a) (aa_tasks a) (aa_thread a) (aa_hooks a)
    (aa_installs a) (aa_rlog a) (aa_errors a) n.
Definition upd_tasks (ts : list Task) (es : list exn) (a : AAgent) : AAgent :=
  mkAAgent (aa_config a) (aa_pid a) (aa_started a) (aa_started_pid a) (aa_protocol a) (aa_finished a)
    (aa_loop a) (aa_queues a) (aa_callbacks a) ts (aa_thread a) (aa_hooks a)
    (aa_installs a) (aa_rlog a) es (aa_channels a).

Definition set_q (k : report_kind) (q : queue) (qs : report_kind -> option queue)
  : report_kind -> option queue := fun k' => if decide (k' = k) then Some q else qs k'.

(** ** Starting *)

(** [start], in the application's thread: the event loop is started, not awaited. *)
Definition async_start : MAA unit :=
  a ← get_st;
  _ ← (if negb (aa_started a) then
         modify (fun a => upd_life (finalize (aa_config a)) true (aa_started_pid a) (aa_hooks a)
                            (S (aa_installs a)) (aa_thread a) a)
       else if decide (aa_started_pid a = Some (aa_pid a)) then raise RuntimeError
       else mret tt);
  modify (fun a => upd_life (aa_config a) (aa_started a) (Some (aa_pid a)) (S (aa_hooks a))
                     (aa_installs a) (Some true) a).

(** The queues [__start_event_loop_async] creates; the others keep their old value. *)
Definition new_queues (c : Config) (old : report_kind -> option queue) : report_kind -> option queue :=
  fun k =>
    match k with
    | RSegment => Some (PyQueue.empty_queue (agent_trace_reporter_max_buffer_size c))
    | RMeter => if agent_meter_reporter_active c
                then Some (PyQueue.empty_queue (agent_meter_reporter_max_buffer_size c)) else old RMeter
    | RLogData => if agent_log_reporter_active c
                  then Some (PyQueue.empty_queue (agent_log_reporter_max_buffer_size c)) else old RLogData
    | RSnapshot => if agent_profile_active c
                   then Some (PyQueue.empty_queue (agent_profile_snapshot_transport_buffer_size c))
                   else old RSnapshot
    end.

(** Number of connections a protocol holds open, and [aclose] of a protocol: gRPC closes
    its channel, HTTP its three sessions, Kafka has no [aclose] and no [close]. *)
Definition connections (p : AnyProtocol) : Z :=
  match p with PGrpc g => if channel_open g then 1 else 0 | PHttp _ => 3 | PKafka _ => 0 end.

Definition aclose_protocol (p : option AnyProtocol) (n : Z) : option AnyProtocol * Z :=
  match p with
  | Some (PGrpc g) => (Some (PGrpc (grpc_close g)), n - connections (PGrpc g))
  | Some (PHttp h) => (Some (PHttp h), n - 3)
  | _ => (p, n)
  end.

(** [__bootstrap] up to [__init_coroutine]; the old protocol is closed first. *)
Definition async_open_protocol : MAA unit := fun a =>
  let n := (aclose_protocol (aa_protocol a) (aa_channels a)).2 in
  let name := agent_protocol (aa_config a) in
  if decide (name = py "grpc") then
    (upd_protocol (Some (PGrpc (new_Grpc (mkChannelLog 0 ∅)))) (n + 1) a, Ok tt)
  else if decide (name = py "http") then
    (upd_protocol (Some (PHttp (mkHttp false 0))) (n + 3) a, Ok tt)
  else if decide (name = py "kafka") then (upd_protocol (Some (PKafka (mkKafka 0))) n a, Ok tt)
  else (upd_protocol (aclose_protocol (aa_protocol a) (aa_channels a)).1 n a, Raise ValueError).

(** The coroutines of [__init_coroutine]. *)
Definition coroutine_names (c : Config) (p : option AnyProtocol) : list pystr :=
  (match p with Some (PGrpc _) => [py "watch_connectivity"] | _ => [] end) ++
  [py "heartbeat"; py "report_segment"] ++
  (if agent_meter_reporter_active c then [py "report_meter"] else []) ++
  (if agent_log_reporter_active c then [py "report_log"] else []) ++
  (if agent_profile_active c
   then [py "command_dispatch"; py "query_profile_command"; py "send_profile_snapshot"] else []).

(** [__start_event_loop_async] up to the supervisor, in the event loop thread. *)
Definition loop_boot : MAA unit :=
  _ ← modify (fun a => upd_loop (Some false) (Some true)
        (upd_queues (new_queues (aa_config a) (aa_queues a)) (aa_callbacks a) (aa_rlog a)
           (upd_tasks [] (aa_errors a) a)));
  _ ← async_open_protocol;
  modify (fun a => upd_tasks
    ((fun n => mkTask n TRunning false) <$> coroutine_names (aa_config a) (aa_protocol a))
    (aa_errors a) a).

(** The end of [asyncio.run] in [__start_event_loop]: the loop is closed (callbacks that
    are still scheduled never run), the event is set, the thread ends. *)
Definition loop_closed : MAA unit :=
  modify (fun a => upd_life (aa_config a) (aa_started a) (aa_started_pid a) (aa_hooks a)
    (aa_installs a) (Some false) (upd_loop (Some true) (Some false) a)).

(** ** The application's side *)

(** [archive_segment], [archive_log], [archive_meter] *)
Definition async_archive (k : report_kind) (item : nat) : MAA unit :=
  a ← get_st;
  match aa_loop a with
  | None => raise AttributeError
  | Some false => mret tt
  | Some true => modify (fun a => upd_queues (aa_queues a) (aa_callbacks a ++ [(k, item)]) (aa_rlog a) a)
  end.

(** [add_profiling_snapshot]: does not ask whether the loop is closed. *)
Definition async_add_snapshot (item : nat) : MAA unit :=
  a ← get_st;
  match aa_loop a with
  | None => raise AttributeError
  | Some false => raise RuntimeError
  | Some true =>
      modify (fun a => upd_queues (aa_queues a) (aa_callbacks a ++ [(RSnapshot, item)]) (aa_rlog a) a)
  end.

(** [archive_meter_async], awaited in the loop: puts at once. *)
Definition archive_meter_async (now : Z) (item : nat) : MAA unit :=
  a ← get_st;
  match aa_queues a RMeter with
  | None => raise AttributeError
  | Some q =>
      match PyQueue.put_nowait item q with
      | Some q' => modify (fun a => upd_queues (set_q RMeter q' (aa_queues a)) (aa_callbacks a) (aa_rlog a) a)
      | None => modify (fun a => upd_queues (aa_queues a) (aa_callbacks a)
                  (log_dropped_throttled now (py "meter") 1 false (aa_rlog a)).1 a)
      end
  end.

(** [is_segment_queue_full] *)
Definition async_is_segment_queue_full : MAA bool :=
  a ← get_st;
  match aa_queues a RSegment with
  | None => raise AttributeError
  | Some q => mret (PyQueue.full q)
  end.

(** ** The loop's side *)

(** [__asyncio_queue_put_nowait], for the oldest callback. *)
Definition run_callback (now : Z) : MAA unit :=
  modify (fun a =>
    match aa_callbacks a with
    | [] => a
    | (k, item) :: cbs =>
        match aa_queues a k with
        | None => upd_queues (aa_queues a) cbs (aa_rlog a)
                    (upd_tasks (aa_tasks a) (aa_errors a ++ [AttributeError]) a)
        | Some q =>
            match PyQueue.put_nowait item q with
            | Some q' => upd_queues (set_q k q' (aa_queues a)) cbs (aa_rlog a) a
            | None => upd_queues (aa_queues a) cbs
                        (log_dropped_throttled now (kind_label k) 1 false (aa_rlog a)).1 a
            end
        end
    end).

(** [__report_segment] and the other reporters: [None] while the report call has not
    returned; what it pulled is out of the queue. *)
Definition async_report_round (k : report_kind) (pk1 pk2 : peek) (env : acall nat)
  : MAA (option bool) :=
  a ← get_st;
  match aa_protocol a, aa_queues a k with
  | Some p, Some q =>
      let (p1, ready) := aio_is_ready (ac_now env) pk1 p in
      _ ← modify (fun a => upd_protocol (Some p1) (aa_channels a) a);
      if negb ready then mret (Some true)
      else if PyQueue.is_empty q then mret (Some false)
      else
        let r := aio_report (aa_config a) k pk2 env p1 (aa_rlog a) q in
        _ ← modify (fun a => upd_queues (set_q k (b_queue (ar_batch r)) (aa_queues a)) (aa_callbacks a)
              (ar_rlog r) (upd_protocol (Some (ar_proto r)) (aa_channels a) a));
        match ar_result r with
        | None => mret None
        | Some (Ok _) => mret (Some true)
        | Some (Raise e) => raise e
        end
  | _, _ => raise AttributeError
  end.

(** ** Shutdown *)

(** [_abandon_async_queue]: an asyncio queue has the operations of [queue.Queue] the loop uses. *)
Definition _abandon_async_queue (q : queue) : queue * Z := abandon_sync_queue q.

(** [_shutdown_async_queue]: abandon and count; the join that follows succeeds when no
    task is unfinished. *)
Definition shutdown_async_queue (now : Z) (k : report_kind) : MAA unit :=
  a ← get_st;
  match aa_queues a k with
  | None => raise AttributeError
  | Some q =>
      let (q', abandoned) := _abandon_async_queue q in
      modify (fun a => upd_queues (set_q k q' (aa_queues a)) (aa_callbacks a)
        (if abandoned =? 0 then aa_rlog a
         else (log_dropped_throttled now (kind_label k) abandoned true (aa_rlog a)).1) a)
  end.

Definition shutdown_kind (now : Z) (k : report_kind) : MAA unit :=
  a ← get_st;
  if kind_active (aa_config a) k then shutdown_async_queue now k else mret tt.

(** [__async_shutdown_cleanup] *)
Definition async_shutdown_cleanup (now : Z) (ends : nat -> task_state) : MAA unit :=
  _ ← for_each [RSegment; RLogData; RSnapshot; RMeter] (shutdown_kind now);
  _ ← modify (fun a => let (ts, es) := _cancel_pending_tasks ends (aa_tasks a) in
                       upd_tasks ts (aa_errors a ++ es) a);
  modify (fun a => let (p, n) := aclose_protocol (aa_protocol a) (aa_channels a) in
                   upd_protocol p n a).

(** The root coroutine from the supervisor on, then the end of [asyncio.run]. *)
Definition loop_root (rounds : list wait_round) (now : Z) (ends : nat -> task_state) : MAA bool :=
  a ← get_st;
  let pending := seq 0 (length (aa_tasks a)) in
  let (s, returned) := supervise rounds pending
        (mkSup (aa_tasks a) (match aa_finished a with Some b => b | None => false end) (aa_errors a)) in
  _ ← modify (fun a => upd_loop (Some (s_finished s)) (aa_loop a) (upd_tasks (s_tasks s) (s_errors s) a));
  if returned : bool then
    _ ← try_except (async_shutdown_cleanup now ends)
          (fun e => modify (fun a => upd_tasks (aa_tasks a) (aa_errors a ++ [e]) a));
    _ ← loop_closed; mret true
  else mret false.

(** [__fini]: ask the loop to finish and wait for the thread; a missing thread is an
    [AttributeError]. *)
Definition async_fini : MAA unit :=
  _ ← modify (fun a => match aa_loop a, aa_finished a with
                       | Some true, Some _ => upd_loop (Some true) (aa_loop a) a
                       | _, _ => a
                       end);
  a ← get_st;
  match aa_thread a with None => raise AttributeError | Some _ => mret tt end.

(** [stop] *)
Definition async_stop : MAA unit :=
  _ ← modify (fun a => upd_life (aa_config a) (aa_started a) (aa_started_pid a) 0 (aa_installs a)
        (aa_thread a) a);
  _ ← async_fini;
  modify (fun a => upd_life (aa_config a) false (aa_started_pid a) (aa_hooks a) (aa_installs a)
        (aa_thread a) a).
