(* ===== verification/AgentAsyncProps.v ===== *)
(** * Theorems about the asyncio agent

    Accounting of items over every interleaving of the application and the loop, the
    supervisor's return, shutdown, and the window between [start] and the loop. *)

From S2P Require Import Prelude PyData PyText Config Sampling ReporterLog Trace Report ReportAsync.
From S2P Require Import Agent AgentProps AgentAsync.

(** ** Accounting *)

(** The steps of the application's threads and of the loop once it runs. *)
Inductive AStep :=
| SArchive (k : report_kind) (item : nat)
| SSnapshot (item : nat)
| SMeterAsync (now : Z) (item : nat)
| SCallback (now : Z)
| SReport (k : report_kind) (pk1 pk2 : peek) (env : acall nat)
| SShutdown (now : Z) (k : report_kind).

Definition run_astep (s : AStep) (a : AAgent) : AAgent :=
  match s with
  | SArchive k item => (async_archive k item a).1
  | SSnapshot item => (async_add_snapshot item a).1
  | SMeterAsync now item => (archive_meter_async now item a).1
  | SCallback now => (run_callback now a).1
  | SReport k pk1 pk2 env => (async_report_round k pk1 pk2 env a).1
  | SShutdown now k => (shutdown_kind now k a).1
  end.

(** Items of kind [k] the agent holds or has counted as dropped. *)
Definition ledger (k : report_kind) (a : AAgent) : Z :=
  match aa_queues a k with Some q => PyQueue.qsize q | None => 0 end +
  Z.of_nat (length (filter (fun cb => cb.1 = k) (aa_callbacks a))) +
  get0 (drop_totals (aa_rlog a)) (kind_label k).

(** The report call a round makes, if it makes one. *)
Definition round_report (k : report_kind) (pk1 pk2 : peek) (env : acall nat) (a : AAgent)
  : option (areport nat AnyProtocol) :=
  match aa_protocol a, aa_queues a k with
  | Some p, Some q =>
      let (p1, ready) := aio_is_ready (ac_now env) pk1 p in
      if negb ready || PyQueue.is_empty q then None
      else Some (aio_report (aa_config a) k pk2 env p1 (aa_rlog a) q)
  | _, _ => None
  end.

(** What a step brings in: archived items, and items that came while a report ran. *)
Definition step_in (s : AStep) (k : report_kind) (a : AAgent) : Z :=
  match s with
  | SArchive k' _ => if bool_decide (k' = k ∧ aa_loop a = Some true) then 1 else 0
  | SSnapshot _ => if bool_decide (RSnapshot = k ∧ aa_loop a = Some true) then 1 else 0
  | SMeterAsync _ _ => if bool_decide (RMeter = k) then 1 else 0
  | SReport k' pk1 pk2 env =>
      match round_report k' pk1 pk2 env a with
      | Some r => if bool_decide (k' = k) then Z.of_nat (length (b_accepted (ar_batch r))) else 0
      | None => 0
      end
  | _ => 0
  end.

(** What a report hands to the collector: the items pulled, unless the call counted them
    as dropped. *)
Definition step_out (s : AStep) (k : report_kind) (a : AAgent) : Z :=
  match s with
  | SReport k' pk1 pk2 env =>
      match round_report k' pk1 pk2 env a with
      | Some r => if bool_decide (k' = k) then
                    Z.of_nat (length (b_sent (ar_batch r))) -
                    (get0 (drop_totals (ar_rlog r)) (kind_label k) -
                     get0 (drop_totals (aa_rlog a)) (kind_label k))
                  else 0
      | None => 0
      end
  | _ => 0
  end.

(** Every kind has its queue, and the queues are well-formed. *)
Definition queues_ok (a : AAgent) : Prop := ∀ k, ∃ q, aa_queues a k = Some q ∧ PyQueue.wf q.

Lemma set_q_eq k q qs : set_q k q qs k = Some q.
Proof. unfold set_q. by rewrite decide_True. Qed.
Lemma set_q_ne k k' q qs : k' ≠ k -> set_q k q qs k' = qs k'.
Proof. unfold set_q. intros. by rewrite decide_False. Qed.

Lemma queues_ok_set a a' k q :
  queues_ok a -> PyQueue.wf q -> aa_queues a' = set_q k q (aa_queues a) -> queues_ok a'.
Proof.
  intros Ha Hq E k'. rewrite E. destruct (decide (k' = k)) as [->|].
  - rewrite set_q_eq. eauto.
  - by rewrite set_q_ne.
Qed.

Lemma queues_ok_same a a' : queues_ok a -> aa_queues a' = aa_queues a -> queues_ok a'.
Proof. intros Ha E k. rewrite E. apply Ha. Qed.

Lemma kind_label_inj k k' : kind_label k = kind_label k' -> k = k'.
Proof. destruct k, k'; vm_compute; congruence. Qed.

(** A drop of [n] items of kind [k]. *)
Lemma drop_total now k n force rl k' :
  get0 (drop_totals (log_dropped_throttled now (kind_label k) n force rl).1) (kind_label k') =
  get0 (drop_totals rl) (kind_label k') + (if decide (k = k') then Z.max 0 n else 0).
Proof.
  destruct (log_dropped_throttled now (kind_label k) n force rl) as [rl' line] eqn:E.
  destruct (log_dropped_step _ _ _ _ _ _ _ (kind_label k') E) as (Ht & _).
  cbn [fst]. rewrite Ht. destruct (decide (k = k')) as [->|Hne].
  - by rewrite decide_True.
  - rewrite decide_False; [done|]. by intros ?%kind_label_inj.
Qed.

Lemma report_other_totals cfg k pk (env : acall nat) (p : AnyProtocol) rl q k' :
  k' ≠ k ->
  get0 (drop_totals (ar_rlog (aio_report cfg k pk env p rl q))) (kind_label k') =
  get0 (drop_totals rl) (kind_label k').
Proof.
  intros Hne. destruct p as [g|h|h]; cbn [aio_report Any_aio ar_rlog];
    [cbn [aio_report Grpc_aio]; unfold grpc_aio_report|by destruct k|by destruct k].
  destruct (grpc_aio_is_ready _ _ _) as [g1 [|]]; cbn [negb]; [|done].
  destruct (ac_end env) as [[|st]| |]; cbn [ar_rlog]; try done.
  case_match; [done|]. rewrite drop_total. rewrite decide_False by congruence. lia.
Qed.

Lemma ledger_callbacks k a a' :
  aa_queues a' = aa_queues a -> aa_rlog a' = aa_rlog a ->
  ledger k a' = ledger k a - Z.of_nat (length (filter (fun cb => cb.1 = k) (aa_callbacks a))) +
    Z.of_nat (length (filter (fun cb => cb.1 = k) (aa_callbacks a'))).
Proof. intros E1 E2. unfold ledger. rewrite E1, E2. lia. Qed.

(** Scheduling one item. *)
Lemma schedule_ledger k k0 item a :
  ledger k (upd_queues (aa_queues a) (aa_callbacks a ++ [(k0, item)]) (aa_rlog a) a) =
  ledger k a + (if bool_decide (k0 = k) then 1 else 0).
Proof.
  unfold ledger. cbn [aa_queues aa_callbacks aa_rlog upd_queues].
  rewrite filter_app, length_app, filter_cons. cbn [fst].
  case_bool_decide; [rewrite decide_True by done | rewrite decide_False by done]; cbn; lia.
Qed.

(** Putting one item into its queue, or counting it. *)
Lemma put_ledger k k0 item a q cbs now :
  aa_queues a k0 = Some q -> PyQueue.wf q ->
  let a' := match PyQueue.put_nowait item q with
            | Some q' => upd_queues (set_q k0 q' (aa_queues a)) cbs (aa_rlog a) a
            | None => upd_queues (aa_queues a) cbs
                        (log_dropped_throttled now (kind_label k0) 1 false (aa_rlog a)).1 a
            end in
  (queues_ok a -> queues_ok a') ∧
  ledger k a' = ledger k a + (if bool_decide (k0 = k) then 1 else 0)
    - Z.of_nat (length (filter (fun cb => cb.1 = k) (aa_callbacks a)))
    + Z.of_nat (length (filter (fun cb => cb.1 = k) cbs)).
Proof.
  intros Hq Hw. destruct (PyQueue.put_nowait item q) as [q'|] eqn:E; cbv zeta.
  - split; [intros Ha; by eapply (queues_ok_set a _ k0 q'); [|eapply PyQueue.wf_put|]|].
    unfold ledger. cbn [aa_queues aa_callbacks aa_rlog upd_queues].
    apply PyQueue.qsize_put in E. case_bool_decide; subst.
    + rewrite set_q_eq, Hq. lia.
    + rewrite set_q_ne by done. lia.
  - split; [intros Ha; by eapply queues_ok_same|].
    unfold ledger. cbn [aa_queues aa_callbacks aa_rlog upd_queues]. rewrite drop_total.
    case_bool_decide; [rewrite decide_True by done | rewrite decide_False by done]; lia.
Qed.

Lemma step_report k k0 pk1 pk2 env a :
  queues_ok a ->
  let s := SReport k0 pk1 pk2 env in
  queues_ok (run_astep s a) ∧ ledger k (run_astep s a) + step_out s k a = ledger k a + step_in s k a.
Proof.
  intros Ha. destruct (Ha k0) as (q & Hq & Hw). cbn [run_astep step_in step_out].
  unfold async_report_round, round_report. unfold get_st, mbind, M_bind. cbn beta iota.
  rewrite Hq. destruct (aa_protocol a) as [p|]; [|cbn; split; [done|lia]].
  destruct (aio_is_ready (ac_now env) pk1 p) as [p1 ready]. unfold modify. cbn beta iota.
  destruct ready; cbn [negb orb]; [|split; [by eapply queues_ok_same|reflexivity]].
  destruct (PyQueue.is_empty q); [split; [by eapply queues_ok_same|reflexivity]|].
  set (r := aio_report (aa_config a) k0 pk2 env p1 (aa_rlog a) q).
  destruct (aio_report_conserves nat (aa_config a) k0 pk2 env p1 (aa_rlog a) q Hw) as (Hw' & _ & Hi & _).
  fold r in Hw', Hi. apply (f_equal length) in Hi. rewrite !length_app in Hi.
  set (a' := upd_queues _ _ _ _).
  assert (queues_ok a' ∧ ledger k a' + (if bool_decide (k0 = k) then
      Z.of_nat (length (b_sent (ar_batch r))) - (get0 (drop_totals (ar_rlog r)) (kind_label k) -
        get0 (drop_totals (aa_rlog a)) (kind_label k)) else 0) =
    ledger k a + (if bool_decide (k0 = k) then Z.of_nat (length (b_accepted (ar_batch r))) else 0)) as H.
  { split; [by eapply (queues_ok_set a _ k0 (b_queue (ar_batch r)))|].
    subst a'. unfold ledger. cbn [aa_queues aa_callbacks aa_rlog upd_queues upd_protocol].
    case_bool_decide; subst.
    - rewrite set_q_eq, Hq. unfold PyQueue.qsize. lia.
    - rewrite set_q_ne by done. subst r. rewrite report_other_totals by done. lia. }
  by destruct (ar_result r) as [[|]|].
Qed.

Lemma step_accounts k s a :
  queues_ok a ->
  queues_ok (run_astep s a) ∧ ledger k (run_astep s a) + step_out s k a = ledger k a + step_in s k a.
Proof.
  intros Ha. destruct s as [k0 item|item|now item|now|k0 pk1 pk2 env|now k0].
  - cbn [run_astep step_in step_out]. unfold async_archive. unfold get_st, mbind, M_bind. cbn beta iota.
    destruct (aa_loop a) as [[|]|]; unfold modify; cbn [fst raise].
    + split; [by eapply queues_ok_same|]. rewrite schedule_ledger.
      repeat case_bool_decide; naive_solver lia.
    + split; [done|]. rewrite bool_decide_false by naive_solver. cbn. lia.
    + split; [done|]. rewrite bool_decide_false by naive_solver. cbn. lia.
  - cbn [run_astep step_in step_out]. unfold async_add_snapshot. unfold get_st, mbind, M_bind. cbn beta iota.
    destruct (aa_loop a) as [[|]|]; unfold modify; cbn [fst raise].
    + split; [by eapply queues_ok_same|]. rewrite schedule_ledger.
      repeat case_bool_decide; naive_solver lia.
    + split; [done|]. rewrite bool_decide_false by naive_solver. cbn. lia.
    + split; [done|]. rewrite bool_decide_false by naive_solver. cbn. lia.
  - destruct (Ha RMeter) as (q & Hq & Hw). cbn [run_astep step_in step_out].
    unfold archive_meter_async. unfold get_st, mbind, M_bind. cbn beta iota. rewrite Hq.
    destruct (put_ledger k RMeter item a q (aa_callbacks a) now Hq Hw) as [H1 H2].
    change (py "meter") with (kind_label RMeter). cbv zeta in H1, H2.
    destruct (PyQueue.put_nowait item q) eqn:Ep; unfold modify; cbn [fst];
      (split; [by apply H1|]); rewrite H2; lia.
  - cbn [run_astep step_in step_out]. unfold run_callback, modify. cbn [fst].
    destruct (aa_callbacks a) as [|[k0 item] cbs] eqn:E; [split; [done|lia]|].
    destruct (Ha k0) as (q & Hq & Hw). rewrite Hq.
    destruct (put_ledger k k0 item a q cbs now Hq Hw) as [H1 H2]. split; [by apply H1|].
    rewrite H2, E, filter_cons. cbn [fst].
    case_bool_decide; [rewrite decide_True by done | rewrite decide_False by done]; cbn [length]; lia.
  - by apply step_report.
  - cbn [run_astep step_in step_out]. unfold shutdown_kind, get_st, mbind, M_bind. cbn beta iota.
    destruct (kind_active _ _); [|split; [done|cbn; lia]].
    destruct (Ha k0) as (q & Hq & Hw). unfold shutdown_async_queue, get_st, mbind, M_bind. cbn beta iota.
    unfold _abandon_async_queue. rewrite Hq, abandon_all by done. unfold modify. cbn [fst].
    split; [eapply (queues_ok_set a _ k0); [done| |done]|].
    { unfold PyQueue.wf, PyQueue.qsize in *. cbn. lia. }
    unfold ledger. cbn [aa_queues aa_callbacks aa_rlog upd_queues].
    destruct (decide (k = k0)) as [->|Hne].
    + rewrite set_q_eq, Hq. pose proof (PyQueue.qsize_nonneg q).
      destruct (Z.eqb_spec (PyQueue.qsize q) 0); [|rewrite drop_total, decide_True by done];
        unfold PyQueue.qsize at 1; cbn; lia.
    + rewrite set_q_ne by done. destruct (Z.eqb_spec (PyQueue.qsize q) 0); [lia|].
      rewrite drop_total, decide_False by congruence. lia.
Qed.

(** Sums over an execution. *)
Fixpoint run_asteps (ss : list AStep) (k : report_kind) (a : AAgent) : AAgent * Z * Z :=
  match ss with
  | [] => (a, 0, 0)
  | s :: ss' =>
      let '(a', i, o) := run_asteps ss' k (run_astep s a) in
      (a', step_in s k a + i, step_out s k a + o)
  end.


(** ** The supervisor *)

(** A round as [asyncio.wait] can answer it: known tasks, with an outcome. *)
Definition round_ok (n : nat) (r : wait_round) : Prop :=
  Forall (fun d => (d.1 < n)%nat ∧ d.2 ≠ TRunning) (w_done r).

(** A round that ends the wait. *)
Definition decisive (r : wait_round) : bool := w_shutdown r || negb (bool_decide ((w_done r).*1 = [])).

Definition unhandled (ts : list Task) : Prop := Forall (fun t => t_handled t = false) ts.

Lemma complete_unhandled ds : ∀ ts, unhandled ts -> unhandled (foldl complete_task ts ds).
Proof.
  induction ds as [|d ds IH]; intros ts Hts; cbn; [done|]. apply IH.
  unfold unhandled, complete_task in *. apply Forall_forall. intros t [i Ht]%list_elem_of_lookup.
  rewrite list_lookup_alter in Ht. case_decide as Hd.
  - apply fmap_Some in Ht as (t0 & Ht0 & ->). cbn. eapply Forall_lookup in Hts; [|done]. done.
  - by eapply Forall_lookup in Hts.
Qed.

Lemma complete_length ds : ∀ ts, length (foldl complete_task ts ds) = length ts.
Proof.
  induction ds as [|d ds IH]; intros ts; cbn; [done|]. rewrite IH. apply length_alter.
Qed.

(** A task named in the round is completed after it. *)
Lemma complete_state ds : ∀ ts i t,
  Forall (fun d : nat * task_state => d.2 ≠ TRunning) ds ->
  (i ∈ ds.*1 ∨ ∃ t0, ts !! i = Some t0 ∧ t_state t0 ≠ TRunning) ->
  foldl complete_task ts ds !! i = Some t -> t_state t ≠ TRunning.
Proof.
  induction ds as [|d ds IH]; intros ts i t Hds Hi Ht; cbn in *.
  - destruct Hi as [Hi|(t0 & H0 & H1)]; [by apply elem_of_nil in Hi|]. congruence.
  - apply Forall_cons in Hds as [Hd Hds]. eapply IH; [done| |exact Ht].
    destruct (decide (i = d.1)) as [->|Hne].
    + right. destruct (ts !! d.1) as [t0|] eqn:E.
      * exists (mkTask (t_name t0) d.2 (t_handled t0)). unfold complete_task.
        by rewrite list_lookup_alter, decide_True, E.
      * assert (d.1 < length (foldl complete_task (complete_task ts d) ds))%nat as Hl
          by (eapply lookup_lt_Some; exact Ht).
        rewrite complete_length in Hl. unfold complete_task in Hl. rewrite length_alter in Hl.
        apply lookup_ge_None in E. lia.
    + destruct Hi as [[->|Hi]%elem_of_cons|(t0 & H0 & H1)]; [done|by left|].
      right. exists t0. unfold complete_task. by rewrite list_lookup_alter, decide_False.
Qed.

(** The first completed task of a round is logged and ends the wait. *)
Lemma handle_first i done pending s t :
  s_tasks s !! i = Some t -> t_handled t = false -> t_state t ≠ TRunning ->
  ∃ e s' p', handle_done (i :: done) pending s = (s', p') ∧ s_finished s' = true ∧
    s_errors s' = s_errors s ++ [e].
Proof.
  intros Ht Hh Hs. cbn [handle_done]. rewrite Ht. unfold _log_background_task_outcome. rewrite Hh.
  unfold _retrieve_background_task_outcome. destruct (t_state t); [done|..]; eauto 10.
Qed.

(** C24. The supervisor returns exactly when it should: when the first round arrives in
    which shutdown was requested or a background task ended (by returning, failing or
    being cancelled); then the shutdown event is set, and an early end is logged exactly
    once.  It keeps waiting otherwise. *)
Theorem supervisor_returns rounds pending s :
  Forall (round_ok (length (s_tasks s))) rounds -> unhandled (s_tasks s) ->
  pending ≠ [] -> s_finished s = false ->
  let (s', returned) := supervise rounds pending s in
  returned = existsb decisive rounds ∧ s_finished s' = returned ∧
  ∃ es, s_errors s' = s_errors s ++ es ∧ (length es <= 1)%nat ∧
    (Forall (fun r => w_shutdown r = false) rounds -> returned = true -> length es = 1%nat).
Proof.
  revert s. induction rounds as [|r rounds IH]; intros s Hr Hu Hp Hf; cbn [supervise existsb];
    rewrite Hf.
  { split; [done|]. split; [done|]. exists []. rewrite app_nil_r. split; [done|]. cbn. split; [lia|done]. }
  apply Forall_cons in Hr as [Hr Hrs]. rewrite bool_decide_false by done.
  unfold decisive at 1. destruct (w_shutdown r) eqn:Esh; cbn [orb].
  { split; [done|]. split; [done|]. exists []. rewrite app_nil_r. split; [done|]. cbn. split; [lia|].
    intros Hs. apply Forall_cons in Hs as [Hs _]. congruence. }
  set (s1 := mkSup _ _ _).
  assert (unhandled (s_tasks s1)) as Hu1 by (by apply complete_unhandled).
  destruct (w_done r) as [|[i st] ds] eqn:Ed.
  - cbn [fmap list_fmap handle_done]. rewrite bool_decide_true by done. cbn [negb orb].
    subst s1. cbn [foldl s_finished orb]. destruct s as [ts f es]. cbn in Hf. subst f. cbn.
    specialize (IH (mkSup ts false es) Hrs Hu Hp eq_refl).
    destruct (supervise rounds pending (mkSup ts false es)) as [s' ret].
    destruct IH as (H1 & H2 & es' & H3 & H4 & H5). split; [done|]. split; [done|].
    exists es'. split; [done|]. split; [done|]. intros Hs. apply H5. by apply Forall_cons in Hs as [_ ?].
  - rewrite bool_decide_false by done. cbn [negb orb].
    assert (∃ t, s_tasks s1 !! i = Some t) as [t Ht].
    { apply lookup_lt_is_Some. subst s1. cbn [s_tasks]. rewrite complete_length.
      unfold round_ok in Hr. rewrite Ed in Hr. by apply Forall_cons in Hr as [[? _] _]. }
    assert (t_state t ≠ TRunning) as Hst.
    { eapply (complete_state ((i, st) :: ds) (s_tasks s) i t); [|left; by left|exact Ht].
      unfold round_ok in Hr. rewrite Ed in Hr. eapply Forall_impl; [exact Hr|]. by intros ? [? ?]. }
    assert (t_handled t = false) as Hh by (by eapply Forall_lookup in Ht; [|exact Hu1]).
    change (((i, st) :: ds).*1) with (i :: ds.*1).
    destruct (handle_first i ds.*1 pending s1 t Ht Hh Hst) as (e & s' & p' & -> & Hfin & He).
    rewrite Hfin. split; [done|]. split; [done|]. exists [e]. subst s1. cbn in He.
    split; [done|]. cbn. split; [lia|done].
Qed.

Definition demo_tasks : list Task := [mkTask (py "heartbeat") TRunning false; mkTask (py "report_segment") TRunning false].

Lemma supervisor_returns_witness :
  let rounds := [mkRound [] false; mkRound [(1%nat, TFailed OtherException)] false] in
  let (s', returned) := supervise rounds [0; 1]%nat (mkSup demo_tasks false []) in
  returned = existsb decisive rounds ∧ s_finished s' = returned ∧
  ∃ es, s_errors s' = [] ++ es ∧ (length es <= 1)%nat ∧
    (Forall (fun r => w_shutdown r = false) rounds -> returned = true -> length es = 1%nat).
Proof.
  apply (supervisor_returns [mkRound [] false; mkRound [(1%nat, TFailed OtherException)] false]
    [0; 1]%nat (mkSup demo_tasks false [])).
  - repeat constructor; cbn; try lia; discriminate.
  - repeat constructor.
  - discriminate.
  - reflexivity.
Defined.

(** ** Shutdown *)

Lemma shutdown_kind_run now k a :
  queues_ok a ->
  ∃ a', shutdown_kind now k a = (a', Ok tt) ∧ queues_ok a' ∧
    aa_config a' = aa_config a ∧ aa_tasks a' = aa_tasks a ∧ aa_errors a' = aa_errors a ∧
    aa_protocol a' = aa_protocol a ∧ aa_channels a' = aa_channels a ∧
    (∀ k', k' ≠ k -> aa_queues a' k' = aa_queues a k') ∧
    (kind_active (aa_config a) k = true -> ∃ q, aa_queues a' k = Some q ∧ PyQueue.items q = []) ∧
    (kind_active (aa_config a) k = false -> aa_queues a' k = aa_queues a k).
Proof.
  intros Ha. unfold shutdown_kind, get_st, mbind, M_bind. cbn beta iota.
  destruct (kind_active (aa_config a) k); [|eexists; by split_and!].
  destruct (Ha k) as (q & Hq & Hw). unfold shutdown_async_queue, get_st, mbind, M_bind. cbn beta iota.
  unfold _abandon_async_queue. rewrite Hq, abandon_all by done. eexists. split; [done|].
  cbn [aa_queues aa_config aa_tasks aa_errors aa_protocol aa_channels upd_queues].
  split_and!; try done.
  - eapply (queues_ok_set a _ k); [done| |done]. unfold PyQueue.wf, PyQueue.qsize in *. cbn. lia.
  - intros k' Hne. by rewrite set_q_ne.
  - intros _. rewrite set_q_eq. by eexists.
Qed.

Lemma shutdown_kinds_run now ks a :
  queues_ok a ->
  ∃ a', for_each ks (shutdown_kind now) a = (a', Ok tt) ∧
    aa_config a' = aa_config a ∧ aa_tasks a' = aa_tasks a ∧ aa_errors a' = aa_errors a ∧
    aa_protocol a' = aa_protocol a ∧ aa_channels a' = aa_channels a ∧
    (∀ k, k ∈ ks ∨ (∃ q, aa_queues a k = Some q ∧ PyQueue.items q = []) ->
      kind_active (aa_config a) k = true -> ∃ q, aa_queues a' k = Some q ∧ PyQueue.items q = []).
Proof.
  revert a. induction ks as [|k ks IH]; intros a Ha; cbn [for_each].
  { exists a. split_and!; try done. intros k [Hk|Hk] _; [by apply elem_of_nil in Hk | done]. }
  destruct (shutdown_kind_run now k a Ha) as (a1 & E1 & Ha1 & C1 & T1 & R1 & P1 & N1 & Q1 & Q2 & Q3).
  destruct (IH a1 Ha1) as (a2 & E2 & C2 & T2 & R2 & P2 & N2 & Q).
  exists a2. rewrite (bind_ok _ _ _ _ _ E1). split_and!; try congruence.
  rewrite C1 in Q. intros k' Hk' Hact. apply Q; [|done].
  destruct (decide (k' = k)) as [->|Hne]; [right; by apply Q2|].
  destruct Hk' as [[->|Hk']%elem_of_cons|Hk']; [done|by left|right]. by rewrite Q1.
Qed.

Lemma log_outcome_state t c1 c2 :
  t_state (_log_background_task_outcome t c1 c2).1 = t_state t.
Proof. unfold _log_background_task_outcome. by repeat case_match. Qed.

(** After cleanup a task still runs only if its cancellation did not take effect within
    the join budget. *)
Lemma cancel_all ends ts i t :
  (_cancel_pending_tasks ends ts).1 !! i = Some t ->
  t_state t ≠ TRunning ∨ ends i = TRunning.
Proof.
  unfold _cancel_pending_tasks. cbn [fst]. rewrite list_lookup_fmap, list_lookup_imap.
  destruct (ts !! i) as [t0|]; cbn; [|done]. intros [= <-].
  destruct (task_done t0) eqn:E; rewrite log_outcome_state.
  - left. unfold task_done in E. by bool_simpl.
  - cbn. destruct (ends i); auto; left; done.
Qed.


(** A running gRPC agent with one segment queued. *)
Definition running_aagent : AAgent :=
  run_astep (SCallback 0) (run_astep (SArchive RSegment 7)
    ((_ ← async_start; loop_boot) (new_aagent default_config 100)).1).

Lemma running_queues_ok : queues_ok running_aagent.
Proof. intros []; eexists; (split; [vm_compute; reflexivity|]); vm_compute; split; intros; discriminate. Qed.



(** ** The window before the loop runs *)

(** [start] returns before the event loop has created its queues, and nothing
    guards the tracer against that window: until the loop thread has booted, asking
    whether the segment queue is full, or archiving anything, raises [AttributeError]
    into the application (the threaded agent answers "full" instead); so does [stop]
    before [start]. *)
Theorem async_start_window (cfg : Config) pid k item :
  let a := (async_start (new_aagent cfg pid)).1 in
  (async_is_segment_queue_full a).2 = Raise AttributeError ∧
  (async_archive k item a).2 = Raise AttributeError ∧
  (async_is_segment_queue_full (loop_boot a).1).2 = Ok false ∧
  (async_stop (new_aagent cfg pid)).2 = Raise AttributeError.
Proof.
  cbv zeta. split_and!; [done|done| |done].
  assert (∀ a, aa_queues (loop_boot a).1 RSegment =
    Some (PyQueue.empty_queue (agent_trace_reporter_max_buffer_size (aa_config a)))) as Hq.
  { intros a. unfold loop_boot, mbind, M_bind, modify, async_open_protocol. cbn.
    repeat case_decide; done. }
  unfold async_is_segment_queue_full, get_st, mbind, M_bind. cbn beta iota. rewrite Hq.
  unfold mret, M_ret. cbn [snd]. f_equal. unfold PyQueue.full, PyQueue.empty_queue, PyQueue.qsize.
  cbn [PyQueue.maxsize PyQueue.items length]. destruct (Z.ltb_spec 0
    (agent_trace_reporter_max_buffer_size (aa_config (async_start (new_aagent cfg pid)).1)));
    [|done]. cbn [andb]. apply Z.leb_gt. lia.
Qed.
