(* ===== verification/PluginBase.v ===== *)
(** * What the plugins share

    A plugin replaces a function of a library by a wrapper that opens a span, writes or
    reads the propagation headers, calls the original and records the outcome.  This file
    has the configuration checks, utils/filter.py's URL cleaning, the header loops and the
    ways spans are opened, and the notion of a [calm] program: one that leaves the heap of
    tracing objects well formed and the active spans as it found them, whether it returns
    or raises.  The original functions are programs on the same heap: they may run other
    instrumented calls. *)

From S2P Require Import Prelude PyData PyText Codec Carrier Config.
From S2P Require Import Filter Sampling TraceData Trace TraceInv TraceSpec TraceProps.

(** ** Text helpers *)

(** [str.capitalize] *)
Definition capitalize (s : pystr) : pystr :=
  match s with [] => [] | c :: s' => upper_char c :: lower s' end.

(** [s.partition(c)]: before, whether found, after. *)
Fixpoint partition (c : Z) (s : pystr) : pystr * bool * pystr :=
  match s with
  | [] => ([], false, [])
  | x :: s' => if x =? c then ([], true, s')
               else let '(a, f, b) := partition c s' in (x :: a, f, b)
  end.

(** [s.rpartition(c)[2]]: what follows the last [c], all of [s] without one. *)
Fixpoint after_last (c : Z) (s : pystr) : pystr :=
  match s with
  | [] => []
  | x :: s' => if contains c s' then after_last c s' else if x =? c then s' else x :: s'
  end.

(** [s.endswith(p)] *)
Definition endswith (p s : pystr) : bool := startswith (rev p) (rev s).

(** [s.split(c)[0]] *)
Definition before (c : Z) (s : pystr) : pystr := (partition c s).1.1.

(** [s or d] on strings *)
Definition or_str (s d : pystr) : pystr := match s with [] => d | _ => s end.

(** ** config.py: methods that are not traced

    The options are comma-separated names, compiled to ['^' + '|'.join(names) + '$'] and
    matched ignoring case.  The anchors bind tighter than the bars: all names but the
    last match as prefixes.  A name may contain ['.'], any character but a newline; names
    with other special characters of regular expressions are outside this matcher. *)

(** Case folding of [re.IGNORECASE] on letters that fold to ASCII ones. *)
Definition fold_case (c : Z) : Z :=
  if c =? 304 then 105 else if c =? 305 then 105 else if c =? 383 then 115
  else if c =? 8490 then 107 else lower_char c.

Definition re_char (p c : Z) : bool :=
  if p =? 46 then negb (c =? 10) else fold_case p =? fold_case c.

(** What is left of [s] after the name [p] matched at its start. *)
Fixpoint re_prefix (p s : pystr) : option pystr :=
  match p, s with
  | [], _ => Some s
  | _ :: _, [] => None
  | x :: p', c :: s' => if re_char x c then re_prefix p' s' else None
  end.

(** The end of the text, or a newline at the end. *)
Definition re_dollar (s : pystr) : bool := bool_decide (s = []) || bool_decide (s = [10]).

Fixpoint re_methods (names : list pystr) (s : pystr) : bool :=
  match names with
  | [] => false
  | [p] => match re_prefix p s with Some r => re_dollar r | None => false end
  | p :: ps => match re_prefix p s with Some _ => true | None => re_methods ps s end
  end.

Definition method_names (option : pystr) : list pystr := strip <$> split_on 44 option.

Definition ignore_http_method_check (cfg : Config) (method : pystr) : bool :=
  re_methods (method_names (plugin_http_ignore_method cfg)) method.

Definition ignore_grpc_method_check (cfg : Config) (method : pystr) : bool :=
  re_methods (method_names (plugin_grpc_ignored_methods cfg)) method.

(** ** utils/filter.py: [sw_urlparse]

    A [ParseResult] of urllib; [hostname] and [port] are computed from [netloc]. *)
Record ParseResult := mkUrl {
  url_scheme : pystr; url_netloc : pystr; url_path : pystr;
  url_params : pystr; url_query : pystr; url_fragment : pystr }.

(** [_hostinfo]: host and port text of a netloc, user information removed. *)
Definition hostinfo (netloc : pystr) : pystr * option pystr :=
  let info := after_last 64 netloc in
  let '(_, open, bracketed) := partition 91 info in
  let '(host, port) :=
    if open : bool then
      let '(h, _, rest) := partition 93 bracketed in (h, (partition 58 rest).2)
    else let '(h, _, p) := partition 58 info in (h, p) in
  (host, match port with [] => None | _ => Some port end).

(** [hostname]: lower case up to a zone index. *)
Definition hostname (u : ParseResult) : option pystr :=
  match (hostinfo (url_netloc u)).1 with
  | [] => None
  | h => let '(a, z, b) := partition 37 h in
         Some (lower a ++ (if z : bool then [37] else []) ++ b)
  end.

(** [port]: ASCII digits, at most 65535, [ValueError] otherwise. *)
Definition port (u : ParseResult) : res (option Z) :=
  match (hostinfo (url_netloc u)).2 with
  | None => Ok None
  | Some p =>
      if forallb (fun c => (48 <=? c) && (c <=? 57)) p then
        n ← int_of_str p;
        if n <=? 65535 then Ok (Some n) else Raise ValueError
      else Raise ValueError
  end.

(** The f-string: [str(None)] for a missing host, no port when it is missing or 0. *)
Definition safe_netloc (u : ParseResult) : res pystr :=
  p ← port u;
  Ok (match hostname u with Some h => h | None => py "None" end ++
      match p with Some n => if n =? 0 then [] else [58] ++ str_of_int n | None => [] end).

Definition sw_urlparse (u : ParseResult) : ParseResult :=
  mkUrl (url_scheme u)
    (match safe_netloc u with Ok n => n | Raise _ => url_netloc u end)
    (url_path u) (url_params u) (url_query u) (url_fragment u).

(** ** Programs on the heap *)

Section base.
Context {AG PS : Type} `{!AgentOps AG} `{!ProfileOps PS}.
Context (cfg : Config) (uuid1 : nat -> pystr) (import_time : Z).
Context (format_exc : exn -> Z -> pystr) (str_of_exn : exn -> pystr).
Abbreviation W := (World AG PS).
Abbreviation MW := (M W).
Implicit Types (w : W) (t l c d : nat).

(** [try: m finally: f] *)
Definition try_finally {A} (m : MW A) (f : MW unit) : MW A :=
  a ← try_except m (fun e => _ ← f; raise e);
  _ ← f; mret a.

(** [NoopSpan(NoopContext())] *)
Definition noop_span : MW nat := c ← new_NoopContext; new_NoopSpan c.

(** [get_context().new_exit_span(...)] and the other two. *)
Definition open_exit t (op peer : pystr) (component : Component.t) : MW nat :=
  c ← get_context cfg uuid1 t; new_exit_span cfg uuid1 t c op peer (Some component) None.
Definition open_entry t (op : pystr) (carrier : option Carrier) (inherit : option Component.t) : MW nat :=
  c ← get_context cfg uuid1 t; new_entry_span cfg uuid1 t c op carrier inherit.
Definition open_local t (op : pystr) : MW nat :=
  c ← get_context cfg uuid1 t; new_local_span cfg uuid1 t c op.

(** [NoopSpan(NoopContext()) if config.ignore_http_method_check(method) else ...] *)
Definition http_exit t (method op peer : pystr) (component : Component.t) : MW nat :=
  if ignore_http_method_check cfg method then noop_span else open_exit t op peer component.
Definition http_entry t (method op : pystr) (carrier : Carrier) (inherit : option Component.t) : MW nat :=
  if ignore_http_method_check cfg method then noop_span else open_entry t op (Some carrier) inherit.

(** [with <open> as span: body] *)
Definition with_new {A} t (open : MW nat) (body : nat -> MW A) : MW A :=
  l ← open; with_span cfg import_time format_exc t l (body l).

(** A dict object of the application or of a library, at a location of the heap. *)
Definition new_dict (m : list (pystr * pystr)) : MW nat :=
  d ← fresh; _ ← modify (upd_dicts (<[d := m]>)); mret d.
Definition set_key d (k v : pystr) : MW unit := modify (upd_dicts (alter (Dict.set k v) d)).

(** [for item in carrier: put(item.key, item.val)]: the correlation item first. *)
Definition each_item (put : pystr -> pystr -> MW unit) (ca : Carrier) : MW unit :=
  m ← gets (fun w => w_dicts w !!! correlation ca);
  cv ← lift (correlation_val m);
  _ ← put (py "sw8-correlation") cv;
  v ← lift (carrier_val ca);
  put (py "sw8") v.

(** [if headers is None: headers = {}; for item in carrier: headers[item.key] = item.val] *)
Definition inject_headers (headers : option nat) (ca : Carrier) : MW nat :=
  d ← (match headers with Some d => mret d | None => new_dict [] end);
  _ ← each_item (set_key d) ca;
  mret d.

(** [Carrier()] *)
Definition new_Carrier : MW Carrier := d ← new_dict []; mret (empty_carrier d).

(** [item.val = v] on the two items; [None] and [''] change no field that is read. *)
Definition set_correlation_item (ca : Carrier) (v : option pystr) : MW unit :=
  match v with
  | None => mret tt
  | Some v => fun w =>
      let (m, r) := set_correlation_val (correlation_element_max_number cfg) v
                      (w_dicts w !!! correlation ca) in
      (upd_dicts (<[correlation ca := m]>) w, r)
  end.
Definition set_sw8_item (ca : Carrier) (v : option pystr) : MW Carrier :=
  match v with
  | None => mret ca
  | Some v => match set_carrier_val v ca with
              | (ca', Ok _) => mret ca'
              | (_, Raise e) => raise e
              end
  end.

(** [carrier = Carrier(); for item in carrier: item.val = <look up item.key>] *)
Definition read_carrier (get : pystr -> option pystr) : MW Carrier :=
  ca ← new_Carrier;
  _ ← set_correlation_item ca (get (py "sw8-correlation"));
  set_sw8_item ca (get (py "sw8")).

Definition set_error l : MW unit := mod_span l (set_error_occurred true).

(** [span.tag(TagHttpStatusCode(code)); if code >= 400: span.error_occurred = True] *)
Definition tag_status l (code : Z) : MW unit :=
  _ ← tag l (TagHttpStatusCode (str_of_int code));
  if 400 <=? code then set_error l else mret tt.

(** [get_context().active_span], the frameworks' error hooks: [raised()] on it. *)
Definition active_span t : MW (option nat) := _ ← get_context cfg uuid1 t; peek t false.

(** [yield from], or [async for ... yield]: [items] are the resumptions of the inner iterator
    that give a value, [finish] the one that ends it.  Between two resumptions the consumer
    of the generator runs, [send]; when it does not want more, or raises, the generator is
    closed, which raises [GeneratorExit] at the [yield]. *)
Fixpoint yield_from {A} (items : list (MW A)) (finish : MW unit) (send : A -> MW bool) : MW unit :=
  match items with
  | [] => finish
  | item :: items' =>
      r ← item;
      more ← (try_except (send r) (fun _ => mret false) : MW bool);
      if (more : bool) then yield_from items' finish send else raise GeneratorExit
  end.

(** A whole life of a generator with this body: run to its end, or closed. *)
Definition generator_life (m : MW unit) : MW unit :=
  try_except m (fun e => if bool_decide (e = GeneratorExit) then mret tt else raise e).

(** ** Calm programs *)

(** Every span on the stack of [t] is started. *)
Definition live w t : Prop := ∀ l k, l ∈ stack w t -> skS w !! l = Some k -> 0 < k_depth k.

(** [m] keeps the heap well formed, every span in its state and every list of active spans
    as it was, whether it returns or raises. *)
Definition calm t {A} (m : MW A) : Prop := ∀ w, wf w -> live w t -> spec w m (fun _ _ => True).

Lemma live_grow w w' t : wf w -> grow w w' -> live w t -> live w' t.
Proof.
  intros Hw G Hl l k. rewrite (grow_stacks _ _ G). intros Hin Hk.
  destruct (stack_span w t l Hw Hin) as [k0 Hk0]. rewrite (grow_span _ _ _ _ G Hk0) in Hk.
  injection Hk as <-. by eapply Hl.
Qed.

Lemma live_spans w t : Forall (fun l => 0 < depth (w_spans w !!! l)) (stack w t) -> live w t.
Proof.
  rewrite Forall_forall. intros H l k Hin (s & Hs & ->)%skS_inv. specialize (H l Hin).
  by rewrite (lookup_total_correct _ _ _ Hs) in H.
Qed.

(** *** Starting and stopping keep the contexts *)

Definition ctxs_kept (w0 w : W) : Prop :=
  ∀ c x, w_ctxs w0 !! c = Some x -> ∃ x', w_ctxs w !! c = Some x' ∧ noop x' = noop x.

Lemma kept_mod_ctx w0 c f : (∀ x, noop (f x) = noop x) -> preserves (ctxs_kept w0) (mod_ctx c f).
Proof.
  intros Hf w H c' x (x' & Hx' & E)%H. cbn. destruct (decide (c = c')) as [->|Hne].
  - exists (f x'). rewrite lookup_alter_eq, Hx'. split; [done | by rewrite Hf].
  - exists x'. by rewrite lookup_alter_ne.
Qed.

Lemma kept_same w0 (f : W -> W) : (∀ w, w_ctxs (f w) = w_ctxs w) -> preserves (ctxs_kept w0) (modify f).
Proof. intros Hf w H c x Hx. cbn. rewrite Hf. by apply H. Qed.

Lemma kept_fresh w0 : preserves (ctxs_kept w0) fresh.
Proof. by intros w H c x Hx%H. Qed.

Local Hint Resolve kept_mod_ctx kept_same kept_fresh : py.

Lemma kept_spans_dup w0 t : preserves (ctxs_kept w0) (_spans_dup t).
Proof. unfold _spans_dup. auto 20 with py. Qed.

Local Hint Resolve kept_spans_dup : py.

Lemma start_kept w0 t l : preserves (ctxs_kept w0) (start t l).
Proof.
  assert (preserves (ctxs_kept w0) (span_start t l)) as H.
  { unfold span_start, mod_span, get_span, ctx_start, get_ctx.
    apply preserves_bind; [auto with py|]. intros _. apply preserves_bind; [auto with py|].
    intros s. destruct (_ =? _); [|auto with py]. do 2 (apply preserves_bind; [auto with py|]; intros ?).
    do 3 (apply preserves_bind; [auto with py|]; intros ?). case_decide; [auto with py|].
    do 3 (apply preserves_bind; [auto with py|]; intros ?). auto with py. }
  unfold start, get_span. apply preserves_bind; [auto with py|]. intros s.
  destruct (cls s); try done. unfold entry_start. apply preserves_bind; [done|]. intros ?.
  unfold mod_span. auto with py.
Qed.

Lemma stop_kept w0 t l : preserves (ctxs_kept w0) (stop (AG := AG) (PS := PS) t l).
Proof.
  unfold stop, mod_span, get_span. do 2 (apply preserves_bind; [auto with py|]; intros ?).
  destruct (_ =? _); [|auto with py]. unfold ctx_stop, get_ctx, remove_span, finish, segment_archive,
    mod_segment, mod_span.
  do 2 (apply preserves_bind; [auto with py|]; intros ?).
  apply preserves_bind; [destruct (noop _); auto 10 with py|]. intros ?.
  do 3 (apply preserves_bind; [auto with py|]; intros ?).
  destruct (_ =? _); [|auto with py].
  apply preserves_bind; [destruct (noop _); auto 20 with py | auto with py].
Qed.

(** *** A [with] block *)

Lemma with_span_runs {A} w t l k (body : MW A) :
  wf w -> live w t -> skS w !! l = Some k -> 0 <= k_depth k -> (k_depth k = 0 -> l ∉ stack w t) ->
  calm t body ->
  ∃ w1 w4, start t l w = (w1, Ok tt) ∧
    with_span cfg import_time format_exc t l body w = (w4, (body w1).2) ∧ wf w4 ∧ grow w w4.
Proof using Type.
  clear uuid1 str_of_exn. intros Hw Hlive Hk Hd Hin Hbody.
  destruct (start_result w t l k Hw Hk) as (w1 & E1 & Hw1 & HS1 & _ & HT1).
  assert (live w1 t) as Hlive1.
  { intros l' k'. rewrite HT1, HS1. intros Hl' [[<- <-]|[Hne Hk']]%lookup_insert_Some; [cbn; lia|].
    revert Hl'. destruct (decide (t = t ∧ k_depth k = 0)); [|by intros ?; apply (Hlive l' k')].
    unfold push. destruct (decide (l ∈ stack w t)); [by intros ?; apply (Hlive l' k')|].
    intros [Hl'|Hl'%list_elem_of_singleton]%elem_of_app; [by apply (Hlive l' k') | congruence]. }
  pose proof (start_kept w t l w (fun c x Hx => ex_intro _ x (conj Hx eq_refl))) as Hc1.
  rewrite E1 in Hc1. cbn in Hc1.
  destruct (body w1) as [w2 r] eqn:Eb.
  assert (wf w2 ∧ grow w1 w2) as [Hw2 G12].
  { specialize (Hbody w1 Hw1 Hlive1). unfold spec in Hbody. rewrite Eb in Hbody.
    destruct r; naive_solver. }
  exists w1. destruct (with_span_steps cfg import_time format_exc w t l body w1 w2 r
    (fun w4 => wf w4 ∧ grow w w4) E1 Eb) as (w4 & E4 & Hw4 & G4);
    [|exists w4; rewrite Eb; split_and!; done].
  intros w3 Hsame. assert (wf w3) as Hw3 by by eapply same_wf.
  assert (skS w3 !! l = Some (k_set_depth (k_depth k + 1) k)) as Hk3.
  { rewrite (same_spans _ _ Hsame). apply (grow_span _ _ _ _ G12). rewrite HS1. apply lookup_insert_eq. }
  destruct (wf_span _ _ _ _ _ Hw3 _ _ Hk3) as (kx & (x & Hx & _)%skC_inv & _).
  destruct (stop_result w3 t l _ x Hw3 Hk3 Hx) as (w4 & E4 & Hw4 & HS4 & _ & _ & HT4).
  eexists w4, _. split; [done|]. split; [done|]. split.
  - apply map_subseteq_spec. intros l' k' Hl'. rewrite HS4. cbn [k_depth k_set_depth].
    destruct (decide (l = l')) as [<-|Hne].
    + rewrite lookup_insert_eq. rewrite Hk in Hl'. injection Hl' as <-. destruct k as [? ? ? ? d]. cbn.
      by replace (d + 1 - 1) with d by lia.
    + rewrite lookup_insert_ne by done. rewrite (same_spans _ _ Hsame).
      apply (grow_span _ _ _ _ G12). by rewrite HS1, lookup_insert_ne.
  - intros c0 y (x0 & Hx0 & ->)%skC_inv. destruct (Hc1 c0 x0 Hx0) as (x1 & Hx1 & En1).
    destruct (grow_ctxs _ _ G12 _ _ (skC_lookup _ _ _ Hx1)) as (y2 & Hy2 & En2).
    rewrite <- (same_ctxs _ _ Hsame) in Hy2. apply skC_inv in Hy2 as (x3 & Hx3 & ->).
    pose proof (stop_kept w3 t l w3 (fun c x Hx => ex_intro _ x (conj Hx eq_refl))) as Hc4.
    rewrite E4 in Hc4. destruct (Hc4 c0 x3 Hx3) as (x4 & Hx4 & En4).
    exists (sk_ctx x4). split; [by apply skC_lookup|]. cbn in *. congruence.
  - intros t'. rewrite HT4. cbn [k_depth k_set_depth].
    rewrite !(grow_stacks _ _ (same_grow _ _ Hsame)), !(grow_stacks _ _ G12), !HT1.
    destruct (decide (t' = t ∧ k_depth k + 1 = 1)) as [[-> Hd1]|Hn].
    + rewrite decide_True by (split; [done|lia]). apply drop_push. apply Hin. lia.
    + rewrite decide_False by (intros [-> ?]; apply Hn; split; [done|lia]). done.
Qed.

(** *** Closure of the calm programs *)

Lemma calm_spec {A} t (m : MW A) (Q : W -> A -> W -> Prop) :
  (∀ w, wf w -> spec w m (Q w)) -> calm t m.
Proof. intros H w Hw _. eapply spec_conseq; [by apply H | done]. Qed.

Lemma calm_ret {A} t (a : A) : calm t (mret a).
Proof. apply (calm_spec _ _ (fun _ _ _ => True)). intros w Hw. by apply spec_ret. Qed.

Lemma calm_raise {A} t e : calm t (raise (A := A) e).
Proof. apply (calm_spec _ _ (fun _ _ _ => True)). intros w Hw. by apply spec_raise. Qed.

Lemma calm_gets {A} t (f : W -> A) : calm t (gets f).
Proof. apply (calm_spec _ _ (fun _ _ _ => True)). intros w Hw. by apply spec_gets. Qed.

Lemma calm_lift {A} t (r : res A) : calm t (lift r).
Proof. apply (calm_spec _ _ (fun _ _ _ => True)). intros w Hw. by apply spec_lift. Qed.

Lemma calm_bind {A B} t (m : MW A) (f : A -> MW B) :
  calm t m -> (∀ a, calm t (f a)) -> calm t (m ≫= f).
Proof.
  intros Hm Hf w Hw Hl. eapply spec_bind; [by apply Hm|]. intros a w' Hw' G _.
  apply Hf; [done | by apply (live_grow w)].
Qed.

Lemma calm_try {A} t (m : MW A) h : calm t m -> (∀ e, calm t (h e)) -> calm t (try_except m h).
Proof.
  intros Hm Hh w Hw Hl. specialize (Hm w Hw Hl). unfold spec, try_except in *.
  destruct (m w) as [w' [a|e]]; [done|]. destruct Hm as [Hw' G].
  specialize (Hh e w' Hw' (live_grow _ _ _ Hw G Hl)). unfold spec in Hh.
  destruct (h e w') as [w'' [a|e']].
  - destruct Hh as (Hw'' & G' & _). split_and!; [done | by etrans | done].
  - destruct Hh as (Hw'' & G'). split; [done | by etrans].
Qed.

Lemma calm_finally {A} t (m : MW A) f : calm t m -> calm t f -> calm t (try_finally m f).
Proof.
  intros Hm Hf. apply calm_bind; [apply calm_try; [done|]|]; intros ?;
    (apply calm_bind; [done|]; intros ?; apply calm_raise || apply calm_ret).
Qed.

Lemma calm_for {A} t (xs : list A) body : (∀ x, calm t (body x)) -> calm t (for_each xs body).
Proof.
  intros H. induction xs as [|x xs IH]; [apply calm_ret|]. apply calm_bind; [done | by intros].
Qed.

Lemma calm_mod_span t l f : (∀ s, sk_span (f s) = sk_span s) -> calm t (mod_span l f).
Proof. intros Hf. apply (calm_spec _ _ (fun _ _ _ => True)). intros w Hw. by apply spec_mod_span. Qed.

Lemma calm_dicts t f : calm t (modify (upd_dicts f)).
Proof. apply (calm_spec _ _ (fun _ _ _ => True)). intros w Hw. by apply spec_dicts. Qed.

Lemma calm_fresh t : calm t fresh.
Proof. eapply calm_spec. intros w Hw. by apply spec_fresh. Qed.

Lemma calm_tag t l tg : calm t (tag l tg).
Proof. eapply calm_spec. intros w Hw. by apply spec_tag. Qed.

Lemma calm_inject t l : calm t (inject cfg l).
Proof. eapply calm_spec. intros w Hw. by apply spec_inject. Qed.

Lemma calm_extract t l ca : calm t (extract uuid1 l ca).
Proof. eapply calm_spec. intros w Hw. by apply spec_extract. Qed.

Lemma calm_raised t l e : calm t (raised cfg import_time format_exc l e).
Proof. by apply calm_mod_span. Qed.

Lemma calm_log t l e : calm t (log import_time str_of_exn l e).
Proof. by apply calm_mod_span. Qed.

Lemma calm_peek t b : calm t (peek t b).
Proof. eapply calm_spec. intros w Hw. by apply spec_peek. Qed.

Lemma calm_get_context t : calm t (get_context cfg uuid1 t).
Proof. eapply calm_spec. intros w Hw. by apply spec_get_context. Qed.
End base.

(** *** The hint database and the tactic *)

Create HintDb calm.
#[export] Hint Resolve calm_ret calm_raise calm_gets calm_lift calm_dicts calm_fresh calm_tag
  calm_inject calm_extract calm_raised calm_log calm_peek calm_get_context : calm.
#[export] Hint Extern 2 (calm _ (mod_span _ _)) => apply calm_mod_span; done : calm.

(** Walk through a program: binds, handlers, branches; leaves are hints or hypotheses. *)
Ltac calm :=
  intros; cbv beta zeta;
  lazymatch goal with
  | |- calm _ (mbind _ _) => apply calm_bind; calm
  | |- calm _ (try_except _ _) => apply calm_try; calm
  | |- calm _ (try_finally _ _) => apply calm_finally; calm
  | |- calm _ (for_each _ _) => apply calm_for; calm
  | |- calm _ (match ?x with _ => _ end) => destruct x; calm
  | |- calm _ _ => first [solve [auto with calm] | idtac]
  | |- _ => idtac
  end.

Section opening.
Context {AG PS : Type} `{!AgentOps AG} `{!ProfileOps PS}.
Context (cfg : Config) (uuid1 : nat -> pystr) (import_time : Z).
Context (format_exc : exn -> Z -> pystr) (str_of_exn : exn -> pystr).
Abbreviation W := (World AG PS).
Abbreviation MW := (M W).
Implicit Types (w : W) (t l c d : nat).

(** A program that hands out a span to start: a new one, or the active one. *)
Definition opens t (m : MW nat) : Prop := ∀ w, wf w -> spec w m (fun l w' => opened w t l w').

Lemma opens_noop t : opens t noop_span.
Proof.
  intros w Hw. eapply spec_bind; [by apply spec_new_NoopContext|]. intros c w1 Hw1 G1 [Hc _].
  eapply spec_conseq; [by eapply spec_new_NoopSpan|]. intros l w2 G2 [Hl Hn]. left.
  apply (new_in_back _ w1); [done|]. split; [done|]. eexists. by rewrite Hl.
Qed.

Lemma opens_context t (new : nat -> MW nat) :
  (∀ w c, wf w -> usable w t c -> spec w (new c) (fun l w' => opened w t l w')) ->
  opens t (c ← get_context cfg uuid1 t; new c).
Proof. intros Hn w Hw. by apply (spec_open cfg uuid1). Qed.

Lemma opens_exit t op peer co : opens t (open_exit cfg uuid1 t op peer co).
Proof. apply opens_context. intros. by apply spec_new_exit_span. Qed.

Lemma opens_entry t op ca inh : opens t (open_entry cfg uuid1 t op ca inh).
Proof. apply opens_context. intros. by apply spec_new_entry_span. Qed.

Lemma opens_local t op : opens t (open_local cfg uuid1 t op).
Proof. apply opens_context. intros. by apply spec_new_local_span. Qed.

Lemma opens_if t (b : bool) m1 m2 : opens t m1 -> opens t m2 -> opens t (if b then m1 else m2).
Proof. by destruct b. Qed.

(** Attributes may be set on the span before it is returned. *)
Lemma opens_then t m (f : nat -> MW unit) :
  opens t m -> (∀ l w, wf w -> spec w (f l) (fun _ _ => True)) ->
  opens t (l ← m; _ ← f l; mret l).
Proof.
  intros Hm Hf w Hw. eapply spec_bind; [by apply Hm|]. intros l w1 Hw1 G1 Ho.
  eapply spec_bind; [by apply Hf|]. intros [] w2 Hw2 G2 _. apply spec_ret; [done|].
  destruct Ho as [[Hl (s & Hs & Hd)]|Ho]; [left | by right].
  split; [done|]. exists s. split; [by apply (grow_span _ _ _ _ G2) | done].
Qed.

(** A span handed out can be entered. *)
Lemma opened_startable w w' t l :
  wf w -> live w t -> wf w' -> grow w w' -> opened w t l w' ->
  ∃ k, skS w' !! l = Some k ∧ 0 <= k_depth k ∧ (k_depth k = 0 -> l ∉ stack w' t).
Proof using Type.
  clear uuid1 format_exc str_of_exn. intros Hw Hlive Hw' G [[Hl (k & Hk & Hd)]|Hlast].
  - exists k. split_and!; [done | lia |]. intros _ Hin. rewrite (grow_stacks _ _ G) in Hin.
    destruct (stack_span w t l Hw Hin) as [? ?]. congruence.
  - assert (l ∈ stack w t) as Hin by (apply last_Some in Hlast as [? ->]; set_solver).
    destruct (stack_span w t l Hw Hin) as [k Hk]. pose proof (Hlive l k Hin Hk).
    exists k. split_and!; [by apply (grow_span _ _ _ _ G) | lia | lia].
Qed.

(** How a [with] block over a new span runs: its outcome is that of the body. *)
Lemma with_new_runs {A} w t open (body : nat -> MW A) :
  wf w -> live w t -> spec w open (fun l w' => opened w t l w') -> (∀ l, calm t (body l)) ->
  match open w with
  | (w0, Ok l) =>
      ∃ w1 w4, start t l w0 = (w1, Ok tt) ∧ wf w0 ∧ wf w4 ∧ grow w w0 ∧ grow w w4 ∧
        with_new cfg import_time format_exc t open body w = (w4, (body l w1).2)
  | (w0, Raise e) => with_new cfg import_time format_exc t open body w = (w0, Raise e) ∧ wf w0 ∧ grow w w0
  end.
Proof using Type.
  clear uuid1 str_of_exn. intros Hw Hlive Hopen Hbody. unfold spec in Hopen.
  unfold with_new, mbind, M_bind. destruct (open w) as [w0 [l|e]]; [|done].
  destruct Hopen as (Hw0 & G0 & Ho).
  destruct (opened_startable w w0 t l Hw Hlive Hw0 G0 Ho) as (k & Hk & Hd & Hin).
  destruct (with_span_runs cfg import_time format_exc w0 t l k (body l) Hw0
    (live_grow _ _ _ Hw G0 Hlive) Hk Hd Hin (Hbody l)) as (w1 & w4 & E1 & E4 & Hw4 & G4).
  exists w1, w4. split_and!; try done. by etrans.
Qed.

Lemma spec_with_new {A} w t open (body : nat -> MW A) :
  wf w -> live w t -> spec w open (fun l w' => opened w t l w') -> (∀ l, calm t (body l)) ->
  spec w (with_new cfg import_time format_exc t open body) (fun _ _ => True).
Proof using Type.
  clear uuid1 str_of_exn. intros Hw Hlive Hopen Hbody.
  pose proof (with_new_runs w t open body Hw Hlive Hopen Hbody) as H.
  destruct (open w) as [w0 [l|e]]; unfold spec.
  - destruct H as (w1 & w4 & _ & _ & Hw4 & _ & G4 & ->). destruct (body l w1).2; by split_and!.
  - by destruct H as (-> & ? & ?).
Qed.

Lemma calm_with_new {A} t open (body : nat -> MW A) :
  opens t open -> (∀ l, calm t (body l)) -> calm t (with_new cfg import_time format_exc t open body).
Proof using Type. intros Hopen Hbody w Hw Hlive. apply spec_with_new; auto. Qed.

Lemma calm_open {A} t m (f : nat -> MW A) : opens t m -> (∀ l, calm t (f l)) -> calm t (l ← m; f l).
Proof. intros Hm Hf. apply calm_bind; [|done]. eapply calm_spec. intros w Hw. by apply Hm. Qed.
End opening.

#[export] Hint Resolve opens_noop opens_exit opens_entry opens_local opens_if : calm.

Section headers.
Context {AG PS : Type} `{!AgentOps AG} `{!ProfileOps PS}.
Context (cfg : Config) (uuid1 : nat -> pystr).
Abbreviation W := (World AG PS).
Implicit Types (w : W) (t l c d : nat).

Lemma opens_http_exit t m op peer co : opens t (http_exit (AG := AG) (PS := PS) cfg uuid1 t m op peer co).
Proof. unfold http_exit. auto with calm. Qed.

Lemma opens_http_entry t m op ca inh : opens t (http_entry (AG := AG) (PS := PS) cfg uuid1 t m op ca inh).
Proof. unfold http_entry. auto with calm. Qed.

Lemma calm_each_item t (put : pystr -> pystr -> M W unit) ca :
  (∀ k v, calm t (put k v)) -> calm t (each_item put ca).
Proof. unfold each_item. calm. Qed.

Lemma calm_set_key t d k v : calm t (set_key (AG := AG) (PS := PS) d k v).
Proof. apply calm_dicts. Qed.

Lemma calm_new_dict t m : calm t (new_dict (AG := AG) (PS := PS) m).
Proof. unfold new_dict. calm. Qed.

Lemma calm_inject_headers t h ca : calm t (inject_headers (AG := AG) (PS := PS) h ca).
Proof.
  unfold inject_headers. calm; [apply calm_new_dict|]. apply calm_each_item. intros. apply calm_set_key.
Qed.

Lemma calm_correlation_item t ca v : calm t (set_correlation_item (AG := AG) (PS := PS) cfg ca v).
Proof.
  unfold set_correlation_item. destruct v as [v|]; [|apply calm_ret].
  intros w Hw _. unfold spec. destruct (set_correlation_val _ _ _) as [m r].
  assert (same w (upd_dicts <[correlation ca := m]> w)) as Hs by done.
  destruct r; split_and!; try done; by eapply same_wf || by apply same_grow.
Qed.

Lemma calm_sw8_item t ca v : calm t (set_sw8_item (AG := AG) (PS := PS) ca v).
Proof.
  unfold set_sw8_item. destruct v as [v|]; [|apply calm_ret].
  destruct (set_carrier_val v ca) as [ca' [?|e]]; [apply calm_ret | apply calm_raise].
Qed.

Lemma calm_read_carrier t get : calm t (read_carrier (AG := AG) (PS := PS) cfg get).
Proof.
  unfold read_carrier, new_Carrier. calm; [apply calm_new_dict | apply calm_correlation_item | apply calm_sw8_item].
Qed.

Lemma calm_set_error t l : calm t (set_error (AG := AG) (PS := PS) l).
Proof. by apply calm_mod_span. Qed.

Lemma calm_tag_status t l code : calm t (tag_status (AG := AG) (PS := PS) l code).
Proof. unfold tag_status. calm. apply calm_set_error. Qed.

Lemma calm_active_span t : calm t (active_span (AG := AG) (PS := PS) cfg uuid1 t).
Proof. unfold active_span. calm. Qed.

Lemma calm_yield_from {A} t (items : list (M (World AG PS) A)) finish send :
  Forall (calm t) items -> calm t finish -> (∀ a, calm t (send a)) -> calm t (yield_from items finish send).
Proof.
  intros Hi Hf Hs. induction Hi as [|m ms Hm _ IH]; [done|]. cbn [yield_from]. calm.
Qed.

Lemma calm_generator t (m : M (World AG PS) unit) : calm t m -> calm t (generator_life m).
Proof. intros H. unfold generator_life. calm. Qed.
End headers.

#[export] Hint Resolve opens_http_exit opens_http_entry calm_set_key calm_new_dict
  calm_inject_headers calm_correlation_item calm_sw8_item calm_read_carrier calm_set_error
  calm_tag_status calm_active_span : calm.
