(* ===== verification/PluginHttp.v ===== *)
(** * HTTP plugins: clients and servers

    plugins/sw_requests.py, sw_urllib3.py, sw_urllib3_v2.py, sw_urllib_request.py,
    sw_httpx.py, sw_aiohttp.py, sw_websockets.py, sw_flask.py, sw_bottle.py, sw_pyramid.py,
    sw_falcon.py, sw_falcon_v3.py, sw_django.py, sw_sanic.py, sw_tornado.py, sw_fastapi.py,
    sw_http_server.py.  Each wrapper is a program around the library's own function, which
    is a parameter: a program that gets the location of the headers object it is to send.
    Coroutine wrappers have the same body around an awaited call.  What a wrapper reads of
    library objects (URLs, requests, responses) is an argument. *)

From S2P Require Import Prelude PyData PyText Codec Carrier Config.
From S2P Require Import Filter Sampling TraceData Trace TraceInv TraceSpec TraceProps PluginBase.

(** [s[0:n]] *)
Definition slice_to (n : Z) (s : pystr) : pystr :=
  if n <? 0 then take (Z.to_nat (Z.of_nat (length s) + n)) s else take (Z.to_nat n) s.

(** [s.replace(p, '')] *)
Definition remove_all (p s : pystr) : pystr :=
  match p with [] => s | _ => concat (str_split p s) end.

(** [params_tostring]: a mapping of parameter names to their values. *)
Definition params_tostring (params : list (pystr * list pystr)) : pystr :=
  join [10] ((fun kv => kv.1 ++ py "=[" ++ join [44] kv.2 ++ py "]") <$> params).

(** [f'{host}:{port}'] *)
Definition host_port (host : pystr) (port : pystr) : pystr := host ++ [58] ++ port.

Section http.
Context {AG PS : Type} `{!AgentOps AG} `{!ProfileOps PS}.
Context (cfg : Config) (uuid1 : nat -> pystr) (import_time : Z).
Context (format_exc : exn -> Z -> pystr) (str_of_exn : exn -> pystr).
(** urllib: [urlparse], [ParseResult.geturl], and the code of an [HTTPError]. *)
Context (urlparse : pystr -> res ParseResult) (geturl : ParseResult -> pystr).
Context (http_error_code : exn -> option Z).
Abbreviation W := (World AG PS).
Abbreviation MW := (M W).
Abbreviation with_new := (PluginBase.with_new cfg import_time format_exc).
Abbreviation http_exit := (PluginBase.http_exit cfg uuid1).
Abbreviation http_entry := (PluginBase.http_entry cfg uuid1).
Abbreviation read_carrier := (PluginBase.read_carrier cfg).
Abbreviation raised := (Trace.raised cfg import_time format_exc).
(** A response, and its status. *)
Context {R : Type} (status : R -> Z).
Implicit Types (w : W) (t l c d : nat).

(** ** Clients *)

(** The collector's own address, when segments are reported over HTTP. *)
Definition self_request (netloc : pystr) : bool :=
  bool_decide (agent_protocol cfg = py "http") &&
  endswith netloc (rstrip_with (Z.eqb 47) (agent_collector_backend_services cfg)).

(** The body requests and urllib3 share, from [with span:] on. *)
Definition send_traced l (_request : option nat -> MW R) (method url : pystr)
  (headers : option nat) : MW R :=
  ca ← inject cfg l;
  _ ← mod_span l (set_layer Layer.Http);
  d ← inject_headers headers ca;
  _ ← tag l (TagHttpMethod (upper method));
  _ ← tag l (TagHttpURL url);
  res ← _request (Some d);
  _ ← tag_status l (status res);
  mret res.

(** sw_requests.py *)
Definition sw_requests_request t (_request : option nat -> MW R) (method url : pystr)
  (headers : option nat) : MW R :=
  u0 ← lift (urlparse url);
  let u := sw_urlparse u0 in
  if self_request (url_netloc u) then _request headers
  else with_new t (http_exit t method (or_str (url_path u) (py "/")) (url_netloc u) Component.Requests)
    (fun l => send_traced l _request method (geturl u) headers).

(** sw_urllib3.py *)
Definition sw_urllib3_request t (_request : option nat -> MW R) (method url : pystr)
  (headers : option nat) : MW R :=
  u0 ← lift (urlparse url);
  let u := sw_urlparse u0 in
  with_new t (http_exit t method (or_str (url_path u) (py "/")) (url_netloc u) Component.Urllib3)
    (fun l => send_traced l _request method (geturl u) headers).

(** sw_urllib3_v2.py: the caller's headers are copied. *)
Definition sw_urllib3_v2_request t (_request : option nat -> MW R) (method url : pystr)
  (headers : option nat) : MW R :=
  u0 ← lift (urlparse url);
  let u := sw_urlparse u0 in
  with_new t (http_exit t method (or_str (url_path u) (py "/")) (url_netloc u) Component.Urllib3) (fun l =>
    ca ← inject cfg l;
    _ ← mod_span l (set_layer Layer.Http);
    m ← gets (fun w => match headers with Some d => w_dicts w !!! d | None => [] end);
    d ← new_dict m;
    _ ← each_item (set_key d) ca;
    _ ← tag l (TagHttpMethod (upper method));
    _ ← tag l (TagHttpURL (geturl u));
    res ← _request (Some d);
    _ ← tag_status l (status res);
    mret res).

(** sw_urllib_request.py: [full_url] is read after the call, which may change it; the
    [Request] stores header names capitalized. *)
Definition sw_urllib_open t (_open : nat -> MW R) (full_url : MW pystr) (selector : pystr)
  (rq_method data : option pystr) (host : pystr) (rq_headers : nat) : MW R :=
  let url := match selector with [] => py "/" | _ => before 63 selector end in
  let method := match rq_method with
                | Some (x :: m) => x :: m
                | _ => match data with None => py "GET" | Some _ => py "POST" end
                end in
  with_new t (http_exit t method url host Component.General) (fun l =>
    ca ← inject cfg l;
    _ ← mod_span l (set_layer Layer.Http);
    _ ← each_item (fun k v => set_key rq_headers (capitalize k) v) ca;
    let record (code : option Z) : MW unit :=
      _ ← tag l (TagHttpMethod method);
      u ← full_url;
      _ ← tag l (TagHttpURL u);
      match code with Some n => tag_status l n | None => mret tt end in
    res ← try_except (_open rq_headers) (fun e => _ ← record (http_error_code e); raise e);
    _ ← record (Some (status res));
    mret res).

(** sw_httpx.py, [Client.send] *)
Definition sw_httpx_send t (_send : nat -> MW R)
  (method url_str path netloc username password : pystr) (rq_headers : nat) : MW R :=
  with_new t (http_exit t method (or_str path (py "/")) netloc Component.HTTPX) (fun l =>
    ca ← inject cfg l;
    _ ← mod_span l (set_layer Layer.Http);
    m ← gets (fun w => w_dicts w !!! rq_headers);
    d ← (match m with [] => new_dict [] | _ => mret rq_headers end);
    _ ← each_item (set_key d) ca;
    _ ← tag l (TagHttpMethod (upper method));
    _ ← tag l (TagHttpURL (remove_all password (remove_all username url_str)));
    res ← _send d;
    _ ← tag_status l (status res);
    mret res).

(** [AsyncClient.send] runs the same statements. *)
Definition sw_httpx_async_send t := sw_httpx_send t.

(** The headers argument of an aiohttp request. *)
Inductive aio_headers :=
| HNone
| HMultiDict (d : nat)
| HMultiDictProxy (d : nat)
| HOther (m : list (pystr * pystr)).

Definition add_key d (k v : pystr) : MW unit := modify (upd_dicts (alter (fun m => m ++ [(k, v)]) d)).

(** [f'{x}'] of a value that may be [None] *)
Definition str_opt (x : option pystr) : pystr := match x with Some s => s | None => py "None" end.
Definition or_empty (x : option pystr) : pystr := match x with Some s => s | None => [] end.

(** sw_aiohttp.py, [ClientSession._request]: a [MultiDictProxy] has no [add]. *)
Definition sw_aiohttp_request t (_request : option aio_headers -> MW R) (method : pystr)
  (host port : option pystr) (path url_str : pystr) (headers : option aio_headers) : MW R :=
  if self_request (host_port (str_opt host) (str_opt port)) then _request headers
  else
  with_new t (http_exit t method (or_str path (py "/")) (host_port (or_empty host) (or_empty port))
                Component.AioHttp) (fun l =>
    _ ← mod_span l (set_layer Layer.Http);
    _ ← tag l (TagHttpMethod (upper method));
    _ ← tag l (TagHttpURL url_str);
    ca ← inject cfg l;
    hd ← (match headers with
          | None | Some HNone => d ← new_dict []; mret (HMultiDict d)
          | Some (HOther m) => d ← new_dict m; mret (HMultiDict d)
          | Some h => mret h
          end);
    _ ← each_item (fun k v => match hd with
                              | HMultiDict d => add_key d k v
                              | _ => raise AttributeError
                              end) ca;
    res ← _request (Some hd);
    _ ← tag_status l (status res);
    mret res).

(** sw_websockets.py: the outcome of the handshake. *)
Definition ws_handshake l (_handshake : MW unit) : MW unit :=
  msg ← try_except (_ ← _handshake; mret (py "connection open")) (fun e =>
          _ ← (if is_Exception e then
                 _ ← set_error l;
                 _ ← log import_time str_of_exn l e;
                 tag l (TagHttpStatusMsg (py "invalid handshake"))
               else tag l (TagHttpStatusMsg (py "connection open")));
          raise e);
  tag l (TagHttpStatusMsg msg).

Definition ws_span {A} t (host port path : pystr) (secure : bool) (_handshake : Carrier -> MW A)
  (finish : nat -> A -> MW unit) : MW unit :=
  with_new t (open_exit cfg uuid1 t (or_str path (py "/")) (host_port host port) Component.Websockets) (fun l =>
    ca ← inject cfg l;
    _ ← mod_span l (set_layer Layer.Http);
    a ← _handshake ca;
    _ ← tag l (TagHttpMethod (py "websocket.connect"));
    _ ← tag l (TagHttpURL ((if secure then py "wss" else py "ws") ++ py "://" ++ host_port host port ++ path));
    finish l a).

Definition truthy (m : list (pystr * pystr)) : bool := match m with [] => false | _ => true end.

(** [WebSocketClientProtocol.handshake]: the headers object is the connection's own. *)
Definition sw_ws_legacy_handshake t (_handshake : option nat -> MW unit) (host port path : pystr)
  (secure : bool) (self_extra extra : option nat) : MW unit :=
  ws_span t host port path secure (fun ca =>
    both ← gets (fun w => negb (match extra with Some d => truthy (w_dicts w !!! d) | None => false end) &&
                          negb (match self_extra with Some d => truthy (w_dicts w !!! d) | None => false end));
    hd ← (if both : bool then d ← new_dict []; mret (Some d) else mret self_extra);
    _ ← each_item (fun k v => match hd with Some d => set_key d k v | None => raise TypeError end) ca;
    mret hd) (fun l hd => ws_handshake l (_handshake hd)).

(** [ClientConnection.handshake]: a copy of the headers is passed on. *)
Definition sw_ws_handshake t (_handshake : nat -> MW unit) (host port path : pystr)
  (secure : bool) (headers : option nat) : MW unit :=
  ws_span t host port path secure (fun ca =>
    m ← gets (fun w => match headers with Some d => w_dicts w !!! d | None => [] end);
    d ← new_dict m;
    _ ← each_item (set_key d) ca;
    mret d) (fun l d => ws_handshake l (_handshake d)).

(** ** Servers

    [get] looks a header up in the request.  A handler is a program that returns a
    response. *)

(** [if item.key.capitalize() in headers: item.val = headers[item.key.capitalize()]] *)
Definition by_capitalized (get : pystr -> option pystr) : pystr -> option pystr :=
  fun k => get (capitalize k).

(** The attributes every server wrapper sets first. *)
Definition describe l (component : Component.t) (peer : option pystr) (method url : pystr) : MW unit :=
  _ ← mod_span l (set_layer Layer.Http);
  _ ← mod_span l (set_component component);
  _ ← (match peer with Some p => mod_span l (set_peer (Some p)) | None => mret tt end);
  _ ← tag l (TagHttpMethod method);
  tag l (TagHttpURL url).

(** [if config... and params: span.tag(TagHttpParams(params_tostring(params)[0:threshold]))] *)
Definition tag_params l (enabled : bool) (params : list (pystr * list pystr)) : MW unit :=
  match params with
  | [] => mret tt
  | _ => if enabled
         then tag l (TagHttpParams (slice_to (plugin_http_http_params_length_threshold cfg)
                                      (params_tostring params)))
         else mret tt
  end.

(** sw_flask.py: the error flag before the status tag. *)
Definition sw_flask_dispatch t (_dispatch : MW R) (get : pystr -> option pystr)
  (method path url : pystr) (remote : option pystr) (values : list (pystr * list pystr)) : MW R :=
  ca ← read_carrier (by_capitalized get);
  with_new t (http_entry t method path ca (Some Component.General)) (fun l =>
    _ ← describe l Component.Flask remote method (before 63 url);
    _ ← tag_params l (plugin_flask_collect_http_params cfg) values;
    resp ← _dispatch;
    _ ← (if 400 <=? status resp then set_error l else mret tt);
    _ ← tag l (TagHttpStatusCode (str_of_int (status resp)));
    mret resp).

(** [_sw_handle_user_exception], [_sw_handle_exception] of Flask and the error handler of
    Sanic: the traceback goes to the active span unless it is a noop span. *)
Definition note_exception {A} t (guard_noop : bool) (e : option exn) (_handle : MW A) : MW A :=
  _ ← (match e with
       | None => mret tt
       | Some e =>
           active ← active_span cfg uuid1 t;
           match active with
           | None => mret tt
           | Some l =>
               s ← get_span l;
               match cls s with
               | ClsNoopSpan => if guard_noop then mret tt else raised l e
               | _ => raised l e
               end
           end
       end);
  _handle.
Definition sw_flask_handle_exception {A} t := @note_exception A t true.
Definition sw_sanic_error_response {A} t := @note_exception A t true.
Definition sw_tornado_log_exception {A} t := @note_exception A t false.
Definition sw_django_uncaught_exception {A} t := @note_exception A t false.

(** sw_bottle.py: the status is read from the thread's response object. *)
Definition sw_bottle_call {A} t (_app_call : MW A) (status_code : MW Z) (get : pystr -> option pystr)
  (method path url : pystr) (remote : option pystr) (query : list (pystr * list pystr)) : MW A :=
  ca ← read_carrier (by_capitalized get);
  with_new t (http_entry t method path ca (Some Component.General)) (fun l =>
    _ ← describe l Component.Bottle remote method (before 63 url);
    _ ← tag_params l (plugin_bottle_collect_http_params cfg) query;
    res ← _app_call;
    code ← status_code;
    _ ← tag_status l code;
    mret res).

(** sw_pyramid.py *)
Definition sw_pyramid_invoke t (_invoke : MW R) (get : pystr -> option pystr)
  (method path url : pystr) (remote_host remote_addr : option pystr) : MW R :=
  ca ← read_carrier get;
  with_new t (http_entry t method path ca None) (fun l =>
    _ ← mod_span l (set_layer Layer.Http);
    _ ← mod_span l (set_component Component.Pyramid);
    _ ← mod_span l (set_peer (match remote_host with Some (x :: h) => Some (x :: h) | _ => remote_addr end));
    _ ← tag l (TagHttpMethod method);
    _ ← tag l (TagHttpURL url);
    resp ← _invoke;
    _ ← tag_status l (status resp);
    mret resp).

(** sw_django.py: [HTTP_SW8] and so on in [request.META]; no request, no span. *)
Definition meta_key (k : pystr) : pystr :=
  py "HTTP_" ++ ((fun x => if x =? 45 then 95 else x) <$> upper k).
Definition sw_django_get_response t (_get_response : MW R) (has_request : bool)
  (meta : pystr -> option pystr) (method path uri : pystr) (params : list (pystr * list pystr)) : MW R :=
  if negb has_request then _get_response
  else
    ca ← read_carrier (fun k => meta (meta_key k));
    with_new t (http_entry t method path ca None) (fun l =>
      let remote_port := match meta (py "REMOTE_PORT") with Some (x :: p) => x :: p | _ => py "80" end in
      _ ← describe l Component.Django (Some (host_port (str_opt (meta (py "REMOTE_ADDR"))) remote_port))
            method (before 63 uri);
      _ ← tag_params l (plugin_django_collect_http_params cfg) params;
      resp ← _get_response;
      _ ← tag_status l (status resp);
      mret resp).

(** sw_falcon.py and sw_falcon_v3.py: the status line goes through [_start_response]. *)
Definition status_line (s : pystr) : Z * pystr :=
  let '(code, found, msg) := partition 32 s in
  match (if found : bool then int_of_str code else Raise ValueError) with
  | Ok n => (n, msg)
  | Raise _ => (500, py "Internal Server Error")
  end.
Definition sw_start_response l (start_response : pystr -> MW unit) (resp_status : pystr) : MW unit :=
  let (code, msg) := status_line resp_status in
  _ ← (if 400 <=? code then set_error l else mret tt);
  _ ← tag l (TagHttpStatusCode (str_of_int code));
  _ ← tag l (TagHttpStatusMsg msg);
  start_response resp_status.
Definition sw_falcon_call {A} t (_call : (pystr -> MW unit) -> MW A) (start_response : pystr -> MW unit)
  (get : pystr -> option pystr) (method path url : pystr) (remote_addr : option pystr)
  (params : list (pystr * pystr)) : MW A :=
  context ← get_context cfg uuid1 t;
  ca ← read_carrier (fun k => get (upper k));
  with_new t (if ignore_http_method_check cfg method then noop_span
              else new_entry_span cfg uuid1 t context path (Some ca) None) (fun l =>
    _ ← mod_span l (set_layer Layer.Http);
    _ ← mod_span l (set_component Component.Falcon);
    _ ← mod_span l (set_peer remote_addr);
    _ ← tag l (TagHttpMethod method);
    _ ← tag l (TagHttpURL url);
    _ ← (match params with
         | [] => mret tt
         | _ => tag l (TagHttpParams (join [44] ((fun kv => kv.1 ++ [61] ++ kv.2) <$> params)))
         end);
    try_except (_call (sw_start_response l start_response)) (fun e =>
      _ ← (if is_Exception e then raised l e else mret tt); raise e)).

(** sw_falcon_v3.py runs the same statements for [App.__call__]. *)
Definition sw_falcon_v3_call {A} t := @sw_falcon_call A t.

(** sw_sanic.py *)
Definition sw_sanic_handle_request t (_handle_request : MW R) (get : pystr -> option pystr)
  (method path url remote port : pystr) (args : list (pystr * list pystr)) : MW R :=
  ca ← read_carrier (by_capitalized get);
  with_new t (http_entry t method path ca None) (fun l =>
    _ ← describe l Component.Sanic (Some (host_port remote port)) method (before 63 url);
    _ ← tag_params l (plugin_sanic_collect_http_params cfg) args;
    _handle_request).
Definition sw_sanic_format_response {A} t (st : option Z) (_format : MW A) : MW A :=
  _ ← (match st with
       | None => mret tt
       | Some code =>
           active ← active_span cfg uuid1 t;
           match active with
           | None => mret tt
           | Some l =>
               s ← get_span l;
               match cls s with
               | ClsNoopSpan => mret tt
               | _ => _ ← (if 400 <=? code then set_error l else mret tt);
                      tag l (TagHttpStatusCode (str_of_int code))
               end
           end
       end);
  _format.

(** sw_tornado.py *)
Definition sw_tornado_execute {A} t (old_execute : MW A) (status_code : MW Z) (get : pystr -> option pystr)
  (method path protocol host : pystr) (socket : option pystr) : MW A :=
  ca ← read_carrier (by_capitalized get);
  with_new t (http_entry t method path ca None) (fun l =>
    _ ← describe l Component.Tornado socket method (protocol ++ py "://" ++ host ++ path);
    result ← old_execute;
    code ← status_code;
    _ ← tag_status l code;
    mret result).

(** The wrapper for a handler that is a generator runs the same statements. *)
Definition sw_tornado_execute_generator {A} t := @sw_tornado_execute A t.

(** sw_aiohttp.py, server: a request for the collector's address is answered with the
    handler function itself ([None] here) instead of its result. *)
Definition sw_aiohttp_handle t (_handle_request : MW R) (get : pystr -> option pystr)
  (method path : pystr) (host port : option pystr) (peer : pystr) (url : res pystr) (fallback : pystr)
  : MW (option R) :=
  if self_request (host_port (str_opt host) (str_opt port)) then mret None
  else
    ca ← read_carrier get;
    with_new t (http_entry t method path ca None) (fun l =>
      _ ← mod_span l (set_layer Layer.Http);
      _ ← mod_span l (set_component Component.AioHttp);
      _ ← mod_span l (set_peer (Some peer));
      _ ← tag l (TagHttpMethod method);
      _ ← try_except (u ← lift url; tag l (TagHttpURL u)) (fun e =>
            if decide (e = ValueError) then tag l (TagHttpURL fallback) else raise e);
      resp ← _handle_request;
      _ ← tag_status l (status resp);
      mret (Some resp)).

(** sw_fastapi.py: the status is what the messages that went through [wrapped_send] say
    when the application ends, 500 without any. *)
Inductive asgi_message := ResponseStart (status : Z) | WebsocketAccept | WebsocketClose | OtherMessage.
Definition sent_status (msgs : list asgi_message) : Z :=
  foldl (fun code m => match m with
                       | ResponseStart s => s
                       | WebsocketAccept | WebsocketClose => 200
                       | OtherMessage => code
                       end) 500 msgs.
Definition sw_fastapi_create_span t (app : MW unit) (sent : MW (list asgi_message)) (get : pystr -> option pystr)
  (method path url : pystr) (client : option pystr) (params : list (pystr * list pystr)) : MW unit :=
  ca ← read_carrier (by_capitalized get);
  with_new t (http_entry t method path ca (Some Component.General)) (fun l =>
    _ ← describe l Component.FastAPI (Some (match client with Some p => p | None => py "unknown" end))
          method (before 63 url);
    _ ← tag_params l (plugin_fastapi_collect_http_params cfg) params;
    try_finally app (msgs ← sent; tag_status l (sent_status msgs))).

(** [ExceptionMiddleware.__call__] dispatches on the type of the scope. *)
Inductive scope_type := ScopeWebsocket | ScopeHttp (method : pystr) | ScopeOther.
Definition sw_fast_api t (scope : scope_type) (app : MW unit) sent get path url client params : MW unit :=
  match scope with
  | ScopeWebsocket => sw_fastapi_create_span t app sent get (py "websocket.accept") path url client params
  | ScopeHttp method => sw_fastapi_create_span t app sent get method path url client params
  | ScopeOther => app
  end.

(** sw_http_server.py, [_sw_do_method] *)
Definition sw_http_do_method {A} t (_do_method : MW A) (status_code : MW Z) (get : pystr -> option pystr)
  (method path0 client_host client_port : pystr) : MW A :=
  let path := or_str path0 (py "/") in
  ca ← read_carrier (by_capitalized get);
  with_new t (http_entry t method (before 63 path) ca None) (fun l =>
    let url := match get (py "Host") with Some h => py "http://" ++ h ++ path | None => path end in
    _ ← describe l Component.General (Some (host_port client_host client_port)) method url;
    try_finally _do_method (
      code ← status_code;
      if -1 <? code then tag_status l code else mret tt)).

(** [_wrap_run_wsgi] for werkzeug runs the same statements and returns the result. *)
Definition sw_http_run_wsgi {A} t := @sw_http_do_method A t.

(** ** Calm wrappers *)

Section calm_http.
Context (t : nat).

Lemma calm_send_traced l _request method url headers :
  (∀ h, calm t (_request h)) -> calm t (send_traced l _request method url headers).
Proof. unfold send_traced. calm. Qed.

Lemma calm_ws_handshake l h : calm t h -> calm t (ws_handshake l h).
Proof. unfold ws_handshake. calm. Qed.

Lemma calm_ws_span {A} host port path secure (hs : Carrier -> MW A) finish :
  (∀ ca, calm t (hs ca)) -> (∀ l a, calm t (finish l a)) ->
  calm t (ws_span t host port path secure hs finish).
Proof. intros Hh Hf. unfold ws_span. apply calm_with_new; [auto with calm|]. calm. Qed.

Lemma calm_each_put put ca : (∀ k v, calm t (put k v)) -> calm t (each_item (AG := AG) (PS := PS) put ca).
Proof. apply calm_each_item. Qed.

Lemma calm_add_key d k v : calm t (add_key d k v).
Proof. apply calm_dicts. Qed.

Lemma calm_describe l co peer method url : calm t (describe l co peer method url).
Proof. unfold describe. calm. Qed.

Lemma calm_tag_params l b params : calm t (tag_params l b params).
Proof. unfold tag_params. calm. Qed.

Lemma calm_start_response l sr st : (∀ s, calm t (sr s)) -> calm t (sw_start_response l sr st).
Proof. intros H. unfold sw_start_response. destruct (status_line st). calm. Qed.

Local Hint Resolve calm_send_traced calm_ws_handshake calm_add_key calm_describe calm_tag_params
  calm_start_response : calm.
Local Hint Extern 2 (calm _ (each_item _ _)) => apply calm_each_put; calm : calm.

(** Open, then walk through the body. *)
Ltac calm_wrapper := calm; apply calm_with_new; [auto with calm | calm].

(** However an HTTP client call ends, with a response, an exception of the library or
    one of the wrapper's own, the instrumentation of requests, urllib3 1 and 2, urllib,
    httpx, aiohttp and websockets leaves every span running or stopped as it was and every
    list of active spans unchanged, provided the library's own function does. *)
Theorem http_clients_balanced (req : option nat -> MW R) (open : nat -> MW R)
  (aio : option aio_headers -> MW R) (legacy : option nat -> MW unit) (ws : nat -> MW unit)
  (full_url : MW pystr) :
  (∀ h, calm t (req h)) -> (∀ d, calm t (open d)) -> (∀ h, calm t (aio h)) ->
  (∀ h, calm t (legacy h)) -> (∀ d, calm t (ws d)) -> calm t full_url ->
  (∀ m u h, calm t (sw_requests_request t req m u h)) ∧
  (∀ m u h, calm t (sw_urllib3_request t req m u h)) ∧
  (∀ m u h, calm t (sw_urllib3_v2_request t req m u h)) ∧
  (∀ sel m data host d, calm t (sw_urllib_open t open full_url sel m data host d)) ∧
  (∀ m u p n us pw d, calm t (sw_httpx_send t open m u p n us pw d)) ∧
  (∀ m ho po p u h, calm t (sw_aiohttp_request t aio m ho po p u h)) ∧
  (∀ ho po p s se ex, calm t (sw_ws_legacy_handshake t legacy ho po p s se ex)) ∧
  (∀ ho po p s h, calm t (sw_ws_handshake t ws ho po p s h)).
Proof.
  intros Hreq Hopen Haio Hleg Hws Hurl.
  split_and!; intros.
  - unfold sw_requests_request. calm_wrapper.
  - unfold sw_urllib3_request. calm_wrapper.
  - unfold sw_urllib3_v2_request. calm_wrapper.
  - unfold sw_urllib_open. calm_wrapper.
  - unfold sw_httpx_send. calm_wrapper.
  - unfold sw_aiohttp_request. calm_wrapper.
  - unfold sw_ws_legacy_handshake. apply calm_ws_span; calm.
  - unfold sw_ws_handshake. apply calm_ws_span; calm.
Qed.

Lemma calm_note_exception {A} b e (h : MW A) : calm t h -> calm t (note_exception t b e h).
Proof. intros Hh. unfold note_exception, get_span. calm. Qed.

Lemma calm_falcon {A} (call : (pystr -> MW unit) -> MW A) sr get m p u r params :
  (∀ s, calm t (sr s)) -> (∀ cb, (∀ s, calm t (cb s)) -> calm t (call cb)) ->
  calm t (sw_falcon_call t call sr get m p u r params).
Proof.
  intros Hsr Hcall w Hw Hl. eapply spec_bind; [by apply spec_get_context|].
  intros c w1 Hw1 G1 Hu. pose proof (live_grow _ _ _ Hw G1 Hl) as Hl1.
  eapply spec_bind; [by apply (calm_read_carrier cfg t)|]. intros ca w2 Hw2 G2 _.
  apply spec_with_new; [done | by apply (live_grow w1) | |].
  - destruct (ignore_http_method_check cfg m); [by apply opens_noop|].
    apply spec_new_entry_span; [done | by eapply usable_grow].
  - intros l. calm.
Qed.


End calm_http.
End http.
