(* ===== verification/PluginHop.v ===== *)
(** * From an instrumented client to an instrumented server

    What a client wrapper puts into the headers object is what a server wrapper reads
    from the request: trace, segment, span and correlation data arrive unchanged. *)

From S2P Require Import Prelude PyData PyText Codec Carrier Config Filter Sampling.
From S2P Require Import TraceData Trace TraceInv TraceSpec TraceProps TracePropagation PluginBase PluginHttp.
From S2P Require Import Agent Profile Scenarios.

Section client.
Context {AG PS : Type} `{!AgentOps AG} `{!ProfileOps PS}.
Context (cfg : Config) (uuid1 : nat -> pystr) (import_time : Z) (format_exc : exn -> Z -> pystr).
Context (urlparse : pystr -> res ParseResult) (geturl : ParseResult -> pystr).
Context {R : Type} (status : R -> Z).
Abbreviation W := (World AG PS).
Abbreviation MW := (M W).
Implicit Types (w : W) (t l c d : nat).

(** A tag that replaces its predecessor cannot fail, and only changes the span. *)
Lemma tag_ok w l tg :
  tag_overridable tg = true -> ∃ w', tag l tg w = (w', Ok tt) ∧ w_dicts w' = w_dicts w.
Proof. intros H. unfold tag, get_span, add_tag. unfold_m. rewrite H. by eexists. Qed.

Lemma tag_status_ok w l code : ∃ w', tag_status l code w = (w', Ok tt).
Proof.
  unfold tag_status. destruct (tag_ok w l (TagHttpStatusCode (str_of_int code)) eq_refl) as (w' & E & _).
  rewrite (bind_ok _ _ _ _ _ E). destruct (_ <=? _); by eexists.
Qed.

(** The header loop on a dict object. *)
Lemma each_item_dict w d ca cv v :
  correlation_val (w_dicts w !!! correlation ca) = Ok cv -> carrier_val ca = Ok v ->
  ∃ w', each_item (set_key d) ca w = (w', Ok tt) ∧
    w_dicts w' = alter (Dict.set (py "sw8") v) d (alter (Dict.set (py "sw8-correlation") cv) d (w_dicts w)).
Proof.
  intros Hc Hv. unfold each_item, set_key. unfold_m. rewrite Hc. unfold_m. rewrite Hv. by eexists.
Qed.

(** The headers object to fill: the caller's, or a new one. *)
Definition given_headers w (h : option nat) : list (pystr * pystr) :=
  match h with Some d => w_dicts w !!! d | None => [] end.

Lemma inject_headers_runs w h ca cv v :
  correlation_val (w_dicts w !!! correlation ca) = Ok cv -> carrier_val ca = Ok v ->
  w_next w ≠ correlation ca -> match h with Some d => is_Some (w_dicts w !! d) | None => True end ->
  ∃ d w', inject_headers h ca w = (w', Ok d) ∧
    w_dicts w' !!! d = Dict.set (py "sw8") v (Dict.set (py "sw8-correlation") cv (given_headers w h)).
Proof.
  intros Hc Hv Hne Hh. unfold inject_headers.
  assert (∃ d w0, (match h with Some d => mret d | None => new_dict [] end : MW nat) w = (w0, Ok d) ∧
    w_dicts w0 !! d = Some (given_headers w h) ∧
    w_dicts w0 !!! correlation ca = w_dicts w !!! correlation ca) as (d & w0 & E0 & Hd & Hk).
  { destruct h as [d|].
    - exists d, w. split_and!; [done| |done]. destruct Hh as [m Hm]. cbn.
      by rewrite (lookup_total_correct _ _ _ Hm).
    - eexists _, _. split; [reflexivity|]. cbn. rewrite lookup_insert_eq.
      by rewrite lookup_total_insert_ne. }
  rewrite (bind_ok _ _ _ _ _ E0). rewrite <- Hk in Hc.
  destruct (each_item_dict w0 d ca cv v Hc Hv) as (w1 & E1 & Hd1). rewrite (bind_ok _ _ _ _ _ E1).
  exists d, w1. split; [done|]. rewrite Hd1. apply lookup_total_correct.
  by rewrite !lookup_alter_eq, Hd.
Qed.

(** The traced send: the original is called once, with the headers filled, and its outcome
    is the outcome. *)
Lemma send_traced_calls w l req method url h ca cv v :
  inject cfg l w = (w, Ok ca) ->
  correlation_val (w_dicts w !!! correlation ca) = Ok cv -> carrier_val ca = Ok v ->
  w_next w ≠ correlation ca -> match h with Some d => is_Some (w_dicts w !! d) | None => True end ->
  ∃ d w2, (send_traced cfg status l req method url h w).2 = (req (Some d) w2).2 ∧
    w_dicts w2 !!! d = Dict.set (py "sw8") v (Dict.set (py "sw8-correlation") cv (given_headers w h)).
Proof.
  intros Hinj Hc Hv Hne Hh. unfold send_traced. rewrite (bind_ok _ _ _ _ _ Hinj).
  erewrite bind_ok by reflexivity. set (w0 := upd_spans _ w).
  destruct (inject_headers_runs w0 h ca cv v Hc Hv Hne Hh) as (d & w1 & E1 & Hd1).
  rewrite (bind_ok _ _ _ _ _ E1).
  destruct (tag_ok w1 l (TagHttpMethod (upper method)) eq_refl) as (w2 & E2 & Hd2).
  rewrite (bind_ok _ _ _ _ _ E2).
  destruct (tag_ok w2 l (TagHttpURL url) eq_refl) as (w3 & E3 & Hd3). rewrite (bind_ok _ _ _ _ _ E3).
  exists d, w3. split; [|by rewrite Hd3, Hd2].
  destruct (req (Some d) w3) as [w4 [r|e]] eqn:Er.
  - rewrite (bind_ok _ _ _ _ _ Er). destruct (tag_status_ok w4 l (status r)) as (w5 & E5).
    by rewrite (bind_ok _ _ _ _ _ E5).
  - by rewrite (bind_raise _ _ _ _ _ Er).
Qed.
End client.

(** ** Reading the headers *)

Section server.
Context {AG PS : Type} `{!AgentOps AG} `{!ProfileOps PS}.
Context (cfg : Config).
Implicit Types (w : World AG PS).

Lemma read_carrier_runs w get ca v m cv :
  get (py "sw8") = Some v -> get (py "sw8-correlation") = Some cv ->
  carrier_val ca = Ok v -> 45 ∉ span_id ca ->
  correlation_val m = Ok cv -> Dict.wf m -> 0 <= correlation_element_max_number cfg ->
  ∃ w' ca', read_carrier cfg get w = (w', Ok ca') ∧ same_fields ca ca' ∧ raw_val ca' = Some v ∧
    w_dicts w' !!! correlation ca' = take (Z.to_nat (correlation_element_max_number cfg + 1)) m.
Proof.
  intros Hg Hgc Hv Hd Hc Hm Hn. unfold read_carrier, new_Carrier, new_dict. rewrite Hg, Hgc. unfold_m.
  cbn [correlation empty_carrier upd_dicts w_dicts]. rewrite lookup_total_insert_eq.
  rewrite (set_correlation_roundtrip _ m cv Hm Hn Hc). unfold_m.
  destruct (set_carrier_val_roundtrip ca v (empty_carrier (w_next w)) Hv Hd) as (ca' & E & Hs & Hr & Hk).
  cbn [set_sw8_item]. rewrite E. eexists _, ca'. split; [reflexivity|]. split_and!; [done..|].
  rewrite Hk. cbn. by rewrite lookup_total_insert_eq.
Qed.
End server.

(** ** One hop *)

Section hop.
Context {AG PS AGs PSs : Type} `{!AgentOps AG} `{!ProfileOps PS} `{!AgentOps AGs} `{!ProfileOps PSs}.
Context (cfg cfgS : Config) (uuid1 : nat -> pystr) (import_time : Z) (format_exc : exn -> Z -> pystr).
Context (urlparse : pystr -> res ParseResult) (geturl : ParseResult -> pystr).
Context {R : Type} (status : R -> Z).
Implicit Types (w : World AG PS) (t l c d : nat).

(** What the server reads of the carrier that an exit span gave, however the headers got
    there. *)
Lemma exit_carrier_read w1 l s x tid rest addr ca cv v (ws : World AGs PSs) get :
  w_spans w1 !! l = Some s -> cls s = ClsExitSpan -> w_ctxs w1 !! context s = Some x ->
  related_traces (segment x) = tid :: rest -> 0 <= sid s -> peer s = Some addr ->
  (inject cfg l w1).2 = Ok ca -> carrier_val ca = Ok v ->
  correlation_val (w_dicts w1 !!! ctx_correlation x) = Ok cv ->
  Dict.wf (w_dicts w1 !!! ctx_correlation x) -> 0 <= correlation_element_max_number cfgS ->
  get (py "sw8") = Some v -> get (py "sw8-correlation") = Some cv ->
  ∃ ws' ca', read_carrier cfgS get ws = (ws', Ok ca') ∧
    segment_ref ca' = Ok (mkRef CrossProcess (id_value tid) (id_value (seg_id (segment x))) (sid s)
      (agent_name cfg) (agent_instance_name cfg) (Some (op s)) (Some addr)) ∧
    w_dicts ws' !!! correlation ca' =
      take (Z.to_nat (correlation_element_max_number cfgS + 1)) (w_dicts w1 !!! ctx_correlation x).
Proof using Type.
  intros Hs Hcls Hx Hrel Hsid Hp Hinj Hv Hc Hwf Hn Hget Hgetc.
  rewrite (inject_exit cfg w1 l s x tid rest Hs Hcls Hx Hrel) in Hinj. apply Ok_inj in Hinj.
  destruct (read_carrier_runs cfgS ws get ca v (w_dicts w1 !!! ctx_correlation x) cv)
    as (ws' & ca' & E & Hsame & _ & Hcor); try done.
  - subst ca. cbn. intros Hin%str_of_nat_digits; [|done]. unfold is_ascii_digit in Hin. lia.
  - exists ws', ca'. split_and!; try done. rewrite (segment_ref_same _ _ Hsame). subst ca.
    unfold segment_ref. cbn. rewrite int_of_str_of_int. cbn. by rewrite Hp.
Qed.

(** C8. A call of requests under an exit span calls [Session.request] once, with the
    caller's headers unchanged except for the two propagation headers, and its response or
    exception is what the caller gets.  A server that is given these headers reads back a
    carrier that refers to exactly the calling trace, segment, span, service, endpoint and
    peer, and the correlation data up to the server's limit. *)
Theorem request_crosses_http w t req method url h u0 w0 l w1 s x tid rest addr ca cv v :
  let u := sw_urlparse u0 in
  wf w -> live w t -> (∀ h, calm t (req h)) ->
  urlparse url = Ok u0 -> self_request cfg (url_netloc u) = false ->
  http_exit cfg uuid1 t method (or_str (url_path u) (py "/")) (url_netloc u) Component.Requests w = (w0, Ok l) ->
  start t l w0 = (w1, Ok tt) ->
  w_spans w1 !! l = Some s -> cls s = ClsExitSpan -> w_ctxs w1 !! context s = Some x ->
  related_traces (segment x) = tid :: rest -> 0 <= sid s -> peer s = Some addr ->
  (inject cfg l w1).2 = Ok ca -> carrier_val ca = Ok v ->
  correlation_val (w_dicts w1 !!! ctx_correlation x) = Ok cv ->
  Dict.wf (w_dicts w1 !!! ctx_correlation x) -> w_next w1 ≠ ctx_correlation x ->
  match h with Some d => is_Some (w_dicts w1 !! d) | None => True end ->
  0 <= correlation_element_max_number cfgS ->
  ∃ d w2,
    (sw_requests_request cfg uuid1 import_time format_exc urlparse geturl status t req method url h w).2 =
      (req (Some d) w2).2 ∧
    (∀ k, k ≠ py "sw8" -> k ≠ py "sw8-correlation" ->
       Dict.get k (w_dicts w2 !!! d) = Dict.get k (given_headers w1 h)) ∧
    ∀ (ws : World AGs PSs) get,
      get (py "Sw8") = Dict.get (py "sw8") (w_dicts w2 !!! d) ->
      get (py "Sw8-correlation") = Dict.get (py "sw8-correlation") (w_dicts w2 !!! d) ->
      ∃ ws' ca', read_carrier cfgS (by_capitalized get) ws = (ws', Ok ca') ∧
        segment_ref ca' = Ok (mkRef CrossProcess (id_value tid) (id_value (seg_id (segment x))) (sid s)
          (agent_name cfg) (agent_instance_name cfg) (Some (op s)) (Some addr)) ∧
        w_dicts ws' !!! correlation ca' =
          take (Z.to_nat (correlation_element_max_number cfgS + 1)) (w_dicts w1 !!! ctx_correlation x).
Proof.
  intros u Hw Hl Hreq Hu Hself Hopen Hstart Hs Hcls Hx Hrel Hsid Hp Hinj Hv Hc Hwf Hne Hh Hn.
  pose proof (inject_exit cfg w1 l s x tid rest Hs Hcls Hx Hrel) as Ei.
  pose proof Hinj as Hca. rewrite Ei in Hca. apply Ok_inj in Hca.
  destruct (send_traced_calls cfg status w1 l req method (geturl u) h ca cv v) as (d & w2 & E2 & Hd2);
    [by rewrite <- Hca|by rewrite <- Hca|done|by rewrite <- Hca|done|].
  exists d, w2. split_and!.
  - unfold sw_requests_request. rewrite Hu. erewrite bind_ok by reflexivity. cbv zeta. fold u. rewrite Hself.
    pose proof (with_new_runs cfg import_time format_exc w t _ (fun l => send_traced cfg status l req method (geturl u) h)
      Hw Hl (opens_http_exit cfg uuid1 t method (or_str (url_path u) (py "/")) (url_netloc u) Component.Requests w Hw)
      (fun l => calm_send_traced cfg status t l req method (geturl u) h Hreq)) as H.
    rewrite Hopen in H. destruct H as (w1' & w4 & E1 & _ & _ & _ & _ & ->).
    rewrite Hstart in E1. injection E1 as <-. by rewrite E2.
  - intros k Hk Hkc. rewrite Hd2, !Dict.get_set_ne by done. done.
  - intros ws get Hget Hgetc. eapply exit_carrier_read; try done.
    + change (get (py "Sw8") = Some v). by rewrite Hget, Hd2, Dict.get_set_eq.
    + change (get (py "Sw8-correlation") = Some cv). by rewrite Hgetc, Hd2, Dict.get_set_ne, Dict.get_set_eq.
Qed.
End hop.

(** ** A run *)

#[local] Instance hop_profiler : ProfileOps Service := Profile_ops default_config.

(** A request being served, [http://user:pw@Api:8080/v1], and a transport that answers
    with the headers it was given. *)
Definition serving_world : DW := run [OpenEntry 1 (py "/in") None None; Start 1 3] demo_world.
Definition demo_urlparse (_ : pystr) : res ParseResult :=
  Ok (mkUrl (py "http") (py "user:pw@Api:8080") (py "/v1") [] [] []).
Definition echo_headers (h : option nat) : M DW (list (pystr * pystr)) :=
  gets (fun w => given_headers w h).
Definition demo_request : M DW (list (pystr * pystr)) :=
  sw_requests_request default_config demo_uuid 0 demo_format demo_urlparse url_netloc (fun _ => 200) 1
    echo_headers (py "get") (py "http://user:pw@Api:8080/v1") None.

Lemma serving_reachable : demo_reachable serving_world.
Proof. apply run_demo. vm_compute. reflexivity. Qed.

Lemma serving_usable : wf serving_world ∧ live serving_world 1.
Proof.
  split; [eapply reachable_wf, serving_reachable|]. apply live_spans. vm_compute. repeat constructor.
Qed.

Lemma echo_calm t h : calm t (echo_headers h).
Proof. apply calm_gets. Qed.

Definition demo_exit_world : DW * nat :=
  match http_exit default_config demo_uuid 1 (py "get") (py "/v1") (py "api:8080") Component.Requests
          serving_world with
  | (w, Ok l) => (w, l)
  | (w, Raise _) => (w, 0%nat)
  end.
Definition demo_call_world : DW := (start 1 demo_exit_world.2 demo_exit_world.1).1.

(** The transport delivers the two headers under their capitalized names. *)
Definition delivered (hd : list (pystr * pystr)) (k : pystr) : option pystr := Dict.get (lower k) hd.

Lemma request_crosses_http_witness :
  ∃ d w2, (demo_request serving_world).2 = (echo_headers (Some d) w2).2 ∧
    Dict.get (py "accept") (w_dicts w2 !!! d) = None ∧
    ∃ ws' ca', read_carrier default_config (by_capitalized (delivered (w_dicts w2 !!! d))) demo_world =
        (ws', Ok ca') ∧
      ∃ ref, segment_ref ca' = Ok ref ∧ ref_client_address ref = Some (py "api:8080") ∧ ref_span_id ref = 1.
Proof.
  destruct (request_crosses_http (AGs := Agent) (PSs := Service) default_config default_config demo_uuid 0
    demo_format demo_urlparse url_netloc
    (fun _ => 200) serving_world 1 echo_headers (py "get") (py "http://user:pw@Api:8080/v1") None
    (mkUrl (py "http") (py "user:pw@Api:8080") (py "/v1") [] [] []) demo_exit_world.1 demo_exit_world.2
    demo_call_world (w_spans demo_call_world !!! demo_exit_world.2)
    (w_ctxs demo_call_world !!! context (w_spans demo_call_world !!! demo_exit_world.2))
    (mkID NewID (py "id1")) [] (py "api:8080")
    (match (inject default_config demo_exit_world.2 demo_call_world).2 with Ok ca => ca | Raise _ => empty_carrier 0 end)
    []
    (match (inject default_config demo_exit_world.2 demo_call_world).2 with
     | Ok ca => match carrier_val ca with Ok v => v | Raise _ => [] end | Raise _ => [] end)
    ) as (d & w2 & E & Hk & Hs).
  4-11, 13-16: vm_compute; reflexivity.
  - eapply reachable_wf, serving_reachable.
  - apply live_spans. vm_compute. repeat constructor.
  - apply echo_calm.
  - vm_compute. discriminate.
  - vm_compute. constructor.
  - vm_compute. discriminate.
  - exact I.
  - vm_compute. discriminate.
  - exists d, w2. split; [exact E|]. split; [rewrite Hk by (vm_compute; discriminate); vm_compute; reflexivity|].
    destruct (Hs demo_world (delivered (w_dicts w2 !!! d)) eq_refl eq_refl) as (ws' & ca' & E' & Hr & _).
    exists ws', ca'. split; [exact E'|]. eexists. split; [exact Hr|]. split; vm_compute; reflexivity.
Defined.
