(* ===== verification/PluginDb.v ===== *)
(** * Database and cache plugins

    plugins/sw_redis.py, sw_aioredis.py, sw_pymysql.py, sw_mysqlclient.py, sw_psycopg2.py,
    sw_psycopg.py (execute, executemany), sw_asyncpg.py, sw_elasticsearch.py, sw_neo4j.py,
    sw_pymongo.py, sw_happybase.py.  The library's own call is a parameter; query texts and
    the texts of parameters ([str(v)]) are arguments. *)

From S2P Require Import Prelude PyData PyText Codec Carrier Config.
From S2P Require Import Filter Sampling TraceData Trace TraceInv TraceSpec TraceProps PluginBase PluginHttp.

(** ** Parameters in tags *)

Definition len (s : pystr) : Z := Z.of_nat (length s).

(** [f'{text[0:max_len]}...' if len(text) > max_len else text] *)
Definition clip (max_len : Z) (text : pystr) : pystr :=
  if max_len <? len text then slice_to max_len text ++ py "..." else text.

(** The loop of [executemany]: rows until the budget is used up, the last one cut. *)
Fixpoint clip_rows (max_len total_len : Z) (rows : list pystr) : list pystr :=
  match rows with
  | [] => []
  | text :: rows' =>
      let total_len := total_len + len text in
      if max_len <? total_len then [slice_to (max_len - total_len) text ++ py "..."]
      else text :: clip_rows max_len total_len rows'
  end.

Definition row_text (vars : list pystr) : pystr := py "[" ++ join [44] vars ++ py "]".

Definition one_row (max_len : Z) (vars : list pystr) : pystr :=
  py "[" ++ clip max_len (join [44] vars) ++ py "]".
Definition many_rows (max_len : Z) (vars_list : list (list pystr)) : pystr :=
  py "[" ++ join [44] (clip_rows max_len 0 (row_text <$> vars_list)) ++ py "]".

(** ** Values that are text or bytes *)

Inductive pyval := PStr (s : pystr) | PBytes (bs : list Z) | PNone.

(** [f'{x}'] *)
Definition format_val (repr_bytes : list Z -> pystr) (x : pyval) : pystr :=
  match x with PStr s => s | PBytes bs => repr_bytes bs | PNone => py "None" end.

(** [value.decode()] of bytes, other values as they are *)
Definition bytes2str (x : pyval) : res pyval :=
  match x with
  | PBytes bs => match utf8_decode bs with Some s => Ok (PStr s) | None => Raise ValueError end
  | _ => Ok x
  end.

(** ** Redis: which commands write and which read *)

Definition OPERATIONS_WRITE : list pystr := py <$> [
  "GETSET"; "SET"; "SETBIT"; "SETEX "; "SETNX "; "SETRANGE"; "STRLEN "; "MSET"; "MSETNX "; "PSETEX";
  "INCR "; "INCRBY "; "INCRBYFLOAT"; "DECR "; "DECRBY "; "APPEND "; "HMSET"; "HSET"; "HSETNX ";
  "HINCRBY"; "HINCRBYFLOAT"; "HDEL"; "RPOPLPUSH"; "RPUSH"; "RPUSHX"; "LPUSH"; "LPUSHX"; "LREM";
  "LTRIM"; "LSET"; "BRPOPLPUSH"; "LINSERT"; "SADD"; "SDIFF"; "SDIFFSTORE"; "SINTERSTORE"; "SISMEMBER";
  "SREM"; "SUNION"; "SUNIONSTORE"; "SINTER"; "ZADD"; "ZINCRBY"; "ZINTERSTORE"; "ZRANGE";
  "ZRANGEBYLEX"; "ZRANGEBYSCORE"; "ZRANK"; "ZREM"; "ZREMRANGEBYLEX"; "ZREMRANGEBYRANK";
  "ZREMRANGEBYSCORE"; "ZREVRANGE"; "ZREVRANGEBYSCORE"; "ZREVRANK"; "ZUNIONSTORE"; "XADD"; "XDEL";
  "DEL"; "XTRIM"]%string.
Definition OPERATIONS_READ : list pystr := py <$> [
  "GETRANGE"; "GETBIT "; "MGET"; "HVALS"; "HKEYS"; "HLEN"; "HEXISTS"; "HGET"; "HGETALL"; "HMGET";
  "BLPOP"; "BRPOP"; "LINDEX"; "LLEN"; "LPOP"; "LRANGE"; "RPOP"; "SCARD"; "SRANDMEMBER"; "SPOP";
  "SSCAN"; "SMOVE"; "ZLEXCOUNT"; "ZSCORE"; "ZSCAN"; "ZCARD"; "ZCOUNT"; "XGET"; "GET"; "XREAD"; "XLEN";
  "XRANGE"; "XREVRANGE"]%string.

Definition redis_op (cmd : pystr) : pystr :=
  if bool_decide (cmd ∈ OPERATIONS_WRITE) then py "write"
  else if bool_decide (cmd ∈ OPERATIONS_READ) then py "read" else [].

(** [cmd, key] of the arguments of [send_command] *)
Definition redis_args (args : list pystr) : pystr * pystr :=
  match args with [] => ([], []) | [cmd] => (cmd, []) | cmd :: key :: _ => (cmd, key) end.

Section db.
Context {AG PS : Type} `{!AgentOps AG} `{!ProfileOps PS}.
Context (cfg : Config) (uuid1 : nat -> pystr) (import_time : Z).
Context (format_exc : exn -> Z -> pystr).
(** [repr] of bytes, [json.dumps] of a mapping, [str] of a mapping. *)
Context (repr_bytes : list Z -> pystr) (dumps str_dict : list (pystr * pystr) -> pystr).
Abbreviation W := (World AG PS).
Abbreviation MW := (M W).
Abbreviation with_new := (PluginBase.with_new cfg import_time format_exc).
Abbreviation open_exit := (PluginBase.open_exit cfg uuid1).
Implicit Types (w : W) (t l c d : nat).

(** [with context.new_exit_span(op, peer, component) as span: span.layer = layer; body] *)
Definition exit_call {A} t (op peer : pystr) (co : Component.t) (ly : Layer.t) (body : nat -> MW A) : MW A :=
  with_new t (open_exit t op peer co) (fun l => _ ← mod_span l (set_layer ly); body l).

Definition tag_db l (type instance statement : pystr) : MW unit :=
  _ ← tag l (TagDbType type);
  _ ← tag l (TagDbInstance instance);
  tag l (TagDbStatement statement).

(** [if config.plugin_sql_parameters_max_length and vars is not None] *)
Definition tag_vars l (vars : option (list pystr)) : MW unit :=
  let max_len := plugin_sql_parameters_max_length cfg in
  match vars with
  | Some vs => if max_len =? 0 then mret tt else tag l (TagDbSqlParameters (one_row max_len vs))
  | None => mret tt
  end.

(** [... and args]: an empty list is not tagged either. *)
Definition tag_args l (args : option (list pystr)) : MW unit :=
  tag_vars l (match args with Some [] => None | _ => args end).

Definition tag_rows l (vars_list : list (list pystr)) : MW unit :=
  let max_len := plugin_sql_parameters_max_length cfg in
  if max_len =? 0 then mret tt else tag l (TagDbSqlParameters (many_rows max_len vars_list)).

(** sw_redis.py: the tags follow the command *)
Definition sw_redis_send {A} t (_send : MW A) (host port : pystr) (args : list pystr) : MW A :=
  let (cmd, key) := redis_args args in
  exit_call t (py "Redis/" ++ cmd) (host_port host port) Component.Redis Layer.Cache (fun l =>
    res ← _send;
    _ ← tag l (TagCacheType (py "Redis"));
    _ ← tag l (TagCacheKey key);
    _ ← tag l (TagCacheCmd cmd);
    _ ← tag l (TagCacheOp (redis_op cmd));
    mret res).

(** sw_aioredis.py *)
Definition sw_aioredis_execute {A} t (_execute : MW A) (host port db : option pystr) (op : pystr) : MW A :=
  let peer := host_port (match host with Some h => h | None => py "localhost" end)
                (match port with Some p => p | None => py "6379" end) in
  exit_call t (py "Redis/AIORedis/" ++ op) peer Component.AIORedis Layer.Cache (fun l =>
    _ ← tag_db l (py "Redis") (match db with Some s => s | None => py "0" end) op;
    _execute).

(** sw_pymysql.py: the tags follow the query *)
Definition sw_pymysql_execute {A} t (_execute : MW A) (host port query : pystr) (db : list Z)
  (args : option (list pystr)) : MW A :=
  exit_call t (py "Mysql/PyMsql/execute") (host_port host port) Component.PyMysql Layer.Database (fun l =>
    res ← _execute;
    _ ← tag l (TagDbType (py "mysql"));
    name ← lift (match utf8_decode db with Some s => Ok s | None => Raise ValueError end);
    _ ← tag l (TagDbInstance name);
    _ ← tag l (TagDbStatement query);
    _ ← tag_args l args;
    mret res).

(** sw_mysqlclient.py: [_sw_connect] needs [host] and [db] or [database] by keyword; the
    connection is made before they are looked up. *)
Definition sw_mysqlclient_connect {A} (_connect : MW A) (kwargs : list (pystr * pystr))
  : MW (A * (pystr * pystr)) :=
  con ← _connect;
  host ← lift (match Dict.get (py "host") kwargs with Some h => Ok h | None => Raise KeyError end);
  db ← lift (match Dict.get (py "db") kwargs with
             | Some s => Ok s
             | None => match Dict.get (py "database") kwargs with Some s => Ok s | None => Raise KeyError end
             end);
  mret (con, (host, db)).

Definition sw_mysqlclient_execute {A} t (_execute : MW A) (host port db query : pystr)
  (args : option (list pystr)) : MW A :=
  exit_call t (py "Mysql/MysqlClient/execute") (host_port host port) Component.MysqlClient Layer.Database
    (fun l => _ ← tag_db l (py "mysql") db query; _ ← tag_args l args; _execute).

(** sw_psycopg.py, [execute] of the synchronous cursor *)
Definition sw_psycopg_execute {A} t (_execute : MW A) (host port dbname query : pystr)
  (vars : option (list pystr)) : MW A :=
  exit_call t (py "PostgreSQL/Psycopg/execute") (host_port host port) Component.Psycopg Layer.Database
    (fun l => _ ← tag_db l (py "PostgreSQL") dbname query; _ ← tag_vars l vars; _execute).

(** [executemany] *)
Definition sw_psycopg_executemany {A} t (_executemany : MW A) (host port dbname query : pystr)
  (vars_list : list (list pystr)) : MW A :=
  exit_call t (py "PostgreSQL/Psycopg/executemany") (host_port host port) Component.Psycopg Layer.Database
    (fun l => _ ← tag_db l (py "PostgreSQL") dbname query; _ ← tag_rows l vars_list; _executemany).

(** The cursor of psycopg2 and the asyncio cursor of psycopg run the same statements. *)
Definition sw_psycopg2_execute {A} t := @sw_psycopg_execute A t.
Definition sw_psycopg2_executemany {A} t := @sw_psycopg_executemany A t.
Definition sw_psycopg_async_execute {A} t := @sw_psycopg_execute A t.
Definition sw_psycopg_async_executemany {A} t := @sw_psycopg_executemany A t.

(** [stream] of psycopg, a generator over the rows of the cursor's own stream, consumed by
    the application; the asyncio one is the same. *)
Definition sw_psycopg_stream {A} t (rows : list (MW A)) (finish : MW unit) (consume : A -> MW bool)
  (host port dbname query : pystr) (vars : option (list pystr)) : MW unit :=
  generator_life (exit_call t (py "PostgreSQL/Psycopg/stream") (host_port host port) Component.Psycopg
    Layer.Database (fun l =>
      _ ← tag_db l (py "PostgreSQL") dbname query; _ ← tag_vars l vars; yield_from rows finish consume)).
Definition sw_psycopg_async_stream {A} t := @sw_psycopg_stream A t.

(** [callproc] of psycopg2 *)
Definition sw_psycopg2_callproc {A} t (_callproc : MW A) (host port dbname procname : pystr)
  (parameters : list pystr) : MW A :=
  exit_call t (py "PostgreSQL/Psycopg/callproc") (host_port host port) Component.Psycopg Layer.Database
    (fun l =>
      _ ← tag_db l (py "PostgreSQL") dbname (procname ++ py "(" ++ join [44] parameters ++ py ")");
      _callproc).

(** sw_asyncpg.py: [__bind] of one row of parameters, or of many *)
Definition sw_asyncpg_bind {A} t (future : MW A) (peer database : option pystr) (query : pystr)
  (params : option (list pystr + list (list pystr))) : MW A :=
  let known (x : option pystr) := match x with Some s => s | None => py "<unavailable>" end in
  exit_call t (py "PostgreSQL/AsyncPG/bind") (known peer) Component.AsyncPG Layer.Database (fun l =>
    _ ← tag_db l (py "PostgreSQL") (known database) query;
    _ ← (match params with
         | None => mret tt
         | Some (inl vs) => tag_vars l (Some vs)
         | Some (inr rows) => tag_rows l rows
         end);
    future).

(** sw_elasticsearch.py *)
Definition sw_elasticsearch_perform {A} t (_perform : MW A) (hosts : list (pystr * pystr))
  (method url : pystr) (body : option pystr) : MW A :=
  let peer := join [44] ((fun h => host_port h.1 h.2) <$> hosts) in
  exit_call t (py "Elasticsearch/" ++ method ++ url) peer Component.Elasticsearch Layer.Database (fun l =>
    res ← _perform;
    _ ← tag l (TagDbType (py "Elasticsearch"));
    _ ← (if plugin_elasticsearch_trace_dsl cfg
         then tag l (TagDbStatement (match body with Some b => b | None => [] end)) else mret tt);
    mret res).

(** sw_neo4j.py: [_archive_span] and the four [run] wrappers.  [parameters] has no default
    in three of them: leaving it out is a [TypeError]. *)
Definition neo4j_archive_span l (database : option pystr) (query : pystr)
  (parameters : option (list (pystr * pystr))) (kwargs : list (pystr * pystr)) : MW unit :=
  _ ← mod_span l (set_layer Layer.Database);
  _ ← tag_db l (py "Neo4j") (match database with Some s => s | None => [] end) query;
  let ps := Dict.update (match parameters with Some m => m | None => [] end) kwargs in
  let max_len := plugin_sql_parameters_max_length cfg in
  match ps with
  | [] => mret tt
  | _ => if max_len =? 0 then mret tt
         else tag l (TagDbSqlParameters (py "[" ++ clip max_len (dumps ps) ++ py "]"))
  end.
Definition neo4j_run {A} t (op : pystr) (_run : MW A) (host port : pystr) (database : option pystr)
  (query : pystr) (parameters : option (list (pystr * pystr))) (kwargs : list (pystr * pystr)) : MW A :=
  with_new t (open_exit t op (host_port host port) Component.Neo4j)
    (fun l => _ ← neo4j_archive_span l database query parameters kwargs; _run).

(** An argument that was not passed is [None]. *)
Definition sw_neo4j_session_run {A} t (_run : MW A) host port database query
  (parameters : option (option (list (pystr * pystr)))) kwargs : MW A :=
  match parameters with
  | None => raise TypeError
  | Some ps => neo4j_run t (py "Neo4j/Session/run") _run host port database query ps kwargs
  end.
Definition sw_neo4j_transaction_run {A} t (_run : MW A) host port database query
  (parameters : option (option (list (pystr * pystr)))) kwargs : MW A :=
  neo4j_run t (py "Neo4j/Transaction/run") _run host port database query
    (match parameters with Some ps => ps | None => None end) kwargs.

Definition sw_neo4j_async_session_run {A} t (_run : MW A) host port database query
  (parameters : option (option (list (pystr * pystr)))) kwargs : MW A :=
  match parameters with
  | None => raise TypeError
  | Some ps => neo4j_run t (py "Neo4j/AsyncSession/run") _run host port database query ps kwargs
  end.
Definition sw_neo4j_async_transaction_run {A} t (_run : MW A) host port database query
  (parameters : option (option (list (pystr * pystr)))) kwargs : MW A :=
  match parameters with
  | None => raise TypeError
  | Some ps => neo4j_run t (py "Neo4j/AsyncTransaction/run") _run host port database query ps kwargs
  end.

(** sw_pymongo.py: [SocketInfo.command]; [spec] is the command document. *)
Definition get_filter (request_type : pystr) (spec : list (pystr * pystr)) : pystr :=
  request_type ++ [32] ++ str_dict (Dict.pop request_type spec).
Definition tag_filters l (filters : pystr) : MW unit :=
  if plugin_pymongo_trace_parameters cfg
  then tag l (TagDbStatement (clip (plugin_pymongo_parameters_max_length cfg) filters)) else mret tt.
Definition sw_pymongo_command {A} t (_command : MW A) (peer dbname : pystr) (spec : list (pystr * pystr)) : MW A :=
  match Dict.get (py "ismaster") spec with
  | Some _ => _command
  | None =>
      operation ← head_or_raise (Dict.keys spec);
      with_new t (open_exit t (py "MongoDB/" ++ capitalize operation ++ py "Operation") peer Component.MongoDB)
        (fun l =>
          result ← _command;
          _ ← mod_span l (set_layer Layer.Database);
          _ ← tag l (TagDbType (py "MongoDB"));
          _ ← tag l (TagDbInstance dbname);
          _ ← tag_filters l (get_filter operation spec);
          mret result)
  end.

(** [_Bulk.execute]: the operations as [(kind, text)]. *)
Definition bulk_op (n : Z) : pystr :=
  if n =? 0 then py "insert" else if n =? 1 then py "update" else if n =? 2 then py "delete" else py "None".
Definition bulk_filters (ops : list (Z * pystr)) : pystr :=
  concat ((fun o => bulk_op o.1 ++ [32] ++ o.2 ++ [32]) <$> ops).
Definition sw_pymongo_bulk {A} t (_execute : MW A) (nodes : list (pystr * pystr)) (dbname : pystr)
  (ops : list (Z * pystr)) : MW A :=
  let peer := join [44] ((fun a => host_port a.1 a.2) <$> nodes) in
  exit_call t (py "MongoDB/MixedBulkWriteOperation") peer Component.MongoDB Layer.Database (fun l =>
    bulk_result ← _execute;
    _ ← tag l (TagDbType (py "MongoDB"));
    _ ← tag l (TagDbInstance dbname);
    _ ← tag_filters l (bulk_filters ops);
    mret bulk_result).

(** [Cursor.__send_message] *)
Definition sw_pymongo_find t (_send_message : MW unit) (nodes : list (pystr * pystr)) (dbname : pystr)
  (spec : list (pystr * pystr)) : MW unit :=
  let peer := join [44] ((fun a => host_port a.1 a.2) <$> nodes) in
  exit_call t (py "MongoDB/FindOperation") peer Component.MongoDB Layer.Database (fun l =>
    _ ← _send_message;
    _ ← tag l (TagDbType (py "MongoDB"));
    _ ← tag l (TagDbInstance dbname);
    tag_filters l (py "find " ++ str_dict spec)).

(** sw_happybase.py: row and table names may be bytes. *)
Definition sw_hbase_opt {A} t (fun_ : MW A) (host port : pystr) (name : pystr) (table row : pyval) : MW A :=
  table_name ← lift (bytes2str table);
  row ← lift (bytes2str row);
  let op := py "HBase/" ++ name ++ [47] ++ format_val repr_bytes table_name ++ [47] ++ format_val repr_bytes row in
  exit_call t op (host_port host port) Component.HBase Layer.Database (fun l =>
    _ ← tag l (TagDbType (py "HBase"));
    _ ← tag l (TagDbStatement []);
    fun_).
Definition sw_hbase_create_table t (_create : MW unit) (host port : pystr) (name : pyval) : MW unit :=
  exit_call t (py "HBase/create/" ++ format_val repr_bytes name) (host_port host port) Component.HBase
    Layer.Database (fun l =>
      _ ← tag l (TagDbType (py "HBase"));
      _ ← tag l (TagDbStatement []);
      _create).
(** The row [_sw_rows] shows: the first one of a list. *)
Definition first_row (rows : list pyval) : pyval := match rows with r :: _ => r | [] => PStr [] end.

(** ** Calm wrappers *)

Section calm_db.
Context (t : nat).

Lemma calm_exit_call {A} op peer co ly (body : nat -> MW A) :
  (∀ l, calm t (body l)) -> calm t (exit_call t op peer co ly body).
Proof. intros H. unfold exit_call. apply calm_with_new; [auto with calm | calm]. Qed.

Lemma calm_tag_db l a b s : calm t (tag_db l a b s).
Proof. unfold tag_db. calm. Qed.

Lemma calm_tag_vars l vs : calm t (tag_vars l vs).
Proof. unfold tag_vars. calm. Qed.

Lemma calm_tag_args l vs : calm t (tag_args l vs).
Proof. apply calm_tag_vars. Qed.

Lemma calm_tag_rows l rows : calm t (tag_rows l rows).
Proof. unfold tag_rows. calm. Qed.

Lemma calm_tag_filters l f : calm t (tag_filters l f).
Proof. unfold tag_filters. calm. Qed.

Local Hint Resolve calm_exit_call calm_tag_db calm_tag_vars calm_tag_args calm_tag_rows
  calm_tag_filters : calm.

Lemma calm_neo4j_archive l db q ps kw : calm t (neo4j_archive_span l db q ps kw).
Proof. unfold neo4j_archive_span. calm. Qed.

Lemma calm_neo4j_run {A} op (run : MW A) h po db q ps kw :
  calm t run -> calm t (neo4j_run t op run h po db q ps kw).
Proof.
  intros H. unfold neo4j_run. apply calm_with_new; [auto with calm|]. calm. apply calm_neo4j_archive.
Qed.

Local Hint Resolve calm_neo4j_run : calm.

Lemma calm_hbase_opt {A} (f : MW A) h p n tb r : calm t f -> calm t (sw_hbase_opt t f h p n tb r).
Proof. intros H. unfold sw_hbase_opt. calm. apply calm_exit_call. calm. Qed.

Lemma calm_asyncpg_bind {A} (f : MW A) p db q ps : calm t f -> calm t (sw_asyncpg_bind t f p db q ps).
Proof. intros H. unfold sw_asyncpg_bind. calm. apply calm_exit_call. calm. Qed.

Lemma calm_psycopg_execute {A} (f : MW A) h p db q vs :
  calm t f -> calm t (sw_psycopg_execute t f h p db q vs).
Proof. intros H. unfold sw_psycopg_execute. apply calm_exit_call. calm. Qed.

Lemma calm_mysqlclient_execute {A} (f : MW A) h p db q args :
  calm t f -> calm t (sw_mysqlclient_execute t f h p db q args).
Proof. intros H. unfold sw_mysqlclient_execute. apply calm_exit_call. calm. Qed.

End calm_db.
End db.

(** ** Parameters stay within the configured length *)

Lemma slice_to_nonneg n s : 0 <= n -> slice_to n s = take (Z.to_nat n) s.
Proof. intros H. unfold slice_to. by rewrite (proj2 (Z.ltb_ge n 0)) by lia. Qed.

Lemma clip_rows_spec max_len total rows :
  total <= max_len ->
  let rest := Z.to_nat (max_len - total) in
  if decide (len (concat rows) <= max_len - total) then clip_rows max_len total rows = rows
  else ∃ pre last, clip_rows max_len total rows = pre ++ [last ++ py "..."] ∧
         concat (pre ++ [last]) = take rest (concat rows).
Proof.
  revert total. induction rows as [|r rows IH]; intros total Ht; cbn [concat clip_rows].
  { rewrite decide_True; [done|]. unfold len. cbn. lia. }
  set (total' := total + len r). assert (len (r ++ concat rows) = len r + len (concat rows)) as E.
  { unfold len. rewrite length_app. lia. }
  cbv zeta. rewrite E. destruct (Z.ltb_spec max_len total') as [Hlt|Hge].
  - rewrite decide_False by (unfold total', len in *; lia).
    exists [], (slice_to (max_len - total') r). split; [done|]. cbn. rewrite app_nil_r.
    unfold slice_to. rewrite (proj2 (Z.ltb_lt _ 0)) by lia.
    replace (Z.of_nat (length r) + (max_len - total')) with (max_len - total) by (unfold total', len; lia).
    rewrite take_app_le; [done|]. unfold total', len in *. lia.
  - specialize (IH total' Hge). cbv zeta in IH. destruct (decide (len (concat rows) <= max_len - total')).
    + rewrite decide_True by (unfold total' in *; lia). by rewrite IH.
    + rewrite decide_False by (unfold total' in *; lia). destruct IH as (pre & last & -> & Hc).
      exists (r :: pre), last. split; [done|]. cbn. rewrite Hc, take_app_ge by (unfold total', len in *; lia).
      do 2 f_equal. unfold total', len. lia.
Qed.

(** With a limit on SQL parameters, what the parameter tag shows of the rows of an
    [execute] or [executemany] is all of them when they fit, and otherwise exactly the
    first [max_len] characters of their texts, followed by an ellipsis. *)
Theorem sql_parameters_bounded max_len vars vars_list :
  0 < max_len ->
  let text := join [44] vars in
  let rows := row_text <$> vars_list in
  one_row max_len vars =
    py "[" ++ (if decide (len text <= max_len) then text else take (Z.to_nat max_len) text ++ py "...") ++ py "]" ∧
  (if decide (len (concat rows) <= max_len) then many_rows max_len vars_list = py "[" ++ join [44] rows ++ py "]"
   else ∃ pre last, many_rows max_len vars_list = py "[" ++ join [44] (pre ++ [last ++ py "..."]) ++ py "]" ∧
          concat (pre ++ [last]) = take (Z.to_nat max_len) (concat rows)).
Proof.
  intros Hm text rows. split.
  - unfold one_row, clip. fold text. destruct (Z.ltb_spec max_len (len text)).
    + rewrite decide_False by lia. by rewrite slice_to_nonneg by lia.
    + by rewrite decide_True by lia.
  - pose proof (clip_rows_spec max_len 0 rows) as H. cbv zeta in H. rewrite Z.sub_0_r in H.
    specialize (H ltac:(lia)). unfold many_rows. fold rows. destruct (decide _).
    + by rewrite H.
    + destruct H as (pre & last & -> & Hc). by exists pre, last.
Qed.

Lemma sql_parameters_bounded_witness :
  many_rows 8 [[py "1"; py "ab"]; [py "2"; py "cd"]] = py "[[1,ab],[2...]" ∧
  ∃ pre last, many_rows 8 [[py "1"; py "ab"]; [py "2"; py "cd"]] =
    py "[" ++ join [44] (pre ++ [last ++ py "..."]) ++ py "]" ∧
    concat (pre ++ [last]) = py "[1,ab][2".
Proof.
  split; [vm_compute; reflexivity|].
  apply (sql_parameters_bounded 8 [] [[py "1"; py "ab"]; [py "2"; py "cd"]]). lia.
Defined.

(** ** Redis commands that are listed with a trailing blank *)

Definition blank_listed (cmd : pystr) : bool :=
  bool_decide (cmd ++ [32] ∈ OPERATIONS_WRITE ++ OPERATIONS_READ).

(** A Redis command is tagged as a read or a write exactly when it is listed without a
    trailing blank: the eleven commands listed with one, among them INCR, DECR, SETEX and
    GETBIT, are never classified. *)
Theorem redis_blank_commands_unclassified :
  (∀ cmd, redis_op cmd ≠ [] <-> cmd ∈ OPERATIONS_WRITE ++ OPERATIONS_READ) ∧
  Forall (fun cmd => blank_listed cmd = true ∧ redis_op cmd = [])
    (py <$> ["SETEX"; "SETNX"; "STRLEN"; "MSETNX"; "INCR"; "INCRBY"; "DECR"; "DECRBY"; "APPEND"; "HSETNX"; "GETBIT"]%string) ∧
  length (List.filter (fun cmd => bool_decide (last cmd = Some 32)) (OPERATIONS_WRITE ++ OPERATIONS_READ)) = 11%nat.
Proof.
  split_and!.
  - intros cmd. unfold redis_op. rewrite elem_of_app.
    case_bool_decide; [naive_solver discriminate|]. case_bool_decide; naive_solver discriminate.
  - cbn [fmap list_fmap]. repeat (constructor; [split; vm_compute; reflexivity|]). constructor.
  - vm_compute. reflexivity.
Qed.
