(* ===== verification/PluginMq.v ===== *)
(** * Message queue plugins

    plugins/sw_kafka.py, sw_confluent_kafka.py, sw_rabbitmq.py (publish, deliver, callbacks),
    sw_pulsar.py, sw_amqp.py, sw_aiormq.py, sw_celery.py.  Bytes are lists of numbers, as
    text is: a header object that holds encoded values is a list of pairs at a location of
    the heap. *)

From S2P Require Import Prelude PyData PyText Codec Carrier Config Filter Sampling.
From S2P Require Import TraceData Trace TraceInv TraceSpec TraceProps PluginBase PluginHttp PluginDb.

(** ** [str] of bytes *)

Definition hex_digit (n : Z) : Z := if n <? 10 then 48 + n else 87 + n.
Definition escape_byte (quote b : Z) : pystr :=
  if (b =? quote) || (b =? 92) then [92; b]
  else if b =? 9 then py "\t" else if b =? 10 then py "\n" else if b =? 13 then py "\r"
  else if (32 <=? b) && (b <? 127) then [b]
  else py "\x" ++ [hex_digit (b / 16); hex_digit (b mod 16)].

(** ["b'...'"]; double quotes when the text has single quotes only. *)
Definition bytes_repr (bs : list Z) : pystr :=
  let quote := if contains 39 bs && negb (contains 34 bs) then 34 else 39 in
  [98; quote] ++ concat (escape_byte quote <$> bs) ++ [quote].

Section mq.
Context {AG PS : Type} `{!AgentOps AG} `{!ProfileOps PS}.
Context (cfg : Config) (uuid1 : nat -> pystr) (import_time : Z).
Context (format_exc : exn -> Z -> pystr).
Abbreviation W := (World AG PS).
Abbreviation MW := (M W).
Abbreviation with_new := (PluginBase.with_new cfg import_time format_exc).
Abbreviation open_exit := (PluginBase.open_exit cfg uuid1).
Abbreviation open_entry := (PluginBase.open_entry cfg uuid1).
Implicit Types (w : W) (t l c d : nat).

(** [headers.append((key, val.encode('utf-8')))] and [headers[key] = val.encode('utf-8')] *)
Definition append_encoded d (k v : pystr) : MW unit := bs ← lift (utf8_encode v); add_key d k bs.
Definition set_encoded d (k v : pystr) : MW unit := bs ← lift (utf8_encode v); set_key d k bs.

Definition tag_mq l (broker topic : pystr) (queue : option pystr) : MW unit :=
  _ ← tag l (TagMqBroker broker);
  _ ← tag l (TagMqTopic topic);
  match queue with Some q => tag l (TagMqQueue q) | None => mret tt end.

(** ** Kafka (kafka-python) *)

Definition kafka_self_topic (topic : pystr) : bool :=
  bool_decide (agent_protocol cfg = py "kafka") &&
  bool_decide (topic ∈ [kafka_topic_segment cfg; kafka_topic_log cfg; kafka_topic_management cfg; kafka_topic_meter cfg]).

Definition sw_kafka_send {A} t (_send : option nat -> MW A) (topic : pystr) (servers : list pystr)
  (headers : option nat) : MW A :=
  if kafka_self_topic topic then _send headers
  else
    let peer := join [59] servers in
    with_new t (open_exit t (py "Kafka/" ++ topic ++ py "/Producer") peer Component.KafkaProducer) (fun l =>
      ca ← inject cfg l;
      _ ← mod_span l (set_layer Layer.MQ);
      d ← (match headers with Some d => mret d | None => new_dict [] end);
      _ ← each_item (append_encoded d) ca;
      res ← _send (Some d);
      _ ← tag_mq l peer topic None;
      mret res).

(** [for item in carrier: for header in headers: if item.key == header[0]: item.val = str(header[1])] *)
Fixpoint set_sw8_headers (ca : Carrier) (headers : list (pystr * list Z)) : MW Carrier :=
  match headers with
  | [] => mret ca
  | (k, bs) :: hs =>
      ca' ← (if decide (k = py "sw8") then set_sw8_item ca (Some (bytes_repr bs)) else mret ca);
      set_sw8_headers ca' hs
  end.
Definition kafka_carrier (headers : list (pystr * list Z)) : MW Carrier :=
  ca ← new_Carrier;
  _ ← for_each headers (fun h =>
        if decide (h.1 = py "sw8-correlation") then set_correlation_item cfg ca (Some (bytes_repr h.2))
        else mret tt);
  set_sw8_headers ca headers.

(** [KafkaConsumer._poll_once]: per partition, the headers of its records. *)
Definition sw_kafka_poll {A} t (_poll : MW (A * list (list (list (pystr * list Z))))) (servers : list pystr)
  (topics : pystr) (group_id : option pystr) : MW A :=
  r ← _poll;
  _ ← (match r.2 with
       | [] => mret tt
       | partitions =>
           with_new t (open_entry t (py "Kafka/" ++ topics ++ py "/Consumer/" ++ or_empty group_id) None None)
             (fun l => for_each partitions (fun records =>
                _ ← for_each records (fun headers => ca ← kafka_carrier headers; extract uuid1 l (Some ca));
                _ ← tag_mq l (join [59] servers) topics None;
                _ ← mod_span l (set_layer Layer.MQ);
                mod_span l (set_component Component.KafkaConsumer)))
       end);
  mret r.1.

(** ** Kafka (confluent_kafka) *)

Definition key_or_empty (key : pyval) : pystr := match key with PStr s => s | _ => [] end.

(** [produce]: a copy of the headers is passed on; a key of bytes is decoded. *)
Definition sw_confluent_produce {A} t (_produce : nat -> MW A) (peer topic : pystr) (key : pyval)
  (headers : list (pystr * list Z)) : MW A :=
  d ← new_dict headers;
  k ← lift (bytes2str key);
  with_new t (open_exit t (py "Kafka/" ++ topic ++ [47] ++ key_or_empty k ++ py "/Producer") peer
                Component.KafkaProducer) (fun l =>
    ca ← inject cfg l;
    _ ← mod_span l (set_layer Layer.MQ);
    _ ← tag_mq l peer topic (match k with PNone => None | _ => Some (key_or_empty k) end);
    _ ← each_item (set_encoded d) ca;
    _produce d).

(** [val.decode('utf-8')] of a header, when there is one *)
Definition decoded (bs : option (list Z)) : res (option pystr) :=
  match bs with
  | None => Ok None
  | Some b => match utf8_decode b with Some s => Ok (Some s) | None => Raise ValueError end
  end.

(** [message]: what a consumed message adds to the trace; the message is returned as it is. *)
Definition sw_confluent_message t (peer group_id topic : pystr) (error : bool) (key : pyval)
  (headers : list (pystr * list Z)) : MW unit :=
  if error then mret tt
  else
    k ← lift (bytes2str key);
    with_new t (open_entry t (py "Kafka/" ++ topic ++ [47] ++ key_or_empty k ++ py "/Consumer/" ++ group_id)
                  None None) (fun l =>
      _ ← mod_span l (set_layer Layer.MQ);
      _ ← mod_span l (set_component Component.KafkaConsumer);
      ca ← new_Carrier;
      cv ← lift (decoded (Dict.get (py "sw8-correlation") headers));
      _ ← set_correlation_item cfg ca cv;
      v ← lift (decoded (Dict.get (py "sw8") headers));
      ca ← set_sw8_item ca v;
      _ ← extract uuid1 l (Some ca);
      tag_mq l peer topic (match k with PNone => None | _ => Some (key_or_empty k) end)).

(** ** RabbitMQ: pika, amqp, aiormq *)

Definition rabbit_op (exchange routing_key role : pystr) : pystr :=
  py "RabbitMQ/Topic/" ++ exchange ++ py "/Queue/" ++ routing_key ++ role.

(** sw_rabbitmq.py, [basic_publish]: the tags follow the publication *)
Definition sw_pika_publish {A} t (_publish : nat -> MW A) (host port exchange routing_key : pystr)
  (headers : option nat) : MW A :=
  let peer := host_port host port in
  with_new t (open_exit t (rabbit_op exchange routing_key (py "/Producer")) peer Component.RabbitmqProducer) (fun l =>
    ca ← inject cfg l;
    _ ← mod_span l (set_layer Layer.MQ);
    d ← inject_headers headers ca;
    res ← _publish d;
    _ ← tag_mq l peer exchange (Some routing_key);
    mret res).

(** [_on_deliver] without deferral, and [_sw_callback]: the span is open during the callback. *)
Definition sw_pika_callback {A} t (callback : MW A) (peer exchange routing_key : pystr)
  (get : pystr -> option pystr) : MW A :=
  ca ← read_carrier cfg get;
  with_new t (open_entry t (rabbit_op exchange routing_key (py "/Consumer")) (Some ca) None) (fun l =>
    _ ← mod_span l (set_layer Layer.MQ);
    _ ← mod_span l (set_component Component.RabbitmqConsumer);
    res ← callback;
    _ ← tag_mq l peer exchange (Some routing_key);
    mret res).
Definition sw_pika_on_deliver {A} t (deferred : bool) (__on_deliver : MW A) peer exchange routing_key
  (get : pystr -> option pystr) : MW A :=
  if deferred then __on_deliver else sw_pika_callback t __on_deliver peer exchange routing_key get.

(** [basic_get]: the span of a message that was fetched is closed at once. *)
Definition sw_pika_basic_get {A} t (func : MW (option A)) peer exchange routing_key
  (get : A -> pystr -> option pystr) : MW (option A) :=
  m ← func;
  _ ← (match m with
       | Some msg => sw_pika_callback t (mret tt) (peer msg) (exchange msg) (routing_key msg) (get msg)
       | None => mret tt
       end);
  mret m.

(** [consume], a generator: each message gets a span of its own before it is handed on, no
    span is open while the application has it. *)
Definition sw_pika_consume {A} t (messages : list (MW (option A))) (finish : MW unit)
  (application : option A -> MW bool) peer exchange routing_key
  (get : A -> pystr -> option pystr) : MW unit :=
  generator_life (yield_from
    ((fun m => sw_pika_basic_get t m peer exchange routing_key get) <$> messages) finish application).

(** sw_amqp.py *)
Definition sw_amqp_publish {A} t (_publish : nat -> MW A) (peer exchange routing_key : pystr)
  (headers : option nat) : MW A :=
  with_new t (open_exit t (rabbit_op exchange routing_key (py "/Producer")) peer Component.RabbitmqProducer) (fun l =>
    _ ← tag_mq l peer exchange (Some routing_key);
    _ ← mod_span l (set_layer Layer.MQ);
    ca ← inject cfg l;
    d ← inject_headers headers ca;
    _publish d).
Definition sw_amqp_callback {A} t (callback : MW A) (peer exchange routing_key : pystr)
  (get : pystr -> option pystr) : MW A :=
  ca ← read_carrier cfg get;
  with_new t (open_entry t (rabbit_op exchange routing_key (py "/Consumer")) (Some ca) None) (fun l =>
    _ ← mod_span l (set_layer Layer.MQ);
    _ ← mod_span l (set_component Component.RabbitmqConsumer);
    _ ← tag_mq l peer exchange (Some routing_key);
    callback).

(** sw_aiormq.py: the same publish; a consumed header may be bytes, which are decoded. *)
Definition aiormq_peer (host : pystr) (port : option Z) : pystr :=
  match port with
  | None | Some 0 => host
  | Some p => host_port host (str_of_int p)
  end.
Definition sw_aiormq_publish {A} t (_publish : nat -> MW A) host port :=
  @sw_amqp_publish A t _publish (aiormq_peer host port).
Definition header_text (v : option pyval) : res (option pystr) :=
  match v with
  | Some (PStr s) => Ok (Some s)
  | Some (PBytes bs) => match utf8_decode bs with Some s => Ok (Some s) | None => Raise ValueError end
  | Some PNone | None => Ok None
  end.
Definition sw_aiormq_callback {A} t (consumer_callback : MW A) (host : pystr) (port : option Z)
  (exchange routing_key : pystr) (get : pystr -> option pyval) : MW A :=
  ca ← new_Carrier;
  cv ← lift (header_text (get (py "sw8-correlation")));
  _ ← set_correlation_item cfg ca cv;
  v ← lift (header_text (get (py "sw8")));
  ca ← set_sw8_item ca v;
  let peer := aiormq_peer host port in
  with_new t (open_entry t (rabbit_op exchange routing_key (py "/Consumer")) (Some ca) None) (fun l =>
    _ ← mod_span l (set_layer Layer.MQ);
    _ ← mod_span l (set_component Component.RabbitmqConsumer);
    _ ← tag_mq l peer exchange (Some routing_key);
    consumer_callback).

(** ** Pulsar: the broker is that of the client created last *)

Definition pulsar_peer (clients : list pystr) : pystr := match last clients with Some u => u | None => [] end.

Definition sw_pulsar_send {A} t (_send : nat -> MW A) (clients : list pystr) (topic_name : pystr)
  (properties : option nat) : MW A :=
  let topic := after_last 47 topic_name in
  with_new t (open_exit t (py "Pulsar/Topic/" ++ topic ++ py "/Producer") (pulsar_peer clients)
                Component.PulsarProducer) (fun l =>
    _ ← tag l (TagMqTopic topic);
    _ ← tag l (TagMqBroker (pulsar_peer clients));
    _ ← mod_span l (set_layer Layer.MQ);
    ca ← inject cfg l;
    d ← inject_headers properties ca;
    _send d).

(** [receive] of a message with its topic and properties *)
Definition sw_pulsar_receive {A} t (_receive : MW (option A)) (clients : list pystr)
  (topic_name : A -> pystr) (properties : A -> pystr -> option pystr) : MW (option A) :=
  res ← _receive;
  _ ← (match res with
       | None => mret tt
       | Some m =>
           let topic := after_last 47 (topic_name m) in
           ca ← read_carrier cfg (properties m);
           with_new t (open_entry t (py "Pulsar/Topic/" ++ topic ++ py "/Consumer") (Some ca) None) (fun l =>
             _ ← tag l (TagMqTopic topic);
             _ ← tag l (TagMqBroker (pulsar_peer clients));
             _ ← mod_span l (set_layer Layer.MQ);
             mod_span l (set_component Component.PulsarConsumer))
       end);
  mret res.

(** ** Celery *)

(** The parameters' text is cut at the configured length; 0 turns the tag off. *)
Definition tag_celery l (params : pystr) : MW unit :=
  let n := plugin_celery_parameters_length cfg in
  if n =? 0 then mret tt else tag l (TagCeleryParameters (slice_to n params)).

Definition sw_celery_send_task {A} t (_send_task : nat -> MW A) (name peer broker_url params : pystr)
  (headers : list (pystr * pystr)) : MW A :=
  with_new t (open_exit t (py "celery/" ++ name) peer Component.Celery) (fun l =>
    _ ← mod_span l (set_layer Layer.MQ);
    _ ← tag l (TagMqBroker broker_url);
    _ ← tag_celery l params;
    d ← new_dict headers;
    ca ← inject cfg l;
    _ ← each_item (set_key d) ca;
    _send_task d).

(** [origin.split('@', 1)[-1]] *)
Definition origin_host (origin : pystr) : pystr :=
  let '(_, found, rest) := partition 64 origin in if found : bool then rest else origin.

(** A task on the worker: an entry span when the request says where it comes from, a local
    one otherwise. *)
Definition sw_celery_task {A} t (_fun : MW A) (name broker_url params : pystr) (origin : option pystr)
  (get : pystr -> option pystr) : MW A :=
  ca ← read_carrier cfg (fun k => match get k with Some [] => None | v => v end);
  with_new t
    (match origin with
     | Some (x :: o) =>
         l ← open_entry t (py "celery/" ++ name) (Some ca) None;
         _ ← mod_span l (set_peer (Some (origin_host (x :: o))));
         mret l
     | _ => open_local cfg uuid1 t (py "celery/" ++ name)
     end) (fun l =>
    _ ← mod_span l (set_layer Layer.MQ);
    _ ← mod_span l (set_component Component.Celery);
    _ ← tag l (TagMqBroker broker_url);
    _ ← tag_celery l params;
    _fun).
End mq.
