(* ===== verification/PluginMqProps.v ===== *)
(** * Properties of the message queue plugins *)

From S2P Require Import Prelude PyData PyText Codec Carrier Config Filter Sampling.
From S2P Require Import TraceData Trace TraceInv TraceSpec TraceProps PluginBase PluginHttp PluginDb PluginMq.

(** ** Calm wrappers *)

Section calm_mq.
Context {AG PS : Type} `{!AgentOps AG} `{!ProfileOps PS}.
Context (cfg : Config) (uuid1 : nat -> pystr) (import_time : Z) (format_exc : exn -> Z -> pystr).
Abbreviation W := (World AG PS).
Abbreviation MW := (M W).
Context (t : nat).

Lemma calm_tag_mq l b tp q : calm t (tag_mq (AG := AG) (PS := PS) l b tp q).
Proof. unfold tag_mq. calm. Qed.

Lemma calm_append_encoded d k v : calm t (append_encoded (AG := AG) (PS := PS) d k v).
Proof. unfold append_encoded, add_key. calm. Qed.

Lemma calm_set_encoded d k v : calm t (set_encoded (AG := AG) (PS := PS) d k v).
Proof. unfold set_encoded. calm. Qed.

Lemma calm_tag_celery l p : calm t (tag_celery (AG := AG) (PS := PS) cfg l p).
Proof. unfold tag_celery. calm. Qed.

Lemma calm_sw8_headers ca hs : calm t (set_sw8_headers (AG := AG) (PS := PS) ca hs).
Proof.
  revert ca. induction hs as [|[k bs] hs IH]; intros ca; cbn [set_sw8_headers]; calm.
Qed.

Lemma calm_kafka_carrier hs : calm t (kafka_carrier (AG := AG) (PS := PS) cfg hs).
Proof.
  unfold kafka_carrier, new_Carrier. calm. apply calm_sw8_headers.
Qed.

Local Hint Resolve calm_tag_mq calm_append_encoded calm_set_encoded calm_tag_celery
  calm_kafka_carrier : calm.
Local Hint Extern 2 (calm _ (each_item _ _)) => apply calm_each_item; calm : calm.

Ltac calm_wrapper := calm; apply calm_with_new; [auto with calm | calm].

Lemma calm_pika_callback {A} (cb : MW A) p e r g :
  calm t cb -> calm t (sw_pika_callback cfg uuid1 import_time format_exc t cb p e r g).
Proof. intros H. unfold sw_pika_callback. calm_wrapper. Qed.

Local Hint Resolve calm_pika_callback : calm.

Lemma calm_basic_get {A} (f : MW (option A)) p e r g :
  calm t f -> calm t (sw_pika_basic_get cfg uuid1 import_time format_exc t f p e r g).
Proof. intros H. unfold sw_pika_basic_get. calm. Qed.

Lemma calm_confluent_message p g tp e k h :
  calm t (sw_confluent_message (AG := AG) (PS := PS) cfg uuid1 import_time format_exc t p g tp e k h).
Proof. unfold sw_confluent_message, new_Carrier. calm_wrapper. Qed.

End calm_mq.

(** ** What a Kafka consumer reads of the headers a Kafka producer writes

    The producer sends the UTF-8 bytes of a header; the consumer takes [str] of the bytes,
    so the text it parses is ["b'...'"]. *)

(** Characters that [str] of bytes shows as they are. *)
Definition plain (c : Z) : Prop := 32 <= c < 127 ∧ c ≠ 39 ∧ c ≠ 92.

Lemma plain_encode s : Forall plain s -> utf8_encode s = Ok s.
Proof.
  intros H. unfold utf8_encode. rewrite decide_True.
  - f_equal. induction H as [|c s Hc _ IH]; [done|]. cbn [mbind list_bind].
    unfold utf8_encode_char. rewrite (proj2 (Z.ltb_lt c 128)) by (unfold plain in Hc; lia).
    cbn. by f_equal.
  - eapply Forall_impl; [exact H|]. unfold plain, is_scalar, is_surrogate. intros c Hc. lia.
Qed.

Lemma plain_repr s : Forall plain s -> bytes_repr s = [98; 39] ++ s ++ [39].
Proof.
  intros H. unfold bytes_repr.
  assert (contains 39 s = false) as ->.
  { apply not_true_iff_false. unfold contains. rewrite existsb_exists.
    intros (c & Hc%list_elem_of_In & E%Z.eqb_eq). eapply Forall_forall in Hc; [|done].
    unfold plain in Hc. lia. }
  cbn [andb]. do 2 f_equal. f_equal. induction H as [|c s Hc _ IH]; [done|]. cbn [fmap list_fmap concat].
  rewrite IH. unfold escape_byte. unfold plain in Hc.
  rewrite !(proj2 (Z.eqb_neq c _)) by lia. cbn [orb].
  rewrite (proj2 (Z.leb_le 32 c)), (proj2 (Z.ltb_lt c 127)) by lia. done.
Qed.

Lemma safe_plain s : Forall b64_safe s -> Forall plain s.
Proof. intros H. eapply Forall_impl; [exact H|]. unfold b64_safe, plain. intros c Hc. lia. Qed.

Lemma a2b_quote quad pads left s : a2b_base64 quad pads left (s ++ [39]) = a2b_base64 quad pads left s.
Proof.
  revert quad pads left. induction s as [|c s IH]; intros quad pads left; [done|].
  cbn [app a2b_base64]. destruct (b64_val c); by rewrite !IH.
Qed.

Lemma b64decode_quote s : b64decode (s ++ [39]) = b64decode s.
Proof. unfold b64decode. rewrite a2b_quote, forallb_app. cbn. by rewrite andb_true_r. Qed.

(** Four data characters after a stray one leave the decoder where it was. *)
Lemma a2b_shifted bs pads left :
  Forall is_byte bs -> (length bs mod 3 = 0)%nat -> a2b_base64 1 pads left (b2a_base64 bs) = None.
Proof.
  unfold is_byte. revert pads left.
  induction bs as [|a|a b|a b c l IH] using list_ind3; intros pads left H Hn; [done..|].
  rewrite !Forall_cons in H. destruct_and?. cbn [b2a_base64]. rewrite !a2b_data by zdiv.
  cbn [Z.eqb Pos.eqb]. rewrite IH; [done|done|]. cbn [length] in Hn.
  replace (S (S (S (length l)))) with (length l + 1 * 3)%nat in Hn by lia.
  by rewrite Nat.Div0.mod_add in Hn.
Qed.

(** A key of [3n] bytes cannot be decoded any more. *)
Lemma b64decode_repr_key k k' bs :
  utf8_encode k = Ok bs -> (length bs mod 3 = 0)%nat -> b64encode k = Ok k' ->
  b64decode ([98; 39] ++ k') = Raise ValueError.
Proof.
  intros Hk Hn. unfold b64encode. rewrite Hk. cbn [mbind res_bind]. intros [= <-].
  unfold b64decode. change (a2b_base64 0 0 0 ([98; 39] ++ b2a_base64 bs)) with
    (a2b_base64 1 0 27 (b2a_base64 bs)).
  rewrite a2b_shifted; [by destruct (forallb _ _) | by eapply utf8_encode_bytes | done].
Qed.

Lemma join_plain ps : Forall (Forall plain) ps -> Forall plain (join [45] ps).
Proof.
  intros H. induction H as [|p ps Hp Hps IH]; [constructor|].
  destruct ps as [|p' ps]; [done|].
  change (join [45] (p :: p' :: ps)) with (p ++ 45 :: join [45] (p' :: ps)).
  apply Forall_app. split; [done|]. constructor; [unfold plain; lia | done].
Qed.

(** The [sw8] text with quotes around it: the eight parts are found, the sampling flag is
    not read, and the stray quote at the end does not disturb base64. *)
Lemma repr_carrier_val ca v c0 :
  carrier_val ca = Ok v -> Forall is_ascii_digit (span_id ca) ->
  Forall plain v ∧
  ∃ ca', set_carrier_val ([98; 39] ++ v ++ [39]) c0 = (ca', Ok tt) ∧ same_fields ca ca' ∧
         correlation ca' = correlation c0.
Proof.
  intros H Hs. unfold carrier_val in H. do 6 inv_res H. apply Ok_inj in H. subst v.
  destruct (client_address ca) as [addr|] eqn:Ea; [|done].
  pose proof (fun s t E => proj2 (b64encode_encodable s t E)) as Hsafe.
  split.
  { apply join_plain. repeat constructor; try (unfold plain; lia); try (eapply safe_plain, Hsafe; done).
    eapply Forall_impl; [exact Hs|]. unfold is_ascii_digit, plain. intros c Hc. lia. }
  pose proof unsafe_seps as (Hsep & _).
  assert (∀ s t, b64encode s = Ok t -> 45 ∉ t) as Hno by (intros; by eapply b64_no_sep).
  assert (45 ∉ span_id ca) as Hsid.
  { intros Hin. eapply Forall_forall in Hin; [|exact Hs]. unfold is_ascii_digit in Hin. lia. }
  assert ([98; 39] ++ join [45] [[49]; x; x0; span_id ca; x1; x2; x3; x4] ++ [39] =
    join [45] [[98; 39; 49]; x; x0; span_id ca; x1; x2; x3; x4 ++ [39]]) as ->.
  { cbn [join app]. by rewrite <- !app_assoc; cbn [app]; repeat (f_equal; rewrite <- ?app_assoc; cbn [app]). }
  unfold set_carrier_val.
  destruct (join _ _) as [|z zs] eqn:Ej; [done|]. rewrite <- Ej.
  rewrite split_join; [|done|].
  2:{ repeat constructor; eauto; [set_solver by lia|].
      rewrite not_elem_of_app. split; [eauto | set_solver by lia]. }
  unfold_m. erewrite !b64_lang_roundtrip by done. unfold_m.
  rewrite b64decode_quote. erewrite b64_lang_roundtrip by done. unfold_m.
  eexists. split; [reflexivity|]. unfold same_fields. cbn. by rewrite Ea.
Qed.

(** The first entry of a quoted correlation header. *)
Lemma repr_first_entry k x m cv :
  correlation_val ((k, x) :: m) = Ok cv ->
  Forall plain cv ∧ ∃ k' x' q rest, b64encode k = Ok k' ∧ b64decode (x' ++ q) = Ok x ∧ 58 ∉ x' ++ q ∧
    split_on 44 ([98; 39] ++ cv ++ [39]) = (([98; 39] ++ k') ++ 58 :: x' ++ q) :: rest.
Proof.
  intros H. unfold correlation_val in H. inv_res H. apply Ok_inj in H. subst cv.
  apply correlation_items_spec in Hx.
  assert (Forall (Forall plain) x0) as Hp.
  { apply Forall_forall. intros p Hp. apply list_elem_of_lookup in Hp as [i Hi].
    destruct (Forall2_lookup_r _ _ _ _ _ Hx Hi) as (kv & _ & a & b & Ha & Hb & ->).
    apply Forall_app. split; [|constructor; [unfold plain; lia|]]; by eapply safe_plain, b64encode_encodable. }
  assert (Forall plain (join [44] x0)) as Hj.
  { clear Hx. induction Hp as [|p ps Hp Hps IH]; [constructor|]. destruct ps as [|p' ps]; [done|].
    change (join [44] (p :: p' :: ps)) with (p ++ 44 :: join [44] (p' :: ps)).
    apply Forall_app. split; [done|]. constructor; [unfold plain; lia | done]. }
  split; [done|]. pose proof unsafe_seps as (_ & Hc & Hd).
  assert (∀ s t, b64encode s = Ok t -> 58 ∉ t ∧ 44 ∉ t) as Hno by (split; by eapply b64_no_sep).
  inversion Hx as [|? p ? ps (k' & x' & Hk & Hxx & ->) Hrest]; subst. cbn in Hk, Hxx.
  destruct (Hno _ _ Hk) as [Hk1 Hk2], (Hno _ _ Hxx) as [Hx1 Hx2].
  destruct ps as [|p' ps].
  - exists k', x', [39], []. split_and!; [done | | set_solver by lia |].
    + rewrite b64decode_quote. by apply b64_lang_roundtrip.
    + cbn [join]. rewrite <- !app_assoc. apply split_on_single. set_solver by lia.
  - exists k', x', [], (split_on 44 (join [44] (p' :: ps) ++ [39])). rewrite app_nil_r.
    split_and!; [done | by apply b64_lang_roundtrip | done |].
    change (join [44] ((k' ++ 58 :: x') :: p' :: ps)) with ((k' ++ 58 :: x') ++ 44 :: join [44] (p' :: ps)).
    assert ([98; 39] ++ ((k' ++ 58 :: x') ++ 44 :: join [44] (p' :: ps)) ++ [39] =
      (([98; 39] ++ k') ++ 58 :: x') ++ 44 :: (join [44] (p' :: ps) ++ [39])) as ->.
    { cbn [app]. do 2 f_equal. by rewrite <- !app_assoc. }
    apply split_on_app. set_solver by lia.
Qed.

Section kafka.
Context {AG PS : Type} `{!AgentOps AG} `{!ProfileOps PS}.
Context (cfg : Config).
Implicit Types (w : World AG PS).

Lemma kafka_carrier_two w bsc bs :
  let n := correlation_element_max_number cfg in
  let set_dict (m : list (pystr * pystr)) := upd_dicts <[w_next w := m]> (new_dict [] w).1 in
  kafka_carrier cfg [(py "sw8-correlation", bsc); (py "sw8", bs)] w =
    match set_correlation_val n (bytes_repr bsc) [] with
    | (m, Raise e) => (set_dict m, Raise e)
    | (m, Ok _) =>
        match set_carrier_val (bytes_repr bs) (empty_carrier (w_next w)) with
        | (_, Raise e) => (set_dict m, Raise e)
        | (ca, Ok _) => (set_dict m, Ok ca)
        end
    end.
Proof.
  intros n set_dict. unfold kafka_carrier, new_Carrier. erewrite bind_ok by reflexivity.
  cbn [for_each set_sw8_headers fst snd].
  rewrite (decide_True (P := py "sw8-correlation" = py "sw8-correlation")) by reflexivity.
  rewrite (decide_False (P := py "sw8" = py "sw8-correlation")) by discriminate.
  rewrite (decide_False (P := py "sw8-correlation" = py "sw8")) by discriminate.
  destruct (decide (py "sw8" = py "sw8")) as [_|]; [|done].
  unfold set_correlation_item, set_sw8_item, mbind, M_bind. cbn [correlation empty_carrier].
  cbn [w_dicts upd_dicts]. rewrite lookup_total_insert_eq. fold n.
  destruct (set_correlation_val n (bytes_repr bsc) []) as [m' [?|e]]; [|reflexivity].
  unfold mret, M_ret. cbv beta iota.
  destruct (set_carrier_val (bytes_repr bs) (empty_carrier (w_next w))) as [ca' [?|e]]; reflexivity.
Qed.

End kafka.
