(* ===== verification/PluginRuns.v ===== *)
(** * Concrete runs of the plugin wrappers

    The wrappers applied to functions that answer at once, raise, or echo their headers,
    in the request being served of [PluginHop]. *)

From S2P Require Import Prelude PyData PyText Codec Carrier Config Filter Sampling.
From S2P Require Import TraceData Trace TraceInv TraceSpec TraceProps TracePropagation.
From S2P Require Import PluginBase PluginHttp PluginHop PluginDb PluginMq PluginMqProps.
From S2P Require Import Agent Profile Scenarios.

#[local] Instance runs_profiler : ProfileOps Service := Profile_ops default_config.

Definition serves {A} (x : A) : M DW A := mret x.
Definition fails {A} : M DW A := raise (RuntimeError).
Definition no_text (_ : exn) : pystr := [].

Lemma serves_calm {A} t (x : A) : calm t (serves x).
Proof. unfold serves. calm. Qed.

Lemma fails_calm {A} t : calm t (fails (A := A)).
Proof. unfold fails. calm. Qed.

(** What a calm program does to the request being served. *)
Lemma calm_serving {A} (m : M DW A) : calm 1 m -> stack (m serving_world).1 1 = stack serving_world 1.
Proof.
  intros H. destruct serving_usable as [Hw Hl]. specialize (H _ Hw Hl). unfold spec in H.
  destruct (m serving_world) as [w' [a|e]]; apply grow_stacks; apply H.
Qed.

Lemma http_clients_balanced_witness :
  stack (demo_request serving_world).1 1 = stack serving_world 1 ∧
  ∃ w', sw_httpx_send default_config demo_uuid 0 demo_format (fun _ : Z => 200) 1 (fun _ => fails)
    (py "GET") (py "http://api/") (py "/") (py "api") [] [] 0%nat serving_world = (w', Raise RuntimeError) ∧
    stack w' 1 = stack serving_world 1.
Proof.
  pose proof (http_clients_balanced default_config demo_uuid 0 demo_format no_text demo_urlparse url_netloc
    (fun _ => None) (fun _ => 200) 1 echo_headers (fun d => echo_headers (Some d)) (fun _ => serves [])
    (fun _ => serves tt) (fun _ => serves tt) (serves []) (echo_calm 1) (fun d => echo_calm 1 (Some d))
    (fun _ => serves_calm 1 []) (fun _ => serves_calm 1 tt) (fun _ => serves_calm 1 tt) (serves_calm 1 []))
    as (H & _).
  pose proof (http_clients_balanced default_config demo_uuid 0 demo_format no_text demo_urlparse url_netloc
    (fun _ => None) (fun _ : Z => 200) 1 (fun _ => fails) (fun _ => fails) (fun _ => fails)
    (fun _ => fails) (fun _ => fails) fails (fun _ => fails_calm 1) (fun _ => fails_calm 1)
    (fun _ => fails_calm 1) (fun _ => fails_calm 1) (fun _ => fails_calm 1) (fails_calm 1))
    as (_ & _ & _ & _ & H5 & _).
  split; [apply calm_serving, H|]. eexists. split; [vm_compute; reflexivity|].
  exact (calm_serving _ (H5 (py "GET") (py "http://api/") (py "/") (py "api") [] [] 0%nat)).
Defined.




(** The carrier of the served request's exit span, sent with the correlation entries
    given: [kafka_carrier] on the headers a producer writes. *)
Definition demo_carrier : Carrier :=
  match (inject default_config demo_exit_world.2 demo_call_world).2 with
  | Ok ca => ca | Raise _ => empty_carrier 0
  end.
Definition val_or_empty (r : res pystr) : pystr := match r with Ok v => v | Raise _ => [] end.
Definition sent_headers (m : list (pystr * pystr)) : list (pystr * list Z) :=
  [(py "sw8-correlation", val_or_empty (correlation_val m)); (py "sw8", val_or_empty (carrier_val demo_carrier))].


(** A one-letter key arrives as another key. *)
Example kafka_key_garbled :
  (fun '(w, r) => match r with Ok ca => w_dicts w !!! correlation ca | Raise _ => [] end)
    (kafka_carrier default_config (sent_headers [(py "A", py "1")]) (demo_world)) = [([109; 4], py "1")].
Proof. vm_compute. reflexivity. Qed.
