(* ===== verification/PluginGrpc.v ===== *)
(** * The gRPC plugin (plugins/sw_grpc.py)

    The interceptors of clients and servers, for the threaded and the asyncio stack.  The
    application's handlers, the continuation of a call and the peer are arguments; a
    metadata object of the application is a location of the heap that holds its entries in
    order, with repetitions. *)

From S2P Require Import Prelude PyData PyText Codec Carrier Config Filter Sampling.
From S2P Require Import TraceData Trace TraceInv TraceSpec TraceProps TracePropagation PluginBase PluginHttp.
From S2P Require Import PluginHop Agent Profile Scenarios.

(** ** Methods and handlers *)

(** [details.method]: text, bytes, or another object with its [str()]. *)
Inductive MethodName := NameBytes (bs : list Z) | NameStr (s : pystr) | NameOther (str : pystr).

Definition get_method_name (method : MethodName) : res pystr :=
  match method with
  | NameBytes bs => match utf8_decode bs with Some s => Ok s | None => Raise ValueError end
  | NameStr s => Ok s
  | NameOther s => Ok s
  end.

(** An [RpcMethodHandler]: [B] are the behaviours. *)
Record RpcMethodHandler (B : Type) := mkHandler {
  response_streaming : bool;
  unary_unary : option B;
  unary_stream : option B;
  stream_unary : option B;
  stream_stream : option B
}.
Arguments mkHandler {B}. Arguments response_streaming {B}. Arguments unary_unary {B}.
Arguments unary_stream {B}. Arguments stream_unary {B}. Arguments stream_stream {B}.

Inductive HandlerFactory := UnaryUnary | UnaryStream | StreamUnary | StreamStream.

(** The argument is [None] when no handler is registered for the method. *)
Definition _get_factory_and_method {B} (rpc_handler : option (RpcMethodHandler B))
  : res (HandlerFactory * B) :=
  match rpc_handler with
  | None => Raise AttributeError
  | Some h =>
      match unary_unary h, unary_stream h, stream_unary h, stream_stream h with
      | Some b, _, _, _ => Ok (UnaryUnary, b)
      | None, Some b, _, _ => Ok (UnaryStream, b)
      | None, None, Some b, _ => Ok (StreamUnary, b)
      | None, None, None, Some b => Ok (StreamStream, b)
      | None, None, None, None => Raise RuntimeError
      end
  end.

(** [dict(metadata)]: of repeated keys the last value. *)
Definition metadata_get (metadata : list (pystr * pystr)) (k : pystr) : option pystr :=
  Dict.get k (foldl (fun m kv => Dict.set kv.1 kv.2 m) [] metadata).

(** Which interceptors a new channel of the application gets: none for the agent's own. *)
Inductive Interceptor (I : Type) := SwInterceptor (kind : HandlerFactory) (target : pystr) | UserInterceptor (i : I).
Arguments SwInterceptor {I}. Arguments UserInterceptor {I}.

Definition skip_sw (cfg : Config) (building : bool) (target : pystr) : bool :=
  building || bool_decide (target = agent_collector_backend_services cfg).

(** [grpc.intercept_channel] with the one interceptor object that serves all four kinds. *)
Definition _sw_grpc_channel_factory (cfg : Config) (building : bool) (target : pystr) : option pystr :=
  if skip_sw cfg building target then None else Some target.

Definition _SWAioChannel {I} (cfg : Config) (building : bool) (target : pystr)
  (interceptors : option (list I)) : option (list (Interceptor I)) :=
  if skip_sw cfg building target then fmap (M := list) UserInterceptor <$> interceptors
  else Some ([SwInterceptor UnaryUnary target; SwInterceptor UnaryStream target;
              SwInterceptor StreamUnary target; SwInterceptor StreamStream target]
             ++ (UserInterceptor <$> default [] interceptors)).

(** [grpc.server] and [grpc.aio.server]: the agent's interceptor before the given ones. *)
Definition server_interceptors {I} (interceptors : option (list I)) : list (option I) :=
  None :: (Some <$> default [] interceptors).

Section grpc.
Context {AG PS : Type} `{!AgentOps AG} `{!ProfileOps PS}.
Context (cfg : Config) (uuid1 : nat -> pystr) (import_time : Z).
Context (format_exc : exn -> Z -> pystr).
(** [isinstance(e, grpc.RpcError)], and [str(e.code())] if it has a [code]. *)
Context (rpc_error : exn -> option (option pystr)).
Abbreviation W := (World AG PS).
Abbreviation MW := (M W).
Implicit Types (w : W) (t l d : nat).

Abbreviation with_new := (with_new cfg import_time format_exc).

(** ** Servers *)

Definition _restore_carrier (invocation_metadata : option (list (pystr * pystr))) : MW Carrier :=
  read_carrier cfg (metadata_get (default [] invocation_metadata)).

(** [NoopSpan(NoopContext()) if config.ignore_grpc_method_check(method_name) else ...] *)
Definition grpc_entry t (method_name : pystr) (carrier : Carrier) : MW nat :=
  if ignore_grpc_method_check cfg method_name then noop_span
  else open_entry cfg uuid1 t method_name (Some carrier) None.
Definition grpc_exit t (method_name target : pystr) : MW nat :=
  if ignore_grpc_method_check cfg method_name then noop_span
  else open_exit cfg uuid1 t method_name target Component.Grpc.

(** The [except grpc.RpcError] clause. *)
Definition note_rpc_error {A} l (e : exn) : MW A :=
  match rpc_error e with
  | None => raise e
  | Some code =>
      _ ← tag l (TagGrpcStatusCode (default (py "StatusCode.UNKNOWN") code));
      _ ← raised cfg import_time format_exc l e;
      raise e
  end.

(** The frame the four server wrappers share. *)
Definition serve {A} t (metadata : option (list (pystr * pystr))) (method : MethodName)
  (context_peer : MW pystr) (next_handler_method : MW A) : MW A :=
  ca ← _restore_carrier metadata;
  method_name ← lift (get_method_name method);
  with_new t (grpc_entry t method_name ca) (fun l =>
    _ ← mod_span l (set_layer Layer.RPCFramework);
    _ ← tag l (TagGrpcMethod method_name);
    _ ← mod_span l (set_component Component.Grpc);
    p ← context_peer;
    _ ← mod_span l (set_peer (Some p));
    try_except next_handler_method (note_rpc_error l)).

Definition invoke_intercept_method {A} t metadata method context_peer (next_handler_method : MW A) : MW A :=
  serve t metadata method context_peer next_handler_method.

(** The generator behind a stream of responses. *)
Definition invoke_intercept_method_response_streaming {A} t metadata method context_peer
  (items : list (MW A)) (finish : MW unit) (send : A -> MW bool) : MW unit :=
  generator_life (serve t metadata method context_peer (yield_from items finish send)).

(** A handler method: what calling it does, and what calling it and iterating over the
    result does. *)
Record behaviour (A : Type) := mkBehaviour {
  answer : MW A;
  responses : list (MW A);
  finish : MW unit
}.
Arguments answer {A}. Arguments responses {A}. Arguments finish {A}.

(** The wrapped behaviour, called with the way responses are sent. *)
Definition _make_invoke_intercept_method {A} t metadata method context_peer (is_response_streaming : bool)
  (next : behaviour A) (send : A -> MW bool) : MW (option A) :=
  if is_response_streaming then
    _ ← invoke_intercept_method_response_streaming t metadata method context_peer (responses next) (finish next) send;
    mret None
  else
    r ← invoke_intercept_method t metadata method context_peer (answer next);
    mret (Some r).

Definition intercept_service {A} t metadata method context_peer
  (next_handler : MW (option (RpcMethodHandler (behaviour A))))
  : MW (HandlerFactory * ((A -> MW bool) -> MW (option A))) :=
  h ← next_handler;
  fm ← lift (_get_factory_and_method h);
  mret (fm.1, _make_invoke_intercept_method t metadata method context_peer
                (match h with Some h => response_streaming h | None => false end) fm.2).

(** The asyncio server's wrappers run the same statements; they await the handler. *)
Definition invoke_intercept_method_aio {A} t := @invoke_intercept_method A t.
Definition invoke_intercept_method_response_streaming_aio {A} t :=
  @invoke_intercept_method_response_streaming A t.
Definition intercept_service_aio {A} t := @intercept_service A t.

(** ** Clients *)

(** The threaded client copies the metadata. *)
Definition copy_metadata (metadata : option nat) : MW nat :=
  m ← gets (fun w => match metadata with Some d => w_dicts w !!! d | None => [] end);
  new_dict m.

(** [client_call_details.metadata or grpc.aio.Metadata()]: the caller's object, unless it is
    empty. *)
Definition aio_metadata (metadata : option nat) : MW nat :=
  match metadata with
  | Some d => m ← gets (fun w => w_dicts w !!! d); match m with [] => new_dict [] | _ => mret d end
  | None => new_dict []
  end.

(** The body of the [with]. *)
Definition intercept_body {A} l (target : pystr) (metadata_of : option nat -> MW nat)
  (continuation : nat -> MW A) (method_name : pystr) (metadata : option nat) : MW A :=
  _ ← mod_span l (set_layer Layer.RPCFramework);
  _ ← tag l (TagGrpcMethod method_name);
  _ ← tag l (TagGrpcUrl target);
  ca ← inject cfg l;
  d ← metadata_of metadata;
  _ ← each_item (add_key d) ca;
  continuation d.
Definition intercept {A} t (target : pystr) (metadata_of : option nat -> MW nat)
  (continuation : nat -> MW A) (method : MethodName) (metadata : option nat) : MW A :=
  method_name ← lift (get_method_name method);
  with_new t (grpc_exit t method_name target) (fun l =>
    intercept_body l target metadata_of continuation method_name metadata).

Definition _intercept {A} t target := @intercept A t target copy_metadata.
Definition _intercept_aio {A} t target := @intercept A t target aio_metadata.

(** ** However a call ends *)

Section calm_grpc.
Context (t : nat).

Lemma calm_note_rpc {A} l e : calm t (note_rpc_error (A := A) l e).
Proof. unfold note_rpc_error. calm. Qed.

Lemma opens_grpc_entry m ca : opens t (grpc_entry t m ca).
Proof. unfold grpc_entry. auto with calm. Qed.

Lemma opens_grpc_exit m p : opens t (grpc_exit t m p).
Proof. unfold grpc_exit. auto with calm. Qed.

Local Hint Resolve calm_note_rpc calm_add_key opens_grpc_entry opens_grpc_exit : calm.

Lemma calm_serve {A} md m p (next : MW A) : calm t p -> calm t next -> calm t (serve t md m p next).
Proof.
  intros Hp Hn. unfold serve, _restore_carrier. calm. apply calm_with_new; [auto with calm | calm].
Qed.

Local Hint Resolve calm_serve : calm.

Lemma calm_intercept_body {A} target metadata_of (k : nat -> MW A) m md l :
  (∀ o, calm t (metadata_of o)) -> (∀ d, calm t (k d)) ->
  calm t (intercept_body l target metadata_of k m md).
Proof. intros Ho Hk. unfold intercept_body. calm. apply calm_each_item. calm. Qed.

Local Hint Resolve calm_intercept_body : calm.

Lemma calm_intercept {A} target metadata_of (k : nat -> MW A) m md :
  (∀ o, calm t (metadata_of o)) -> (∀ d, calm t (k d)) -> calm t (intercept t target metadata_of k m md).
Proof. intros Ho Hk. unfold intercept. calm. apply calm_with_new; [auto with calm|]. calm. Qed.

(** However a gRPC call ends, with an answer, an error, or a stream that is closed before its
    end, the interceptors of the clients and of the unary and streaming servers leave every
    span running or stopped as it was and every list of active spans unchanged, provided the
    continuation, the handler and the sending of responses do. *)
Theorem grpc_plugin_balanced {A} (k : nat -> MW A) (run : MW A) (items : list (MW A)) finish send p :
  (∀ d, calm t (k d)) -> calm t run -> Forall (calm t) items -> calm t finish ->
  (∀ a, calm t (send a)) -> calm t p ->
  (∀ target m md, calm t (_intercept t target k m md) ∧ calm t (_intercept_aio t target k m md)) ∧
  (∀ md m, calm t (invoke_intercept_method t md m p run)) ∧
  (∀ md m n, calm t (invoke_intercept_method_response_streaming t md m p (take n items) finish send)).
Proof.
  intros Hk Hr Hi Hf Hs Hp. split_and!; intros.
  - split; apply calm_intercept; try done; intros o; unfold copy_metadata, aio_metadata; calm.
  - by apply calm_serve.
  - apply calm_generator, calm_serve; [done|].
    apply calm_yield_from; [by apply Forall_take|done..].
Qed.
End calm_grpc.
End grpc.

(** ** From an instrumented client to an instrumented server *)

Lemma metadata_get_add m k v k' :
  metadata_get (m ++ [(k, v)]) k' = if decide (k' = k) then Some v else metadata_get m k'.
Proof.
  unfold metadata_get. rewrite foldl_app. cbn. destruct (decide (k' = k)) as [->|Hne].
  - by rewrite Dict.get_set_eq.
  - by rewrite Dict.get_set_ne.
Qed.

(** The entries the interceptor appends hide whatever the caller sent under these names. *)
Lemma metadata_get_injected m cv v k :
  metadata_get (m ++ [(py "sw8-correlation", cv); (py "sw8", v)]) k =
    if decide (k = py "sw8") then Some v
    else if decide (k = py "sw8-correlation") then Some cv else metadata_get m k.
Proof.
  change (m ++ [(py "sw8-correlation", cv); (py "sw8", v)]) with
    (m ++ [(py "sw8-correlation", cv)] ++ [(py "sw8", v)]).
  by rewrite app_assoc, !metadata_get_add.
Qed.

Section hop.
Context {AG PS AGs PSs : Type} `{!AgentOps AG} `{!ProfileOps PS} `{!AgentOps AGs} `{!ProfileOps PSs}.
Context (cfg cfgS : Config) (uuid1 : nat -> pystr) (import_time : Z) (format_exc : exn -> Z -> pystr).
Implicit Types (w : World AG PS) (t l d : nat).

(** The metadata object to fill, per client, and what the caller's object holds after. *)
Lemma metadata_object w (aio : bool) md :
  match md with Some d0 => is_Some (w_dicts w !! d0) ∧ d0 ≠ w_next w | None => True end ->
  ∃ d w0, (if aio then aio_metadata md else copy_metadata md) w = (w0, Ok d) ∧
    w_dicts w0 !! d = Some (given_headers w md) ∧
    (∀ k, k ≠ w_next w -> w_dicts w0 !!! k = w_dicts w !!! k) ∧
    d = match md with
        | Some d0 => if aio && bool_decide (given_headers w md ≠ []) then d0 else w_next w
        | None => w_next w
        end.
Proof.
  intros Hmd.
  assert (∀ m, ∃ w0, new_dict m w = (w0, Ok (w_next w)) ∧ w_dicts w0 !! w_next w = Some m ∧
    ∀ k, k ≠ w_next w -> w_dicts w0 !!! k = w_dicts w !!! k) as Hnew.
  { intros m. eexists. split; [reflexivity|]. cbn. split; [apply lookup_insert_eq|].
    intros k Hk. by rewrite lookup_total_insert_ne. }
  destruct aio.
  - unfold aio_metadata. destruct md as [d0|].
    + erewrite bind_ok by reflexivity. destruct Hmd as [[m Hm] Hne].
      cbn [given_headers]. rewrite (lookup_total_correct _ _ _ Hm). destruct m as [|kv m].
      * destruct (Hnew []) as (w0 & E & H1 & H2). by exists (w_next w), w0.
      * exists d0, w. by rewrite bool_decide_eq_true_2.
    + destruct (Hnew []) as (w0 & E & H1 & H2). by exists (w_next w), w0.
  - unfold copy_metadata. erewrite bind_ok by reflexivity.
    destruct (Hnew (given_headers w md)) as (w0 & E & H1 & H2). exists (w_next w), w0.
    split_and!; [done..|]. by destruct md.
Qed.

Lemma each_item_add w d ca cv v m :
  correlation_val (w_dicts w !!! correlation ca) = Ok cv -> carrier_val ca = Ok v ->
  w_dicts w !! d = Some m ->
  ∃ w', each_item (add_key d) ca w = (w', Ok tt) ∧
    w_dicts w' = <[d := m ++ [(py "sw8-correlation", cv); (py "sw8", v)]]> (w_dicts w).
Proof.
  intros Hc Hv Hd. unfold each_item, add_key. unfold_m. rewrite Hc. unfold_m. rewrite Hv.
  eexists. split; [reflexivity|]. cbn. apply map_eq. intros i. destruct (decide (i = d)) as [->|Hne].
  - rewrite !lookup_alter_eq, Hd, lookup_insert_eq. cbn. by rewrite <- app_assoc.
  - by rewrite !lookup_alter_ne, lookup_insert_ne.
Qed.

(** Decorating a span: its identity, the contexts and the dicts stay. *)
Definition decorated l w w' : Prop :=
  w_dicts w' = w_dicts w ∧ w_next w' = w_next w ∧ w_ctxs w' = w_ctxs w ∧
  ∀ s, w_spans w !! l = Some s -> ∃ s', w_spans w' !! l = Some s' ∧
    (cls s', context s', sid s', op s', peer s') = (cls s, context s, sid s, op s, peer s).

Lemma decorated_trans l w1 w2 w3 : decorated l w1 w2 -> decorated l w2 w3 -> decorated l w1 w3.
Proof.
  intros (H1 & H2 & H3 & H4) (G1 & G2 & G3 & G4). unfold decorated. split_and!; try congruence.
  intros s (s' & Hs' & E)%H4. destruct (G4 s' Hs') as (s'' & Hs'' & E'). exists s''. split; [done|congruence].
Qed.

Lemma tag_decorates w l tg :
  tag_overridable tg = true -> ∃ w', tag l tg w = (w', Ok tt) ∧ decorated l w w'.
Proof.
  intros H. unfold tag, get_span, add_tag. unfold_m. rewrite H. eexists. split; [reflexivity|].
  split_and!; try done. intros s Hs. cbn. rewrite lookup_alter_eq, Hs. cbn. eexists. split; [done|].
  by rewrite (lookup_total_correct _ _ _ Hs).
Qed.

Lemma layer_decorates w l ly : ∃ w', mod_span l (set_layer ly) w = (w', Ok tt) ∧ decorated l w w'.
Proof.
  eexists. split; [reflexivity|]. split_and!; try done. intros s Hs. cbn.
  rewrite lookup_alter_eq, Hs. by eexists.
Qed.

(** The traced call: the continuation gets the filled metadata. *)
Lemma intercept_body_calls w l (aio : bool) {A} (k : nat -> M (World AG PS) A) name target md
  s x tid rest ca cv v :
  w_spans w !! l = Some s -> cls s = ClsExitSpan -> w_ctxs w !! context s = Some x ->
  related_traces (segment x) = tid :: rest ->
  (inject cfg l w).2 = Ok ca -> carrier_val ca = Ok v ->
  correlation_val (w_dicts w !!! ctx_correlation x) = Ok cv -> w_next w ≠ ctx_correlation x ->
  match md with Some d0 => is_Some (w_dicts w !! d0) ∧ d0 ≠ w_next w | None => True end ->
  ∃ d w2, (intercept_body cfg l target (if aio then aio_metadata else copy_metadata) k name md w).2 = (k d w2).2 ∧
    w_dicts w2 !!! d = given_headers w md ++ [(py "sw8-correlation", cv); (py "sw8", v)] ∧
    (∀ d0, md = Some d0 -> w_dicts w2 !!! d0 =
       if aio && bool_decide (given_headers w md ≠ []) then w_dicts w2 !!! d else given_headers w md).
Proof.
  intros Hs Hcls Hx Hrel Hinj Hv Hc Hne Hmd.
  destruct (layer_decorates w l Layer.RPCFramework) as (w1 & E1 & D1).
  destruct (tag_decorates w1 l (TagGrpcMethod name) eq_refl) as (w2 & E2 & D2).
  destruct (tag_decorates w2 l (TagGrpcUrl target) eq_refl) as (w3 & E3 & D3).
  destruct (decorated_trans _ _ _ _ D1 (decorated_trans _ _ _ _ D2 D3)) as (Hd & Hnx & Hcx & Hsp).
  destruct (Hsp s Hs) as (s' & Hs' & [= Ecls Ectx Esid Eop Epeer]).
  pose proof (inject_exit cfg w l s x tid rest Hs Hcls Hx Hrel) as E.
  rewrite E in Hinj. apply Ok_inj in Hinj.
  assert (inject cfg l w3 = (w3, Ok ca)) as E4.
  { rewrite (inject_exit cfg w3 l s' x tid rest) by (rewrite ?Ectx, ?Hcx; congruence). by rewrite <- Hinj, Esid, Eop, Epeer. }
  rewrite <- Hd, <- Hnx in Hmd. destruct (metadata_object w3 aio md Hmd) as (d & w4 & E5 & Hd4 & Hk4 & Hdd).
  assert (given_headers w3 md = given_headers w md) as Eg by (by destruct md; cbn; rewrite ?Hd).
  rewrite Eg in Hd4, Hdd.
  assert (correlation ca = ctx_correlation x) as Hcor by (by rewrite <- Hinj).
  destruct (each_item_add w4 d ca cv v (given_headers w md)) as (w5 & E6 & Hd5); [|done..|].
  { rewrite Hk4, Hd by (rewrite Hcor, Hnx; done). by rewrite Hcor. }
  exists d, w5. split_and!.
  - unfold intercept_body. rewrite (bind_ok _ _ _ _ _ E1), (bind_ok _ _ _ _ _ E2), (bind_ok _ _ _ _ _ E3),
      (bind_ok _ _ _ _ _ E4).
    assert ((if aio then aio_metadata else copy_metadata) md w3 = (w4, Ok d)) as E5' by (by destruct aio).
    by rewrite (bind_ok _ _ _ _ _ E5'), (bind_ok _ _ _ _ _ E6).
  - rewrite Hd5. apply lookup_total_insert_eq.
  - intros d0 ->. destruct Hmd as [_ Hd0]. rewrite Hd5.
    destruct (aio && _); subst d; [by rewrite lookup_total_insert_eq|].
    rewrite lookup_total_insert_ne by done. rewrite Hk4 by done. by rewrite Hd.
Qed.

(** C9. One call, on the threaded or the asyncio stack.  The continuation of a traced call runs
    once, with the caller's metadata followed by the two propagation entries, and its
    outcome is the outcome.  The threaded client leaves the caller's metadata object as it
    is; the asyncio client appends to it.  A server restores from the metadata a carrier
    that refers to exactly the calling trace, segment, span, service, endpoint and target,
    whatever the caller's metadata had under the same names. *)
Theorem grpc_call_crosses w t (aio : bool) {A} (k : nat -> M (World AG PS) A) target method name md
  w0 l w1 s x tid rest ca cv v :
  wf w -> live w t -> (∀ d, calm t (k d)) -> get_method_name method = Ok name ->
  grpc_exit cfg uuid1 t name target w = (w0, Ok l) -> start t l w0 = (w1, Ok tt) ->
  w_spans w1 !! l = Some s -> cls s = ClsExitSpan -> w_ctxs w1 !! context s = Some x ->
  related_traces (segment x) = tid :: rest -> 0 <= sid s -> peer s = Some target ->
  (inject cfg l w1).2 = Ok ca -> carrier_val ca = Ok v ->
  correlation_val (w_dicts w1 !!! ctx_correlation x) = Ok cv ->
  Dict.wf (w_dicts w1 !!! ctx_correlation x) -> w_next w1 ≠ ctx_correlation x ->
  match md with Some d0 => is_Some (w_dicts w1 !! d0) ∧ d0 ≠ w_next w1 | None => True end ->
  0 <= correlation_element_max_number cfgS ->
  ∃ d w2,
    ((if aio then _intercept_aio cfg uuid1 import_time format_exc t target k method md
      else _intercept cfg uuid1 import_time format_exc t target k method md) w).2 = (k d w2).2 ∧
    w_dicts w2 !!! d = given_headers w1 md ++ [(py "sw8-correlation", cv); (py "sw8", v)] ∧
    (∀ d0, md = Some d0 -> w_dicts w2 !!! d0 =
       if aio && bool_decide (given_headers w1 md ≠ []) then w_dicts w2 !!! d else given_headers w1 md) ∧
    ∀ ws : World AGs PSs, ∃ ws' ca',
      _restore_carrier cfgS (Some (w_dicts w2 !!! d)) ws = (ws', Ok ca') ∧
      segment_ref ca' = Ok (mkRef CrossProcess (id_value tid) (id_value (seg_id (segment x))) (sid s)
        (agent_name cfg) (agent_instance_name cfg) (Some (op s)) (Some target)) ∧
      w_dicts ws' !!! correlation ca' =
        take (Z.to_nat (correlation_element_max_number cfgS + 1)) (w_dicts w1 !!! ctx_correlation x).
Proof.
  intros Hw Hl Hk Hname Hopen Hstart Hs Hcls Hx Hrel Hsid Hp Hinj Hv Hc Hwf Hne Hmd Hn.
  destruct (intercept_body_calls w1 l aio k name target md s x tid rest ca cv v)
    as (d & w2 & E2 & Hd2 & Hd0); [done..|].
  exists d, w2. split_and!; [|done..|].
  - assert (∀ o, calm t ((if aio then aio_metadata else copy_metadata) o : M (World AG PS) nat)) as Ho.
    { intros o. destruct aio; unfold copy_metadata, aio_metadata; calm. }
    assert ((if aio then _intercept_aio cfg uuid1 import_time format_exc t target k method md
      else _intercept cfg uuid1 import_time format_exc t target k method md) =
      intercept cfg uuid1 import_time format_exc t target (if aio then aio_metadata else copy_metadata) k method md)
      as -> by by destruct aio.
    unfold intercept. rewrite Hname. erewrite bind_ok by reflexivity.
    pose proof (with_new_runs cfg import_time format_exc w t _ _ Hw Hl
      (opens_grpc_exit cfg uuid1 t name target w Hw)
      (fun l => calm_intercept_body cfg t target _ k name md l Ho Hk)) as H.
    rewrite Hopen in H. destruct H as (w1' & w4 & E1 & _ & _ & _ & _ & ->).
    rewrite Hstart in E1. injection E1 as <-. by rewrite E2.
  - intros ws. eapply exit_carrier_read; try done; cbn [default from_option id];
      by rewrite Hd2, metadata_get_injected.
Qed.
End hop.

(** ** Methods without a handler *)

(** For a method nobody serves the continuation gives [None], and the interceptor raises
    instead of passing it on. *)
Lemma unregistered_method_raises {AG PS A} `{!AgentOps AG} `{!ProfileOps PS} cfg uuid1 import_time
  format_exc rpc_error t metadata method peer (next : M (World AG PS) (option (RpcMethodHandler (behaviour A)))) w w' :
  next w = (w', Ok None) ->
  intercept_service cfg uuid1 import_time format_exc rpc_error t metadata method peer next w =
    (w', Raise AttributeError).
Proof. intros H. unfold intercept_service. by rewrite (bind_ok _ _ _ _ _ H). Qed.

(** ** Runs *)

#[local] Instance grpc_profiler : ProfileOps Service := Profile_ops default_config.

(** A request being served whose handler calls [/shop.Cart/Get] with metadata that still
    carries an older [sw8] entry. *)
Definition stale_metadata : list (pystr * pystr) := [(py "sw8", py "1-stale"); (py "lang", py "en")].
Definition grpc_world : DW := upd_dicts (<[100%nat := stale_metadata]>) serving_world.
Definition grpc_exit_world : DW * nat :=
  match grpc_exit default_config demo_uuid 1 (py "/shop.Cart/Get") (py "cart:50051") grpc_world with
  | (w, Ok l) => (w, l)
  | (w, Raise _) => (w, 0%nat)
  end.
Definition grpc_call_world : DW := (start 1 grpc_exit_world.2 grpc_exit_world.1).1.
Definition grpc_echo (d : nat) : M DW (list (pystr * pystr)) := gets (fun w => w_dicts w !!! d).

Lemma wf_upd_dicts (w : DW) f : wf w -> wf (upd_dicts f w).
Proof. intros H. exact H. Qed.

Lemma grpc_usable : wf grpc_world ∧ live grpc_world 1.
Proof.
  split; [apply wf_upd_dicts; eapply reachable_wf, serving_reachable|]. apply live_spans. vm_compute. repeat constructor.
Qed.

Lemma grpc_echo_calm t d : calm t (grpc_echo d).
Proof. apply calm_gets. Qed.

Lemma grpc_call_crosses_witness :
  ∃ d w2, (_intercept_aio default_config demo_uuid 0 demo_format 1 (py "cart:50051") grpc_echo
      (NameBytes (py "/shop.Cart/Get")) (Some 100%nat) grpc_world).2 = (grpc_echo d w2).2 ∧
    metadata_get (w_dicts w2 !!! d) (py "lang") = Some (py "en") ∧
    ∃ ws' ca', _restore_carrier default_config (Some (w_dicts w2 !!! d)) demo_world = (ws', Ok ca') ∧
      ∃ ref, segment_ref ca' = Ok ref ∧ ref_client_address ref = Some (py "cart:50051") ∧ ref_span_id ref = 1.
Proof.
  destruct (grpc_call_crosses (AGs := Agent) (PSs := Service) default_config default_config demo_uuid 0
    demo_format grpc_world 1 true grpc_echo (py "cart:50051") (NameBytes (py "/shop.Cart/Get"))
    (py "/shop.Cart/Get") (Some 100%nat) grpc_exit_world.1 grpc_exit_world.2 grpc_call_world
    (w_spans grpc_call_world !!! grpc_exit_world.2)
    (w_ctxs grpc_call_world !!! context (w_spans grpc_call_world !!! grpc_exit_world.2))
    (mkID NewID (py "id1")) []
    (match (inject default_config grpc_exit_world.2 grpc_call_world).2 with Ok ca => ca | Raise _ => empty_carrier 0 end)
    []
    (match (inject default_config grpc_exit_world.2 grpc_call_world).2 with
     | Ok ca => match carrier_val ca with Ok v => v | Raise _ => [] end | Raise _ => [] end))
    as (d & w2 & E & Hd & _ & Hs).
  4-10, 12-15: vm_compute; reflexivity.
  - apply grpc_usable.
  - apply grpc_usable.
  - apply grpc_echo_calm.
  - vm_compute. discriminate.
  - vm_compute. constructor.
  - vm_compute. discriminate.
  - split; [eexists; vm_compute; reflexivity | vm_compute; discriminate].
  - vm_compute. discriminate.
  - exists d, w2. split; [exact E|]. split; [rewrite Hd; vm_compute; reflexivity|].
    destruct (Hs demo_world) as (ws' & ca' & E' & Hr & _).
    exists ws', ca'. split; [exact E'|]. eexists. split; [exact Hr|]. split; vm_compute; reflexivity.
Defined.

(** A streaming handler whose third response is not wanted any more. *)
Lemma grpc_plugin_balanced_witness :
  ∃ w', invoke_intercept_method_response_streaming default_config demo_uuid 0 demo_format (fun _ => None) 1
      None (NameStr (py "/shop.Cart/List")) (mret (py "ipv4:10.0.0.9:4711"))
      [mret 1; mret 2; mret 3] (mret tt) (fun n => mret (n <? 2)) serving_world = (w', Ok tt) ∧
    stack w' 1 = stack serving_world 1.
Proof.
  destruct (grpc_plugin_balanced default_config demo_uuid 0 demo_format (fun _ => None) 1 (fun _ => mret 1)
    (raise RuntimeError) [mret 1; mret 2; mret 3] (mret tt) (fun n => mret (n <? 2))
    (mret (py "ipv4:10.0.0.9:4711")) (fun _ => calm_ret 1 1) (calm_raise 1 RuntimeError)
    (Forall_cons_2 _ _ _ (calm_ret 1 1) (Forall_cons_2 _ _ _ (calm_ret 1 2)
       (Forall_cons_2 _ _ _ (calm_ret 1 3) (Forall_nil_2 _))))
    (calm_ret 1 tt) (fun n => calm_ret 1 (n <? 2)) (calm_ret 1 _)) as (_ & _ & H).
  destruct serving_usable as [Hw Hl].
  specialize (H None (NameStr (py "/shop.Cart/List")) 3%nat serving_world Hw Hl). cbn [take] in H.
  unfold spec in H. destruct (invoke_intercept_method_response_streaming _ _ _ _ _ _ _ _ _ _ _ _ _) as [w' r] eqn:E.
  assert (r = Ok tt) as ->.
  { change (snd (w', r) = Ok tt). rewrite <- E. vm_compute. reflexivity. }
  exists w'. split; [reflexivity|]. apply (grow_stacks _ _ (proj1 (proj2 H))).
Defined.
