(* ===== verification/PluginSanic.v ===== *)
(** * The listeners for Sanic 21 and later (plugins/sw_sanic_v2.py)

    The span of a request is started by one listener and stopped by another, instead of a
    [with] block: the tracer is left as it was exactly when the second listener runs. *)

From S2P Require Import Prelude PyData PyText Codec Carrier Config Filter Sampling.
From S2P Require Import TraceData Trace TraceInv TraceSpec TraceProps TracePropagation PluginBase PluginHttp.
From S2P Require Import PluginHop Agent Profile Scenarios.

Section sanic.
Context {AG PS : Type} `{!AgentOps AG} `{!ProfileOps PS}.
Context (cfg : Config) (uuid1 : nat -> pystr) (import_time : Z) (format_exc : exn -> Z -> pystr).
Abbreviation W := (World AG PS).
Abbreviation MW := (M W).
Implicit Types (w : W) (t l : nat).

(** [request.method], [path], [url], [remote_addr or ip], [port] and [args]. *)
Record sanic_request := mkSanicRequest {
  sr_method : pystr; sr_path : pystr; sr_url : pystr; sr_remote : pystr; sr_port : pystr;
  sr_args : list (pystr * list pystr)
}.

Definition decorate_request l (rq : sanic_request) : MW unit :=
  _ ← describe l Component.Sanic (Some (host_port (sr_remote rq) (sr_port rq))) (sr_method rq)
        (before 63 (sr_url rq));
  tag_params cfg l (plugin_sanic_collect_http_params cfg) (sr_args rq).

(** The span ends up in [request.ctx._sw_span]. *)
Definition sw_on_request t (get : pystr -> option pystr) (rq : sanic_request) : MW nat :=
  ca ← read_carrier cfg (by_capitalized get);
  l ← http_entry cfg uuid1 t (sr_method rq) (sr_path rq) ca None;
  _ ← start t l;
  _ ← decorate_request l rq;
  mret l.

Definition sw_on_response t (_sw_span : option nat) (response : option Z) : MW unit :=
  match _sw_span with
  | None => mret tt
  | Some l =>
      _ ← (match response with Some status => tag_status l status | None => mret tt end);
      _ ← stop t l;
      mret tt
  end.

(** One request in the framework: the request listener, the handler, and, when that has
    produced a response (its status), the response listener. *)
Definition sanic_serve t get rq (handler : MW Z) : MW Z :=
  l ← sw_on_request t get rq;
  status ← handler;
  _ ← sw_on_response t (Some l) (Some status);
  mret status.

(** ** Requests with and without a response *)

(** The two listeners as one [with] block around the handler. *)
Definition sanic_body l rq (handler : MW Z) : MW Z :=
  _ ← decorate_request l rq; status ← handler; _ ← tag_status l status; mret status.

(** When the body of a [with] block returns, writing [start] and [stop] out is the same. *)
Lemma with_span_returns {A} w t l (body : MW A) w1 w2 a :
  start t l w = (w1, Ok tt) -> body w1 = (w2, Ok a) ->
  with_span cfg import_time format_exc t l body w = (_ ← stop t l; mret a) w2.
Proof.
  intros Hs Hb. unfold with_span. rewrite (bind_ok _ _ _ _ _ Hs).
  rewrite (bind_ok _ _ w1 w2 a); [done|]. unfold try_except. by rewrite Hb.
Qed.

Lemma calm_decorate t l rq : calm t (decorate_request l rq).
Proof. unfold decorate_request, describe, tag_params. calm. Qed.

Lemma decorate_ok l rq w : ∃ w', decorate_request l rq w = (w', Ok tt).
Proof.
  unfold decorate_request, describe.
  destruct (tag_ok (mod_span l (set_peer (Some (host_port (sr_remote rq) (sr_port rq))))
    (mod_span l (set_component Component.Sanic) (mod_span l (set_layer Layer.Http) w).1).1).1 l
    (TagHttpMethod (sr_method rq)) eq_refl) as (w1 & E1 & _).
  destruct (tag_ok w1 l (TagHttpURL (before 63 (sr_url rq))) eq_refl) as (w2 & E2 & _).
  rewrite (bind_ok _ _ w w2 tt).
  - unfold tag_params. destruct (sr_args rq) as [|p ps]; [by exists w2|].
    destruct (plugin_sanic_collect_http_params cfg); [|by exists w2].
    edestruct (tag_ok w2 l) as (w3 & E3 & _); [|by exists w3; apply E3]. reflexivity.
  - do 3 (erewrite bind_ok by reflexivity). by rewrite (bind_ok _ _ _ _ _ E1).
Qed.

(** A request that gets its response leaves every span running or stopped as it was and
    every list of active spans unchanged. *)
Theorem sanic_response_restores t get rq (handler : MW Z) w w' status :
  wf w -> live w t -> calm t handler ->
  sanic_serve t get rq handler w = (w', Ok status) -> wf w' ∧ grow w w'.
Proof.
  intros Hw Hl Hh H. unfold sanic_serve, sw_on_request, sw_on_response in H.
  apply bind_inv in H as (wd & l & H0 & H). apply bind_inv in H0 as (wc & ca & Hr & H0).
  apply bind_inv in H0 as (w0 & l' & Ho & H0). apply bind_inv in H0 as (w1 & [] & Hs & H0).
  apply bind_inv in H0 as (w2 & [] & Hd & [= -> ->]).
  apply bind_inv in H as (w3 & st & Hha & H). apply bind_inv in H as (w5 & [] & H & [= -> ->]).
  apply bind_inv in H as (w4 & [] & Ht & H). apply bind_inv in H as (w6 & b & Hst & [= ->]).
  pose proof (calm_read_carrier cfg t (by_capitalized get) w Hw Hl) as Hc. unfold spec in Hc.
  rewrite Hr in Hc. destruct Hc as (Hwc & Gc & _).
  pose proof (with_new_runs cfg import_time format_exc wc t _ (fun l => sanic_body l rq handler) Hwc
    (live_grow _ _ _ Hw Gc Hl) (opens_http_entry cfg uuid1 t (sr_method rq) (sr_path rq) ca None wc Hwc)) as Hrun.
  rewrite Ho in Hrun. destruct Hrun as (w1' & w4' & Hs' & _ & Hw4 & _ & G4 & E).
  { intros l0. unfold sanic_body. calm. apply calm_decorate. }
  rewrite Hs in Hs'. injection Hs' as <-.
  assert (sanic_body l rq handler w1 = (w4, Ok status)) as Hb.
  { unfold sanic_body. by rewrite (bind_ok _ _ _ _ _ Hd), (bind_ok _ _ _ _ _ Hha), (bind_ok _ _ _ _ _ Ht). }
  unfold with_new in E. rewrite (bind_ok _ _ _ _ _ Ho) in E.
  rewrite (with_span_returns _ _ _ _ _ _ _ Hs Hb), (bind_ok _ _ _ _ _ Hst) in E. injection E as <- _.
  split; [done | by etrans].
Qed.

(** A request that ends without a response, because its handler raises or its task is
    cancelled, leaves its span active: it stays on the list of active spans, so its segment
    is never handed over. *)
Theorem sanic_without_response t get rq (handler : MW Z) w ca wc l w0 e :
  wf w -> live w t -> calm t handler -> stack w t = [] ->
  read_carrier cfg (by_capitalized get) w = (wc, Ok ca) ->
  http_entry cfg uuid1 t (sr_method rq) (sr_path rq) ca None wc = (w0, Ok l) ->
  (∀ w2, (handler w2).2 = Raise e) ->
  ∃ w', sanic_serve t get rq handler w = (w', Raise e) ∧ stack w' t = [l].
Proof.
  intros Hw Hl Hh Ht Hr Ho He.
  pose proof (calm_read_carrier cfg t (by_capitalized get) w Hw Hl) as Hc. unfold spec in Hc.
  rewrite Hr in Hc. destruct Hc as (Hwc & Gc & _).
  pose proof (opens_http_entry cfg uuid1 t (sr_method rq) (sr_path rq) ca None wc Hwc) as Hop.
  unfold spec in Hop. rewrite Ho in Hop. destruct Hop as (Hw0 & G0 & [(Hn & k & Hk & Hd)|Hla]).
  2:{ by rewrite (grow_stacks _ _ Gc), Ht in Hla. }
  destruct (start_result w0 t l k Hw0 Hk) as (w1 & Hs & Hw1 & HS1 & _ & HT1).
  assert (stack w1 t = [l]) as Hst.
  { rewrite HT1, (grow_stacks _ _ G0), (grow_stacks _ _ Gc), Ht. by rewrite decide_True by done. }
  assert (live w1 t) as Hl1.
  { intros l0 k0. rewrite Hst. intros ->%list_elem_of_singleton. rewrite HS1, lookup_insert_eq.
    intros [= <-]. cbn. lia. }
  destruct (decorate_ok l rq w1) as (w2 & Hdec).
  pose proof (calm_decorate t l rq w1 Hw1 Hl1) as Hc2. unfold spec in Hc2. rewrite Hdec in Hc2.
  destruct Hc2 as (Hw2 & G2 & _).
  pose proof (Hh w2 Hw2 (live_grow _ _ _ Hw1 G2 Hl1)) as Hc3. unfold spec in Hc3. specialize (He w2).
  destruct (handler w2) as [w3 [a|e']] eqn:Eh; [done|]. cbn in He. injection He as ->.
  destruct Hc3 as [_ G3]. exists w3. split; [|by rewrite (grow_stacks _ _ G3), (grow_stacks _ _ G2)].
  unfold sanic_serve, sw_on_request. rewrite (bind_ok _ _ w w2 l).
  - by rewrite (bind_raise _ _ _ _ _ Eh).
  - by rewrite (bind_ok _ _ _ _ _ Hr), (bind_ok _ _ _ _ _ Ho), (bind_ok _ _ _ _ _ Hs), (bind_ok _ _ _ _ _ Hdec).
Qed.
End sanic.

(** ** A run: a request whose task is cancelled *)

#[local] Instance sanic_profiler : ProfileOps Service := Profile_ops default_config.

Definition sanic_demo (handler : M DW Z) : list nat :=
  stack (sanic_serve default_config demo_uuid 1 (fun _ => None)
    (mkSanicRequest (py "GET") (py "/v1") (py "http://api/v1") (py "10.0.0.9") (py "80") []) handler demo_world).1 1.

Example cancelled_request_stays_active :
  length (sanic_demo (mret 200)) = 0%nat ∧ length (sanic_demo (raise CancelledError)) = 1%nat.
Proof. vm_compute. done. Qed.
