(* ===== verification/PluginProps.v ===== *)
(** * What the plugins leave out: ignored methods, and credentials in URLs *)

From S2P Require Import Prelude PyData PyText Config PluginBase.

(** ** Ignored methods *)

(** The method options, read as a list of names: a method is ignored iff one of the names
    matches at its start, and, for the last name only, nothing but a line end follows. *)
Definition ignored_by (names : list pystr) (m : pystr) : Prop :=
  ∃ i p r, names !! i = Some p ∧ re_prefix p m = Some r ∧ (S i = length names -> re_dollar r = true).

Lemma re_methods_spec names m : re_methods names m = true ↔ ignored_by names m.
Proof.
  induction names as [|p [|q ps] IH].
  - split; [done|]. by intros (i & p & r & Hi & _).
  - cbn. split.
    + destruct (re_prefix p m) as [r|] eqn:E; [|done]. intros H. by exists 0%nat, p, r.
    + intros (i & p' & r & Hi & E & Hr). destruct i as [|i]; [|done]. injection Hi as <-.
      rewrite E. by apply Hr.
  - cbn [re_methods]. destruct (re_prefix p m) as [r|] eqn:E.
    + split; [|done]. intros ?. exists 0%nat, p, r. split_and!; [done..|]. cbn. lia.
    + rewrite IH. split.
      * intros (i & p' & r & Hi & Hp & Hr). exists (S i), p', r. split_and!; [done..|].
        intros H. apply Hr. cbn in *. lia.
      * intros (i & p' & r & Hi & Hp & Hr). destruct i as [|i]; [cbn in Hi; congruence|].
        exists i, p', r. split_and!; [done..|]. intros H. apply Hr. cbn in *. lia.
Qed.

Lemma re_prefix_refl p : (∀ c, c ∈ p -> c ≠ 10) -> re_prefix p p = Some [].
Proof.
  intros H. induction p as [|c p IH]; [done|]. cbn.
  assert (re_char c c = true) as ->; [|apply IH; set_solver].
  unfold re_char. destruct (c =? 46) eqn:E; [|by rewrite Z.eqb_refl].
  by apply Z.eqb_eq in E as ->.
Qed.

(** The HTTP and gRPC method options ignore every listed name, but not only those:
    a method is ignored iff some listed name other than the last is a prefix of it, up to
    case, or the last name is all of it.  With an empty name before the last one, as in
    [",GET"], nothing is traced at all. *)
Theorem ignored_methods (cfg : Config) m :
  let http := method_names (plugin_http_ignore_method cfg) in
  let grpc := method_names (plugin_grpc_ignored_methods cfg) in
  (ignore_http_method_check cfg m = true ↔ ignored_by http m) ∧
  (ignore_grpc_method_check cfg m = true ↔ ignored_by grpc m) ∧
  (m ∈ grpc -> (∀ c, c ∈ m -> c ≠ 10) -> ignore_grpc_method_check cfg m = true) ∧
  (∀ i, grpc !! i = Some [] -> S i ≠ length grpc -> ignore_grpc_method_check cfg m = true).
Proof.
  intros http grpc. unfold ignore_http_method_check, ignore_grpc_method_check.
  split_and!; [apply re_methods_spec..| |].
  - intros [i Hi]%list_elem_of_lookup Hm. apply re_methods_spec.
    exists i, m, []. split_and!; [done | by apply re_prefix_refl | done].
  - intros i Hi Hn. apply re_methods_spec. by exists i, [], m.
Qed.

(** [/svc/GetAll] is ignored because [/svc/Get] is, unless that comes last. *)
Example get_all_ignored :
  re_methods (method_names (py "/svc/Get, /svc/Put")) (py "/svc/GetAll") = true ∧
  re_methods (method_names (py "/svc/Put, /svc/Get")) (py "/svc/GetAll") = false.
Proof. by vm_compute. Qed.

(** ** Credentials *)

Lemma after_last_absent c s : c ∉ after_last c s.
Proof.
  induction s as [|x s IH]; cbn; [apply not_elem_of_nil|].
  destruct (contains c s) eqn:E; [done|].
  assert (c ∉ s) as Hs.
  { intros Hin. apply not_true_iff_false in E. apply E, existsb_exists. exists c.
    split; [by apply list_elem_of_In | apply Z.eqb_refl]. }
  destruct (Z.eqb_spec x c); [done|]. rewrite not_elem_of_cons. naive_solver.
Qed.

Lemma partition_subset c s a f b x : partition c s = (a, f, b) -> x ∈ a ∨ x ∈ b -> x ∈ s.
Proof.
  revert a f b. induction s as [|y s IH]; intros a f b; cbn.
  - intros [= <- <- <-]. intros [H|H]; by apply elem_of_nil in H.
  - destruct (y =? c).
    + intros [= <- <- <-] [H|H]; [by apply elem_of_nil in H | by right].
    + destruct (partition c s) as [[a' f'] b'] eqn:E. intros [= <- <- <-].
      rewrite !elem_of_cons. specialize (IH a' f' b' eq_refl). tauto.
Qed.

Lemma hostinfo_subset n x : x ∈ (hostinfo n).1 -> x ∈ after_last 64 n.
Proof.
  unfold hostinfo. destruct (partition 91 (after_last 64 n)) as [[a f] b] eqn:E1. destruct f.
  - destruct (partition 93 b) as [[h f'] r] eqn:E2. cbn. intros Hx.
    eapply partition_subset; [exact E1|]. right. eapply partition_subset; [exact E2|]. by left.
  - destruct (partition 58 _) as [[h f'] r] eqn:E2. cbn. intros Hx.
    eapply partition_subset; [exact E2|]. by left.
Qed.

Lemma lower_keeps s : 64 ∉ s -> 64 ∉ lower s.
Proof.
  intros H (c & E & Hc)%list_elem_of_fmap. apply H. unfold lower_char in E.
  destruct ((65 <=? c) && (c <=? 90)) eqn:R; [lia|].
  destruct (c =? 8490); [lia | by subst].
Qed.

Lemma hostname_clean u h : hostname u = Some h -> 64 ∉ h.
Proof.
  unfold hostname. pose proof (hostinfo_subset (url_netloc u) 64) as Hs.
  destruct (hostinfo (url_netloc u)).1 as [|z zs] eqn:Eh; [done|].
  destruct (partition 37 (z :: zs)) as [[a f] b] eqn:E. intros [= <-].
  assert (64 ∉ z :: zs) as Hn by (intros Hin; by eapply after_last_absent, Hs).
  rewrite !not_elem_of_app. split_and!.
  - apply lower_keeps. intros Hin. apply Hn. eapply partition_subset; [exact E|by left].
  - destruct f; [|apply not_elem_of_nil]. rewrite list_elem_of_singleton. lia.
  - intros Hin. apply Hn. eapply partition_subset; [exact E|by right].
Qed.

Lemma number_clean n : 64 ∉ str_of_int n.
Proof.
  destruct (Z.le_gt_cases 0 n) as [Hn|Hn].
  - intros H%str_of_nat_digits; [|done]. unfold is_ascii_digit in H. lia.
  - assert (str_of_int n = 45 :: str_of_int (- n)) as ->.
    { unfold str_of_int. rewrite (proj2 (Z.ltb_lt n 0)), (proj2 (Z.ltb_ge (- n) 0)) by lia. done. }
    rewrite not_elem_of_cons. split; [lia|].
    intros H%str_of_nat_digits; [|lia]. unfold is_ascii_digit in H. lia.
Qed.

(** [sw_urlparse] keeps every part of a URL but the network location, which ends up
    without user name and password: it contains no [@].  If the port is not a number up to
    65535, though, the location stays as it was, credentials included. *)
Theorem url_credentials_removed u :
  (url_scheme (sw_urlparse u), url_path (sw_urlparse u), url_query (sw_urlparse u)) =
    (url_scheme u, url_path u, url_query u) ∧
  match port u with
  | Ok p => 64 ∉ url_netloc (sw_urlparse u) ∧
      ∀ h, hostname u = Some h -> url_netloc (sw_urlparse u) =
        h ++ match p with Some n => if n =? 0 then [] else [58] ++ str_of_int n | None => [] end
  | Raise _ => url_netloc (sw_urlparse u) = url_netloc u
  end.
Proof.
  split; [done|]. unfold sw_urlparse, safe_netloc. cbn [url_netloc].
  destruct (port u) as [p|e]; [|done]. cbn [mbind res_bind]. split; [|by intros h ->].
  rewrite not_elem_of_app. split.
  - destruct (hostname u) eqn:E; [by eapply hostname_clean|]. vm_compute. set_solver by lia.
  - destruct p as [n|]; [|apply not_elem_of_nil]. destruct (n =? 0); [apply not_elem_of_nil|].
    cbn. rewrite not_elem_of_cons. split; [lia | apply number_clean].
Qed.

Example illegal_port_keeps_password :
  url_netloc (sw_urlparse (mkUrl (py "http") (py "user:pw@Api:80x") [] [] [] [])) = py "user:pw@Api:80x" ∧
  url_netloc (sw_urlparse (mkUrl (py "http") (py "user:pw@Api:80") [] [] [] [])) = py "api:80".
Proof. by vm_compute. Qed.
