(* ===== verification/PluginInstall.v ===== *)
(** * Installing the plugins (plugins/__init__.py, utils/comparator.py)

    Which plugin modules are installed, in which order, and what a failing one does to the
    others.  Versions and their order ([packaging.version]), regular expressions and the
    plugin modules themselves are arguments. *)

From S2P Require Import Prelude PyData PyText Config.

Section installation.
(** [packaging.version]: [parse] and the comparisons of versions. *)
Context {V : Type} (parse : pystr -> res V) (vlt veq : V -> V -> bool).
(** [re.compile] and [pattern.match] *)
Context {P : Type} (re_compile : pystr -> res P) (re_match : P -> pystr -> bool).
(** [importlib.metadata.version]; [None]: the package is not installed. *)
Context (get_pkg_version : pystr -> option pystr).

(** ** Version rules *)

Definition operators (symbol : pystr) : option (V -> V -> bool) :=
  if bool_decide (symbol = py "<") then Some (fun cv ev => vlt cv ev)
  else if bool_decide (symbol = py "<=") then Some (fun cv ev => vlt cv ev || veq cv ev)
  else if bool_decide (symbol = py "==") then Some (fun cv ev => veq cv ev)
  else if bool_decide (symbol = py ">=") then Some (fun cv ev => vlt ev cv || veq cv ev)
  else if bool_decide (symbol = py ">") then Some (fun cv ev => vlt ev cv)
  else if bool_decide (symbol = py "!=") then Some (fun cv ev => negb (veq cv ev))
  else None.

Definition check (rule_unit : pystr) (current_version : V) : res bool :=
  match rule_unit with
  | [] | [_] => Raise IndexError
  | _ :: c :: _ =>
      let idx := if c =? 61 then 2%nat else 1%nat in
      ev ← parse (drop idx rule_unit);
      match operators (take idx rule_unit) with
      | None => Raise VersionRuleException
      | Some f => mret (f current_version ev)
      end
  end.

(** [[check(unit, current_version) for unit in rule_units]] *)
Fixpoint check_units (units : list pystr) (cv : V) : res (list bool) :=
  match units with
  | [] => mret []
  | u :: us => b ← check u cv; bs ← check_units us cv; mret (b :: bs)
  end.

Fixpoint check_rules (rules : list pystr) (cv : V) : res bool :=
  match rules with
  | [] => mret false
  | rule :: rules' =>
      if negb (contains 32 rule) then
        b ← (check rule cv : res bool);
        if (b : bool) then mret true else check_rules rules' cv
      else
        results ← check_units (split_on 32 rule) cv;
        if existsb negb results then check_rules rules' cv else mret true
  end.

(** A plugin module: [version_rule], and what executing and installing it does.  [None] of
    [module_install]: there is no [install] function. *)
Record Module := mkModule {
  modname : pystr;
  exec_module : res unit;
  version_rule : option (pystr * list pystr);
  module_install : option (res unit)
}.

Definition pkg_version_check (plugin : Module) : res bool :=
  match version_rule plugin with
  | None => mret true
  | Some (name, rules) =>
      match get_pkg_version name with
      | None => mret true
      | Some current => cv ← parse current; check_rules rules cv
      end
  end.

(** ** The loop over the modules *)

(** The state: the modules whose [install] was called, in order, with its outcome. *)
Abbreviation MI := (M (list (pystr * res unit))).

Fixpoint compile_all (patterns : list pystr) : res (list P) :=
  match patterns with
  | [] => mret []
  | p :: ps => match strip p with
               | [] => compile_all ps
               | s => q ← re_compile s; qs ← compile_all ps; mret (q :: qs)
               end
  end.

Definition install_one (disable_patterns : list P) (m : Module) : MI unit :=
  if existsb (fun q => re_match q (modname m)) disable_patterns then mret tt
  else
    _ ← lift (exec_module m);
    supported ← lift (pkg_version_check m);
    if negb supported then mret tt
    else match module_install m with
         | None => mret tt
         | Some r =>
             _ ← modify (fun log => log ++ [(modname m, r)]);
             match r with
             | Ok _ => mret tt
             | Raise e => if is_Exception e then mret tt else raise e
             end
         end.

Definition install (cfg : Config) (modules : list Module) : MI unit :=
  disable_patterns ← lift (compile_all (agent_disable_plugins cfg));
  for_each modules (install_one disable_patterns).

(** ** What is installed *)

(** The declarative reading of a rule list: some rule holds whose every unit holds. *)
Definition satisfies (cv : V) (rules : list pystr) : bool :=
  existsb (fun rule => forallb (fun u => bool_decide (check u cv = Ok true)) (split_on 32 rule)) rules.

(** Every unit of every rule is well formed. *)
Definition rules_ok (cv : V) (rules : list pystr) : Prop :=
  ∀ rule u, rule ∈ rules -> u ∈ split_on 32 rule -> ∃ b, check u cv = Ok b.

Lemma check_units_ok us cv :
  (∀ u, u ∈ us -> ∃ b, check u cv = Ok b) ->
  ∃ bs, check_units us cv = Ok bs ∧
    existsb negb bs = negb (forallb (fun u => bool_decide (check u cv = Ok true)) us).
Proof.
  induction us as [|u us IH]; intros H; [by exists []|]. cbn [check_units].
  destruct (H u ltac:(left)) as [b Hb]. destruct IH as (bs & Hbs & E); [intros; apply H; by right|].
  rewrite Hb, Hbs. exists (b :: bs). split; [done|]. cbn. rewrite Hb, E.
  destruct b; [by rewrite bool_decide_eq_true_2|]. by rewrite bool_decide_eq_false_2.
Qed.

Lemma split_on_no_sep s : contains 32 s = false -> split_on 32 s = [s].
Proof.
  intros H. apply split_on_single. intros Hin. apply not_true_iff_false in H. apply H.
  apply existsb_exists. exists 32. split; [by apply list_elem_of_In | done].
Qed.

(** The loop with its two branches and its early return decides the declarative reading. *)
Theorem check_rules_spec cv rules : rules_ok cv rules -> check_rules rules cv = Ok (satisfies cv rules).
Proof.
  induction rules as [|rule rules IH]; intros H; [done|]. cbn [check_rules].
  assert (check_rules rules cv = Ok (satisfies cv rules)) as E.
  { apply IH. intros r u Hr. apply H. by right. }
  assert (∀ u, u ∈ split_on 32 rule -> ∃ b, check u cv = Ok b) as Hu by (intros u; apply H; left).
  unfold satisfies. cbn [existsb]. fold (satisfies cv rules). destruct (contains 32 rule) eqn:Hc; cbn [negb].
  - destruct (check_units_ok _ _ Hu) as (bs & -> & Hbs). cbn [mbind res_bind]. rewrite Hbs, E.
    by destruct (forallb _ (split_on 32 rule)).
  - apply split_on_no_sep in Hc. rewrite Hc in *. destruct (Hu rule) as [b Hb]; [left|].
    rewrite Hb. cbn. destruct b; [by rewrite Hb, bool_decide_eq_true_2|].
    by rewrite Hb, bool_decide_eq_false_2.
Qed.

(** A module that is to be installed. *)
Definition wanted (patterns : list P) (m : Module) : bool :=
  negb (existsb (fun q => re_match q (modname m)) patterns) &&
  bool_decide (pkg_version_check m = Ok true) &&
  match module_install m with Some _ => true | None => false end.

(** The module loads and its rules can be checked, and its installation ends with at most an
    ordinary exception. *)
Definition well_behaved (patterns : list P) (m : Module) : Prop :=
  existsb (fun q => re_match q (modname m)) patterns = false ->
  exec_module m = Ok tt ∧ (∃ b, pkg_version_check m = Ok b) ∧
  ∀ e, module_install m = Some (Raise e) -> is_Exception e = true.

Definition outcome (m : Module) : pystr * res unit :=
  (modname m, match module_install m with Some r => r | None => Ok tt end).

Lemma install_one_runs patterns m log :
  well_behaved patterns m ->
  install_one patterns m log = ((if wanted patterns m then log ++ [outcome m] else log), Ok tt).
Proof.
  intros H. unfold install_one, wanted, outcome. destruct (existsb _ patterns) eqn:Hd; [done|].
  destruct (H Hd) as (-> & [b Hb] & He). rewrite Hb. unfold_m. destruct b; cbn [negb andb].
  - rewrite bool_decide_eq_true_2 by done. destruct (module_install m) as [[[]|e]|]; cbn; [done| |done].
    by rewrite (He e).
  - by rewrite bool_decide_eq_false_2.
Qed.

(** Installing the plugins calls [install] of exactly the modules that no disable
    pattern matches, that the installed package version allows and that have an [install]
    function, each once and in the order of discovery: a plugin whose installation raises an
    exception does not keep the others from being installed, and [install] itself returns. *)
Theorem install_covers (cfg : Config) modules patterns :
  compile_all (agent_disable_plugins cfg) = Ok patterns ->
  Forall (well_behaved patterns) modules ->
  install cfg modules [] = (outcome <$> List.filter (wanted patterns) modules, Ok tt).
Proof.
  intros Hp Hm. unfold install. rewrite Hp. erewrite bind_ok by reflexivity.
  change (outcome <$> List.filter (wanted patterns) modules) with
    ([] ++ (outcome <$> List.filter (wanted patterns) modules)). generalize (@nil (pystr * res unit)).
  induction Hm as [|m ms Hm _ IH]; intros log; [by rewrite app_nil_r|].
  cbn [for_each]. rewrite (bind_ok _ _ _ _ _ (install_one_runs patterns m log Hm)). rewrite IH.
  cbn [List.filter]. destruct (wanted patterns m); [|done]. by rewrite fmap_cons, <- app_assoc.
Qed.

(** A module that fails to load, or has a malformed rule, ends the whole installation. *)
Lemma install_stops patterns m ms log e :
  existsb (fun q => re_match q (modname m)) patterns = false ->
  exec_module m = Raise e ∨ (exec_module m = Ok tt ∧ pkg_version_check m = Raise e) ->
  for_each (m :: ms) (install_one patterns) log = (log, Raise e).
Proof.
  intros Hd H. cbn [for_each]. unfold install_one. rewrite Hd. unfold_m.
  by destruct H as [-> | [-> ->]].
Qed.
End installation.

(** ** A run: versions as lists of numbers *)

Definition demo_parse (s : pystr) : res Z := match s with c :: _ => Ok (c - 48) | [] => Raise ValueError end.
Definition demo_compile (s : pystr) : res pystr := Ok s.
Definition demo_match (q s : pystr) : bool := startswith q s.
Definition demo_version (name : pystr) : option pystr :=
  if bool_decide (name = py "flask") then Some (py "3") else None.
Definition demo_modules : list Module := [
  mkModule (py "sw_flask") (Ok tt) (Some (py "flask", [py ">=1 <3"; py "==3"])) (Some (Raise OtherException));
  mkModule (py "sw_kafka") (Ok tt) None (Some (Ok tt));
  mkModule (py "sw_redis") (Ok tt) (Some (py "flask", [py ">3"])) (Some (Ok tt));
  mkModule (py "sw_sanic") (Ok tt) None None;
  mkModule (py "sw_urllib3") (Ok tt) None (Some (Ok tt))].


Lemma install_covers_witness :
  install demo_parse Z.ltb Z.eqb demo_compile demo_match demo_version default_config demo_modules [] =
    ([(py "sw_flask", Raise OtherException); (py "sw_kafka", Ok tt); (py "sw_urllib3", Ok tt)], Ok tt).
Proof.
  rewrite (install_covers demo_parse Z.ltb Z.eqb demo_compile demo_match demo_version default_config
    demo_modules []); [vm_compute; reflexivity | vm_compute; reflexivity |].
  repeat (apply Forall_cons_2; [intros _; split; [reflexivity|]; split;
    [eexists; vm_compute; reflexivity | intros e; cbn; first [discriminate | intros [= <-]; reflexivity]]|]).
  apply Forall_nil_2.
Defined.
