(* ===== verification/LogReport.v ===== *)
(** * The log reporter (log/sw_logging.py, plugins/sw_loguru.py)

    What the wrapper of [Logger.handle] and the loguru sink make of a record: whether it is
    reported, with which text and tags, and to which trace it is attached.  The result is
    the [LogData] handed to [agent.archive_log]; the application's handlers and filters,
    and the formatter of a configured layout, are arguments. *)

From S2P Require Import Prelude PyData PyText Codec Carrier Config Filter Sampling.
From S2P Require Import TraceData Trace TraceInv TraceSpec TraceProps TracePropagation.
From S2P Require Import Agent Profile Scenarios.

(** A [LogRecord]: [r_message] is [getMessage()], [r_msg] is [str(msg)]. *)
Record LogRecord := mkRecord {
  r_name : pystr;
  r_levelno : Z;
  r_levelname : pystr;
  r_threadName : pystr;
  r_created_ms : Z;
  r_msg : pystr;
  r_message : res pystr;
  r_args : list pystr;
  r_exc_info : bool
}.

(** The fields of [LogData] that are set; no trace context and no endpoint otherwise. *)
Record LogData := mkLogData {
  ld_timestamp : Z;
  ld_service : pystr;
  ld_serviceInstance : pystr;
  ld_text : pystr;
  ld_tags : list (pystr * pystr);
  ld_traceContext : option (pystr * pystr * Z);
  ld_endpoint : pystr
}.

(** [logging.getLevelName] on a name: for an unknown one the result is a text, [None]
    here, with which no level can be compared. *)
Definition getLevelName (level : pystr) : option Z :=
  Dict.get level [(py "CRITICAL", 50); (py "FATAL", 50); (py "ERROR", 40); (py "WARN", 30);
                  (py "WARNING", 30); (py "INFO", 20); (py "DEBUG", 10); (py "NOTSET", 0)].

(** [levelno < log_reporter_level] *)
Definition below_level (levelno : Z) (log_reporter_level : option Z) : res bool :=
  match log_reporter_level with
  | Some n => Ok (levelno <? n)
  | None => Raise TypeError
  end.

(** [sub in s] *)
Fixpoint has_text (sub s : pystr) : bool :=
  startswith sub s || match s with [] => false | _ :: s' => has_text sub s' end.

Definition internal_loggers : list pystr := [py "skywalking"; py "skywalking-cli"; py "skywalking-loader"].

Section log.
Context {AG PS : Type} `{!AgentOps AG} `{!ProfileOps PS}.
Context (cfg : Config) (uuid1 : nat -> pystr).
(** [traceback.format_exc] of the exception being handled, with the given limit, and
    [SWFormatter.format] of a record that has got a [tid]. *)
Context (format_exc : Z -> pystr) (sw_formatter : LogRecord -> option pystr -> res pystr).
Abbreviation W := (World AG PS).
Abbreviation MW := (M W).
Implicit Types (w : W) (t l c : nat).

Abbreviation layout := (agent_log_reporter_layout cfg).

Definition build_log_tags (record : LogRecord) : list (pystr * pystr) :=
  let core_tags := [(py "level", r_levelname record); (py "logger", r_name record);
                    (py "thread", r_threadName record)] in
  if agent_log_reporter_formatted cfg then core_tags
  else core_tags
    ++ imap (fun i arg => (py "argument." ++ str_of_int (Z.of_nat i), arg)) (r_args record)
    ++ (if r_exc_info record then [(py "exception", sw_traceback cfg format_exc)] else []).

Definition transform (record : LogRecord) (tid : option pystr) : res pystr :=
  if agent_log_reporter_formatted cfg then
    match layout with
    | [] => m ← r_message record;
            Ok (m ++ (if r_exc_info record then [10] ++ sw_traceback cfg format_exc else []))
    | _ => sw_formatter record tid
    end
  else Ok (r_msg record).

(** The identifiers of the active span of [t], and the name of the primary endpoint. *)
Definition log_position t c : MW (Z * pystr) :=
  a ← peek t false;
  match a with
  | None => mret (-1, [])
  | Some l =>
      s ← get_span l;
      x ← get_ctx c;
      name ← (match primary_endpoint x with Some p => e ← get_span p; mret (op e) | None => mret [] end);
      mret (sid s, name)
  end.

Definition log_data t c (timestamp : Z) (text : MW pystr) (tags : list (pystr * pystr)) : MW LogData :=
  pos ← log_position t c;
  body ← text;
  x ← get_ctx c;
  tc ← (if pos.1 =? -1 then mret None
        else tid ← head_or_raise (related_traces (segment x));
             mret (Some (id_value tid, id_value (seg_id (segment x)), pos.1)));
  mret (mkLogData timestamp (agent_name cfg) (agent_instance_name cfg) body tags tc pos.2).

(** [_sw_handle]: [Some] is the log that is archived. *)
Definition _sw_handle t (_handle : MW unit) (disabled : bool) (filter : MW bool) (record : LogRecord)
  : MW (option LogData) :=
  _ ← _handle;
  if disabled then mret None
  else if bool_decide (r_name record ∈ internal_loggers) then mret None
  else
    below ← lift (below_level (r_levelno record) (getLevelName (agent_log_reporter_level cfg)));
    if (below : bool) then mret None
    else
      pass ← (if agent_log_reporter_ignore_filter cfg then mret true else filter);
      if negb pass then mret None
      else
        c ← get_context cfg uuid1 t;
        tid ← (if has_text (py "%(tid)s") layout
               then x ← get_ctx c; i ← head_or_raise (related_traces (segment x)); mret (Some (id_value i))
               else mret None);
        d ← log_data t c (r_created_ms record)
              (text ← lift (transform record tid); mret (sw_filter cfg text)) (build_log_tags record);
        mret (Some d).

(** sw_loguru.py, [_sw_sink] *)
Record LoguruRecord := mkLoguru {
  g_levelno : Z; g_levelname : pystr; g_thread : pystr; g_time_ms : Z; g_message : pystr;
  g_exception : option (Z -> pystr)
}.
Definition loguru_tags (record : LoguruRecord) : list (pystr * pystr) :=
  [(py "level", g_levelname record); (py "logger", py "loguru"); (py "thread", g_thread record)]
  ++ match g_exception record with
     | Some format => [(py "exception", sw_filter cfg (format (agent_cause_exception_depth cfg)))]
     | None => []
     end.
Definition _sw_sink t (record : option LoguruRecord) : MW (option LogData) :=
  match record with
  | None => mret None
  | Some record =>
      below ← lift (below_level (g_levelno record) (getLevelName (agent_log_reporter_level cfg)));
      if (below : bool) then mret None
      else
        c ← get_context cfg uuid1 t;
        d ← log_data t c (g_time_ms record) (mret (sw_filter cfg (g_message record))) (loguru_tags record);
        mret (Some d)
  end.

(** ** What is reported *)

(** The records that are reported at all. *)
Definition reported (disabled pass : bool) (level : Z) (record : LogRecord) : bool :=
  negb disabled && negb (bool_decide (r_name record ∈ internal_loggers)) && (level <=? r_levelno record) &&
  (agent_log_reporter_ignore_filter cfg || pass).

(** Where a log belongs in a state whose active span is [l] of context [x]. *)
Definition trace_position (s : Span) (x : Ctx) (tid : ID) : option (pystr * pystr * Z) :=
  if sid s =? -1 then None else Some (id_value tid, id_value (seg_id (segment x)), sid s).

Lemma log_data_active w t l s x tid rest ts text tags body :
  last (stack w t) = Some l -> w_spans w !! l = Some s -> w_ctxs w !! context s = Some x ->
  related_traces (segment x) = tid :: rest -> text w = (w, Ok body) ->
  log_data t (context s) ts text tags w =
    (w, Ok (mkLogData ts (agent_name cfg) (agent_instance_name cfg) body tags (trace_position s x tid)
      (match primary_endpoint x with Some p => op (w_spans w !!! p) | None => [] end))).
Proof.
  intros Hl Hs Hx Hrel Ht. unfold log_data, log_position.
  rewrite (bind_ok _ _ w w (sid s, match primary_endpoint x with Some p => op (w_spans w !!! p) | None => [] end)).
  2:{ rewrite (bind_ok _ _ _ _ _ (peek_active w t l false Hl)). unfold get_span, get_ctx. unfold_m.
      rewrite (lookup_total_correct _ _ _ Hs), (lookup_total_correct _ _ _ Hx).
      by destruct (primary_endpoint x). }
  rewrite (bind_ok _ _ _ _ _ Ht). unfold get_ctx. erewrite bind_ok by reflexivity. cbv beta.
  rewrite (lookup_total_correct _ _ _ Hx). unfold trace_position. cbn [fst snd].
  destruct (sid s =? -1); [done|]. by rewrite Hrel.
Qed.

Lemma get_context_active w t l s :
  last (stack w t) = Some l -> w_spans w !! l = Some s -> get_context cfg uuid1 t w = (w, Ok (context s)).
Proof.
  intros Hl Hs. unfold get_context. destruct (spans_bound w t l Hl) as (i & E & Hi).
  rewrite (bind_ok _ _ _ _ _ E). unfold get_span. unfold_m. rewrite Hi, Hl.
  by rewrite (lookup_total_correct _ _ _ Hs).
Qed.

(** The guards before the context is touched. *)
Lemma sw_handle_guards w0 w t (_handle : MW unit) disabled (filter : MW bool) pass record level :
  _handle w0 = (w, Ok tt) -> filter w = (w, Ok pass) ->
  getLevelName (agent_log_reporter_level cfg) = Some level ->
  _sw_handle t _handle disabled filter record w0 =
    (if reported disabled pass level record then
       c ← get_context cfg uuid1 t;
       tid ← (if has_text (py "%(tid)s") layout
              then x ← get_ctx c; i ← head_or_raise (related_traces (segment x)); mret (Some (id_value i))
              else mret None);
       d ← log_data t c (r_created_ms record)
             (text ← lift (transform record tid); mret (sw_filter cfg text)) (build_log_tags record);
       mret (Some d)
     else mret None) w.
Proof.
  intros Hh Hf Hl. unfold _sw_handle, reported. rewrite (bind_ok _ _ _ _ _ Hh), Hl. cbn [below_level].
  destruct disabled; [done|]. destruct (bool_decide _); [done|]. cbn [negb andb].
  erewrite bind_ok by reflexivity. rewrite Z.ltb_antisym. destruct (level <=? r_levelno record); [|done].
  cbn [negb andb]. destruct (agent_log_reporter_ignore_filter cfg).
  - erewrite bind_ok by reflexivity. done.
  - rewrite (bind_ok _ _ _ _ _ Hf). by destruct pass.
Qed.

(** The text of the record that is sent. *)
Definition sent_text (record : LogRecord) (tid : ID) : res pystr :=
  transform record (if has_text (py "%(tid)s") layout then Some (id_value tid) else None).

Lemma sw_handle_active w0 w t (_handle : MW unit) disabled (filter : MW bool) pass record
  level l s x tid rest text :
  _handle w0 = (w, Ok tt) -> filter w = (w, Ok pass) ->
  getLevelName (agent_log_reporter_level cfg) = Some level ->
  last (stack w t) = Some l -> w_spans w !! l = Some s -> w_ctxs w !! context s = Some x ->
  related_traces (segment x) = tid :: rest -> sent_text record tid = Ok text ->
  _sw_handle t _handle disabled filter record w0 =
    (w, Ok (if reported disabled pass level record
            then Some (mkLogData (r_created_ms record) (agent_name cfg) (agent_instance_name cfg)
              (sw_filter cfg text) (build_log_tags record) (trace_position s x tid)
              (match primary_endpoint x with Some p => op (w_spans w !!! p) | None => [] end))
            else None)).
Proof.
  intros Hh Hf Hlev Hl Hs Hx Hrel Htext. rewrite (sw_handle_guards _ _ _ _ _ _ _ _ _ Hh Hf Hlev).
  destruct (reported disabled pass level record); [|done].
  rewrite (bind_ok _ _ _ _ _ (get_context_active w t l s Hl Hs)).
  rewrite (bind_ok _ _ w w (if has_text (py "%(tid)s") layout then Some (id_value tid) else None)).
  2:{ destruct (has_text _ layout); [|done]. unfold get_ctx. unfold_m.
      by rewrite (lookup_total_correct _ _ _ Hx), Hrel. }
  erewrite bind_ok; [reflexivity|]. eapply log_data_active; try done.
  unfold sent_text in Htext. by rewrite Htext.
Qed.

(** C16. A log written while a span is active is reported exactly if its logger is enabled,
    not one of the agent's own, its level is high enough and the filters let it pass; it
    carries the trace, the segment and the span in which it was written, and the name of the
    primary endpoint, and reporting it changes nothing in the state of the traces.  A log
    under a span that is not recorded has no trace context. *)
Theorem log_attached_to_active_span w0 w t (_handle : MW unit) disabled (filter : MW bool) pass record
  level l s x tid rest text :
  _handle w0 = (w, Ok tt) -> filter w = (w, Ok pass) ->
  getLevelName (agent_log_reporter_level cfg) = Some level ->
  last (stack w t) = Some l -> w_spans w !! l = Some s -> w_ctxs w !! context s = Some x ->
  related_traces (segment x) = tid :: rest -> sent_text record tid = Ok text ->
  _sw_handle t _handle disabled filter record w0 =
    (w, Ok (if reported disabled pass level record
            then Some (mkLogData (r_created_ms record) (agent_name cfg) (agent_instance_name cfg)
              (sw_filter cfg text) (build_log_tags record) (trace_position s x tid)
              (match primary_endpoint x with Some p => op (w_spans w !!! p) | None => [] end))
            else None)).
Proof. apply sw_handle_active. Qed.

(** Outside any span, [get_context] makes a context, at the expense of the sampler. *)
Lemma get_context_idle w t k :
  wf w -> stack w t = [] -> w_sampling w = Some k ->
  ∃ w' c tid, get_context cfg uuid1 t w = (w', Ok c) ∧ (∀ t', stack w' t' = stack w t') ∧
    w_sampling w' = Some (try_sampling (sample_n_per_3_secs cfg) k).1 ∧
    related_traces (segment (w_ctxs w' !!! c)) = [tid].
Proof.
  intros Hw Ht Hk. pose proof (spec_get_context cfg uuid1 w t Hw) as H. unfold spec in H.
  assert (∃ w' c tid, get_context cfg uuid1 t w = (w', Ok c) ∧
    w_sampling w' = Some (try_sampling (sample_n_per_3_secs cfg) k).1 ∧
    related_traces (segment (w_ctxs w' !!! c)) = [tid]) as (w' & c & tid & E & Hs & Hr).
  { clear H. unfold get_context, stack in *.
    assert (∃ w1 i, _spans t w = (w1, Ok i) ∧ w_lists w1 !!! i = [] ∧ w_sampling w1 = Some k) as (w1 & i & E & Hi & Hs).
    { unfold _spans. unfold_m. destruct (w_vars w !! t) as [i|]; [by exists w, i|].
      eexists _, _. split; [reflexivity|]. cbn. split; [apply lookup_total_insert_eq | done]. }
    rewrite (bind_ok _ _ _ _ _ E). unfold_m. rewrite Hi. cbn [last]. unfold_m. rewrite Hs.
    destruct (try_sampling _ k) as [k' b]. cbn [fst snd]. unfold new_SpanContext, new_NoopContext.
    destruct b; unfold_m; eexists _, _, _; (split; [reflexivity|]); cbn; rewrite lookup_total_insert_eq; done. }
  rewrite E in H. destruct H as (_ & G & _). exists w', c, tid. split_and!; [done| |done..].
  intros t'. apply (grow_stacks _ _ G).
Qed.

Lemma peek_empty w t : stack w t = [] -> ∃ w', peek t false w = (w', Ok None) ∧
  w_sampling w' = w_sampling w ∧ w_ctxs w' = w_ctxs w.
Proof.
  intros Ht. unfold peek, _spans, stack in *. unfold_m. destruct (w_vars w !! t) as [i|].
  - rewrite Ht. by exists w.
  - cbn. rewrite lookup_total_insert_eq. cbn. by eexists.
Qed.

(** A log written outside any span is reported without a trace, and still takes a
    sampling decision: it counts against the traces of the current three seconds like the
    start of a request. *)
Theorem log_outside_spans_sampled w0 w t (_handle : MW unit) disabled (filter : MW bool) pass record level k :
  _handle w0 = (w, Ok tt) -> filter w = (w, Ok pass) ->
  getLevelName (agent_log_reporter_level cfg) = Some level ->
  reported disabled pass level record = true ->
  wf w -> stack w t = [] -> w_sampling w = Some k ->
  (∀ tid, ∃ text, transform record tid = Ok text) ->
  ∃ w' d, _sw_handle t _handle disabled filter record w0 = (w', Ok (Some d)) ∧
    ld_traceContext d = None ∧ ld_endpoint d = [] ∧
    w_sampling w' = Some (try_sampling (sample_n_per_3_secs cfg) k).1.
Proof.
  intros Hh Hf Hlev Hrep Hw Ht Hk Htext. rewrite (sw_handle_guards _ _ _ _ _ _ _ _ _ Hh Hf Hlev), Hrep.
  destruct (get_context_idle w t k Hw Ht Hk) as (w1 & c & tid & E & Hst & Hs & Hr).
  rewrite (bind_ok _ _ _ _ _ E).
  assert (∃ o, (if has_text (py "%(tid)s") layout
    then x ← get_ctx c; i ← head_or_raise (related_traces (segment x)); mret (Some (id_value i))
    else mret None : MW (option pystr)) w1 = (w1, Ok o)) as (o & Eo).
  { destruct (has_text _ layout); [|by eexists]. unfold get_ctx. unfold_m. rewrite Hr. by eexists. }
  rewrite (bind_ok _ _ _ _ _ Eo). destruct (Htext o) as [text Et].
  destruct (peek_empty w1 t) as (w2 & Ep & Hs2 & _); [by rewrite Hst|].
  eexists w2, _. split; [|split; [|split; [|by rewrite Hs2]]]; [|cbn [ld_traceContext]|cbn [ld_endpoint]].
  - erewrite bind_ok; [reflexivity|]. unfold log_data, log_position.
    rewrite (bind_ok _ _ w1 w2 (-1, [])); [|by rewrite (bind_ok _ _ _ _ _ Ep)].
    rewrite Et. erewrite bind_ok by reflexivity. erewrite bind_ok by reflexivity. reflexivity.
  - done.
  - done.
Qed.

(** A wrong level name is found out when the first log is written: the application's call
    raises, after its own handlers have run. *)
Lemma unknown_level_raises w0 w t (_handle : MW unit) (filter : MW bool) record :
  _handle w0 = (w, Ok tt) -> getLevelName (agent_log_reporter_level cfg) = None ->
  r_name record ∉ internal_loggers ->
  _sw_handle t _handle false filter record w0 = (w, Raise TypeError).
Proof.
  intros Hh Hl Hn. unfold _sw_handle. rewrite (bind_ok _ _ _ _ _ Hh), Hl.
  by rewrite bool_decide_eq_false_2.
Qed.
End log.

(** ** Runs *)

#[local] Instance log_profiler : ProfileOps Service := Profile_ops default_config.

Definition demo_record : LogRecord :=
  mkRecord (py "shop") 40 (py "ERROR") (py "MainThread") 1000 (py "no %s") (Ok (py "no stock")) [py "stock"] false.
Definition plain_layout (r : LogRecord) (_ : option pystr) : res pystr := r_message r.
Definition busy_world : DW := run [OpenEntry 1 (py "/in") None None; Start 1 3] demo_world.

Lemma log_attached_to_active_span_witness :
  _sw_handle default_config demo_uuid (fun _ => []) plain_layout 1 (mret tt) false (mret true) demo_record busy_world =
    (busy_world, Ok (Some (mkLogData 1000 (agent_name default_config) (agent_instance_name default_config)
      (py "no stock") [(py "level", py "ERROR"); (py "logger", py "shop"); (py "thread", py "MainThread")]
      (Some (py "id1", py "id0", 0)) (py "/in")))).
Proof.
  rewrite (log_attached_to_active_span default_config demo_uuid (fun _ => []) plain_layout busy_world busy_world 1
    (mret tt) false (mret true) true demo_record 30 3 (w_spans busy_world !!! 3%nat)
    (w_ctxs busy_world !!! context (w_spans busy_world !!! 3%nat)) (mkID NewID (py "id1")) [] (py "no stock"));
    [|vm_compute; reflexivity..].
  assert (∀ (w : DW) (a b : option LogData), a = b -> (w, Ok a) = (w, Ok b)) as Hw by (intros w a b ->; reflexivity).
  apply Hw. vm_compute. reflexivity.
Defined.

(** An agent that traces one request in three seconds. *)
Definition sampled_config : Config :=
  finalize (from_ok (load (fun k => if bool_decide (k = py "SW_SAMPLE_N_PER_3_SECS") then Some (py "1") else None)
    (py "1b9d6bcd")) eq_refl).
Definition sampled_world : DW := upd_sampling (Some 0) demo_world.

Definition log_then_sampled : option (bool * bool) :=
  let log := _sw_handle sampled_config demo_uuid (fun _ => []) plain_layout 1 (mret tt) false (mret true) demo_record in
  let sampled w := match get_context sampled_config demo_uuid 1 w with
                   | (w', Ok c) => Some (negb (noop (w_ctxs w' !!! c)))
                   | (_, Raise _) => None
                   end in
  a ← sampled sampled_world; b ← sampled (log sampled_world).1; Some (a, b).

(** The one request of the three seconds is not traced when a log came first. *)
Example log_takes_the_only_sample : log_then_sampled = Some (true, false).
Proof. vm_compute. reflexivity. Qed.

Lemma wf_upd_sampling (w : DW) k : wf w -> wf (upd_sampling k w).
Proof. intros H. exact H. Qed.

Lemma sampled_wf : wf sampled_world.
Proof.
  apply wf_upd_sampling. apply (reachable_wf default_config demo_uuid 0 demo_format demo_str).
  apply (run_demo []). reflexivity.
Qed.

Lemma log_outside_spans_sampled_witness :
  ∃ w' d, _sw_handle sampled_config demo_uuid (fun _ => []) plain_layout 1 (mret tt) false (mret true) demo_record
      sampled_world = (w', Ok (Some d)) ∧ ld_traceContext d = None ∧ w_sampling w' = Some 1.
Proof.
  destruct (log_outside_spans_sampled sampled_config demo_uuid (fun _ => []) plain_layout sampled_world
    sampled_world 1 (mret tt) false (mret true) true demo_record 30 0) as (w' & d & E & Ht & _ & Hs);
    [vm_compute; reflexivity.. | apply sampled_wf
    | vm_compute; reflexivity | vm_compute; reflexivity | intros tid; exists (py "no stock"); vm_compute; reflexivity |].
  exists w', d. split; [exact E|]. split; [exact Ht|]. rewrite Hs. vm_compute. reflexivity.
Defined.
