(* ===== verification/SelfLog.v ===== *)
(** * The agent's own log, the formatter of reported logs, and [config.init]

    loggings.py, log/formatter.py and [init] of config.py.  Python's logging keeps the loggers by
    name; a handler is counted, not described. *)

From S2P Require Import Prelude PyData PyText Config LogReport.

(** ** loggings.py *)

Record Logger := mkLogger { lg_level : Z; lg_handlers : nat; lg_propagate : bool }.

Definition new_logger : Logger := mkLogger 0 0 true.

(** [getLogger(name)]: every call adds a handler to the one logger of that name. *)
Definition getLogger (name : pystr) (ls : list (pystr * Logger)) : list (pystr * Logger) :=
  let l := default new_logger (Dict.get name ls) in
  Dict.set name (mkLogger (lg_level l) (S (lg_handlers l)) false) ls.

(** [logging.getLevelName] once [init] has added the name OFF. *)
Definition level_with_off (level : pystr) : option Z :=
  if decide (level = py "OFF") then Some 60 else getLevelName level.

(** [init]: the level of the agent's logger, and [logger_debug_enabled].  For a name that is not
    known [getLevelName] gives a text, which [setLevel] refuses. *)
Definition loggings_init (cfg : Config) (l : Logger) : res (Logger * bool) :=
  match level_with_off (agent_logging_level cfg) with
  | Some n => Ok (mkLogger n (lg_handlers l) (lg_propagate l), n <=? 10)
  | None => Raise ValueError
  end.

(** [init] of an unknown level raises, out of [agent.start()]; with a known one the debug output
    is on exactly for DEBUG and NOTSET. *)
Theorem loggings_init_spec (cfg : Config) l :
  match loggings_init cfg l with
  | Ok (l', dbg) => lg_handlers l' = lg_handlers l ∧
      (dbg = true <-> agent_logging_level cfg = py "DEBUG" ∨ agent_logging_level cfg = py "NOTSET")
  | Raise e => e = ValueError ∧
      agent_logging_level cfg ∉ [py "OFF"; py "CRITICAL"; py "FATAL"; py "ERROR"; py "WARN"; py "WARNING";
                                 py "INFO"; py "DEBUG"; py "NOTSET"]
  end.
Proof.
  unfold loggings_init, level_with_off, getLevelName. cbn [Dict.get].
  generalize (agent_logging_level cfg). intros s.
  repeat (case_decide; [subst s; split; [done|]; split; [intros; (by left) || (by right) || done |
    intros [Hs|Hs]; first [done | discriminate Hs]]|]).
  split; [done|]. set_solver.
Qed.

(** ** log/formatter.py: [SWFormatter.format] *)

(** [record.exc_text], and what [Formatter.format] does with it: it fills it in when it formats a
    traceback, and it may raise. *)
Definition sw_format {A} (super_format : option pystr -> option pystr * res A) (exc_text : option pystr)
  : option pystr * res A :=
  let (after, r) := super_format None in
  match r with
  | Ok a => (exc_text, Ok a)
  | Raise e => (after, Raise e)
  end.

(** A traceback that another formatter cached on the record survives, and is not used; when
    formatting raises, the cache is gone. *)
Theorem sw_format_restores {A} (super_format : option pystr -> option pystr * res A) exc_text after r :
  super_format None = (after, r) ->
  sw_format super_format exc_text = (match r with Ok _ => exc_text | Raise _ => after end, r).
Proof. intros E. unfold sw_format. rewrite E. by destruct r. Qed.

(** [formatException]: one final newline is cut. *)
Definition cut_newline (s : pystr) : pystr :=
  match last s with Some c => if c =? 10 then removelast s else s | None => s end.

(** ** [config.init] *)

(** The module's globals as a dict; an unknown key raises and leaves the keys before it assigned. *)
Fixpoint config_init {V} (options : list pystr) (kwargs : list (pystr * V)) (glob : list (pystr * V))
  : list (pystr * V) * res unit :=
  match kwargs with
  | [] => (glob, Ok tt)
  | (key, val) :: kwargs' =>
      if decide (key ∈ options) then config_init options kwargs' (Dict.set key val glob)
      else (glob, Raise KeyError)
  end.

(** [init] assigns the options up to the first unknown one and raises [KeyError] there; without an
    unknown one every option given has its value afterwards, and no other changes. *)
Theorem config_init_spec {V} options (kwargs : list (pystr * V)) glob :
  Dict.wf kwargs ->
  (Forall (fun kv => kv.1 ∈ options) kwargs ->
     (config_init options kwargs glob).2 = Ok tt ∧
     ∀ k, Dict.get k (config_init options kwargs glob).1 =
       match Dict.get k kwargs with Some v => Some v | None => Dict.get k glob end) ∧
  (∀ good k v rest, kwargs = good ++ (k, v) :: rest -> Forall (fun kv => kv.1 ∈ options) good ->
     k ∉ options -> config_init options kwargs glob = ((config_init options good glob).1, Raise KeyError)).
Proof.
  intros Hwf. split.
  - intros Hall. revert glob Hwf. induction Hall as [|[k v] kwargs Hk Hall IH]; intros glob Hwf; [done|].
    apply NoDup_cons in Hwf as [Hni Hwf]. cbn [config_init]. rewrite decide_True by done.
    destruct (IH (Dict.set k v glob) Hwf) as [E1 E2]. split; [done|]. intros k'. rewrite E2.
    cbn [Dict.get]. destruct (decide (k' = k)) as [->|Hne].
    + rewrite (proj2 (Dict.get_None k kwargs) Hni). apply Dict.get_set_eq.
    + destruct (Dict.get k' kwargs); [done|]. apply Dict.get_set_ne. congruence.
  - intros good k v rest -> Hgood Hk. clear Hwf. revert glob.
    induction Hgood as [|[k' v'] good Hk' Hgood IH]; intros glob; cbn [app config_init].
    + by rewrite decide_False.
    + rewrite !decide_True by done. apply IH.
Qed.
