(* ===== verification/Bootstrap.v ===== *)
(** * The command line and the loader: bootstrap/

    [sw-python run command] ([Cli]): bootstrap/cli/sw_python.py and
    bootstrap/cli/utility/runner.py rewrite the environment and replace the process.
    The new process ([Proc]) runs bootstrap/loader/sitecustomize.py at interpreter
    start-up, and a uWSGI worker bootstrap/hooks/uwsgi_hook.py after its fork.  The agent
    of a process is the threaded one of Agent.v or the asyncio one of AgentAsync.v.

    Parsing the arguments is argparse's: an [Args] is its result.  [execvp]'s outcome, the
    user's own sitecustomize and the Unicode [str.lower] are arguments.  Of the log only
    the number of errors is kept. *)

From S2P Require Import Prelude PyData PyText Config Agent AgentAsync SelfLog.

(** [os.environ] *)
Abbreviation Env := (gmap pystr pystr).

(** The interpreter and the installed package: [os.path.pathsep], the directories of
    bootstrap/loader and bootstrap/hooks, [platform.python_version()] and
    [os.path.realpath(os.path.normpath(sys.prefix))]. *)
Record Host := mkHost {
  pathsep : Z;
  loader_path : pystr;
  hook_path : pystr;
  py_version : pystr;
  py_prefix : pystr
}.

(** ** The command line *)

(** The namespace argparse returns. *)
Record Args := mkArgs { debug : bool; option_name : pystr; prefork : bool; command : list pystr }.

(** The process of [sw-python]; [replaced] is the command [execvp] put in its place. *)
Record Cli := mkCli {
  c_env : Env;
  c_debug : bool;                  (* cli_logger.level == logging.DEBUG *)
  c_errors : nat;                  (* cli_logger.error and .exception calls *)
  replaced : option (list pystr)
}.

Abbreviation MC := (M Cli).

Definition c_setenv (k v : pystr) : MC unit :=
  modify (fun c => mkCli (<[k := v]> (c_env c)) (c_debug c) (c_errors c) (replaced c)).
Definition c_error : MC unit :=
  modify (fun c => mkCli (c_env c) (c_debug c) (S (c_errors c)) (replaced c)).

(** [command[0]] *)
Definition command_0 (cmd : list pystr) : res pystr :=
  match cmd with [] => Raise IndexError | c0 :: _ => Ok c0 end.

Definition hook_vars : list pystr :=
  [py "UWSGI_SHARED_PYTHON_IMPORT"; py "UWSGI_SHARED_IMPORT"; py "UWSGI_SHARED_PYIMPORT";
   py "UWSGI_SHARED_PY_IMPORT"].

(** [pick_env_var]: the first variable of the list that is not set. *)
Definition pick_env_var (env : Env) : res pystr :=
  match List.find (fun v => bool_decide (env !! v = None)) hook_vars with
  | Some v => Ok v
  | None => Raise SWRunnerFailure
  end.

(** [prefork_handler] *)
Definition prefork_handler (cmd : list pystr) : MC unit :=
  _ ← c_setenv (py "prefork") [];
  c0 ← lift (command_0 cmd);
  if decide (c0 = py "gunicorn") then c_setenv (py "prefork") (py "gunicorn")
  else if decide (c0 = py "uwsgi") then
    _ ← (if decide (py "--master" ∈ tail cmd) then mret tt
         else c_setenv (py "UWSGI_MASTER") (py "true"));
    _ ← (if decide (py "--enable-threads" ∈ tail cmd) then mret tt
         else c_setenv (py "UWSGI_ENABLE_THREADS") (py "true"));
    _ ← c_setenv (py "prefork") (py "uwsgi");
    env ← gets c_env;
    v ← lift (pick_env_var env);
    c_setenv v (py "uwsgi_hook")
  else mret tt.

(** The [PYTHONPATH] that [execute] sets. *)
Definition new_python_path (h : Host) (python_path : option pystr) : pystr :=
  let new_path :=
    match python_path with
    | None | Some [] => []
    | Some p =>
        if decide (loader_path h ∈ split_on (pathsep h) p) then []
        else join [pathsep h] [loader_path h; hook_path h; p]
    end in
  if decide (new_path = []) then join [pathsep h] [loader_path h; hook_path h] else new_path.

Section cli.
(** What [os.execvp] does with a command in an environment: replace the process or raise. *)
Variable execvp : Env -> list pystr -> option exn.

(** [execute] *)
Definition execute (h : Host) (cmd : list pystr) (experimental_check_prefork : bool) : MC unit :=
  _ ← (if experimental_check_prefork then prefork_handler cmd else mret tt);
  env ← gets c_env;
  _ ← c_setenv (py "PYTHONPATH") (new_python_path h (env !! py "PYTHONPATH"));
  _ ← c_setenv (py "SW_PYTHON_PREFIX") (py_prefix h);
  _ ← c_setenv (py "SW_PYTHON_VERSION") (py_version h);
  dbg ← gets c_debug;
  _ ← c_setenv (py "SW_AGENT_SW_PYTHON_CLI_DEBUG_ENABLED")
        (if (dbg : bool) then py "True" else py "False");
  try_except
    (_ ← lift (command_0 cmd);
     c ← get_st;
     match execvp (c_env c) cmd with
     | None => modify (fun c => mkCli (c_env c) (c_debug c) (c_errors c) (Some cmd))
     | Some e => raise e
     end)
    (fun e => if decide (e = OSError) then raise SWRunnerFailure else raise e).

(** [dispatch]: [_options] has the one key ['run']. *)
Definition dispatch (h : Host) (args : Args) : MC unit :=
  if decide (option_name args = py "run") then execute h (command args) (prefork args)
  else raise KeyError.

(** [start], from the parsed arguments on. *)
Definition start (h : Host) (args : Args) : MC unit :=
  _ ← modify (fun c => mkCli (c_env c) (debug args) (c_errors c) (replaced c));
  if decide (command args = []) then c_error
  else try_except (dispatch h args)
         (fun e => if decide (e = SWRunnerFailure) then c_error else raise e).
End cli.

(** ** The new process *)

(** [agent] of skywalking/agent: one of the two classes. *)
Inductive SwAgent := Threaded (a : Agent) | Asyncio (a : AAgent).

Definition sw_config (s : SwAgent) : Config :=
  match s with Threaded a => a_config a | Asyncio a => aa_config a end.
Definition sw_pid (s : SwAgent) : Z :=
  match s with Threaded a => a_pid a | Asyncio a => aa_pid a end.

(** Assignments to options of the config module. *)
Definition sw_set_config (f : Config -> Config) (s : SwAgent) : SwAgent :=
  match s with
  | Threaded a => Threaded (with_config (f (a_config a)) a)
  | Asyncio a => Asyncio (upd_life (f (aa_config a)) (aa_started a) (aa_started_pid a)
                            (aa_hooks a) (aa_installs a) (aa_thread a) a)
  end.

(** The agent that importing skywalking.agent creates. *)
Definition make_agent (cfg : Config) (pid : Z) : SwAgent :=
  if agent_asyncio_enhancement cfg then Asyncio (new_aagent cfg pid) else Threaded (new_agent cfg pid).

(** The options with another instance name, logging level and fork support. *)
Definition override_core (name level : pystr) (fork : bool) (c : Config) : Config :=
  mkConfig
    {|
      agent_collector_backend_services := agent_collector_backend_services c;
      agent_protocol := agent_protocol c;
      agent_name := agent_name c;
      agent_instance_name := name;
      agent_namespace := agent_namespace c;
      kafka_bootstrap_servers := kafka_bootstrap_servers c;
      kafka_namespace := kafka_namespace c;
      kafka_topic_management := kafka_topic_management c;
      kafka_topic_segment := kafka_topic_segment c;
      kafka_topic_log := kafka_topic_log c;
      kafka_topic_meter := kafka_topic_meter c;
      kafka_reporter_custom_configurations := kafka_reporter_custom_configurations c;
      agent_force_tls := agent_force_tls c;
      agent_ssl_trusted_ca_path := agent_ssl_trusted_ca_path c;
      agent_ssl_cert_chain_path := agent_ssl_cert_chain_path c;
      agent_ssl_key_path := agent_ssl_key_path c;
      agent_authentication := agent_authentication c;
      agent_logging_level := level;
      agent_collector_heartbeat_period := agent_collector_heartbeat_period c;
      agent_collector_properties_report_period_factor := agent_collector_properties_report_period_factor c;
      agent_instance_properties_json := agent_instance_properties_json c;
      agent_experimental_fork_support := fork;
      agent_queue_timeout := agent_queue_timeout c;
      agent_asyncio_enhancement := agent_asyncio_enhancement c;
      agent_sw_python_bootstrap_propagate := agent_sw_python_bootstrap_propagate c;
      agent_sw_python_cli_debug_enabled := agent_sw_python_cli_debug_enabled c
    |}
    c c c c c c (ignore_path c).
Definition set_logging_level (level : pystr) (c : Config) : Config :=
  override_core (agent_instance_name c) level (agent_experimental_fork_support c) c.
Definition set_fork_support (c : Config) : Config :=
  override_core (agent_instance_name c) (agent_logging_level c) true c.
(** [config.agent_instance_name = f'{config.agent_instance_name}-role(pid)'] *)
Definition name_process (role : pystr) (pid : Z) (c : Config) : Config :=
  override_core (agent_instance_name c ++ role ++ py "(" ++ str_of_int pid ++ py ")")
    (agent_logging_level c) (agent_experimental_fork_support c) c.

Inductive site_module := LoaderSite | UserSite.

Record Proc := mkProc {
  p_pid : Z;
  p_env : Env;
  p_path : list pystr;             (* sys.path *)
  p_site : option site_module;     (* sys.modules.get('sitecustomize') *)
  p_argv : option (list pystr);    (* sys.argv, where it exists *)
  p_agent : option SwAgent;        (* once skywalking.agent is imported *)
  p_errors : nat;                  (* errors logged by the loader and the hook *)
  p_exit : option Z                (* os._exit's code *)
}.

Abbreviation MP := (M Proc).

Definition set_p_env (env : Env) (p : Proc) : Proc :=
  mkProc (p_pid p) env (p_path p) (p_site p) (p_argv p) (p_agent p) (p_errors p) (p_exit p).
Definition set_p_site (path : list pystr) (m : option site_module) (p : Proc) : Proc :=
  mkProc (p_pid p) (p_env p) path m (p_argv p) (p_agent p) (p_errors p) (p_exit p).
Definition set_p_argv (l : option (list pystr)) (p : Proc) : Proc :=
  mkProc (p_pid p) (p_env p) (p_path p) (p_site p) l (p_agent p) (p_errors p) (p_exit p).
Definition set_p_agent (a : option SwAgent) (p : Proc) : Proc :=
  mkProc (p_pid p) (p_env p) (p_path p) (p_site p) (p_argv p) a (p_errors p) (p_exit p).
Definition add_p_errors (n : nat) (code : option Z) (p : Proc) : Proc :=
  mkProc (p_pid p) (p_env p) (p_path p) (p_site p) (p_argv p) (p_agent p) (n + p_errors p)
    code.

Definition p_setenv (k v : pystr) : MP unit := modify (fun p => set_p_env (<[k := v]> (p_env p)) p).
Definition p_error : MP unit := modify (fun p => add_p_errors 1 (p_exit p) p).

(** Run a method of the process's agent. *)
Definition on_agent (f : SwAgent -> SwAgent * res unit) : MP unit := fun p =>
  match p_agent p with
  | None => (p, Raise AttributeError)
  | Some s => (set_p_agent (Some (f s).1) p, (f s).2)
  end.
Definition p_set_config (f : Config -> Config) : MP unit :=
  on_agent (fun s => (sw_set_config f s, Ok tt)).

(** A method of the threaded agent, of the asyncio agent. *)
Definition run_threaded (m : MA unit) (other : MAA unit) (s : SwAgent) : SwAgent * res unit :=
  match s with
  | Threaded a => (Threaded (m a).1, (m a).2)
  | Asyncio a => (Asyncio (other a).1, (other a).2)
  end.

(** The assignment to [GRPC_ENABLE_FORK_SUPPORT] in [SkyWalkingAgent.start] and
    [start_prefork_master]. *)
Definition export_fork_support : MP unit :=
  p ← get_st;
  match p_agent p with
  | Some (Threaded a) =>
      if decide (agent_protocol (a_config a) = py "grpc") then
        if agent_experimental_fork_support (a_config a)
        then p_setenv (py "GRPC_ENABLE_FORK_SUPPORT") (py "true") else mret tt
      else mret tt
  | _ => mret tt
  end.

(** [loggings.init()], with which [start] and [start_prefork_master] begin. *)
Definition p_loggings_init : MP unit := fun p =>
  match p_agent p with
  | None => (p, Ok tt)
  | Some s => (p, l ← loggings_init (sw_config s) new_logger; mret tt)
  end.

(** [agent.start()] and [agent.start_prefork_master()], which only the threaded agent has. *)
Definition p_start : MP unit :=
  _ ← p_loggings_init; _ ← export_fork_support; on_agent (run_threaded start_agent async_start).
Definition p_start_prefork_master : MP unit :=
  _ ← p_loggings_init; _ ← export_fork_support;
  on_agent (run_threaded start_prefork_master (raise AttributeError)).

(** ** sitecustomize.py *)

Section loader.
(** The full Unicode [str.lower]. *)
Variable str_lower : pystr -> pystr.
(** Running the user's own sitecustomize module, found on [sys.path] or not. *)
Variable user_site : MP unit.

(** The loader leaves [sys.path] and [sys.modules], and the user's module is imported. *)
Definition import_user_site (h : Host) : MP unit := fun p =>
  let cleared_path := filter (fun d => d ≠ loader_path h) (p_path p) in
  let p1 := set_p_site cleared_path None p in
  match user_site p1 with
  | (p2, Ok _) => (set_p_site (p_path p2) (Some UserSite) p2, Ok tt)
  | (p2, Raise e) =>
      let p3 := set_p_site (p_path p2) (p_site p) p2 in
      if decide (e = ImportError) then (p3, Ok tt) else (p3, Raise e)
  end.

(** [SW_AGENT_SW_PYTHON_BOOTSTRAP_PROPAGATE]: take the loader out of [PYTHONPATH]. *)
Definition stop_propagation (h : Host) (env : Env) : Env :=
  if decide (env !! py "SW_AGENT_SW_PYTHON_BOOTSTRAP_PROPAGATE" = Some (py "False")) then
    match env !! py "PYTHONPATH" with
    | None | Some [] => env
    | Some pp =>
        match list_remove_first (loader_path h) (split_on (pathsep h) pp) with
        | Some rest => <[py "PYTHONPATH" := join [pathsep h] rest]> env
        | None => env
        end
    end
  else env.

(** [version_match and prefix_match]; without a prefix [.lower()] is called on [None]. *)
Definition same_interpreter (h : Host) (env : Env) : res bool :=
  match env !! py "SW_PYTHON_PREFIX" with
  | None => Raise AttributeError
  | Some prefix =>
      Ok (bool_decide (env !! py "SW_PYTHON_VERSION" = Some (py_version h)) &&
          bool_decide (str_lower prefix = str_lower (py_prefix h)))
  end.

(** The choice of what to start. *)
Definition start_by_server : MP unit :=
  p ← get_st;
  match p_env p !! py "prefork" with
  | None | Some [] => p_start
  | Some server =>
      _ ← p_set_config (name_process (py "-master") (p_pid p));
      if decide (server = py "gunicorn") then
        _ ← p_set_config set_fork_support;
        p ← get_st;
        match p_agent p with
        | None => raise AttributeError
        | Some s => if agent_asyncio_enhancement (sw_config s) then p_error
                    else p_start_prefork_master
        end
      else mret tt
  end.

(** The else branch: import the agent, override options, start. *)
Definition boot (uuid : pystr) : MP unit :=
  env ← gets p_env;
  cfg ← lift (load (fun k => env !! k) uuid);
  _ ← modify (fun p => set_p_agent (Some (make_agent cfg (p_pid p))) p);
  _ ← (if decide (env !! py "SW_AGENT_SW_PYTHON_CLI_DEBUG_ENABLED" = Some (py "True"))
       then p_set_config (set_logging_level (py "DEBUG")) else mret tt);
  _ ← modify (fun p => match p_argv p with Some _ => p | None => set_p_argv (Some [[]]) p end);
  try_except start_by_server (fun e => if is_Exception e then p_error else raise e).

(** The module's top level. *)
Definition sitecustomize (h : Host) (uuid : pystr) : MP unit :=
  _ ← import_user_site h;
  _ ← modify (fun p => set_p_env (stop_propagation h (p_env p)) p);
  env ← gets p_env;
  same ← lift (same_interpreter h env);
  if negb same then modify (add_p_errors 2 (Some 1)) else boot uuid.
End loader.

(** ** Forks *)

(** [os.fork()] seen from the child: the at-fork hook of Agent.v runs if it is armed, and
    an exception of a hook is ignored. *)
Definition fork_proc (pid : Z) (p : Proc) : Proc :=
  let q := mkProc pid (p_env p) (p_path p) (p_site p) (p_argv p) (p_agent p) (p_errors p) (p_exit p) in
  match p_agent p with
  | Some (Threaded a) =>
      set_p_agent (Some (Threaded (fork_child pid a).1))
        (if at_fork_registered a then (export_fork_support q).1 else q)
  | Some (Asyncio a) =>
      set_p_agent (Some (Asyncio (mkAAgent (aa_config a) pid (aa_started a) (aa_started_pid a)
        (aa_protocol a) (aa_finished a) (aa_loop a) (aa_queues a) (aa_callbacks a) (aa_tasks a)
        (match aa_thread a with Some _ => Some false | None => None end) (aa_hooks a)
        (aa_installs a) (aa_rlog a) (aa_errors a) (aa_channels a)))) q
  | None => q
  end.

(** uwsgi_hook.py: [setup_skywalking], called in a worker after its fork. *)
Definition setup_skywalking : MP unit :=
  p ← get_st;
  _ ← p_set_config (name_process (py "-child") (p_pid p));
  try_except p_start (fun e => if is_Exception e then p_error else raise e).

(** The process [execvp] starts: the environment of the command line, [sys.path] built from
    it by the interpreter, the loader imported as [sitecustomize]. *)
Definition spawned (pid : Z) (path : list pystr) (argv : option (list pystr)) (c : Cli) : Proc :=
  mkProc pid (c_env c) path (Some LoaderSite) argv None 0 None.
