(* ===== verification/BootstrapProps.v ===== *)
(** * Theorems about the command line and the loader (Bootstrap.v)

    What [PYTHONPATH] becomes, that the command is started with an agent exactly when it
    uses the interpreter of [sw-python], and how the workers of Gunicorn and uWSGI get
    agents of their own. *)

From S2P Require Import Prelude PyData PyText Config Agent AgentProps AgentAsync LogReport SelfLog Bootstrap.

(** ** Paths *)

Lemma split_on_parts sep s : Forall (fun p => sep ∉ p) (split_on sep s).
Proof.
  induction s as [|c s IH]; cbn; [repeat constructor; set_solver|].
  destruct (c =? sep) eqn:E; [constructor; [set_solver | done]|].
  apply Z.eqb_neq in E. destruct (split_on sep s) as [|p ps]; inversion IH; subst;
    constructor; try done; set_solver.
Qed.

Lemma join_split sep s : join [sep] (split_on sep s) = s.
Proof.
  induction s as [|c s IH]; [done|]. cbn. destruct (c =? sep) eqn:E.
  - apply Z.eqb_eq in E as ->. destruct (split_on sep s) eqn:Es; [|by cbn in *; rewrite IH].
    by destruct (split_on_nonempty sep s).
  - destruct (split_on sep s) as [|p [|p' ps]] eqn:Es; cbn in *; [by rewrite <- IH | by rewrite IH |].
    by rewrite <- IH.
Qed.

(** The separator is in neither directory of the package. *)
Definition host_ok (h : Host) : Prop :=
  (pathsep h ∉ loader_path h) ∧ (pathsep h ∉ hook_path h) ∧ loader_path h ≠ hook_path h.

(** The entries of a [PYTHONPATH]; an empty one has none. *)
Definition path_entries (h : Host) (v : option pystr) : list pystr :=
  match v with None | Some [] => [] | Some pp => split_on (pathsep h) pp end.

(** The entries of the [PYTHONPATH] of the new process. *)
Lemma python_path_parts h v :
  host_ok h ->
  split_on (pathsep h) (new_python_path h v) =
    loader_path h :: hook_path h ::
    (if decide (loader_path h ∈ path_entries h v) then [] else path_entries h v).
Proof.
  intros (Hl & Hh & _).
  assert (split_on (pathsep h) (join [pathsep h] [loader_path h; hook_path h]) =
    [loader_path h; hook_path h]) as Hshort by (apply split_join; [done | by repeat constructor]).
  unfold new_python_path, path_entries. destruct v as [[|c pp]|];
    [by cbv zeta iota; rewrite decide_True | | by cbv zeta iota; rewrite decide_True].
  cbv zeta. destruct (decide (loader_path h ∈ _)); [by rewrite decide_True|].
  rewrite decide_False.
  - change (join [pathsep h] [loader_path h; hook_path h; c :: pp]) with
      (loader_path h ++ pathsep h :: (hook_path h ++ pathsep h :: (c :: pp))).
    by rewrite !split_on_app.
  - cbn. by destruct (loader_path h).
Qed.

(** Without the loader, as [stop_propagation] leaves it. *)
Lemma propagated_parts h v :
  host_ok h -> (loader_path h ∉ path_entries h v) ->
  ∃ rest, list_remove_first (loader_path h) (split_on (pathsep h) (new_python_path h v)) = Some rest ∧
    split_on (pathsep h) (join [pathsep h] rest) = hook_path h :: path_entries h v ∧
    new_python_path h v ≠ [].
Proof.
  intros Hok Hn. pose proof (python_path_parts h v Hok) as Hp. rewrite decide_False in Hp by done.
  pose proof (split_on_parts (pathsep h) (new_python_path h v)) as F. rewrite Hp in F |- *.
  cbn [list_remove_first]. rewrite decide_True by done. eexists. split; [done|]. split.
  - apply split_join; [done | by inversion F].
  - intros E. rewrite E in Hp. cbn in Hp. by simplify_eq.
Qed.

(** ** Running a command *)

(** The environment [execute] leaves, from the one [prefork_handler] left. *)
Definition exec_env (h : Host) (dbg : bool) (env : Env) : Env :=
  <[py "SW_AGENT_SW_PYTHON_CLI_DEBUG_ENABLED" := if dbg then py "True" else py "False"]>
  (<[py "SW_PYTHON_VERSION" := py_version h]>
   (<[py "SW_PYTHON_PREFIX" := py_prefix h]>
    (<[py "PYTHONPATH" := new_python_path h (env !! py "PYTHONPATH")]> env))).

(** Variables [execute] does not write. *)
Definition cli_vars : list pystr :=
  [py "SW_AGENT_SW_PYTHON_CLI_DEBUG_ENABLED"; py "SW_PYTHON_VERSION"; py "SW_PYTHON_PREFIX";
   py "PYTHONPATH"].

Lemma exec_env_other h dbg env k : k ∉ cli_vars -> exec_env h dbg env !! k = env !! k.
Proof. intros Hk. unfold exec_env. rewrite !lookup_insert_ne; [done | set_solver..]. Qed.

Lemma exec_env_prefix h dbg env : exec_env h dbg env !! py "SW_PYTHON_PREFIX" = Some (py_prefix h).
Proof. unfold exec_env. by simplify_map_eq. Qed.

Lemma exec_env_version h dbg env : exec_env h dbg env !! py "SW_PYTHON_VERSION" = Some (py_version h).
Proof. unfold exec_env. by simplify_map_eq. Qed.

Lemma exec_env_path h dbg env :
  exec_env h dbg env !! py "PYTHONPATH" = Some (new_python_path h (env !! py "PYTHONPATH")).
Proof. unfold exec_env. by simplify_map_eq. Qed.

Lemma exec_env_debug h dbg env :
  exec_env h dbg env !! py "SW_AGENT_SW_PYTHON_CLI_DEBUG_ENABLED" =
    Some (if dbg then py "True" else py "False").
Proof. unfold exec_env. by simplify_map_eq. Qed.

(** [prefork_handler] changes only the environment. *)
Definition env_only {A} (m : MC A) : Prop :=
  ∀ c, c_debug (m c).1 = c_debug c ∧ c_errors (m c).1 = c_errors c ∧ replaced (m c).1 = replaced c.

Lemma env_only_bind {A B} (m : MC A) (f : A -> MC B) :
  env_only m -> (∀ a, env_only (f a)) -> env_only (m ≫= f).
Proof.
  intros Hm Hf c. unfold mbind, M_bind. specialize (Hm c). destruct (m c) as [c1 [a|e]]; [|done].
  specialize (Hf a c1). cbn in *. intuition congruence.
Qed.

Lemma env_only_if {A} `{Decision P} (m1 m2 : MC A) :
  env_only m1 -> env_only m2 -> env_only (if decide P then m1 else m2).
Proof. by destruct (decide P). Qed.

Lemma prefork_env_only cmd : env_only (prefork_handler cmd).
Proof.
  unfold prefork_handler.
  repeat (apply env_only_bind || apply env_only_if || intros ? || done).
Qed.

Section run.
Variable execvp : Env -> list pystr -> option exn.

Lemma execute_run h cmd flag c c1 :
  cmd ≠ [] -> (if (flag : bool) then prefork_handler cmd else mret tt) c = (c1, Ok tt) ->
  let env := exec_env h (c_debug c1) (c_env c1) in
  execute execvp h cmd flag c =
    match execvp env cmd with
    | None => (mkCli env (c_debug c1) (c_errors c1) (Some cmd), Ok tt)
    | Some e => (mkCli env (c_debug c1) (c_errors c1) (replaced c1),
                 Raise (if decide (e = OSError) then SWRunnerFailure else e))
    end.
Proof.
  intros Hc H1. cbv zeta. unfold execute. rewrite (bind_ok _ _ _ _ _ H1).
  do 6 (erewrite bind_ok by reflexivity; cbv beta). destruct cmd as [|c0 cmd]; [done|].
  unfold try_except. do 2 (erewrite bind_ok by reflexivity; cbv beta).
  match goal with |- context [execvp ?x ?y] =>
    change x with (exec_env h (c_debug c1) (c_env c1)); destruct (execvp _ y) end; [|done].
  unfold raise. by destruct (decide _).
Qed.

(** A command that is started has the environment [exec_env] of what [prefork_handler] left. *)
Lemma start_run h args c c' :
  start execvp h args c = (c', Ok tt) -> replaced c = None -> replaced c' ≠ None ->
  ∃ c1, (if prefork args then prefork_handler (command args) else mret tt)
          (mkCli (c_env c) (debug args) (c_errors c) None) = (c1, Ok tt) ∧
    c' = mkCli (exec_env h (debug args) (c_env c1)) (debug args) (c_errors c) (Some (command args)) ∧
    option_name args = py "run" ∧ command args ≠ [].
Proof.
  intros H Hr Hr'. unfold start in H. erewrite bind_ok in H by reflexivity. rewrite Hr in H.
  set (c0 := mkCli _ _ _ _) in *. destruct (decide (command args = [])) as [|Hc].
  { injection H as <-. done. }
  unfold try_except, dispatch in H. destruct (decide (option_name args = py "run")) as [Ho|];
    [|done].
  set (m := if prefork args then prefork_handler (command args) else mret tt) in *.
  assert (c_debug (m c0).1 = debug args ∧ c_errors (m c0).1 = c_errors c ∧ replaced (m c0).1 = None)
    as (Hd & He & Hn).
  { subst m. destruct (prefork args); [|done]. apply (prefork_env_only (command args) c0). }
  destruct (m c0) as [c1 [[]|e]] eqn:Em; cbn in Hd, He, Hn.
  - rewrite (execute_run h _ _ _ _ Hc Em) in H. rewrite Hd, He, Hn in H. cbv zeta in H.
    destruct (execvp _ _) as [e|]; [|injection H as <-; by exists c1].
    destruct (decide (_ = SWRunnerFailure)); [|done]. injection H as <-. done.
  - unfold execute in H. subst m. rewrite (bind_raise _ _ _ _ _ Em) in H.
    destruct (decide (e = SWRunnerFailure)); [|done]. injection H as <-. cbn in Hr'. done.
Qed.
End run.

(** *** The branches of [prefork_handler] *)

Lemma prefork_other c0 rest c :
  c0 ∉ [py "gunicorn"; py "uwsgi"] ->
  prefork_handler (c0 :: rest) c =
    (mkCli (<[py "prefork" := []]> (c_env c)) (c_debug c) (c_errors c) (replaced c), Ok tt).
Proof.
  intros Hc. unfold prefork_handler. do 2 (erewrite bind_ok by reflexivity; cbv beta).
  rewrite decide_False by set_solver. by rewrite decide_False by set_solver.
Qed.

Lemma prefork_gunicorn rest c :
  prefork_handler (py "gunicorn" :: rest) c =
    (mkCli (<[py "prefork" := py "gunicorn"]> (<[py "prefork" := []]> (c_env c)))
       (c_debug c) (c_errors c) (replaced c), Ok tt).
Proof.
  unfold prefork_handler. do 2 (erewrite bind_ok by reflexivity; cbv beta). by rewrite decide_True.
Qed.

Lemma pick_env_var_spec env :
  match pick_env_var env with
  | Ok v => v ∈ hook_vars ∧ env !! v = None
  | Raise e => e = SWRunnerFailure ∧ ∀ v, v ∈ hook_vars -> is_Some (env !! v)
  end.
Proof.
  unfold pick_env_var. destruct (List.find _ _) as [v|] eqn:E.
  - apply List.find_some in E as [Hin Hb]. apply bool_decide_eq_true_1 in Hb.
    by apply list_elem_of_In in Hin.
  - split; [done|]. intros v Hv. apply list_elem_of_In in Hv.
    pose proof (List.find_none _ _ E v Hv) as Hb. cbn in Hb. apply bool_decide_eq_false_1 in Hb.
    by apply not_eq_None_Some.
Qed.

(** The variables [prefork_handler] may write for uWSGI before it picks a hook variable. *)
Definition uwsgi_env (rest : list pystr) (env : Env) : Env :=
  let env1 := <[py "prefork" := []]> env in
  let env2 := if decide (py "--master" ∈ rest) then env1 else <[py "UWSGI_MASTER" := py "true"]> env1 in
  let env3 := if decide (py "--enable-threads" ∈ rest) then env2
              else <[py "UWSGI_ENABLE_THREADS" := py "true"]> env2 in
  <[py "prefork" := py "uwsgi"]> env3.

Lemma uwsgi_env_other rest env k :
  k ∉ [py "prefork"; py "UWSGI_MASTER"; py "UWSGI_ENABLE_THREADS"] ->
  uwsgi_env rest env !! k = env !! k.
Proof.
  intros Hk. unfold uwsgi_env. rewrite lookup_insert_ne by set_solver.
  repeat case_decide; rewrite ?lookup_insert_ne by set_solver; done.
Qed.

Lemma prefork_uwsgi rest c :
  prefork_handler (py "uwsgi" :: rest) c =
    let env := uwsgi_env rest (c_env c) in
    match pick_env_var env with
    | Ok v => (mkCli (<[v := py "uwsgi_hook"]> env) (c_debug c) (c_errors c) (replaced c), Ok tt)
    | Raise e => (mkCli env (c_debug c) (c_errors c) (replaced c), Raise e)
    end.
Proof.
  unfold prefork_handler. do 2 (erewrite bind_ok by reflexivity; cbv beta).
  rewrite decide_False by done. rewrite decide_True by done. cbn [tail].
  unfold uwsgi_env. cbv zeta.
  destruct (decide (py "--master" ∈ rest)), (decide (py "--enable-threads" ∈ rest));
    unfold c_setenv, gets, modify, mbind, M_bind, mret, M_ret, lift; cbn [c_env c_debug c_errors replaced];
    by destruct (pick_env_var _).
Qed.

(** ** Starting the agent of a process *)

Definition fresh_agent (s : SwAgent) : Prop :=
  match s with
  | Threaded a => a_started a = false ∧ threads a = []
  | Asyncio a => aa_started a = false
  end.

(** A running agent of the process [pid] with configuration [cfg]. *)
Definition agent_up (pid : Z) (cfg : Config) (s : SwAgent) : Prop :=
  match s with
  | Threaded a =>
      reporting a = true ∧ started_pid a = Some pid ∧ a_config a = cfg ∧
      threads a = thread_names cfg ∧ (∀ k, is_Some (queue_of k a) <-> kind_active cfg k = true)
  | Asyncio a => aa_started a = true ∧ aa_started_pid a = Some pid ∧ aa_config a = cfg ∧ aa_thread a = Some true
  end.

Definition is_asyncio (s : SwAgent) : bool := match s with Threaded _ => false | Asyncio _ => true end.

Lemma export_env p : ∃ env, export_fork_support p = (set_p_env env p, Ok tt).
Proof.
  unfold export_fork_support. erewrite bind_ok by reflexivity. cbv beta.
  assert (∃ env, (mret tt : MP unit) p = (set_p_env env p, Ok tt)) as Hret
    by (exists (p_env p); by destruct p).
  destruct (p_agent p) as [[a|a]|]; [|done..]. case_decide; [|done].
  destruct (agent_experimental_fork_support _); [by eexists | done].
Qed.

Lemma running_up a a' :
  running a a' -> threads a = [] -> agent_up (a_pid a) (a_config a) (Threaded a').
Proof.
  intros R Ht. destruct (run_pid _ _ R) as [Hp _]. destruct (run_threads _ _ R) as [Hth _].
  cbn. rewrite Hp, (run_config _ _ R), Hth, Ht. split_and!; try done; [apply R|].
  intros k. rewrite (run_queues _ _ R). destruct (kind_active _ k).
  - split; [done | intros _; by eexists].
  - split; [by intros [? [=]] | done].
Qed.

Lemma start_fresh s :
  fresh_agent s ->
  ∃ s', run_threaded start_agent async_start s = (s', Ok tt) ∧ is_asyncio s' = is_asyncio s ∧
    agent_up (sw_pid s) (finalize (sw_config s)) s'.
Proof.
  destruct s as [a|a]; cbn [fresh_agent run_threaded].
  - intros [Hs Ht]. rewrite start_split, Hs.
    destruct (start_body_running (init_instrumentation a).1) as (a' & -> & R).
    exists (Threaded a'). split_and!; [done..|].
    exact (running_up _ _ R Ht).
  - intros Hs. unfold async_start. erewrite bind_ok by reflexivity. cbv beta. rewrite Hs. cbn [negb].
    erewrite bind_ok by reflexivity. eexists. split; [reflexivity|]. by split.
Qed.

(** The level of the agent's own log is a name that logging knows. *)
Definition known_level (cfg : Config) : Prop := is_Some (level_with_off (agent_logging_level cfg)).

Lemma loggings_known p s :
  p_agent p = Some s -> known_level (sw_config s) -> p_loggings_init p = (p, Ok tt).
Proof. intros Hp [n Hn]. unfold p_loggings_init, loggings_init. by rewrite Hp, Hn. Qed.

Lemma p_start_up p s :
  p_agent p = Some s -> fresh_agent s -> known_level (sw_config s) ->
  ∃ s' env, p_start p = (set_p_agent (Some s') (set_p_env env p), Ok tt) ∧
    is_asyncio s' = is_asyncio s ∧ agent_up (sw_pid s) (finalize (sw_config s)) s'.
Proof.
  intros Hp Hf Hk. unfold p_start. rewrite (bind_ok _ _ _ _ _ (loggings_known p s Hp Hk)).
  destruct (export_env p) as [env E]. rewrite (bind_ok _ _ _ _ _ E). clear Hk. unfold on_agent. change (p_agent (set_p_env env p)) with (p_agent p). rewrite Hp.
  destruct (start_fresh s Hf) as (s' & -> & Hk & Hup). by exists s', env.
Qed.

(** ** The loader *)

(** What is expected of the user's own sitecustomize: it may be missing, it leaves the
    environment and the agent alone and does not put the loader back on [sys.path]. *)
Class PoliteSite (user_site : MP unit) (h : Host) : Prop := {
  us_result : ∀ p, (user_site p).2 = Ok tt ∨ (user_site p).2 = Raise ImportError;
  us_frame : ∀ p, let p' := (user_site p).1 in
    p_pid p' = p_pid p ∧ p_env p' = p_env p ∧ p_agent p' = p_agent p ∧
    p_errors p' = p_errors p ∧ p_exit p' = p_exit p;
  us_path : ∀ p, loader_path h ∉ p_path p -> loader_path h ∉ p_path (user_site p).1
}.

Lemma propagation_other h env k : k ≠ py "PYTHONPATH" -> stop_propagation h env !! k = env !! k.
Proof.
  intros Hk. unfold stop_propagation. case_decide; [|done].
  destruct (env !! py "PYTHONPATH") as [[|c pp]|]; [done| |done].
  destruct (list_remove_first _ _); [|done]. by rewrite lookup_insert_ne.
Qed.

Section loader.
Context (str_lower : pystr -> pystr) (user_site : MP unit) (h : Host) `{!PoliteSite user_site h}.

(** The process once the user's module is imported and [PYTHONPATH] is settled. *)
Lemma loader_prepared p :
  ∃ p', (_ ← import_user_site user_site h;
         modify (fun p => set_p_env (stop_propagation h (p_env p)) p)) p = (p', Ok tt) ∧
    p_pid p' = p_pid p ∧ p_env p' = stop_propagation h (p_env p) ∧ p_agent p' = p_agent p ∧
    p_errors p' = p_errors p ∧ p_exit p' = p_exit p ∧ (loader_path h ∉ p_path p') ∧
    (p_site p' = Some UserSite ∨ p_site p' = p_site p).
Proof.
  unfold import_user_site, mbind, M_bind.
  set (p1 := set_p_site _ None p).
  destruct (us_frame p1) as (Fp & Fe & Fa & Fr & Fx). pose proof (us_result p1) as Hr.
  assert (loader_path h ∉ p_path (user_site p1).1) as Hpath.
  { apply us_path. cbn. rewrite list_elem_of_filter. by intros [? _]. }
  destruct (user_site p1) as [p2 [[]|e]]; cbn in Fp, Fe, Fa, Fr, Fx, Hr, Hpath |- *.
  - eexists. split; [reflexivity|]. cbn. rewrite Fe. auto 10.
  - destruct Hr as [|[= ->]]; [done|]. rewrite decide_True by done.
    eexists. split; [reflexivity|]. cbn. rewrite Fe. auto 10.
Qed.

(** The loader's decision, from the environment it finds. *)
Lemma sitecustomize_run uuid p prefix :
  p_env p !! py "SW_PYTHON_PREFIX" = Some prefix ->
  ∃ p', sitecustomize str_lower user_site h uuid p =
      (if decide (p_env p !! py "SW_PYTHON_VERSION" = Some (py_version h) ∧
                  str_lower prefix = str_lower (py_prefix h))
       then boot uuid p' else (add_p_errors 2 (Some 1) p', Ok tt)) ∧
    p_pid p' = p_pid p ∧ p_env p' = stop_propagation h (p_env p) ∧ p_agent p' = p_agent p ∧
    p_errors p' = p_errors p ∧ p_exit p' = p_exit p ∧ (loader_path h ∉ p_path p') ∧
    (p_site p' = Some UserSite ∨ p_site p' = p_site p).
Proof using PoliteSite0.
  intros Hp. destruct (loader_prepared p) as (p' & E & F). exists p'. split; [|done].
  destruct F as (_ & Fe & _). unfold sitecustomize.
  unfold mbind, M_bind in E |- *. destruct (import_user_site user_site h p) as [q [[]|e]]; [|done].
  unfold modify at 1 in E. injection E as E. unfold modify at 1. rewrite E. unfold gets, lift.
  rewrite Fe. unfold same_interpreter. rewrite !propagation_other by done. rewrite Hp.
  repeat case_bool_decide; case_decide; (done || tauto).
Qed.
End loader.

(** *** The agent the loader creates *)

(** The options after the debug flag of the command line. *)
Definition debugged (env : Env) (cfg : Config) : Config :=
  if decide (env !! py "SW_AGENT_SW_PYTHON_CLI_DEBUG_ENABLED" = Some (py "True"))
  then set_logging_level (py "DEBUG") cfg else cfg.

Lemma make_agent_set (f : Config -> Config) (cfg : Config) pid :
  agent_asyncio_enhancement (f cfg) = agent_asyncio_enhancement cfg ->
  sw_set_config f (make_agent cfg pid) = make_agent (f cfg) pid.
Proof. intros Ha. unfold make_agent. rewrite Ha. by destruct (agent_asyncio_enhancement cfg). Qed.

Lemma make_agent_facts (cfg : Config) pid :
  fresh_agent (make_agent cfg pid) ∧ sw_config (make_agent cfg pid) = cfg ∧
  sw_pid (make_agent cfg pid) = pid ∧ is_asyncio (make_agent cfg pid) = agent_asyncio_enhancement cfg.
Proof. unfold make_agent. by destruct (agent_asyncio_enhancement cfg). Qed.

(** Importing the agent, in a process whose environment loads as [cfg]. *)
Lemma boot_run uuid p (cfg : Config) :
  load (fun k => p_env p !! k) uuid = Ok cfg ->
  ∃ p', boot uuid p =
      try_except start_by_server (fun e => if is_Exception e then p_error else raise e) p' ∧
    p_agent p' = Some (make_agent (debugged (p_env p) cfg) (p_pid p)) ∧
    p_pid p' = p_pid p ∧ p_env p' = p_env p ∧ p_errors p' = p_errors p ∧ p_exit p' = p_exit p ∧
    p_path p' = p_path p ∧ p_site p' = p_site p ∧ p_argv p' ≠ None.
Proof.
  intros Hl. unfold boot. erewrite bind_ok by reflexivity. cbv beta.
  rewrite (bind_ok (lift _) _ p p cfg) by (unfold lift; by rewrite Hl).
  erewrite bind_ok by reflexivity. unfold debugged.
  set (p1 := set_p_agent (Some (make_agent cfg (p_pid p))) p).
  set (p2 := set_p_agent (Some (make_agent (debugged (p_env p) cfg) (p_pid p))) p).
  assert ((if decide (p_env p !! py "SW_AGENT_SW_PYTHON_CLI_DEBUG_ENABLED" = Some (py "True"))
    then p_set_config (set_logging_level (py "DEBUG")) else mret tt) p1 = (p2, Ok tt)) as E.
  { subst p2. unfold debugged. case_decide; [|done]. unfold p_set_config, on_agent. cbn [p_agent p1 set_p_agent].
    by rewrite make_agent_set. }
  rewrite (bind_ok _ _ _ _ _ E). erewrite bind_ok by reflexivity.
  eexists. split; [reflexivity|]. subst p2. unfold debugged. cbn. destruct (p_argv p) eqn:Ea; cbn; rewrite ?Ea; done.
Qed.

(** Without a pre-forking server, [agent.start()]. *)
Lemma start_by_server_plain p s :
  p_agent p = Some s -> p_env p !! py "prefork" ∈ [None; Some []] -> start_by_server p = p_start p.
Proof.
  intros Hs Hp. unfold start_by_server. erewrite bind_ok by reflexivity. cbv beta.
  assert (p_env p !! py "prefork" = None ∨ p_env p !! py "prefork" = Some []) as [-> | ->]
    by set_solver; done.
Qed.

(** A server was detected: the options of the master. *)
Definition master_config (server : pystr) (pid : Z) (cfg : Config) : Config :=
  let c := name_process (py "-master") pid cfg in
  if decide (server = py "gunicorn") then set_fork_support c else c.

Lemma start_by_server_prefork p (cfg : Config) server pid :
  server ≠ [] -> p_agent p = Some (make_agent cfg pid) -> p_env p !! py "prefork" = Some server ->
  let s := make_agent (master_config server (p_pid p) cfg) pid in
  start_by_server p =
    if decide (server = py "gunicorn") then
      if agent_asyncio_enhancement cfg then p_error (set_p_agent (Some s) p)
      else p_start_prefork_master (set_p_agent (Some s) p)
    else (set_p_agent (Some s) p, Ok tt).
Proof.
  intros Hne Ha Hp. cbv zeta. unfold start_by_server, master_config.
  erewrite bind_ok by reflexivity. cbv beta. rewrite Hp. destruct server as [|c server]; [done|].
  set (p1 := set_p_agent (Some (make_agent (name_process (py "-master") (p_pid p) cfg) pid)) p).
  rewrite (bind_ok _ _ p p1 tt) by (unfold p_set_config, on_agent; rewrite Ha; cbn; by rewrite make_agent_set).
  case_decide; [|done].
  set (p2 := set_p_agent (Some (make_agent (set_fork_support (name_process (py "-master") (p_pid p) cfg)) pid)) p).
  rewrite (bind_ok _ _ p1 p2 tt) by (unfold p_set_config, on_agent; cbn; by rewrite make_agent_set).
  erewrite bind_ok by reflexivity. cbv beta. cbn [p2 p_agent set_p_agent].
  destruct (make_agent_facts (set_fork_support (name_process (py "-master") (p_pid p) cfg)) pid)
    as (_ & -> & _). change (agent_asyncio_enhancement (set_fork_support _)) with (agent_asyncio_enhancement cfg).
  by destruct (agent_asyncio_enhancement cfg).
Qed.

(** ** Search paths, and what is left unstarted *)

Lemma prefork_frame cmd c k :
  k ∉ hook_vars ++ [py "prefork"; py "UWSGI_MASTER"; py "UWSGI_ENABLE_THREADS"] ->
  c_env (prefork_handler cmd c).1 !! k = c_env c !! k.
Proof.
  intros Hk. destruct cmd as [|c0 rest].
  { change (<[py "prefork" := []]> (c_env c) !! k = c_env c !! k). by rewrite lookup_insert_ne by set_solver. }
  destruct (decide (c0 = py "gunicorn")) as [->|].
  { rewrite prefork_gunicorn. cbn [fst c_env]. by rewrite !lookup_insert_ne by set_solver. }
  destruct (decide (c0 = py "uwsgi")) as [->|].
  - rewrite prefork_uwsgi. cbv zeta. pose proof (pick_env_var_spec (uwsgi_env rest (c_env c))) as Hp.
    destruct (pick_env_var _) as [v|]; cbn [fst c_env].
    + destruct Hp as [Hv _]. rewrite lookup_insert_ne by set_solver. apply uwsgi_env_other. set_solver.
    + apply uwsgi_env_other. set_solver.
  - rewrite prefork_other by set_solver. cbn [fst c_env]. by rewrite lookup_insert_ne by set_solver.
Qed.

Section commands.
Variable execvp : Env -> list pystr -> option exn.

(** What a started command finds in its environment. *)
Definition runs (h : Host) (args : Args) (c c' : Cli) : Prop :=
  start execvp h args c = (c', Ok tt) ∧ replaced c = None ∧ replaced c' ≠ None.

Lemma runs_env h args c c' :
  runs h args c c' ->
  ∃ c1, (if prefork args then prefork_handler (command args) else mret tt)
          (mkCli (c_env c) (debug args) (c_errors c) None) = (c1, Ok tt) ∧
    c_env c' = exec_env h (debug args) (c_env c1) ∧ command args ≠ [].
Proof.
  intros (H & Hr & Hr'). destruct (start_run execvp h args c c' H Hr Hr') as (c1 & E & -> & _ & Hc).
  by exists c1.
Qed.

Lemma runs_var h args c c' :
  runs h args c c' ->
  ∃ env, c_env c' = exec_env h (debug args) env ∧
    ∀ k, k ∉ hook_vars ++ [py "prefork"; py "UWSGI_MASTER"; py "UWSGI_ENABLE_THREADS"] ->
      env !! k = c_env c !! k.
Proof.
  intros Hruns. destruct (runs_env _ _ _ _ Hruns) as (c1 & E & He & _). exists (c_env c1).
  split; [done|]. intros k Hk. destruct (prefork args); [|by injection E as <-].
  pose proof (prefork_frame (command args) (mkCli (c_env c) (debug args) (c_errors c) None) k Hk) as F.
  by rewrite E in F.
Qed.

(** When the user already uses all four import variables of uWSGI, the command is not started:
    an error is logged and [sw-python] returns. *)
Theorem uwsgi_without_slot h args c :
  option_name args = py "run" -> prefork args = true -> head (command args) = Some (py "uwsgi") ->
  (∀ v, v ∈ hook_vars -> is_Some (c_env c !! v)) ->
  ∃ c', start execvp h args c = (c', Ok tt) ∧ replaced c' = replaced c ∧ c_errors c' = S (c_errors c).
Proof.
  intros Ho Hpre Hhead Hv. unfold start. erewrite bind_ok by reflexivity.
  destruct (command args) as [|c0 rest] eqn:Ec; [done|]. injection Hhead as ->.
  rewrite decide_False by done. unfold try_except, dispatch. rewrite decide_True by done.
  unfold execute. rewrite Hpre, Ec. set (c1 := mkCli _ _ _ _).
  assert (∃ c2, prefork_handler (py "uwsgi" :: rest) c1 = (c2, Raise SWRunnerFailure) ∧
    replaced c2 = replaced c ∧ c_errors c2 = c_errors c) as (c2 & E & Hr & He).
  { rewrite prefork_uwsgi. cbv zeta. pose proof (pick_env_var_spec (uwsgi_env rest (c_env c1))) as Hp.
    destruct (pick_env_var _) as [v|e]; [|destruct Hp as [-> _]; by eexists].
    destruct Hp as [Hin Hfree]. rewrite uwsgi_env_other in Hfree by (unfold hook_vars in Hin; set_solver).
    destruct (Hv v Hin) as [x Hx]. change (c_env c1) with (c_env c) in Hfree. congruence. }
  rewrite (bind_raise _ _ _ _ _ E). rewrite decide_True by done.
  eexists. split; [reflexivity|]. cbn. by rewrite Hr, He.
Qed.

(** The search path of a command: the loader first, then the hooks, then every entry the user
    had, in order, also when a pre-forking server was detected. *)
Theorem pythonpath_prepended h args c c' :
  host_ok h -> runs h args c c' ->
  (loader_path h ∉ path_entries h (c_env c !! py "PYTHONPATH")) ->
  ∃ pp, c_env c' !! py "PYTHONPATH" = Some pp ∧
    split_on (pathsep h) pp =
      loader_path h :: hook_path h :: path_entries h (c_env c !! py "PYTHONPATH").
Proof.
  intros Hok Hruns Hn. destruct (runs_var _ _ _ _ Hruns) as (env & -> & Hk).
  rewrite exec_env_path. eexists. split; [done|]. rewrite python_path_parts by done.
  rewrite Hk by (unfold hook_vars; set_solver). by rewrite decide_False.
Qed.

(** [sw-python run] from inside a process that [sw-python run] started: the loader is already
    on [PYTHONPATH], and every other entry of it is lost, the user's included. *)
Theorem nested_run_drops_path h args c c' :
  host_ok h -> runs h args c c' -> loader_path h ∈ path_entries h (c_env c !! py "PYTHONPATH") ->
  ∃ pp, c_env c' !! py "PYTHONPATH" = Some pp ∧
    split_on (pathsep h) pp = [loader_path h; hook_path h].
Proof.
  intros Hok Hruns Hin. destruct (runs_var _ _ _ _ Hruns) as (env & -> & Hk).
  rewrite exec_env_path. eexists. split; [done|]. rewrite python_path_parts by done.
  rewrite Hk by (unfold hook_vars; set_solver). by rewrite decide_True.
Qed.

(** With [SW_AGENT_SW_PYTHON_BOOTSTRAP_PROPAGATE=False] the processes a command spawns do not
    find the loader, and find everything else they would have found. *)
Theorem propagation_stops h args c c' :
  host_ok h -> runs h args c c' ->
  c_env c !! py "SW_AGENT_SW_PYTHON_BOOTSTRAP_PROPAGATE" = Some (py "False") ->
  (loader_path h ∉ path_entries h (c_env c !! py "PYTHONPATH")) ->
  ∃ pp, stop_propagation h (c_env c') !! py "PYTHONPATH" = Some pp ∧
    (loader_path h ∉ split_on (pathsep h) pp) ∧
    split_on (pathsep h) pp = hook_path h :: path_entries h (c_env c !! py "PYTHONPATH").
Proof.
  intros Hok Hruns Hfalse Hn. destruct (runs_var _ _ _ _ Hruns) as (env & -> & Hk).
  unfold stop_propagation. rewrite exec_env_other by (unfold cli_vars; set_solver).
  rewrite Hk by (unfold hook_vars; set_solver). rewrite Hfalse, decide_True by done.
  rewrite exec_env_path, Hk by (unfold hook_vars; set_solver).
  destruct (propagated_parts h _ Hok Hn) as (rest & Hr & Hs & Hne).
  destruct (new_python_path h _); [done|]. rewrite Hr, lookup_insert_eq. eexists. split; [done|].
  rewrite Hs. split; [|done]. apply not_elem_of_cons. split; [apply Hok | done].
Qed.
End commands.

(** ** From the command line to the agent *)

Section end_to_end.
Context (execvp : Env -> list pystr -> option exn) (str_lower : pystr -> pystr).
Abbreviation runs := (runs execvp).

(** The loader in a process the command line started, when the interpreters agree. *)
Lemma loader_boots user_site h args c c' uuid pid path argv (cfg : Config) `{!PoliteSite user_site h} :
  runs h args c c' -> load (fun k => stop_propagation h (c_env c') !! k) uuid = Ok cfg ->
  ∃ p, sitecustomize str_lower user_site h uuid (spawned pid path argv c') =
      try_except start_by_server (fun e => if is_Exception e then p_error else raise e) p ∧
    p_agent p = Some (make_agent (if debug args then set_logging_level (py "DEBUG") cfg else cfg) pid) ∧
    p_pid p = pid ∧ p_env p = stop_propagation h (c_env c') ∧ p_errors p = 0%nat ∧
    p_exit p = None ∧ (loader_path h ∉ p_path p).
Proof.
  intros Hruns Hl. destruct (runs_env execvp _ _ _ _ Hruns) as (c1 & _ & Henv & _).
  destruct (sitecustomize_run str_lower user_site h uuid (spawned pid path argv c') (py_prefix h))
    as (p1 & -> & Fp & Fe & Fa & Fr & Fx & Fpath & _).
  { cbn. rewrite Henv. apply exec_env_prefix. }
  rewrite decide_True by (cbn; rewrite Henv, exec_env_version; done).
  destruct (boot_run uuid p1 cfg) as (p & -> & Ga & Gp & Ge & Gr & Gx & Gpath & _).
  { by rewrite Fe. }
  exists p. rewrite Ga, Gp, Ge, Gr, Gx, Gpath, Fe, Fp, Fr, Fx. split_and!; try done.
  unfold debugged. cbn [p_env spawned]. rewrite propagation_other by done.
  rewrite Henv, exec_env_debug. by destruct (debug args).
Qed.

(** A variable that neither the loader nor [execute] writes reaches the loader. *)
Lemma loader_var h dbg env k :
  k ∉ cli_vars -> stop_propagation h (exec_env h dbg env) !! k = env !! k.
Proof.
  intros Hk. rewrite propagation_other by (unfold cli_vars in Hk; set_solver). by apply exec_env_other.
Qed.

(** The value of [prefork] that the loader sees. *)
Lemma loader_prefork h args c c' server :
  runs h args c c' ->
  (if prefork args then
     match command args with
     | c0 :: _ => server = Some (if decide (c0 = py "gunicorn") then c0
                                 else if decide (c0 = py "uwsgi") then c0 else [])
     | [] => False
     end
   else c_env c !! py "prefork" = server) ->
  stop_propagation h (c_env c') !! py "prefork" = server.
Proof.
  intros Hruns Hs. destruct (runs_env execvp _ _ _ _ Hruns) as (c1 & E & -> & _).
  rewrite loader_var by (unfold cli_vars; set_solver). destruct (prefork args); [|by injection E as <-].
  destruct (command args) as [|c0 rest]; [done|]. subst server.
  destruct (decide (c0 = py "gunicorn")) as [->|].
  { rewrite prefork_gunicorn in E. injection E as <-. cbn. by simplify_map_eq. }
  destruct (decide (c0 = py "uwsgi")) as [->|].
  - rewrite prefork_uwsgi in E. cbv zeta in E.
    pose proof (pick_env_var_spec (uwsgi_env rest (c_env c))) as Hpick. cbn [c_env] in E.
    destruct (pick_env_var _) as [v|]; [|done]. injection E as <-. cbn [c_env].
    rewrite lookup_insert_ne; [by unfold uwsgi_env; simplify_map_eq|].
    destruct Hpick as [Hv _]. unfold hook_vars in Hv. set_solver.
  - rewrite prefork_other in E by set_solver. injection E as <-. cbn. by simplify_map_eq.
Qed.

(** No pre-forking server: [-p] with another command, or no [-p] and no [prefork] variable. *)
Definition plain_command (args : Args) (c : Cli) : Prop :=
  if prefork args then head (command args) ∉ [Some (py "gunicorn"); Some (py "uwsgi")]
  else c_env c !! py "prefork" ∈ [None; Some []].

Lemma loader_plain h args c c' :
  runs h args c c' -> plain_command args c ->
  stop_propagation h (c_env c') !! py "prefork" ∈ [None; Some []].
Proof.
  intros Hruns Hpre. unfold plain_command in Hpre. destruct (prefork args) eqn:Epre.
  - erewrite (loader_prefork h args c c' (Some [])); [set_solver | done |]. rewrite Epre.
    destruct (runs_env execvp _ _ _ _ Hruns) as (c1 & _ & _ & Hc). destruct (command args) as [|c0 rest]; [done|].
    cbn in Hpre. rewrite !decide_False by set_solver. done.
  - by rewrite (loader_prefork h args c c' (c_env c !! py "prefork")) by (done || by rewrite Epre).
Qed.


(** A logging level that [logging] does not know makes [loggings.init()] raise inside
    [agent.start()].  The loader contains it: one error is logged, the agent is created and not
    started, and the application runs without it. *)
Theorem unknown_level_contained user_site h args c c' uuid pid path argv (cfg : Config) `{!PoliteSite user_site h} :
  runs h args c c' -> plain_command args c ->
  load (fun k => stop_propagation h (c_env c') !! k) uuid = Ok cfg ->
  debug args = false -> level_with_off (agent_logging_level cfg) = None ->
  ∃ p s, sitecustomize str_lower user_site h uuid (spawned pid path argv c') = (p, Ok tt) ∧
    p_exit p = None ∧ p_errors p = 1%nat ∧ p_agent p = Some s ∧ fresh_agent s.
Proof.
  intros Hruns Hpre Hl Hdbg Hlev.
  destruct (loader_boots user_site h args c c' uuid pid path argv cfg Hruns Hl)
    as (p & -> & Ha & Hp & He & Hr & Hx & Hpath).
  assert (p_env p !! py "prefork" ∈ [None; Some []]) as Hnone by (rewrite He; by eapply loader_plain).
  rewrite Hdbg in Ha. destruct (make_agent_facts cfg pid) as (Hf & Hcfg & _).
  unfold try_except. rewrite (start_by_server_plain p _ Ha Hnone).
  assert (p_start p = (p, Raise ValueError)) as ->.
  { unfold p_start. apply bind_raise. unfold p_loggings_init, loggings_init. by rewrite Ha, Hcfg, Hlev. }
  cbn [is_Exception]. eexists _, _. split; [reflexivity|]. cbn. rewrite Hr, Ha. done.
Qed.

(** A command that leads to another Python installation is stopped before anything of
    the agent is imported: with another version, or a prefix that differs beyond case, the
    loader reports the two installations and the process exits with code 1. *)
Theorem other_interpreter_refused user_site h h' args c c' uuid pid path argv `{!PoliteSite user_site h'} :
  runs h args c c' ->
  py_version h' ≠ py_version h ∨ str_lower (py_prefix h) ≠ str_lower (py_prefix h') ->
  ∃ p, sitecustomize str_lower user_site h' uuid (spawned pid path argv c') = (p, Ok tt) ∧
    p_exit p = Some 1 ∧ p_errors p = 2%nat ∧ p_agent p = None.
Proof.
  intros Hruns Hdiff. destruct (runs_env execvp _ _ _ _ Hruns) as (c1 & _ & Henv & _).
  destruct (sitecustomize_run str_lower user_site h' uuid (spawned pid path argv c') (py_prefix h))
    as (p1 & -> & Fp & Fe & Fa & Fr & Fx & _).
  { cbn. rewrite Henv. apply exec_env_prefix. }
  rewrite decide_False.
  - eexists. split; [reflexivity|]. cbn. rewrite Fr, Fa. done.
  - cbn. rewrite Henv, exec_env_version. intros [[= Hv] Hp]. destruct Hdiff; congruence.
Qed.

(** *** Pre-forking servers *)

Lemma finalize_core (c : Config) :
  agent_instance_name (finalize c) = agent_instance_name c ∧
  agent_experimental_fork_support (finalize c) = agent_experimental_fork_support c.
Proof.
  unfold finalize, finalize_name, finalize_regex, finalize_feature. cbn.
  destruct (_ && _); [done|]. by destruct (_ && _).
Qed.

Lemma prefork_master_run (cfg : Config) pid :
  agent_experimental_fork_support cfg = true ->
  ∃ a, start_prefork_master (new_agent cfg pid) = (a, Ok tt) ∧ a_config a = finalize cfg ∧
    a_started a = true ∧ started_pid a = Some pid ∧ at_fork_registered a = true ∧
    reporting a = false ∧ threads a = [] ∧ protocol a = None ∧ open_channels a = 0.
Proof.
  intros Hf. unfold start_prefork_master. erewrite bind_ok by reflexivity. cbv beta.
  cbn [negb new_agent a_started]. do 3 (erewrite bind_ok by reflexivity). cbv beta.
  match goal with |- context [agent_experimental_fork_support ?c] =>
    change (agent_experimental_fork_support c) with (agent_experimental_fork_support (finalize cfg)) end.
  rewrite (proj2 (finalize_core cfg)), Hf. eexists. split; [reflexivity|]. done.
Qed.

Definition server_name (cfg : Config) (pid pid' : Z) : pystr :=
  (agent_instance_name cfg ++ py "-master" ++ py "(" ++ str_of_int pid ++ py ")") ++
  py "-child(" ++ str_of_int pid' ++ py ")".

Lemma server_name_inj (cfg : Config) pid p1 p2 : server_name cfg pid p1 = server_name cfg pid p2 -> p1 = p2.
Proof.
  unfold server_name. intros H. apply app_inv_head in H. apply app_inv_head in H.
  apply app_inv_tail in H. pose proof (int_of_str_of_int p1) as H1.
  rewrite H, int_of_str_of_int in H1. by injection H1.
Qed.

(** The loader when a server was detected: the master's options, then Gunicorn's branch. *)
Lemma loader_server user_site h args c c' uuid pid path argv (cfg : Config) server `{!PoliteSite user_site h} :
  runs h args c c' -> prefork args = true -> head (command args) = Some server ->
  server ∈ [py "gunicorn"; py "uwsgi"] ->
  load (fun k => stop_propagation h (c_env c') !! k) uuid = Ok cfg ->
  ∃ p cfg', sitecustomize str_lower user_site h uuid (spawned pid path argv c') =
      (if decide (server = py "gunicorn") then
         try_except (if agent_asyncio_enhancement cfg then p_error else p_start_prefork_master)
           (fun e => if is_Exception e then p_error else raise e) p
       else (p, Ok tt)) ∧
    p_agent p = Some (make_agent (master_config server pid cfg') pid) ∧
    agent_asyncio_enhancement cfg' = agent_asyncio_enhancement cfg ∧
    agent_instance_name cfg' = agent_instance_name cfg ∧ p_errors p = 0%nat ∧ p_exit p = None ∧
    (debug args = true ∨ known_level cfg -> known_level cfg').
Proof.
  intros Hruns Hpre Hhead Hin Hl.
  destruct (loader_boots user_site h args c c' uuid pid path argv cfg Hruns Hl)
    as (p & -> & Ha & Hp & He & Hr & Hx & Hpath).
  set (cfg' := if debug args then _ else _) in *.
  assert (agent_asyncio_enhancement cfg' = agent_asyncio_enhancement cfg ∧
    agent_instance_name cfg' = agent_instance_name cfg) as [Has' Hn'] by (subst cfg'; by destruct (debug args)).
  assert (p_env p !! py "prefork" = Some server) as Hg.
  { rewrite He. apply (loader_prefork h args c c'); [done|]. rewrite Hpre.
    destruct (command args) as [|c0 rest]; [done|]. injection Hhead as ->. f_equal.
    repeat case_decide; try done. set_solver. }
  unfold try_except. rewrite (start_by_server_prefork p cfg' server pid) by (done || set_solver).
  rewrite Hp, Has'. exists (set_p_agent (Some (make_agent (master_config server pid cfg') pid)) p), cfg'.
  split; [case_decide; [by destruct (agent_asyncio_enhancement cfg) | done]|]. split_and!; try done.
  subst cfg'. destruct (debug args); [by eexists | by intros [|]].
Qed.


(** Gunicorn with the asyncio agent is refused: an error is logged, and neither the
    master nor any worker has an agent running or a connection. *)
Theorem gunicorn_asyncio_refused user_site h args c c' uuid pid path argv (cfg : Config) `{!PoliteSite user_site h} :
  runs h args c c' -> prefork args = true -> head (command args) = Some (py "gunicorn") ->
  load (fun k => stop_propagation h (c_env c') !! k) uuid = Ok cfg ->
  agent_asyncio_enhancement cfg = true ->
  ∃ p, sitecustomize str_lower user_site h uuid (spawned pid path argv c') = (p, Ok tt) ∧
    p_exit p = None ∧ p_errors p = 1%nat ∧
    ∀ pid', ∃ a, p_agent (fork_proc pid' p) = Some (Asyncio a) ∧
      aa_started a = false ∧ aa_thread a = None ∧ aa_channels a = 0.
Proof.
  intros Hruns Hpre Hhead Hl Hasync.
  destruct (loader_server user_site h args c c' uuid pid path argv cfg (py "gunicorn") Hruns Hpre Hhead)
    as (p & cfg' & -> & Ha & Has' & Hn' & Hr & Hx & Hlev'); [set_solver | done |].
  rewrite decide_True, Hasync by done. unfold make_agent, master_config in Ha. rewrite decide_True in Ha by done.
  set (mcfg := set_fork_support _) in *.
  change (agent_asyncio_enhancement mcfg) with (agent_asyncio_enhancement cfg') in Ha.
  rewrite Has', Hasync in Ha. eexists. split; [reflexivity|].
  cbn [p_exit p_errors add_p_errors p_error modify fst]. rewrite Hr. split_and!; try done.
  intros pid'. unfold fork_proc. cbn [p_agent add_p_errors]. rewrite Ha. by eexists.
Qed.

(** A forked uWSGI worker of a master that started no agent. *)
Lemma uwsgi_worker (mcfg : Config) pid pid' p :
  p_agent p = Some (make_agent mcfg pid) -> known_level mcfg ->
  ∃ p' s', setup_skywalking (fork_proc pid' p) = (p', Ok tt) ∧ p_errors p' = p_errors p ∧
    p_agent p' = Some s' ∧ is_asyncio s' = agent_asyncio_enhancement mcfg ∧
    agent_up pid' (finalize (name_process (py "-child") pid' mcfg)) s'.
Proof.
  intros Ha Hlev. set (ccfg := name_process (py "-child") pid' mcfg).
  assert (∃ s, p_agent (fork_proc pid' p) = Some s ∧ fresh_agent s ∧ sw_config s = mcfg ∧ sw_pid s = pid' ∧
    is_asyncio s = agent_asyncio_enhancement mcfg ∧ p_errors (fork_proc pid' p) = p_errors p ∧
    p_pid (fork_proc pid' p) = pid') as (s & Es & Hf & Hc & Hp & Hk & He & Hpp).
  { unfold fork_proc. rewrite Ha. unfold make_agent. destruct (agent_asyncio_enhancement mcfg) eqn:Eas;
      eexists; (split; [reflexivity|]); cbn; rewrite ?Eas; done. }
  unfold setup_skywalking. erewrite bind_ok by reflexivity. cbv beta. rewrite Hpp.
  set (s1 := sw_set_config (name_process (py "-child") pid') s).
  assert (fresh_agent s1 ∧ sw_config s1 = ccfg ∧ sw_pid s1 = pid' ∧ is_asyncio s1 = is_asyncio s)
    as (Hf1 & Hc1 & Hp1 & Hk1) by (subst s1 ccfg; destruct s; cbn in *; by subst).
  rewrite (bind_ok _ _ _ (set_p_agent (Some s1) (fork_proc pid' p)) tt)
    by (unfold p_set_config, on_agent; by rewrite Es).
  unfold try_except. destruct (p_start_up (set_p_agent (Some s1) (fork_proc pid' p)) s1 eq_refl Hf1)
    as (s' & env & -> & Hk' & Hup); [by rewrite Hc1|].
  eexists _, s'. split; [reflexivity|]. rewrite Hk', Hk1, Hk. rewrite Hc1, Hp1 in Hup. done.
Qed.

(** uWSGI under [sw-python run -p]: the hook is announced in a variable the user had
    left free, no other variable of the user but [UWSGI_MASTER] and [UWSGI_ENABLE_THREADS] (added
    when the command does not give them) changes for uWSGI, the master starts no agent, and
    [setup_skywalking] starts one in each forked worker, under an instance name of its own. *)
Theorem uwsgi_workers user_site h args c c' uuid pid path argv (cfg : Config) `{!PoliteSite user_site h} :
  runs h args c c' -> prefork args = true -> head (command args) = Some (py "uwsgi") ->
  load (fun k => stop_propagation h (c_env c') !! k) uuid = Ok cfg -> debug args = true ∨ known_level cfg ->
  (∃ v, v ∈ hook_vars ∧ c_env c !! v = None ∧ c_env c' !! v = Some (py "uwsgi_hook") ∧
     ∀ k, k ∉ cli_vars ++ [v; py "prefork"; py "UWSGI_MASTER"; py "UWSGI_ENABLE_THREADS"] ->
       c_env c' !! k = c_env c !! k) ∧
  ∃ p s, sitecustomize str_lower user_site h uuid (spawned pid path argv c') = (p, Ok tt) ∧
    p_exit p = None ∧ p_errors p = 0%nat ∧ p_agent p = Some s ∧ fresh_agent s ∧
    ∀ pid', ∃ p' s' ccfg, setup_skywalking (fork_proc pid' p) = (p', Ok tt) ∧ p_errors p' = 0%nat ∧
      p_agent p' = Some s' ∧ is_asyncio s' = agent_asyncio_enhancement cfg ∧
      agent_up pid' ccfg s' ∧ agent_instance_name ccfg = server_name cfg pid pid'.
Proof.
  intros Hruns Hpre Hhead Hl Hlev. split.
  - destruct (runs_env execvp _ _ _ _ Hruns) as (c1 & E & -> & _). rewrite Hpre in E.
    destruct (command args) as [|c0 rest]; [done|]. injection Hhead as ->.
    rewrite prefork_uwsgi in E. cbn [c_env] in E. cbv zeta in E.
    pose proof (pick_env_var_spec (uwsgi_env rest (c_env c))) as Hpick.
    destruct (pick_env_var _) as [v|]; [|done]. injection E as <-. cbn [c_env].
    destruct Hpick as [Hv Hfree]. exists v.
    assert (v ∉ cli_vars ∧ v ∉ [py "prefork"; py "UWSGI_MASTER"; py "UWSGI_ENABLE_THREADS"]) as [Hv1 Hv2]
      by (unfold hook_vars in Hv; unfold cli_vars; set_solver).
    split_and!; [done | by rewrite uwsgi_env_other in Hfree | |].
    + rewrite exec_env_other by done. by simplify_map_eq.
    + intros k Hk. rewrite exec_env_other by set_solver. rewrite lookup_insert_ne by set_solver.
      apply uwsgi_env_other. set_solver.
  - destruct (loader_server user_site h args c c' uuid pid path argv cfg (py "uwsgi") Hruns Hpre Hhead)
      as (p & cfg' & -> & Ha & Has' & Hn' & Hr & Hx & Hlev'); [set_solver | done |].
    rewrite decide_False by done. unfold master_config in Ha. rewrite decide_False in Ha by done.
    set (mcfg := name_process _ _ _) in *.
    destruct (make_agent_facts mcfg pid) as (Hf & Hc & Hp & Hk).
    exists p, (make_agent mcfg pid). split_and!; try done. intros pid'.
    destruct (uwsgi_worker mcfg pid pid' p Ha (Hlev' Hlev)) as (p' & s' & E & Hr' & Ha' & Hk' & Hup).
    exists p', s', (finalize (name_process (py "-child") pid' mcfg)). rewrite E, Hr', Hk'.
    split_and!; try done.
    rewrite (proj1 (finalize_core _)). unfold server_name. rewrite <- Hn'. done.
Qed.
End end_to_end.

(** ** Witnesses: an installation, and commands run from it *)

Definition demo_host : Host :=
  mkHost 58 (py "/sw/bootstrap/loader") (py "/sw/bootstrap/hooks") (py "3.11.4") (py "/usr/lib/venv").
(** Another version of the interpreter that imports the same loader. *)
Definition other_host : Host :=
  mkHost 58 (py "/sw/bootstrap/loader") (py "/sw/bootstrap/hooks") (py "3.8.1") (py "/usr/lib/venv").
Definition demo_cli (env : list (pystr * pystr)) : Cli := mkCli (list_to_map env) false 0 None.
Definition demo_args (pre : bool) (cmd : list pystr) : Args := mkArgs true (py "run") pre cmd.
Definition exec_ok (_ : Env) (_ : list pystr) : option exn := None.
Definition no_site : MP unit := raise ImportError.

#[export] Instance no_site_polite h : PoliteSite no_site h.
Proof. split; cbn; auto. Qed.

(** The process image after [sw-python], the environment the loader leaves, and the options. *)
Definition demo_run (args : Args) (env : list (pystr * pystr)) : Cli :=
  (start exec_ok demo_host args (demo_cli env)).1.
Abbreviation demo_load args env :=
  (load (fun k => stop_propagation demo_host (c_env (demo_run args env)) !! k) (py "uuid")).

Definition plain_args := demo_args false [py "python"; py "app.py"].
Definition gunicorn_args := demo_args true [py "gunicorn"; py "app:app"].
Definition user_env : list (pystr * pystr) := [(py "PYTHONPATH", py "/app:/lib")].

Definition plain_config : Config := from_ok (demo_load plain_args user_env) eq_refl.
Definition gunicorn_config : Config := from_ok (demo_load gunicorn_args user_env) eq_refl.

Lemma from_ok_eq {A} (r : res A) H : r = Ok (from_ok r H).
Proof. by destruct r. Qed.

Lemma demo_runs args env :
  (start exec_ok demo_host args (demo_cli env)).2 = Ok tt -> replaced (demo_run args env) ≠ None ->
  runs exec_ok demo_host args (demo_cli env) (demo_run args env).
Proof.
  intros H Hr. split_and!; [|done..]. unfold demo_run.
  destruct (start exec_ok demo_host args (demo_cli env)) as [c r]. cbn in *. by subst.
Qed.

Lemma demo_host_ok : host_ok demo_host.
Proof.
  split_and!; [| |done]; intros H; apply list_elem_of_In in H; vm_compute in H; intuition discriminate.
Qed.


Lemma other_interpreter_refused_witness :
  ∃ p, sitecustomize lower no_site other_host (py "uuid") (spawned 7 [] None (demo_run plain_args user_env))
      = (p, Ok tt) ∧ p_exit p = Some 1 ∧ p_errors p = 2%nat ∧ p_agent p = None.
Proof.
  apply (other_interpreter_refused exec_ok lower no_site demo_host other_host plain_args (demo_cli user_env)).
  - apply no_site_polite.
  - by apply demo_runs; vm_compute.
  - left. vm_compute. discriminate.
Defined.


Lemma nested_run_drops_path_witness :
  ∃ pp, c_env (demo_run plain_args [(py "PYTHONPATH", py "/app:/sw/bootstrap/loader:/sw/bootstrap/hooks")])
      !! py "PYTHONPATH" = Some pp ∧
    split_on 58 pp = [py "/sw/bootstrap/loader"; py "/sw/bootstrap/hooks"].
Proof.
  apply (nested_run_drops_path exec_ok demo_host plain_args
    (demo_cli [(py "PYTHONPATH", py "/app:/sw/bootstrap/loader:/sw/bootstrap/hooks")])).
  - apply demo_host_ok.
  - by apply demo_runs; vm_compute.
  - apply list_elem_of_In. vm_compute. auto.
Defined.
