(* ===== verification/ChannelBuild.v ===== *)
(** * Building the collector channel: the rest of utils/grpc_channel.py, the constructors of
    agent/protocol/grpc.py and grpc_aio.py, and agent/protocol/interceptors.py

    A thread builds a channel to the collector: address resolution (GrpcChannel.v), TLS
    material (Tls.v), the scope flag that keeps the agent's own traffic out of the traces, the
    placeholder after a failure, the authentication header.  gRPC's channel constructor, which
    the gRPC plugin may have replaced (PluginGrpc.v), is an argument: it may raise. *)

From S2P Require Import Prelude PyData PyText Config GrpcChannel Tls TlsProps Report PluginGrpc.

(** ** Options *)

Inductive OptionValue := OInt (n : Z) | OStr (s : pystr).
#[export] Instance OptionValue_eq_dec : EqDecision OptionValue.
Proof. solve_decision. Defined.

(** A JSON text written with single quotes. *)
Definition json_quotes (s : pystr) : pystr := (fun c => if c =? 39 then 34 else c) <$> s.

(** [_PROPERTIES_RETRY_SERVICE_CONFIG] *)
Definition _PROPERTIES_RETRY_SERVICE_CONFIG : pystr :=
  json_quotes (
    py "{'loadBalancingConfig': [{'pick_first': {'shuffleAddressList': true}}], " ++
    py "'methodConfig': [{'name': [{'service': 'skywalking.v3.ManagementService', " ++
    py "'method': 'reportInstanceProperties'}], 'retryPolicy': {'maxAttempts': 3, " ++
    py "'initialBackoff': '1s', 'maxBackoff': '10s', 'backoffMultiplier': 2, " ++
    py "'retryableStatusCodes': ['UNAVAILABLE']}}]}").

Definition GRPC_CHANNEL_OPTIONS : list (pystr * OptionValue) :=
  [(py "grpc.enable_http_proxy", OInt 0);
   (py "grpc.enable_retries", OInt 1);
   (py "grpc.service_config", OStr _PROPERTIES_RETRY_SERVICE_CONFIG);
   (py "grpc.initial_reconnect_backoff_ms", OInt 1000);
   (py "grpc.min_reconnect_backoff_ms", OInt 1000);
   (py "grpc.max_reconnect_backoff_ms", OInt 30000)].

Definition _channel_options (default_authority : pystr) : list (pystr * OptionValue) :=
  GRPC_CHANNEL_OPTIONS ++ [(py "grpc.default_authority", OStr default_authority)].

(** ** Header interceptors: interceptors.py and interceptors_aio.py *)

(** [ClientCallDetails] *)
Record ClientCallDetails := mkDetails {
  d_method : pystr;
  d_timeout : option Z;
  d_metadata : option (list (pystr * pystr));
  d_credentials : option nat
}.

(** [intercept_call] of [header_adder_interceptor]; it returns no postprocessor. *)
Definition header_adder (header value : pystr) (d : ClientCallDetails) : ClientCallDetails :=
  mkDetails (d_method d) (d_timeout d) (Some (default [] (d_metadata d) ++ [(header, value)]))
    (d_credentials d).

(** [_ClientInterceptor]: a unary request goes through [iter((request,))] and [next]; the
    response of the continuation is returned as it is. *)
Definition intercept_unary {S R Q} (fn : ClientCallDetails -> ClientCallDetails)
  (continuation : ClientCallDetails -> Q -> M S R) (d : ClientCallDetails) (request : Q) : M S R :=
  let '(new_details, new_request_iterator) := (fn d, [request]) in
  match new_request_iterator with
  | r :: _ => continuation new_details r
  | [] => raise RuntimeError
  end.
Definition intercept_stream {S R Q} (fn : ClientCallDetails -> ClientCallDetails)
  (continuation : ClientCallDetails -> list Q -> M S R) (d : ClientCallDetails) (requests : list Q)
  : M S R := continuation (fn d) requests.

(** interceptors_aio.py: the same functions, awaited. *)
Definition header_adder_async (header value : pystr) (d : ClientCallDetails) : ClientCallDetails :=
  header_adder header value d.
Definition intercept_unary_async {S R Q} (fn : ClientCallDetails -> ClientCallDetails)
  (continuation : ClientCallDetails -> Q -> M S R) := intercept_unary fn continuation.
Definition intercept_stream_async {S R Q} (fn : ClientCallDetails -> ClientCallDetails)
  (continuation : ClientCallDetails -> list Q -> M S R) := intercept_stream fn continuation.

(** ** Channels *)

Record Channel := mkChannel {
  ch_target : pystr;
  ch_credentials : Material;                          (* [None]: plaintext *)
  ch_options : list (pystr * OptionValue);
  ch_interceptors : list (Interceptor (pystr * pystr));   (* a user interceptor adds a header *)
  ch_marked : bool                                    (* the attribute _sw_agent_collector_channel *)
}.

(** The thread that builds: the TLS state, the thread-local flag, errors logged. *)
Record Builder := mkBuilder {
  b_tls : Tls;
  b_active : bool;                 (* _building_agent_collector.active *)
  b_errors : nat
}.

Abbreviation MB := (M Builder).

Definition on_tls {A} (m : M Tls A) : MB A := fun b =>
  let (t, r) := m (b_tls b) in (mkBuilder t (b_active b) (b_errors b), r).

(** [agent_collector_channel_scope]: the flag is reset however the body ends. *)
Definition agent_collector_channel_scope {A} (body : MB A) : MB A := fun b =>
  let (b', r) := body (mkBuilder (b_tls b) true (b_errors b)) in
  (mkBuilder (b_tls b') false (b_errors b'), r).

Definition is_building_agent_collector_channel (b : Builder) : bool := b_active b.

Section build.
Context (getaddrinfo : pystr -> Z -> option (list (family * pystr))).
Context (env : TlsEnv) (cfg : Config).
(** Whether the gRPC plugin is installed, gRPC's own constructor, and whether the channel
    object accepts a new attribute. *)
Context (patched : bool).
Context (construct : Material -> pystr -> list (pystr * OptionValue) -> option exn).
Context (settable : bool).

(** [grpc.secure_channel] and [grpc.insecure_channel] *)
Definition open_sync (credentials : Material) (target : pystr) (options : list (pystr * OptionValue))
  : MB Channel :=
  building ← gets is_building_agent_collector_channel;
  match construct credentials target options with
  | Some e => raise e
  | None =>
      mret (mkChannel target credentials options
        (match (if patched then _sw_grpc_channel_factory cfg building target else None) with
         | Some t => [SwInterceptor UnaryUnary t] | None => [] end) false)
  end.

(** [grpc.aio.secure_channel] and [grpc.aio.insecure_channel] *)
Definition open_aio (interceptors : option (list (pystr * pystr))) (credentials : Material)
  (target : pystr) (options : list (pystr * OptionValue)) : MB Channel :=
  building ← gets is_building_agent_collector_channel;
  match construct credentials target options with
  | Some e => raise e
  | None =>
      mret (mkChannel target credentials options
        (default [] (if patched then _SWAioChannel cfg building target interceptors
                     else fmap (M := list) UserInterceptor <$> interceptors)) false)
  end.

Definition mark_agent_collector_channel (c : Channel) : Channel :=
  if settable then mkChannel (ch_target c) (ch_credentials c) (ch_options c) (ch_interceptors c) true
  else c.
Definition is_agent_collector_channel (c : Channel) : bool := ch_marked c.

(** The body shared by [create_sync_channel] and [create_aio_channel]. *)
Definition create_channel (open : Material -> pystr -> list (pystr * OptionValue) -> MB Channel)
  : MB Channel :=
  let '(target, authority) :=
    resolve_channel_target_and_authority getaddrinfo (agent_collector_backend_services cfg) in
  agent_collector_channel_scope
    (channel ← try_except
       (credentials ← on_tls (grpc_ssl_credentials env cfg);
        open credentials target (_channel_options authority))
       (fun e =>
          if is_Exception e then
            _ ← modify (fun b => mkBuilder (b_tls b) (b_active b) (S (b_errors b)));
            open None (py "localhost:1") (_channel_options authority)
          else raise e);
     mret (mark_agent_collector_channel channel)).

Definition create_sync_channel : MB Channel := create_channel open_sync.
Definition create_aio_channel (interceptors : option (list (pystr * pystr))) : MB Channel :=
  create_channel (open_aio interceptors).

(** [GrpcProtocol.__init__]: the authentication interceptor is put around the channel. *)
Definition grpc_protocol_channel : MB Channel :=
  c ← create_sync_channel;
  mret (if decide (agent_authentication cfg = []) then c
        else mkChannel (ch_target c) (ch_credentials c) (ch_options c)
               (UserInterceptor (py "authentication", agent_authentication cfg) :: ch_interceptors c)
               false).

(** [GrpcProtocolAsync.__init__] *)
Definition grpc_protocol_channel_async : MB Channel :=
  create_aio_channel
    (if decide (agent_authentication cfg = []) then None
     else Some [(py "authentication", agent_authentication cfg)]).
End build.

(** The details of a call on a channel: header interceptors add to them, outermost first. *)
Fixpoint call_details (l : list (Interceptor (pystr * pystr))) (d : ClientCallDetails)
  : ClientCallDetails :=
  match l with
  | [] => d
  | UserInterceptor (h, v) :: l' => call_details l' (header_adder h v d)
  | SwInterceptor _ _ :: l' => call_details l' d
  end.

(** ** Connectivity *)

(** A channel object as [_unwrap_connectivity_state] sees it: its [get_state], its
    [check_connectivity_state] and its [_channel]. *)
Inductive chan := Chan (get_state : option (bool -> res connectivity))
  (check : option (bool -> res Z)) (inner : option chan).

Definition chan_inner (c : chan) : option chan := match c with Chan _ _ i => i end.
Definition chan_check (c : chan) : option (bool -> res Z) := match c with Chan _ k _ => k end.

(** [state.value[0]] of [grpc.ChannelConnectivity] *)
Definition connectivity_code (s : connectivity) : Z :=
  match s with IDLE => 0 | CONNECTING => 1 | READY => 2 | TRANSIENT_FAILURE => 3 | SHUTDOWN => 4 end.
Definition state_of_code (code : Z) : option connectivity :=
  List.find (fun s => connectivity_code s =? code) [IDLE; CONNECTING; READY; TRANSIENT_FAILURE; SHUTDOWN].

Fixpoint unwrap_levels (fuel : nat) (try_to_connect : bool) (candidate : chan) : res (option connectivity) :=
  match fuel with
  | O => Ok None
  | S fuel' =>
      match chan_inner candidate with
      | None => Ok None
      | Some inner =>
          match chan_check inner with
          | Some check => code ← check try_to_connect; mret (state_of_code code)
          | None => unwrap_levels fuel' try_to_connect inner
          end
      end
  end.

Definition _unwrap_connectivity_state (channel : chan) (try_to_connect : bool) : res (option connectivity) :=
  match channel with
  | Chan (Some get_state) _ _ => s ← get_state try_to_connect; mret (Some s)
  | _ => unwrap_levels 4 try_to_connect channel
  end.

Definition is_channel_ready (channel : chan) : res bool :=
  match _unwrap_connectivity_state channel true with
  | Raise e => if is_Exception e then Ok true else Raise e
  | Ok None => Ok true
  | Ok (Some s) => Ok (bool_decide (s = READY))
  end.

(** ** The channel of the agent *)

Definition untraced (c : Channel) : Prop :=
  Forall (fun i => match i with UserInterceptor _ => True | SwInterceptor _ _ => False end)
    (ch_interceptors c).

(** What a constructor of channels does inside the scope: it opens what it is asked for, with
    the given header interceptors and none of the plugin's. *)
Definition opens (construct : Material -> pystr -> list (pystr * OptionValue) -> option exn)
  (headers : list (pystr * pystr))
  (open : Material -> pystr -> list (pystr * OptionValue) -> MB Channel) : Prop :=
  ∀ cr t o b, b_active b = true ->
    open cr t o b = (b, match construct cr t o with
                        | Some e => Raise e
                        | None => Ok (mkChannel t cr o (UserInterceptor <$> headers) false)
                        end).

Section theorems.
Context (getaddrinfo : pystr -> Z -> option (list (family * pystr))).
Context (env : TlsEnv) (cfg : Config) (patched settable : bool).
Context (construct : Material -> pystr -> list (pystr * OptionValue) -> option exn).

Lemma open_sync_opens : opens construct [] (open_sync cfg patched construct).
Proof.
  intros cr t o b Hb. unfold open_sync. erewrite bind_ok by reflexivity. cbv beta.
  destruct (construct cr t o); [done|]. unfold is_building_agent_collector_channel. rewrite Hb.
  by destruct patched.
Qed.

Lemma open_aio_opens l :
  opens construct (default [] l) (open_aio cfg patched construct l).
Proof.
  intros cr t o b Hb. unfold open_aio. erewrite bind_ok by reflexivity. cbv beta.
  destruct (construct cr t o); [done|]. unfold is_building_agent_collector_channel. rewrite Hb.
  destruct patched; by destruct l.
Qed.

(** The target and the authority of the configured backends. *)
Abbreviation target := (resolve_channel_target_and_authority getaddrinfo (agent_collector_backend_services cfg)).1.
Abbreviation authority := (resolve_channel_target_and_authority getaddrinfo (agent_collector_backend_services cfg)).2.

(** [create_channel] on every branch: the collector with the material of Tls.v, or a placeholder
    that is never the collector. *)
Lemma create_channel_run headers open b `{!TlsEnvOk env} :
  opens construct headers open ->
  ∃ t cr b', grpc_ssl_credentials env cfg (b_tls b) = (t, Ok cr) ∧
    b_tls b' = t ∧ b_active b' = false ∧
    create_channel getaddrinfo env cfg settable open b =
      (b', match construct cr target (_channel_options authority) with
           | None => Ok (mkChannel target cr (_channel_options authority) (UserInterceptor <$> headers) settable)
           | Some e =>
               if is_Exception e then
                 match construct None (py "localhost:1") (_channel_options authority) with
                 | None => Ok (mkChannel (py "localhost:1") None (_channel_options authority)
                                 (UserInterceptor <$> headers) settable)
                 | Some e' => Raise e'
                 end
               else Raise e
           end).
Proof.
  intros Hopen. destruct (raises_none _ (b_tls b) (raises_grpc env cfg [])) as (t & cr & Ht).
  exists t, cr. unfold create_channel.
  destruct (resolve_channel_target_and_authority _ _) as [tg au]. cbn [fst snd].
  unfold agent_collector_channel_scope, try_except, on_tls, mbind, M_bind. cbn [b_tls].
  rewrite Ht. rewrite Hopen by done. unfold mark_agent_collector_channel.
  destruct (construct cr tg _) as [e|]; [|exists (mkBuilder t false (b_errors b)); by destruct settable].
  destruct (is_Exception e); [|by exists (mkBuilder t false (b_errors b))].
  unfold modify. rewrite Hopen by done. exists (mkBuilder t false (S (b_errors b))).
  destruct (construct None _ _); [done | by destruct settable].
Qed.

(** The headers each agent adds to its calls. *)
Definition auth_headers : list (pystr * pystr) :=
  if decide (agent_authentication cfg = []) then [] else [(py "authentication", agent_authentication cfg)].

(** The channel of either agent, on every branch. *)
Lemma protocol_channel_run (asyncio : bool) b `{!TlsEnvOk env} :
  ∃ t cr b', grpc_ssl_credentials env cfg (b_tls b) = (t, Ok cr) ∧ b_tls b' = t ∧ b_active b' = false ∧
    ∃ m1 m2,
    (if asyncio then grpc_protocol_channel_async else grpc_protocol_channel)
      getaddrinfo env cfg patched construct settable b =
      (b', match construct cr target (_channel_options authority) with
           | None => Ok (mkChannel target cr (_channel_options authority) (UserInterceptor <$> auth_headers) m1)
           | Some e =>
               if is_Exception e then
                 match construct None (py "localhost:1") (_channel_options authority) with
                 | None => Ok (mkChannel (py "localhost:1") None (_channel_options authority)
                                 (UserInterceptor <$> auth_headers) m2)
                 | Some e' => Raise e'
                 end
               else Raise e
           end).
Proof.
  unfold auth_headers. destruct asyncio.
  - unfold grpc_protocol_channel_async, create_aio_channel.
    set (l := if decide _ then None else _).
    destruct (create_channel_run _ _ b (open_aio_opens l)) as (t & cr & b' & Ht & Hb & Ha & E).
    exists t, cr, b'. split_and!; try done. exists settable, settable. rewrite E. subst l.
    by destruct (decide (agent_authentication cfg = [])).
  - unfold grpc_protocol_channel, create_sync_channel.
    destruct (create_channel_run _ _ b open_sync_opens) as (t & cr & b' & Ht & Hb & Ha & E).
    exists t, cr, b'. split_and!; try done.
    exists (if decide (agent_authentication cfg = []) then settable else false),
      (if decide (agent_authentication cfg = []) then settable else false).
    unfold mbind, M_bind. rewrite E.
    destruct (construct cr target _) as [e|]; [destruct (is_Exception e); [destruct (construct None _ _)|]|];
      try done; by destruct (decide (agent_authentication cfg = [])).
Qed.
End theorems.

(** C26. The agent's channel to the collector, threaded or asyncio, with the gRPC plugin
    installed or not.  Whatever the resolution, the TLS material and gRPC answer: the scope flag is
    off afterwards, so that the next channel of the application on this thread is traced as
    usual; the agent's own channel carries none of the plugin's interceptors, and its own one,
    where gRPC applies it, sends the authentication header after the caller's metadata; it goes to the configured
    backends with exactly the credentials [grpc_ssl_credentials] chose, or to the
    placeholder; and if gRPC can open the placeholder, a channel is always returned. *)
Theorem collector_channel_safe getaddrinfo env (cfg : Config) (patched settable asyncio : bool) construct b
  `{!TlsEnvOk env} :
  let ra := resolve_channel_target_and_authority getaddrinfo (agent_collector_backend_services cfg) in
  let run := (if asyncio then grpc_protocol_channel_async else grpc_protocol_channel)
               getaddrinfo env cfg patched construct settable b in
  (∀ cr t o e, construct cr t o = Some e -> is_Exception e = true) ->
  construct None (py "localhost:1") (_channel_options ra.2) = None ->
  b_active run.1 = false ∧
  (∀ target, target ≠ agent_collector_backend_services cfg ->
     _sw_grpc_channel_factory cfg (is_building_agent_collector_channel run.1) target = Some target) ∧
  ∃ c, run.2 = Ok c ∧ untraced c ∧
    ch_options c = GRPC_CHANNEL_OPTIONS ++ [(py "grpc.default_authority", OStr ra.2)] ∧
    (∀ d, d_metadata (call_details (ch_interceptors c) d) =
       if decide (agent_authentication cfg = []) then d_metadata d
       else Some (default [] (d_metadata d) ++ [(py "authentication", agent_authentication cfg)])) ∧
    ((ch_target c = ra.1 ∧ (grpc_ssl_credentials env cfg (b_tls b)).2 = Ok (ch_credentials c) ∧
        ∀ k, ch_credentials c = Some k -> creds_anchored cfg k) ∨
     (ch_target c = py "localhost:1" ∧ ch_credentials c = None)).
Proof.
  cbv zeta. intros Hexn Hplace.
  destruct (protocol_channel_run getaddrinfo env cfg patched settable construct asyncio b)
    as (t & cr & b' & Ht & _ & Ha & m1 & m2 & E). rewrite E, Ht, Hplace. cbn [fst snd].
  set (ra := resolve_channel_target_and_authority _ _) in *.
  assert (∀ cr tg m, let c := mkChannel tg cr (_channel_options ra.2) (UserInterceptor <$> auth_headers cfg) m in
    untraced c ∧ ch_options c = GRPC_CHANNEL_OPTIONS ++ [(py "grpc.default_authority", OStr ra.2)] ∧
    ∀ d, d_metadata (call_details (ch_interceptors c) d) =
      if decide (agent_authentication cfg = []) then d_metadata d
      else Some (default [] (d_metadata d) ++ [(py "authentication", agent_authentication cfg)])) as Hc.
  { intros cr' tg m. unfold untraced, auth_headers. cbn [ch_interceptors ch_options].
    destruct (decide (agent_authentication cfg = [])); split_and!; try done; repeat constructor. }
  split_and!; [done | |].
  { intros tg Hne. unfold _sw_grpc_channel_factory, skip_sw, is_building_agent_collector_channel.
    rewrite Ha. by rewrite bool_decide_eq_false_2. }
  destruct (construct cr ra.1 _) as [e|] eqn:Ec.
  - rewrite (Hexn _ _ _ _ Ec). eexists. split; [done|].
    destruct (Hc None (py "localhost:1") m2) as (? & ? & ?). split_and!; try done. by right.
  - eexists. split; [done|]. destruct (Hc cr ra.1 m1) as (? & ? & ?). split_and!; try done.
    left. split_and!; try done. intros k Hk. cbn in Hk. subst cr. by eapply (yields_grpc env cfg (b_tls b) t _ Ht).
Qed.

(** Whether the READY gate opens, through [n] wrappers that offer neither call: up to three
    levels above the channel of C-core its state decides; deeper, or when the state cannot be
    read, the gate fails open. *)
Fixpoint wrap (n : nat) (core : chan) : chan :=
  match n with O => Chan None None (Some core) | S n' => Chan None None (Some (wrap n' core)) end.

Theorem ready_gate_depth n check g i :
  is_channel_ready (wrap n (Chan g (Some check) i)) =
    if (n <=? 3)%nat then
      match check true with
      | Ok code => Ok (match state_of_code code with Some s => bool_decide (s = READY) | None => true end)
      | Raise e => if is_Exception e then Ok true else Raise e
      end
    else Ok true.
Proof.
  assert (∀ fuel n, unwrap_levels fuel true (wrap n (Chan g (Some check) i)) =
    if (n <? fuel)%nat then (code ← check true; mret (state_of_code code)) else Ok None) as H.
  { intros fuel. induction fuel as [|fuel IH]; intros [|m]; cbn [unwrap_levels wrap chan_inner chan_check]; [done..|].
    change (S m <? S fuel)%nat with (m <? fuel)%nat. rewrite <- (IH m). by destruct m. }
  unfold is_channel_ready.
  assert (_unwrap_connectivity_state (wrap n (Chan g (Some check) i)) true =
    unwrap_levels 4 true (wrap n (Chan g (Some check) i))) as -> by (destruct n; done).
  rewrite H. change (n <=? 3)%nat with (n <? 4)%nat.
  destruct (n <? 4)%nat; [|done].
  destruct (check true) as [code|e]; [|done]. unfold mbind, res_bind, mret, res_ret.
  by destruct (state_of_code code).
Qed.

(** *** Witness *)

Definition demo_builder : Builder := mkBuilder demo_tls false 0.
Definition one_backend (_ : pystr) (_ : Z) : option (list (family * pystr)) := None.

Lemma collector_channel_safe_witness :
  let ra := resolve_channel_target_and_authority one_backend (agent_collector_backend_services default_config) in
  let run := grpc_protocol_channel one_backend demo_env default_config true
               (fun _ t _ => if decide (t = py "localhost:1") then None else Some ValueError) true demo_builder in
  b_active run.1 = false ∧
  (∀ target, target ≠ agent_collector_backend_services default_config ->
     _sw_grpc_channel_factory default_config (is_building_agent_collector_channel run.1) target = Some target) ∧
  ∃ c, run.2 = Ok c ∧ untraced c ∧
    ch_options c = GRPC_CHANNEL_OPTIONS ++ [(py "grpc.default_authority", OStr ra.2)] ∧
    (∀ d, d_metadata (call_details (ch_interceptors c) d) =
       if decide (agent_authentication default_config = []) then d_metadata d
       else Some (default [] (d_metadata d) ++ [(py "authentication", agent_authentication default_config)])) ∧
    ((ch_target c = ra.1 ∧ (grpc_ssl_credentials demo_env default_config (b_tls demo_builder)).2 = Ok (ch_credentials c) ∧
        ∀ k, ch_credentials c = Some k -> creds_anchored default_config k) ∨
     (ch_target c = py "localhost:1" ∧ ch_credentials c = None)).
Proof.
  apply (collector_channel_safe one_backend demo_env default_config true true false
    (fun _ t _ => if decide (t = py "localhost:1") then None else Some ValueError) demo_builder).
  - intros cr t o e. by destruct (decide (t = py "localhost:1")); intros [= <-].
  - reflexivity.
Defined.
