(* ===== verification/Clients.v ===== *)
(** * The clients of the collector: client/__init__.py, client/kafka.py, client/kafka_aio.py,
    client/grpc.py, client/grpc_aio.py and the posts of client/http.py

    The instance properties, the records and calls each client makes, and the periodic refresh of
    the registration, which all management clients inherit ([ServiceManagement]).
    [json.loads], the operating system's answers and the outcome of every send are arguments.
    A segment or log is its identifier and a reference to its content. *)

From S2P Require Import Prelude PyData PyText Codec Config GrpcChannel Report.

(** ** Instance properties *)

(** A value of [json.loads]. *)
Inductive json := JNull | JBool (b : bool) | JNumber (n : Z) | JString (s : pystr)
  | JArray (l : list json) | JObject (l : list (pystr * json)).

(** What the operating system answers: [os.name], [os.getpid()], [socket.gethostname()], the third
    component of [socket.gethostbyname_ex], and the interpreter. *)
Record OsInfo := mkOs {
  os_name : pystr;
  os_pid : Z;
  os_hostname : res pystr;
  os_ips : pystr -> res (list pystr);
  os_implementation : pystr;
  os_version : pystr
}.

Section properties.
Context (json_loads : pystr -> res json).

(** The try block of [get_instance_properties]. *)
Definition os_properties (o : OsInfo) : res (list (pystr * json)) :=
  hostname ← os_hostname o;
  hostname2 ← os_hostname o;
  ips ← os_ips o hostname2;
  mret [(py "language", JString (py "python"));
        (py "OS Name", JString (os_name o));
        (py "Process No.", JString (str_of_int (os_pid o)));
        (py "hostname", JString hostname);
        (py "ipv4", JString (join (py "; ") ips));
        (py "python_implementation", JString (os_implementation o));
        (py "python_version", JString (os_version o))].

Definition basic_properties (o : OsInfo) : list (pystr * json) :=
  [(py "language", JString (py "python")); (py "Process No.", JString (str_of_int (os_pid o)))].

(** [json_properties.items()] *)
Definition json_items (j : json) : res (list (pystr * json)) :=
  match j with JObject l => Ok l | _ => Raise AttributeError end.

Definition get_instance_properties (cfg : Config) (o : OsInfo) : res (list (pystr * json)) :=
  properties ← match os_properties o with
               | Ok l => Ok l
               | Raise e => if is_Exception e then Ok (basic_properties o) else Raise e
               end;
  let properties := if decide (agent_namespace cfg = []) then properties
                    else properties ++ [(py "namespace", JString (agent_namespace cfg))] in
  if decide (agent_instance_properties_json cfg = []) then mret properties
  else
    j ← json_loads (agent_instance_properties_json cfg);
    items ← json_items j;
    mret (properties ++ items).

(** A string field of a protobuf message: [None] leaves it empty, other types are refused, and
    the text must be encodable. *)
Definition proto_string (j : json) : res pystr :=
  match j with
  | JString s => _ ← utf8_encode s; mret s
  | JNull => Ok []
  | _ => Raise TypeError
  end.

(** [KeyStringValuePair(key=..., value=...)] *)
Definition KeyStringValuePair (p : pystr * json) : res (pystr * pystr) :=
  k ← proto_string (JString p.1); v ← proto_string p.2; mret (k, v).

(** A list comprehension that may raise. *)
Fixpoint map_res {A B} (f : A -> res B) (l : list A) : res (list B) :=
  match l with [] => mret [] | x :: l' => y ← f x; ys ← map_res f l'; mret (y :: ys) end.

Definition get_instance_properties_proto (cfg : Config) (o : OsInfo) : res (list (pystr * pystr)) :=
  l ← get_instance_properties cfg o; map_res KeyStringValuePair l.

(** [ServiceManagementClientAsync] repeats these functions as they are: none of them waits. *)
Definition get_instance_properties_async (cfg : Config) (o : OsInfo) : res (list (pystr * json)) :=
  get_instance_properties cfg o.
Definition get_instance_properties_proto_async (cfg : Config) (o : OsInfo) : res (list (pystr * pystr)) :=
  l ← get_instance_properties_async cfg o; map_res KeyStringValuePair l.
End properties.

(** ** The refresh every management client inherits *)

(** A management client: its counter and how it sends the properties. *)
Class ServiceManagement (S : Type) := {
  counter_of : S -> Z;
  with_counter : Z -> S -> S;
  send_instance_props : Config -> M S unit
}.

Section refresh.
Context {S : Type} `{!ServiceManagement S}.

Definition refresh_instance_props (cfg : Config) : M S unit :=
  _ ← modify (fun s => with_counter (counter_of s + 1) s);
  c ← gets counter_of;
  due ← lift (refresh_due (agent_collector_properties_report_period_factor cfg) (c - 1));
  if due : bool then send_instance_props cfg else mret tt.

(** The asyncio class awaits the sending. *)
Definition refresh_instance_props_async (cfg : Config) : M S unit :=
  _ ← modify (fun s => with_counter (counter_of s + 1) s);
  c ← gets counter_of;
  due ← lift (refresh_due (agent_collector_properties_report_period_factor cfg) (c - 1));
  if due : bool then send_instance_props cfg else mret tt.
End refresh.

(** ** Kafka *)

Inductive KafkaValue :=
| VProperties (service instance : pystr) (properties : list (pystr * pystr))
| VPing (service instance : pystr)
| VSegment (content : nat)
| VLog (content : nat)
| VMeters (contents : list nat).

Record KafkaRecord := mkRecord { r_topic : pystr; r_key : list Z; r_value : KafkaValue }.

(** A management client, with what the brokers have been sent. *)
Record KafkaClient := mkKafkaClient {
  kc_counter : Z;
  kc_properties : list (pystr * pystr);
  kc_sent : list KafkaRecord
}.

Section kafka.
(** The outcome of the n-th [producer.send], of [future.get(timeout=10)]. *)
Context (send_outcome : nat -> option exn).

Definition append_record (r : KafkaRecord) : M (list KafkaRecord) unit := fun log =>
  match send_outcome (length log) with
  | Some e => (log, Raise e)
  | None => (log ++ [r], Ok tt)
  end.
Definition producer_send (topic : pystr) (key : pystr) (v : KafkaValue) : M (list KafkaRecord) unit :=
  k ← lift (utf8_encode key);
  append_record (mkRecord topic k v).

Definition on_producer (m : M (list KafkaRecord) unit) : M KafkaClient unit := fun c =>
  let (log, r) := m (kc_sent c) in (mkKafkaClient (kc_counter c) (kc_properties c) log, r).

Definition kafka_send_instance_props (cfg : Config) : M KafkaClient unit :=
  c ← get_st;
  on_producer (producer_send (kafka_topic_management cfg)
    (py "register-" ++ agent_instance_name cfg)
    (VProperties (agent_name cfg) (agent_instance_name cfg) (kc_properties c))).

#[export] Instance Kafka_management : ServiceManagement KafkaClient := {
  counter_of := kc_counter;
  with_counter n c := mkKafkaClient n (kc_properties c) (kc_sent c);
  send_instance_props := kafka_send_instance_props
}.

(** [KafkaServiceManagementClient.__init__]; a producer starts with nothing sent. *)
Definition kafka_management_init (json_loads : pystr -> res json) (cfg : Config) (o : OsInfo)
  : res (KafkaClient * res unit) :=
  properties ← get_instance_properties_proto json_loads cfg o;
  mret (kafka_send_instance_props cfg (mkKafkaClient 0 properties [])).

(** [KafkaServiceManagementClient.send_heart_beat]; [answer] is what [future.get] raises. *)
Definition kafka_send_heart_beat (cfg : Config) (answer : option exn) : M KafkaClient unit :=
  _ ← refresh_instance_props cfg;
  _ ← on_producer (producer_send (kafka_topic_management cfg) (agent_instance_name cfg)
        (VPing (agent_name cfg) (agent_instance_name cfg)));
  match answer with Some e => raise e | None => mret tt end.

(** [KafkaTraceSegmentReportService.report], [KafkaLogDataReportService.report] *)
Definition kafka_report_segments (cfg : Config) (generator : list (pystr * nat)) : M (list KafkaRecord) unit :=
  for_each generator (fun s => producer_send (kafka_topic_segment cfg) s.1 (VSegment s.2)).
Definition kafka_report_logs (cfg : Config) (generator : list (pystr * nat)) : M (list KafkaRecord) unit :=
  for_each generator (fun s => producer_send (kafka_topic_log cfg) s.1 (VLog s.2)).

(** [KafkaMeterDataReportService.report]: one collection, also of nothing. *)
Definition kafka_report_meters (cfg : Config) (generator : list nat) : M (list KafkaRecord) unit :=
  producer_send (kafka_topic_meter cfg) (agent_instance_name cfg) (VMeters generator).
End kafka.

(** *** Starting an asyncio producer on demand *)

(** [AIOKafkaProducer] and its [__producer_start_event]. *)
Record AioProducer := mkAioProducer { start_event : bool; start_calls : nat }.

(** Where a coroutine is in [if not event.is_set(): await producer.start(); event.set()]. *)
Inductive start_pc := AtCheck | InStart | Started.
#[export] Instance start_pc_eq_dec : EqDecision start_pc.
Proof. solve_decision. Defined.

(** One turn of a coroutine, up to its next [await] that suspends. *)
Definition start_turn (p : AioProducer) (pc : start_pc) : AioProducer * start_pc :=
  match pc with
  | AtCheck => if start_event p then (p, Started)
               else (mkAioProducer false (S (start_calls p)), InStart)
  | InStart => (mkAioProducer true (start_calls p), Started)
  | Started => (p, Started)
  end.

(** *** The asyncio clients, one coroutine at a time *)

Record AioKafkaClient := mkAioClient { ak_producer : AioProducer; ak_client : KafkaClient }.

Section kafka_aio.
(** The outcomes of [producer.start()] and of the n-th [send_and_wait]. *)
Context (start_outcome : nat -> option exn) (send_outcome : nat -> option exn).

Definition ensure_started : M AioKafkaClient unit := fun a =>
  let p := ak_producer a in
  if start_event p then (a, Ok tt)
  else match start_outcome (start_calls p) with
       | Some e => (mkAioClient (mkAioProducer false (S (start_calls p))) (ak_client a), Raise e)
       | None => (mkAioClient (mkAioProducer true (S (start_calls p))) (ak_client a), Ok tt)
       end.
Definition on_client (m : M KafkaClient unit) : M AioKafkaClient unit := fun a =>
  let (c, r) := m (ak_client a) in (mkAioClient (ak_producer a) c, r).

(** [KafkaServiceManagementClientAsync] *)
Definition kafka_aio_send_instance_props (cfg : Config) : M AioKafkaClient unit :=
  _ ← ensure_started; on_client (kafka_send_instance_props send_outcome cfg).

#[export] Instance Kafka_aio_management : ServiceManagement AioKafkaClient := {
  counter_of a := kc_counter (ak_client a);
  with_counter n a := mkAioClient (ak_producer a)
    (mkKafkaClient n (kc_properties (ak_client a)) (kc_sent (ak_client a)));
  send_instance_props := kafka_aio_send_instance_props
}.

Definition kafka_aio_send_heart_beat (cfg : Config) : M AioKafkaClient unit :=
  _ ← ensure_started;
  _ ← refresh_instance_props_async cfg;
  on_client (on_producer (producer_send send_outcome (kafka_topic_management cfg) (agent_instance_name cfg)
    (VPing (agent_name cfg) (agent_instance_name cfg)))).

(** The asyncio segment, log and meter reporters have a producer of their own. *)
Definition kafka_aio_report (m : M (list KafkaRecord) unit) : M AioKafkaClient unit :=
  _ ← ensure_started; on_client (on_producer m).
Definition kafka_aio_report_segments (cfg : Config) (generator : list (pystr * nat)) : M AioKafkaClient unit :=
  kafka_aio_report (kafka_report_segments send_outcome cfg generator).
Definition kafka_aio_report_logs (cfg : Config) (generator : list (pystr * nat)) : M AioKafkaClient unit :=
  kafka_aio_report (kafka_report_logs send_outcome cfg generator).
Definition kafka_aio_report_meters (cfg : Config) (generator : list nat) : M AioKafkaClient unit :=
  kafka_aio_report (kafka_report_meters send_outcome cfg generator).
End kafka_aio.

(** ** gRPC stubs *)

(** A call of a stub: the method, its request or stream, and [timeout=]. *)
Inductive StubCall :=
| ReportInstanceProperties (service instance : pystr) (properties : list (pystr * pystr))
| KeepAlive (service instance : pystr)
| Collect (items : list nat)
| CollectBatch (items : list nat)
| CollectSnapshot (items : list nat)
| GetProfileTaskCommands (service instance : pystr) (last_command_time : Z)
| ReportTaskFinish (service instance task_id : pystr).

Record Call := mkCall { call_of : StubCall; call_timeout : option Z }.

(** A client-streaming method. *)
Definition is_streaming (c : StubCall) : bool :=
  match c with Collect _ | CollectBatch _ | CollectSnapshot _ => true | _ => false end.

(** What the services call, threaded and asyncio: a unary call and a threaded stream have a
    deadline, an asyncio stream has none. *)
Definition deadline (cfg : Config) : option Z := Some (grpc_call_timeout (agent_queue_timeout cfg)).

Definition grpc_props_call (cfg : Config) (properties : list (pystr * pystr)) : Call :=
  mkCall (ReportInstanceProperties (agent_name cfg) (agent_instance_name cfg) properties) (deadline cfg).
Definition grpc_ping_call (cfg : Config) : Call :=
  mkCall (KeepAlive (agent_name cfg) (agent_instance_name cfg)) (deadline cfg).
Definition grpc_collect (cfg : Config) (asyncio : bool) (items : list nat) : Call :=
  mkCall (Collect items) (if asyncio then None else deadline cfg).
Definition grpc_collect_batch (cfg : Config) (asyncio : bool) (items : list nat) : Call :=
  mkCall (CollectBatch items) (if asyncio then None else deadline cfg).
Definition grpc_collect_snapshot (cfg : Config) (asyncio : bool) (items : list nat) : Call :=
  mkCall (CollectSnapshot items) (if asyncio then None else deadline cfg).
Definition grpc_do_query (cfg : Config) (last_command_create_time : Z) : Call :=
  mkCall (GetProfileTaskCommands (agent_name cfg) (agent_instance_name cfg) last_command_create_time)
    (deadline cfg).
Definition grpc_finish (cfg : Config) (task_id : pystr) : Call :=
  mkCall (ReportTaskFinish (agent_name cfg) (agent_instance_name cfg) task_id) (deadline cfg).

(** The services of client/grpc_aio.py: the same calls, awaited; a stream has no deadline, since its
    generator waits for the next item without end. *)
Definition grpc_aio_send_instance_props (cfg : Config) (properties : list (pystr * pystr)) : Call :=
  grpc_props_call cfg properties.
Definition grpc_aio_keep_alive (cfg : Config) : Call := grpc_ping_call cfg.
Definition grpc_aio_report_segments (cfg : Config) (items : list nat) : Call := grpc_collect cfg true items.
Definition grpc_aio_report_meters (cfg : Config) (items : list nat) : Call := grpc_collect cfg true items.
Definition grpc_aio_report_meter_batch (cfg : Config) (items : list nat) : Call := grpc_collect_batch cfg true items.
Definition grpc_aio_report_logs (cfg : Config) (items : list nat) : Call := grpc_collect cfg true items.
Definition grpc_aio_report_snapshots (cfg : Config) (items : list nat) : Call := grpc_collect_snapshot cfg true items.
Definition grpc_aio_finish (cfg : Config) (task_id : pystr) : Call := grpc_finish cfg task_id.

(** ** HTTP posts *)

Inductive HttpBody :=
| BProperties (service instance : pystr) (properties : list (pystr * json))
| BPing (service instance : pystr)
| BSegment (content : nat)
| BLogs (contents : list nat).

(** [f"{proto}{config.agent_collector_backend_services.rstrip('/')}/v3/..."] *)
Definition http_url (proto : pystr) (cfg : Config) (path : pystr) : pystr :=
  proto ++ rstrip_with (Z.eqb 47) (agent_collector_backend_services cfg) ++ path.

Record HttpClient := mkHttpClient {
  hc_proto : pystr;
  hc_counter : Z;
  hc_properties : list (pystr * json);
  hc_posted : list (pystr * HttpBody)
}.

Section http.
(** The outcome of the n-th [session.post]. *)
Context (post_outcome : nat -> option exn).

Definition http_post (path : pystr) (cfg : Config) (body : HttpBody) : M HttpClient unit := fun c =>
  match post_outcome (length (hc_posted c)) with
  | Some e => (c, Raise e)
  | None => (mkHttpClient (hc_proto c) (hc_counter c) (hc_properties c)
               (hc_posted c ++ [(http_url (hc_proto c) cfg path, body)]), Ok tt)
  end.

Definition http_send_instance_props (cfg : Config) : M HttpClient unit :=
  c ← get_st;
  http_post (py "/v3/management/reportProperties") cfg
    (BProperties (agent_name cfg) (agent_instance_name cfg) (hc_properties c)).

#[export] Instance Http_management : ServiceManagement HttpClient := {
  counter_of := hc_counter;
  with_counter n c := mkHttpClient (hc_proto c) n (hc_properties c) (hc_posted c);
  send_instance_props := http_send_instance_props
}.

Definition http_send_heart_beat (cfg : Config) : M HttpClient unit :=
  _ ← refresh_instance_props cfg;
  http_post (py "/v3/management/keepAlive") cfg (BPing (agent_name cfg) (agent_instance_name cfg)).

(** [HttpTraceSegmentReportService.report]: a post per segment. *)
Definition http_report_segments (cfg : Config) (generator : list nat) : M HttpClient unit :=
  for_each generator (fun s => http_post (py "/v3/segment") cfg (BSegment s)).

(** [HttpLogDataReportService.report]: one post, none for an empty batch. *)
Definition http_report_logs (cfg : Config) (generator : list nat) : M HttpClient unit :=
  if decide (generator = []) then mret tt else http_post (py "/v3/logs") cfg (BLogs generator).

(** client/http_aio.py: a post is [async with session.post(...)], which closes the response. *)
Definition http_aio_send_instance_props (cfg : Config) : M HttpClient unit := http_send_instance_props cfg.
Definition http_aio_send_heart_beat (cfg : Config) : M HttpClient unit :=
  _ ← refresh_instance_props_async cfg;
  http_post (py "/v3/management/keepAlive") cfg (BPing (agent_name cfg) (agent_instance_name cfg)).
End http.

(** ** The rate of refreshes, for every management client *)

(** The part of a management client the refresh depends on: [sends] counts the properties sent. *)
Class ManagementLaws (S : Type) `{!ServiceManagement S} := {
  sends : S -> Z;
  counter_with n s : counter_of (with_counter n s) = n;
  sends_with n s : sends (with_counter n s) = sends s;
  send_counter cfg s s' : send_instance_props cfg s = (s', Ok tt) -> counter_of s' = counter_of s;
  send_sends cfg s s' : send_instance_props cfg s = (s', Ok tt) -> sends s' = sends s + 1
}.

Section rate.
Context {S : Type} `{ManagementLaws S}.

Lemma refresh_step (cfg : Config) s s' :
  let f := agent_collector_properties_report_period_factor cfg in
  0 < f -> refresh_instance_props cfg s = (s', Ok tt) ->
  counter_of s' = counter_of s + 1 ∧
  sends s' = sends s + ((counter_of s + 1) / f - counter_of s / f).
Proof.
  intros f Hf E. unfold refresh_instance_props in E. do 2 (erewrite bind_ok in E by reflexivity).
  cbv beta in E. set (s1 := with_counter _ s) in E.
  assert (counter_of s1 = counter_of s + 1 ∧ sends s1 = sends s) as [Hc Hs]
    by (split; [apply counter_with | apply sends_with]).
  rewrite Hc in E. replace (counter_of s + 1 - 1) with (counter_of s) in E by lia.
  unfold refresh_due in E. fold f in E. rewrite (proj2 (Z.eqb_neq f 0)) in E by lia.
  erewrite bind_ok in E by reflexivity. cbv beta in E.
  pose proof (Z.div_mod (counter_of s) f ltac:(lia)). pose proof (Z.mod_pos_bound (counter_of s) f Hf).
  pose proof (Z.div_mod (counter_of s + 1) f ltac:(lia)).
  pose proof (Z.mod_pos_bound (counter_of s + 1) f Hf).
  destruct ((counter_of s + 1) mod f =? 0) eqn:Em.
  - apply Z.eqb_eq in Em. rewrite (send_counter _ _ _ E), (send_sends _ _ _ E), Hc, Hs.
    split; [done|]. f_equal. nia.
  - apply Z.eqb_neq in Em. injection E as <-. rewrite Hc, Hs. split; [done|]. nia.
Qed.

(** The properties are refreshed at the configured rate by every protocol: over any run of
    calls that returned, they are sent once each time the counter passes a multiple of the
    factor. *)
Theorem refresh_rate (cfg : Config) (beats : list unit) s s' :
  let f := agent_collector_properties_report_period_factor cfg in
  0 < f -> for_each beats (fun _ => refresh_instance_props cfg) s = (s', Ok tt) ->
  counter_of s' = counter_of s + Z.of_nat (length beats) ∧
  sends s' = sends s + ((counter_of s + Z.of_nat (length beats)) / f - counter_of s / f).
Proof.
  intros f Hf. revert s. induction beats as [|[] beats IH]; intros s E.
  - injection E as <-. cbn [length]. rewrite !Z.add_0_r. lia.
  - cbn [for_each] in E. apply bind_inv in E as (s1 & [] & E1 & E2).
    destruct (refresh_step cfg s s1 Hf E1) as [Hc Hs]. destruct (IH s1 E2) as [Hc' Hs'].
    cbn [length]. rewrite Hc', Hs', Hc, Hs. rewrite Nat2Z.inj_succ.
    replace (counter_of s + 1 + Z.of_nat (length beats)) with
      (counter_of s + Z.succ (Z.of_nat (length beats))) by lia. fold f. lia.
Qed.
End rate.

(** Number of property records among the sent. *)
Definition is_properties (r : KafkaRecord) : bool :=
  match r_value r with VProperties _ _ _ => true | _ => false end.
Definition properties_records (l : list KafkaRecord) : Z :=
  Z.of_nat (length (filter (fun r => is_properties r = true) l)).
Definition properties_posts (l : list (pystr * HttpBody)) : Z :=
  Z.of_nat (length (filter (fun p => match p.2 with BProperties _ _ _ => true | _ => false end = true) l)).

Lemma producer_send_run send_outcome topic key v log k :
  utf8_encode key = Ok k ->
  producer_send send_outcome topic key v log = append_record send_outcome (mkRecord topic k v) log.
Proof. intros Hk. unfold producer_send, lift, mbind, M_bind. by rewrite Hk. Qed.

Lemma producer_send_ok send_outcome topic key v log log' :
  producer_send send_outcome topic key v log = (log', Ok tt) ->
  ∃ k, utf8_encode key = Ok k ∧ log' = log ++ [mkRecord topic k v].
Proof.
  unfold producer_send, lift, mbind, M_bind, append_record. destruct (utf8_encode key) as [k|e]; [|done].
  destruct (send_outcome _); [done|]. intros [= <-]. by exists k.
Qed.

Lemma kafka_props_ok send_outcome cfg c c' :
  kafka_send_instance_props send_outcome cfg c = (c', Ok tt) ->
  kc_counter c' = kc_counter c ∧ properties_records (kc_sent c') = properties_records (kc_sent c) + 1.
Proof.
  unfold kafka_send_instance_props. erewrite bind_ok by reflexivity. unfold on_producer.
  destruct (producer_send _ _ _ _ _) as [log r] eqn:E. intros [= <- ->].
  apply producer_send_ok in E as (k & _ & ->). split; [done|].
  unfold properties_records. cbn [kc_sent]. rewrite filter_app, length_app, filter_cons_True by done.
  rewrite filter_nil, Nat2Z.inj_add. done.
Qed.

#[export] Instance Kafka_management_laws send_outcome :
  @ManagementLaws KafkaClient (Kafka_management send_outcome).
Proof.
  refine (Build_ManagementLaws _ (Kafka_management send_outcome)
    (fun c => properties_records (kc_sent c)) _ _ _ _); try done.
  - intros cfg c c' E. by apply kafka_props_ok in E as [? _].
  - intros cfg c c' E. by apply kafka_props_ok in E as [_ ?].
Defined.

#[export] Instance Kafka_aio_management_laws start_outcome send_outcome :
  @ManagementLaws AioKafkaClient (Kafka_aio_management start_outcome send_outcome).
Proof.
  assert (∀ cfg a a', kafka_aio_send_instance_props start_outcome send_outcome cfg a = (a', Ok tt) ->
    kc_counter (ak_client a') = kc_counter (ak_client a) ∧
    properties_records (kc_sent (ak_client a')) = properties_records (kc_sent (ak_client a)) + 1) as H.
  { intros cfg a a' E. unfold kafka_aio_send_instance_props in E. apply bind_inv in E as (a1 & [] & E1 & E).
    assert (ak_client a1 = ak_client a) as <-.
    { unfold ensure_started in E1. destruct (start_event _); [by injection E1 as <-|].
      destruct (start_outcome _); [done | by injection E1 as <-]. }
    unfold on_client in E. destruct (kafka_send_instance_props _ _ _) as [c r] eqn:Ec.
    injection E as <- ->. by apply kafka_props_ok in Ec. }
  refine (Build_ManagementLaws _ (Kafka_aio_management start_outcome send_outcome)
    (fun a => properties_records (kc_sent (ak_client a))) _ _ _ _); try done;
    intros cfg a a' E; by destruct (H cfg a a' E).
Defined.

#[export] Instance Http_management_laws post_outcome :
  @ManagementLaws HttpClient (Http_management post_outcome).
Proof.
  assert (∀ cfg c c', http_send_instance_props post_outcome cfg c = (c', Ok tt) ->
    hc_counter c' = hc_counter c ∧ properties_posts (hc_posted c') = properties_posts (hc_posted c) + 1) as H.
  { intros cfg c c'. unfold http_send_instance_props. erewrite bind_ok by reflexivity. unfold http_post.
    destruct (post_outcome _); [done|]. intros [= <-]. split; [done|]. unfold properties_posts.
    cbn [hc_posted]. rewrite filter_app, length_app, filter_cons_True by done.
    rewrite filter_nil, Nat2Z.inj_add. done. }
  refine (Build_ManagementLaws _ (Http_management post_outcome)
    (fun c => properties_posts (hc_posted c)) _ _ _ _); try done;
    intros cfg c c' E; by destruct (H cfg c c' E).
Defined.

(** ** Registration over Kafka *)

Definition ping_records (l : list KafkaRecord) : Z :=
  Z.of_nat (length (filter (fun r => match r_value r with VPing _ _ => true | _ => false end = true) l)).

Lemma kafka_props_pings send_outcome cfg c c' :
  kafka_send_instance_props send_outcome cfg c = (c', Ok tt) ->
  ping_records (kc_sent c') = ping_records (kc_sent c) ∧ kc_sent c `prefix_of` kc_sent c'.
Proof.
  unfold kafka_send_instance_props. erewrite bind_ok by reflexivity. unfold on_producer.
  destruct (producer_send _ _ _ _ _) as [log r] eqn:E. intros [= <- ->].
  apply producer_send_ok in E as (k & _ & ->). cbn [kc_sent]. split; [|by apply prefix_app_r].
  unfold ping_records. by rewrite filter_app, length_app, filter_cons_False, Nat.add_0_r.
Qed.

Lemma kafka_refresh_pings send_outcome (cfg : Config) c c' :
  @refresh_instance_props KafkaClient (Kafka_management send_outcome) cfg c = (c', Ok tt) ->
  ping_records (kc_sent c') = ping_records (kc_sent c) ∧ kc_sent c `prefix_of` kc_sent c'.
Proof.
  unfold refresh_instance_props. intros E. do 2 (erewrite bind_ok in E by reflexivity).
  apply bind_inv in E as (c1 & due & E1 & E). injection E1 as <- _.
  destruct due; [|by injection E as <-]. by apply (kafka_props_pings send_outcome) in E.
Qed.

Lemma kafka_beat send_outcome (cfg : Config) c c' :
  0 < agent_collector_properties_report_period_factor cfg ->
  kafka_send_heart_beat send_outcome cfg None c = (c', Ok tt) ->
  let f := agent_collector_properties_report_period_factor cfg in
  kc_counter c' = kc_counter c + 1 ∧ ping_records (kc_sent c') = ping_records (kc_sent c) + 1 ∧
  properties_records (kc_sent c') =
    properties_records (kc_sent c) + ((kc_counter c + 1) / f - kc_counter c / f) ∧
  kc_sent c `prefix_of` kc_sent c'.
Proof.
  intros Hf E f. unfold kafka_send_heart_beat in E. apply bind_inv in E as (c1 & [] & E1 & E).
  apply bind_inv in E as (c2 & [] & E2 & E). injection E as <-.
  destruct (refresh_step (S := KafkaClient) cfg c c1 Hf E1) as [Hc Hs].
  destruct (kafka_refresh_pings send_outcome cfg c c1 E1) as [Hp Hpre].
  unfold on_producer in E2. destruct (producer_send _ _ _ _ _) as [log r] eqn:Es. injection E2 as <- ->.
  apply producer_send_ok in Es as (k & _ & ->). cbn [kc_counter kc_sent] in *.
  change (properties_records (kc_sent c1) = properties_records (kc_sent c) +
    ((kc_counter c + 1) / f - kc_counter c / f)) in Hs.
  split_and!; [done | | |by etrans; [|apply prefix_app_r]].
  - rewrite <- Hp. unfold ping_records. rewrite filter_app, length_app, filter_cons_True by done.
    by rewrite filter_nil, Nat2Z.inj_add.
  - rewrite <- Hs. unfold properties_records.
    by rewrite filter_app, length_app, filter_cons_False, Nat.add_0_r.
Qed.

(** Over Kafka an instance is registered before its first ping, with its properties under
    the key [register-<instance>], and after [n] answered heartbeats the brokers hold [n] pings
    and one properties record per period besides the first. *)
Theorem kafka_registration send_outcome json_loads (cfg : Config) o c0 (beats : list unit) c :
  0 < agent_collector_properties_report_period_factor cfg ->
  kafka_management_init send_outcome json_loads cfg o = Ok (c0, Ok tt) ->
  for_each beats (fun _ => kafka_send_heart_beat send_outcome cfg None) c0 = (c, Ok tt) ->
  let n := Z.of_nat (length beats) in
  ping_records (kc_sent c) = n ∧
  properties_records (kc_sent c) = 1 + n / agent_collector_properties_report_period_factor cfg ∧
  ∃ key props rest, utf8_encode (py "register-" ++ agent_instance_name cfg) = Ok key ∧
    get_instance_properties_proto json_loads cfg o = Ok props ∧
    kc_sent c = mkRecord (kafka_topic_management cfg) key
                  (VProperties (agent_name cfg) (agent_instance_name cfg) props) :: rest.
Proof.
  intros Hf Hinit Hbeats. cbv zeta. set (f := agent_collector_properties_report_period_factor cfg) in *.
  unfold kafka_management_init in Hinit.
  destruct (get_instance_properties_proto json_loads cfg o) as [props|e] eqn:Ep; [|done].
  injection Hinit as Hc0. unfold kafka_send_instance_props in Hc0. erewrite bind_ok in Hc0 by reflexivity.
  unfold on_producer in Hc0. destruct (producer_send _ _ _ _ _) as [log r] eqn:Es. injection Hc0 as <- ->.
  apply producer_send_ok in Es as (key & Hkey & ->). cbn [kc_counter kc_properties kc_sent app] in Hbeats.
  set (r0 := mkRecord _ key _) in Hbeats.
  assert (∀ l c1 c2, for_each l (fun _ : unit => kafka_send_heart_beat send_outcome cfg None) c1 = (c2, Ok tt) ->
    kc_counter c2 = kc_counter c1 + Z.of_nat (length l) ∧
    ping_records (kc_sent c2) = ping_records (kc_sent c1) + Z.of_nat (length l) ∧
    properties_records (kc_sent c2) = properties_records (kc_sent c1) +
      ((kc_counter c1 + Z.of_nat (length l)) / f - kc_counter c1 / f) ∧
    kc_sent c1 `prefix_of` kc_sent c2) as Hrun.
  { induction l as [|[] l IH]; intros c1 c2 E.
    - injection E as <-. cbn [length]. rewrite !Z.add_0_r. split_and!; try lia. done.
    - cbn [for_each] in E. apply bind_inv in E as (c3 & [] & E1 & E2).
      destruct (kafka_beat _ _ _ _ Hf E1) as (Hc & Hp & Hr & Hpre).
      destruct (IH c3 c2 E2) as (Hc' & Hp' & Hr' & Hpre'). fold f in Hr.
      cbn [length]. rewrite Nat2Z.inj_succ. rewrite Hr', Hc, Hr.
      replace (kc_counter c1 + 1 + Z.of_nat (length l)) with
        (kc_counter c1 + Z.succ (Z.of_nat (length l))) by lia.
      split_and!; [lia | lia | lia | by etrans]. }
  destruct (Hrun _ _ _ Hbeats) as (_ & Hp & Hr & [rest Hrest]). cbn [kc_sent kc_counter] in *.
  assert (ping_records [r0] = 0 ∧ properties_records [r0] = 1) as [Hp0 Hr0] by done.
  rewrite Hp0 in Hp. rewrite Hr0, Zdiv_0_l in Hr.
  split_and!; [lia | rewrite Hr; f_equal; by rewrite Z.sub_0_r, Z.add_0_l|].
  by exists key, props, rest.
Qed.

(** ** Batches over Kafka and HTTP *)

(** Whatever the producer answers, what reaches the topic of a report is a prefix of the batch, in
    its order, each item under its own key; the report returns exactly when all of it was sent. *)
Theorem kafka_batch_prefix send_outcome (cfg : Config) items log log' r :
  Forall (fun s : pystr * nat => is_Some (match utf8_encode s.1 with Ok k => Some k | _ => None end)) items ->
  kafka_report_segments send_outcome cfg items log = (log', r) ->
  ∃ n, (n <= length items)%nat ∧ (r = Ok tt <-> n = length items) ∧
    ∃ sent, log' = log ++ sent ∧
      Forall2 (fun s rec => r_topic rec = kafka_topic_segment cfg ∧
                 utf8_encode s.1 = Ok (r_key rec) ∧ r_value rec = VSegment s.2) (take n items) sent.
Proof.
  intros Hkeys. revert log. induction Hkeys as [|[id seg] items [k Hk] Hkeys IH]; intros log E.
  - injection E as <- <-. exists 0%nat. split_and!; try done. exists []. by rewrite app_nil_r.
  - cbn [fst] in Hk. destruct (utf8_encode id) as [kb|] eqn:Eid; [|done].
    unfold kafka_report_segments in E. cbn [for_each fst snd] in E.
    pose proof (producer_send_run send_outcome (kafka_topic_segment cfg) id (VSegment seg) log kb Eid) as Er.
    unfold append_record in Er. destruct (send_outcome (length log)) as [e|].
    + rewrite (bind_raise _ _ _ _ _ Er) in E. injection E as <- <-. exists 0%nat.
      cbn. split_and!; [lia | done |]. exists []. by rewrite app_nil_r.
    + rewrite (bind_ok _ _ _ _ _ Er) in E. destruct (IH _ E) as (n & Hn & Hr & sent & -> & Hall). exists (S n). cbn [length take].
      split_and!; [lia | rewrite Hr; lia |]. eexists (_ :: sent). rewrite <- app_assoc. split; [done|].
      by constructor.
Qed.

(** An empty batch of logs is not posted over HTTP; an empty batch of meters is still a record
    over Kafka. *)
Lemma empty_batches (cfg : Config) c log k :
  utf8_encode (agent_instance_name cfg) = Ok k ->
  http_report_logs (fun _ => None) cfg [] c = (c, Ok tt) ∧
  kafka_report_meters (fun _ => None) cfg [] log =
    (log ++ [mkRecord (kafka_topic_meter cfg) k (VMeters [])], Ok tt).
Proof.
  intros Hk. split; [done|]. unfold kafka_report_meters. by rewrite (producer_send_run _ _ _ _ _ k).
Qed.

(** ** Starting the asyncio producer *)

(** [m] coroutines that reach the check before the first [start()] returns all call it: the
    event does not make sure that the producer is started once.  The management client has two
    such coroutines from the beginning, the registration its constructor schedules and the
    heartbeat. *)
Theorem producer_start_races m :
  run_turns start_turn (seq 0 m) (mkAioProducer false 0) (replicate m AtCheck) =
    (mkAioProducer false m, replicate m InStart).
Proof.
  destruct (run_turns_round start_turn (fun p => start_event p = false)
    (fun p => mkAioProducer false (S (start_calls p))) AtCheck InStart m (mkAioProducer false 0)) as [-> _].
  - intros [ev n] Hev. cbn in Hev. by subst.
  - done.
  - f_equal. induction m as [|m IH]; [done|]. rewrite Nat.iter_succ, IH. done.
Qed.

(** One coroutine after the other, the producer is started once. *)
Theorem producer_started_once m :
  (0 < m)%nat ->
  run_turns start_turn (seq 0 m ≫= replicate 2) (mkAioProducer false 0) (replicate m AtCheck) =
    (mkAioProducer true 1, replicate m Started).
Proof.
  intros Hm. destruct m as [|m]; [lia|].
  destruct (run_turns_phase start_turn (fun p => p = mkAioProducer false 0 ∨ p = mkAioProducer true 1)
    (fun _ => mkAioProducer true 1) 2 AtCheck Started (S m) (mkAioProducer false 0)) as [-> _].
  - intros p [-> | ->]; auto.
  - auto.
  - by rewrite Nat.iter_succ.
Qed.

(** ** Instance properties *)

(** With no custom JSON the properties are always found, whether or not the operating system
    answers, and hold the language, the process and the namespace. *)
Theorem instance_properties_found json_loads (cfg : Config) o :
  agent_instance_properties_json cfg = [] ->
  (∀ e, os_properties o = Raise e -> is_Exception e = true) ->
  ∃ l, get_instance_properties json_loads cfg o = Ok l ∧
    (py "language", JString (py "python")) ∈ l ∧
    (py "Process No.", JString (str_of_int (os_pid o))) ∈ l ∧
    (agent_namespace cfg ≠ [] -> (py "namespace", JString (agent_namespace cfg)) ∈ l).
Proof.
  intros Hj He. unfold get_instance_properties.
  assert (∃ l0, match os_properties o with
      | Ok l => Ok l | Raise e => if is_Exception e then Ok (basic_properties o) else Raise e end = Ok l0 ∧
    (py "language", JString (py "python")) ∈ l0 ∧
    (py "Process No.", JString (str_of_int (os_pid o))) ∈ l0) as (l0 & -> & Hl & Hp).
  { unfold os_properties in *. destruct (os_hostname o) as [hn|e]; cbn in *.
    - destruct (os_ips o hn) as [ips|e]; cbn in *; [eexists; split; [done|]; set_solver|].
      rewrite (He e eq_refl). eexists. split; [done|]. unfold basic_properties. set_solver.
    - rewrite (He e eq_refl). eexists. split; [done|]. unfold basic_properties. set_solver. }
  cbn [mbind res_bind]. rewrite (decide_True _ _ Hj). eexists. split; [done|].
  destruct (decide (agent_namespace cfg = [])); set_solver.
Qed.

(** The custom properties follow the others in their order.  A text that [json.loads] refuses,
    or that is not an object, raises out of the constructor of every client; a value that is not
    a string is accepted over HTTP and raises over gRPC and Kafka. *)
Theorem custom_properties_appended json_loads (cfg : Config) o l :
  get_instance_properties json_loads (cfg : Config) o = Ok l ->
  agent_instance_properties_json cfg ≠ [] ->
  ∃ base items, json_loads (agent_instance_properties_json cfg) = Ok (JObject items) ∧
    l = base ++ items ∧
    (∀ k n, (k, JNumber n) ∈ items -> ∀ l', get_instance_properties_proto json_loads cfg o ≠ Ok l').
Proof.
  intros E Hj. pose proof E as E0. unfold get_instance_properties in E.
  destruct (match os_properties o with Ok l => Ok l | Raise e => _ end) as [l0|e]; [|done].
  cbn [mbind res_bind] in E. rewrite (decide_False _ _ Hj) in E.
  destruct (json_loads _) as [j|e] eqn:Ejson; [|done]. destruct j as [| | | | |items]; try done.
  cbn [mbind res_bind json_items] in E. injection E as <-. eexists _, items. split_and!; [done.. |].
  intros k n Hin l' Ep. unfold get_instance_properties_proto in Ep. rewrite E0 in Ep. cbn [mbind res_bind] in Ep.
  assert (∀ l l', (k, JNumber n) ∈ l -> map_res KeyStringValuePair l ≠ Ok l') as Hmap.
  { clear. induction l as [|x l IH]; intros l' Hin E; [by apply elem_of_nil in Hin|].
    cbn [map_res] in E. apply elem_of_cons in Hin as [<- | Hin].
    - unfold KeyStringValuePair in E. cbn [fst snd proto_string] in E. by destruct (utf8_encode k).
    - destruct (KeyStringValuePair x); [|done]. cbn [mbind res_bind] in E.
      destruct (map_res KeyStringValuePair l) as [ys|] eqn:Em; [|done]. by eapply IH. }
  by eapply Hmap; [|exact Ep]; set_solver.
Qed.

(** ** Deadlines *)

(** Every call has a deadline that outlives the batching window, except the streams of the asyncio
    agent, which are open-ended. *)
Theorem deadlines_outlive_batches (cfg : Config) asyncio props items task t :
  Forall (fun c => match call_timeout c with
                   | Some d => 10 <= d ∧ agent_queue_timeout cfg + 5 <= d
                   | None => asyncio = true ∧ is_streaming (call_of c) = true
                   end)
    [grpc_props_call cfg props; grpc_ping_call cfg; grpc_collect cfg asyncio items;
     grpc_collect_batch cfg asyncio items; grpc_collect_snapshot cfg asyncio items;
     grpc_do_query cfg t; grpc_finish cfg task].
Proof.
  repeat constructor; unfold grpc_collect, grpc_collect_batch, grpc_collect_snapshot, deadline, grpc_call_timeout;
    destruct asyncio; cbn; try done; lia.
Qed.

(** *** Witness *)

Definition demo_os : OsInfo :=
  mkOs (py "posix") 7 (Ok (py "host")) (fun _ => Ok [py "10.0.0.1"]) (py "CPython") (py "3.11.4").
Definition no_json (_ : pystr) : res json := Raise ValueError.
Definition always_sent (_ : nat) : option exn := None.
Definition demo_client : KafkaClient :=
  match kafka_management_init always_sent no_json default_config demo_os with
  | Ok (c, _) => c | _ => mkKafkaClient 0 [] [] end.
Definition demo_beats : KafkaClient :=
  (for_each (replicate 25 tt) (fun _ => kafka_send_heart_beat always_sent default_config None) demo_client).1.

Lemma kafka_registration_witness :
  ping_records (kc_sent demo_beats) = 25 ∧
  properties_records (kc_sent demo_beats) =
    1 + 25 / agent_collector_properties_report_period_factor default_config ∧
  ∃ key props rest, utf8_encode (py "register-" ++ agent_instance_name default_config) = Ok key ∧
    get_instance_properties_proto no_json default_config demo_os = Ok props ∧
    kc_sent demo_beats = mkRecord (kafka_topic_management default_config) key
      (VProperties (agent_name default_config) (agent_instance_name default_config) props) :: rest.
Proof.
  apply (kafka_registration always_sent no_json default_config demo_os demo_client (replicate 25 tt)).
  - reflexivity.
  - vm_compute. reflexivity.
  - vm_compute. reflexivity.
Defined.
