(* ===== verification/AioServices.v ===== *)
(** * Services of the asyncio agent, and the heartbeat loops of both agents

    CommandServiceAsync of command/command_service.py, MeterServiceAsync of
    meter/meter_service.py, SamplingServiceAsync of sampling/sampling_service.py,
    [report_with_backoff_async] and the heartbeat rounds of agent/__init__.py.  Where an asyncio
    service does what the threaded one does, that is a theorem, so that the theorems of
    Command.v, Meter.v and AgentProps.v hold for it too; where it does not, the difference is. *)

From S2P Require Import Prelude PyData PyText Config Sampling Trace Profile Command Meter Report ReportAsync Agent AgentProps.

(** ** Commands *)

(** [_commands] exists once [dispatch] has begun; the rest is the state of Command.v. *)
Record CommandServiceAsync := mkACS { acs_queue : bool; acs : CommandService }.

Abbreviation MACS := (M CommandServiceAsync).

(** The first statement of [dispatch]: a new, empty queue. *)
Definition aio_dispatch_begin (s : CommandServiceAsync) : CommandServiceAsync :=
  let c := acs s in mkACS true (mkCS [] (cs_cache c) (cs_profile c) (cs_executed c)).

Definition on_acs {A} (m : M CommandService A) : MACS A := fun s =>
  let (c, r) := m (acs s) in (mkACS (acs_queue s) c, r).

(** The loop of [dispatch] until it waits on the empty queue. *)
Definition aio_dispatch (fuel : nat) (now : Z) : MACS unit := on_acs (dispatch fuel now).

(** [receive_command]; without a queue [self._commands] raises, and only
    [UnsupportedCommandException] is caught. *)
Definition aio_receive_one (c : Command) : MACS unit := fun s =>
  match deserialize c with
  | Raise _ => (s, Ok tt)
  | Ok b =>
      if is_command_executed b (acs s) then (s, Ok tt)
      else if acs_queue s
      then let c := acs s in
           (mkACS true (mkCS (cs_commands c ++ [b]) (cs_cache c) (cs_profile c) (cs_executed c)), Ok tt)
      else (s, Raise AttributeError)
  end.
Definition aio_receive_command (commands : list Command) : MACS unit := for_each commands aio_receive_one.

Lemma aio_receive_once cs c :
  aio_receive_command cs (mkACS true c) = (mkACS true (receive_command cs c), Ok tt).
Proof.
  unfold aio_receive_command, receive_command. revert c. induction cs as [|x cs IH]; intros c; [done|].
  cbn [for_each foldl].
  assert (aio_receive_one x (mkACS true c) = (mkACS true (receive_one x c), Ok tt)) as E.
  { unfold aio_receive_one, receive_one. cbn [acs acs_queue]. destruct (deserialize x) as [b|]; [|done].
    by destruct (is_command_executed b c). }
  by rewrite (bind_ok _ _ _ _ _ E).
Qed.

(** Once the dispatch coroutine has begun, the asyncio service is the threaded one. *)
Theorem aio_commands_equivalent cs fuel now c :
  aio_receive_command cs (mkACS true c) = (mkACS true (receive_command cs c), Ok tt) ∧
  aio_dispatch fuel now (mkACS true c) =
    (mkACS true (dispatch fuel now c).1, (dispatch fuel now c).2).
Proof.
  split; [apply aio_receive_once|]. unfold aio_dispatch, on_acs. cbn [acs acs_queue].
  by destruct (dispatch fuel now c).
Qed.

(** Histories of the asyncio service, restarts of the agent included. *)
Inductive acs_reachable : CommandServiceAsync -> Prop :=
| ar_new : acs_reachable (mkACS false new_command_service)
| ar_begin s : acs_reachable s -> acs_reachable (aio_dispatch_begin s)
| ar_receive cs s : acs_reachable s -> acs_reachable (aio_receive_command cs s).1
| ar_dispatch fuel now s : acs_reachable s -> acs_reachable (aio_dispatch fuel now s).1
| ar_profile p s : acs_reachable s ->
    acs_reachable (mkACS (acs_queue s)
      (mkCS (cs_commands (acs s)) (cs_cache (acs s)) p (cs_executed (acs s)))).

(** Also over restarts a command is not executed again while its serial number is among the
    last 64. *)
Theorem aio_commands_executed_once s :
  acs_reachable s ->
  cs_cache (acs s) = window (cs_executed (acs s)) ∧ spaced (cs_executed (acs s)).
Proof.
  intros Hr. change (cache_inv (acs s)).
  induction Hr as [|s Hr IH|cs s Hr IH|fuel now s Hr IH|p s Hr IH]; [|done| | |done].
  - split; [done|]. intros i j x _ Hi. by destruct i.
  - assert (preserves (fun s => cache_inv (acs s)) (aio_receive_command cs)) as H; [|by apply H].
    apply preserves_for. intros c _ s' Hs'. unfold aio_receive_one.
    destruct (deserialize c) as [b|]; [|done]. destruct (is_command_executed b _); [done|].
    by destruct (acs_queue s').
  - unfold aio_dispatch, on_acs. pose proof (dispatch_inv fuel now (acs s) IH) as H.
    by destruct (dispatch fuel now (acs s)).
Qed.

(** Before the dispatch coroutine has begun, the first command that is not known as executed
    raises out of the query. *)
Theorem aio_receive_before_dispatch c cs s b :
  acs_queue s = false -> deserialize c = Ok b -> is_command_executed b (acs s) = false ->
  aio_receive_command (c :: cs) s = (s, Raise AttributeError).
Proof.
  intros Hq Hd Hx. unfold aio_receive_command. cbn [for_each].
  rewrite (bind_raise _ _ s s AttributeError); [done|]. unfold aio_receive_one. by rewrite Hd, Hx, Hq.
Qed.

(** ** Meters *)

(** [MeterServiceAsync.send]: one task per meter, in the order of [meter_map]; a task transforms its
    meter when it runs.  A registry and the data archived so far. *)
Definition meters := list (pystr * RegisteredMeter).

Definition archive_async (service instance : pystr) (now : Z) (k : pystr)
  (st : meters * list MeterData) : meters * list MeterData :=
  match Dict.get k st.1 with
  | None => st
  | Some m =>
      let '(m', (n, ls, v)) := meter_transform m in
      (Dict.set k m' st.1, st.2 ++ [mkMeterData n ls v service instance now])
  end.
Definition aio_send (service instance : pystr) (now : Z) (s : meters) : meters * list MeterData :=
  foldl (fun st k => archive_async service instance now k st) (s, []) (Dict.keys s).

Lemma archive_keys service instance now k st :
  Dict.keys (archive_async service instance now k st).1 = Dict.keys st.1.
Proof.
  unfold archive_async. destruct (Dict.get k st.1) as [m|] eqn:E; [|done].
  destruct (meter_transform m) as [m' [[n ls] v]]. cbn [fst]. rewrite Dict.keys_set.
  rewrite decide_True; [done|]. apply Dict.elem_of_keys. by eexists.
Qed.

Lemma archive_skip service instance now k m k' s out :
  k ≠ k' ->
  archive_async service instance now k' ((k, m) :: s, out) =
    let st := archive_async service instance now k' (s, out) in ((k, m) :: st.1, st.2).
Proof.
  intros Hne. unfold archive_async. cbn [fst snd Dict.get Dict.set].
  destruct (decide (k' = k)) as [Heq|Hkk]; [congruence|]. destruct (Dict.get k' s) as [m'|]; [|done].
  by destruct (meter_transform m') as [m'' [[n ls] v]].
Qed.

Lemma archive_head service instance now k m ks : ∀ s out,
  k ∉ ks ->
  foldl (fun st k => archive_async service instance now k st) ((k, m) :: s, out) ks =
    let st := foldl (fun st k => archive_async service instance now k st) (s, out) ks in
    ((k, m) :: st.1, st.2).
Proof.
  induction ks as [|k' ks IH]; intros s out Hk; [done|]. cbn [foldl].
  rewrite archive_skip by set_solver. cbv zeta. rewrite IH by set_solver.
  by destruct (archive_async service instance now k' (s, out)).
Qed.

(** When the tasks of one [send] run without another update between them, the asyncio service
    archives what the threaded one does, in the same order, and leaves the meters in the same state. *)
Theorem aio_send_equivalent service instance now s :
  Dict.wf s -> aio_send service instance now s = send service instance now s.
Proof.
  unfold aio_send.
  enough (∀ out, Dict.wf s ->
    foldl (fun st k => archive_async service instance now k st) (s, out) (Dict.keys s) =
    ((send service instance now s).1, out ++ (send service instance now s).2)) as H.
  { intros Hwf. etrans; [apply (H [] Hwf)|]. by destruct (send service instance now s). }
  induction s as [|[k m] s IH]; intros out Hwf; [by rewrite app_nil_r|].
  apply NoDup_cons in Hwf as [Hk Hwf]. cbn [Dict.keys fmap list_fmap fst foldl send].
  assert (archive_async service instance now k ((k, m) :: s, out) =
    let '(m', (n, ls, v)) := meter_transform m in
    ((k, m') :: s, out ++ [mkMeterData n ls v service instance now])) as ->.
  { unfold archive_async. cbn [fst snd Dict.get]. rewrite decide_True by done.
    destruct (meter_transform m) as [m' [[n ls] v]]. cbn [Dict.set]. by rewrite decide_True. }
  destruct (meter_transform m) as [m' [[n ls] v]]. rewrite archive_head by done.
  cbv zeta. change (list_fmap _ _ fst s) with (Dict.keys s). rewrite (IH _ Hwf).
  destruct (send service instance now s) as [s' out']. cbn [fst snd]. by rewrite <- app_assoc.
Qed.

(** ** Sampling without a lock *)

(** Where a thread is in [_try_sampling] of SamplingServiceAsync, which takes no lock: before the
    comparison, before and after the load of [+= 1], and at its end. *)
Inductive try_pc := TryCheck | TryLoad | TryStore (v : Z) | TryDone (sampled : bool).

Definition try_turn (n : Z) (factor : Z) (pc : try_pc) : Z * try_pc :=
  match pc with
  | TryCheck => (factor, if can_sampling n factor then TryLoad else TryDone false)
  | TryLoad => (factor, TryStore factor)
  | TryStore v => (v + 1, TryDone true)
  | TryDone b => (factor, TryDone b)
  end.

(** Threads that do not overlap sample as under the lock. *)
Lemma try_alone n factor :
  turns (try_turn n) 3 factor TryCheck = ((try_sampling n factor).1, TryDone (try_sampling n factor).2).
Proof. unfold try_sampling. cbn. unfold can_sampling. by destruct (factor <? n). Qed.

(** [m] threads that overlap are all sampled as long as one more sample was allowed, and all of them
    are counted as one: the limit per window does not hold for the asyncio agent in a
    program with threads. *)
Theorem unlocked_sampling_overruns n factor m :
  factor < n -> (0 < m)%nat ->
  run_turns (try_turn n) (seq 0 m ++ seq 0 m ++ seq 0 m) factor (replicate m TryCheck) =
    (factor + 1, replicate m (TryDone true)).
Proof.
  intros Hlt Hm. rewrite !run_turns_app.
  destruct (run_turns_round (try_turn n) (fun x => x = factor) (fun x => x) TryCheck TryLoad m factor)
    as [E1 F1]; [|done|].
  { intros x ->. cbn. unfold can_sampling. by rewrite (proj2 (Z.ltb_lt _ _) Hlt). }
  rewrite E1. cbn [fst snd]. rewrite F1.
  destruct (run_turns_round (try_turn n) (fun x => x = factor) (fun x => x) TryLoad (TryStore factor) m factor)
    as [E2 F2]; [by intros x ->|done|].
  rewrite E2. cbn [fst snd]. rewrite F2.
  destruct (run_turns_round (try_turn n) (fun _ => True) (fun _ => factor + 1) (TryStore factor) (TryDone true) m factor)
    as [E3 _]; [done|done|].
  rewrite E3. destruct m as [|m]; [lia|]. by rewrite Nat.iter_succ.
Qed.

(** ** The loops of the reporter coroutines: [report_with_backoff_async] *)

(** How a round of a coroutine ends; a cancellation is no [Exception]. *)
Inductive aio_outcome := ARound (o : outcome) (finished : bool) | ACancelled.

(** The waits of the coroutine, and whether it ended by itself: [finished] is whether the event
    was set when the wait of that round ended. *)
Fixpoint aio_backoff (base wait : Z) (rounds : list aio_outcome) : list Z * bool :=
  match rounds with
  | [] => ([], false)
  | ACancelled :: _ => ([], false)
  | ARound o finished :: rounds' =>
      let w := next_wait base wait o in
      if finished then ([w], true)
      else let (ws, e) := aio_backoff base w rounds' in (w :: ws, e)
  end.

(** Until the event is set the coroutine waits as the thread of the other agent does. *)
Theorem aio_backoff_equivalent base wait os :
  aio_backoff base wait ((fun o => ARound o false) <$> os) = (backoff_waits base wait os, false).
Proof.
  revert wait. induction os as [|o os IH]; intros wait; [done|]. cbn. by rewrite IH.
Qed.


(** Shutdown ends the loop in the round that sees the event, whatever would follow. *)
Theorem aio_backoff_ends base wait os o rest :
  aio_backoff base wait (((fun o => ARound o false) <$> os) ++ ARound o true :: rest) =
    (backoff_waits base wait (os ++ [o]), true).
Proof.
  revert wait. induction os as [|o' os IH]; intros wait; [done|]. cbn. by rewrite IH.
Qed.

(** ** The heartbeat loop *)

(** [__heartbeat] over gRPC: not connected, the flag asks for another round at once (after half a
    second of sleep). *)
Definition heartbeat_round (cfg : Config) (e : beat_env) : heart bool :=
  g ← gets fst;
  if negb (grpc_is_ready g) then mret true
  else _ ← grpc_heartbeat cfg e; mret false.

(** [__heartbeat] of the asyncio agent: readiness is asked twice, by the round and by the
    protocol. *)
Definition aio_heartbeat_round (cfg : Config) (pk1 pk2 : peek) (e : beat_env) : heart bool :=
  g0 ← gets fst;
  let (g, ready) := grpc_aio_is_ready (hb_now e) pk1 g0 in
  _ ← hb_mod (fun _ => g);
  if negb ready then mret true
  else _ ← grpc_aio_heartbeat cfg pk2 e; mret false.

(** The thread: before each round the channel may have changed state; the waits of the loop. *)
Fixpoint heartbeat_loop (cfg : Config) (base wait : Z) (rounds : list (list connectivity * beat_env))
  (s : Grpc * list message) : (Grpc * list message) * list Z :=
  match rounds with
  | [] => (s, [])
  | (changes, e) :: rounds' =>
      let g := foldl (fun g c => grpc_cb (hb_now e) c g) s.1 changes in
      let (s2, r) := heartbeat_round cfg e (g, s.2) in
      let w := next_wait base wait (match r with Ok b => Returned b | Raise _ => Failed end) in
      let (s3, ws) := heartbeat_loop cfg base w rounds' s2 in
      (s3, w :: ws)
  end.

(** A channel that was never READY and does not become so. *)
Lemma cb_not_ready now changes g :
  properties_sent g = false -> g_state g ≠ Some READY -> Forall (fun c => c ≠ READY) changes ->
  let g' := foldl (fun g c => grpc_cb now c g) g changes in
  properties_sent g' = false ∧ g_state g' ≠ Some READY.
Proof.
  revert g. induction changes as [|c changes IH]; intros g Hp Hs Hc; [done|].
  apply Forall_cons in Hc as [Hc1 Hc]. cbn [foldl]. apply IH; [| |done]; unfold grpc_cb; cbn; [|congruence].
  by rewrite bool_decide_eq_false_2.
Qed.

(** The first heartbeat on a channel that has just become READY. *)
Lemma first_heartbeat (cfg : Config) e g log :
  grpc_is_ready g = true -> properties_sent g = false -> hb_ping e = RpcOk ->
  agent_collector_properties_report_period_factor cfg ≠ 0 ->
  ∃ g2 rest, grpc_heartbeat cfg e (g, log) = ((g2, log ++ MProps :: rest), Ok tt) ∧ MPing ∈ rest.
Proof.
  intros Hr Hp He Hf. unfold grpc_heartbeat, send_heart_beat, refresh_due, hb_send, hb_mod. unfold_m.
  rewrite Hr, Hp. unfold_m. rewrite (proj2 (Z.eqb_neq _ _) Hf).
  destruct (hb_props e) as [|s]; unfold_m; destruct (_ mod _ =? 0); unfold_m; rewrite He; unfold_m;
    eexists _, _; (split; [rewrite <- ?app_assoc; reflexivity | set_solver]).
Qed.

(** C25. Registration follows the connection: however long the channel takes to become READY, the
    heartbeat thread sends nothing and never backs off in the meantime (every wait is zero, besides
    the half second of sleep); in the first round that finds it READY it sends the instance
    properties, then the ping, and then waits the configured period. *)
Theorem heartbeat_registers (cfg : Config) base wait before changes e g log :
  properties_sent g = false -> g_state g ≠ Some READY ->
  Forall (fun r => Forall (fun c => c ≠ READY) r.1) before ->
  Forall (fun c => c ≠ READY) changes -> hb_ping e = RpcOk ->
  agent_collector_properties_report_period_factor cfg ≠ 0 ->
  ∃ g2 rest,
    heartbeat_loop cfg base wait (before ++ [(changes ++ [READY], e)]) (g, log) =
      ((g2, log ++ MProps :: rest), replicate (length before) 0 ++ [base]) ∧ MPing ∈ rest.
Proof.
  intros Hp Hs Hb Hc He Hf. revert g wait Hp Hs.
  induction Hb as [|[cs e1] before Hcs Hb IH]; intros g wait Hp Hs.
  - cbn [app heartbeat_loop fst snd length replicate]. rewrite foldl_app. cbn [foldl].
    set (g1 := grpc_cb (hb_now e) READY _).
    assert (properties_sent g1 = false) as Hp1 by (by apply stays_unregistered).
    destruct (first_heartbeat cfg e g1 log eq_refl Hp1 He Hf) as (g2 & rest & E & Hin).
    assert (heartbeat_round cfg e (g1, log) = ((g2, log ++ MProps :: rest), Ok false)) as ->.
    { unfold heartbeat_round. rewrite (bind_ok _ _ (g1, log) (g1, log) g1) by reflexivity.
      change (negb (grpc_is_ready g1)) with false. cbv iota. by rewrite (bind_ok _ _ _ _ _ E). }
    by exists g2, rest.
  - cbn [app heartbeat_loop fst snd length replicate].
    destruct (cb_not_ready (hb_now e1) cs g Hp Hs Hcs) as [Hp1 Hs1]. set (g1 := foldl _ g cs) in *.
    assert (heartbeat_round cfg e1 (g1, log) = ((g1, log), Ok true)) as ->.
    { unfold heartbeat_round. rewrite (bind_ok _ _ (g1, log) (g1, log) g1) by reflexivity.
      unfold grpc_is_ready. by rewrite bool_decide_eq_false_2. }
    cbn [next_wait]. destruct (IH g1 0 Hp1 Hs1) as (g2 & rest & -> & Hin). by exists g2, rest.
Qed.

(** *** Witness: three rounds without connection, then READY *)

Lemma heartbeat_registers_witness :
  ∃ g2 rest,
    heartbeat_loop default_config 30000000 30000000
      ([([CONNECTING], mkBeat 1 RpcOk RpcOk); ([TRANSIENT_FAILURE], mkBeat 2 RpcOk RpcOk); ([], mkBeat 3 RpcOk RpcOk)]
       ++ [([CONNECTING] ++ [READY], mkBeat 4 RpcOk RpcOk)]) (new_Grpc (mkChannelLog 0 ∅), []) =
      ((g2, [] ++ MProps :: rest), replicate 3 0 ++ [30000000]) ∧ MPing ∈ rest.
Proof.
  apply (heartbeat_registers default_config 30000000 30000000
    [([CONNECTING], mkBeat 1 RpcOk RpcOk); ([TRANSIENT_FAILURE], mkBeat 2 RpcOk RpcOk); ([], mkBeat 3 RpcOk RpcOk)]
    [CONNECTING] (mkBeat 4 RpcOk RpcOk) (new_Grpc (mkChannelLog 0 ∅)) []);
    first [reflexivity | discriminate | repeat constructor; discriminate].
Defined.
