(* ===== verification/Greenlet.v ===== *)
(** * The greenlet profiler: profile/profile_context.py with [THREAD_MODEL = 'greenlet']

    Instead of a thread that dumps stacks periodically, a trace function of greenlet
    dumps the stack of a profiled greenlet whenever it is switched to or from.  The
    objects are those of Profile.v; a [GreenletProfiler] is a profiler of that file with a
    greenlet and the trace function it found.  [greenlet.settrace] is one per thread: it returns the
    previous function; the trace function of a profiler is the profiler's location. *)

From S2P Require Import Prelude PyData PyText Config TraceData Trace Profile.

(** [_profiling_thread] and [_old_trace]. *)
Record GreenletExtra := mkExtra { ge_greenlet : nat; ge_old_trace : option nat }.

Record GState := mkG {
  gs : Service;
  gs_extra : gmap nat GreenletExtra;
  gs_trace : option nat              (* the thread's trace function *)
}.

Definition on_gs (f : Service -> Service) (g : GState) : GState := mkG (f (gs g)) (gs_extra g) (gs_trace g).

Section greenlet.
Context (cfg : Config).

(** [GreenletProfiler(...)]: always a status reference of its own. *)
Definition new_greenlet_profiler (v : TraceView) (segment_id : pystr) (c greenlet : nat) (g : GState)
  : GState * nat :=
  let (p1, r) := new_status PENDING (gs g) in
  let (p2, t) := add_profiler (mkProfiler (view_ctx v) (view_create_time v) segment_id c (-1) r 0) p1 in
  (mkG p2 (<[t := mkExtra greenlet None]> (gs_extra g)) (gs_trace g), t).

(** [GreenletProfiler.start_profiling]; when [settrace] raises, the task is stopped. *)
Definition greenlet_start (settrace_ok : bool) (t : nat) (g : GState) : GState :=
  match pf_profilers (gs g) !! t, gs_extra g !! t with
  | Some tp, Some x =>
      let g1 := on_gs (update_status (tp_status tp) PROFILING) g in
      if settrace_ok then
        mkG (gs g1) (<[t := mkExtra (ge_greenlet x) (gs_trace g)]> (gs_extra g1)) (Some t)
      else on_gs (stop_current_profile_task (Some (tp_context tp))) g1
  | _, _ => g
  end.

(** [GreenletProfiler.stop_profiling] *)
Definition greenlet_stop (t : nat) (g : GState) : GState :=
  match pf_profilers (gs g) !! t, gs_extra g !! t with
  | Some tp, Some x =>
      mkG (update_status (tp_status tp) STOPPED (gs g)) (gs_extra g) (ge_old_trace x)
  | _, _ => g
  end.

(** [attempt_profiling] in the greenlet model: the profiler starts before it has a slot. *)
Definition greenlet_attempt (settrace_ok : bool) (c : nat) (v : TraceView) (segment_id opname : pystr)
  (greenlet : nat) (g : GState) : GState * nat :=
  let p := gs g in
  let none (g : GState) := let (p', r) := new_status NONE (gs g) in (mkG p' (gs_extra g) (gs_trace g), r) in
  match pf_contexts p !! c with
  | None => none g
  | Some e =>
      match pf_tasks p !! ec_task e with
      | None => none g
      | Some task =>
          let using_slot_cnt := current_profiling_cnt e in
          if agent_profile_max_parallel cfg <=? using_slot_cnt then none g
          else if negb (bool_decide (first_span_op_name task = opname)) then none g
          else if max_sampling_count task <? total_started_profiling_cnt e then none g
          else
            let (cnt, set) := ref_compare_and_set using_slot_cnt (using_slot_cnt + 1)
                                (current_profiling_cnt e) in
            if negb set then none g
            else
              let g1 := on_gs (upd_context c (set_cnt cnt)) g in
              let (g2, t) := new_greenlet_profiler v segment_id c greenlet g1 in
              let g3 := greenlet_start settrace_ok t g2 in
              let (a, found) := occupy (indices (slots e)) t (slots e) in
              if found then
                (on_gs (upd_context c (set_slots a)) g3,
                 match pf_profilers (gs g3) !! t with Some tp => tp_status tp | None => 0%nat end)
              else none g3
      end
  end.

(** The slot of a trace context, with the profiler's location. *)
Definition find_greenlet_slot (trace : nat) (e : ExecContext) (p : Service) : option (nat * nat) :=
  head (omap (fun i =>
    t ← mjoin (array_items (slots e) !! i); tp ← pf_profilers p !! t;
    if bool_decide (tp_trace tp = trace) then Some (i, t) else None)
    (seq 0 (length (array_items (slots e))))).

(** [stop_tracing_profile], whose profiler is a [GreenletProfiler]. *)
Definition greenlet_stop_tracing (c trace : nat) (g : GState) : GState :=
  match pf_contexts (gs g) !! c with
  | None => g
  | Some e =>
      match find_greenlet_slot trace e (gs g) with
      | None => g
      | Some (i, t) =>
          match array_set (Z.of_nat i) None (slots e) with
          | Raise _ => g
          | Ok a =>
              let g1 := greenlet_stop t (on_gs (upd_context c (set_slots a)) g) in
              on_gs (upd_context c (fun e => set_cnt (add_and_get (-1) (current_profiling_cnt e)).1 e)) g1
          end
      end
  end.

(** What can go wrong while a snapshot is built and handed over. *)
Inductive dump_error := BlockingSwitchOutError | DumpError (e : exn).

(** The trace function of profiler [t] at a switch; [error] is raised before the snapshot is
    handed over. *)
Definition greenlet_callback (now : Z) (t origin target : nat) (stack : list pystr)
  (error : option dump_error) (g : GState) : GState * res unit :=
  match pf_profilers (gs g) !! t, gs_extra g !! t with
  | Some tp, Some x =>
      if bool_decide (origin = ge_greenlet x) || bool_decide (target = ge_greenlet x) then
        let (p1, s) := build_snapshot cfg now t (Some stack) (gs g) in
        let g1 := mkG p1 (gs_extra g) (gs_trace g) in
        match error, s with
        | Some BlockingSwitchOutError, _ => (greenlet_stop_tracing (tp_context tp) (tp_trace tp) g1, Ok tt)
        | Some (DumpError e), _ => (greenlet_stop_tracing (tp_context tp) (tp_trace tp) g1, Raise e)
        | None, Some s => (on_gs (emit_snapshot t s) g1, Ok tt)
        | None, None => (greenlet_stop_tracing (tp_context tp) (tp_trace tp) g1, Ok tt)
        end
      else (g, Ok tt)
  | _, _ => (g, Ok tt)
  end.

(** A switch of greenlets: the thread's trace function is called. *)
Definition greenlet_switch (now : Z) (origin target : nat) (stack : list pystr)
  (error : option dump_error) (g : GState) : GState * res unit :=
  match gs_trace g with
  | Some t => greenlet_callback now t origin target stack error g
  | None => (g, Ok tt)
  end.

(** [ProfileTaskExecutionContext.stop_profiling] in the greenlet model: every profiler is stopped,
    the slots stay. *)
Definition greenlet_context_stop (c : nat) (g : GState) : GState :=
  match pf_contexts (gs g) !! c with
  | None => g
  | Some e => foldl (fun g s => match s with Some t => greenlet_stop t g | None => g end) g
                (array_items (slots e))
  end.

(** ** Properties *)

(** A profiler that is known to the service. *)
Definition known (t : nat) (g : GState) : Prop :=
  is_Some (pf_profilers (gs g) !! t) ∧ is_Some (gs_extra g !! t).

Lemma start_known t g tp x :
  pf_profilers (gs g) !! t = Some tp -> gs_extra g !! t = Some x ->
  greenlet_start true t g =
    mkG (update_status (tp_status tp) PROFILING (gs g))
      (<[t := mkExtra (ge_greenlet x) (gs_trace g)]> (gs_extra g)) (Some t).
Proof. intros H1 H2. unfold greenlet_start. by rewrite H1, H2. Qed.

Lemma stop_known t g tp x :
  pf_profilers (gs g) !! t = Some tp -> gs_extra g !! t = Some x ->
  greenlet_stop t g = mkG (update_status (tp_status tp) STOPPED (gs g)) (gs_extra g) (ge_old_trace x).
Proof. intros H1 H2. unfold greenlet_stop. by rewrite H1, H2. Qed.

(** Starting or stopping a profiler keeps the profilers, and the others' greenlets. *)
Lemma start_frame t g :
  pf_profilers (gs (greenlet_start true t g)) = pf_profilers (gs g) ∧
  ∀ t', t ≠ t' -> gs_extra (greenlet_start true t g) !! t' = gs_extra g !! t'.
Proof.
  unfold greenlet_start. destruct (pf_profilers (gs g) !! t) eqn:E1; [|done].
  destruct (gs_extra g !! t); [|done]. split; [done|]. intros t' Hne. cbn. by rewrite lookup_insert_ne.
Qed.

Lemma stop_frame t g :
  pf_profilers (gs (greenlet_stop t g)) = pf_profilers (gs g) ∧
  gs_extra (greenlet_stop t g) = gs_extra g.
Proof.
  unfold greenlet_stop. destruct (pf_profilers (gs g) !! t) eqn:E1; [|done]. by destruct (gs_extra g !! t).
Qed.

Lemma starts_frame ts : ∀ g t', t' ∉ ts ->
  pf_profilers (gs (foldl (fun g t => greenlet_start true t g) g ts)) = pf_profilers (gs g) ∧
  gs_extra (foldl (fun g t => greenlet_start true t g) g ts) !! t' = gs_extra g !! t'.
Proof.
  induction ts as [|t ts IH]; intros g t' Hni; [done|]. cbn [foldl].
  destruct (IH (greenlet_start true t g) t') as [-> ->]; [set_solver|].
  split; apply start_frame. set_solver.
Qed.

Lemma stops_frame ts : ∀ g,
  pf_profilers (gs (foldl (fun g t => greenlet_stop t g) g ts)) = pf_profilers (gs g) ∧
  gs_extra (foldl (fun g t => greenlet_stop t g) g ts) = gs_extra g.
Proof.
  induction ts as [|t ts IH]; intros g; [done|]. cbn [foldl].
  destruct (IH (greenlet_stop t g)) as [-> ->]. apply stop_frame.
Qed.

(** Profilers that are stopped in the reverse order of their starts leave the thread's trace
    function as they found it. *)
Theorem greenlet_nested ts : ∀ g,
  NoDup ts -> Forall (fun t => known t g) ts ->
  let g1 := foldl (fun g t => greenlet_start true t g) g ts in
  gs_trace (foldl (fun g t => greenlet_stop t g) g1 (rev ts)) = gs_trace g ∧
  gs_trace g1 = match last ts with Some t => Some t | None => gs_trace g end.
Proof.
  induction ts as [|t ts IH]; intros g Hnd Hk; [done|].
  apply NoDup_cons in Hnd as [Hni Hnd]. apply Forall_cons in Hk as [[[tp Htp] [x Hx]] Hk].
  cbn [foldl rev]. rewrite foldl_app. cbn [foldl].
  pose proof (start_known t g tp x Htp Hx) as Hg0. destruct (start_frame t g) as [Hp0 He0].
  set (g0 := greenlet_start true t g) in *.
  assert (Forall (fun t => known t g0) ts) as Hk0.
  { apply Forall_forall. intros t' Hin. apply list_elem_of_In in Hin.
    destruct (proj1 (List.Forall_forall _ _) Hk t' Hin) as [H1 H2]. apply list_elem_of_In in Hin.
    split; [by rewrite Hp0 | rewrite He0; [done | by intros ->]]. }
  destruct (IH g0 Hnd Hk0) as [E1 E2]. cbv zeta in E1, E2.
  destruct (starts_frame ts g0 t Hni) as [Hp1 He1]. set (g1 := foldl _ g0 ts) in *.
  destruct (stops_frame (rev ts) g1) as [Hp2 He2]. set (g2 := foldl _ g1 (rev ts)) in *. split.
  - rewrite (stop_known t g2 tp (mkExtra (ge_greenlet x) (gs_trace g))); [done | congruence |].
    rewrite He2, He1, Hg0. cbn. by rewrite lookup_insert_eq.
  - rewrite E2, last_cons. destruct (last ts); [done|]. by rewrite Hg0.
Qed.

(** Two profilers that overlap otherwise, as two requests served by one thread do: when the one
    that started first stops first, the second is no longer called although its status says it is
    profiling, and when the second stops, the trace function of the first, which is stopped, is
    back in place. *)
Theorem greenlet_overlap_leaks a b g tpa tpb xa xb :
  a ≠ b -> pf_profilers (gs g) !! a = Some tpa -> pf_profilers (gs g) !! b = Some tpb ->
  gs_extra g !! a = Some xa -> gs_extra g !! b = Some xb -> tp_status tpa ≠ tp_status tpb ->
  gs_trace g = None ->
  let g1 := greenlet_stop a (greenlet_start true b (greenlet_start true a g)) in
  let g2 := greenlet_stop b g1 in
  gs_trace g1 = None ∧ pf_status (gs g1) !! tp_status tpb = Some PROFILING ∧
  gs_trace g2 = Some a ∧ pf_status (gs g2) !! tp_status tpa = Some STOPPED.
Proof.
  intros Hab Ha Hb Hxa Hxb Hst Htr. cbv zeta.
  rewrite (start_known a g tpa xa Ha Hxa). set (g0 := mkG _ _ _).
  rewrite (start_known b g0 tpb xb); [|done | by cbn; rewrite lookup_insert_ne].
  set (g1 := mkG _ _ _).
  assert (gs_extra g1 !! a = Some (mkExtra (ge_greenlet xa) None) ∧
    gs_extra g1 !! b = Some (mkExtra (ge_greenlet xb) (Some a))) as [E1 E2].
  { cbn. rewrite lookup_insert_ne by done. rewrite !lookup_insert_eq, Htr. done. }
  rewrite (stop_known a g1 tpa _ Ha E1). set (g2 := mkG _ _ _).
  rewrite (stop_known b g2 tpb _ Hb E2). cbn.
  rewrite (lookup_insert_ne _ (tp_status tpa)) by done. rewrite lookup_insert_eq.
  rewrite (lookup_insert_ne _ (tp_status tpb)) by done. by rewrite lookup_insert_eq.
Qed.

(** A switch that does not concern the greenlet of the installed trace function changes nothing. *)
Lemma switch_other now origin target stack error t x g :
  gs_trace g = Some t -> gs_extra g !! t = Some x -> origin ≠ ge_greenlet x -> target ≠ ge_greenlet x ->
  greenlet_switch now origin target stack error g = (g, Ok tt).
Proof.
  intros Ht Hx Ho Hg. unfold greenlet_switch, greenlet_callback. rewrite Ht, Hx.
  destruct (pf_profilers (gs g) !! t); [|done]. by rewrite !bool_decide_eq_false_2.
Qed.

(** A stopped profiler whose trace function is back in place goes on reporting: a switch of its
    greenlet hands over another snapshot. *)
Theorem stopped_profiler_reports now origin stack t tp x g :
  gs_trace g = Some t -> pf_profilers (gs g) !! t = Some tp -> gs_extra g !! t = Some x ->
  dump_sequence tp ≠ 0 ->
  ∃ g' sn, greenlet_switch now origin (ge_greenlet x) stack None g = (g', Ok tt) ∧
    pf_snapshots (gs g') = pf_snapshots (gs g) ++ [(t, sn)] ∧ sn_segment_id sn = tp_segment_id tp.
Proof.
  intros Ht Hp Hx Hd. unfold greenlet_switch, greenlet_callback. rewrite Ht, Hp, Hx.
  rewrite (bool_decide_eq_true_2 (ge_greenlet x = ge_greenlet x)) by done. rewrite orb_true_r.
  unfold build_snapshot. rewrite Hp. rewrite (proj2 (Z.eqb_neq _ _) Hd). cbn [negb].
  eexists _, _. split; [reflexivity|]. done.
Qed.
End greenlet.
