(* ===== verification/ProcessMetrics.v ===== *)
(** * Process metrics: meter/pvm/

    A data source registers a gauge for each of its methods whose name ends in
    [generator].  The number of threads is counted over the tree of processes; the time of the last
    garbage collection is kept by a callback.  psutil's and gc's answers are inputs. *)

From S2P Require Import Prelude PyData PyText Meter.

(** ** [DataSource.register] *)

(** [s.endswith(p)] and [s[:-n]] *)
Definition endswith (p s : pystr) : bool := bool_decide (drop (length s - length p) s = p).
Definition drop_end (n : nat) (s : pystr) : pystr := take (length s - n) s.

(** The gauge of a generator method. *)
Definition gauge_name (name : pystr) : pystr := py "instance_pvm_" ++ drop_end 10 name.

(** [dir(self)] with the values each generator will yield. *)
Definition register_source (attrs : list (pystr * list Z)) (s : list (pystr * RegisteredMeter))
  : list (pystr * RegisteredMeter) :=
  foldl (fun s a =>
    if endswith (py "generator") a.1
    then register (mkMeter (new_id (gauge_name a.1) GAUGE None) (MGauge (mkGauge a.2))) s
    else s) s attrs.

(** The methods of the four sources, in the order of [dir]; its other names do not end so. *)
Definition MEMUsageDataSource : list pystr :=
  [py "process_mem_utilization_generator"; py "register"; py "total_mem_utilization_generator"].
Definition CPUUsageDataSource : list pystr :=
  [py "process_cpu_utilization_generator"; py "register"; py "total_cpu_utilization_generator"].
Definition GCDataSource : list pystr :=
  [py "gc_g0_generator"; py "gc_g1_generator"; py "gc_g2_generator"; py "gc_time_generator"; py "register"].
Definition ThreadDataSource : list pystr := [py "register"; py "thread_active_count_generator"].

(** The registrations of [__init_threading]. *)
Definition register_pvm (values : pystr -> list Z) (s : list (pystr * RegisteredMeter))
  : list (pystr * RegisteredMeter) :=
  foldl (fun s names => register_source ((fun n => (n, values n)) <$> names) s) s
    [MEMUsageDataSource; CPUUsageDataSource; GCDataSource; ThreadDataSource].

(** ** [thread_active_count_generator] *)

(** A process with its number of threads and its children. *)
Inductive process := Process (num_threads : Z) (children : list process).

(** The loop over the list [ps]. *)
Fixpoint count_threads (fuel : nat) (ps : list process) (count : Z) : option Z :=
  match ps with
  | [] => Some count
  | Process n cs :: ps' =>
      match fuel with
      | O => None
      | S f => count_threads f (ps' ++ cs) (count + n)
      end
  end.

(** The threads of a whole tree, and its number of processes. *)
Fixpoint tree_threads (p : process) : Z :=
  match p with Process n cs => n + foldr (fun c acc => tree_threads c + acc) 0 cs end.
Fixpoint tree_size (p : process) : nat :=
  match p with Process _ cs => S (foldr (fun c acc => tree_size c + acc)%nat 0%nat cs) end.

Definition forest_threads (ps : list process) : Z := foldr (fun c acc => tree_threads c + acc) 0 ps.
Definition forest_size (ps : list process) : nat := foldr (fun c acc => tree_size c + acc)%nat 0%nat ps.

Lemma forest_app ps qs :
  forest_threads (ps ++ qs) = forest_threads ps + forest_threads qs ∧
  forest_size (ps ++ qs) = (forest_size ps + forest_size qs)%nat.
Proof.
  unfold forest_threads, forest_size. induction ps as [|p ps [IH1 IH2]]; cbn [app foldr]; [lia|].
  rewrite IH1, IH2. lia.
Qed.

(** The loop ends after as many rounds as there are processes and counts every thread of the
    tree once. *)
Theorem thread_count_complete p :
  count_threads (tree_size p) [p] 0 = Some (tree_threads p).
Proof.
  assert (∀ fuel ps c, (forest_size ps <= fuel)%nat -> count_threads fuel ps c = Some (c + forest_threads ps)) as H.
  { induction fuel as [|f IH]; intros ps c Hf; destruct ps as [|[n cs] ps].
    - cbn. f_equal. lia.
    - cbn in Hf. lia.
    - cbn. f_equal. lia.
    - cbn [count_threads]. change (forest_size (Process n cs :: ps)) with (S (forest_size cs) + forest_size ps)%nat in Hf.
      destruct (forest_app ps cs) as [E1 E2]. rewrite IH by lia. f_equal. rewrite E1.
      change (forest_threads (Process n cs :: ps)) with (n + forest_threads cs + forest_threads ps). lia. }
  rewrite H; unfold forest_size, forest_threads; cbn; [f_equal; destruct p; cbn|destruct p; cbn]; lia.
Qed.

(** ** [gc_time_generator] *)

(** [self.gc_time] and [self.start_time], in milliseconds. *)
Record GcTimer := mkGc { gc_time : Z; start_time : option Z }.
Inductive gc_event := GcStart (now : Z) | GcStop (now : Z).

Definition gc_callback (g : GcTimer) (e : gc_event) : res GcTimer :=
  match e with
  | GcStart now => Ok (mkGc (gc_time g) (Some now))
  | GcStop now =>
      match start_time g with
      | Some s => Ok (mkGc (now - s) (Some s))
      | None => Raise AttributeError
      end
  end.

Fixpoint gc_run (es : list gc_event) (g : GcTimer) : res GcTimer :=
  match es with [] => Ok g | e :: es' => g' ← gc_callback g e; gc_run es' g' end.

(** After complete collections the gauge reads the duration of the last one. *)
Theorem gc_time_is_last (runs : list (Z * Z)) s e :
  ∃ g, gc_run ((runs ++ [(s, e)]) ≫= fun r => [GcStart r.1; GcStop r.2]) (mkGc 0 None) = Ok g ∧
    gc_time g = e - s.
Proof.
  generalize (mkGc 0 None). induction runs as [|[a b] runs IH]; intros g; cbn; [by eexists | apply IH].
Qed.

(** ** What is registered *)

(** The gauges of the process: nine names, each under its own key. *)
Theorem pvm_registered values :
  Dict.keys (register_pvm values []) =
    [py "instance_pvm_process_mem_utilization"; py "instance_pvm_total_mem_utilization";
     py "instance_pvm_process_cpu_utilization"; py "instance_pvm_total_cpu_utilization";
     py "instance_pvm_gc_g0"; py "instance_pvm_gc_g1"; py "instance_pvm_gc_g2"; py "instance_pvm_gc_time";
     py "instance_pvm_thread_active_count"].
Proof. vm_compute. reflexivity. Qed.
