(* ===== verification/PluginProxy.v ===== *)
(** * How the wrappers get between the application and its libraries

    The C objects of psycopg, psycopg2 and MySQLdb cannot be patched: sw_psycopg.py, sw_psycopg2.py
    and sw_mysqlclient.py put a [wrapt.ObjectProxy] around connections and cursors.  Here: these
    proxy classes with [register_type], the two proxies of sw_confluent_kafka.py, the methods
    sw_happybase.py and sw_asyncpg.py replace, [basic_consume] of sw_rabbitmq.py, and the handlers
    sw_http_server.py wraps.  The drivers' own functions are arguments. *)

From S2P Require Import Prelude PyData PyText Codec Carrier Config Filter Sampling.
From S2P Require Import TraceData Trace TraceInv TraceSpec TraceProps PluginBase PluginHttp PluginDb PluginMq PluginMqProps.

(** ** Proxies of connections and cursors *)

(** The driver's objects, and the two proxy classes around any object. *)
Inductive obj :=
| Conn (n : nat)
| Cur (n : nat)
| ProxyConnection (wrapped : obj)
| ProxyCursor (wrapped : obj).

Definition is_raw (o : obj) : bool := match o with Conn _ | Cur _ => true | _ => false end.

Inductive driver := Psycopg | PsycopgAsync | Psycopg2 | MySQLdb.

(** What the drivers document: a connection makes cursors, and entering an object gives an object
    of its kind (itself). *)
Class DriverLaws (_cursor _enter : obj -> obj) : Prop := {
  driver_cursor n : ∃ m, _cursor (Conn n) = Cur m;
  driver_enter_conn n : ∃ m, _enter (Conn n) = Conn m;
  driver_enter_cur n : ∃ m, _enter (Cur n) = Cur m
}.

Section proxies.
Context {AG PS : Type} `{!AgentOps AG} `{!ProfileOps PS}.
Context (cfg : Config) (uuid1 : nat -> pystr) (import_time : Z) (format_exc : exn -> Z -> pystr).
Abbreviation W := (World AG PS).
Abbreviation MW := (M W).
Context (d : driver) (_cursor _enter : obj -> obj).

(** [connect]: what the driver returned, proxied. *)
Definition proxy_connect (con : obj) : obj := ProxyConnection con.

(** [o.cursor()]: a proxy of a connection proxies the cursor; a proxy hands on what its class does
    not define. *)
Fixpoint cursor (o : obj) : obj :=
  match o with
  | ProxyConnection c => ProxyCursor (cursor c)
  | ProxyCursor c => cursor c
  | _ => _cursor o
  end.

(** [with o as x]: the object entered is proxied again; the asyncio proxies return themselves and
    do not enter the object. *)
Fixpoint enter (o : obj) : obj :=
  match o with
  | ProxyConnection c => match d with PsycopgAsync => o | _ => ProxyConnection (enter c) end
  | ProxyCursor c => match d with PsycopgAsync => o | _ => ProxyCursor (enter c) end
  | _ => _enter o
  end.

(** The wrapper of each driver's [execute]. *)
Definition statement {A} t (call : MW A) (host port db query : pystr) (vars : option (list pystr)) : MW A :=
  match d with
  | Psycopg => sw_psycopg_execute cfg uuid1 import_time format_exc t call host port db query vars
  | PsycopgAsync => sw_psycopg_async_execute cfg uuid1 import_time format_exc t call host port db query vars
  | Psycopg2 => sw_psycopg2_execute cfg uuid1 import_time format_exc t call host port db query vars
  | MySQLdb => sw_mysqlclient_execute cfg uuid1 import_time format_exc t call host port db query vars
  end.

(** [o.execute(query, vars)]; [_execute] is the driver's, on its own objects. *)
Fixpoint execute {A} t (_execute : obj -> MW A) (host port db query : pystr) (vars : option (list pystr))
  (o : obj) : MW A :=
  match o with
  | ProxyCursor c => statement t (execute t _execute host port db query vars c) host port db query vars
  | ProxyConnection c => execute t _execute host port db query vars c
  | _ => _execute o
  end.

(** The objects an application gets by [connect], [cursor] and [with], in any order. *)
Inductive obtained : obj -> Prop :=
| ob_connect n : obtained (proxy_connect (Conn n))
| ob_cursor n o : obtained o -> o = ProxyConnection (Conn n) -> obtained (cursor o)
| ob_enter o : obtained o -> obtained (enter o).

Context `{!DriverLaws _cursor _enter}.

(** Exactly one proxy lies around an object of the driver, however often it was entered. *)
Lemma proxied_once o : obtained o ->
  ∃ n, o = ProxyConnection (Conn n) ∨ o = ProxyCursor (Cur n).
Proof.
  induction 1 as [n|n o Ho IH ->|o Ho [n [->| ->]]].
  - by exists n; left.
  - cbn. destruct (driver_cursor n) as [m ->]. by exists m; right.
  - cbn. destruct (driver_enter_conn n) as [m ->]. destruct d; eauto.
  - cbn. destruct (driver_enter_cur n) as [m ->]. destruct d; eauto.
Qed.

(** A statement on any cursor the application can obtain is traced exactly once: it runs as one
    exit span around the driver's own call on the driver's own cursor.  A statement on a connection
    (psycopg 3 has [Connection.execute]) is not traced at all. *)
Theorem statement_traced_once {A} t (_execute : obj -> MW A) host port db query vars o :
  obtained o ->
  ∃ n, (o = ProxyCursor (Cur n) ∧
        execute t _execute host port db query vars o =
          statement t (_execute (Cur n)) host port db query vars) ∨
       (o = ProxyConnection (Conn n) ∧ execute t _execute host port db query vars o = _execute (Conn n)).
Proof.
  intros [n [->| ->]]%proxied_once; exists n; [by right | by left].
Qed.

Lemma calm_execute {A} t (_execute : obj -> MW A) host port db query vars o :
  (∀ r, calm t (_execute r)) -> calm t (execute t _execute host port db query vars o).
Proof.
  intros H. induction o; cbn [execute]; [apply H | apply H | done |].
  unfold statement, sw_psycopg_async_execute, sw_psycopg2_execute.
  destruct d; [apply calm_psycopg_execute .. | apply calm_mysqlclient_execute]; exact IHo.
Qed.

(** [psycopg2]'s C function [register_type] refuses a proxy; the wrapper takes one proxy off, which
    for every object the application can have obtained is the driver's own. *)
Definition register_type {A} (_register_type : option obj -> A) (conn_or_curs : option obj) : A :=
  _register_type (match conn_or_curs with
                  | Some (ProxyConnection c) => Some c
                  | Some (ProxyCursor c) => Some c
                  | o => o
                  end).

Theorem register_type_unwraps {A} (_register_type : option obj -> A) o :
  obtained o -> ∃ raw, is_raw raw = true ∧ register_type _register_type (Some o) = _register_type (Some raw).
Proof. intros [n [->| ->]]%proxied_once; [by exists (Conn n) | by exists (Cur n)]. Qed.
End proxies.

(** Where [register_type] is put: the four modules with the function each has, if any.  Every block
    imports [psycopg2._ipaddress] first, and a failure of a block is ignored. *)
Inductive register_fn := OriginalFn | WrappedFn | OtherFn.
#[export] Instance register_fn_eq_dec : EqDecision register_fn.
Proof. solve_decision. Defined.

Definition install_register_type (ipaddress_imports : bool) (modules : list (pystr * option register_fn))
  : list (pystr * option register_fn) :=
  (fun m => (m.1, if ipaddress_imports && bool_decide (m.2 = Some OriginalFn) then Some WrappedFn else m.2))
    <$> modules.

(** ** confluent_kafka *)

(** A value of the configuration: a text, or a list of texts. *)
Inductive servers := Text (s : pystr) | Texts (l : list pystr).

Definition truthy (v : servers) : bool :=
  match v with Text s => negb (bool_decide (s = [])) | Texts l => negb (bool_decide (l = [])) end.

(** [kwargs.get(key, (args[0].get(key) if len(args) else False) or default)] *)
Definition config_get (key default : pystr) (kwargs : list (pystr * servers))
  (args0 : option (list (pystr * servers))) : servers :=
  match Dict.get key kwargs with
  | Some v => v
  | None =>
      match args0 ≫= Dict.get key with
      | Some v => if truthy v then v else Text default
      | None => Text default
      end
  end.

(** [_self_peer] and [_self_group_id] *)
Definition proxy_peer kwargs args0 : pystr :=
  match config_get (py "bootstrap.servers") (py "<unavailable>") kwargs args0 with
  | Text s => s
  | Texts l => join [59] l
  end.
Definition proxy_group kwargs args0 : servers := config_get (py "group.id") (py "<no group ID>") kwargs args0.

(** A keyword decides; without one the configuration given first does, unless its value is empty. *)
Theorem confluent_peer_policy kwargs args0 :
  proxy_peer kwargs args0 =
    match Dict.get (py "bootstrap.servers") kwargs, args0 ≫= Dict.get (py "bootstrap.servers") with
    | Some (Text s), _ => s
    | Some (Texts l), _ => join [59] l
    | None, Some (Text (c :: s)) => c :: s
    | None, Some (Texts (x :: l)) => join [59] (x :: l)
    | None, _ => py "<unavailable>"
    end.
Proof.
  unfold proxy_peer, config_get. destruct (Dict.get _ kwargs) as [[]|]; try done.
  by destruct (args0 ≫= _) as [[[|c s]|[|x l]]|].
Qed.

Section queues.
Context {AG PS : Type} `{!AgentOps AG} `{!ProfileOps PS}.
Context (cfg : Config) (uuid1 : nat -> pystr) (import_time : Z) (format_exc : exn -> Z -> pystr).
Context (repr_bytes : list Z -> pystr).
Abbreviation W := (World AG PS).
Abbreviation MW := (M W).

(** A message: whether it reports an error, topic, key and headers. *)
Record KafkaMessage := mkMsg {
  m_error : bool; m_topic : pystr; m_key : pyval; m_headers : list (pystr * list Z) }.

Definition message t (peer group_id : pystr) (msg : option KafkaMessage) : MW (option KafkaMessage) :=
  _ ← (match msg with
       | Some m => sw_confluent_message cfg uuid1 import_time format_exc t peer group_id (m_topic m) (m_error m)
                     (m_key m) (m_headers m)
       | None => mret tt
       end);
  mret msg.
Definition sw_confluent_poll t (_poll : MW (option KafkaMessage)) peer group_id : MW (option KafkaMessage) :=
  msg ← _poll; message t peer group_id msg.
Definition sw_confluent_consume t (_consume : MW (list KafkaMessage)) peer group_id : MW (list KafkaMessage) :=
  msgs ← _consume;
  _ ← for_each msgs (fun msg => _ ← message t peer group_id (Some msg); mret tt);
  mret msgs.

(** [basic_consume] registers the wrapped callback: [msg] is what pika calls it with. *)
Definition sw_pika_basic_consume {A B Msg} t (func : (Msg -> MW A) -> B) (callback : Msg -> MW A)
  (peer exchange routing_key : Msg -> pystr) (get : Msg -> pystr -> option pystr) : B :=
  func (fun msg => sw_pika_callback cfg uuid1 import_time format_exc t (callback msg)
                     (peer msg) (exchange msg) (routing_key msg) (get msg)).

(** ** HappyBase: the methods of [Table] *)

Abbreviation hbase_opt := (sw_hbase_opt cfg uuid1 import_time format_exc repr_bytes).
Definition sw_hbase_row {A} t (_row : MW A) host port table row := hbase_opt t _row host port (py "row") table row.
Definition sw_hbase_rows {A} t (_rows : MW A) host port table (rows : list pyval) :=
  hbase_opt t _rows host port (py "rows") table (first_row rows).
Definition sw_hbase_cells {A} t (_cells : MW A) host port table row :=
  hbase_opt t _cells host port (py "cells") table row.
Definition sw_hbase_scan {A} t (_scan : MW A) host port table (row_start : pyval) :=
  hbase_opt t _scan host port (py "scan") table row_start.
(** What [put] and [delete] of the library return is dropped. *)
Definition sw_hbase_put {A} t (_put : MW A) host port table row : MW unit :=
  hbase_opt t (_ ← _put; mret tt) host port (py "put") table row.
Definition sw_hbase_delete {A} t (_delete : MW A) host port table row : MW unit :=
  hbase_opt t (_ ← _delete; mret tt) host port (py "delete") table row.

(** ** asyncpg *)

(** [Connection._addr]: host and port, or the path of a socket. *)
Inductive pg_addr := AddrPair (host port : pystr) | AddrPath (path : pystr).

(** [f'{self._addr[0]}:{self._addr[1]}'] *)
Definition asyncpg_peer (a : pg_addr) : res pystr :=
  match a with
  | AddrPair h p => Ok (host_port h p)
  | AddrPath (c0 :: c1 :: _) => Ok (host_port [c0] [c1])
  | AddrPath _ => Raise IndexError
  end.

(** [_sw_init]: what the protocol of the connection knows afterwards. *)
Definition sw_asyncpg_init (_init : MW (pg_addr * pystr)) : MW (pystr * pystr) :=
  r ← _init; peer ← lift (asyncpg_peer r.1); mret (peer, r.2).

Abbreviation asyncpg_bind := (sw_asyncpg_bind cfg uuid1 import_time format_exc).
Definition sw_bind {A} t (_bind : MW A) peer database query (params : option (list pystr)) : MW A :=
  asyncpg_bind t _bind peer database query (inl <$> params).
Definition sw_bind_execute {A} t (_bind_execute : MW A) peer database query (params : option (list pystr)) : MW A :=
  asyncpg_bind t _bind_execute peer database query (inl <$> params).
Definition sw_bind_execute_many {A} t (_bind_execute_many : MW A) peer database query
  (params : option (list (list pystr))) : MW A :=
  asyncpg_bind t _bind_execute_many peer database query (inr <$> params).
Definition sw_query {A} t (_query : MW A) peer database query : MW A :=
  asyncpg_bind t _query peer database query (Some (inl [])).

(** ** Calm wrappers *)

Lemma calm_message t peer group_id msg : calm t (message t peer group_id msg).
Proof. unfold message. calm. apply calm_confluent_message. Qed.

(** However the library's call ends, these wrappers too leave every span running or stopped as it
    was and every list of active spans unchanged. *)
Theorem proxied_calls_balanced {A} t (call : MW A) (poll : MW (option KafkaMessage))
  (consume : MW (list KafkaMessage)) (init : MW (pg_addr * pystr)) (raw : obj -> MW A) :
  calm t call -> calm t poll -> calm t consume -> calm t init -> (∀ r, calm t (raw r)) ->
  (∀ d h p db q vs o, calm t (execute cfg uuid1 import_time format_exc d t raw h p db q vs o)) ∧
  (∀ p g, calm t (sw_confluent_poll t poll p g)) ∧ (∀ p g, calm t (sw_confluent_consume t consume p g)) ∧
  (∀ p e r get (k : (unit -> MW A) -> MW A), (∀ cb, (∀ m, calm t (cb m)) -> calm t (k cb)) ->
     calm t (sw_pika_basic_consume t k (fun _ => call) p e r get)) ∧
  (∀ h p tb r, calm t (sw_hbase_row t call h p tb r) ∧ calm t (sw_hbase_cells t call h p tb r) ∧
     calm t (sw_hbase_scan t call h p tb r) ∧ calm t (sw_hbase_put t call h p tb r) ∧
     calm t (sw_hbase_delete t call h p tb r)) ∧
  (∀ h p tb rs, calm t (sw_hbase_rows t call h p tb rs)) ∧
  calm t (sw_asyncpg_init init) ∧
  (∀ p db q vs rows, calm t (sw_bind t call p db q vs) ∧ calm t (sw_bind_execute t call p db q vs) ∧
     calm t (sw_bind_execute_many t call p db q rows) ∧ calm t (sw_query t call p db q)).
Proof.
  intros Hc Hp Hm Hi Hr. split_and!; intros.
  - by apply calm_execute.
  - unfold sw_confluent_poll. calm. apply calm_message.
  - unfold sw_confluent_consume. calm. apply calm_message.
  - unfold sw_pika_basic_consume. apply H. intros m. by apply calm_pika_callback.
  - unfold sw_hbase_row, sw_hbase_cells, sw_hbase_scan, sw_hbase_put, sw_hbase_delete.
    split_and!; apply calm_hbase_opt; [done.. | calm | calm].
  - unfold sw_hbase_rows. by apply calm_hbase_opt.
  - unfold sw_asyncpg_init. calm.
  - unfold sw_bind, sw_bind_execute, sw_bind_execute_many, sw_query.
    split_and!; by apply calm_asyncpg_bind.
Qed.
End queues.

(** ** sw_http_server.py: which functions of a handler are wrapped *)

(** How often a function has been wrapped; [do_*] methods by their HTTP method. *)
Record HttpHandler := mkHttpHandler {
  hh_class : pystr;              (* module and name of its class *)
  hh_run_wsgi : nat;
  hh_do : list (pystr * nat)     (* the bound [do_*] methods *)
}.

(** The class [werkzeug.serving.WSGIRequestHandler]: wrappers around [send_response], and
    [_sw_wrapped]. *)
Record HandlerClass := mkHandlerClass { hc_send_response : nat; hc_sw_wrapped : bool }.

Definition werkzeug_handler : pystr := py "werkzeug.serving.WSGIRequestHandler".
Definition http_methods : list pystr :=
  py <$> ["GET"; "HEAD"; "POST"; "PUT"; "DELETE"; "CONNECT"; "OPTIONS"; "TRACE"; "PATCH"]%string.

Definition wrap_werkzeug_request_handler (h : HttpHandler) (c : HandlerClass) : HttpHandler * HandlerClass :=
  (mkHttpHandler (hh_class h) (S (hh_run_wsgi h)) (hh_do h),
   if hc_sw_wrapped c then c else mkHandlerClass (S (hc_send_response c)) true).

(** [_wrap_do_method]: nothing when the handler has no such method. *)
Definition _wrap_do_method (h : HttpHandler) (method : pystr) : HttpHandler :=
  match Dict.get method (hh_do h) with
  | Some n => mkHttpHandler (hh_class h) (hh_run_wsgi h) (Dict.set method (S n) (hh_do h))
  | None => h
  end.
Definition wrap_default_request_handler (h : HttpHandler) : HttpHandler := foldl _wrap_do_method h http_methods.

(** [_sw_handle], up to the call of the original [handle] *)
Definition sw_http_handle (h : HttpHandler) (c : HandlerClass) : HttpHandler * HandlerClass :=
  if decide (hh_class h = werkzeug_handler) then wrap_werkzeug_request_handler h c
  else (wrap_default_request_handler h, c).

(** The connections of a server, each with a new handler. *)
Fixpoint http_connections (hs : list HttpHandler) (c : HandlerClass) : list HttpHandler * HandlerClass :=
  match hs with
  | [] => ([], c)
  | h :: hs' =>
      let (h', c1) := sw_http_handle h c in
      let (hs'', c2) := http_connections hs' c1 in (h' :: hs'', c2)
  end.

Lemma wrap_methods_get methods : ∀ h m, NoDup methods ->
  Dict.get m (hh_do (foldl _wrap_do_method h methods)) =
    (if decide (m ∈ methods) then S else id) <$> Dict.get m (hh_do h).
Proof.
  induction methods as [|x methods IH]; intros h m Hnd; cbn [foldl].
  - by destruct (Dict.get m (hh_do h)).
  - apply NoDup_cons in Hnd as [Hx Hnd]. rewrite IH by done. unfold _wrap_do_method.
    destruct (decide (m = x)) as [->|Hne].
    + rewrite (decide_False (P := x ∈ methods)), (decide_True (P := x ∈ x :: methods)) by set_solver.
      destruct (Dict.get x (hh_do h)) as [n|] eqn:E; cbn [hh_do]; [by rewrite Dict.get_set_eq | by rewrite E].
    + assert (Dict.get m (hh_do (match Dict.get x (hh_do h) with
        | Some n => mkHttpHandler (hh_class h) (hh_run_wsgi h) (Dict.set x (S n) (hh_do h)) | None => h end))
        = Dict.get m (hh_do h)) as ->.
      { destruct (Dict.get x (hh_do h)); [|done]. cbn [hh_do]. by apply Dict.get_set_ne. }
      destruct (decide (m ∈ methods)), (decide (m ∈ x :: methods)); set_solver.
Qed.

(** A handler of a new connection: nothing of the instance is wrapped. *)
Definition fresh_handler (h : HttpHandler) : Prop :=
  hh_run_wsgi h = 0%nat ∧ ∀ m n, Dict.get m (hh_do h) = Some n -> n = 0%nat.

(** What [_sw_handle] makes of a handler: one wrapper around what serves its requests. *)
Definition served_once (h h' : HttpHandler) : Prop :=
  if decide (hh_class h = werkzeug_handler)
  then hh_run_wsgi h' = 1%nat ∧ hh_do h' = hh_do h
  else hh_run_wsgi h' = 0%nat ∧
       ∀ m, Dict.get m (hh_do h') =
         if decide (m ∈ http_methods) then (fun _ => 1%nat) <$> Dict.get m (hh_do h) else Dict.get m (hh_do h).

Definition once_wrapped (c : HandlerClass) : Prop :=
  hc_send_response c = if hc_sw_wrapped c then 1%nat else 0%nat.

Lemma default_run_wsgi methods : ∀ h, hh_run_wsgi (foldl _wrap_do_method h methods) = hh_run_wsgi h.
Proof.
  induction methods as [|m methods IH]; intros h; [done|]. cbn [foldl]. rewrite IH.
  unfold _wrap_do_method. by destruct (Dict.get m (hh_do h)).
Qed.

Lemma handle_once h c : fresh_handler h -> once_wrapped c ->
  served_once h (sw_http_handle h c).1 ∧ once_wrapped (sw_http_handle h c).2 ∧
  hc_sw_wrapped (sw_http_handle h c).2 = hc_sw_wrapped c || bool_decide (hh_class h = werkzeug_handler).
Proof.
  intros [Hr Hd] Hc. unfold sw_http_handle, served_once. destruct (decide (hh_class h = werkzeug_handler)) as [E|E].
  - cbn. rewrite Hr, bool_decide_eq_true_2, orb_true_r by done. split; [done|].
    unfold once_wrapped in *. destruct (hc_sw_wrapped c) eqn:Ew; [by rewrite Ew|]. cbn. by rewrite Hc.
  - cbn [fst snd]. rewrite bool_decide_eq_false_2, orb_false_r by done. split; [|done].
    unfold wrap_default_request_handler. rewrite default_run_wsgi. split; [done|]. intros m.
    rewrite wrap_methods_get by (apply NoDup_ListNoDup; vm_compute; repeat constructor; cbn; intuition discriminate).
    destruct (Dict.get m (hh_do h)) as [n|] eqn:En; [rewrite (Hd _ _ En)|]; by case_decide.
Qed.

(** However many connections a server accepts, of werkzeug and of others: the functions that serve
    the requests of a handler are wrapped once in it, exactly those it has, and [send_response] of
    werkzeug's class is wrapped once, as soon as it is used. *)
Theorem http_handlers_wrapped_once hs :
  Forall fresh_handler hs ->
  let (hs', c) := http_connections hs (mkHandlerClass 0 false) in
  Forall2 served_once hs hs' ∧
  hc_send_response c = if decide (werkzeug_handler ∈ hh_class <$> hs) then 1%nat else 0%nat.
Proof.
  intros Hf.
  assert (∀ c, once_wrapped c -> let (hs', c') := http_connections hs c in
    Forall2 served_once hs hs' ∧ once_wrapped c' ∧
    (hc_sw_wrapped c' = true <-> hc_sw_wrapped c = true ∨ werkzeug_handler ∈ hh_class <$> hs)) as H.
  { induction Hf as [|h hs Hh Hf IH]; intros c Hc; cbn [http_connections].
    - split; [done|]. split; [done|]. cbn. set_solver.
    - destruct (handle_once h c Hh Hc) as (S1 & S2 & S3). destruct (sw_http_handle h c) as [h' c1].
      cbn in S1, S2, S3. specialize (IH c1 S2). destruct (http_connections hs c1) as [hs' c2].
      destruct IH as (I1 & I2 & I3). split; [by constructor|]. split; [done|]. rewrite I3, S3, fmap_cons.
      rewrite elem_of_cons, orb_true_iff, bool_decide_eq_true. naive_solver. }
  specialize (H (mkHandlerClass 0 false) eq_refl). destruct (http_connections hs _) as [hs' c].
  destruct H as (H1 & H2 & H3). split; [done|]. rewrite H2. cbn in H3.
  destruct (hc_sw_wrapped c), (decide (werkzeug_handler ∈ _)); intuition congruence.
Qed.

(** ** What a handler of the standard library tells of its request *)

(** A value of a WSGI environment; [str()] of it as an f-string prints it. *)
Inductive WsgiValue := WText (s : pystr) | WInt (n : Z).
Definition wsgi_str (v : WsgiValue) : pystr := match v with WText s => s | WInt n => str_of_int n end.

(** [sw_get_environ] of sw_bottle.py, the port of [client_address] being an integer. *)
Definition sw_get_environ (_get_environ : res (list (pystr * WsgiValue))) (client_port : Z)
  : res (list (pystr * WsgiValue)) :=
  match _get_environ with
  | Ok env => Ok (Dict.set (py "REMOTE_PORT") (WInt client_port) env)
  | Raise e => Raise e
  end.

(** The peer [sw_app_call] gives its span: none unless both keys are there. *)
Definition bottle_remote (environ : list (pystr * WsgiValue)) : option pystr :=
  match Dict.get (py "REMOTE_ADDR") environ, Dict.get (py "REMOTE_PORT") environ with
  | Some a, Some p => Some (host_port (wsgi_str a) (wsgi_str p))
  | _, _ => None
  end.

(** Under the server of wsgiref, whose environment has the address but no port, the peer is address
    and port of the client, whatever else the environment holds; an environment the wrapper has not
    seen and that has no port gives no peer. *)
Theorem bottle_peer_known env addr port environ :
  Dict.get (py "REMOTE_ADDR") env = Some (WText addr) ->
  sw_get_environ (Ok env) port = Ok environ ->
  bottle_remote environ = Some (host_port addr (str_of_int port)) ∧
  (∀ k, k ≠ py "REMOTE_PORT" -> Dict.get k environ = Dict.get k env) ∧
  (Dict.get (py "REMOTE_PORT") env = None -> bottle_remote env = None).
Proof.
  intros Ha [= <-]. split; [|split].
  - unfold bottle_remote. rewrite Dict.get_set_ne, Ha, Dict.get_set_eq by discriminate. done.
  - intros k Hk. by rewrite Dict.get_set_ne.
  - unfold bottle_remote. intros ->. by rewrite Ha.
Qed.

(** A handler that answers: the attribute the wrappers add, and the codes of the status lines. *)
Record Answer := mkAnswer { an_status_code : option Z; an_lines : list Z }.

(** [_sw_send_response_only] of the standard library's class and [_sw_send_response] of werkzeug's:
    the code is noted before the original runs, which may raise. *)
Definition _sw_send_response_only (_send_response_only : Z -> M Answer unit) (code : Z) : M Answer unit :=
  _ ← modify (fun h => mkAnswer (Some code) (an_lines h));
  _send_response_only code.

(** [int(getattr(handler, '_status_code', -1))] *)
Definition handler_status (h : Answer) : Z := default (-1) (an_status_code h).

(** The responses of one [do_*] method; it ends with the first one that raises. *)
Fixpoint respond (_send_response_only : Z -> M Answer unit) (codes : list Z) : M Answer unit :=
  match codes with
  | [] => mret tt
  | code :: codes' => _ ← _sw_send_response_only _send_response_only code; respond _send_response_only codes'
  end.

(** The code a span is tagged with is that of the last response the method tried to send: interim
    responses such as 100 are overwritten, a response that could not be sent counts, and a method that
    sent none leaves a new handler without code, so that nothing is tagged. *)
Theorem status_of_last_response send codes h h' r :
  (∀ c s, an_status_code (send c s).1 = an_status_code s) ->
  respond send codes h = (h', r) ->
  ∃ sent rest, codes = sent ++ rest ∧ (r = Ok tt -> rest = []) ∧
    an_status_code h' = (match last sent with Some c => Some c | None => an_status_code h end) ∧
    (sent = [] -> codes = [] ∧ h' = h).
Proof.
  intros Hs. revert h. induction codes as [|c codes IH]; intros h H.
  - injection H as <- <-. exists [], []. done.
  - cbn [respond] in H. unfold _sw_send_response_only in H.
    specialize (Hs c (mkAnswer (Some c) (an_lines h))) as Hc. unfold mbind, M_bind, modify in H.
    destruct (send c _) as [h1 [u|e]] eqn:E; cbn in Hc.
    + destruct (IH h1 H) as (sent & rest & -> & Hr & Hl & He). exists (c :: sent), rest.
      split; [done|]. split; [done|]. split; [|done]. rewrite Hl, last_cons. by destruct (last sent).
    + injection H as <- <-. exists [c], codes. by rewrite Hc.
Qed.
