(* ===== verification/CommandQuery.v ===== *)
(** * Asking the collector for profile tasks

    [do_query] and [finish] of client/grpc.py and client/grpc_aio.py, [query_profile_commands] and
    [notify_profile_task_finish] of the gRPC protocols, and the query and dispatch loops of
    agent/__init__.py, composed with the command services and the profile service.  The stub is an
    argument: what the collector answers to a call. *)

From S2P Require Import Prelude PyData PyText Config Trace Profile Command Report Clients AioServices.

(** ** Operations *)

(** [do_query]: the query carries the creation time of the newest task known. *)
Definition do_query (cfg : Config) (stub : Call -> res (list Command)) : M CommandService unit :=
  s ← get_st;
  commands ← lift (stub (grpc_do_query cfg (last_command_create_time (cs_profile s))));
  modify (receive_command commands).

(** [query_profile_commands]: nothing while the channel is not READY. *)
Definition query_profile_commands (cfg : Config) (g : Grpc) (stub : Call -> res (list Command))
  : M CommandService unit :=
  if grpc_is_ready g then do_query cfg stub else mret tt.

(** [do_query] of the asyncio client *)
Definition do_query_async (cfg : Config) (stub : Call -> res (list Command)) : M CommandServiceAsync unit :=
  s ← get_st;
  commands ← lift (stub (grpc_do_query cfg (last_command_create_time (cs_profile (acs s)))));
  aio_receive_command commands.

Definition query_profile_commands_async (cfg : Config) (ready : bool) (stub : Call -> res (list Command))
  : M CommandServiceAsync unit :=
  if ready then do_query_async cfg stub else mret tt.

(** [notify_profile_task_finish] of the protocol, and of the agent, which logs what goes wrong. *)
Definition notify_profile_task_finish (cfg : Config) (g : Grpc) (stub : Call -> res unit) (task : ProfileTask)
  : res unit :=
  if grpc_is_ready g then stub (grpc_finish cfg (task_id task)) else Ok tt.
Definition notify_profile_finish (cfg : Config) (g : Grpc) (stub : Call -> res unit) (task : ProfileTask)
  : res unit :=
  match notify_profile_task_finish cfg g stub task with
  | Raise e => if is_Exception e then Ok tt else Raise e
  | Ok u => Ok u
  end.

(** One turn of the query loop, and of the dispatch loop until it waits again. *)
Definition query_and_dispatch (cfg : Config) (stub : Call -> res (list Command)) (fuel : nat) (now : Z)
  : M CommandService unit :=
  _ ← do_query cfg stub; dispatch fuel now.

(** ** The collector *)

(** Tasks with their serial numbers; asked with a time, the collector answers the tasks created
    after it. *)
Definition tasks_after (last : Z) (tasks : list (pystr * ProfileTask)) : list (pystr * ProfileTask) :=
  filter (fun t => last < task_create_time t.2) tasks.

Class Collector (tasks : list (pystr * ProfileTask)) (stub : Call -> res (list Command)) : Prop :=
  collector_answers c service instance last :
    call_of c = GetProfileTaskCommands service instance last ->
    stub c = Ok ((fun t => command_of t.1 t.2) <$> tasks_after last tasks).

(** The tasks given to the profile service, one after the other. *)
Definition add_tasks (now : Z) (tasks : list (pystr * ProfileTask)) (p : Service) : Service :=
  foldl (fun p t => add_profile_task now t.2 p) p tasks.

Lemma add_profile_task_last now t p :
  last_command_create_time (add_profile_task now t p) = Z.max (task_create_time t) (last_command_create_time p).
Proof. unfold add_profile_task. by destruct (check_profile_task _ _). Qed.

Lemma add_tasks_last now tasks : ∀ p,
  last_command_create_time p <= last_command_create_time (add_tasks now tasks p) ∧
  Forall (fun t => task_create_time t.2 <= last_command_create_time (add_tasks now tasks p)) tasks.
Proof.
  induction tasks as [|t tasks IH]; intros p; [done|]. cbn [add_tasks foldl].
  destruct (IH (add_profile_task now t.2 p)) as [H1 H2]. rewrite add_profile_task_last in H1.
  unfold add_tasks in *. split; [lia|]. constructor; [lia|done].
Qed.

Lemma tasks_after_none now tasks p :
  tasks_after (last_command_create_time (add_tasks now (tasks_after (last_command_create_time p) tasks) p)) tasks = [].
Proof.
  destruct (add_tasks_last now (tasks_after (last_command_create_time p) tasks) p) as [H1 H2].
  revert H1 H2. generalize (last_command_create_time (add_tasks now (tasks_after (last_command_create_time p) tasks) p)).
  intros l H1 H2. unfold tasks_after in *.
  induction tasks as [|t tasks IH]; [done|]. rewrite !filter_cons in H2 |- *.
  destruct (decide (last_command_create_time p < task_create_time t.2)) as [Hlt|Hge].
  - inversion_clear H2 as [|? ? Ht H2']. rewrite decide_False by lia. by apply IH.
  - rewrite decide_False by lia. by apply IH.
Qed.

Lemma tasks_after_sub last tasks P :
  NoDup tasks.*1 -> Forall P tasks ->
  (length (tasks_after last tasks) <= length tasks)%nat ∧ NoDup (tasks_after last tasks).*1 ∧
  Forall P (tasks_after last tasks).
Proof.
  intros Hn HP. pose proof (sublist_filter (fun t => last < task_create_time t.2) tasks) as Hs.
  split; [by apply sublist_length|]. split.
  - clear HP Hs. induction tasks as [|t tasks IH]; [done|]. rewrite fmap_cons in Hn.
    apply NoDup_cons in Hn as [Hni Hn]. unfold tasks_after in *. rewrite filter_cons.
    case_decide; [|by apply IH]. rewrite fmap_cons. apply NoDup_cons. split; [|by apply IH].
    intros (u & E & Hu)%list_elem_of_fmap. apply Hni. rewrite E. apply list_elem_of_fmap_2.
    by apply list_elem_of_filter in Hu as [_ Hu].
  - apply Forall_forall. intros u [_ Hu]%list_elem_of_filter. by apply (proj1 (Forall_forall _ _) HP).
Qed.

(** Commands that were not executed lately are all queued. *)
Lemma receive_fresh tasks : ∀ s,
  Forall (fun t => Some t.1 ∉ cs_cache s) tasks ->
  receive_command ((fun t => command_of t.1 t.2) <$> tasks) s =
    mkCS (cs_commands s ++ ((fun t => ptc_of t.1 t.2) <$> tasks)) (cs_cache s) (cs_profile s) (cs_executed s).
Proof.
  induction tasks as [|t tasks IH]; intros s Hf; cbn.
  - rewrite app_nil_r. by destruct s.
  - inversion_clear Hf as [|? ? Ht Hf']. unfold receive_one. rewrite deserialize_command_of.
    unfold is_command_executed, cache_contains. cbn [serial_number ptc_of]. rewrite bool_decide_false by done.
    unfold receive_command in IH. rewrite IH by done. cbn [cs_commands cs_cache cs_profile cs_executed].
    by rewrite <- app_assoc.
Qed.

Lemma cache_add_elem (x y : option pystr) q : x ∈ cache_add y q -> x = y ∨ x ∈ q.
Proof.
  unfold cache_add, deque_append. intros (i & Hi)%list_elem_of_lookup. rewrite lookup_drop in Hi.
  apply list_elem_of_lookup_2 in Hi. set_solver.
Qed.

(** A queue of new tasks is worked off in its order. *)
Lemma dispatch_tasks now tasks : ∀ fuel s,
  (length tasks <= fuel)%nat -> NoDup tasks.*1 -> Forall (fun t => Some t.1 ∉ cs_cache s) tasks ->
  cs_commands s = (fun t => ptc_of t.1 t.2) <$> tasks ->
  dispatch fuel now s =
    (mkCS [] (foldl (fun q t => cache_add (Some t.1) q) (cs_cache s) tasks)
       (add_tasks now tasks (cs_profile s)) (cs_executed s ++ (Some <$> tasks.*1)), Ok tt).
Proof.
  induction tasks as [|t tasks IH]; intros fuel s Hl Hn Hf Hq.
  - destruct s as [q c p e]. cbn in Hq |- *. subst q. rewrite app_nil_r. by destruct fuel.
  - destruct fuel as [|fuel]; cbn in Hl; [lia|]. inversion_clear Hf as [|? ? Ht Hf'].
    rewrite fmap_cons in Hn. apply NoDup_cons in Hn as [Hni Hn]. cbn [dispatch].
    erewrite bind_ok by (unfold take_command; rewrite Hq; reflexivity). cbv beta iota.
    erewrite bind_ok by (by apply dispatch_one_task). cbv beta. rewrite IH; [|lia|done| |done].
    + cbn. by rewrite <- app_assoc.
    + cbn [cs_cache]. apply Forall_forall. intros u Hu [[= E]|Hin]%cache_add_elem.
      * apply Hni. rewrite <- E. by apply list_elem_of_fmap_2.
      * by apply (proj1 (Forall_forall _ _) Hf' u Hu).
Qed.

(** ** Delivery *)

(** C36. A poll of the collector: the tasks it knows that are newer than every task known here are given
    to the profile service, each once and in the collector's order, and from then on, however often
    it is asked, the collector answers nothing that is not new: later turns change nothing. *)
Theorem tasks_delivered_once (cfg : Config) tasks stub fuel now (later : list Z) s `{!Collector tasks stub} :
  let new := tasks_after (last_command_create_time (cs_profile s)) tasks in
  cs_commands s = [] -> NoDup tasks.*1 -> Forall (fun t => Some t.1 ∉ cs_cache s) tasks ->
  (length tasks <= fuel)%nat ->
  ∃ cache, for_each (now :: later) (query_and_dispatch cfg stub fuel) s =
    (mkCS [] cache (add_tasks now new (cs_profile s)) (cs_executed s ++ (Some <$> new.*1)), Ok tt).
Proof.
  intros new Hq Hn Hf Hl.
  destruct (tasks_after_sub (last_command_create_time (cs_profile s)) tasks _ Hn Hf) as (Nl & Nn & Nf).
  fold new in Nl, Nn, Nf.
  set (s1 := mkCS [] (foldl (fun q t => cache_add (Some t.1) q) (cs_cache s) new)
               (add_tasks now new (cs_profile s)) (cs_executed s ++ (Some <$> new.*1))).
  assert (query_and_dispatch cfg stub fuel now s = (s1, Ok tt)) as E1.
  { unfold query_and_dispatch, do_query. erewrite (bind_ok _ _ s); [|].
    2:{ erewrite bind_ok by reflexivity. cbv beta.
        erewrite bind_ok by (unfold lift; erewrite collector_answers by reflexivity; reflexivity). reflexivity. }
    rewrite receive_fresh by done. rewrite (dispatch_tasks now new); cbn.
    - done.
    - lia.
    - done.
    - done.
    - by rewrite Hq. }
  exists (cs_cache s1). cbn [for_each]. rewrite (bind_ok _ _ _ _ _ E1).
  assert (∀ now', query_and_dispatch cfg stub fuel now' s1 = (s1, Ok tt)) as E2.
  { intros now'. unfold query_and_dispatch, do_query. erewrite (bind_ok _ _ s1); [|].
    2:{ erewrite bind_ok by reflexivity. cbv beta.
        erewrite bind_ok by (unfold lift; erewrite collector_answers by reflexivity; reflexivity). reflexivity. }
    assert (tasks_after (last_command_create_time (cs_profile s1)) tasks = []) as -> by apply tasks_after_none.
    by destruct fuel. }
  induction later as [|now' later IH]; [done|]. cbn [for_each]. by rewrite (bind_ok _ _ _ _ _ (E2 now')).
Qed.

(** The dispatch thread ends with the first malformed command.  The query loop goes on: the newest
    creation time no longer moves, so every answer repeats, and the queue grows by it each time. *)
Theorem queue_grows_without_dispatch (cfg : Config) tasks stub (polls : list unit) s `{!Collector tasks stub} :
  let new := tasks_after (last_command_create_time (cs_profile s)) tasks in
  NoDup tasks.*1 -> Forall (fun t => Some t.1 ∉ cs_cache s) tasks ->
  ∃ s', for_each polls (fun _ => do_query cfg stub) s = (s', Ok tt) ∧
    length (cs_commands s') = (length (cs_commands s) + length polls * length new)%nat ∧
    cs_profile s' = cs_profile s.
Proof.
  intros new Hn Hf. unfold new. clear new.
  revert s Hf. induction polls as [|[] polls IH]; intros s Hf; [by exists s|].
  destruct (tasks_after_sub (last_command_create_time (cs_profile s)) tasks _ Hn Hf) as (Nl & Nn & Nf).
  assert (do_query cfg stub s = (receive_command ((fun t => command_of t.1 t.2) <$>
    tasks_after (last_command_create_time (cs_profile s)) tasks) s, Ok tt)) as E.
  { unfold do_query. erewrite bind_ok by reflexivity. cbv beta.
    by erewrite bind_ok by (unfold lift; erewrite collector_answers by reflexivity; reflexivity). }
  cbn [for_each]. rewrite (bind_ok _ _ _ _ _ E). rewrite receive_fresh by done.
  edestruct IH as (s' & -> & Hc & Hp); [exact Hf|]. exists s'. split; [done|]. rewrite Hc, Hp.
  cbn [cs_commands cs_profile length]. rewrite length_app, length_fmap. split; [lia|done].
Qed.

(** The asyncio client asks the same and queues the same once its dispatch coroutine runs. *)
Theorem do_query_async_equivalent (cfg : Config) stub c :
  do_query_async cfg stub (mkACS true c) =
    (mkACS true (do_query cfg stub c).1, (do_query cfg stub c).2).
Proof.
  unfold do_query_async, do_query. rewrite !(bind_ok get_st _ _ _ _ eq_refl). cbn [acs].
  unfold mbind, M_bind, lift. destruct (stub _) as [cs|e]; [|done].
  by rewrite aio_receive_once.
Qed.

(** *** Witnesses *)

Definition demo_task (i : Z) : ProfileTask := mkTask (str_of_int i) (py "/op") 5 0 10 5 0 i.
Definition demo_tasks : list (pystr * ProfileTask) :=
  (fun i => (str_of_int i, demo_task i)) <$> [3; 1; 2].
Definition demo_collector (c : Call) : res (list Command) :=
  match call_of c with
  | GetProfileTaskCommands _ _ last => Ok ((fun t => command_of t.1 t.2) <$> tasks_after last demo_tasks)
  | _ => Ok []
  end.
#[export] Instance demo_collector_ok : Collector demo_tasks demo_collector.
Proof. intros c service instance last E. unfold demo_collector. by rewrite E. Qed.

Lemma tasks_delivered_once_witness :
  ∃ cache, for_each [100; 200; 300] (query_and_dispatch default_config demo_collector 3) new_command_service =
    (mkCS [] cache (add_tasks 100 (tasks_after (-1) demo_tasks) new_service)
       ([] ++ (Some <$> (tasks_after (-1) demo_tasks).*1)), Ok tt).
Proof.
  apply (tasks_delivered_once default_config demo_tasks demo_collector 3 100 [200; 300] new_command_service).
  - reflexivity.
  - apply (bool_decide_unpack _). vm_compute. exact I.
  - apply (bool_decide_unpack _). vm_compute. exact I.
  - cbn. lia.
Defined.
