(* ===== verification/MeterSugar.v ===== *)
(** * Timers and decorators of meters

    [Timer], [timer] and [increase] of meter/counter.py and meter/histogram.py.  The application's
    function is a program over its own state and the registry of meters; [clock] is
    [timeit.default_timer()], which moves with the application's state. *)

From S2P Require Import Prelude PyData PyText Meter AioServices.

Section sugar.
Context {X : Type} (clock : X -> Z).
Abbreviation MM := (M (X * meters)).

Definition default_timer : MM Z := gets (fun s => clock s.1).

(** [Counter.meter_service.get_meter(name).increment(v)]: [None] and a meter of another kind do not
    have the method. *)
Definition increment_by_name (name : pystr) (v : Z) : MM unit := fun s =>
  match get_meter name s.2 with
  | Some (mkMeter i (MCounter c)) => ((s.1, Dict.set name (mkMeter i (MCounter (increment v c))) s.2), Ok tt)
  | _ => (s, Raise AttributeError)
  end.
Definition add_value_by_name (name : pystr) (v : Z) : MM unit := fun s =>
  match get_meter name s.2 with
  | Some (mkMeter i (MHistogram h)) => ((s.1, Dict.set name (mkMeter i (MHistogram (add_value v h))) s.2), Ok tt)
  | _ => (s, Raise AttributeError)
  end.

(** [@Counter.timer(name)]: the wrapper returns nothing. *)
Definition counter_timer {A} (name : pystr) (func : MM A) : MM unit :=
  start ← default_timer;
  _ ← func;
  stop ← default_timer;
  increment_by_name name (stop - start).

(** [@Counter.increase(name, num)] *)
Definition counter_increase {A} (name : pystr) (num : Z) (func : MM A) : MM unit :=
  _ ← func; increment_by_name name num.

(** [@Histogram.timer(name)] *)
Definition histogram_timer {A} (name : pystr) (func : MM A) : MM unit :=
  start ← default_timer;
  _ ← func;
  stop ← default_timer;
  add_value_by_name name (stop - start).

(** A call of a decorated function that returns counts once, in the meter that has the name when
    it returns; its result is lost.  A call that raises counts nowhere. *)
Theorem decorated_calls {A} name num (func : MM A) s s' r :
  func s = (s', r) ->
  match r with
  | Raise e =>
      counter_increase name num func s = (s', Raise e) ∧ counter_timer name func s = (s', Raise e) ∧
      histogram_timer name func s = (s', Raise e)
  | Ok _ =>
      let took := clock s'.1 - clock s.1 in
      (∀ i c, get_meter name s'.2 = Some (mkMeter i (MCounter c)) ->
         counter_increase name num func s =
           ((s'.1, Dict.set name (mkMeter i (MCounter (increment num c))) s'.2), Ok tt) ∧
         counter_timer name func s =
           ((s'.1, Dict.set name (mkMeter i (MCounter (increment took c))) s'.2), Ok tt)) ∧
      (∀ i h, get_meter name s'.2 = Some (mkMeter i (MHistogram h)) ->
         histogram_timer name func s =
           ((s'.1, Dict.set name (mkMeter i (MHistogram (add_value took h))) s'.2), Ok tt)) ∧
      (get_meter name s'.2 = None -> counter_increase name num func s = (s', Raise AttributeError))
  end.
Proof.
  intros E. unfold counter_increase, counter_timer, histogram_timer, default_timer, increment_by_name,
    add_value_by_name, mbind, M_bind, gets. rewrite E.
  destruct r as [a|e]; [|done]. cbn. split_and!; [intros i c -> | intros i h -> | intros ->]; done.
Qed.
End sugar.

(** ** [with meter.create_timer():] *)

(** [__exit__] runs however the body ends, and does not swallow its exception. *)
Definition with_timer {X T A} (clock : X -> Z) (record : Z -> T -> T) (body : M (X * T) A) : M (X * T) A :=
  fun s =>
    let start := clock s.1 in
    let (s', r) := body s in
    ((s'.1, record (clock s'.1 - start) s'.2), r).

Definition counter_with_timer {X A} (clock : X -> Z) : M (X * Counter) A -> M (X * Counter) A :=
  with_timer clock increment.
Definition histogram_with_timer {X A} (clock : X -> Z) : M (X * Histogram) A -> M (X * Histogram) A :=
  with_timer clock add_value.

(** Blocks timed one after the other by a counter, all of which end (with or without an
    exception): it counts the time spent in them, and nothing else, whatever the blocks do between. *)
Fixpoint timed_blocks {X} (clock : X -> Z) (blocks : list (X -> X * res unit)) (s : X * Counter)
  : (X * Counter) * Z :=
  match blocks with
  | [] => (s, 0)
  | b :: blocks' =>
      let s1 := (counter_with_timer clock (fun s => let (x, r) := b s.1 in ((x, s.2), r)) s).1 in
      let (s2, spent) := timed_blocks clock blocks' s1 in
      (s2, clock s1.1 - clock s.1 + spent)
  end.

Theorem timed_blocks_counted {X} (clock : X -> Z) blocks : ∀ s,
  let (s', spent) := timed_blocks clock blocks s in
  c_count s'.2 = c_count s.2 + spent ∧ c_previous s'.2 = c_previous s.2.
Proof.
  induction blocks as [|b blocks IH]; intros s; cbn [timed_blocks]; [split; [lia|done]|].
  set (s1 := (counter_with_timer clock _ s).1). specialize (IH s1).
  destruct (timed_blocks clock blocks s1) as [s2 spent]. destruct IH as [-> ->].
  assert (c_count s1.2 = c_count s.2 + (clock s1.1 - clock s.1) ∧ c_previous s1.2 = c_previous s.2) as [-> ->].
  { subst s1. unfold counter_with_timer, with_timer. by destruct (b s.1). }
  split; [lia|done].
Qed.
