(* ===== verification/MeterServices.v ===== *)
(** * The meter services of one process

    [init] and [init_async] of meter/__init__.py, the constructor and [build] of meter/meter.py and the
    loops of the two services of meter/meter_service.py.  The module holds the current service, the class
    [BaseMeter] the one new meters register with; a service once made keeps its meters and, until the
    process forks, the thread or task that sends them. *)

From S2P Require Import Prelude PyData PyText Config Meter.

(** ** State and operations *)

Abbreviation meter_map := (list (pystr * RegisteredMeter)).

(** Services are named by the order in which they were made. *)
Record Services := mkServices {
  sv_current : option nat;      (* [meter._meter_service] *)
  sv_class : option nat;        (* [BaseMeter.meter_service] *)
  sv_maps : list meter_map;
  sv_running : list nat         (* the services whose loop runs in this process *)
}.
Definition no_services : Services := mkServices None None [] [].

Definition start_service (s : Services) : Services :=
  let n := length (sv_maps s) in
  mkServices (Some n) (sv_class s) (sv_maps s ++ [[]]) (sv_running s ++ [n]).

(** [meter.init(force)] *)
Definition meter_init (force : bool) (s : Services) : Services :=
  match sv_current s with
  | Some _ => if force then start_service s else s
  | None => start_service s
  end.

(** [meter.init_async()] *)
Definition meter_init_async (s : Services) : Services := start_service s.

(** [os.fork()], in the child: no thread survives. *)
Definition fork_services (s : Services) : Services :=
  mkServices (sv_current s) (sv_class s) (sv_maps s) [].

(** [BaseMeter.__init__] *)
Definition construct_meter (s : Services) : Services :=
  mkServices (sv_current s) (sv_current s) (sv_maps s) (sv_running s).

(** [Builder.build] *)
Definition build_meter (m : RegisteredMeter) : M Services unit :=
  s ← get_st;
  match sv_class s with
  | None => raise AttributeError
  | Some n =>
      modify (fun s => mkServices (sv_current s) (sv_class s)
        (alter (register (mkMeter (builder_sort (meterId m)) (meter_state m))) n (sv_maps s)) (sv_running s))
  end.

(** A builder and its [build]. *)
Definition new_meter (m : RegisteredMeter) : M Services unit :=
  _ ← modify construct_meter; build_meter m.

(** One round of the loop of a service. *)
Definition send_service (service instance : pystr) (now : Z) (n : nat) : M Services (list MeterData) := fun s =>
  match sv_maps s !! n with
  | None => (s, Ok [])
  | Some m =>
      let (m', out) := send service instance now m in
      (mkServices (sv_current s) (sv_class s) (<[n := m']> (sv_maps s)) (sv_running s), Ok out)
  end.

(** One period: a round of every loop that runs, oldest first. *)
Fixpoint send_rounds (service instance : pystr) (now : Z) (ns : list nat) : M Services (list MeterData) :=
  match ns with
  | [] => mret []
  | n :: ns' =>
      out ← send_service service instance now n;
      outs ← send_rounds service instance now ns';
      mret (out ++ outs)
  end.
Definition period (service instance : pystr) (now : Z) : M Services (list MeterData) :=
  s ← get_st; send_rounds service instance now (sv_running s).

(** The history of a process; a meter built without a service is an error of the caller. *)
Inductive svc_op :=
| OpInit (force : bool)
| OpInitAsync
| OpFork
| OpMeter (m : RegisteredMeter)
| OpPeriod (service instance : pystr) (now : Z).

Definition svc_step (s : Services) (o : svc_op) : Services :=
  match o with
  | OpInit force => meter_init force s
  | OpInitAsync => meter_init_async s
  | OpFork => fork_services s
  | OpMeter m => (new_meter m s).1
  | OpPeriod service instance now => (period service instance now s).1
  end.
Definition svc_run (ops : list svc_op) : Services := foldl svc_step no_services ops.

(** ** Specification

    A process goes through epochs, one per service: an epoch is running or not and has the names of the
    meters built in it, each once, in the order they were first built. *)

Abbreviation epochs := (list (bool * list pystr)).

Definition add_name (n : pystr) (ns : list pystr) : list pystr := if decide (n ∈ ns) then ns else ns ++ [n].
Definition new_epoch (es : epochs) : epochs := es ++ [(true, [])].
Definition meter_name (m : RegisteredMeter) : pystr := id_name (meterId m).

Definition epoch_step (es : epochs) (o : svc_op) : epochs :=
  match o with
  | OpInit force => match es with [] => new_epoch es | _ => if force then new_epoch es else es end
  | OpInitAsync => new_epoch es
  | OpFork => (fun e => (false, e.2)) <$> es
  | OpMeter m => alter (fun e => (e.1, add_name (meter_name m) e.2)) (pred (length es)) es
  | OpPeriod _ _ _ => es
  end.
Definition epoch_run (ops : list svc_op) : epochs := foldl epoch_step [] ops.

(** The names a period reports. *)
Definition epoch_names (es : epochs) : list pystr := concat (filter (fun e : bool * list pystr => e.1 = true) es).*2.

(** ** Refinement *)

(** Every meter is stored under its own name. *)
Definition named (m : meter_map) : Prop := Forall (fun kv => meter_name kv.2 = kv.1) m.

Lemma named_set k m d : named d -> meter_name m = k -> named (Dict.set k m d).
Proof.
  intros Hd Hm. induction Hd as [|[k' m'] d Hk Hd IH]; cbn; [by repeat constructor|].
  case_decide; constructor; done.
Qed.

Lemma transform_name m : meter_name (meter_transform m).1 = meter_name m ∧ (meter_transform m).2.1.1 = meter_name m.
Proof.
  unfold meter_transform, transform_tags, meter_name. destruct (labels (meterId m)), (meter_state m) as [c|g|h];
    try destruct (counter_transform _); try destruct (gauge_get _); done.
Qed.

Lemma send_names service instance now m :
  named m ->
  named (send service instance now m).1 ∧ Dict.keys (send service instance now m).1 = Dict.keys m ∧
  md_name <$> (send service instance now m).2 = Dict.keys m.
Proof.
  induction 1 as [|[k x] m Hk Hm (I1 & I2 & I3)]; [by split_and!; [constructor|..]|]. cbn [send]. destruct (transform_name x) as [T1 T2].
  destruct (meter_transform x) as [x' [[n ls] v]]. destruct (send service instance now m) as [m' out].
  cbn in T1, T2, Hk, I1, I2, I3. unfold Dict.keys in *. split_and!; cbn [fst snd].
  - constructor; cbn; [by rewrite T1 | done].
  - cbn. by rewrite I2.
  - cbn. by rewrite I3, T2, Hk.
Qed.

(** The places of the running epochs. *)
Fixpoint running_from (i : nat) (es : epochs) : list nat :=
  match es with
  | [] => []
  | (true, _) :: es' => i :: running_from (S i) es'
  | (false, _) :: es' => running_from (S i) es'
  end.

Lemma running_app es1 es2 : ∀ i, running_from i (es1 ++ es2) = running_from i es1 ++ running_from (i + length es1) es2.
Proof.
  induction es1 as [|[[] ns] es1 IH]; intros i; cbn; [by rewrite Nat.add_0_r | |];
    rewrite IH; cbn; by rewrite Nat.add_succ_r.
Qed.

Lemma running_stopped es : ∀ i, running_from i ((fun e : bool * list pystr => (false, e.2)) <$> es) = [].
Proof. induction es as [|e es IH]; intros i; [done|]. apply IH. Qed.

Lemma running_alter f n es : ∀ i,
  running_from i (alter (fun e : bool * list pystr => (e.1, f e.2)) n es) = running_from i es.
Proof.
  revert n. induction es as [|[[] ns] es IH]; intros [|n] i; cbn; try done; by rewrite IH.
Qed.

(** A state of the services and its epochs. *)
Record follows (es : epochs) (s : Services) : Prop := {
  fo_current : sv_current s = match es with [] => None | _ => Some (pred (length es)) end;
  fo_names : Dict.keys <$> sv_maps s = es.*2;
  fo_named : Forall named (sv_maps s);
  fo_running : sv_running s = running_from 0 es
}.

Lemma follows_length es s : follows es s -> length (sv_maps s) = length es.
Proof. intros F. pose proof (f_equal length (fo_names _ _ F)) as H. by rewrite !length_fmap in H. Qed.

Lemma follows_start es s : follows es s -> follows (new_epoch es) (start_service s).
Proof.
  intros F. pose proof (follows_length _ _ F) as L. destruct F as [Fc Fn Fd Fr]. unfold start_service, new_epoch.
  split; cbn [sv_current sv_maps sv_running].
  - rewrite L, length_app, Nat.add_comm. by destruct es.
  - rewrite !fmap_app, Fn. done.
  - apply Forall_app. split; [done|]. by repeat constructor.
  - rewrite running_app, Fr, L. done.
Qed.

Lemma keys_register m d : Dict.keys (register m d) = add_name (meter_name m) (Dict.keys d).
Proof. unfold register, add_name. apply Dict.keys_set. Qed.

Lemma follows_meter es s m : follows es s -> follows (epoch_step es (OpMeter m)) (new_meter m s).1.
Proof.
  intros [Fc Fn Fd Fr]. cbn [epoch_step]. unfold new_meter, build_meter. erewrite bind_ok by reflexivity.
  erewrite bind_ok by reflexivity. cbv beta. cbn [construct_meter sv_class]. rewrite Fc.
  destruct es as [|e es]; [by split|].
  set (n := pred (length (e :: es))). set (es1 := e :: es) in *.
  set (m1 := mkMeter (builder_sort (meterId m)) (meter_state m)).
  assert (meter_name m1 = meter_name m) as Hm by done.
  split; cbn [modify construct_meter sv_current sv_class sv_maps sv_running fst].
  - rewrite Fc, length_alter. subst es1 n. cbn [length pred]. by destruct (alter _ _ _) eqn:E;
      [apply (f_equal length) in E; rewrite length_alter in E|].
  - rewrite (list_fmap_alter _ _ (add_name (meter_name m))) by (apply Forall_true; intros d; by rewrite keys_register, Hm).
    rewrite Fn. symmetry. apply list_fmap_alter. by apply Forall_true.
  - apply Forall_alter; [done|]. intros d Hd Hn. by apply named_set.
  - rewrite running_alter. done.
Qed.

(** One round leaves names and order of every service as they were. *)
Lemma send_service_spec es s service instance now n ns :
  follows es s -> es.*2 !! n = Some ns ->
  ∃ s' out, send_service service instance now n s = (s', Ok out) ∧ follows es s' ∧
    sv_running s' = sv_running s ∧ md_name <$> out = ns.
Proof.
  intros [Fc Fn Fd Fr] Hn. unfold send_service. rewrite <- Fn, list_lookup_fmap in Hn.
  destruct (sv_maps s !! n) as [d|] eqn:E; [|done]. injection Hn as <-.
  destruct (send_names service instance now d) as (S1 & S2 & S3); [by apply (Forall_lookup_1 _ _ _ _ Fd E)|].
  destruct (send service instance now d) as [d' out]. cbn [fst snd] in S1, S2, S3. eexists _, out. split; [done|].
  split; [|done]. split; cbn [sv_current sv_maps sv_running]; [done| | |done].
  - rewrite list_fmap_insert, S2, <- Fn. apply list_insert_id. by rewrite list_lookup_fmap, E.
  - by apply Forall_insert.
Qed.

Lemma running_valid es : ∀ i n, n ∈ running_from i es -> ∃ ns, (i <= n)%nat ∧ es.*2 !! (n - i)%nat = Some ns.
Proof.
  induction es as [|[[] ns] es IH]; intros i n Hn; cbn in Hn; [by apply not_elem_of_nil in Hn | |].
  - apply elem_of_cons in Hn as [->|Hn]; [exists ns; by rewrite Nat.sub_diag|].
    destruct (IH _ _ Hn) as (ns' & Hle & H). exists ns'. split; [lia|].
    replace (n - i)%nat with (S (n - S i))%nat by lia. done.
  - destruct (IH _ _ Hn) as (ns' & Hle & H). exists ns'. split; [lia|].
    replace (n - i)%nat with (S (n - S i))%nat by lia. done.
Qed.

Lemma send_rounds_spec es service instance now ns : ∀ s,
  follows es s -> Forall (fun n => is_Some (es.*2 !! n)) ns ->
  ∃ s' out, send_rounds service instance now ns s = (s', Ok out) ∧ follows es s' ∧
    md_name <$> out = concat (omap (fun n => es.*2 !! n) ns).
Proof.
  induction ns as [|n ns IH]; intros s F Hv; [by exists s, []|].
  apply Forall_cons in Hv as [[names Hn] Hv].
  destruct (send_service_spec es s service instance now n names F Hn) as (s1 & out & E1 & F1 & _ & O1).
  destruct (IH s1 F1 Hv) as (s2 & outs & E2 & F2 & O2). exists s2, (out ++ outs). split; [|split; [done|]].
  - cbn [send_rounds]. rewrite (bind_ok _ _ _ _ _ E1), (bind_ok _ _ _ _ _ E2). done.
  - rewrite fmap_app, O1, O2. cbn. by rewrite Hn.
Qed.

Lemma running_names es : ∀ pre,
  concat (omap (fun n => (pre ++ es).*2 !! n) (running_from (length pre) es)) = epoch_names es.
Proof.
  unfold epoch_names. induction es as [|[b ns] es IH]; intros pre; [done|]. specialize (IH (pre ++ [(b, ns)])).
  rewrite <- app_assoc in IH. cbn [app] in IH. rewrite length_app, Nat.add_comm in IH. cbn [length Nat.add] in IH.
  rewrite filter_cons. destruct b; cbn [running_from].
  - rewrite decide_True by done. cbn [fmap list_fmap concat snd]. cbn [omap list_omap].
    rewrite fmap_app, lookup_app_r, length_fmap, Nat.sub_diag by (rewrite length_fmap; lia). cbn [fmap list_fmap lookup list_lookup snd concat].
    rewrite <- IH. by rewrite fmap_app.
  - rewrite decide_False by done. done.
Qed.

Lemma period_spec es s service instance now :
  follows es s ->
  ∃ s' out, period service instance now s = (s', Ok out) ∧ follows es s' ∧ md_name <$> out = epoch_names es.
Proof.
  intros F. unfold period. erewrite bind_ok by reflexivity. cbv beta.
  destruct (send_rounds_spec es service instance now (sv_running s) s F) as (s' & out & E & F' & O).
  - apply Forall_forall. intros n Hn. rewrite (fo_running _ _ F) in Hn.
    destruct (running_valid _ _ _ Hn) as (ns & _ & H). rewrite Nat.sub_0_r in H. by eexists.
  - exists s', out. split; [done|]. split; [done|]. rewrite O, (fo_running _ _ F). apply (running_names es []).
Qed.

Lemma follows_step es s o : follows es s -> follows (epoch_step es o) (svc_step s o).
Proof.
  intros F. destruct o as [force| | |m|service instance now]; cbn [epoch_step svc_step].
  - unfold meter_init. rewrite (fo_current _ _ F). destruct es; [by apply follows_start|].
    destruct force; [by apply follows_start | done].
  - by apply follows_start.
  - destruct F as [Fc Fn Fd Fr]. split; cbn [fork_services sv_current sv_maps sv_running].
    + rewrite Fc. destruct es; [done|]. cbn. by rewrite length_fmap.
    + rewrite Fn, <- list_fmap_compose. done.
    + done.
    + by rewrite running_stopped.
  - by apply follows_meter.
  - destruct (period_spec es s service instance now F) as (s' & out & -> & F' & _). done.
Qed.

Lemma run_follows ops : follows (epoch_run ops) (svc_run ops).
Proof.
  unfold epoch_run, svc_run. assert (follows [] no_services) as F by (by split).
  revert F. generalize ([] : epochs) no_services. induction ops as [|o ops IH]; intros es s F; [done|].
  cbn [foldl]. apply IH. by apply follows_step.
Qed.

Lemma period_reports_spec ops service instance now :
  ∃ s' out, period service instance now (svc_run ops) = (s', Ok out) ∧ md_name <$> out = epoch_names (epoch_run ops).
Proof. destruct (period_spec _ _ service instance now (run_follows ops)) as (s' & out & E & _ & O). eauto. Qed.

(** Whatever a process has done, services started, started again or inherited, meters built,
    periods gone by: a period reports exactly the meters built under the services that run in
    this process, service by service and each name once per service in the order of its first
    registration, and building a meter fails exactly if no service was ever started. *)
Theorem period_reports_running_services ops service instance now :
  (∃ s' out, period service instance now (svc_run ops) = (s', Ok out) ∧
     md_name <$> out = epoch_names (epoch_run ops)) ∧
  (∀ m, (new_meter m (svc_run ops)).2 = match epoch_run ops with [] => Raise AttributeError | _ => Ok tt end).
Proof.
  pose proof (run_follows ops) as F. split; [apply period_reports_spec|].
  intros m. unfold new_meter, build_meter. erewrite bind_ok by reflexivity. erewrite bind_ok by reflexivity.
  cbv beta. cbn [construct_meter sv_class]. rewrite (fo_current _ _ F). by destruct (epoch_run ops).
Qed.

Lemma meters_last ms : ∀ es b ns,
  foldl epoch_step (es ++ [(b, ns)]) (OpMeter <$> ms) = es ++ [(b, foldl (flip add_name) ns (meter_name <$> ms))].
Proof.
  induction ms as [|m ms IH]; intros es b ns; [done|]. cbn [fmap list_fmap foldl epoch_step].
  rewrite length_app. cbn [length]. rewrite Nat.add_comm. cbn [Nat.add pred].
  rewrite alter_app_r_alt, Nat.sub_diag by lia. apply IH.
Qed.

Lemma epochs_snoc ops o : epoch_run (ops ++ [o]) = epoch_step (epoch_run ops) o.
Proof. unfold epoch_run. by rewrite foldl_app. Qed.

(** A child that a fork has left with a new service reports the meters built in the child only: a
    meter its parent built, which the program still holds and may go on using, is not reported. *)
Theorem forked_child_forgets_meters ops ms service instance now :
  ∃ s' out, period service instance now (svc_run (ops ++ [OpFork; OpInit true] ++ (OpMeter <$> ms))) = (s', Ok out) ∧
    md_name <$> out = foldl (flip add_name) [] (meter_name <$> ms).
Proof.
  edestruct period_reports_spec as (s' & out & E & O). exists s', out. split; [exact E|]. rewrite O. clear.
  unfold epoch_run. rewrite !foldl_app. cbn [foldl epoch_step]. fold (epoch_run ops).
  assert (∀ es : epochs, (match es with [] => new_epoch es | _ => new_epoch es end) = new_epoch es) as -> by (by intros []).
  unfold new_epoch. rewrite meters_last. unfold epoch_names. rewrite filter_app, fmap_app, concat_app.
  assert (filter (fun e : bool * list pystr => e.1 = true) ((fun e => (false, e.2)) <$> epoch_run ops) = []) as ->.
  { generalize (epoch_run ops). intros es. induction es as [|e es IH]; [done|]. cbn [fmap list_fmap].
    rewrite filter_cons, decide_False by done. exact IH. }
  rewrite filter_cons, decide_True by done. cbn [fmap list_fmap concat snd app]. apply app_nil_r.
Qed.

(** Stopping and starting the agent in one process starts a second service beside the first, whose
    loop nobody ends: meters built again, as the process gauges are, are reported twice in every
    period from then on. *)
Theorem restart_reports_meters_twice ms service instance now :
  let names := foldl (flip add_name) [] (meter_name <$> ms) in
  ∃ s' out, period service instance now
      (svc_run ([OpInit true] ++ (OpMeter <$> ms) ++ [OpInit true] ++ (OpMeter <$> ms))) = (s', Ok out) ∧
    md_name <$> out = names ++ names.
Proof.
  intros names. edestruct period_reports_spec as (s' & out & E & O). exists s', out. split; [exact E|]. rewrite O. clear.
  unfold epoch_run. rewrite !foldl_app. change (foldl epoch_step [] [OpInit true]) with ([] ++ [(true, [])] : epochs).
  rewrite meters_last. fold names. change (foldl epoch_step ([] ++ [(true, names)]) [OpInit true])
    with ([(true, names)] ++ [(true, [])]). rewrite meters_last. fold names. unfold epoch_names.
  cbn [app]. rewrite !filter_cons, !decide_True by done. cbn [fmap list_fmap concat snd app].
  rewrite app_nil_r. done.
Qed.
