(* ===== verification/PluginMqHop.v ===== *)
(** * A message from producer to consumer (plugins/sw_rabbitmq.py, sw_amqp.py, sw_aiormq.py)

    The three client libraries of RabbitMQ have wrappers of their own, and a message published
    with one is consumed with any other.  What a producer writes into the headers of a message
    makes the consumer's callback run under an entry span that refers to the producer's exit
    span. *)

From S2P Require Import Prelude PyData PyText Codec Carrier Config Filter Sampling.
From S2P Require Import TraceData Trace TraceInv TraceSpec TraceProps TracePropagation PluginBase PluginHttp.
From S2P Require Import PluginDb PluginHop PluginMq PluginMqProps Agent Profile Scenarios.

(** ** Decorations of a span *)

Section dressing.
Context {AG PS : Type} `{!AgentOps AG} `{!ProfileOps PS}.
Context (cfg : Config) (uuid1 : nat -> pystr).
Abbreviation W := (World AG PS).
Implicit Types (w : W) (t l : nat).

(** Layer, component and tags are set; all that identifies the span, and everything else,
    stays. *)
Definition dressed l w w' : Prop :=
  w' = upd_spans (fun _ => w_spans w') w ∧
  ∀ s, w_spans w !! l = Some s -> ∃ s', w_spans w' !! l = Some s' ∧
    (cls s', context s', sid s', op s', peer s', refs s') = (cls s, context s, sid s, op s, peer s, refs s).

Lemma dressed_refl l w : dressed l w w.
Proof. split; [by destruct w | intros s Hs; by exists s]. Qed.

Lemma dressed_trans l w1 w2 w3 : dressed l w1 w2 -> dressed l w2 w3 -> dressed l w1 w3.
Proof.
  intros [E1 H1] [E2 H2]. split; [rewrite E2 at 1; by rewrite E1|].
  intros s (s' & Hs' & E)%H1. destruct (H2 s' Hs') as (s'' & Hs'' & E'). exists s''. split; [done|congruence].
Qed.

Lemma mod_span_dresses w l f :
  (∀ s, (cls (f s), context (f s), sid (f s), op (f s), peer (f s), refs (f s)) =
        (cls s, context s, sid s, op s, peer s, refs s)) ->
  ∃ w', mod_span l f w = (w', Ok tt) ∧ dressed l w w'.
Proof.
  intros Hf. eexists. split; [reflexivity|]. split; [done|]. intros s Hs. cbn.
  rewrite lookup_alter_eq, Hs. eexists. split; [done|]. by rewrite Hf.
Qed.

Lemma tag_dresses w l tg :
  tag_overridable tg = true -> ∃ w', tag l tg w = (w', Ok tt) ∧ dressed l w w'.
Proof.
  intros H. unfold tag, get_span, add_tag. unfold_m. rewrite H. eexists. split; [reflexivity|].
  split; [done|]. intros s Hs. cbn. rewrite lookup_alter_eq, Hs. cbn. eexists. split; [done|].
  by rewrite (lookup_total_correct _ _ _ Hs).
Qed.

Lemma tag_mq_dresses w l b tp q : ∃ w', tag_mq l b tp q w = (w', Ok tt) ∧ dressed l w w'.
Proof.
  unfold tag_mq. destruct (tag_dresses w l (TagMqBroker b) eq_refl) as (w1 & E1 & D1).
  destruct (tag_dresses w1 l (TagMqTopic tp) eq_refl) as (w2 & E2 & D2).
  pose proof (dressed_trans _ _ _ _ D1 D2) as D. rewrite (bind_ok _ _ _ _ _ E1), (bind_ok _ _ _ _ _ E2).
  destruct q as [q|]; [|by exists w2]. destruct (tag_dresses w2 l (TagMqQueue q) eq_refl) as (w3 & E3 & D3).
  exists w3. split; [done|]. by eapply dressed_trans.
Qed.

(** What the dressing does not touch. *)
Lemma dressed_frame l w w' :
  dressed l w w' -> w_dicts w' = w_dicts w ∧ w_next w' = w_next w ∧ w_ctxs w' = w_ctxs w ∧ ∀ t, stack w' t = stack w t.
Proof. intros [-> _]. done. Qed.

(** A dressed exit span injects the carrier it would have injected before. *)
Lemma dressed_inject l w w' s x tid rest ca :
  dressed l w w' -> w_spans w !! l = Some s -> cls s = ClsExitSpan -> w_ctxs w !! context s = Some x ->
  related_traces (segment x) = tid :: rest -> (inject cfg l w).2 = Ok ca -> inject cfg l w' = (w', Ok ca).
Proof.
  intros D Hs Hcls Hx Hrel Hinj. destruct (dressed_frame _ _ _ D) as (_ & _ & Hcx & _).
  destruct D as [_ D]. destruct (D s Hs) as (s' & Hs' & [= Ecls Ectx Esid Eop Epeer Erefs]).
  rewrite (inject_exit cfg w l s x tid rest Hs Hcls Hx Hrel) in Hinj. apply Ok_inj in Hinj.
  rewrite (inject_exit cfg w' l s' x tid rest) by (rewrite ?Ectx, ?Hcx; congruence).
  by rewrite <- Hinj, Esid, Eop, Epeer.
Qed.
End dressing.

(** ** The libraries *)

Inductive Library :=
| Pika (host port : pystr)
| Amqp (peer : pystr)
| Aiormq (host : pystr) (port : option Z).

Section rabbit.
Context {AG PS : Type} `{!AgentOps AG} `{!ProfileOps PS}.
Context (cfg : Config) (uuid1 : nat -> pystr) (import_time : Z) (format_exc : exn -> Z -> pystr).
Abbreviation W := (World AG PS).
Abbreviation MW := (M W).
Implicit Types (w : W) (t l d : nat).

Definition broker_peer (b : Library) : pystr :=
  match b with
  | Pika host port => host_port host port
  | Amqp peer => peer
  | Aiormq host port => aiormq_peer host port
  end.

(** [basic_publish] of the library. *)
Definition rabbit_publish {A} (b : Library) t (_publish : nat -> MW A) (exchange routing_key : pystr) (h : option nat) : MW A :=
  match b with
  | Pika host port => sw_pika_publish cfg uuid1 import_time format_exc t _publish host port exchange routing_key h
  | Amqp peer => sw_amqp_publish cfg uuid1 import_time format_exc t _publish peer exchange routing_key h
  | Aiormq host port => sw_aiormq_publish cfg uuid1 import_time format_exc t _publish host port exchange routing_key h
  end.

(** The wrapped callback of a consumer of the library; a header is text. *)
Definition rabbit_consume {A} (b : Library) t (callback : MW A) (exchange routing_key : pystr)
  (get : pystr -> option pystr) : MW A :=
  match b with
  | Pika host port => sw_pika_callback cfg uuid1 import_time format_exc t callback (host_port host port) exchange routing_key get
  | Amqp peer => sw_amqp_callback cfg uuid1 import_time format_exc t callback peer exchange routing_key get
  | Aiormq host port =>
      sw_aiormq_callback cfg uuid1 import_time format_exc t callback host port exchange routing_key (fun k => PStr <$> get k)
  end.

(** *** Publishing *)

(** The exit span of a publication, and what happens under it. *)
Definition publish_open (b : Library) t (exchange routing_key : pystr) : MW nat :=
  open_exit cfg uuid1 t (rabbit_op exchange routing_key (py "/Producer")) (broker_peer b) Component.RabbitmqProducer.

Definition publish_body {A} (b : Library) (_publish : nat -> MW A) (exchange routing_key : pystr) (h : option nat) l : MW A :=
  match b with
  | Pika _ _ =>
      ca ← inject cfg l;
      _ ← mod_span l (set_layer Layer.MQ);
      d ← inject_headers h ca;
      res ← _publish d;
      _ ← tag_mq l (broker_peer b) exchange (Some routing_key);
      mret res
  | _ =>
      _ ← tag_mq l (broker_peer b) exchange (Some routing_key);
      _ ← mod_span l (set_layer Layer.MQ);
      ca ← inject cfg l;
      d ← inject_headers h ca;
      _publish d
  end.

Lemma rabbit_publish_unfold {A} b t (_publish : nat -> MW A) exchange routing_key h :
  rabbit_publish b t _publish exchange routing_key h =
    with_new cfg import_time format_exc t (publish_open b t exchange routing_key)
      (publish_body b _publish exchange routing_key h).
Proof. by destruct b. Qed.

Lemma calm_publish_body {A} b t (_publish : nat -> MW A) exchange routing_key h l :
  (∀ d, calm t (_publish d)) -> calm t (publish_body b _publish exchange routing_key h l).
Proof.
  intros H. assert (∀ p q, calm t (tag_mq (AG := AG) (PS := PS) l p exchange q)) by (intros; apply calm_tag_mq).
  destruct b; unfold publish_body; calm.
Qed.

(** The message is published once, with the headers filled. *)
Lemma publish_body_calls {A} b w l (_publish : nat -> MW A) exchange routing_key h s x tid rest ca cv v :
  w_spans w !! l = Some s -> cls s = ClsExitSpan -> w_ctxs w !! context s = Some x ->
  related_traces (segment x) = tid :: rest -> (inject cfg l w).2 = Ok ca -> carrier_val ca = Ok v ->
  correlation_val (w_dicts w !!! ctx_correlation x) = Ok cv -> w_next w ≠ ctx_correlation x ->
  match h with Some d => is_Some (w_dicts w !! d) | None => True end ->
  ∃ d w2, (publish_body b _publish exchange routing_key h l w).2 = (_publish d w2).2 ∧
    w_dicts w2 !!! d = Dict.set (py "sw8") v (Dict.set (py "sw8-correlation") cv (given_headers w h)).
Proof.
  intros Hs Hcls Hx Hrel Hinj Hv Hc Hne Hh.
  assert (correlation ca = ctx_correlation x) as Hcor.
  { rewrite (inject_exit cfg w l s x tid rest Hs Hcls Hx Hrel) in Hinj. apply Ok_inj in Hinj. by rewrite <- Hinj. }
  assert (∀ w', dressed l w w' -> inject cfg l w' = (w', Ok ca) ∧ ∃ d w2, inject_headers h ca w' = (w2, Ok d) ∧
    w_dicts w2 !!! d = Dict.set (py "sw8") v (Dict.set (py "sw8-correlation") cv (given_headers w h))) as Hstep.
  { intros w' D. split; [by eapply dressed_inject|]. destruct (dressed_frame _ _ _ D) as (Hd & Hn & _).
    assert (given_headers w h = given_headers w' h) as -> by (destruct h; cbn; by rewrite ?Hd).
    apply inject_headers_runs; rewrite ?Hd, ?Hn, ?Hcor; done. }
  assert (∀ w', ∃ w2, mod_span l (set_layer Layer.MQ) w' = (w2, Ok tt) ∧ dressed l w' w2) as Hlayer
    by (intros w'; by apply mod_span_dresses).
  assert (∀ p, ∃ d w2, ((_ ← tag_mq l p exchange (Some routing_key); _ ← mod_span l (set_layer Layer.MQ);
      ca ← inject cfg l; d ← inject_headers h ca; _publish d) w).2 = (_publish d w2).2 ∧
    w_dicts w2 !!! d = Dict.set (py "sw8") v (Dict.set (py "sw8-correlation") cv (given_headers w h))) as Hother.
  { intros p. destruct (tag_mq_dresses w l p exchange (Some routing_key)) as (w1 & E1 & D1).
    destruct (Hlayer w1) as (w2 & E2 & D2).
    destruct (Hstep w2 (dressed_trans _ _ _ _ D1 D2)) as (Ei & d & w3 & Eh & Hd). exists d, w3. split; [|done].
    by rewrite (bind_ok _ _ _ _ _ E1), (bind_ok _ _ _ _ _ E2), (bind_ok _ _ _ _ _ Ei), (bind_ok _ _ _ _ _ Eh). }
  destruct b as [host port|peer|host port]; [|exact (Hother peer) | exact (Hother (aiormq_peer host port))].
  unfold publish_body. destruct (Hstep w (dressed_refl l w)) as (Ei & _). destruct (Hlayer w) as (w1 & E1 & D1).
  destruct (Hstep w1 D1) as (_ & d & w2 & Eh & Hd). exists d, w2. split; [|done].
  rewrite (bind_ok _ _ _ _ _ Ei), (bind_ok _ _ _ _ _ E1), (bind_ok _ _ _ _ _ Eh).
  destruct (_publish d w2) as [w3 [r|e]] eqn:Ep; [|by rewrite (bind_raise _ _ _ _ _ Ep)].
  rewrite (bind_ok _ _ _ _ _ Ep). destruct (tag_mq_dresses w3 l (broker_peer (Pika host port)) exchange (Some routing_key))
    as (w4 & E4 & _). by rewrite (bind_ok _ _ _ _ _ E4).
Qed.

(** *** Consuming *)

(** The refs of an entry span under which something runs. *)
Definition has_refs l (r : list SegmentRef) w : Prop :=
  ∃ s, w_spans w !! l = Some s ∧ cls s = ClsEntrySpan ∧ refs s = r.

Lemma refs_mod_span l r l' f :
  (∀ s, cls (f s) = cls s ∧ refs (f s) = refs s) -> preserves (has_refs l r) (mod_span l' f).
Proof.
  intros Hf w (s & Hs & Hc & Hr). unfold mod_span, modify, has_refs. cbn. destruct (decide (l = l')) as [->|Hne].
  - rewrite lookup_alter_eq, Hs. exists (f s). destruct (Hf s) as [-> ->]. done.
  - rewrite lookup_alter_ne by done. by exists s.
Qed.

Lemma refs_other l r (f : W -> W) : (∀ w, w_spans (f w) = w_spans w) -> preserves (has_refs l r) (modify f).
Proof. intros Hf w (s & Hs & H). exists s. cbn. by rewrite Hf. Qed.

Lemma refs_fresh l r : preserves (has_refs l r) fresh.
Proof. intros w (s & Hs & H). by exists s. Qed.

Local Hint Resolve refs_mod_span refs_other refs_fresh : py.

Lemma refs_start l r t : preserves (has_refs l r) (start t l).
Proof.
  assert (preserves (has_refs l r) (_spans_dup t)) as Hdup by (unfold _spans_dup; auto 20 with py).
  assert (preserves (has_refs l r) (span_start t l)) as H.
  { unfold span_start, get_span, ctx_start, get_ctx, mod_ctx.
    apply preserves_bind; [auto with py|]. intros _. apply preserves_bind; [auto with py|].
    intros s. destruct (_ =? _); [|auto with py]. do 2 (apply preserves_bind; [auto with py|]; intros ?).
    do 3 (apply preserves_bind; [auto with py|]; intros ?). case_decide; [auto with py|].
    do 3 (apply preserves_bind; [auto with py|]; intros ?). auto with py. }
  unfold start, get_span. apply preserves_bind; [auto with py|]. intros s.
  destruct (cls s); try done. unfold entry_start. apply preserves_bind; [done|]. intros ?. auto with py.
Qed.

(** On an idle thread, with every request sampled, a new context of its own is made. *)
Lemma get_context_fresh w t :
  wf w -> stack w t = [] -> w_sampling w = None ->
  ∃ w' c x i, get_context cfg uuid1 t w = (w', Ok c) ∧ stack w' t = [] ∧ w_agent w' = w_agent w ∧
    w_ctxs w' !! c = Some x ∧ noop x = false ∧ related_traces (segment x) = [i] ∧ is_NewID i = true.
Proof.
  intros Hw Ht Hs. pose proof (spec_get_context cfg uuid1 w t Hw) as H. unfold spec in H.
  assert (∃ w' c x i, get_context cfg uuid1 t w = (w', Ok c) ∧ w_agent w' = w_agent w ∧ w_ctxs w' !! c = Some x ∧
    noop x = false ∧ related_traces (segment x) = [i] ∧ is_NewID i = true) as (w' & c & x & i & E & Ha & Hx & Hn & Hr & Hi).
  { clear H. unfold get_context, stack in *.
    assert (∃ w1 i, _spans t w = (w1, Ok i) ∧ w_lists w1 !!! i = [] ∧ w_sampling w1 = None ∧ w_agent w1 = w_agent w)
      as (w1 & i & E & Hi & Hs1 & Ha1).
    { unfold _spans. unfold_m. destruct (w_vars w !! t) as [i|]; [by exists w, i|].
      eexists _, _. split; [reflexivity|]. cbn. split; [apply lookup_total_insert_eq | done]. }
    rewrite (bind_ok _ _ _ _ _ E). unfold_m. rewrite Hi. cbn [last]. unfold_m. rewrite Hs1.
    unfold new_SpanContext. unfold_m. eexists _, _, _, _. split; [reflexivity|]. cbn. split; [done|].
    split; [apply lookup_insert_eq|]. done. }
  rewrite E in H. destruct H as (_ & G & _). exists w', c, x, i. split_and!; try done. by rewrite (grow_stacks _ _ G).
Qed.

Lemma open_entry_refers w t op ca inh ref :
  wf w -> stack w t = [] -> w_sampling w = None -> ignore_path cfg op = false ->
  is_segment_queue_full (w_agent w) = false ->
  trace_id ca ≠ [] -> is_valid ca = Ok true -> segment_ref ca = Ok ref ->
  ∃ w' l, open_entry cfg uuid1 t op (Some ca) inh w = (w', Ok l) ∧ has_refs l [ref] w'.
Proof.
  intros Hw Ht Hs Hig Hfull Htid Hv Href. unfold open_entry.
  destruct (get_context_fresh w t Hw Ht Hs) as (w1 & c & x & i & E & Ht1 & Ha & Hx & Hn & Hr & Hi).
  rewrite (bind_ok _ _ _ _ _ E). rewrite <- Ha in Hfull.
  destruct (new_entry_span_extracts cfg uuid1 w1 t c x i op inh ca ref) as (w2 & l & s' & x' & E2 & Hs' & Hc & _ & Hrefs & _);
    [done..|].
  exists w2, l. split; [done|]. by exists s'.
Qed.

(** What the consumer's span covers. *)
Definition consume_body {A} (b : Library) (callback : MW A) (exchange routing_key : pystr) l : MW A :=
  _ ← mod_span l (set_layer Layer.MQ);
  _ ← mod_span l (set_component Component.RabbitmqConsumer);
  match b with
  | Pika _ _ => res ← callback; _ ← tag_mq l (broker_peer b) exchange (Some routing_key); mret res
  | _ => _ ← tag_mq l (broker_peer b) exchange (Some routing_key); callback
  end.

Definition consume_open t (exchange routing_key : pystr) (ca : Carrier) : MW nat :=
  open_entry cfg uuid1 t (rabbit_op exchange routing_key (py "/Consumer")) (Some ca) None.

Lemma header_text_str o : header_text (PStr <$> o) = Ok o.
Proof. by destruct o. Qed.

Lemma rabbit_consume_unfold {A} b t (callback : MW A) exchange routing_key get w :
  rabbit_consume b t callback exchange routing_key get w =
    (ca ← read_carrier cfg get;
     with_new cfg import_time format_exc t (consume_open t exchange routing_key ca)
       (consume_body b callback exchange routing_key)) w.
Proof.
  destruct b as [host port|peer|host port]; [done..|]. unfold rabbit_consume, sw_aiormq_callback, read_carrier.
  rewrite !header_text_str. unfold mbind, M_bind, lift.
  destruct (new_Carrier w) as [w1 [ca|e]]; [|done].
  destruct (set_correlation_item cfg ca (get (py "sw8-correlation")) w1) as [w2 [[]|e]]; [|done].
  by destruct (set_sw8_item ca (get (py "sw8")) w2) as [w3 [ca'|e]].
Qed.

Lemma calm_consume_body {A} b t (callback : MW A) exchange routing_key l :
  calm t callback -> calm t (consume_body b callback exchange routing_key l).
Proof.
  intros H. assert (∀ p q, calm t (tag_mq (AG := AG) (PS := PS) l p exchange q)) by (intros; apply calm_tag_mq).
  unfold consume_body. destruct b; calm.
Qed.

Lemma dressed_refs l r w w' : dressed l w w' -> has_refs l r w -> has_refs l r w'.
Proof.
  intros [_ D] (s & Hs & Hc & Hr). destruct (D s Hs) as (s' & Hs' & [= Ecls _ _ _ _ Erefs]).
  exists s'. split; [done|]. by rewrite Ecls, Erefs.
Qed.

Lemma consume_body_calls {A} b t (callback : MW A) exchange routing_key l r w :
  last (stack w t) = Some l -> has_refs l r w ->
  ∃ w2, (consume_body b callback exchange routing_key l w).2 = (callback w2).2 ∧
    last (stack w2 t) = Some l ∧ has_refs l r w2.
Proof.
  intros Ht Hr.
  assert (∀ w2, dressed l w w2 -> last (stack w2 t) = Some l ∧ has_refs l r w2) as Hkeep.
  { intros w2 D. destruct (dressed_frame _ _ _ D) as (_ & _ & _ & E). rewrite E. split; [done|]. by eapply dressed_refs. }
  unfold consume_body.
  destruct (mod_span_dresses w l (set_layer Layer.MQ)) as (w1 & E1 & D1); [done|].
  destruct (mod_span_dresses w1 l (set_component Component.RabbitmqConsumer)) as (w2 & E2 & D2); [done|].
  pose proof (dressed_trans _ _ _ _ D1 D2) as D.
  rewrite (bind_ok _ _ _ _ _ E1), (bind_ok _ _ _ _ _ E2).
  assert (∀ p, ∃ w3, ((_ ← tag_mq l p exchange (Some routing_key); callback) w2).2 = (callback w3).2 ∧
    last (stack w3 t) = Some l ∧ has_refs l r w3) as Hother.
  { intros p. destruct (tag_mq_dresses w2 l p exchange (Some routing_key)) as (w3 & E3 & D3).
    exists w3. rewrite (bind_ok _ _ _ _ _ E3). split; [done|]. apply Hkeep. by eapply dressed_trans. }
  destruct b as [host port|peer|host port]; [|exact (Hother peer) | exact (Hother (aiormq_peer host port))].
  exists w2. split; [|by apply Hkeep].
  destruct (callback w2) as [w3 [a|e]] eqn:Ec; [|by rewrite (bind_raise _ _ _ _ _ Ec)].
  rewrite (bind_ok _ _ _ _ _ Ec).
  destruct (tag_mq_dresses w3 l (broker_peer (Pika host port)) exchange (Some routing_key)) as (w4 & E4 & _).
  by rewrite (bind_ok _ _ _ _ _ E4).
Qed.

(** Reading the headers makes objects, and no more. *)
Lemma read_carrier_frame get w w' ca :
  read_carrier cfg get w = (w', Ok ca) -> w_sampling w' = w_sampling w ∧ w_agent w' = w_agent w.
Proof.
  assert (∀ ca0 o w0 w1 ca1, set_sw8_item ca0 o w0 = (w1, Ok ca1) -> w1 = w0) as Hset.
  { intros ca0 [v|] w0 w1 ca1; cbn; [|by intros [= <- _]]. destruct (set_carrier_val v ca0) as [ca' [[]|e]]; by intros [= <- _]. }
  assert (∀ ca0 o w0 w1, set_correlation_item cfg ca0 o w0 = (w1, Ok tt) ->
    w_sampling w1 = w_sampling w0 ∧ w_agent w1 = w_agent w0) as Hcor.
  { intros ca0 [v|] w0 w1; cbn; [|by intros [= <-]]. destruct (set_correlation_val _ _ _). by intros [= <- _]. }
  unfold read_carrier. intros H. inv_bind H. inv_bind H. destruct a0. apply Hset in H as ->.
  apply Hcor in Hb0 as [-> ->]. unfold new_Carrier, new_dict in Hb. revert Hb. unfold_m. by intros [= <- _].
Qed.

(** A consumer that reads a valid carrier runs its callback under a span that refers to it. *)
Lemma consume_refers {A} b t (callback : MW A) exchange routing_key get w w1 ca ref :
  wf w -> live w t -> stack w t = [] -> w_sampling w = None ->
  ignore_path cfg (rabbit_op exchange routing_key (py "/Consumer")) = false ->
  is_segment_queue_full (w_agent w) = false -> calm t callback ->
  read_carrier cfg get w = (w1, Ok ca) ->
  trace_id ca ≠ [] -> is_valid ca = Ok true -> segment_ref ca = Ok ref ->
  ∃ w2 l, (rabbit_consume b t callback exchange routing_key get w).2 = (callback w2).2 ∧
    last (stack w2 t) = Some l ∧ has_refs l [ref] w2.
Proof.
  intros Hw Hl Ht Hs Hig Hfull Hcb Hread Htid Hv Href.
  pose proof (calm_read_carrier cfg t get w Hw Hl) as H1. unfold spec in H1. rewrite Hread in H1.
  destruct H1 as (Hw1 & G1 & _). destruct (read_carrier_frame get w w1 ca Hread) as [Hs1 Ha1].
  pose proof (live_grow _ _ _ Hw G1 Hl) as Hl1.
  assert (stack w1 t = []) as Ht1 by (by rewrite (grow_stacks _ _ G1)).
  destruct (open_entry_refers w1 t (rabbit_op exchange routing_key (py "/Consumer")) ca None ref)
    as (w2 & l & Eo & Hr2); try done; [by rewrite Hs1 | by rewrite Ha1|].
  rewrite rabbit_consume_unfold, (bind_ok _ _ _ _ _ Hread).
  pose proof (with_new_runs cfg import_time format_exc w1 t (consume_open t exchange routing_key ca)
    (consume_body b callback exchange routing_key) Hw1 Hl1
    (opens_entry cfg uuid1 t _ _ _ w1 Hw1) (fun l => calm_consume_body b t callback exchange routing_key l Hcb)) as H.
  pose proof (opens_entry cfg uuid1 t (rabbit_op exchange routing_key (py "/Consumer")) (Some ca) None w1 Hw1) as Hop.
  unfold spec in Hop. unfold consume_open in H |- *. rewrite Eo in H, Hop. destruct Hop as (Hw2 & G2 & Hopened).
  destruct H as (w3 & w4 & E3 & _ & _ & _ & _ & ->). cbn [snd].
  destruct Hopened as [[_ (k & Hk & Hd)]|Hlast]; [|by rewrite Ht1 in Hlast].
  destruct (start_result w2 t l k Hw2 Hk) as (w3' & E3' & _ & _ & _ & HT). rewrite E3 in E3'. injection E3' as <-.
  destruct (consume_body_calls b t callback exchange routing_key l [ref] w3) as (w5 & E5 & Hlast5 & Hr5).
  - rewrite HT, decide_True by done. rewrite (grow_stacks _ _ G2), Ht1. done.
  - pose proof (refs_start l [ref] t w2 Hr2) as Hr3. by rewrite E3 in Hr3.
  - exists w5, l. by rewrite E5.
Qed.
End rabbit.

(** ** One message *)

Section hop.
Context {AG PS AGs PSs : Type} `{!AgentOps AG} `{!ProfileOps PS} `{!AgentOps AGs} `{!ProfileOps PSs}.
Context (cfg cfgS : Config) (uuid1 uuidS : nat -> pystr) (import_time : Z) (format_exc : exn -> Z -> pystr).
Implicit Types (w : World AG PS) (t l d : nat).

(** C10. A message published with any of the three libraries is published once, with the headers
    of the application kept and the two of the agent added; a consumer of any of the three
    libraries, idle before, runs its callback once, under an entry span whose only reference
    is the publishing trace, segment and span with its service, instance, endpoint and
    broker. *)
Theorem message_crosses_rabbitmq bp bc w t {A B} (_publish : nat -> M (World AG PS) A) exchange routing_key h
  w0 l w1 s x tid rest addr ca cv v :
  wf w -> live w t -> (∀ d, calm t (_publish d)) ->
  publish_open cfg uuid1 bp t exchange routing_key w = (w0, Ok l) -> start t l w0 = (w1, Ok tt) ->
  w_spans w1 !! l = Some s -> cls s = ClsExitSpan -> w_ctxs w1 !! context s = Some x ->
  related_traces (segment x) = tid :: rest -> 0 <= sid s -> peer s = Some addr ->
  (inject cfg l w1).2 = Ok ca -> carrier_val ca = Ok v ->
  Forall (fun f : pystr => f ≠ []) [id_value tid; id_value (seg_id (segment x)); agent_name cfg;
    agent_instance_name cfg; op s; addr] ->
  correlation_val (w_dicts w1 !!! ctx_correlation x) = Ok cv ->
  Dict.wf (w_dicts w1 !!! ctx_correlation x) -> w_next w1 ≠ ctx_correlation x ->
  match h with Some d => is_Some (w_dicts w1 !! d) | None => True end ->
  0 <= correlation_element_max_number cfgS ->
  ∃ d w2,
    (rabbit_publish cfg uuid1 import_time format_exc bp t _publish exchange routing_key h w).2 = (_publish d w2).2 ∧
    (∀ k, k ≠ py "sw8" -> k ≠ py "sw8-correlation" ->
       Dict.get k (w_dicts w2 !!! d) = Dict.get k (given_headers w1 h)) ∧
    ∀ (ws : World AGs PSs) tc (callback : M (World AGs PSs) B) get,
      wf ws -> live ws tc -> stack ws tc = [] -> w_sampling ws = None -> calm tc callback ->
      ignore_path cfgS (rabbit_op exchange routing_key (py "/Consumer")) = false ->
      is_segment_queue_full (w_agent ws) = false ->
      get (py "sw8") = Dict.get (py "sw8") (w_dicts w2 !!! d) ->
      get (py "sw8-correlation") = Dict.get (py "sw8-correlation") (w_dicts w2 !!! d) ->
      ∃ ws2 lc,
        (rabbit_consume cfgS uuidS import_time format_exc bc tc callback exchange routing_key get ws).2 = (callback ws2).2 ∧
        last (stack ws2 tc) = Some lc ∧
        has_refs lc [mkRef CrossProcess (id_value tid) (id_value (seg_id (segment x))) (sid s)
          (agent_name cfg) (agent_instance_name cfg) (Some (op s)) (Some addr)] ws2.
Proof.
  intros Hw Hl Hpub Hopen Hstart Hs Hcls Hx Hrel Hsid Hp Hinj Hv Hne Hc Hwf Hnext Hh Hn.
  destruct (publish_body_calls cfg bp w1 l _publish exchange routing_key h s x tid rest ca cv v)
    as (d & w2 & E2 & Hd2); [done..|].
  exists d, w2. split_and!.
  - rewrite rabbit_publish_unfold.
    pose proof (with_new_runs cfg import_time format_exc w t (publish_open cfg uuid1 bp t exchange routing_key)
      (publish_body cfg bp _publish exchange routing_key h) Hw Hl (opens_exit cfg uuid1 t _ _ _ w Hw)
      (fun l => calm_publish_body cfg bp t _publish exchange routing_key h l Hpub)) as H.
    rewrite Hopen in H. destruct H as (w1' & w4 & E1 & _ & _ & _ & _ & ->).
    rewrite Hstart in E1. injection E1 as <-. by rewrite E2.
  - intros k Hk Hkc. by rewrite Hd2, !Dict.get_set_ne.
  - intros ws tc callback get Hws Hls Hst Hsam Hcb Hig Hfull Hg Hgc.
    rewrite Hd2, Dict.get_set_eq in Hg. rewrite Hd2, Dict.get_set_ne, Dict.get_set_eq in Hgc by done.
    rewrite (inject_exit cfg w1 l s x tid rest Hs Hcls Hx Hrel) in Hinj. apply Ok_inj in Hinj.
    destruct (read_carrier_runs cfgS ws get ca v (w_dicts w1 !!! ctx_correlation x) cv)
      as (ws1 & ca' & E & Hsame & _); try done.
    { subst ca. cbn. intros Hin%str_of_nat_digits; [|done]. unfold is_ascii_digit in Hin. lia. }
    repeat apply Forall_cons in Hne as [? Hne]. pose proof Hsame as (Htid & _).
    eapply (consume_refers cfgS uuidS import_time format_exc bc tc callback exchange routing_key get ws ws1 ca'); try done.
    + rewrite <- ?Htid. rewrite ?Htid. subst ca. done.
    + rewrite (is_valid_same _ _ Hsame). subst ca. unfold is_valid. cbn. rewrite Hp, isnumeric_str_of_int by done.
      by destruct (id_value tid), (id_value (seg_id (segment x))), (agent_name cfg), (agent_instance_name cfg), (op s), addr.
    + rewrite (segment_ref_same _ _ Hsame). subst ca. unfold segment_ref. cbn. rewrite int_of_str_of_int. cbn. by rewrite Hp.
Qed.
End hop.

(** ** A run: published with pika, consumed with aiormq *)

#[local] Instance mq_hop_profiler : ProfileOps Service := Profile_ops default_config.

Definition mq_exit_world : DW * nat :=
  match publish_open default_config demo_uuid (Pika (py "mq") (py "5672")) 1 (py "orders") (py "new") serving_world with
  | (w, Ok l) => (w, l)
  | (w, Raise _) => (w, 0%nat)
  end.
Definition mq_call_world : DW := (start 1 mq_exit_world.2 mq_exit_world.1).1.
Definition echo_published (d : nat) : M DW (list (pystr * pystr)) := gets (fun w => w_dicts w !!! d).
Definition mq_carrier : Carrier :=
  match (inject default_config mq_exit_world.2 mq_call_world).2 with Ok ca => ca | Raise _ => empty_carrier 0 end.

Lemma echo_published_calm t d : calm t (echo_published d).
Proof. apply calm_gets. Qed.

Lemma demo_world_usable : wf demo_world ∧ live demo_world 1.
Proof.
  split; [eapply reachable_wf; apply (run_demo []); reflexivity|]. apply live_spans. vm_compute. repeat constructor.
Qed.

Lemma message_crosses_rabbitmq_witness :
  ∃ d w2,
    (rabbit_publish default_config demo_uuid 0 demo_format (Pika (py "mq") (py "5672")) 1 echo_published
       (py "orders") (py "new") None serving_world).2 = (echo_published d w2).2 ∧
    ∃ (ws2 : DW) lc, (rabbit_consume default_config demo_uuid 0 demo_format (Aiormq (py "mq") (Some 5672)) 1 (mret 7)
        (py "orders") (py "new") (fun k => Dict.get k (w_dicts w2 !!! d)) demo_world).2 = Ok 7 ∧
      last (stack ws2 1) = Some lc ∧
      ∃ ref, has_refs lc [ref] ws2 ∧ ref_client_address ref = Some (py "mq:5672") ∧ ref_span_id ref = 1
        ∧ ref_endpoint ref = Some (py "RabbitMQ/Topic/orders/Queue/new/Producer").
Proof.
  destruct (message_crosses_rabbitmq (AGs := Agent) (PSs := Service) (B := Z) default_config default_config demo_uuid demo_uuid 0
    demo_format (Pika (py "mq") (py "5672")) (Aiormq (py "mq") (Some 5672)) serving_world 1 echo_published
    (py "orders") (py "new") None mq_exit_world.1 mq_exit_world.2 mq_call_world
    (w_spans mq_call_world !!! mq_exit_world.2)
    (w_ctxs mq_call_world !!! context (w_spans mq_call_world !!! mq_exit_world.2))
    (mkID NewID (py "id1")) [] (py "mq:5672") mq_carrier []
    (match carrier_val mq_carrier with Ok v => v | Raise _ => [] end)) as (d & w2 & E & _ & Hs).
  4-9, 11-13, 15: vm_compute; reflexivity.
  - exact (proj1 serving_usable).
  - exact (proj2 serving_usable).
  - apply echo_published_calm.
  - vm_compute. discriminate.
  - repeat (apply Forall_cons_2; [vm_compute; discriminate|]). apply Forall_nil_2.
  - vm_compute. constructor.
  - vm_compute. discriminate.
  - exact I.
  - vm_compute. discriminate.
  - exists d, w2. split; [exact E|].
    destruct (Hs demo_world 1%nat (mret 7) (fun k => Dict.get k (w_dicts w2 !!! d))) as (ws2 & lc & Ec & Hlast & Hr).
    + exact (proj1 demo_world_usable).
    + exact (proj2 demo_world_usable).
    + vm_compute. reflexivity.
    + vm_compute. reflexivity.
    + apply calm_ret.
    + vm_compute. reflexivity.
    + vm_compute. reflexivity.
    + reflexivity.
    + reflexivity.
    + exists ws2, lc. split; [exact Ec|]. split; [exact Hlast|]. eexists. split; [exact Hr|].
      split; [vm_compute; reflexivity|]. split; vm_compute; reflexivity.
Defined.
