(* ===== verification/ProfileThread.v ===== *)
(** * The profiling thread (profile/profile_context.py)

    [ProfileTaskExecutionContext.start_profiling] starts a thread per task; its loop takes a
    round over the slots, sleeps, and looks at the stop event.  A turn of the loop is given by
    its clock readings, the stacks it finds, an exception that may end it in the middle of a
    round, and what the other threads of the process do while it sleeps. *)

From S2P Require Import Prelude PyData PyText Config TraceData Trace Profile ProfileProps.

(** ** Which model *)

Inductive ThreadModel := ModelThread | ModelGreenlet.

(** The module-level choice: [gevent_found] is whether the three imports succeed. *)
Definition THREAD_MODEL (gevent_found threading_patched : bool) : ThreadModel :=
  if gevent_found then (if threading_patched then ModelGreenlet else ModelThread) else ModelThread.

(** ** Snapshots on the wire *)

Record ThreadSnapshot := mkThreadSnapshot {
  pb_taskId : pystr; pb_traceSegmentId : pystr; pb_time : Z; pb_sequence : Z; pb_codeSignatures : list pystr
}.

(** [TracingThreadSnapshot.transform] *)
Definition transform (s : TracingThreadSnapshot) : ThreadSnapshot :=
  mkThreadSnapshot (sn_task_id s) (sn_segment_id s) (sn_time s) (sn_sequence s) (sn_stack s).

Section thread.
Context (cfg : Config).

(** [start_profiling] of the execution context: the stop event exists once the thread does. *)
Definition start_profiling (model : ThreadModel) (c : nat) (p : Service) : Service :=
  match model with
  | ModelGreenlet => p
  | ModelThread => upd_context c (set_stop false) p
  end.

(** [stop_profiling] of the execution context in the thread model *)
Definition stop_profiling (c : nat) (p : Service) : Service :=
  upd_context c (fun e => match ec_stop e with Some _ => set_stop true e | None => e end) p.

(** [self._stop_event.is_set()] *)
Definition stop_event_set (c : nat) (p : Service) : bool :=
  match pf_contexts p !! c with Some e => bool_decide (ec_stop e = Some true) | None => false end.

Record Turn := mkTurn {
  tn_start : Z;                              (* current_milli_time at the start of the loop *)
  tn_dumps : nat -> option (list pystr);
  tn_error : option (nat * exn);             (* after that many slots *)
  tn_end : Z;                                (* current_milli_time after the round *)
  tn_others : Service -> Service
}.

(** The first [k] slots of a round. *)
Definition part_of_round (now : Z) (dumps : nat -> option (list pystr)) (c k : nat) (p : Service) : Service :=
  match pf_contexts p !! c with
  | None => p
  | Some e => foldl (fun p i => profile_slot cfg now dumps c i p) p (take k (seq 0 (length (array_items (slots e)))))
  end.

(** Milliseconds to sleep after a round. *)
Definition need_sleep (current_loop_start_time max_sleep_period now : Z) : Z :=
  let n := current_loop_start_time + max_sleep_period - now in
  if negb (0 <? n) then max_sleep_period else n.

(** How the loop stands after some turns. *)
Inductive Outcome := Running | Returned | Failed (e : exn).

(** [ProfileThread.profiling] *)
Fixpoint profiling (c : nat) (turns : list Turn) (p : Service) : Service * Outcome :=
  match turns with
  | [] => (p, Running)
  | tn :: rest =>
      if stop_event_set c p then (p, Returned)
      else match tn_error tn with
           | Some (k, e) => (part_of_round (tn_start tn) (tn_dumps tn) c k p, Failed e)
           | None => profiling c rest (tn_others tn (profiling_round cfg (tn_start tn) (tn_dumps tn) c p))
           end
  end.

(** [ProfileThread.start]: an [Exception] is logged, and however the loop ends the task is
    stopped; [true]: the thread has ended. *)
Definition thread_start (c : nat) (turns : list Turn) (p : Service) : Service * bool :=
  match profiling c turns p with
  | (p', Running) => (p', false)
  | (p', Returned) => (stop_current_profile_task (Some c) p', true)
  | (p', Failed _) => (stop_current_profile_task (Some c) p', true)
  end.

(** ** What the thread does *)

(** The thread never sleeps longer than the dump period, and never not at all. *)
Lemma need_sleep_bounds start period now :
  0 < period -> start <= now -> 0 < need_sleep start period now <= period.
Proof. intros Hp Hn. unfold need_sleep. destruct (Z.ltb_spec 0 (start + period - now)); cbn [negb]; lia. Qed.

Lemma part_run now dumps c k p : run_inv p -> run_inv (part_of_round now dumps c k p).
Proof.
  intros H. unfold part_of_round. destruct (pf_contexts p !! c) as [e|]; [|done].
  generalize (take k (seq 0 (length (array_items (slots e))))) as l. intros l. revert p H.
  induction l as [|i l IH]; intros p H; cbn [foldl]; [done|]. by apply IH, slot_run.
Qed.

Lemma loop_run c turns : ∀ p,
  run_inv p -> Forall (fun tn => ∀ q, run_inv q -> run_inv (tn_others tn q)) turns -> run_inv (profiling c turns p).1.
Proof.
  induction turns as [|tn rest IH]; intros p Hp Ho; [done|]. inversion_clear Ho as [|?? Hot Hor]. cbn [profiling].
  destruct (stop_event_set c p); [done|]. destruct (tn_error tn) as [[k e]|]; [by apply part_run|].
  apply IH; [|done]. apply Hot. by apply round_run.
Qed.

(** However the thread ends, whether told to by the stop event or by an exception in the
    middle of a round, its task is over: it is not the current one, its stop event is set
    and its end has been notified exactly once, whatever the rest of the agent did meanwhile.
    And a thread that finds its task replaced or stopped ends on that turn without another
    dump. *)
Theorem profiling_thread_ends c turns p e :
  run_inv p -> pf_contexts p !! c = Some e ->
  Forall (fun tn => ∀ q, run_inv q -> run_inv (tn_others tn q)) turns ->
  (∀ p' e', thread_start c turns p = (p', true) -> pf_contexts p' !! c = Some e' ->
     task_execution_context p' ≠ Some c ∧ ec_stop e' = Some true ∧ c ∈ pf_notified p' ∧ NoDup (pf_notified p')) ∧
  (task_execution_context p ≠ Some c -> turns ≠ [] -> thread_start c turns p = (p, true)).
Proof.
  intros Hp He Ho. split.
  - intros p' e' Hend He'. pose proof (loop_run c turns p Hp Ho) as Hr. unfold thread_start in Hend.
    assert (∀ q, run_inv q -> stop_current_profile_task (Some c) q = p' ->
      task_execution_context p' ≠ Some c ∧ ec_stop e' = Some true ∧ c ∈ pf_notified p' ∧ NoDup (pf_notified p')) as H.
    { intros q Hq <-. pose proof (stop_run (Some c) q Hq) as Hs.
      assert (task_execution_context (stop_current_profile_task (Some c) q) ≠ Some c) as Hn.
      { unfold stop_current_profile_task, ref_compare_and_set.
        destruct (decide (task_execution_context q = Some c)) as [E|E]; cbn [negb]; [|done].
        by destruct (pf_contexts q !! c). }
      pose proof (ri_state _ Hs c e' He') as Hst. rewrite decide_False in Hst by done.
      split_and!; [done | apply Hst | apply Hst | apply (ri_nodup _ Hs)]. }
    destruct (profiling c turns p) as [q []]; [done | |]; injection Hend as Hend; by apply (H q).
  - intros Hc Hne. destruct turns as [|tn rest]; [done|]. unfold thread_start. cbn [profiling].
    pose proof (ri_state p Hp c e He) as Hst. rewrite decide_False in Hst by done. destruct Hst as [Hst _].
    unfold stop_event_set. rewrite He, Hst. rewrite bool_decide_eq_true_2 by done.
    unfold stop_current_profile_task, ref_compare_and_set. by rewrite decide_False.
Qed.
End thread.

(** ** A run: two turns, then the duration timer fires while the thread sleeps *)

Definition thread_demo_turns : list Turn := [
  mkTurn 50 (fun _ => Some [py "f"]) None 52 (fun p => p);
  mkTurn 60 (fun _ => Some [py "f"]) None 61 (stop_current_profile_task (Some 1%nat));
  mkTurn 70 (fun _ => Some [py "f"]) None 71 (fun p => p)].

Lemma profiling_thread_ends_witness :
  let p := (thread_start default_config 1 thread_demo_turns (demo_run default_config)).1 in
  (thread_start default_config 1 thread_demo_turns (demo_run default_config)).2 = true ∧
  task_execution_context p ≠ Some 1%nat ∧ pf_notified p = [1%nat] ∧ NoDup (pf_notified p).
Proof.
  intros p. split; [vm_compute; reflexivity|].
  destruct (pf_contexts (demo_run default_config) !! 1%nat) as [e|] eqn:He; [|vm_compute in He; discriminate].
  destruct (pf_contexts p !! 1%nat) as [e'|] eqn:He'; [|vm_compute in He'; discriminate].
  destruct (profiling_thread_ends default_config 1 thread_demo_turns (demo_run default_config) e) as [H _].
  - exact (reachable_run default_config _ (demo_reachable default_config)).
  - exact He.
  - repeat (apply Forall_cons_2; [intros q Hq; cbn [tn_others]; first [exact Hq | apply stop_run, Hq]|]). apply Forall_nil_2.
  - destruct (H p e') as (H1 & _ & _ & H4); [vm_compute; reflexivity | exact He' |].
    split; [exact H1|]. split; [vm_compute; reflexivity | exact H4].
Defined.
