(* ===== verification/AgentHooks.v ===== *)
(** * The remaining operations of the two agents of agent/__init__.py

    [_join_sync_queue], the bounded wait at shutdown; [start] in a program that runs on gevent;
    and the asyncio agent's part in profiling: the query coroutine, the dispatch coroutine and the
    notification that a task has finished, which another thread schedules on the loop. *)

From S2P Require Import Prelude PyData PyText Config Sampling ReporterLog Report Trace Profile Command Agent AgentProps.
From S2P Require Import ReportAsync AgentAsync Clients AioServices CommandQuery.
From Stdlib Require Import Sorted.

(** ** Waiting for a queue at shutdown *)

(** When [Queue.join] called at [now] returns, other threads calling [task_done] at the times
    [dones]; [None] if it never does. *)
Fixpoint join_returns {A} (now : Z) (dones : list Z) (q : PyQueue.t A) : option Z :=
  if PyQueue.join_ready q then Some now
  else match dones with
       | [] => None
       | d :: dones' => match PyQueue.task_done q with Some q' => join_returns d dones' q' | None => None end
       end.

(** [_join_sync_queue]: the event is set by the waiting thread; the caller waits for [timeout] at
    most.  With the time at which it returns. *)
Definition _join_sync_queue {A} (now timeout : Z) (dones : list Z) (q : PyQueue.t A) : bool * Z :=
  match join_returns now dones q with
  | Some d => if d <=? now + timeout then (true, d) else (false, now + timeout)
  | None => (false, now + timeout)
  end.

(** The calls made until the deadline. *)
Definition done_by (deadline : Z) (dones : list Z) : Z :=
  Z.of_nat (length (filter (fun d => d <= deadline) dones)).

Lemma done_by_late deadline dones :
  Forall (fun d => deadline < d) dones -> done_by deadline dones = 0.
Proof.
  intros H. unfold done_by. replace (filter _ dones) with ([] : list Z); [done|].
  symmetry. induction H as [|d dones Hd _ IH]; [done|]. rewrite filter_cons, decide_False by lia. done.
Qed.

Lemma done_by_cons deadline d dones :
  done_by deadline (d :: dones) = (if decide (d <= deadline) then 1 else 0) + done_by deadline dones.
Proof. unfold done_by. rewrite filter_cons. case_decide; cbn [length]; lia. Qed.

Lemma done_by_nonneg deadline dones : 0 <= done_by deadline dones.
Proof. unfold done_by. lia. Qed.

Lemma join_returns_by {A} deadline dones : ∀ now (q : PyQueue.t A),
  now <= deadline -> Sorted Z.le (now :: dones) -> 0 <= PyQueue.unfinished q ->
  ((∃ d, join_returns now dones q = Some d ∧ now <= d <= deadline) <->
   PyQueue.unfinished q <= done_by deadline dones) ∧
  (∀ d, join_returns now dones q = Some d -> now <= d).
Proof.
  induction dones as [|d dones IH]; intros now q Hn Hs Hu; cbn [join_returns];
    unfold PyQueue.join_ready; destruct (Z.eqb_spec (PyQueue.unfinished q) 0) as [E|E].
  - split; [|intros d [= <-]; lia]. pose proof (done_by_nonneg deadline []).
    split; [lia | intros _; exists now; split; [done|lia]].
  - split; [|done]. unfold done_by; cbn. split; [intros (d & H & _); done | lia].
  - split; [|intros d' [= <-]; lia]. pose proof (done_by_nonneg deadline (d :: dones)).
    split; [lia | intros _; exists now; split; [done|lia]].
  - inversion Hs as [|? ? Hs' Hd]; subst. apply HdRel_inv in Hd.
    unfold PyQueue.task_done. destruct (Z.ltb_spec (PyQueue.unfinished q - 1) 0); [lia|].
    rewrite done_by_cons. destruct (decide (d <= deadline)) as [Hle|Hgt].
    + destruct (IH d (PyQueue.mk (PyQueue.maxsize q) (PyQueue.items q) (PyQueue.unfinished q - 1)) Hle Hs')
        as [H1 H2]; [cbn; lia|]. cbn [PyQueue.unfinished] in H1. split.
      * split.
        -- intros (d' & E' & Hd'). enough (PyQueue.unfinished q - 1 <= done_by deadline dones) by lia.
           apply H1. exists d'. split; [done|]. specialize (H2 _ E'). lia.
        -- intros Hc. destruct (proj2 H1) as (d' & E' & Hd'); [lia|]. exists d'. split; [done|lia].
      * intros d' E'. specialize (H2 _ E'). lia.
    + assert (Forall (fun x => d <= x) dones) as Hall.
      { apply Sorted_StronglySorted in Hs'; [|intros x y z; lia]. by inversion Hs'. }
      rewrite done_by_late by (eapply Forall_impl; [exact Hall|]; cbn; lia).
      assert (∀ l x (r : PyQueue.t A) y, Sorted Z.le (x :: l) -> join_returns x l r = Some y -> x <= y) as Hlow.
      { clear. induction l as [|z l IH]; intros x r y Hs H; cbn [join_returns] in H;
          destruct (PyQueue.join_ready r); try (injection H as <-; lia); [done|].
        inversion Hs as [|? ? Hs' Hd]; subst. apply HdRel_inv in Hd.
        destruct (PyQueue.task_done r); [|done]. specialize (IH _ _ _ Hs' H). lia. }
      split; [split; [|lia]|].
      * intros (d' & E' & Hd'). specialize (Hlow _ _ _ _ Hs' E'). lia.
      * intros d' E'. specialize (Hlow _ _ _ _ Hs' E'). lia.
Qed.

(** The wait at shutdown ends within its timeout.  After the queue has been abandoned it succeeds
    exactly if the items other threads had taken and not marked done, a flush that is still
    running among them, are all marked done in time. *)
Theorem shutdown_join_bounded (q : PyQueue.t nat) now timeout dones :
  PyQueue.wf q -> 0 <= timeout -> Sorted Z.le (now :: dones) ->
  let (joined, until) := _join_sync_queue now timeout dones (abandon_sync_queue q).1 in
  now <= until <= now + timeout ∧
  (joined = true <-> PyQueue.unfinished q - PyQueue.qsize q <= done_by (now + timeout) dones).
Proof.
  intros Hw Ht Hs. rewrite (abandon_all q Hw). cbn [fst]. unfold _join_sync_queue.
  destruct Hw as [_ Hw].
  destruct (join_returns_by (now + timeout) dones now
    (PyQueue.mk (PyQueue.maxsize q) ([] : list nat) (PyQueue.unfinished q - PyQueue.qsize q)))
    as [H1 H2]; [lia|done|cbn; lia|]. cbn [PyQueue.unfinished] in H1.
  destruct (join_returns now dones _) as [d|] eqn:E.
  - specialize (H2 d eq_refl). destruct (Z.leb_spec d (now + timeout)).
    + split; [lia|]. rewrite <- H1. split; [|done]. intros _. exists d. split; [done|lia].
    + split; [lia|]. rewrite <- H1. split; [done|]. intros (d' & [= <-] & ?). lia.
  - split; [lia|]. rewrite <- H1. split; [done|]. by intros (? & ? & _).
Qed.

(** ** Starting under gevent *)

(** Whether gevent is installed, and has patched the socket module. *)
Inductive Gevent := NoGevent | HasGevent (socket_patched : bool).
#[export] Instance gevent_eq_dec : EqDecision Gevent.
Proof. solve_decision. Defined.

(** Lines 582-590 of [start]: whether [grpc_gevent.init_gevent()] has run.  The import of grpc's module
    is not guarded. *)
Definition init_gevent (g : Gevent) (grpc_gevent_imports : bool) : res bool :=
  match g with
  | HasGevent true => if grpc_gevent_imports then Ok true else Raise ImportError
  | _ => Ok false
  end.

(** [start] with this step, which comes after the instrumentation and the note of the process id. *)
Definition start_under_gevent (g : Gevent) (grpc_gevent_imports : bool) : MA bool :=
  a ← get_st;
  _ ← (if negb (a_started a) then init_instrumentation
       else if decide (started_pid a = Some (a_pid a)) then raise RuntimeError
       else mret tt);
  _ ← modify (fun a => with_flags (a_started a) (Some (a_pid a)) (reporting a) a);
  initialised ← lift (init_gevent g grpc_gevent_imports);
  _ ← start_body;
  mret initialised.

(** The property [started] *)
Definition started (a : Agent) : bool := reporting a.

Lemma start_body_pid a :
  start_body (with_flags (a_started a) (Some (a_pid a)) (reporting a) a) = start_body a.
Proof. reflexivity. Qed.

Lemma start_gevent_split g imports a :
  start_under_gevent g imports a =
    (if a_started a && bool_decide (started_pid a = Some (a_pid a)) then (a, Raise RuntimeError)
     else let b := if a_started a then a else (init_instrumentation a).1 in
          match init_gevent g imports with
          | Ok v => let (c, r) := start_body b in (c, match r with Ok _ => Ok v | Raise e => Raise e end)
          | Raise e => (with_flags (a_started b) (Some (a_pid b)) (reporting b) b, Raise e)
          end).
Proof.
  unfold start_under_gevent. erewrite bind_ok by reflexivity. cbv beta.
  destruct (a_started a) eqn:Ea; cbn [negb andb].
  - case_decide as D; [by rewrite bool_decide_true, (bind_raise _ _ a a RuntimeError)|].
    rewrite bool_decide_false, (bind_ok _ _ a a tt) by done. erewrite bind_ok by reflexivity.
    cbv beta zeta. unfold lift. destruct (init_gevent g imports) as [v|e]; unfold mbind, M_bind; [|done].
    rewrite start_body_pid. by destruct (start_body a) as [c [|]].
  - rewrite (bind_ok _ _ a (init_instrumentation a).1 tt) by reflexivity. erewrite bind_ok by reflexivity.
    cbv beta zeta. unfold lift. destruct (init_gevent g imports) as [v|e]; unfold mbind, M_bind; [|done].
    rewrite start_body_pid. by destruct (start_body _) as [c [|]].
Qed.

(** gevent makes no difference to the agent: where its step succeeds, [start] leaves the agent as
    without it, reporting, and grpc is prepared exactly when gevent has patched the sockets.  Where
    grpc's module is missing the error leaves [start] of a new agent half way: instrumented, not
    reporting, and every later [start] in this process is refused. *)
Theorem start_gevent_outcomes (cfg : Config) pid g imports :
  match start_under_gevent g imports (new_agent cfg pid) with
  | (a, Ok initialised) =>
      start_agent (new_agent cfg pid) = (a, Ok tt) ∧ started a = true ∧
      initialised = bool_decide (g = HasGevent true)
  | (a, Raise e) =>
      e = ImportError ∧ g = HasGevent true ∧ imports = false ∧ started a = false ∧ installs a = 1%nat ∧
      threads a = [] ∧ ∀ g' imports', start_under_gevent g' imports' a = (a, Raise RuntimeError)
  end.
Proof.
  rewrite start_gevent_split, start_split. cbn [a_started new_agent andb].
  destruct (start_body_running (init_instrumentation (new_agent cfg pid)).1) as (b & E & R).
  destruct (init_gevent g imports) as [v|e] eqn:Eg; cbv zeta.
  - rewrite E. split; [done|]. split; [apply (run_reporting _ _ R)|].
    destruct g as [|[|]]; cbn in Eg; [|destruct imports; [|done]|]; injection Eg as <-; by vm_compute.
  - destruct g as [|[|]]; cbn in Eg; [done| |done]. destruct imports; [done|]. injection Eg as <-.
    do 6 (split; [done|]). intros g' imports'. rewrite start_gevent_split. cbn. by rewrite bool_decide_true.
Qed.

(** ** Profiling with the asyncio agent *)

(** [__query_profile_command]: HTTP and Kafka do nothing; gRPC asks whether it is ready, then the
    collector. *)
Definition query_profile_command_aio (cfg : Config) (now : Z) (pk : peek) (stub : Call -> res (list Command))
  (p : AnyProtocol) : M CommandServiceAsync AnyProtocol :=
  match p with
  | PGrpc g =>
      let (g', ready) := grpc_aio_is_ready now pk g in
      _ ← query_profile_commands_async cfg ready stub; mret (PGrpc g')
  | _ => mret p
  end.

(** [__command_dispatch]: the coroutine makes the queue, then works it off until it waits. *)
Definition command_dispatch_aio (fuel : nat) (now : Z) : M CommandServiceAsync unit :=
  _ ← modify aio_dispatch_begin; aio_dispatch fuel now.

(** The agent with the notifications scheduled on its loop, what the futures of finished ones hold
    (nobody looks at them), the calls the collector got and the errors logged. *)
Record Notifier := mkNotifier {
  nt_agent : AAgent;
  nt_pending : list ProfileTask;
  nt_futures : list (res unit);
  nt_calls : list Call;
  nt_logged : list exn
}.

(** [notify_profile_finish]: without a protocol or a loop that runs, what is raised is logged. *)
Definition notify_profile_finish_aio (task : ProfileTask) (s : Notifier) : Notifier :=
  let failed e := mkNotifier (nt_agent s) (nt_pending s) (nt_futures s) (nt_calls s) (nt_logged s ++ [e]) in
  match aa_protocol (nt_agent s), aa_loop (nt_agent s) with
  | None, _ | _, None => failed AttributeError
  | Some _, Some false => failed RuntimeError
  | Some _, Some true =>
      mkNotifier (nt_agent s) (nt_pending s ++ [task]) (nt_futures s) (nt_calls s) (nt_logged s)
  end.

(** [notify_profile_task_finish] of the protocol, run by the loop for the oldest notification. *)
Definition run_notification (now : Z) (pk : peek) (stub : Call -> res unit) (s : Notifier) : Notifier :=
  match nt_pending s with
  | [] => s
  | task :: rest =>
      let ended (p : option AnyProtocol) calls r :=
        mkNotifier (upd_protocol p (aa_channels (nt_agent s)) (nt_agent s)) rest (nt_futures s ++ [r])
          (nt_calls s ++ calls) (nt_logged s) in
      match aa_protocol (nt_agent s) with
      | Some (PGrpc g) =>
          let (g', ready) := grpc_aio_is_ready now pk g in
          if ready then
            let c := grpc_aio_finish (aa_config (nt_agent s)) (task_id task) in
            ended (Some (PGrpc g')) [c] (stub c)
          else ended (Some (PGrpc g')) [] (Ok tt)
      | p => ended p [] (Ok tt)
      end
  end.

(** One turn of the query coroutine, then of the dispatch coroutine, which has begun before. *)
Definition aio_turn (cfg : Config) (fuel : nat) (now : Z) (pk : peek) (stub : Call -> res (list Command))
  (p : AnyProtocol) : M CommandServiceAsync unit :=
  _ ← query_profile_command_aio cfg now pk stub p; aio_dispatch fuel now.

(** The dispatch coroutine begins with an empty queue; from then on one turn of the two coroutines is a
    turn of the two threads of the threaded agent, on the same commands and the same profile service. *)
Theorem aio_turns_equivalent (cfg : Config) fuel now pk g stub s :
  command_dispatch_aio fuel now s =
    (mkACS true (mkCS [] (cs_cache (acs s)) (cs_profile (acs s)) (cs_executed (acs s))), Ok tt) ∧
  ∀ c, aio_turn cfg fuel now pk stub (PGrpc g) (mkACS true c) =
    on_acs (if (grpc_aio_is_ready now pk g).2 then query_and_dispatch cfg stub fuel now else dispatch fuel now)
      (mkACS true c).
Proof.
  split.
  - unfold command_dispatch_aio. erewrite bind_ok by reflexivity. unfold aio_dispatch, on_acs, aio_dispatch_begin.
    cbn [acs acs_queue]. by destruct fuel.
  - intros c. unfold aio_turn, query_profile_command_aio, query_profile_commands_async.
    destruct (grpc_aio_is_ready now pk g) as [g' [|]]; cbn [snd].
    + unfold query_and_dispatch, aio_dispatch, on_acs. unfold mbind, M_bind. rewrite do_query_async_equivalent.
      cbn [acs acs_queue]. by destruct (do_query cfg stub c) as [c1 [u|e]].
    + unfold aio_dispatch, mbind, M_bind, mret, M_ret. done.
Qed.

Lemma run_notification_ready now pk stub s task rest g :
  nt_pending s = task :: rest -> aa_protocol (nt_agent s) = Some (PGrpc g) -> g_state g = Some READY ->
  let c := grpc_finish (aa_config (nt_agent s)) (task_id task) in
  let s' := run_notification now pk stub s in
  nt_pending s' = rest ∧ nt_calls s' = nt_calls s ++ [c] ∧ nt_futures s' = nt_futures s ++ [stub c] ∧
  nt_logged s' = nt_logged s ∧ aa_protocol (nt_agent s') = Some (PGrpc g) ∧
  aa_config (nt_agent s') = aa_config (nt_agent s).
Proof.
  intros Hp Ha Hg. unfold run_notification, grpc_aio_is_ready. rewrite Hp, Ha, bool_decide_true by done. done.
Qed.

(** While the channel is READY, every task whose end is notified on the running loop is reported to
    the collector once, in the order of the notifications, whatever the RPCs answer.  But what they
    answer is not seen: the error handler of [notify_profile_finish] logs nothing. *)
Theorem aio_notifications_in_order tasks now pk stub s g :
  aa_protocol (nt_agent s) = Some (PGrpc g) -> g_state g = Some READY -> aa_loop (nt_agent s) = Some true ->
  nt_pending s = [] ->
  let s' := Nat.iter (length tasks) (run_notification now pk stub) (foldl (flip notify_profile_finish_aio) s tasks) in
  let calls := (fun task => grpc_finish (aa_config (nt_agent s)) (task_id task)) <$> tasks in
  nt_pending s' = [] ∧ nt_calls s' = nt_calls s ++ calls ∧ nt_futures s' = nt_futures s ++ (stub <$> calls) ∧
  nt_logged s' = nt_logged s.
Proof.
  intros Ha Hg Hl Hp.
  assert (foldl (flip notify_profile_finish_aio) s tasks =
    mkNotifier (nt_agent s) (nt_pending s ++ tasks) (nt_futures s) (nt_calls s) (nt_logged s)) as ->.
  { clear Hp. revert s Ha Hl. induction tasks as [|task tasks IH]; intros s Ha Hl; cbn [foldl].
    - rewrite app_nil_r. by destruct s.
    - rewrite IH; unfold flip, notify_profile_finish_aio; rewrite Ha, Hl; [|done..]. cbn. by rewrite <- app_assoc. }
  rewrite Hp. cbn [app].
  set (s0 := mkNotifier (nt_agent s) tasks (nt_futures s) (nt_calls s) (nt_logged s)).
  assert (∀ l (r : Notifier), nt_pending r = l -> aa_protocol (nt_agent r) = Some (PGrpc g) ->
    let r' := Nat.iter (length l) (run_notification now pk stub) r in
    let calls := (fun task => grpc_finish (aa_config (nt_agent r)) (task_id task)) <$> l in
    nt_pending r' = [] ∧ nt_calls r' = nt_calls r ++ calls ∧ nt_futures r' = nt_futures r ++ (stub <$> calls) ∧
    nt_logged r' = nt_logged r) as H; [|exact (H tasks s0 eq_refl Ha)].
  clear s0 Ha Hl Hp s tasks. induction l as [|task l IH]; intros r Hr Ha; cbv zeta.
  - cbn. rewrite !app_nil_r. done.
  - destruct (run_notification_ready now pk stub r task l g Hr Ha Hg) as (H1 & H2 & H3 & H4 & H5 & H6).
    cbn [length]. rewrite Nat.iter_succ_r.
    destruct (IH _ H1 H5) as (I1 & I2 & I3 & I4). rewrite H2, H6 in I2. rewrite H3, H6 in I3. rewrite H4 in I4.
    cbn [fmap list_fmap]. rewrite <- app_assoc in I2, I3. done.
Qed.

(** An agent whose loop does not run, or is not there yet, logs the failure and goes on. *)
Theorem aio_notification_without_loop task s :
  aa_protocol (nt_agent s) = None ∨ aa_loop (nt_agent s) ≠ Some true ->
  ∃ e, notify_profile_finish_aio task s =
    mkNotifier (nt_agent s) (nt_pending s) (nt_futures s) (nt_calls s) (nt_logged s ++ [e]).
Proof.
  unfold notify_profile_finish_aio. destruct (aa_protocol (nt_agent s)), (aa_loop (nt_agent s)) as [[|]|];
    intros [?|?]; try done; by eexists.
Qed.
