(* ===== verification/PluginPatch.v ===== *)
(** * Putting the wrappers in place (plugins/sw_*.py, log/)

    Every plugin's [install] imports the library it instruments, keeps the functions it is
    going to wrap in local variables and assigns its wrappers to attributes of classes and
    modules.  These functions are written here in a small language with the statements they
    use, one term per plugin.  Which modules can be imported, which attributes exist and
    what they hold is the state of the host program, and arbitrary. *)

From S2P Require Import Prelude PyData PyText.

(** ** Functions, attributes and statements *)

(** What an attribute holds: the library's own function, known by the attribute it was
    defined as, or a wrapper of the agent around another function. *)
Inductive impl :=
| Orig (attr : string)
| Wrap (wrapper : string) (inner : impl).

#[export] Instance impl_eq_dec : EqDecision impl.
Proof. solve_decision. Defined.

Fixpoint layers (i : impl) : nat := match i with Orig _ => 0 | Wrap _ i' => S (layers i') end.

Inductive cond :=
| Importable (m : string)            (* an import that is expected to fail *)
| HasAttr (a : string)               (* hasattr *)
| HasParam (a p : string)            (* a parameter of inspect.signature of the attribute *)
| IsFunction (a x : string)          (* the attribute is the function in [x] *)
| LogReporterActive.

Inductive stmt :=
| Skip
| Seq (s1 s2 : stmt)
| Import (m : string)                (* import, or from-import of one name *)
| Get (x a : string)                 (* x = a *)
| Set_ (a w x : string)              (* a = w, a function that calls x *)
| RaiseImportError
| If (c : cond) (s1 s2 : stmt)
| TryImport (s handler : stmt)       (* try: s / except ImportError: handler *)
| TryPass (s : stmt).                (* try: s / except Exception: pass *)

Declare Scope patch_scope.
Delimit Scope patch_scope with patch.
Bind Scope patch_scope with stmt.
#[local] Infix ";;;" := Seq (at level 62, right associativity) : patch_scope.
#[local] Open Scope patch_scope.

(** The host program: its modules, the parameters of its functions, the configuration. *)
Record Env := mkEnv {
  importable : string -> bool;
  parameters : string -> list string;
  log_reporter_active : bool
}.

Record St := mkSt { attrs : gmap string impl; locals : gmap string impl }.

Section exec.
Context (env : Env).

(** [inspect.signature]: of the wrappers only the one of sw_sanic.py is ever looked at. *)
Definition params_of (i : impl) : list string :=
  match i with
  | Orig a => parameters env a
  | Wrap w _ => if bool_decide (w = "sw_sanic._sw_handle_request"%string)
                then ["self"; "request"; "write_callback"; "stream_callback"]%string else []
  end.

Definition read (a : string) : M St impl :=
  st ← get_st;
  match attrs st !! a with Some i => mret i | None => raise AttributeError end.

Definition test (c : cond) : M St bool :=
  match c with
  | Importable m => mret (importable env m)
  | HasAttr a => gets (fun st => bool_decide (is_Some (attrs st !! a)))
  | HasParam a p => i ← read a; mret (bool_decide (p ∈ params_of i))
  | IsFunction a x => i ← read a; gets (fun st => bool_decide (locals st !! x = Some i))
  | LogReporterActive => mret (log_reporter_active env)
  end.

Fixpoint exec (s : stmt) : M St unit :=
  match s with
  | Skip => mret tt
  | Seq s1 s2 => _ ← exec s1; exec s2
  | Import m => if importable env m then mret tt else raise ImportError
  | Get x a => i ← read a; modify (fun st => mkSt (attrs st) (<[x := i]> (locals st)))
  | Set_ a w x =>
      st ← get_st;
      match locals st !! x with
      | Some i => modify (fun st => mkSt (<[a := Wrap w i]> (attrs st)) (locals st))
      | None => raise OtherException
      end
  | RaiseImportError => raise ImportError
  | If c s1 s2 => b ← test c; if (b : bool) then exec s1 else exec s2
  | TryImport s h =>
      try_except (exec s) (fun e => if bool_decide (e = ImportError) then exec h else raise e)
  | TryPass s => try_except (exec s) (fun e => if is_Exception e then mret tt else raise e)
  end.

(** The loop of plugins/__init__.py over the modules that are not disabled: every [install]
    has its own local variables, and an exception of one is logged. *)
Definition install_plugin (p : string * stmt) : M St unit :=
  _ ← modify (fun st => mkSt (attrs st) ∅);
  try_except (exec p.2) (fun e => if is_Exception e then mret tt else raise e).

Definition install_plugins (enabled : string -> bool) (plugins : list (string * stmt)) : M St unit :=
  for_each (List.filter (fun p => enabled p.1) plugins) install_plugin.
End exec.

Definition imports (ms : list string) (s : stmt) : stmt := foldr (fun m s => Import m ;;; s) s ms.

(** ** The install functions *)

#[local] Open Scope string_scope.

Definition install_aiohttp : stmt :=
  imports ["aiohttp.ClientSession"; "aiohttp.web_protocol.RequestHandler"; "aiohttp.web_request.BaseRequest";
    "multidict.CIMultiDict"; "multidict.MultiDict"; "multidict.MultiDictProxy"; "yarl.URL"]
  (Get "_request" "ClientSession._request" ;;;
   Set_ "ClientSession._request" "sw_aiohttp._sw_request" "_request" ;;;
   Get "_handle_request" "RequestHandler._handle_request" ;;;
   Set_ "RequestHandler._handle_request" "sw_aiohttp._sw_handle_request" "_handle_request").

Definition install_aioredis : stmt :=
  Import "aioredis.Redis" ;;;
  Get "_execute_command" "Redis.execute_command" ;;;
  Set_ "Redis.execute_command" "sw_aioredis._sw_execute_command" "_execute_command".

Definition install_aiormq : stmt :=
  imports ["aiormq.Channel"; "aiormq.tools.awaitable"]
  (TryImport (Import "pamqp.commands") (Import "pamqp.specification") ;;;
   Get "_basic_publish" "aiormq.Channel.basic_publish" ;;;
   Get "_basic_consume" "aiormq.Channel.basic_consume" ;;;
   Set_ "aiormq.Channel.basic_publish" "sw_aiormq._sw_basic_publish" "_basic_publish" ;;;
   Set_ "aiormq.Channel.basic_consume" "sw_aiormq._sw_basic_consume" "_basic_consume").

Definition install_amqp : stmt :=
  Import "amqp.Channel" ;;;
  Get "_basic_publish" "amqp.Channel.basic_publish" ;;;
  Get "_basic_consume" "amqp.Channel.basic_consume" ;;;
  Set_ "amqp.Channel.basic_publish" "sw_amqp._sw_basic_publish" "_basic_publish" ;;;
  Set_ "amqp.Channel._basic_publish" "sw_amqp._sw_basic_publish" "_basic_publish" ;;;
  Set_ "amqp.Channel.basic_consume" "sw_amqp._sw_basic_consume" "_basic_consume".

Definition install_asyncpg : stmt :=
  imports ["asyncpg.Connection"; "asyncpg.protocol.Protocol"]
  (Get "_init" "asyncpg.Connection.__init__" ;;;
   Get "_bind" "Protocol.bind" ;;;
   Get "_bind_execute" "Protocol.bind_execute" ;;;
   Get "_bind_execute_many" "Protocol.bind_execute_many" ;;;
   Get "_query" "Protocol.query" ;;;
   Set_ "asyncpg.Connection.__init__" "sw_asyncpg._sw_init" "_init" ;;;
   Set_ "Protocol.bind" "sw_asyncpg._sw_bind" "_bind" ;;;
   Set_ "Protocol.bind_execute" "sw_asyncpg._sw_bind_execute" "_bind_execute" ;;;
   Set_ "Protocol.bind_execute_many" "sw_asyncpg._sw_bind_execute_many" "_bind_execute_many" ;;;
   Set_ "Protocol.query" "sw_asyncpg._sw_query" "_query").

Definition install_bottle : stmt :=
  imports ["bottle.Bottle"; "wsgiref.simple_server.WSGIRequestHandler"]
  (Get "_app_call" "Bottle.__call__" ;;;
   Get "_get_environ" "wsgiref.WSGIRequestHandler.get_environ" ;;;
   Set_ "Bottle.__call__" "sw_bottle.sw_app_call" "_app_call" ;;;
   Set_ "wsgiref.WSGIRequestHandler.get_environ" "sw_bottle.sw_get_environ" "_get_environ").

Definition install_celery : stmt :=
  imports ["urllib.parse.urlparse"; "celery.Celery"]
  (Get "_send_task" "Celery.send_task" ;;;
   Set_ "Celery.send_task" "sw_celery.send_task" "_send_task" ;;;
   Get "_task_from_fun" "Celery._task_from_fun" ;;;
   Set_ "Celery._task_from_fun" "sw_celery.task_from_fun" "_task_from_fun").

Definition install_confluent_kafka : stmt :=
  imports ["wrapt"; "confluent_kafka"]
  (Get "_producer" "confluent_kafka.Producer" ;;;
   Set_ "confluent_kafka.Producer" "sw_confluent_kafka.ProxyProducer" "_producer" ;;;
   Get "_consumer" "confluent_kafka.Consumer" ;;;
   Set_ "confluent_kafka.Consumer" "sw_confluent_kafka.ProxyConsumer" "_consumer").

Definition install_django : stmt :=
  imports ["django.core.handlers.base.BaseHandler"; "django.core.handlers.exception"]
  (Get "_get_response" "BaseHandler.get_response" ;;;
   Get "_handle_uncaught_exception" "exception.handle_uncaught_exception" ;;;
   Set_ "BaseHandler.get_response" "sw_django._sw_get_response" "_get_response" ;;;
   Set_ "exception.handle_uncaught_exception" "sw_django._sw_handle_uncaught_exception" "_handle_uncaught_exception").

Definition install_elasticsearch : stmt :=
  Import "elasticsearch.Transport" ;;;
  Get "_perform_request" "Transport.perform_request" ;;;
  Set_ "Transport.perform_request" "sw_elasticsearch._sw_perform_request" "_perform_request".

Definition install_falcon : stmt :=
  imports ["falcon.API"; "falcon.request"; "falcon.RequestOptions"]
  (Get "_original_falcon_api" "falcon.API.__call__" ;;;
   Set_ "falcon.API.__call__" "sw_falcon._sw_falcon_api" "_original_falcon_api").

Definition install_falcon_v3 : stmt :=
  Import "falcon.App" ;;;
  Get "_original_falcon_app" "falcon.App.__call__" ;;;
  Set_ "falcon.App.__call__" "sw_falcon_v3._sw_falcon_app" "_original_falcon_app".

Definition install_fastapi : stmt :=
  imports ["starlette.types.Receive"; "starlette.types.Scope"; "starlette.types.Send";
    "starlette.types.Message"]
  (TryImport (Import "starlette.middleware.exceptions.ExceptionMiddleware")
    (Import "starlette.exceptions.ExceptionMiddleware") ;;;
   Import "starlette.requests.Request" ;;;
   Import "starlette.websockets.WebSocket" ;;;
   Get "_original_fast_api" "ExceptionMiddleware.__call__" ;;;
   Set_ "ExceptionMiddleware.__call__" "sw_fastapi._sw_fast_api" "_original_fast_api").

Definition install_flask : stmt :=
  Import "flask.Flask" ;;;
  Get "_full_dispatch_request" "Flask.full_dispatch_request" ;;;
  Get "_handle_user_exception" "Flask.handle_user_exception" ;;;
  Get "_handle_exception" "Flask.handle_exception" ;;;
  Set_ "Flask.full_dispatch_request" "sw_flask._sw_full_dispatch_request" "_full_dispatch_request" ;;;
  Set_ "Flask.handle_user_exception" "sw_flask._sw_handle_user_exception" "_handle_user_exception" ;;;
  Set_ "Flask.handle_exception" "sw_flask._sw_handle_exception" "_handle_exception".

Definition install_grpc : stmt :=
  imports ["grpc"; "grpc._channel"]
  (Get "_grpc_channel" "grpc._channel.Channel" ;;;
   Set_ "grpc._channel.Channel" "sw_grpc._sw_grpc_channel_factory" "_grpc_channel" ;;;
   Get "_grpc_server" "grpc.server" ;;;
   Set_ "grpc.server" "sw_grpc._sw_grpc_server" "_grpc_server" ;;;
   Import "grpc" ;;;
   Import "grpc.aio._channel" ;;;
   Get "_aio_grpc_channel" "grpc.aio._channel.Channel" ;;;
   Set_ "grpc.aio._channel.Channel" "sw_grpc._SWAioChannel" "_aio_grpc_channel" ;;;
   Get "_grpc_aio_server" "grpc.aio.server" ;;;
   Set_ "grpc.aio.server" "sw_grpc._sw_grpc_aio_server" "_grpc_aio_server").

Definition install_happybase : stmt :=
  imports ["happybase.Table"; "happybase.Connection"]
  (Get "_row" "Table.row" ;;;
   Get "_rows" "Table.rows" ;;;
   Get "_cells" "Table.cells" ;;;
   Get "_scan" "Table.scan" ;;;
   Get "_put" "Table.put" ;;;
   Get "_delete" "Table.delete" ;;;
   Get "_create_table" "happybase.Connection.create_table" ;;;
   Set_ "Table.row" "sw_happybase._sw_row" "_row" ;;;
   Set_ "Table.rows" "sw_happybase._sw_rows" "_rows" ;;;
   Set_ "Table.cells" "sw_happybase._sw_cells" "_cells" ;;;
   Set_ "Table.scan" "sw_happybase._sw_scan" "_scan" ;;;
   Set_ "Table.put" "sw_happybase._sw_put" "_put" ;;;
   Set_ "Table.delete" "sw_happybase._sw_delete" "_delete" ;;;
   Set_ "happybase.Connection.create_table" "sw_happybase._sw_create_table" "_create_table").

Definition install_http_server : stmt :=
  Import "http.server.BaseHTTPRequestHandler" ;;;
  Get "_handle" "BaseHTTPRequestHandler.handle" ;;;
  Set_ "BaseHTTPRequestHandler.handle" "sw_http_server._sw_handle" "_handle" ;;;
  Get "_send_response_only" "BaseHTTPRequestHandler.send_response_only" ;;;
  Set_ "BaseHTTPRequestHandler.send_response_only" "sw_http_server._sw_send_response_only" "_send_response_only".

Definition install_httpx : stmt :=
  imports ["httpx._client"; "httpx.USE_CLIENT_DEFAULT"]
  (Get "_async_send" "_client.AsyncClient.send" ;;;
   Get "_send" "_client.Client.send" ;;;
   Set_ "_client.AsyncClient.send" "sw_httpx._sw_async_send" "_async_send" ;;;
   Set_ "_client.Client.send" "sw_httpx._sw_send" "_send").

Definition install_kafka : stmt :=
  imports ["kafka.KafkaProducer"; "kafka.KafkaConsumer"]
  (Get "_send" "KafkaProducer.send" ;;;
   Get "__poll_once" "KafkaConsumer._poll_once" ;;;
   Set_ "KafkaProducer.send" "sw_kafka._sw_send" "_send" ;;;
   Set_ "KafkaConsumer._poll_once" "sw_kafka._sw__poll_once" "__poll_once").

Definition install_loguru : stmt :=
  If LogReporterActive (
    Import "loguru.logger" ;;;
    Get "sinks" "loguru.logger sinks" ;;;
    Set_ "loguru.logger sinks" "sw_loguru._sw_sink" "sinks")
    Skip.

Definition install_mysqlclient : stmt :=
  imports ["wrapt"; "MySQLdb"]
  (If (HasAttr "MySQLdb.install_as_MySQLdb") RaiseImportError Skip ;;;
   Get "_connect" "MySQLdb.connect" ;;;
   Set_ "MySQLdb.connect" "sw_mysqlclient._sw_connect" "_connect").

Definition install_neo4j : stmt :=
  imports ["neo4j.AsyncSession"; "neo4j.Session"; "neo4j._sync.work.transaction.TransactionBase";
    "neo4j._async.work.transaction.AsyncTransactionBase"]
  (Get "_session_run" "neo4j.Session.run" ;;;
   Get "_async_session_run" "AsyncSession.run" ;;;
   Get "_transaction_run" "TransactionBase.run" ;;;
   Get "_async_transaction_run" "AsyncTransactionBase.run" ;;;
   Set_ "neo4j.Session.run" "sw_neo4j._sw_session_run" "_session_run" ;;;
   Set_ "AsyncSession.run" "sw_neo4j._sw_async_session_run" "_async_session_run" ;;;
   Set_ "TransactionBase.run" "sw_neo4j._sw_transaction_run" "_transaction_run" ;;;
   Set_ "AsyncTransactionBase.run" "sw_neo4j._sw_async_transaction_run" "_async_transaction_run").

Definition install_psycopg : stmt :=
  imports ["wrapt"; "psycopg"]
  (Get "_connect" "psycopg.Connection.connect" ;;;
   Set_ "psycopg.Connection.connect" "sw_psycopg.connect" "_connect" ;;;
   Set_ "psycopg.connect" "sw_psycopg.connect" "_connect" ;;;
   Import "wrapt" ;;;
   Import "psycopg" ;;;
   Get "_aconnect" "psycopg.AsyncConnection.connect" ;;;
   Set_ "psycopg.AsyncConnection.connect" "sw_psycopg.aconnect" "_aconnect").

Definition install_psycopg2 : stmt :=
  imports ["wrapt"; "psycopg2"]
  (Get "_connect" "psycopg2.connect" ;;;
   Set_ "psycopg2.connect" "sw_psycopg2.connect" "_connect" ;;;
   TryPass (
    Import "psycopg2._psycopg.register_type" ;;;
    Get "_register_type" "psycopg2._psycopg.register_type" ;;;
    TryPass (Import "psycopg2._ipaddress" ;;;
      If (IsFunction "psycopg2._ipaddress.register_type" "_register_type")
        (Set_ "psycopg2._ipaddress.register_type" "sw_psycopg2.register_type" "_register_type") Skip) ;;;
    TryPass (Import "psycopg2._ipaddress" ;;;
      If (IsFunction "psycopg2._json.register_type" "_register_type")
        (Set_ "psycopg2._json.register_type" "sw_psycopg2.register_type" "_register_type") Skip) ;;;
    TryPass (Import "psycopg2._ipaddress" ;;;
      If (IsFunction "psycopg2._range.register_type" "_register_type")
        (Set_ "psycopg2._range.register_type" "sw_psycopg2.register_type" "_register_type") Skip) ;;;
    TryPass (Import "psycopg2._ipaddress" ;;;
      If (IsFunction "psycopg2.extensions.register_type" "_register_type")
        (Set_ "psycopg2.extensions.register_type" "sw_psycopg2.register_type" "_register_type") Skip))).

Definition install_pulsar : stmt :=
  imports ["pulsar.Producer"; "pulsar.Consumer"; "pulsar.Client"]
  (Get "__init" "Client.__init__" ;;;
   Get "_send" "Producer.send" ;;;
   Get "_receive" "Consumer.receive" ;;;
   Set_ "Client.__init__" "sw_pulsar._sw_init" "__init" ;;;
   Set_ "Producer.send" "sw_pulsar._sw_send" "_send" ;;;
   Set_ "Consumer.receive" "sw_pulsar._sw_receive" "_receive").

Definition install_pymongo : stmt :=
  imports ["pymongo.bulk._Bulk"; "pymongo.cursor.Cursor"; "pymongo.pool.SocketInfo"]
  (Get "_execute" "_Bulk.execute" ;;;
   Set_ "_Bulk.execute" "sw_pymongo._sw_execute" "_execute" ;;;
   Get "__send_message" "pymongo.Cursor._Cursor__send_message" ;;;
   Set_ "pymongo.Cursor._Cursor__send_message" "sw_pymongo._sw_send_message" "__send_message" ;;;
   Get "_command" "SocketInfo.command" ;;;
   Set_ "SocketInfo.command" "sw_pymongo._sw_command" "_command").

Definition install_pymysql : stmt :=
  Import "pymysql.cursors.Cursor" ;;;
  Get "_execute" "pymysql.Cursor.execute" ;;;
  Set_ "pymysql.Cursor.execute" "sw_pymysql._sw_execute" "_execute".

Definition install_pyramid : stmt :=
  Import "pyramid.router.Router" ;;;
  Get "_invoke_request" "Router.invoke_request" ;;;
  Set_ "Router.invoke_request" "sw_pyramid._sw_invoke_request" "_invoke_request".

Definition install_rabbitmq : stmt :=
  imports ["pika.channel.Channel"; "pika.adapters.blocking_connection.BlockingChannel"]
  (Get "_basic_publish" "pika.Channel.basic_publish" ;;;
   Set_ "pika.Channel.basic_publish" "sw_rabbitmq._sw_basic_publish" "_basic_publish" ;;;
   Get "__on_deliver" "pika.Channel._on_deliver" ;;;
   Import "pika.adapters.blocking_connection.BlockingChannel" ;;;
   Set_ "pika.Channel._on_deliver" "sw_rabbitmq._sw__on_deliver" "__on_deliver" ;;;
   Get "_sw_blocking_basic_consume_func.func" "BlockingChannel.basic_consume" ;;;
   Set_ "BlockingChannel.basic_consume" "sw_rabbitmq._sw_basic_consume" "_sw_blocking_basic_consume_func.func" ;;;
   Get "_sw_blocking_basic_get_func.func" "BlockingChannel.basic_get" ;;;
   Set_ "BlockingChannel.basic_get" "sw_rabbitmq._sw_basic_get" "_sw_blocking_basic_get_func.func" ;;;
   Get "_sw_blocking_consume_func.func" "BlockingChannel.consume" ;;;
   Set_ "BlockingChannel.consume" "sw_rabbitmq._sw_consume" "_sw_blocking_consume_func.func").

Definition install_redis : stmt :=
  Import "redis.connection.Connection" ;;;
  Get "_send_command" "redis.Connection.send_command" ;;;
  Set_ "redis.Connection.send_command" "sw_redis._sw_send_command" "_send_command".

Definition install_requests : stmt :=
  Import "requests.Session" ;;;
  Get "_request" "requests.Session.request" ;;;
  Set_ "requests.Session.request" "sw_requests._sw_request" "_request".

Definition install_sanic : stmt :=
  imports ["sanic.Sanic"; "sanic.handlers"; "sanic.response"]
  (Get "_format_http1_response" "sanic.response.format_http1_response" ;;;
   Get "_handle_request" "Sanic.handle_request" ;;;
   Get "_handlers_ErrorHandler_response" "ErrorHandler.response" ;;;
   Set_ "sanic.response.format_http1_response" "sw_sanic._sw_format_http1_response" "_format_http1_response" ;;;
   Import "inspect.isawaitable" ;;;
   Set_ "Sanic.handle_request" "sw_sanic._sw_handle_request" "_handle_request" ;;;
   Set_ "ErrorHandler.response" "sw_sanic._sw_handlers_ErrorHandler_response" "_handlers_ErrorHandler_response").

Definition install_sanic_v2 : stmt :=
  imports ["sanic.Sanic"; "inspect"]
  (If (HasParam "Sanic.handle_request" "write_callback") Skip (
    Get "_original_init" "Sanic.__init__" ;;;
    Set_ "Sanic.__init__" "sw_sanic_v2._sw_init" "_original_init")).

Definition install_tornado : stmt :=
  Import "tornado.web.RequestHandler" ;;;
  Get "old_execute" "tornado.RequestHandler._execute" ;;;
  Get "old_log_exception" "tornado.RequestHandler.log_exception" ;;;
  Import "tornado.gen.coroutine" ;;;
  Set_ "tornado.RequestHandler._execute" "sw_tornado._sw_get_response" "old_execute" ;;;
  Set_ "tornado.RequestHandler.log_exception" "sw_tornado._sw_handler_uncaught_exception" "old_log_exception".

Definition install_urllib3 : stmt :=
  Import "urllib3.request.RequestMethods" ;;;
  Get "_request" "RequestMethods.request" ;;;
  Set_ "RequestMethods.request" "sw_urllib3._sw_request" "_request".

Definition install_urllib3_v2 : stmt :=
  Import "urllib3.PoolManager" ;;;
  If (Importable "urllib3.request.RequestMethods") Skip (
    Get "_request" "PoolManager.request" ;;;
    Set_ "PoolManager.request" "sw_urllib3_v2._sw_request" "_request").

Definition install_urllib_request : stmt :=
  imports ["socket"; "urllib.request.OpenerDirector"; "urllib.error.HTTPError"]
  (Get "_open" "OpenerDirector.open" ;;;
   Set_ "OpenerDirector.open" "sw_urllib_request._sw_open" "_open").

Definition install_websockets : stmt :=
  Import "websockets" ;;;
  TryImport (
    Import "websockets.legacy.client.WebSocketClientProtocol" ;;;
    Get "_protocol_handshake_client" "WebSocketClientProtocol.handshake" ;;;
    Set_ "WebSocketClientProtocol.handshake" "sw_websockets._sw_protocol_handshake_client" "_protocol_handshake_client")
    Skip ;;;
  TryImport (
    Import "websockets.asyncio.client.ClientConnection" ;;;
    Get "_connection_handshake" "ClientConnection.handshake" ;;;
    Set_ "ClientConnection.handshake" "sw_websockets._sw_connection_handshake" "_connection_handshake")
    Skip.

(** log/__init__.py: installing the wrapper of [Logger.handle]; an exception is logged. *)
Definition install_logging : stmt :=
  TryPass (Import "logging.Logger" ;;; Get "_handle" "Logger.handle" ;;;
           Set_ "Logger.handle" "sw_logging._sw_handle" "_handle").

(** The plugins in the order [pkgutil.iter_modules] yields them. *)
Definition shipped_plugins : list (string * stmt) := [
  ("sw_aiohttp", install_aiohttp);
  ("sw_aioredis", install_aioredis);
  ("sw_aiormq", install_aiormq);
  ("sw_amqp", install_amqp);
  ("sw_asyncpg", install_asyncpg);
  ("sw_bottle", install_bottle);
  ("sw_celery", install_celery);
  ("sw_confluent_kafka", install_confluent_kafka);
  ("sw_django", install_django);
  ("sw_elasticsearch", install_elasticsearch);
  ("sw_falcon", install_falcon);
  ("sw_falcon_v3", install_falcon_v3);
  ("sw_fastapi", install_fastapi);
  ("sw_flask", install_flask);
  ("sw_grpc", install_grpc);
  ("sw_happybase", install_happybase);
  ("sw_http_server", install_http_server);
  ("sw_httpx", install_httpx);
  ("sw_kafka", install_kafka);
  ("sw_loguru", install_loguru);
  ("sw_mysqlclient", install_mysqlclient);
  ("sw_neo4j", install_neo4j);
  ("sw_psycopg", install_psycopg);
  ("sw_psycopg2", install_psycopg2);
  ("sw_pulsar", install_pulsar);
  ("sw_pymongo", install_pymongo);
  ("sw_pymysql", install_pymysql);
  ("sw_pyramid", install_pyramid);
  ("sw_rabbitmq", install_rabbitmq);
  ("sw_redis", install_redis);
  ("sw_requests", install_requests);
  ("sw_sanic", install_sanic);
  ("sw_sanic_v2", install_sanic_v2);
  ("sw_tornado", install_tornado);
  ("sw_urllib3", install_urllib3);
  ("sw_urllib3_v2", install_urllib3_v2);
  ("sw_urllib_request", install_urllib_request);
  ("sw_websockets", install_websockets)].

(** ** A static analysis of the install functions

    It collects the attributes that may have been assigned, the attribute each local
    variable was read from and the wrappers that may be in place; it fails on a function that
    reads an attribute after it may have been assigned, since a wrapper would then be
    wrapped. *)

Record Abs := mkAbs {
  assigned : list string;
  origins : list (string * string);
  wiring : list (string * string * string)
}.

Definition wires (A : Abs) (a w x : string) : list (string * string * string) :=
  (fun o => (a, w, o.2)) <$> filter (fun o => o.1 = x) (origins A).

Fixpoint analyse (s : stmt) (A : Abs) : option Abs :=
  match s with
  | Skip | Import _ | RaiseImportError => Some A
  | Seq s1 s2 | If _ s1 s2 | TryImport s1 s2 => A1 ← analyse s1 A; analyse s2 A1
  | Get x a =>
      if bool_decide (a ∈ assigned A) then None else Some (mkAbs (assigned A) ((x, a) :: origins A) (wiring A))
  | Set_ a w x => Some (mkAbs (a :: assigned A) (origins A) (wires A a w x ++ wiring A))
  | TryPass s => analyse s A
  end.

Fixpoint analyse_all (plugins : list (string * stmt)) (A : Abs) : option Abs :=
  match plugins with
  | [] => Some A
  | p :: ps => A1 ← analyse p.2 (mkAbs (assigned A) [] (wiring A)); analyse_all ps A1
  end.

(** What the analysis says of a state reached from the attributes [m]. *)
Record describes (m : gmap string impl) (A : Abs) (st : St) : Prop := {
  desc_untouched a : a ∉ assigned A -> attrs st !! a = m !! a;
  desc_wrapped a : attrs st !! a = m !! a ∨
    ∃ w b i, (a, w, b) ∈ wiring A ∧ m !! b = Some i ∧ attrs st !! a = Some (Wrap w i);
  desc_locals x i : locals st !! x = Some i -> ∃ b, (x, b) ∈ origins A ∧ m !! b = Some i
}.

Record abs_le (A B : Abs) : Prop := {
  le_assigned : assigned A ⊆ assigned B;
  le_origins : origins A ⊆ origins B;
  le_wiring : wiring A ⊆ wiring B
}.

Lemma abs_le_refl A : abs_le A A.
Proof. by split. Qed.

Lemma abs_le_trans A B C : abs_le A B -> abs_le B C -> abs_le A C.
Proof. intros [H1 H2 H3] [H4 H5 H6]. split; by etrans. Qed.

Lemma analyse_grows s : ∀ A B, analyse s A = Some B -> abs_le A B.
Proof.
  induction s; intros A B H; cbn [analyse] in H; try (injection H as <-; apply abs_le_refl);
    try (apply bind_Some in H as (A1 & H1 & H2); eauto using abs_le_trans).
  - destruct (bool_decide _); [done|]. injection H as <-. split; cbn; set_solver.
  - injection H as <-. split; cbn; set_solver.
  - eauto.
Qed.

Lemma describes_le m A B st : abs_le A B -> describes m A st -> describes m B st.
Proof.
  intros [Ha Ho Hw] [H1 H2 H3]. split.
  - intros a Hn. apply H1. set_solver.
  - intros a. destruct (H2 a) as [E | (w & b & i & Hin & Hb & E)]; [by left | right].
    exists w, b, i. split; [by apply Hw | done].
  - intros x i Hx. destruct (H3 x i Hx) as (b & Hin & Hb). exists b. split; [by apply Ho | done].
Qed.

(** Reading an attribute and testing a condition change nothing. *)
Lemma read_same a st : (read a st).1 = st ∧ ∀ e, (read a st).2 = Raise e -> is_Exception e = true.
Proof. unfold read. unfold_m. destruct (attrs st !! a); cbn; split; try done. by intros e [= <-]. Qed.

Lemma read_ok a st i : read a st = (st, Ok i) <-> attrs st !! a = Some i.
Proof. unfold read. unfold_m. destruct (attrs st !! a); cbn; split; congruence. Qed.

Lemma test_same env c st : (test env c st).1 = st ∧ ∀ e, (test env c st).2 = Raise e -> is_Exception e = true.
Proof.
  assert (∀ a (f : impl -> M St bool), (∀ i, ∃ b, f i st = (st, Ok b)) ->
    ((i ← read a; f i) st).1 = st ∧ ∀ e, ((i ← read a; f i) st).2 = Raise e -> is_Exception e = true) as H.
  { intros a f Hf. unfold read. unfold_m. destruct (attrs st !! a) as [i|]; cbn.
    - by destruct (Hf i) as [b ->].
    - split; [done|]. by intros e [= <-]. }
  destruct c as [m|a|a p|a x|]; try done; apply H; intros i; by eexists.
Qed.

Lemma exec_exception env s : ∀ st e, (exec env s st).2 = Raise e -> is_Exception e = true.
Proof.
  induction s as [|s1 IH1 s2 IH2|m|x a|a w x| |c s1 IH1 s2 IH2|s IH1 h IH2|s IH]; intros st e; cbn [exec]; try done.
  - unfold_m. specialize (IH1 st). destruct (exec env s1 st) as [st1 [[]|e1]]; [apply IH2 | apply IH1].
  - destruct (importable env m); [done|]. by intros [= <-].
  - unfold_m. pose proof (read_same a st) as [_ H]. destruct (read a st) as [st1 [i|e1]]; [done|].
    cbn. intros [= <-]. by apply H.
  - unfold_m. destruct (locals st !! x); [done|]. by intros [= <-].
  - by intros [= <-].
  - unfold_m. pose proof (test_same env c st) as [_ H].
    destruct (test env c st) as [st1 [[]|e1]]; [apply IH1 | apply IH2 |]. cbn. intros [= <-]. by apply H.
  - unfold try_except. specialize (IH1 st). destruct (exec env s st) as [st1 [[]|e1]]; [done|].
    destruct (bool_decide (e1 = ImportError)); [apply IH2|]. cbn. intros [= <-]. by apply IH1.
  - unfold try_except. specialize (IH st). destruct (exec env s st) as [st1 [[]|e1]]; [done|].
    destruct (is_Exception e1) eqn:He; [done|]. cbn. intros [= <-]. by apply IH.
Qed.

(** The analysis describes every run, also one that an exception ends. *)
Lemma analyse_sound env m s : ∀ A B st,
  analyse s A = Some B -> describes m A st -> describes m B (exec env s st).1.
Proof.
  induction s as [|s1 IH1 s2 IH2|n|x a|a w x| |c s1 IH1 s2 IH2|s IH1 h IH2|s IH]; intros A B st H D;
    cbn [analyse] in H; cbn [exec]; try (injection H as <-; done).
  - apply bind_Some in H as (A1 & H1 & H2). unfold_m. specialize (IH1 _ _ _ H1 D).
    destruct (exec env s1 st) as [st1 [[]|e1]]; [by apply (IH2 A1)|].
    by eapply describes_le; [apply (analyse_grows s2)|].
  - injection H as <-. by destruct (importable env n).
  - destruct (bool_decide_reflect (a ∈ assigned A)) as [|Hn]; [done|]. injection H as <-.
    assert (describes m (mkAbs (assigned A) ((x, a) :: origins A) (wiring A)) st) as D'.
    { eapply describes_le; [|exact D]. split; cbn; set_solver. }
    unfold_m. unfold read. unfold_m. destruct (attrs st !! a) as [i|] eqn:Ei; [|done]. cbn. destruct D' as [D1 D2 D3].
    split; [done | done |]. intros y j. cbn. destruct (decide (x = y)) as [->|Hy].
    + rewrite lookup_insert_eq. intros [= <-]. exists a. split; [left|].
      by rewrite <- (desc_untouched _ _ _ D a Hn).
    + rewrite lookup_insert_ne by done. apply D3.
  - injection H as <-. unfold_m. destruct (locals st !! x) as [i|] eqn:Ex; cbn.
    + destruct (desc_locals _ _ _ D x i Ex) as (b & Hb & Hm). split; cbn.
      * intros c Hc. rewrite lookup_insert_ne by set_solver. apply (desc_untouched _ _ _ D). set_solver.
      * intros c. destruct (decide (a = c)) as [<-|Hc].
        -- right. exists w, b, i. rewrite lookup_insert_eq. split; [|done]. apply elem_of_app. left.
           unfold wires. apply list_elem_of_fmap. exists (x, b). split; [done|]. by apply list_elem_of_filter.
        -- rewrite lookup_insert_ne by done. destruct (desc_wrapped _ _ _ D c) as [E | (w' & b' & i' & Hin & H')]; [by left|].
           right. exists w', b', i'. split; [apply elem_of_app; by right | done].
      * apply (desc_locals _ _ _ D).
    + eapply describes_le; [|exact D]. split; cbn; set_solver.
  - apply bind_Some in H as (A1 & H1 & H2). unfold_m. pose proof (test_same env c st) as [E _].
    destruct (test env c st) as [st1 [b|e1]]; cbn in E; subst st1.
    + destruct b.
      * eapply describes_le; [apply (analyse_grows s2 _ _ H2)|]. by apply (IH1 A).
      * apply (IH2 A1); [done|]. eapply describes_le; [apply (analyse_grows s1 _ _ H1) | done].
    + eapply describes_le; [|exact D]. eauto using abs_le_trans, analyse_grows.
  - apply bind_Some in H as (A1 & H1 & H2). unfold try_except. specialize (IH1 _ _ _ H1 D).
    destruct (exec env s st) as [st1 [[]|e1]]; cbn in *.
    + by eapply describes_le; [apply (analyse_grows h)|].
    + destruct (bool_decide (e1 = ImportError)); [by apply (IH2 A1)|].
      by eapply describes_le; [apply (analyse_grows h)|].
  - unfold try_except. specialize (IH _ _ _ H D). destruct (exec env s st) as [st1 [[]|e1]]; [done|].
    by destruct (is_Exception e1).
Qed.

(** Between two plugins only the attributes matter. *)
Definition tracks (m : gmap string impl) (A : Abs) (st : St) : Prop :=
  (∀ a, a ∉ assigned A -> attrs st !! a = m !! a) ∧
  ∀ a, attrs st !! a = m !! a ∨ ∃ w b i, (a, w, b) ∈ wiring A ∧ m !! b = Some i ∧ attrs st !! a = Some (Wrap w i).

Lemma tracks_le m A B st :
  assigned A ⊆ assigned B -> wiring A ⊆ wiring B -> tracks m A st -> tracks m B st.
Proof.
  intros Ha Hw [H1 H2]. split; [intros a Hn; apply H1; set_solver|].
  intros a. destruct (H2 a) as [E | (w & b & i & Hin & H')]; [by left | right]. exists w, b, i. split; [by apply Hw | done].
Qed.

Lemma install_plugin_sound env m p A B st :
  analyse p.2 (mkAbs (assigned A) [] (wiring A)) = Some B -> tracks m A st ->
  ∃ st', install_plugin env p st = (st', Ok tt) ∧ tracks m B st'.
Proof.
  intros H [T1 T2]. unfold install_plugin. erewrite bind_ok by reflexivity. unfold try_except.
  assert (describes m (mkAbs (assigned A) [] (wiring A)) (mkSt (attrs st) ∅)) as D0.
  { split; [done..|]. intros x i. cbn. by rewrite lookup_empty. }
  pose proof (analyse_sound env m p.2 _ _ _ H D0) as [D1 D2 _].
  pose proof (exec_exception env p.2 (mkSt (attrs st) ∅)) as He.
  destruct (exec env p.2 (mkSt (attrs st) ∅)) as [st1 [[]|e]]; cbn in *; [by exists st1|].
  rewrite (He e eq_refl). by exists st1.
Qed.

Lemma install_plugins_sound env m enabled plugins : ∀ A B st,
  analyse_all plugins A = Some B -> tracks m A st ->
  ∃ st', install_plugins env enabled plugins st = (st', Ok tt) ∧ tracks m B st'.
Proof.
  unfold install_plugins. induction plugins as [|p ps IH]; intros A B st H T; cbn [analyse_all List.filter] in *.
  - injection H as <-. by exists st.
  - apply bind_Some in H as (A1 & H1 & H2). destruct (enabled p.1).
    + destruct (install_plugin_sound env m p A A1 st H1 T) as (st1 & E1 & T1).
      destruct (IH A1 B st1 H2 T1) as (st2 & E2 & T2). exists st2. split; [|done]. cbn [for_each].
      by rewrite (bind_ok _ _ _ _ _ E1).
    + apply (IH A1 B st H2). apply analyse_grows in H1 as [Ha _ Hw]. by apply (tracks_le m A).
Qed.

(** The wrappers the plugins of the repository may put in place: attribute, wrapper, and the
    attribute the wrapped function was read from. *)
Definition shipped_wiring : list (string * string * string) :=
  from_option wiring [] (analyse_all shipped_plugins (mkAbs [] [] [])).

(** The attributes that get the wrapper of another one. *)
Definition aliases : list (string * string) := [
  ("amqp.Channel._basic_publish", "amqp.Channel.basic_publish");
  ("psycopg.connect", "psycopg.Connection.connect");
  ("psycopg2._ipaddress.register_type", "psycopg2._psycopg.register_type");
  ("psycopg2._json.register_type", "psycopg2._psycopg.register_type");
  ("psycopg2._range.register_type", "psycopg2._psycopg.register_type");
  ("psycopg2.extensions.register_type", "psycopg2._psycopg.register_type")].

Lemma shipped_analysed : is_Some (analyse_all shipped_plugins (mkAbs [] [] [])).
Proof. vm_compute. by eexists. Qed.

Lemma shipped_wiring_own a w b : (a, w, b) ∈ shipped_wiring -> a = b ∨ (a, b) ∈ aliases.
Proof.
  assert (forallb (fun t => bool_decide (t.1.1 = t.2) || bool_decide ((t.1.1, t.2) ∈ aliases)) shipped_wiring = true) as H.
  { vm_compute. reflexivity. }
  rewrite forallb_forall in H. intros Hin%list_elem_of_In. apply H in Hin. cbn in Hin.
  apply orb_true_iff in Hin as [Hin | Hin]; apply bool_decide_eq_true_1 in Hin; auto.
Qed.

(** C15. Whatever libraries are there, in whatever version, and whichever plugins are disabled:
    installing the plugins of the repository returns, and every attribute of the program
    either holds what it held before or one wrapper around the function that this very
    attribute held (for six aliases, the function they stand for).  No attribute is wrapped
    twice, no wrapper ends up around another plugin's wrapper, and none is bound to the wrong
    function. *)
Theorem plugins_wrap_once env enabled st :
  ∃ st', install_plugins env enabled shipped_plugins st = (st', Ok tt) ∧
    ∀ a, attrs st' !! a = attrs st !! a ∨
      ∃ w b i, (a = b ∨ (a, b) ∈ aliases) ∧ attrs st !! b = Some i ∧ attrs st' !! a = Some (Wrap w i).
Proof.
  destruct shipped_analysed as [B HB].
  assert (tracks (attrs st) (mkAbs [] [] []) st) as T0 by (split; [intros a _; reflexivity | intros a; left; reflexivity]).
  destruct (install_plugins_sound env (attrs st) enabled shipped_plugins _ B st HB T0) as (st' & E & _ & T).
  exists st'. split; [exact E|]. intros a. destruct (T a) as [|(w & b & i & Hin & Hb & Ha)]; [left; assumption|].
  right. exists w, b, i. split; [|split; assumption]. apply (shipped_wiring_own a w b). unfold shipped_wiring.
  rewrite HB. exact Hin.
Qed.

(** ** Half-installed plugins *)

(** The rest of a function that only assigns wrappers of functions it has read. *)
Fixpoint only_sets (vs : list string) (s : stmt) : bool :=
  match s with
  | Seq s1 s2 => only_sets vs s1 && only_sets vs s2
  | Set_ _ _ x => bool_decide (x ∈ vs)
  | Skip => true
  | _ => false
  end.

(** Imports and tests only. *)
Fixpoint no_sets (s : stmt) : bool :=
  match s with
  | Seq s1 s2 | If _ s1 s2 | TryImport s1 s2 => no_sets s1 && no_sets s2
  | TryPass s => no_sets s
  | Set_ _ _ _ => false
  | _ => true
  end.

(** Everything is imported and read before the first assignment. *)
Fixpoint reads_first (vs : list string) (s : stmt) : bool :=
  only_sets vs s || no_sets s ||
  match s with
  | Seq (Get x _) s2 => reads_first (x :: vs) s2
  | Seq s1 s2 => no_sets s1 && reads_first vs s2
  | If _ s1 s2 => reads_first vs s1 && reads_first vs s2
  | _ => false
  end.

(** The variables in [vs] are bound. *)
Definition bound (vs : list string) (st : St) : Prop := ∀ x, x ∈ vs -> is_Some (locals st !! x).

Lemma only_sets_runs env vs s : ∀ st,
  only_sets vs s = true -> bound vs st ->
  ∃ st', exec env s st = (st', Ok tt) ∧ locals st' = locals st.
Proof.
  induction s; intros st H Hb; cbn [only_sets] in H; try done.
  - by exists st.
  - apply andb_true_iff in H as [H1 H2]. destruct (IHs1 st H1 Hb) as (st1 & E1 & L1).
    destruct (IHs2 st1 H2) as (st2 & E2 & L2); [unfold bound; by rewrite L1|].
    exists st2. split; [cbn [exec]; by rewrite (bind_ok _ _ _ _ _ E1) | by rewrite L2].
  - apply bool_decide_eq_true_1 in H. destruct (Hb x H) as [i Hi]. exists (mkSt (<[a := Wrap w i]> (attrs st)) (locals st)). split; [|reflexivity].
    cbn [exec]. unfold_m. rewrite Hi. reflexivity.
Qed.

Lemma no_sets_attrs env s : ∀ st,
  no_sets s = true -> attrs (exec env s st).1 = attrs st ∧ ∀ x, is_Some (locals st !! x) -> is_Some (locals (exec env s st).1 !! x).
Proof.
  induction s as [|s1 IH1 s2 IH2|n|x a|a w x| |c s1 IH1 s2 IH2|s IH1 h IH2|s IH]; intros st H; cbn [no_sets] in H; try done;
    cbn [exec]; try (apply andb_true_iff in H as [H1 H2]).
  - unfold_m. destruct (IH1 st H1) as [A1 L1]. destruct (exec env s1 st) as [st1 [[]|e]]; [|done]. cbn in *.
    destruct (IH2 st1 H2) as [A2 L2]. split; [by rewrite A2 | auto].
  - by destruct (importable env n).
  - unfold_m. unfold read. unfold_m. destruct (attrs st !! a) as [i|]; [|done]. cbn. split; [done|].
    intros y Hy. apply lookup_insert_is_Some'. by right.
  - unfold_m. pose proof (test_same env c st) as [E _]. destruct (test env c st) as [st1 [[]|e]]; cbn in E; subst st1;
      [by apply IH1 | by apply IH2 | done].
  - unfold try_except. destruct (IH1 st H1) as [A1 L1]. destruct (exec env s st) as [st1 [[]|e]]; [done|]. cbn in *.
    destruct (bool_decide (e = ImportError)); [|done]. destruct (IH2 st1 H2) as [A2 L2]. split; [by rewrite A2 | auto].
  - unfold try_except. destruct (IH st H) as [A1 L1]. destruct (exec env s st) as [st1 [[]|e]]; [done|]. cbn in *.
    by destruct (is_Exception e).
Qed.

(** A function that reads first is installed as a whole or not at all. *)
Lemma reads_first_atomic env s : ∀ vs st e,
  reads_first vs s = true -> bound vs st -> (exec env s st).2 = Raise e -> attrs (exec env s st).1 = attrs st.
Proof.
  assert (∀ s vs st e, only_sets vs s = true ∨ no_sets s = true -> bound vs st ->
    (exec env s st).2 = Raise e -> attrs (exec env s st).1 = attrs st) as Hbase.
  { intros s' vs st e [H|H] Hb He; [|by apply no_sets_attrs].
    destruct (only_sets_runs env vs s' st H Hb) as (st' & E & _). by rewrite E in He. }
  induction s as [|s1 IH1 s2 IH2|n|x a|a w x| |c s1 IH1 s2 IH2|s IH1 h IH2|s IH]; intros vs st e H Hb He;
    cbn [reads_first] in H; try (apply (Hbase _ vs st e); [|done..]; rewrite orb_false_r in H; by apply orb_true_iff).
  - apply orb_true_iff in H as [H|H]; [apply (Hbase _ vs st e); [|done..]; by apply orb_true_iff|].
    assert (∀ s1', no_sets s1' = true -> ∀ vs', bound vs' (exec env s1' st).1 -> reads_first vs' s2 = true ->
      (exec env (Seq s1' s2) st).2 = Raise e -> attrs (exec env (Seq s1' s2) st).1 = attrs st) as Hstep.
    { intros s1' Hn vs' Hv Hr. cbn [exec]. unfold_m. destruct (no_sets_attrs env s1' st Hn) as [A1 _].
      destruct (exec env s1' st) as [st1 [[]|e1]]; cbn in *; [|done]. intros He'. rewrite <- A1. by apply (IH2 vs' st1 e). }
    assert (∀ s1', no_sets s1' = true -> bound vs (exec env s1' st).1) as Hkeep.
    { intros s1' Hn y Hy. apply no_sets_attrs; [done|]. by apply Hb. }
    destruct s1; try (apply andb_true_iff in H as [Hn H]; by apply (Hstep _ Hn vs (Hkeep _ Hn) H)).
    destruct (exec env (Get x a) st) as [st1 [[]|e1]] eqn:E1.
    + apply (Hstep (Get x a) eq_refl (x :: vs)); [|done..]. rewrite E1. cbn in E1. unfold read in E1. revert E1. unfold_m.
      destruct (attrs st !! a) as [i|]; [|done]. intros [= <-]. intros y Hy. cbn. apply lookup_insert_is_Some'.
      apply elem_of_cons in Hy as [->|Hy]; [by left | right; by apply Hb].
    + cbn [exec] in *. rewrite (bind_raise _ _ _ _ _ E1). cbn.
      destruct (no_sets_attrs env (Get x a) st eq_refl) as [A _]. cbn [exec] in A. by rewrite E1 in A.
  - apply orb_true_iff in H as [H|H]; [apply (Hbase _ vs st e); [|done..]; by apply orb_true_iff|].
    apply andb_true_iff in H as [H1 H2]. cbn [exec] in *. revert He. unfold_m. pose proof (test_same env c st) as [E _].
    destruct (test env c st) as [st1 [[]|e1]]; cbn in E; subst st1; intros He; [by apply (IH1 vs _ e) | by apply (IH2 vs _ e) | done].
Qed.

(** The plugins whose [install] assigns a wrapper before it has read everything: these can be
    left half in place by a library that lacks one of the names. *)
Definition read_after_set : list string :=
  fst <$> List.filter (fun p => negb (reads_first [] p.2)) shipped_plugins.

Example read_after_set_plugins : read_after_set =
  ["sw_aiohttp"; "sw_celery"; "sw_confluent_kafka"; "sw_grpc"; "sw_http_server"; "sw_psycopg"; "sw_psycopg2";
   "sw_pymongo"; "sw_rabbitmq"; "sw_sanic"; "sw_websockets"].
Proof. vm_compute. reflexivity. Qed.

(** For the others, an [install] that fails leaves every attribute as it was. *)
Theorem failed_install_leaves_no_trace env p st e :
  p ∈ shipped_plugins -> p.1 ∉ read_after_set ->
  (exec env p.2 (mkSt (attrs st) ∅)).2 = Raise e -> attrs (exec env p.2 (mkSt (attrs st) ∅)).1 = attrs st.
Proof.
  intros Hp Hn He. assert (reads_first [] p.2 = true) as Hr.
  { destruct (reads_first [] p.2) eqn:E; [done|]. exfalso. apply Hn. unfold read_after_set. apply list_elem_of_fmap.
    exists p. split; [done|]. apply list_elem_of_In, filter_In. split; [by apply list_elem_of_In|]. by rewrite E. }
  rewrite (reads_first_atomic env p.2 [] (mkSt (attrs st) ∅) e Hr); [done | by intros x ?%elem_of_nil | done].
Qed.
