(* ===== verification/Restart.v ===== *)
(** * Instrumenting a process once per start

    [SkyWalkingAgent.__init_instrumentation] installs the log reporter and the plugins on
    every start of an agent that is not marked as started; [stop] takes the mark away and
    nothing takes the wrappers away.  This file joins the agent's lifecycle (Agent.v), the
    install functions (PluginPatch.v) and the wrapper of [Logger.handle] (LogReport.v). *)

From S2P Require Import Prelude PyData PyText Codec Carrier Config Filter Sampling.
From S2P Require Import TraceData Trace TraceInv TraceSpec TraceProps TracePropagation.
From S2P Require Import Agent AgentProps Profile Scenarios LogReport PluginPatch.

(** ** The instrumentation of one start *)

(** log/__init__.py [install], then plugins/__init__.py [install]. *)
Definition instrument (env : Env) (cfg : Config) (enabled : string -> bool) : M St unit :=
  _ ← (if agent_log_reporter_active cfg
       then _ ← modify (fun st => mkSt (attrs st) ∅); exec env install_logging
       else mret tt);
  install_plugins env enabled shipped_plugins.

(** The attributes after [n] starts that instrument. *)
Fixpoint instrumented (env : Env) (cfg : Config) (enabled : string -> bool) (n : nat) (st : St) : St :=
  match n with
  | O => st
  | S n' => (instrument env cfg enabled (instrumented env cfg enabled n' st)).1
  end.

(** ** Calling an instrumented Logger.handle *)

Section handle.
Context {AG PS : Type} `{!AgentOps AG} `{!ProfileOps PS}.
Context (cfg : Config) (uuid1 : nat -> pystr) (format_exc : Z -> pystr).
Context (sw_formatter : LogRecord -> option pystr -> res pystr).
Abbreviation MW := (M (World AG PS)).

(** The logs one call hands to [agent.archive_log], in order: every layer calls the one it
    wraps first. *)
Fixpoint call_handle (i : impl) (t : nat) (handlers : MW unit) (disabled : bool) (filter : MW bool)
  (record : LogRecord) : MW (list LogData) :=
  match i with
  | Orig _ => _ ← handlers; mret []
  | Wrap _ i' =>
      logs ← call_handle i' t handlers disabled filter record;
      d ← _sw_handle cfg uuid1 format_exc sw_formatter t (mret tt) disabled filter record;
      mret (logs ++ option_list d)
  end.

Lemma one_log_per_layer i w0 w t (handlers : MW unit) disabled (filter : MW bool) pass record level l s x tid rest text :
  handlers w0 = (w, Ok tt) -> filter w = (w, Ok pass) ->
  getLevelName (agent_log_reporter_level cfg) = Some level ->
  last (stack w t) = Some l -> w_spans w !! l = Some s -> w_ctxs w !! context s = Some x ->
  related_traces (segment x) = tid :: rest -> sent_text cfg format_exc sw_formatter record tid = Ok text ->
  reported cfg disabled pass level record = true ->
  ∃ d, call_handle i t handlers disabled filter record w0 = (w, Ok (replicate (layers i) d))
    ∧ ld_text d = sw_filter cfg text ∧ ld_traceContext d = trace_position s x tid.
Proof.
  intros Hh Hf Hlev Hl Hs Hx Hrel Ht Hrep.
  exists (mkLogData (r_created_ms record) (agent_name cfg) (agent_instance_name cfg) (sw_filter cfg text)
    (build_log_tags cfg format_exc record) (trace_position s x tid)
    (match primary_endpoint x with Some p => op (w_spans w !!! p) | None => [] end)).
  split; [|split; reflexivity].
  induction i as [a | wr i IH]; cbn [call_handle layers replicate].
  - by rewrite (bind_ok _ _ _ _ _ Hh).
  - rewrite (bind_ok _ _ _ _ _ IH).
    erewrite bind_ok by (eapply sw_handle_active; [reflexivity | done..]). rewrite Hrep. cbn [option_list].
    unfold mret, M_ret. do 2 f_equal. symmetry. apply (replicate_S_end (layers i)).
Qed.
End handle.

(** ** How often the instrumentation runs *)

Lemma install_logging_runs env st i :
  importable env "logging.Logger"%string = true -> attrs st !! "Logger.handle"%string = Some i ->
  ∃ st', exec env install_logging st = (st', Ok tt) ∧
    attrs st' = <["Logger.handle"%string := Wrap "sw_logging._sw_handle" i]> (attrs st).
Proof.
  intros Hm Hi. unfold install_logging. cbn [exec]. rewrite Hm. unfold try_except.
  unfold read. unfold_m. rewrite Hi. cbn. rewrite lookup_insert_eq. cbn. by eexists.
Qed.

(** No plugin assigns [Logger.handle]. *)
Lemma plugins_leave_logger env enabled st :
  attrs (install_plugins env enabled shipped_plugins st).1 !! "Logger.handle"%string = attrs st !! "Logger.handle"%string.
Proof.
  destruct shipped_analysed as [B HB].
  assert (tracks (attrs st) (mkAbs [] [] []) st) as T0 by (split; [intros a _; reflexivity | intros a; left; reflexivity]).
  destruct (install_plugins_sound env (attrs st) enabled shipped_plugins _ B st HB T0) as (st' & E & T & _).
  rewrite E. cbn [fst]. apply T.
  assert (existsb (String.eqb "Logger.handle") (from_option assigned [] (analyse_all shipped_plugins (mkAbs [] [] []))) = false) as H
    by (vm_compute; reflexivity).
  rewrite HB in H. cbn [from_option] in H. intros Hin. apply not_true_iff_false in H. apply H.
  apply existsb_exists. exists "Logger.handle"%string. split; [by apply list_elem_of_In | apply String.eqb_refl].
Qed.

Fixpoint wrapped_times (n : nat) (w : string) (i : impl) : impl :=
  match n with O => i | S n' => Wrap w (wrapped_times n' w i) end.

Lemma wrapped_times_layers n w i : layers (wrapped_times n w i) = (n + layers i)%nat.
Proof. induction n as [|n IH]; cbn; [done|]. by rewrite IH. Qed.

Lemma instrumented_logger env (cfg : Config) enabled n st i :
  agent_log_reporter_active cfg = true -> importable env "logging.Logger"%string = true ->
  attrs st !! "Logger.handle"%string = Some i ->
  attrs (instrumented env cfg enabled n st) !! "Logger.handle"%string = Some (wrapped_times n "sw_logging._sw_handle" i).
Proof.
  intros Ha Hm Hi. induction n as [|n IH]; cbn [instrumented wrapped_times]; [done|].
  unfold instrument. rewrite Ha.
  destruct (install_logging_runs env (mkSt (attrs (instrumented env cfg enabled n st)) ∅) _ Hm IH) as (st' & E & A).
  rewrite (bind_ok _ _ _ st' tt); [|by erewrite bind_ok by reflexivity].
  rewrite plugins_leave_logger, A. apply lookup_insert_eq.
Qed.

Lemma bootstrap_installs a : installs (bootstrapped a) = installs a.
Proof.
  unfold bootstrapped, bootstrap, init_queues, open_protocol, init_threading, mbind, M_bind, modify.
  cbn [a_config with_queues]. destruct (decide (agent_protocol (a_config a) = py "grpc")); [done|].
  destruct (decide (agent_protocol (a_config a) = py "http")); [done|].
  by destruct (decide (agent_protocol (a_config a) = py "kafka")).
Qed.

Lemma start_installs a a' :
  start_agent a = (a', Ok tt) -> installs a' = (if a_started a then installs a else S (installs a)).
Proof.
  assert (∀ b, installs (start_body b).1 = installs b) as Hb.
  { intros b. unfold start_body. do 2 (erewrite bind_ok by reflexivity).
    rewrite (bind_ok _ _ _ _ _ (bootstrap_total _)). do 2 (erewrite bind_ok by reflexivity). cbv beta.
    destruct (agent_experimental_fork_support _); unfold register_fork_hooks, modify, mret, M_ret; cbn;
      repeat match goal with |- context [if ?c then _ else _] => destruct c end; cbn;
      rewrite bootstrap_installs; reflexivity. }
  rewrite start_split. destruct (a_started a).
  - case_decide; [done|]. intros E. specialize (Hb a). by rewrite E in Hb.
  - intros E. specialize (Hb (init_instrumentation a).1). rewrite E in Hb. exact Hb.
Qed.

Lemma stop_installs envs a : installs (stop_agent envs a).1 = installs a.
Proof.
  assert (preserves (fun b => installs b = installs a) (stop_agent envs)) as H; [|by apply H].
  unfold stop_agent. apply preserves_bind; [by apply preserves_modify|]. intros _.
  apply preserves_bind; [|intros _; by apply preserves_modify].
  intros b Hb. unfold fini. erewrite bind_ok by reflexivity. cbv beta.
  destruct (negb (reporting b)); [done|]. erewrite bind_ok by reflexivity.
  destruct (protocol b); [|done]. cbv zeta.
  apply (preserves_bind (fun b => installs b = installs a)); [| |done].
  - apply preserves_for. intros k _. apply fini_queue_frame; try done. by intros [].
  - intros _. by apply preserves_modify.
Qed.

(** C17. Stopping an agent and starting it again in the same process wraps [Logger.handle] a
    second time: after the first start every log the program writes under a span is reported
    once, after the second one twice. *)
Theorem restart_duplicates_logs {AG PS} `{!AgentOps AG} `{!ProfileOps PS} (cfg : Config) pid envs a1 a2 a3
  env enabled host uuid1 format_exc sw_formatter (w0 w : World AG PS) t (handlers : M (World AG PS) unit) disabled
  (filter : M (World AG PS) bool) pass record level l s x tid rest text :
  start_agent (new_agent cfg pid) = (a1, Ok tt) -> stop_agent envs a1 = (a2, Ok tt) ->
  start_agent a2 = (a3, Ok tt) ->
  agent_log_reporter_active cfg = true -> importable env "logging.Logger"%string = true ->
  attrs host !! "Logger.handle"%string = Some (Orig "Logger.handle") ->
  handlers w0 = (w, Ok tt) -> filter w = (w, Ok pass) ->
  getLevelName (agent_log_reporter_level cfg) = Some level ->
  last (stack w t) = Some l -> w_spans w !! l = Some s -> w_ctxs w !! context s = Some x ->
  related_traces (segment x) = tid :: rest -> sent_text cfg format_exc sw_formatter record tid = Ok text ->
  reported cfg disabled pass level record = true ->
  ∃ i1 i3 d,
    attrs (instrumented env cfg enabled (installs a1) host) !! "Logger.handle"%string = Some i1 ∧
    attrs (instrumented env cfg enabled (installs a3) host) !! "Logger.handle"%string = Some i3 ∧
    call_handle cfg uuid1 format_exc sw_formatter i1 t handlers disabled filter record w0 = (w, Ok [d]) ∧
    call_handle cfg uuid1 format_exc sw_formatter i3 t handlers disabled filter record w0 = (w, Ok [d; d]).
Proof.
  intros H1 H2 H3 Ha Hm Hi Hh Hf Hlev Hl Hs Hx Hrel Ht Hrep.
  assert (installs a1 = 1%nat) as E1 by (by rewrite (start_installs _ _ H1)).
  assert (a_started a2 = false) as Hs2 by (unfold stop_agent in H2; inv_bind H2; inv_bind H2; by injection H2 as <-).
  assert (installs a3 = 2%nat) as E3.
  { rewrite (start_installs _ _ H3), Hs2, <- E1. f_equal. pose proof (stop_installs envs a1) as E. by rewrite H2 in E. }
  rewrite E1, E3. do 2 rewrite (instrumented_logger env cfg enabled _ host _ Ha Hm Hi).
  set (i1 := wrapped_times 1 _ _). set (i3 := wrapped_times 2 _ _).
  destruct (one_log_per_layer cfg uuid1 format_exc sw_formatter i1 w0 w t handlers disabled filter pass record level
    l s x tid rest text) as (d & C1 & _); [done..|].
  exists i1, i3, d. split_and!; [done | done | exact C1 |].
  change i3 with (Wrap "sw_logging._sw_handle" i1). cbn [call_handle]. rewrite (bind_ok _ _ _ _ _ C1).
  revert C1. cbn [i1 wrapped_times call_handle]. rewrite (bind_ok (_ ← handlers; mret []) _ w0 w []) by (by rewrite (bind_ok _ _ _ _ _ Hh)).
  erewrite bind_ok by (eapply sw_handle_active; [reflexivity | done..]).
  erewrite bind_ok by (eapply sw_handle_active; [reflexivity | done..]). rewrite Hrep. cbn. by intros [= <-].
Qed.

Lemma start_marks a a' : a_started a = false -> start_agent a = (a', Ok tt) -> a_started a' = true.
Proof.
  intros Hs H. rewrite start_split, Hs in H.
  destruct (start_body_running (init_instrumentation a).1) as (b & E & R). rewrite E in H. injection H as <-.
  rewrite (run_started _ _ R). reflexivity.
Qed.

(** A forked child finds the agent marked as started and does not instrument again. *)
Lemma forked_child_instrumented_once (cfg : Config) pid a1 child a2 :
  start_agent (new_agent cfg pid) = (a1, Ok tt) -> a_started child = a_started a1 -> installs child = installs a1 ->
  start_agent child = (a2, Ok tt) -> installs a2 = 1%nat.
Proof.
  intros H1 Hs Hi H2. rewrite (start_installs _ _ H2), Hs, Hi, (start_installs _ _ H1).
  by rewrite (start_marks (new_agent cfg pid) a1 eq_refl H1).
Qed.

(** ** A run *)

#[local] Instance restart_profiler : ProfileOps Service := Profile_ops default_config.

Definition demo_env : Env := mkEnv (fun _ => true) (fun _ => []) true.
Definition demo_host : St := mkSt {[ "Logger.handle"%string := Orig "Logger.handle" ]} ∅.

Lemma restart_duplicates_logs_witness :
  let a1 := (start_agent (new_agent default_config 7)).1 in
  let a3 := (start_agent (stop_agent demo_envs a1).1).1 in
  ∃ i3 d,
    attrs (instrumented demo_env default_config (fun _ => true) (installs a3) demo_host) !! "Logger.handle"%string = Some i3 ∧
    call_handle default_config demo_uuid (fun _ => []) plain_layout i3 1 (mret tt) false (mret true) demo_record busy_world =
      (busy_world, Ok [d; d]).
Proof.
  intros a1 a3.
  destruct (restart_duplicates_logs default_config 7 demo_envs a1 (stop_agent demo_envs a1).1 a3 demo_env (fun _ => true)
    demo_host demo_uuid (fun _ => []) plain_layout busy_world busy_world 1 (mret tt) false (mret true) true demo_record 30 3
    (w_spans busy_world !!! 3%nat) (w_ctxs busy_world !!! context (w_spans busy_world !!! 3%nat)) (mkID NewID (py "id1")) []
    (py "no stock")) as (i1 & i3 & d & _ & Hi3 & _ & C); [vm_compute; reflexivity..|].
  exists i3, d. split; [exact Hi3 | exact C].
Defined.
