(* ===== verification/DocGen.v ===== *)
(** * The generators of the reference documentation (tools/)

    [ConfigDoc] is tools/config_doc_gen.py: a scan of the lines of config.py that collects
    one comment per option, and the Markdown table that pairs the comments with the options
    by position.  [PluginDoc] is tools/plugin_doc_gen.py: the table of the libraries every
    plugin was tested with.  A file is its text (newlines already translated to one line
    feed, as a file opened in text mode reads); what a generator writes is the state. *)

From S2P Require Import Prelude PyData PyText Config TlsPem.

(** ** repr of a string and of a list of strings (ASCII text) *)

Definition hex_digit (d : Z) : Z := if d <? 10 then 48 + d else 87 + d.

Definition repr_char (quote c : Z) : pystr :=
  if (c =? quote) || (c =? 92) then [92; c]
  else if c =? 9 then py "\t" else if c =? 10 then py "\n" else if c =? 13 then py "\r"
  else if (c <? 32) || (c =? 127) then py "\x" ++ [hex_digit (c / 16); hex_digit (c mod 16)]
  else [c].

Definition repr_str (s : pystr) : pystr :=
  let quote := if contains 39 s && negb (contains 34 s) then 34 else 39 in
  [quote] ++ (c ← s; repr_char quote c) ++ [quote].

Definition repr_list (l : list pystr) : pystr := py "[" ++ join (py ", ") (repr_str <$> l) ++ py "]".

Module ConfigDoc.
(** ** options_with_default_value_and_type of config.py *)

(** An option is a [str], a [bool], an [int] or a list of [str]. *)
Inductive optval :=
| OStr (s : pystr)
| OBool (b : bool)
| OInt (n : Z)
| OList (l : list pystr).

(** [str(type(v))] *)
Definition type_str (v : optval) : pystr :=
  match v with
  | OStr _ => py "<class 'str'>"
  | OBool _ => py "<class 'bool'>"
  | OInt _ => py "<class 'int'>"
  | OList _ => py "<class 'list'>"
  end.

(** [str(v)] *)
Definition val_str (v : optval) : pystr :=
  match v with
  | OStr s => s
  | OBool b => if b then py "True" else py "False"
  | OInt n => str_of_int n
  | OList l => repr_list l
  end.

Definition options_with_default_value_and_type (c : Config) : list (pystr * optval) := [
  (py "agent_collector_backend_services", OStr (agent_collector_backend_services c));
  (py "agent_protocol", OStr (agent_protocol c));
  (py "agent_name", OStr (agent_name c));
  (py "agent_instance_name", OStr (agent_instance_name c));
  (py "agent_namespace", OStr (agent_namespace c));
  (py "kafka_bootstrap_servers", OStr (kafka_bootstrap_servers c));
  (py "kafka_namespace", OStr (kafka_namespace c));
  (py "kafka_topic_management", OStr (kafka_topic_management c));
  (py "kafka_topic_segment", OStr (kafka_topic_segment c));
  (py "kafka_topic_log", OStr (kafka_topic_log c));
  (py "kafka_topic_meter", OStr (kafka_topic_meter c));
  (py "kafka_reporter_custom_configurations", OStr (kafka_reporter_custom_configurations c));
  (py "agent_force_tls", OBool (agent_force_tls c));
  (py "agent_ssl_trusted_ca_path", OStr (agent_ssl_trusted_ca_path c));
  (py "agent_ssl_cert_chain_path", OStr (agent_ssl_cert_chain_path c));
  (py "agent_ssl_key_path", OStr (agent_ssl_key_path c));
  (py "agent_authentication", OStr (agent_authentication c));
  (py "agent_logging_level", OStr (agent_logging_level c));
  (py "agent_collector_heartbeat_period", OInt (agent_collector_heartbeat_period c));
  (py "agent_collector_properties_report_period_factor", OInt (agent_collector_properties_report_period_factor c));
  (py "agent_instance_properties_json", OStr (agent_instance_properties_json c));
  (py "agent_experimental_fork_support", OBool (agent_experimental_fork_support c));
  (py "agent_queue_timeout", OInt (agent_queue_timeout c));
  (py "agent_asyncio_enhancement", OBool (agent_asyncio_enhancement c));
  (py "agent_sw_python_bootstrap_propagate", OBool (agent_sw_python_bootstrap_propagate c));
  (py "agent_sw_python_cli_debug_enabled", OBool (agent_sw_python_cli_debug_enabled c));
  (py "agent_trace_reporter_max_buffer_size", OInt (agent_trace_reporter_max_buffer_size c));
  (py "agent_trace_ignore_path", OStr (agent_trace_ignore_path c));
  (py "agent_ignore_suffix", OStr (agent_ignore_suffix c));
  (py "correlation_element_max_number", OInt (correlation_element_max_number c));
  (py "correlation_value_max_length", OInt (correlation_value_max_length c));
  (py "agent_profile_active", OBool (agent_profile_active c));
  (py "agent_collector_get_profile_task_interval", OInt (agent_collector_get_profile_task_interval c));
  (py "agent_profile_max_parallel", OInt (agent_profile_max_parallel c));
  (py "agent_profile_duration", OInt (agent_profile_duration c));
  (py "agent_profile_dump_max_stack_depth", OInt (agent_profile_dump_max_stack_depth c));
  (py "agent_profile_snapshot_transport_buffer_size", OInt (agent_profile_snapshot_transport_buffer_size c));
  (py "agent_log_reporter_active", OBool (agent_log_reporter_active c));
  (py "agent_log_reporter_safe_mode", OBool (agent_log_reporter_safe_mode c));
  (py "agent_log_reporter_max_buffer_size", OInt (agent_log_reporter_max_buffer_size c));
  (py "agent_log_reporter_level", OStr (agent_log_reporter_level c));
  (py "agent_log_reporter_ignore_filter", OBool (agent_log_reporter_ignore_filter c));
  (py "agent_log_reporter_formatted", OBool (agent_log_reporter_formatted c));
  (py "agent_log_reporter_layout", OStr (agent_log_reporter_layout c));
  (py "agent_cause_exception_depth", OInt (agent_cause_exception_depth c));
  (py "agent_meter_reporter_active", OBool (agent_meter_reporter_active c));
  (py "agent_meter_reporter_max_buffer_size", OInt (agent_meter_reporter_max_buffer_size c));
  (py "agent_meter_reporter_period", OInt (agent_meter_reporter_period c));
  (py "agent_pvm_meter_reporter_active", OBool (agent_pvm_meter_reporter_active c));
  (py "agent_disable_plugins", OList (agent_disable_plugins c));
  (py "plugin_http_http_params_length_threshold", OInt (plugin_http_http_params_length_threshold c));
  (py "plugin_http_ignore_method", OStr (plugin_http_ignore_method c));
  (py "plugin_sql_parameters_max_length", OInt (plugin_sql_parameters_max_length c));
  (py "plugin_pymongo_trace_parameters", OBool (plugin_pymongo_trace_parameters c));
  (py "plugin_pymongo_parameters_max_length", OInt (plugin_pymongo_parameters_max_length c));
  (py "plugin_elasticsearch_trace_dsl", OBool (plugin_elasticsearch_trace_dsl c));
  (py "plugin_flask_collect_http_params", OBool (plugin_flask_collect_http_params c));
  (py "plugin_sanic_collect_http_params", OBool (plugin_sanic_collect_http_params c));
  (py "plugin_django_collect_http_params", OBool (plugin_django_collect_http_params c));
  (py "plugin_fastapi_collect_http_params", OBool (plugin_fastapi_collect_http_params c));
  (py "plugin_bottle_collect_http_params", OBool (plugin_bottle_collect_http_params c));
  (py "plugin_celery_parameters_length", OInt (plugin_celery_parameters_length c));
  (py "plugin_grpc_ignored_methods", OStr (plugin_grpc_ignored_methods c));
  (py "sample_n_per_3_secs", OInt (sample_n_per_3_secs c))].

(** ** comments_from_file *)

Definition PRECEDE : pystr := py "# THIS MUST PRECEDE DIRECTLY BEFORE LIST OF CONFIG OPTIONS!".
Definition FOLLOW : pystr := py "# THIS MUST FOLLOW DIRECTLY AFTER LIST OF CONFIG OPTIONS!".

(** [config_file.readlines()]: every line keeps its line feed. *)
Fixpoint readlines (s : pystr) : list pystr :=
  match s with
  | [] => []
  | c :: s' =>
      if c =? 10 then [10] :: readlines s'
      else match readlines s' with
           | l :: ls => (c :: l) :: ls
           | [] => [[c]]
           end
  end.

(** [line.lstrip('#')] and [line.lstrip('# ')] *)
Definition lstrip_hash (s : pystr) : pystr := lstrip_with (fun c => c =? 35) s.
Definition lstrip_hash_space (s : pystr) : pystr := lstrip_with (fun c => (c =? 35) || (c =? 32)) s.

(** [comments[-1].endswith('/')] *)
Definition ends_slash (s : pystr) : bool := bool_decide (last s = Some 47).

(** [comments[-1] += line.lstrip('#') if not comments[-1].endswith('/') else line.lstrip('# ')] *)
Definition extend_last (comments : list pystr) (line : pystr) : res (list pystr) :=
  match rev comments with
  | [] => Raise IndexError
  | c :: cs => mret (rev ((c ++ (if negb (ends_slash c) then lstrip_hash line else lstrip_hash_space line)) :: cs))
  end.

Fixpoint scan (comments : list pystr) (analyze comment_block_begin : bool) (lines : list pystr) : res (list pystr) :=
  match lines with
  | [] => mret comments
  | line :: lines' =>
      if startswith PRECEDE line then scan comments true comment_block_begin lines'
      else if startswith FOLLOW line then mret comments
      else if analyze && startswith (py "#") line then
        if startswith (py "# BEGIN") line then scan (comments ++ [line]) analyze false lines'
        else if comment_block_begin then
          comments' ← extend_last comments line; scan comments' analyze comment_block_begin lines'
        else scan (comments ++ [lstrip_hash_space line]) analyze true lines'
      else scan comments analyze false lines'
  end.

Definition comments_from_file (text : pystr) : res (list pystr) :=
  scan [] false false (rstrip_with isspace <$> readlines text).

(** ** The table *)

Definition DOC_HEAD : pystr := join [10] [
  py "# Supported Agent Configuration Options";
  [];
  py "Below is the full list of supported configurations you can set to";
  py "customize the agent behavior, please take some time to read the descriptions for what they can achieve.";
  [];
  py "> Usage: (Pass in intrusive setup)";
  py "```";
  py "from skywalking import config, agent";
  py "config.init(YourConfiguration=YourValue))";
  py "agent.start()";
  py "```";
  py "> Usage: (Pass by environment variables)";
  py "```";
  py "export SW_AGENT_YourConfiguration=YourValue";
  py "```";
  [];
  []].

(** [TABLE_HEAD.format(heading)] *)
Definition TABLE_HEAD (heading : pystr) : pystr := py "### " ++ heading ++ join [10] [
  [];
  py "| Configuration | Environment Variable | Type | Default Value | Description |";
  py "| :------------ | :------------ | :------------ | :------------ | :------------ |";
  []].

Definition env_var_name (config_entry : pystr) : pystr := py "SW_" ++ upper config_entry.

(** [l[i]] for an integer [i], negative ones from the end. *)
Definition py_index {A} (l : list A) (i : Z) : res A :=
  match (if i <? 0 then (if i + Z.of_nat (length l) <? 0 then None else l !! Z.to_nat (i + Z.of_nat (length l)))
         else l !! Z.to_nat i) with
  | Some a => mret a
  | None => Raise IndexError
  end.

(** One row of the table. *)
Definition row (o : pystr * optval) (comment : pystr) : pystr :=
  let default_val := if bool_decide (o.1 = py "agent_instance_name")
                     then py "str(uuid.uuid1()).replace('-', '')" else val_str o.2 in
  py "| " ++ o.1 ++ py " | " ++ env_var_name o.1 ++ py " | " ++ type_str o.2 ++ py " | " ++ default_val
    ++ py " | " ++ comment ++ py " |".

Section generator.
Context (OPTIONS : list (pystr * optval)).

Definition create_entry (comment : pystr) (config_index : Z) : res pystr :=
  o ← py_index OPTIONS config_index;
  mret (row o comment).

(** The text of the file being written is the state. *)
Definition write (s : pystr) : M pystr unit := modify (fun out => out ++ s).

Fixpoint write_table (config_index offset : Z) (comments : list pystr) : M pystr unit :=
  match comments with
  | [] => mret tt
  | comment :: comments' =>
      if startswith (py "# BEGIN") comment then
        _ ← write (TABLE_HEAD (drop 8 comment));
        write_table (config_index + 1) (offset + 1) comments'
      else
        table_entry ← lift (create_entry comment (config_index - offset));
        _ ← write (table_entry ++ [10]);
        write_table (config_index + 1) offset comments'
  end.

(** The comments are read before the output file is opened (and emptied). *)
Definition generate_markdown_table (config_py : pystr) : M pystr unit :=
  comments ← lift (comments_from_file config_py);
  _ ← modify (fun _ => []);
  _ ← write DOC_HEAD;
  write_table 0 0 comments.

Definition config_env_var_verify (config_py : pystr) : res unit :=
  let data := List.filter (fun c => negb (c =? 10)) config_py in
  (fix each (l : list (pystr * optval)) : res unit :=
     match l with
     | [] => mret tt
     | (k, _) :: l' => match find (py "_" ++ upper k) data with
                       | None => Raise OtherException
                       | Some _ => each l'
                       end
     end) OPTIONS.

(** The script. *)
Definition main (config_py : pystr) : M pystr unit :=
  _ ← generate_markdown_table config_py;
  lift (config_env_var_verify config_py).
End generator.
End ConfigDoc.

Module PluginDoc.
(** What the generator reads of a plugin module; [None]: the attribute is missing.  A table of
    versions lists, for every library, the versions tested per Python version. *)
Record Plugin := mkPlugin {
  modname : pystr;
  support_matrix : option (list (pystr * list (pystr * list pystr)));
  link_vector : option (list pystr);
  note : option pystr
}.

Definition doc_head : pystr := join [10] [
  py "# Supported Libraries";
  py "This document is **automatically** generated from the SkyWalking Python testing matrix.";
  [];
  py "The column of versions only indicates the set of library versions tested in a best-effort manner.";
  [];
  py "If you find newer major versions that are missing from the following table, and it's not documented as a limitation,";
  py "please PR to update the test matrix in the plugin.";
  [];
  py "Versions marked as NOT SUPPORTED may be due to";
  py "an incompatible version with Python in the original library";
  py "or a limitation of SkyWalking auto-instrumentation (welcome to contribute!)";
  [];
  []].
Definition table_head : pystr := join [10] [
  py "### Plugin Support Table";
  py "| Library | Python Version - Lib Version | Plugin Name |";
  py "| :--- | :--- | :--- |";
  []].

Definition pretty_version (v : pystr * list pystr) : pystr :=
  py "Python " ++ v.1 ++ py " " ++ py "- "
    ++ (match v.2 with [] => py "NOT SUPPORTED YET" | _ => repr_list v.2 end) ++ py "; ".

Definition table_entry (modname : pystr) (lib : pystr * list (pystr * list pystr)) (link : pystr) : pystr :=
  py "| [" ++ lib.1 ++ py "](" ++ link ++ py ") | " ++ (v ← lib.2; pretty_version v) ++ py " | `" ++ modname
    ++ py "` |".

(** The attributes are read in this order: a note is kept only if the three are there. *)
Definition read_plugin (p : Plugin) : res (list pystr * list pystr) :=
  match support_matrix p, link_vector p, note p with
  | Some matrix, Some links, Some n =>
      mret (zip_with (fun lib link => table_entry (modname p) lib link) matrix links,
            if bool_decide (n = []) then [] else [n])
  | _, _, _ => Raise AttributeError
  end.

Fixpoint collect (plugins : list Plugin) : res (list pystr * list pystr) :=
  match plugins with
  | [] => mret ([], [])
  | p :: ps =>
      en ← read_plugin p;
      ens ← collect ps;
      mret (en.1 ++ ens.1, en.2 ++ ens.2)
  end.

(** The state is the text of Plugins.md, opened for writing once every plugin was read. *)
Definition generate_plugin_doc (plugins : list Plugin) : M pystr unit :=
  ens ← lift (collect plugins);
  modify (fun _ => doc_head ++ table_head ++ (e ← ens.1; e ++ [10]) ++ py "### Notes" ++ [10]
                     ++ (n ← ens.2; py "- " ++ n ++ [10])).
End PluginDoc.

(** ** The layout of config.py the table relies on *)

Module ConfigLayout.
Import ConfigDoc.

(** An option: the lines of its comment, without their "# ", and the lines of its code. *)
Record Entry := mkEntry { first_text : pystr; more_text : list pystr; code : list pystr }.

(** A section: what follows "# BEGIN:", and its options. *)
Record Part := mkPart { heading : pystr; entries : list Entry }.

(** A line of text of a comment: its "# " is all that [lstrip] takes away, and [rstrip] takes
    nothing; it is not one of the lines with a meaning of their own. *)
Definition text_ok (t : pystr) : Prop :=
  rstrip_with isspace t = t ∧ (10 ∉ t) ∧ (∃ c t', t = c :: t' ∧ c ≠ 35 ∧ c ≠ 32)
  ∧ startswith (drop 2 PRECEDE) t = false ∧ startswith (drop 2 FOLLOW) t = false
  ∧ startswith (py "BEGIN") t = false.

(** A line of code, or an empty line. *)
Definition code_ok (l : pystr) : Prop := head l ≠ Some 35 ∧ 10 ∉ l.

(** A heading is the rest of its line. *)
Definition heading_ok (h : pystr) : Prop := rstrip_with isspace (58 :: h) = 58 :: h ∧ 10 ∉ h.

Definition entry_ok (e : Entry) : Prop :=
  text_ok (first_text e) ∧ Forall text_ok (more_text e) ∧ code e ≠ [] ∧ Forall code_ok (code e).
Definition part_ok (p : Part) : Prop := heading_ok (heading p) ∧ Forall entry_ok (entries p).

Definition comment_line (t : pystr) : pystr := py "# " ++ t.
Definition entry_lines (e : Entry) : list pystr := (comment_line <$> (first_text e :: more_text e)) ++ code e.
Definition part_lines (p : Part) : list pystr :=
  (py "# BEGIN:" ++ heading p) :: (e ← entries p; entry_lines e).

(** The file: what precedes the first marker, the sections, the second marker and the rest. *)
Definition layout (before : list pystr) (parts : list Part) (after : list pystr) : pystr :=
  l ← (before ++ [PRECEDE] ++ (p ← parts; part_lines p) ++ [FOLLOW] ++ after); l ++ [10].

(** The comment of an option: its lines with a space between them, except after a slash (an
    address broken over two lines). *)
Definition joined (e : Entry) : pystr :=
  fold_left (fun c t => c ++ (if ends_slash c then t else [32] ++ t)) (more_text e) (first_text e).

(** The tables: the options in order, each with the comment that stands above it. *)
Fixpoint rows (opts : list (pystr * optval)) (es : list Entry) : pystr :=
  match opts, es with
  | o :: opts', e :: es' => row o (joined e) ++ [10] ++ rows opts' es'
  | _, _ => []
  end.
Fixpoint tables (opts : list (pystr * optval)) (parts : list Part) : pystr :=
  match parts with
  | [] => []
  | p :: ps => TABLE_HEAD (heading p) ++ rows opts (entries p) ++ tables (drop (length (entries p)) opts) ps
  end.

Definition part_comments (p : Part) : list pystr := (py "# BEGIN:" ++ heading p) :: (joined <$> entries p).

(** *** Lines *)

Lemma readlines_line l rest : 10 ∉ l -> readlines (l ++ [10] ++ rest) = (l ++ [10]) :: readlines rest.
Proof.
  induction l as [|c l IH]; intros H; [done|]. cbn [app readlines].
  apply not_elem_of_cons in H as [Hc Hl]. rewrite (proj2 (Z.eqb_neq c 10)) by done.
  change (l ++ 10 :: rest) with (l ++ [10] ++ rest). by rewrite IH.
Qed.

Lemma readlines_lines (ls : list pystr) :
  Forall (fun l => 10 ∉ l) ls -> readlines (l ← ls; l ++ [10]) = (fun l => l ++ [10]) <$> ls.
Proof.
  induction 1 as [|l ls Hl _ IH]; [done|]. rewrite bind_cons, <- app_assoc, readlines_line by done.
  by rewrite IH.
Qed.

Lemma rstrip_newline l : rstrip_with isspace (l ++ [10]) = rstrip_with isspace l.
Proof. unfold rstrip_with. by rewrite rev_app_distr. Qed.

Lemma lstrip_app_last f s c : f c = false -> ∃ s', lstrip_with f (s ++ [c]) = s' ++ [c].
Proof.
  intros Hc. induction s as [|d s IH]; cbn; [rewrite Hc; by exists []|].
  destruct (f d); [done|]. by exists (d :: s).
Qed.

(** Stripping the end of a line keeps its beginning, unless the line is blank. *)
Lemma rstrip_cons c s : isspace c = false -> ∃ s', rstrip_with isspace (c :: s) = c :: s'.
Proof.
  intros Hc. unfold rstrip_with. cbn [rev]. destruct (lstrip_app_last isspace (rev s) c Hc) as [s' ->].
  exists (rev s'). by rewrite rev_app_distr.
Qed.

Lemma lstrip_prefix f s : ∃ p, s = p ++ lstrip_with f s.
Proof.
  induction s as [|c s [p IH]]; [by exists []|]. cbn. destruct (f c); [|by exists []].
  exists (c :: p). cbn. by f_equal.
Qed.

Lemma rstrip_suffix s : ∃ p, s = rstrip_with isspace s ++ p.
Proof.
  destruct (lstrip_prefix isspace (rev s)) as [p Hp]. exists (rev p). unfold rstrip_with.
  by rewrite <- rev_app_distr, <- Hp, rev_involutive.
Qed.

(** A prefix that does not end in a space hides what is stripped after it. *)
Lemma rstrip_app p t : rstrip_with isspace t = t -> t ≠ [] -> rstrip_with isspace (p ++ t) = p ++ t.
Proof.
  intros Ht Hn. unfold rstrip_with in *. rewrite rev_app_distr.
  apply (f_equal (@rev Z)) in Ht. rewrite rev_involutive in Ht.
  assert (rev t ≠ []) as Hr by (intros E; apply Hn; by rewrite <- (rev_involutive t), E).
  destruct (rev t) as [|c s] eqn:E; [done|]. cbn [lstrip_with app] in *. destruct (isspace c).
  - destruct (lstrip_prefix isspace s) as [q Hq]. apply (f_equal length) in Ht, Hq.
    rewrite length_app in Hq. cbn in Ht. lia.
  - change (c :: s ++ rev p) with ((c :: s) ++ rev p).
    by rewrite <- E, <- rev_app_distr, rev_involutive.
Qed.

(** *** The layout is decidable *)

Definition text_okb (t : pystr) : bool :=
  bool_decide (rstrip_with isspace t = t) && negb (contains 10 t)
  && (match t with c :: _ => negb (c =? 35) && negb (c =? 32) | [] => false end)
  && negb (startswith (drop 2 PRECEDE) t) && negb (startswith (drop 2 FOLLOW) t)
  && negb (startswith (py "BEGIN") t).
Definition code_okb (l : pystr) : bool := negb (bool_decide (head l = Some 35)) && negb (contains 10 l).
Definition part_okb (p : Part) : bool :=
  bool_decide (rstrip_with isspace (58 :: heading p) = 58 :: heading p) && negb (contains 10 (heading p))
  && forallb (fun e => text_okb (first_text e) && forallb text_okb (more_text e)
       && negb (bool_decide (code e = [])) && forallb code_okb (code e)) (entries p).

Lemma no_lf s : negb (contains 10 s) = true -> 10 ∉ s.
Proof.
  intros H%negb_true_iff Hin. apply not_true_iff_false in H. apply H. apply existsb_exists. exists 10.
  split; [by apply list_elem_of_In | done].
Qed.

Lemma forallb_impl {A} (f : A -> bool) (P : A -> Prop) l :
  (∀ x, f x = true -> P x) -> forallb f l = true -> Forall P l.
Proof.
  intros H Hl. apply Forall_forall. intros x Hx. apply H. rewrite forallb_forall in Hl. by apply Hl, list_elem_of_In.
Qed.

Lemma text_okb_ok t : text_okb t = true -> text_ok t.
Proof.
  unfold text_okb. intros H. repeat (apply andb_true_iff in H as [H ?]).
  apply bool_decide_eq_true_1 in H. unfold text_ok.
  repeat match goal with E : negb (startswith _ _) = true |- _ => apply negb_true_iff in E end.
  split; [exact H|]. split; [apply no_lf; assumption|]. split; [|auto].
  destruct t as [|c t]; [done|]. exists c, t. split; [reflexivity|]. lia.
Qed.

Lemma code_okb_ok l : code_okb l = true -> code_ok l.
Proof.
  unfold code_okb. rewrite andb_true_iff. intros [H1%negb_true_iff H2].
  split; [by apply bool_decide_eq_false_1 in H1 | by apply no_lf].
Qed.

Lemma part_okb_ok p : part_okb p = true -> part_ok p.
Proof.
  unfold part_okb. rewrite !andb_true_iff. intros [[H1 H2] H3].
  split; [split; [by apply bool_decide_eq_true_1 in H1 | by apply no_lf]|].
  eapply forallb_impl; [|exact H3]. intros e. cbn beta. rewrite !andb_true_iff. intros [[[Ha Hb] Hc] Hd].
  split; [by apply text_okb_ok|]. split; [eapply forallb_impl; [apply text_okb_ok | done]|].
  split; [apply negb_true_iff in Hc; by apply bool_decide_eq_false_1 in Hc|].
  eapply forallb_impl; [apply code_okb_ok | done].
Qed.

(** *** The scan *)

Lemma code_skipped cs b l rest :
  code_ok l -> scan cs true b (rstrip_with isspace l :: rest) = scan cs true false rest.
Proof.
  intros [Hh _]. destruct (rstrip_suffix l) as [p Hp]. destruct (rstrip_with isspace l) as [|c l'].
  - reflexivity.
  - assert (c ≠ 35) as Hc by (intros ->; apply Hh; by rewrite Hp).
    assert (∀ q, startswith (35 :: q) (c :: l') = false) as Hs.
    { intros q. cbn [startswith]. by rewrite (proj2 (Z.eqb_neq 35 c)). }
    cbn [scan]. change PRECEDE with (35 :: tail PRECEDE). change FOLLOW with (35 :: tail FOLLOW).
    change (py "#") with [35]. by rewrite !Hs.
Qed.

Lemma codes_skipped b ls : ∀ cs rest,
  Forall code_ok ls ->
  scan cs true b ((rstrip_with isspace <$> ls) ++ rest) = scan cs true (b && bool_decide (ls = [])) rest.
Proof.
  revert b. induction ls as [|l ls IH]; intros b cs rest H.
  - cbn. by rewrite andb_true_r.
  - inversion_clear H. rewrite fmap_cons. cbn [app]. rewrite code_skipped, IH by done. by rewrite andb_false_r.
Qed.

Lemma text_stripped t : text_ok t -> rstrip_with isspace (comment_line t) = comment_line t.
Proof. intros (Ht & _ & (c & t' & -> & _) & _). by apply rstrip_app. Qed.

Lemma texts_stripped ts :
  Forall text_ok ts -> rstrip_with isspace <$> (comment_line <$> ts) = comment_line <$> ts.
Proof. induction 1 as [|t ts Ht _ IH]; [done|]. rewrite !fmap_cons, text_stripped, IH; done. Qed.

Lemma lstrip_comment t : text_ok t -> lstrip_hash_space (comment_line t) = t ∧ lstrip_hash (comment_line t) = [32] ++ t.
Proof.
  intros (_ & _ & (c & t' & -> & H35 & H32) & _). split; [|done]. unfold lstrip_hash_space. cbn -[Z.eqb].
  by rewrite (proj2 (Z.eqb_neq c 35)), (proj2 (Z.eqb_neq c 32)) by done.
Qed.

(** A line of a comment is none of the special lines. *)
Lemma scan_comment cs b t rest :
  text_ok t ->
  scan cs true b (comment_line t :: rest) =
    (if b then cs' ← extend_last cs (comment_line t); scan cs' true b rest else scan (cs ++ [t]) true true rest).
Proof.
  intros Ht. pose proof (lstrip_comment t Ht) as [E _]. destruct Ht as (_ & _ & _ & Hp & Hf & Hb).
  cbn [scan]. change (startswith PRECEDE (comment_line t)) with (startswith (drop 2 PRECEDE) t).
  change (startswith FOLLOW (comment_line t)) with (startswith (drop 2 FOLLOW) t).
  change (startswith (py "# BEGIN") (comment_line t)) with (startswith (py "BEGIN") t).
  rewrite Hp, Hf, Hb, E. by destruct b.
Qed.

Lemma extend_last_text cs c t :
  text_ok t -> extend_last (cs ++ [c]) (comment_line t) = Ok (cs ++ [c ++ (if ends_slash c then t else [32] ++ t)]).
Proof.
  intros Ht. unfold extend_last. rewrite rev_app_distr. cbn [rev app].
  destruct (lstrip_comment t Ht) as [-> ->]. rewrite rev_involutive. by destruct (ends_slash c).
Qed.

Lemma scan_more ts : ∀ cs c rest,
  Forall text_ok ts ->
  scan (cs ++ [c]) true true ((comment_line <$> ts) ++ rest) =
    scan (cs ++ [fold_left (fun c t => c ++ (if ends_slash c then t else [32] ++ t)) ts c]) true true rest.
Proof.
  induction ts as [|t ts IH]; intros cs c rest H; [done|]. inversion_clear H. rewrite fmap_cons. cbn [app].
  rewrite scan_comment by done. rewrite extend_last_text by done. cbn [mbind res_bind]. by apply IH.
Qed.

Lemma scan_entry e cs rest :
  entry_ok e ->
  scan cs true false ((rstrip_with isspace <$> entry_lines e) ++ rest) = scan (cs ++ [joined e]) true false rest.
Proof.
  intros (H1 & Hm & Hn & Hc). unfold entry_lines.
  rewrite fmap_app, texts_stripped by (by constructor). rewrite fmap_cons, <- app_assoc. cbn [app].
  rewrite scan_comment by done. cbv iota. rewrite scan_more by done.
  rewrite codes_skipped by done. by rewrite bool_decide_eq_false_2.
Qed.

Lemma scan_part p cs b rest :
  part_ok p ->
  scan cs true b ((rstrip_with isspace <$> part_lines p) ++ rest) = scan (cs ++ part_comments p) true false rest.
Proof.
  intros [[Hh _] He]. unfold part_lines, part_comments. rewrite fmap_cons. cbn [app].
  assert (rstrip_with isspace (py "# BEGIN:" ++ heading p) = py "# BEGIN:" ++ heading p) as ->.
  { change (py "# BEGIN:" ++ heading p) with (py "# BEGIN" ++ 58 :: heading p). by apply rstrip_app. }
  transitivity (scan (cs ++ [py "# BEGIN:" ++ heading p]) true false
                  ((rstrip_with isspace <$> (e ← entries p; entry_lines e)) ++ rest)); [reflexivity|].
  change (cs ++ ?x :: (joined <$> entries p)) with (cs ++ [x] ++ (joined <$> entries p)).
  rewrite (assoc_L (++)). generalize (cs ++ [py "# BEGIN:" ++ heading p]) as cs0. clear Hh.
  induction He as [|e es He _ IH]; intros cs0; [by rewrite app_nil_r|].
  rewrite bind_cons, fmap_app, <- app_assoc, scan_entry, IH by done. by rewrite fmap_cons, <- app_assoc.
Qed.

Lemma scan_parts parts : ∀ cs b rest,
  Forall part_ok parts ->
  scan cs true b ((rstrip_with isspace <$> (p ← parts; part_lines p)) ++ FOLLOW :: rest) =
    Ok (cs ++ (p ← parts; part_comments p)).
Proof.
  induction parts as [|p ps IH]; intros cs b rest H; [cbn; by rewrite app_nil_r|]. inversion_clear H.
  rewrite bind_cons, fmap_app, <- app_assoc, scan_part, IH by done. by rewrite bind_cons, <- app_assoc.
Qed.

(** Before the first marker, lines that are not a marker leave nothing behind. *)
Definition before_ok (l : pystr) : Prop :=
  startswith PRECEDE (rstrip_with isspace l) = false ∧ startswith FOLLOW (rstrip_with isspace l) = false ∧ 10 ∉ l.

Lemma scan_before ls rest :
  Forall before_ok ls -> scan [] false false ((rstrip_with isspace <$> ls) ++ rest) = scan [] false false rest.
Proof. induction 1 as [|l ls (Hp & Hf & _) _ IH]; [done|]. rewrite fmap_cons. cbn [app scan]. by rewrite Hp, Hf. Qed.

Lemma parts_one_line parts : Forall part_ok parts -> Forall (fun l : pystr => 10 ∉ l) (p ← parts; part_lines p).
Proof.
  assert (∀ t, text_ok t -> 10 ∉ comment_line t) as Ht.
  { intros t (_ & H & _). unfold comment_line. apply not_elem_of_app. split; [by apply no_lf | done]. }
  induction 1 as [|p ps [[_ Hh] He] _ IH]; [constructor|]. rewrite bind_cons. apply Forall_app. split; [|done].
  constructor; [apply not_elem_of_app; split; [by apply no_lf | done]|].
  induction He as [|e es (H1 & Hm & _ & Hc) _ IH2]; [constructor|]. rewrite bind_cons. apply Forall_app.
  split; [|done]. unfold entry_lines. apply Forall_app. split.
  - apply Forall_fmap. constructor; [by apply Ht|]. eapply Forall_impl; [exact Hm | done].
  - eapply Forall_impl; [exact Hc|]. by intros l [_ H].
Qed.

Lemma comments_of_layout before parts after :
  Forall before_ok before -> Forall part_ok parts -> Forall (fun l => 10 ∉ l) after ->
  comments_from_file (layout before parts after) = Ok (p ← parts; part_comments p).
Proof.
  intros Hb Hp Ha. unfold comments_from_file, layout. rewrite readlines_lines.
  - rewrite <- list_fmap_compose.
    rewrite (list_fmap_ext (rstrip_with isspace ∘ (fun l => l ++ [10])) (rstrip_with isspace))
      by (intros i l _; apply rstrip_newline).
    rewrite fmap_app, scan_before by done. rewrite !fmap_app.
    change ((rstrip_with isspace <$> [FOLLOW]) ++ ?r) with (FOLLOW :: r).
    transitivity (scan [] true false ((rstrip_with isspace <$> (p ← parts; part_lines p)) ++
                    FOLLOW :: (rstrip_with isspace <$> after))); [reflexivity|]. by rewrite scan_parts.
  - apply Forall_app. split; [eapply Forall_impl; [exact Hb | by intros l (_ & _ & H)]|].
    apply Forall_app. split; [repeat constructor; by apply no_lf|].
    apply Forall_app. split; [|constructor; [by apply no_lf | done]].
    by apply parts_one_line.
Qed.

(** *** The table *)

Lemma joined_no_heading e : entry_ok e -> startswith (py "# BEGIN") (joined e) = false.
Proof.
  intros ((_ & _ & (c & t & E & Hc & _) & _) & _). unfold joined. rewrite E.
  assert (∀ ts c0, ∃ t0, fold_left (fun c t => c ++ (if ends_slash c then t else [32] ++ t)) ts (c :: c0) = c :: t0) as H.
  { induction ts as [|t0 ts IH]; intros c0; [by eexists|]. cbn [fold_left app]. apply IH. }
  destruct (H (more_text e) t) as [t0 ->]. change (py "# BEGIN") with (35 :: py " BEGIN"). cbn [startswith].
  by rewrite (proj2 (Z.eqb_neq 35 c)).
Qed.

Section table.
Context (OPTIONS : list (pystr * optval)).

Lemma create_entry_at comment k o :
  OPTIONS !! k = Some o -> create_entry OPTIONS comment (Z.of_nat k) = Ok (row o comment).
Proof.
  intros H. unfold create_entry, py_index. rewrite (proj2 (Z.ltb_ge (Z.of_nat k) 0)) by lia.
  by rewrite Nat2Z.id, H.
Qed.

Lemma write_entries es : ∀ ci off k rest out,
  Forall entry_ok es -> ci - off = Z.of_nat k -> (k + length es <= length OPTIONS)%nat ->
  write_table OPTIONS ci off ((joined <$> es) ++ rest) out =
    write_table OPTIONS (ci + Z.of_nat (length es)) off rest (out ++ rows (drop k OPTIONS) es).
Proof.
  induction es as [|e es IH]; intros ci off k rest out H Hk Hlen.
  - cbn. rewrite Z.add_0_r. destruct (drop k OPTIONS); cbn; by rewrite app_nil_r.
  - inversion_clear H. cbn [length] in Hlen. rewrite fmap_cons. cbn [app write_table].
    destruct (lookup_lt_is_Some_2 OPTIONS k) as [o Ho]; [lia|].
    rewrite joined_no_heading, Hk, (create_entry_at _ _ _ Ho) by done.
    transitivity (write_table OPTIONS (ci + 1) off ((joined <$> es) ++ rest) (out ++ row o (joined e) ++ [10]));
      [reflexivity|].
    rewrite (IH (ci + 1) off (S k)) by (done || lia). rewrite (drop_S _ _ _ Ho). cbn [rows length].
    rewrite <- !app_assoc. f_equal. lia.
Qed.

Definition options_needed (parts : list Part) : nat := length (p ← parts; entries p).

Lemma write_parts parts : ∀ ci off k out,
  Forall part_ok parts -> ci - off = Z.of_nat k -> (k + options_needed parts <= length OPTIONS)%nat ->
  write_table OPTIONS ci off (p ← parts; part_comments p) out = (out ++ tables (drop k OPTIONS) parts, Ok tt).
Proof.
  induction parts as [|p ps IH]; intros ci off k out H Hk Hlen; [cbn; by rewrite app_nil_r|].
  inversion_clear H as [|?? [Hh He] Hps]. unfold options_needed in *.
  rewrite bind_cons, length_app in Hlen. rewrite bind_cons.
  unfold part_comments at 1. cbn [app].
  transitivity (write_table OPTIONS (ci + 1) (off + 1) ((joined <$> entries p) ++ (p ← ps; part_comments p))
                  (out ++ TABLE_HEAD (heading p))); [reflexivity|].
  rewrite (write_entries _ _ _ k) by (done || lia).
  rewrite (IH _ _ (k + length (entries p))%nat) by (done || lia). cbn [tables].
  by rewrite drop_drop, <- !app_assoc.
Qed.

(** The configuration table pairs every option with the comment that stands above it: for a
    config.py laid out in sections of commented options, with as many comments as there are
    options, the generator writes its head and, section by section, one row per option, in
    order, with the lines of its own comment joined; no index is out of range and what the
    file held before is gone. *)
Theorem config_table_rows before parts after out :
  Forall before_ok before -> Forall part_ok parts -> Forall (fun l => 10 ∉ l) after ->
  options_needed parts = length OPTIONS ->
  generate_markdown_table OPTIONS (layout before parts after) out = (DOC_HEAD ++ tables OPTIONS parts, Ok tt).
Proof.
  intros Hb Hp Ha Hn. unfold generate_markdown_table. rewrite comments_of_layout by done.
  transitivity (write_table OPTIONS 0 0 (p ← parts; part_comments p) ([] ++ DOC_HEAD)); [reflexivity|].
  rewrite (write_parts parts 0 0 0%nat) by (done || lia). by rewrite drop_0.
Qed.
End table.
End ConfigLayout.

(** ** The check of the environment variables *)

Lemma find_occurs p s : p ≠ [] -> (∃ a b, s = a ++ p ++ b) <-> ∃ i, find p s = Some i.
Proof.
  intros Hp. split.
  - intros (a & b & ->). induction a as [|c a [i IH]]; [exists 0%nat; cbn [app]; apply find_here|]. cbn [app find].
    destruct (startswith p (c :: a ++ p ++ b)); [by eexists|]. rewrite IH. by eexists.
  - intros [i Hi]. destruct (find_Some p s i Hi) as (b & Hd & _). exists (take i s), b. by rewrite <- Hd, take_drop.
Qed.

(** The check passes exactly when the name of every option's variable occurs in the file,
    line breaks aside. *)
Theorem verify_complete OPTIONS config_py :
  ConfigDoc.config_env_var_verify OPTIONS config_py = Ok tt <->
  ∀ k v, (k, v) ∈ OPTIONS ->
    ∃ a b, List.filter (fun c => negb (c =? 10)) config_py = a ++ (py "_" ++ upper k) ++ b.
Proof.
  unfold ConfigDoc.config_env_var_verify. generalize (List.filter (fun c => negb (c =? 10)) config_py) as data.
  intros data. induction OPTIONS as [|[k v] opts IH]; [split; [intros _ ?? H; by apply elem_of_nil in H | done]|].
  assert (py "_" ++ upper k ≠ []) as Hn by done. pose proof (find_occurs _ data Hn) as Hf.
  destruct (find (py "_" ++ upper k) data) as [i|].
  - rewrite IH. split; intros H k' v' Hin; [|apply (H k' v'); by right].
    apply elem_of_cons in Hin as [[= -> ->]|Hin]; [apply Hf; by exists i | by apply (H k' v')].
  - split; [done|]. intros H. destruct (proj1 Hf (H k v ltac:(left))) as [i Hi]. done.
Qed.

(** ** A file with two sections *)

Definition demo_options : list (pystr * ConfigDoc.optval) :=
  take 3 (ConfigDoc.options_with_default_value_and_type default_config).
Definition demo_parts : list ConfigLayout.Part := [
  ConfigLayout.mkPart (py " Agent") [
    ConfigLayout.mkEntry (py "The address, see https://a/") [py "b for details"] [py "agent_collector_backend_services = 1"; []];
    ConfigLayout.mkEntry (py "The protocol:") [py "grpc or http"] [py "agent_protocol = 2"]];
  ConfigLayout.mkPart (py " Names") [ConfigLayout.mkEntry (py "The name") [] [py "agent_name = 3"]]].

Lemma config_table_rows_witness :
  ConfigDoc.generate_markdown_table demo_options (ConfigLayout.layout [py "import os"] demo_parts [[]]) (py "old") =
    (ConfigDoc.DOC_HEAD ++ ConfigLayout.tables demo_options demo_parts, Ok tt)
  ∧ ConfigLayout.rows demo_options (ConfigLayout.entries (ConfigLayout.mkPart [] [
      ConfigLayout.mkEntry (py "The address, see https://a/") [py "b for details"] []])) =
    py "| agent_collector_backend_services | SW_AGENT_COLLECTOR_BACKEND_SERVICES | <class 'str'> | oap_host:oap_port | The address, see https://a/b for details |" ++ [10].
Proof.
  split; [|vm_compute; reflexivity].
  apply (ConfigLayout.config_table_rows demo_options [py "import os"] demo_parts [[]] (py "old")).
  - constructor; [|constructor]. split; [vm_compute; reflexivity|]. split; [vm_compute; reflexivity|].
    apply ConfigLayout.no_lf. vm_compute. reflexivity.
  - apply Forall_forall. intros p Hp. apply ConfigLayout.part_okb_ok. revert p Hp. apply Forall_forall.
    repeat (apply Forall_cons_2; [vm_compute; reflexivity|]). apply Forall_nil_2.
  - constructor; [apply ConfigLayout.no_lf; vm_compute; reflexivity | constructor].
  - reflexivity.
Defined.
