(* ===== verification/PluginMatrix.v ===== *)
(** * The tables of supported libraries of the plugins (plugins/sw_*.py)

    Every plugin module declares which versions of its libraries were tested under which
    Python version, a link per library and a note.  Here are the tables of all the plugins
    of the repository, in the order [pkgutil.iter_modules] finds them, and what the
    generator of tools/plugin_doc_gen.py makes of them. *)

From S2P Require Import Prelude PyData PyText DocGen.
Import PluginDoc.

Definition sw_aiohttp : Plugin := mkPlugin (py "sw_aiohttp")
  (Some [
    (py "aiohttp", [
     (py ">=3.10", [py "3.9.*"; py "3.11.*"])])])
  (Some [py "https://docs.aiohttp.org"])
  (Some ([])).

Definition sw_aioredis : Plugin := mkPlugin (py "sw_aioredis")
  (Some [
    (py "aioredis", [
     (py ">=3.7", [py "2.0.*"])])])
  (Some [py "https://aioredis.readthedocs.io/"])
  (Some ([])).

Definition sw_aiormq : Plugin := mkPlugin (py "sw_aiormq")
  (Some [
    (py "aiormq", [
     (py ">=3.7", [py "6.3"; py "6.4"])])])
  (Some [py "https://pypi.org/project/aiormq/"])
  (Some ([])).

Definition sw_amqp : Plugin := mkPlugin (py "sw_amqp")
  (Some [
    (py "amqp", [
     (py ">=3.7", [py "2.6.1"])])])
  (Some [py "https://pypi.org/project/amqp/"])
  (Some ([])).

Definition sw_asyncpg : Plugin := mkPlugin (py "sw_asyncpg")
  (Some [
    (py "asyncpg", [
     (py ">=3.7", [py "0.25.0"])])])
  (Some [py "https://github.com/MagicStack/asyncpg"])
  (Some ([])).

Definition sw_bottle : Plugin := mkPlugin (py "sw_bottle")
  (Some [
    (py "bottle", [
     (py ">=3.13", [py "0.13"]);
     (py ">=3.10", [py "0.12.23"])])])
  (Some [py "http://bottlepy.org/docs/dev/"])
  (Some ([])).

Definition sw_celery : Plugin := mkPlugin (py "sw_celery")
  (Some [
    (py "celery", [
     (py ">=3.7", [py "5.1"])])])
  (Some [py "https://docs.celeryq.dev"])
  (Some (join [10] [
    py "The celery server running with " ++ [34] ++ py "celery -A ..." ++ [34] ++ py " should be run with the HTTP protocol";
    py "as it uses multiprocessing by default which is not compatible with the gRPC protocol implementation";
    py "in SkyWalking currently. Celery clients can use whatever protocol they want."])).

Definition sw_confluent_kafka : Plugin := mkPlugin (py "sw_confluent_kafka")
  (Some [
    (py "confluent_kafka", [
     (py ">=3.7", [py "1.5.0"; py "1.7.0"; py "1.8.2"])])])
  (Some [py "https://www.confluent.io/"])
  (Some ([])).

Definition sw_django : Plugin := mkPlugin (py "sw_django")
  (Some [
    (py "django", [
     (py ">=3.13", [py "5.1"]);
     (py ">=3.10", [py "3.2"])])])
  (Some [py "https://www.djangoproject.com/"])
  (Some ([])).

Definition sw_elasticsearch : Plugin := mkPlugin (py "sw_elasticsearch")
  (Some [
    (py "elasticsearch", [
     (py ">=3.7", [py "7.13"; py "7.14"; py "7.15"])])])
  (Some [py "https://github.com/elastic/elasticsearch-py"])
  (Some ([])).

Definition sw_falcon : Plugin := mkPlugin (py "sw_falcon")
  (Some [
    (py "hug", [
     (py ">=3.11", []);
     (py ">=3.10", [py "2.5"; py "2.6"]);
     (py ">=3.7", [py "2.4.1"; py "2.5"; py "2.6"])])])
  (Some [py "https://falcon.readthedocs.io/en/stable/"])
  (Some (join [10] [
    py "While Falcon is instrumented, only Hug is tested.";
    py "Hug is believed to be abandoned project, use this plugin with a bit more caution.";
    py "Instead of Hug, plugin test should move to test actual Falcon."])).

Definition sw_falcon_v3 : Plugin := mkPlugin (py "sw_falcon_v3")
  (Some [
    (py "falcon", [
     (py ">=3.13", [py "4.*"]);
     (py ">=3.10", [py "3.1.*"; py "4.*"])])])
  (Some [py "https://falcon.readthedocs.io/en/stable/"])
  (Some (py "Falcon 3.x/4.x plugin. For legacy hug-based instrumentation, see sw_falcon.")).

Definition sw_fastapi : Plugin := mkPlugin (py "sw_fastapi")
  (Some [
    (py "fastapi", [
     (py ">=3.7", [py "0.89.*"; py "0.88.*"])])])
  (Some [py "https://fastapi.tiangolo.com"])
  (Some ([])).

Definition sw_flask : Plugin := mkPlugin (py "sw_flask")
  (Some [
    (py "flask", [
     (py ">=3.14", [py "3.0"]);
     (py ">=3.10", [py "2.0"])])])
  (Some [py "https://flask.palletsprojects.com"])
  (Some ([])).

Definition sw_grpc : Plugin := mkPlugin (py "sw_grpc")
  (Some [
    (py "grpcio", [
     (py ">=3.8", [py "1.*"])])])
  (Some [py "https://grpc.io/docs/languages/python"])
  (Some (join [10] [
    py "The agent package itself depends on grpcio >= 1.83, which is therefore the";
    py "effective minimum version of the instrumented library as well."])).

Definition sw_happybase : Plugin := mkPlugin (py "sw_happybase")
  (Some [
    (py "happybase", [
     (py ">=3.12", [py "1.3.0"]);
     (py ">=3.10", [py "1.2.0"])])])
  (Some [py "https://happybase.readthedocs.io"])
  (Some ([])).

Definition sw_http_server : Plugin := mkPlugin (py "sw_http_server")
  (Some [
    (py "http_server", [
     (py ">=3.7", [py "*"])]);
    (py "werkzeug", [
     (py ">=3.7", [py "1.0.1"; py "2.0"])])])
  (Some [py "https://docs.python.org/3/library/http.server.html"; py "https://werkzeug.palletsprojects.com/"])
  (Some ([])).

Definition sw_httpx : Plugin := mkPlugin (py "sw_httpx")
  (Some [
    (py "httpx", [
     (py ">=3.14", [py "0.28.*"; py "0.23.*"]);
     (py ">=3.13", [py "0.23.*"]);
     (py ">=3.10", [py "0.23.*"; py "0.22.*"])])])
  (Some [py "https://www.python-httpx.org/"])
  (Some ([])).

Definition sw_kafka : Plugin := mkPlugin (py "sw_kafka")
  (Some [
    (py "kafka-python", [
     (py ">=3.12", [py "2.3"]);
     (py ">=3.10", [py "2.0"])])])
  (Some [py "https://kafka-python.readthedocs.io"])
  (Some ([])).

Definition sw_loguru : Plugin := mkPlugin (py "sw_loguru")
  (Some [
    (py "loguru", [
     (py ">=3.7", [py "0.6.0"; py "0.7.0"])])])
  (Some [py "https://pypi.org/project/loguru/"])
  (Some ([])).

Definition sw_mysqlclient : Plugin := mkPlugin (py "sw_mysqlclient")
  (Some [
    (py "mysqlclient", [
     (py ">=3.7", [py "2.1.*"])])])
  (Some [py "https://mysqlclient.readthedocs.io/"])
  (Some ([])).

Definition sw_neo4j : Plugin := mkPlugin (py "sw_neo4j")
  (Some [
    (py "neo4j", [
     (py ">=3.7", [py "5.*"])])])
  (Some [py "https://neo4j.com/docs/python-manual/5/"])
  (Some (join [10] [
    py "The Neo4j plugin integrates neo4j python driver 5.x.x versions which";
    py "support both Neo4j 5 and 4.4 DBMS."])).

Definition sw_psycopg : Plugin := mkPlugin (py "sw_psycopg")
  (Some [
    (py "psycopg[binary]", [
     (py ">=3.13", [py "3.2.*"]);
     (py ">=3.11", [py "3.1.*"]);
     (py ">=3.10", [py "3.0.18"; py "3.1.*"])])])
  (Some [py "https://www.psycopg.org/"])
  (Some ([])).

Definition sw_psycopg2 : Plugin := mkPlugin (py "sw_psycopg2")
  (Some [
    (py "psycopg2-binary", [
     (py ">=3.10", [py "2.9.*"])])])
  (Some [py "https://www.psycopg.org/"])
  (Some ([])).

Definition sw_pulsar : Plugin := mkPlugin (py "sw_pulsar")
  (Some [
    (py "pulsar-client", [
     (py ">=3.12", [py "3.9.0"]);
     (py ">=3.10", [py "3.3.0"])])])
  (Some [py "https://github.com/apache/pulsar-client-python"])
  (Some ([])).

Definition sw_pymongo : Plugin := mkPlugin (py "sw_pymongo")
  (Some [
    (py "pymongo", [
     (py ">=3.7", [py "3.11.*"])])])
  (Some [py "https://pymongo.readthedocs.io"])
  (Some ([])).

Definition sw_pymysql : Plugin := mkPlugin (py "sw_pymysql")
  (Some [
    (py "pymysql", [
     (py ">=3.7", [py "1.0"])])])
  (Some [py "https://pymysql.readthedocs.io/en/latest/"])
  (Some ([])).

Definition sw_pyramid : Plugin := mkPlugin (py "sw_pyramid")
  (Some [
    (py "pyramid", [
     (py ">=3.12", [py "2.1"]);
     (py ">=3.10", [py "1.10"; py "2.0"])])])
  (Some [py "https://trypyramid.com"])
  (Some ([])).

Definition sw_rabbitmq : Plugin := mkPlugin (py "sw_rabbitmq")
  (Some [
    (py "pika", [
     (py ">=3.7", [py "1.2"])])])
  (Some [py "https://pika.readthedocs.io"])
  (Some ([])).

Definition sw_redis : Plugin := mkPlugin (py "sw_redis")
  (Some [
    (py "redis", [
     (py ">=3.7", [py "3.5.*"; py "4.5.1"])])])
  (Some [py "https://github.com/andymccurdy/redis-py/"])
  (Some ([])).

Definition sw_requests : Plugin := mkPlugin (py "sw_requests")
  (Some [
    (py "requests", [
     (py ">=3.7", [py "2.26"; py "2.25"])])])
  (Some [py "https://requests.readthedocs.io/en/master/"])
  (Some ([])).

Definition sw_sanic : Plugin := mkPlugin (py "sw_sanic")
  (Some [
    (py "sanic", [
     (py ">=3.10", []);
     (py ">=3.7", [py "20.12"])])])
  (Some [py "https://sanic.readthedocs.io/en/latest"])
  (Some ([])).

Definition sw_sanic_v2 : Plugin := mkPlugin (py "sw_sanic_v2")
  (Some [
    (py "sanic", [
     (py ">=3.14", [py "24.12.*"]);
     (py ">=3.10", [py "23.12.*"; py "24.12.*"])])])
  (Some [py "https://sanic.readthedocs.io/en/latest"])
  (Some (join [10] [
    py "Sanic 21.9+ plugin using signal listeners.";
    py "For legacy Sanic <=21.3, see sw_sanic.";
    py "Note: Sanic's touchup system recompiles handle_request at startup,";
    py "so we use signal listeners instead of monkey-patching handle_request."])).

Definition sw_tornado : Plugin := mkPlugin (py "sw_tornado")
  (Some [
    (py "tornado", [
     (py ">=3.14", [py "6.4"]);
     (py ">=3.10", [py "6.0"; py "6.1"])])])
  (Some [py "https://www.tornadoweb.org"])
  (Some ([])).

Definition sw_urllib3 : Plugin := mkPlugin (py "sw_urllib3")
  (Some [
    (py "urllib3", [
     (py ">=3.12", []);
     (py ">=3.10", [py "1.26"; py "1.25"])])])
  (Some [py "https://urllib3.readthedocs.io/en/latest/"])
  (Some (py "urllib3 1.x plugin. For urllib3 2.x, see sw_urllib3_v2.")).

Definition sw_urllib3_v2 : Plugin := mkPlugin (py "sw_urllib3_v2")
  (Some [
    (py "urllib3", [
     (py ">=3.12", [py "2.3"; py "2.0"])])])
  (Some [py "https://urllib3.readthedocs.io/en/latest/"])
  (Some (py "urllib3 2.x plugin. For urllib3 1.x, see sw_urllib3.")).

Definition sw_urllib_request : Plugin := mkPlugin (py "sw_urllib_request")
  (Some [
    (py "urllib_request", [
     (py ">=3.7", [py "*"])])])
  (Some [py "https://docs.python.org/3/library/urllib.request.html"])
  (Some ([])).

Definition sw_websockets : Plugin := mkPlugin (py "sw_websockets")
  (Some [
    (py "websockets", [
     (py ">=3.11", [py "10.3"; py "10.4"; py "13.1"; py "17.0.1"]);
     (py ">=3.7", [py "10.3"; py "10.4"; py "13.1"])])])
  (Some [py "https://websockets.readthedocs.io"])
  (Some (join [10] [
    py "Both the legacy (websockets.legacy, websockets <= 13) and the new asyncio";
    py "(websockets.asyncio, websockets >= 13) client implementations are instrumented.";
    py "The websocket instrumentation only traces client side connection handshake,";
    py "the actual message exchange (send/recv) is not traced since injecting headers to socket message";
    py "body is the only way to propagate the trace context, which requires customization of message structure";
    py "and extreme care. (Feel free to add this feature by instrumenting the send/recv methods commented out in the code";
    py "by either injecting sw8 headers or propagate the trace context in a separate message)";
    []])).

Definition shipped : list Plugin := [
  sw_aiohttp; sw_aioredis; sw_aiormq; sw_amqp; sw_asyncpg; sw_bottle; sw_celery; sw_confluent_kafka; sw_django; sw_elasticsearch; sw_falcon; sw_falcon_v3; sw_fastapi; sw_flask; sw_grpc; sw_happybase; sw_http_server; sw_httpx; sw_kafka; sw_loguru; sw_mysqlclient; sw_neo4j; sw_psycopg; sw_psycopg2; sw_pulsar; sw_pymongo; sw_pymysql; sw_pyramid; sw_rabbitmq; sw_redis; sw_requests; sw_sanic; sw_sanic_v2; sw_tornado; sw_urllib3; sw_urllib3_v2; sw_urllib_request; sw_websockets].

(** ** What the generator makes of them *)

(** A plugin with its three attributes, and a link for every library. *)
Definition documented (p : Plugin) : Prop :=
  ∃ matrix links n, support_matrix p = Some matrix ∧ link_vector p = Some links ∧ note p = Some n
    ∧ length links = length matrix.

(** The rows of a plugin: one per library of its table. *)
Definition plugin_rows (p : Plugin) : list pystr :=
  imap (fun i lib => table_entry (modname p) lib (default [] (default [] (link_vector p) !! i)))
    (default [] (support_matrix p)).
Definition plugin_notes (p : Plugin) : list pystr :=
  List.filter (fun n => negb (bool_decide (n = []))) [default [] (note p)].

Lemma zip_with_imap {A B} (f : A -> pystr -> B) (l : list A) : ∀ k : list pystr,
  length k = length l -> zip_with f l k = imap (fun i a => f a (default [] (k !! i))) l.
Proof.
  revert f. induction l as [|a l IH]; intros f [|b k] H; try done.
  cbn. f_equal. rewrite IH by (cbn in H; lia). by apply imap_ext.
Qed.

Lemma read_plugin_documented p : documented p -> read_plugin p = Ok (plugin_rows p, plugin_notes p).
Proof.
  intros (matrix & links & n & Hm & Hl & Hn & Hlen). unfold read_plugin, plugin_rows, plugin_notes.
  rewrite Hm, Hl, Hn. cbn [default]. rewrite zip_with_imap by done. by destruct n.
Qed.

Lemma rows_flat (f : Plugin -> list pystr) (g : pystr -> pystr) plugins :
  (r ← (p ← plugins; f p); g r) = (p ← plugins; r ← f p; g r).
Proof.
  induction plugins as [|p ps IH]; [done|]. rewrite !bind_cons, bind_app. by f_equal.
Qed.

(** The table of the plugins has one row per library of every plugin, in the order of the
    modules and of each plugin's table, with that library's own link, followed by the notes. *)
Theorem plugin_table_rows plugins out :
  Forall documented plugins ->
  generate_plugin_doc plugins out =
    (doc_head ++ table_head ++ (p ← plugins; r ← plugin_rows p; r ++ [10]) ++ py "### Notes" ++ [10]
       ++ (p ← plugins; n ← plugin_notes p; py "- " ++ n ++ [10]), Ok tt).
Proof.
  intros H. unfold generate_plugin_doc.
  assert (collect plugins = Ok ((p ← plugins; plugin_rows p), (p ← plugins; plugin_notes p))) as ->.
  { induction H as [|p ps Hp _ IH]; [done|]. cbn [collect]. by rewrite read_plugin_documented, IH. }
  unfold lift. erewrite bind_ok by reflexivity. cbn [fst snd]. unfold modify. by rewrite !rows_flat.
Qed.

(** A plugin that lacks one of them stops the generator before anything is written. *)
Lemma plugin_table_missing plugins p out :
  p ∈ plugins -> support_matrix p = None ∨ link_vector p = None ∨ note p = None ->
  generate_plugin_doc plugins out = (out, Raise AttributeError).
Proof.
  intros Hin Hp. unfold generate_plugin_doc. assert (collect plugins = Raise AttributeError) as ->; [|done].
  assert (∀ q, read_plugin q = Raise AttributeError ∨ ∃ r, read_plugin q = Ok r) as Hr.
  { intros q. unfold read_plugin. destruct (support_matrix q), (link_vector q), (note q); eauto. }
  induction plugins as [|q ps IH]; [by apply elem_of_nil in Hin|]. cbn [collect].
  apply elem_of_cons in Hin as [<-|Hin].
  - assert (read_plugin p = Raise AttributeError) as ->; [|done]. unfold read_plugin.
    destruct Hp as [-> | [-> | ->]]; [done | by destruct (support_matrix p) |].
    by destruct (support_matrix p), (link_vector p).
  - destruct (Hr q) as [-> | [r ->]]; [done|]. cbn. by rewrite IH.
Qed.

(** The plugins of the repository are all documented, so none of their libraries is missing
    from the table. *)
Lemma shipped_documented : Forall documented shipped.
Proof.
  repeat (apply Forall_cons_2; [eexists _, _, _; split_and!; reflexivity|]). apply Forall_nil_2.
Qed.

Lemma plugin_table_rows_witness :
  (generate_plugin_doc shipped []).2 = Ok tt ∧ length (p ← shipped; plugin_rows p) = 39%nat.
Proof. split; [|vm_compute; reflexivity]. rewrite (plugin_table_rows shipped []); [reflexivity | exact shipped_documented]. Defined.
