(* ===== verification/CodeGen.v ===== *)
(** * The generator of the protocol code (tools/grpc_code_gen.py)

    protoc writes modules that import each other by absolute names; the script makes these
    imports relative and turns the directories into packages.  The files below the working
    directory are the state; protoc and the expansion of a glob pattern are arguments. *)

From S2P Require Import Prelude PyData PyText TlsPem.

Definition dest_dir : pystr := py "skywalking/protocol".
Definition src_dir : pystr := py "protocol".

Record FS := mkFS { dirs : gset pystr; files : gmap pystr pystr }.

(** [open(filename, 'a').close()] *)
Definition touch (filename : pystr) : M FS unit :=
  modify (fun fs => match files fs !! filename with
                    | Some _ => fs
                    | None => mkFS (dirs fs) (<[filename := []]> (files fs))
                    end).

(** [os.path.dirname(p)] for a relative path, and [os.path.join(d, n)] for a name. *)
Definition dirname (p : pystr) : pystr :=
  rev (tail (drop (length (rev p) - length (lstrip_with (fun c => negb (c =? 47)) (rev p))) (rev p))).
Definition path_join (d n : pystr) : pystr := match d with [] => n | _ => d ++ py "/" ++ n end.

(** ** The substitution in the generated modules

    It looks for "from", a first group of one or more characters, a blank and a second group:
    "import", one or more characters, "_pb2" and the rest of the line.  No group spans a line.  In a line, the first "from " whose rest is a match gets the dots;
    the match is the whole rest of the line, so nothing else in the line is replaced. *)

(** [s] has "_pb2" after its first character. *)
Definition pb2_after (s : pystr) : bool :=
  match s with
  | [] => false
  | _ :: s' => match find (py "_pb2") s' with Some _ => true | None => false end
  end.

(** [s] has, somewhere, a blank and the second group. *)
Fixpoint import_after (s : pystr) : bool :=
  (startswith (py " import ") s && pb2_after (drop 8 s))
  || match s with [] => false | _ :: s' => import_after s' end.

(** [s] matches the two groups with the blank between them. *)
Definition from_matches (s : pystr) : bool := match s with [] => false | _ :: s' => import_after s' end.

Fixpoint relative_line (s : pystr) : pystr :=
  match s with
  | [] => []
  | c :: s' =>
      if startswith (py "from ") s && from_matches (drop 5 s) then py "from .." ++ drop 5 s
      else c :: relative_line s'
  end.

Definition relative_imports (code : pystr) : pystr := join [10] (relative_line <$> split_on 10 code).

Section codegen.
(** [version.parse(grpc_tools_version) >= version.parse('1.49.0')], [protoc.main], and
    [glob.iglob] on the files there are. *)
Context (writes_pyi : bool) (protoc_main : list pystr -> M FS unit) (iglob : pystr -> FS -> list pystr).

Definition protoc_args (protos : list pystr) : list pystr :=
  [py "grpc_tools.protoc"; py "--proto_path=" ++ src_dir; py "--python_out=" ++ dest_dir;
   py "--grpc_python_out=" ++ dest_dir]
  ++ (if writes_pyi then [py "--pyi_out=" ++ dest_dir] else []) ++ protos.

(** The body of the loop over the generated modules; opening a file that is not there raises. *)
Definition fix_module (py_file : pystr) : M FS unit :=
  _ ← touch (path_join (dirname py_file) (py "__init__.py"));
  fs ← get_st;
  match files fs !! py_file with
  | None => raise OSError
  | Some code => modify (fun fs => mkFS (dirs fs) (<[py_file := relative_imports code]> (files fs)))
  end.

Definition codegen : M FS unit :=
  fs ← get_st;
  _ ← (if bool_decide (dest_dir ∈ dirs fs) then mret tt
       else modify (fun fs => mkFS ({[dest_dir]} ∪ dirs fs) (files fs)));
  _ ← touch (path_join dest_dir (py "__init__.py"));
  fs1 ← get_st;
  _ ← protoc_main (protoc_args (iglob (src_dir ++ py "/**/*.proto") fs1));
  fs2 ← get_st;
  for_each (iglob (path_join dest_dir (py "**/*.py")) fs2) fix_module.
End codegen.

(** ** Import lines *)

Lemma pb2_after_intro c m r : pb2_after (c :: m ++ py "_pb2" ++ r) = true.
Proof.
  unfold pb2_after. assert (∃ i, find (py "_pb2") (m ++ py "_pb2" ++ r) = Some i) as [i ->]; [|done].
  induction m as [|d m [i IH]]; [exists 0%nat; cbn [app]; apply find_here|]. cbn [app find].
  destruct (startswith (py "_pb2") (d :: m ++ py "_pb2" ++ r)); [by eexists|]. rewrite IH. by eexists.
Qed.

Lemma import_after_intro p c m r : import_after (p ++ py " import " ++ c :: m ++ py "_pb2" ++ r) = true.
Proof.
  induction p as [|d p IH].
  - cbn [app]. change (import_after (py " import " ++ c :: m ++ py "_pb2" ++ r)) with
      ((startswith (py " import ") (py " import " ++ c :: m ++ py "_pb2" ++ r) && pb2_after (c :: m ++ py "_pb2" ++ r))
        || import_after (drop 1 (py " import " ++ c :: m ++ py "_pb2" ++ r))).
    by rewrite startswith_app, pb2_after_intro.
  - cbn [app import_after]. by rewrite IH, orb_true_r.
Qed.

(** An import of a generated module becomes relative to the package above. *)
Lemma relative_line_import p0 p c m r :
  relative_line (py "from " ++ (p0 :: p) ++ py " import " ++ c :: m ++ py "_pb2" ++ r) =
    py "from .." ++ (p0 :: p) ++ py " import " ++ c :: m ++ py "_pb2" ++ r.
Proof.
  set (t := (p0 :: p) ++ py " import " ++ c :: m ++ py "_pb2" ++ r).
  change (relative_line (py "from " ++ t)) with
    (if startswith (py "from ") (py "from " ++ t) && from_matches t then py "from .." ++ t
     else 102 :: relative_line (py "rom " ++ t)).
  rewrite startswith_app. unfold t, from_matches. cbn [app andb]. by rewrite import_after_intro.
Qed.

(** A line without "_pb2" stays as it is. *)
Lemma find_later p s n : find p s = None -> find p (drop n s) = None.
Proof.
  revert s. induction n as [|n IH]; intros [|c s] H; try done. cbn [drop]. apply IH. cbn [find] in H.
  destruct (startswith p (c :: s)); [done|]. by destruct (find p s).
Qed.

Lemma import_after_none s : find (py "_pb2") s = None -> import_after s = false.
Proof.
  induction s as [|c s IH]; intros H; [done|]. cbn [import_after]. apply orb_false_iff. split.
  - apply andb_false_iff. right. unfold pb2_after. destruct (drop 8 (c :: s)) as [|d t] eqn:E; [done|].
    assert (find (py "_pb2") t = None) as ->; [|done].
    replace t with (drop 9 (c :: s)); [by apply find_later|].
    change 9%nat with (8 + 1)%nat. by rewrite <- drop_drop, E.
  - apply IH. apply (find_later _ _ 1 H).
Qed.

Lemma relative_line_other s : find (py "_pb2") s = None -> relative_line s = s.
Proof.
  induction s as [|c s IH]; intros H; [done|]. cbn [relative_line].
  assert (from_matches (drop 5 (c :: s)) = false) as ->.
  { unfold from_matches. destruct (drop 5 (c :: s)) as [|d t] eqn:E; [done|]. apply import_after_none.
    replace t with (drop 6 (c :: s)); [by apply find_later|].
    change 6%nat with (5 + 1)%nat. by rewrite <- drop_drop, E. }
  rewrite andb_false_r, IH; [done|]. apply (find_later _ _ 1 H).
Qed.

(** ** The script *)

Section run.
Context (writes_pyi : bool) (protoc_main : list pystr -> M FS unit) (iglob : pystr -> FS -> list pystr).

Definition init_of (f : pystr) : pystr := path_join (dirname f) (py "__init__.py").

(** What the loop makes of the files. *)
Definition fixed (fs : gmap pystr pystr) (l : list pystr) (g : pystr) : option pystr :=
  match fs !! g with
  | Some code => Some (if bool_decide (g ∈ l) then relative_imports code else code)
  | None => if bool_decide (g ∈ init_of <$> l) then Some [] else None
  end.

Lemma fix_module_runs f code fs :
  files fs !! f = Some code ->
  ∃ fs', fix_module f fs = (fs', Ok tt) ∧ ∀ g, files fs' !! g = fixed (files fs) [f] g.
Proof.
  intros Hf. unfold fix_module, touch. erewrite bind_ok by reflexivity. cbv beta.
  fold (init_of f). unfold get_st. erewrite bind_ok by reflexivity. cbv beta.
  assert (∀ g, fixed (files fs) [f] g = if bool_decide (g = f) then Some (relative_imports code)
                else match files fs !! g with Some x => Some x
                     | None => if bool_decide (g = init_of f) then Some [] else None end) as Hx.
  { intros g. unfold fixed. destruct (decide (g = f)) as [->|Hn].
    - rewrite Hf, !bool_decide_eq_true_2; [done | done | left].
    - rewrite !(bool_decide_eq_false_2 (g = f)) by done.
      assert (g ∉ [f]) as Hl by (intros ->%list_elem_of_singleton; done).
      rewrite (bool_decide_eq_false_2 _ Hl). destruct (files fs !! g); [done|].
      destruct (decide (g = init_of f)) as [->|H]; [rewrite !bool_decide_eq_true_2; [done | done | left] |].
      rewrite !bool_decide_eq_false_2; [done | done |]. by intros ->%list_elem_of_singleton. }
  destruct (files fs !! init_of f) as [x|] eqn:Hi.
  - rewrite Hf. eexists. split; [reflexivity|]. intros g. cbn [files]. rewrite Hx.
    destruct (decide (g = f)) as [->|Hn]; [by rewrite lookup_insert_eq, bool_decide_eq_true_2|].
    rewrite lookup_insert_ne, bool_decide_eq_false_2 by done. destruct (files fs !! g) eqn:Hg; [done|].
    rewrite bool_decide_eq_false_2; [done|]. intros ->. by rewrite Hg in Hi.
  - cbn [files]. rewrite lookup_insert_ne by (intros E; by rewrite E, Hf in Hi). rewrite Hf.
    eexists. split; [reflexivity|]. intros g. cbn [files]. rewrite Hx.
    destruct (decide (g = f)) as [->|Hn]; [by rewrite lookup_insert_eq, bool_decide_eq_true_2|].
    rewrite lookup_insert_ne, (bool_decide_eq_false_2 (g = f)) by done.
    destruct (decide (g = init_of f)) as [->|H]; [by rewrite lookup_insert_eq, Hi, bool_decide_eq_true_2|].
    rewrite lookup_insert_ne, bool_decide_eq_false_2 by done. by destruct (files fs !! g).
Qed.

Lemma fix_modules_run l : ∀ fs,
  NoDup l -> (∀ f, f ∈ l -> is_Some (files fs !! f)) ->
  ∃ fs', for_each l fix_module fs = (fs', Ok tt) ∧ ∀ g, files fs' !! g = fixed (files fs) l g.
Proof.
  induction l as [|f l IH]; intros fs Hd Hl.
  - exists fs. split; [done|]. intros g. unfold fixed. by destruct (files fs !! g).
  - apply NoDup_cons in Hd as [Hf Hd]. destruct (Hl f ltac:(left)) as [code Hc].
    destruct (fix_module_runs f code fs Hc) as (fs1 & E1 & H1).
    destruct (IH fs1 Hd) as (fs2 & E2 & H2).
    { intros g Hg. rewrite H1. unfold fixed. destruct (Hl g ltac:(by right)) as [x ->]. by eexists. }
    exists fs2. split; [cbn [for_each]; by erewrite bind_ok by exact E1|].
    intros g. rewrite H2. unfold fixed at 1. rewrite H1. unfold fixed.
    rewrite (bool_decide_ext (g ∈ f :: l) (g = f ∨ g ∈ l)) by apply elem_of_cons.
    rewrite (fmap_cons init_of f l), (bool_decide_ext (g ∈ init_of f :: (init_of <$> l)) (g = init_of f ∨ g ∈ init_of <$> l)) by apply elem_of_cons.
    rewrite (bool_decide_ext (g ∈ [f]) (g = f)), (bool_decide_ext (g ∈ init_of <$> [f]) (g = init_of f))
      by apply list_elem_of_singleton.
    destruct (files fs !! g) as [x|] eqn:Hg.
    + destruct (decide (g = f)) as [->|Hn].
      * rewrite (bool_decide_eq_true_2 (f = f)), (bool_decide_eq_true_2 (f = f ∨ _)) by auto.
        by rewrite bool_decide_eq_false_2.
      * rewrite (bool_decide_eq_false_2 (g = f)) by done.
        by rewrite (bool_decide_ext (g = f ∨ g ∈ l) (g ∈ l)) by naive_solver.
    + assert (g ∉ l) as Hgl by (intros Hi; destruct (Hl g ltac:(by right)) as [x Hx]; congruence).
      destruct (decide (g = init_of f)) as [->|Hn].
      * rewrite (bool_decide_eq_true_2 (init_of f = init_of f)), (bool_decide_eq_true_2 (_ ∨ _)) by auto.
        by rewrite (bool_decide_eq_false_2 _ Hgl).
      * rewrite (bool_decide_eq_false_2 (g = init_of f)) by done.
        by rewrite (bool_decide_ext (g = init_of f ∨ g ∈ init_of <$> l) (g ∈ init_of <$> l)) by naive_solver.
Qed.

(** After a successful run of protoc, generating the code makes the imports of every module
    it found relative, makes a package of every directory that holds one, and leaves the
    other files as protoc wrote them. *)
Theorem codegen_packages fs fs1 protos :
  protos = iglob (src_dir ++ py "/**/*.proto")
    (touch (path_join dest_dir (py "__init__.py")) (mkFS ({[dest_dir]} ∪ dirs fs) (files fs))).1 ->
  protoc_main (protoc_args writes_pyi protos)
    (touch (path_join dest_dir (py "__init__.py")) (mkFS ({[dest_dir]} ∪ dirs fs) (files fs))).1 = (fs1, Ok tt) ->
  NoDup (iglob (path_join dest_dir (py "**/*.py")) fs1) ->
  (∀ f, f ∈ iglob (path_join dest_dir (py "**/*.py")) fs1 -> is_Some (files fs1 !! f)) ->
  ∃ fs', codegen writes_pyi protoc_main iglob fs = (fs', Ok tt)
    ∧ ∀ g, files fs' !! g = fixed (files fs1) (iglob (path_join dest_dir (py "**/*.py")) fs1) g.
Proof.
  intros -> Hp Hd Hl. destruct (fix_modules_run _ fs1 Hd Hl) as (fs2 & E2 & H2). exists fs2. split; [|done].
  rewrite <- E2. unfold codegen, get_st. erewrite bind_ok by reflexivity. cbv beta.
  assert ((if bool_decide (dest_dir ∈ dirs fs) then mret tt
           else modify (fun fs => mkFS ({[dest_dir]} ∪ dirs fs) (files fs))) fs
          = (mkFS ({[dest_dir]} ∪ dirs fs) (files fs), Ok tt)) as E.
  { destruct (bool_decide_reflect (dest_dir ∈ dirs fs)) as [Hin|]; [|done]. unfold_m.
    replace ({[dest_dir]} ∪ dirs fs) with (dirs fs) by set_solver. by destruct fs. }
  rewrite (bind_ok _ _ _ _ _ E). erewrite bind_ok by reflexivity. cbv beta. erewrite bind_ok by reflexivity.
  rewrite (bind_ok _ _ _ _ _ Hp). by erewrite bind_ok by reflexivity.
Qed.
End run.

(** ** A run: one proto file, two generated modules *)

Definition demo_iglob (pattern : pystr) (fs : FS) : list pystr :=
  if bool_decide (pattern = src_dir ++ py "/**/*.proto") then [py "protocol/common/Common.proto"]
  else [py "skywalking/protocol/common/Common_pb2.py"].
Definition demo_protoc (args : list pystr) : M FS unit :=
  modify (fun fs => mkFS (dirs fs) (<[py "skywalking/protocol/common/Common_pb2.py" :=
    join [10] [py "import os"; py "from common import Command_pb2 as c"]]> (files fs))).

Lemma codegen_packages_witness :
  ∃ fs', codegen true demo_protoc demo_iglob (mkFS ∅ ∅) = (fs', Ok tt)
    ∧ files fs' !! py "skywalking/protocol/common/Common_pb2.py" =
        Some (join [10] [py "import os"; py "from ..common import Command_pb2 as c"])
    ∧ files fs' !! py "skywalking/protocol/common/__init__.py" = Some [].
Proof.
  destruct (codegen_packages true demo_protoc demo_iglob (mkFS ∅ ∅)
    (demo_protoc [] (touch (path_join dest_dir (py "__init__.py")) (mkFS ({[dest_dir]} ∪ ∅) ∅)).1).1
    [py "protocol/common/Common.proto"]) as (fs' & E & H).
  - reflexivity.
  - reflexivity.
  - vm_compute. apply NoDup_singleton.
  - intros f Hf. vm_compute in Hf. apply list_elem_of_singleton in Hf as ->. vm_compute. eexists. reflexivity.
  - exists fs'. split; [exact E|]. rewrite !H. split; vm_compute; reflexivity.
Defined.
